(* ===== verification/_CoqProject ===== *)
-Q . S2P
Prelude.v
Bytes.v
MemLib.v
StrLib.v
Console.v
Machine.v
Pmm.v
Vmm.v
Pages.v
VmmInit.v
VmmAccess.v
Kheap.v
Slab.v
Spinlock.v
Printf.v
Assert.v
Kmem.v
Errno.v
SchedState.v
Sched.v
Queue.v
Mutex.v
Threads.v
ThreadSpec.v
Scheduler.v
Fairness.v
Stubs.v
SwitchAsm.v
SyscallAsm.v
Process.v
ProcessSpec.v
Collector.v
ProcTable.v
HashTable.v
Vnode.v
Vfs.v
VfsSpec.v
Ports.v
Timer.v
Descriptors.v
Interrupts.v
Preempt.v
Font.v
Vterm.v
Boot.v
BootTasks.v
BootMemory.v
Syscalls.v
Layout.v
Crt.v
Headers.v
