(* ===== verification/Prelude.v ===== *)
(** * GoshkikOS: a verification development of the kernel

    GoshkikOS is a hobby kernel for x86-64, started by the Limine loader:
    physical and virtual memory, a heap and a slab allocator, threads,
    processes and a priority scheduler, a virtual file system without file
    systems, and drivers for the interrupt controller, timer, keyboard, serial
    port and a framebuffer terminal.  This library translates its C functions
    (under src/src of the repository; paths below leave that prefix out) into
    executable definitions and proves what they do, errors included.

    ** How the model reads

    A kernel function is a function [K S A := S -> outcome]: it returns a value
    in a new state ([Ret]) or stops ([Stop]) because it called [hcf], spins on
    a lock, gave the processor away with [int 0x20], faulted, or ran out of the
    model's fuel.  Loops are [kloop] (with fuel), [kfor] and [for_up].  Machine
    integers are [Z] with explicit wrapping ([u8] ... [u64], [s32]).  A comment
    in front of a definition names the C lines it translates.  Components see
    each other through type classes, and each is proved against the class of
    the ones below it: [BMem] (bytes of a memory), [Console] (messages), [Cpu]
    and [slens] (interrupt flag, spinlocks), [Pages] (mapped pages), [Kmem]
    (dynamic memory), [PortIO] (device ports), [HasClock].

    ** Files and what they model

    Foundations.  Prelude: outcomes, the monad, loops, integers, tactics.
    Bytes: byte memories and little-endian accesses.  Machine: physical memory,
    CR3, the memory map (limine.h).  Spinlock: scheduling/spinlock.h, asm.h.
    Console: kok.c, kerror.c, [hcf].  Errno: errno.h and its messages.

    C library (klibc).  MemLib: mem.c.  StrLib: string.c.  Printf: printf.c.
    Assert: assert.c.  HashTable: hashtable.c.

    Memory (arch/x86_64/mem, klibc/kmem).  Pmm: mmu.c and pmm.c, against the
    set of free frames.  Vmm: vmm.c, four-level tables in physical memory,
    against a finite map of tables and the processor's translation.  VmmInit:
    the kernel's own address space after [init_vmm].  VmmAccess: what a program
    in ring 3 may touch.  Pages: the interface
    [Pages] and its implementation by Vmm and Pmm.  Kheap: kheap.c, against a
    list of block sizes and free flags.  Slab: slab.c on the heap.  Kmem: the
    interface to clients that keep typed objects.

    Scheduling.  SchedState: thread.h, process.h, mutex.h, kernel.h and the
    globals.  Sched: ready queue, mutexes, blocking (scheduler.c, mutex.c,
    thread.c).  Queue: the linked lists as Rocq lists.  Mutex: ownership and
    hand-over.  Threads: thread.c, [scheduler_tick], context_switch.asm.
    Process: process.c.  Scheduler: one tick.  Fairness: any number of ticks.
    ThreadSpec: creation and waking of threads.  ProcessSpec: exit, termination
    and waiting.  Collector: [clean_up].  ProcTable: the process table.

    Assembly.  Stubs: isr.asm, on a processor's registers and the words of its
    memory.  SwitchAsm: context_switch.asm.  SyscallAsm: syscall.asm and the
    inline calls of sysroot's syscall.h.  Crt: the start files under crt, which
    programs are linked with and the loader of the kernel bypasses.

    Files (fs/vfs).  Vnode: vnode.c and the vnode cache.  Vfs: vfs.c and
    path.c.  VfsSpec: their theorems.

    Devices and processor.  Ports: io.h, pic.c, pit.c, ps2.c, kbd.c, serial.c.
    Timer: timer.c.  Descriptors: gdt.c, idt.c, syscall.c.  Interrupts: irq.c,
    isr.c.  Font and Vterm: font.c, vterm.c.

    The whole.  Boot: main.c on the state of all components, which share one
    heap, console and interrupt flag.  BootMemory: the memory managers brought
    up in the order of [kmain].  BootTasks: the first processes and threads.
    Preempt: a timer interrupt through isr.asm, irq.c, timer.c, scheduler.c and
    [iretq].  Syscalls: a system call through syscall.asm and syscall.c.
    Layout: [sizeof] and [offsetof] of the headers' structures, the loader's
    included.  Headers: stdint.h, elf.h, sys/wait.h and sys/stat.h of sysroot.

    ** What the theorems show

    - Memory: [vmm_map], [vmm_unmap] and [vmm_resolve] change and compute the
      processor's translation exactly, keeping the tables well formed; address
      spaces share the kernel half, and no sequence of mappings ever opens the
      other half to ring 3; the frame allocator refines a set of free
      frames; [init_pmm] and [init_vmm] set up what they promise; [kmalloc] and
      [kfree] are first fit and coalescing on well-formed block lists, with
      every other byte untouched; [init_memory_ready] composes them.
    - Scheduling: the ready queue refines a duplicate-free list; a tick chooses
      the first thread of the rotated queue whose cooldown is over; over any
      number of ticks no thread is lost and none starves; creating a thread
      does what it should or undoes everything; a zombie is reaped; terminated
      threads are collected, and no others.
    - Assembly: a C handler sees the interrupted registers, the processor goes
      on with the context the handler leaves, [context_switch] does what the
      scheduler's model takes it to do, and a system call's arguments and
      result arrive.  Put together, a timer interrupt saves the registers of
      one thread in its [thread_t] and goes on with those of the next, and
      every system call is refused.
    - Structures: the layout rules give aligned, disjoint fields, and the sizes
      and offsets the other files use are those of the declarations.
    - Hash tables refine finite maps; slabs give and take back objects; vnode
      reference counts free exactly the chain that nobody holds; mounting and
      looking up paths agree.
    - Text: formatted output matches a specification of each conversion; the
      terminal stays on the screen and draws the glyph; the clock keeps time
      over any number of ticks and through the wrap of its counter.
    - Processor tables: the interrupt gates decode to the kernel's stubs.
    - What does not work: theorems with the kind "error" give the conditions
      under which the code hangs, recurses for ever, loses threads, hands out a
      live address again or reports a wrong result.  PROJECT.json lists them as
      findings, with those no theorem is stated for.

    ** Bounds and fuel

    A theorem that a function returns asks for a fuel it names: the number of
    heap blocks (heap), the length of the ready queue (scheduler), the sum of
    the cooldowns (a tick; 31 for each thread always suffices, 32 being the
    largest stride), the length of a string plus one.  [kloop_mono] shows that
    more fuel never changes a result, [kloop_diverges] turns a loop that never
    leaves into a statement about every fuel.  [acquire_mutex] and
    [thread_block] call each other; fuel bounds that depth, and with the thread
    table's mutex free one level is used.  [boot_params] holds the fuel of
    the whole kernel and the addresses the linker chooses.

    ** Assumptions

    One processor: a spinlock that is held while one waits for it is never
    released ([Spinning]).  A function runs without being interrupted; ticks
    come between functions.  Memory reached through the direct map is physical
    memory.  The page-table invariant has no large pages, which the code never
    makes.  The heap theorems ask for frames and for room below [HEAP_END].
    An object allocated for a structure is named by its address and held in a
    map, so its bytes are not overlaid with other objects; where the overlay
    matters (the first growth of the heap), the theorem is about the heap
    itself.  Uninitialised bytes that the code reads are arguments.

    ** Not modelled

    The parts of limine.h the kernel does not use; tmpfs, tarfs and devices,
    whose files hold an include each; the operations of a file system, of which
    there is none, which are a parameter; the function that
    [namecache_purge_vnode] calls under a misspelt name and that does not
    exist, another parameter; the declarations in the other headers under
    sysroot, of a C library that is not in the repository; build scripts.  The
    assembly accesses memory in 64-bit words, aligned or not, and has no stack
    switching within a handler; what a C function does to registers and stack
    is a hypothesis ([c_handles], [c_syscall], [c_function]) that says no more
    than the calling convention. *)

From stdpp Require Export base list gmap strings.
From Stdlib Require Export ZArith Lia.

#[global] Set Warnings "-notation-overridden".
Local Open Scope Z_scope.

(** ** Outcomes of kernel code

    A kernel function either returns a value in a new state, or stops for one
    of the reasons the code knows: [hcf] (interrupts off, loop for ever),
    spinning on a spinlock nobody will release, the [int 0x20] trap that gives
    the CPU away and never returns, an access through a bad pointer, or (in
    the model only) the fuel of a loop running out. *)
Inductive stop : Type :=
  | Halted       (* hcf(): cli, then while (1) *)
  | Spinning     (* busy loop on a lock that is already held *)
  | Trapped      (* int 0x20: control goes to the scheduler *)
  | Faulted      (* access through NULL or an unknown pointer *)
  | OutOfFuel.   (* the model's bound on loop iterations was reached *)

#[export] Instance stop_eq_dec : EqDecision stop.
Proof. solve_decision. Defined.

Inductive outcome (S A : Type) : Type :=
  | Ret (a : A) (s : S)
  | Stop (c : stop) (s : S).
Arguments Ret {S A} a s.
Arguments Stop {S A} c s.

(** State and outcome monad; [x ← m; k] is stdpp's notation for its bind. *)
Definition K (S A : Type) : Type := S -> outcome S A.

#[export] Instance K_ret {S} : MRet (K S) := fun A a s => Ret a s.
#[export] Instance K_bind {S} : MBind (K S) := fun A B f m s =>
  match m s with
  | Ret a s' => f a s'
  | Stop c s' => Stop c s'
  end.

Section primitives.
Context {S : Type}.
Definition kget : K S S := fun s => Ret s s.
Definition kput (s' : S) : K S unit := fun _ => Ret tt s'.
Definition kmod (f : S -> S) : K S unit := fun s => Ret tt (f s).
Definition kasks {A} (f : S -> A) : K S A := fun s => Ret (f s) s.
Definition kstop {A} (c : stop) : K S A := fun s => Stop c s.
Definition kwhen (b : bool) (m : K S unit) : K S unit :=
  if b then m else mret tt.
(** Dereference: the value an option holds, or a fault. *)
Definition kderef {A} (o : option A) : K S A :=
  match o with Some a => mret a | None => kstop Faulted end.
End primitives.

(** Run a computation of an inner component on its part of the state. *)
Definition klift {S T A} (get : T -> S) (set : S -> T -> T) (m : K S A) : K T A :=
  fun t => match m (get t) with
           | Ret a s => Ret a (set s t)
           | Stop c s => Stop c (set s t)
           end.

(** A [while]/[for] loop whose locals are [L]: the body either goes on with new
    locals ([inl]) or leaves the loop with a result ([inr]). *)
Fixpoint kloop {S L R} (fuel : nat) (body : L -> K S (L + R)) (l : L) : K S R :=
  match fuel with
  | O => kstop OutOfFuel
  | Datatypes.S fuel' =>
      r ← body l;
      match r with
      | inl l' => kloop fuel' body l'
      | inr r => mret r
      end
  end.

(** [for (i = lo; i < lo + n; ++i) body(i)] over a pure state. *)
Fixpoint for_up {S} (n : nat) (i : Z) (body : Z -> S -> S) (s : S) : S :=
  match n with
  | O => s
  | Datatypes.S n' => for_up n' (i + 1) body (body i s)
  end.

(** The same loop for a body that may stop. *)
Fixpoint kfor {S} (n : nat) (i : Z) (body : Z -> K S unit) : K S unit :=
  match n with
  | O => mret tt
  | Datatypes.S n' => body i;; kfor n' (i + 1) body
  end.

(** ** Lemmas on the monad *)
Section monad_laws.
Context {S : Type}.

Lemma kbind_ret {A B} (m : K S A) (f : A -> K S B) s a s' :
  m s = Ret a s' -> (m ≫= f) s = f a s'.
Proof. intros E. unfold mbind, K_bind. by rewrite E. Qed.

Lemma kbind_stop {A B} (m : K S A) (f : A -> K S B) s c s' :
  m s = Stop c s' -> (m ≫= f) s = Stop c s'.
Proof. intros E. unfold mbind, K_bind. by rewrite E. Qed.

Lemma kbind_inv {A B} (m : K S A) (f : A -> K S B) s b s' :
  (m ≫= f) s = Ret b s' -> exists a s1, m s = Ret a s1 /\ f a s1 = Ret b s'.
Proof.
  unfold mbind, K_bind. destruct (m s) as [a s1|c s1]; [|discriminate].
  intros E. by exists a, s1.
Qed.

(** Two steps that are known together. *)
Lemma kbind_ret2 {A B C} (m : K S A) (f : A -> K S B) (g : B -> K S C) s b s' :
  (m ≫= f) s = Ret b s' -> (m ≫= fun a => f a ≫= g) s = g b s'.
Proof.
  unfold mbind, K_bind. destruct (m s) as [a s1|c s1]; [|discriminate]. by intros ->.
Qed.

Lemma klift_ret {T A} (get : T -> S) (set : S -> T -> T) (m : K S A) t a s :
  m (get t) = Ret a s -> klift get set m t = Ret a (set s t).
Proof. intros E. unfold klift. by rewrite E. Qed.

Lemma kloop_next {L R} (body : L -> K S (L + R)) f l l' s s' :
  body l s = Ret (inl l') s' -> kloop (Datatypes.S f) body l s = kloop f body l' s'.
Proof. intros E. cbn [kloop]. by rewrite (kbind_ret _ _ _ _ _ E). Qed.

Lemma kloop_exit {L R} (body : L -> K S (L + R)) f l r s s' :
  body l s = Ret (inr r) s' -> kloop (Datatypes.S f) body l s = Ret r s'.
Proof. intros E. cbn [kloop]. by rewrite (kbind_ret _ _ _ _ _ E). Qed.

(** More fuel never changes a loop that has returned. *)
Lemma kloop_mono {L R} (body : L -> K S (L + R)) f1 f2 l s r s' :
  (f1 <= f2)%nat -> kloop f1 body l s = Ret r s' -> kloop f2 body l s = Ret r s'.
Proof.
  revert f2 l s. induction f1 as [|f1 IH]; intros f2 l s Hle; [done|].
  destruct f2 as [|f2]; [lia|]. cbn [kloop].
  intros E. apply kbind_inv in E as ([l'|r'] & s1 & E1 & E2);
    erewrite kbind_ret by exact E1; [|done]. apply IH; [lia|done].
Qed.

(** A body that never leaves from a set of locals and states closed under
    it runs out of any fuel: the loop diverges. *)
Lemma kloop_diverges {L R} (body : L -> K S (L + R)) (X : L -> S -> Prop) :
  (forall l s, X l s -> exists l' s', body l s = Ret (inl l') s' /\ X l' s') ->
  forall fuel l s, X l s -> exists s', kloop fuel body l s = Stop OutOfFuel s'.
Proof.
  intros HX fuel. induction fuel as [|fuel IH]; intros l s Hl; [by exists s|].
  destruct (HX l s Hl) as (l' & s' & E & Hl'). cbn [kloop].
  erewrite kbind_ret by exact E. cbn. by apply IH.
Qed.
End monad_laws.

Lemma for_up_snoc {S} n i (body : Z -> S -> S) s :
  for_up (Datatypes.S n) i body s = body (i + Z.of_nat n) (for_up n i body s).
Proof.
  revert i s. induction n as [|n IH]; intros i s.
  - cbn. by rewrite Z.add_0_r.
  - cbn [for_up] in *. rewrite IH. f_equal. lia.
Qed.

(** Invariant rule for [for_up]. *)
Lemma for_up_ind {S} (P : Z -> S -> Prop) n lo (body : Z -> S -> S) s :
  P lo s ->
  (forall i t, lo <= i < lo + Z.of_nat n -> P i t -> P (i + 1) (body i t)) ->
  P (lo + Z.of_nat n) (for_up n lo body s).
Proof.
  intros H0 Hstep. induction n as [|n IH].
  - by rewrite Z.add_0_r.
  - rewrite for_up_snoc.
    replace (lo + Z.of_nat (Datatypes.S n)) with (lo + Z.of_nat n + 1) by lia.
    apply Hstep; [lia|]. apply IH. intros. apply Hstep; [lia|done].
Qed.

(** The same rule for a loop whose body may stop but, on the states of the
    invariant, does not. *)
Lemma kfor_ind {S} (P : Z -> S -> Prop) n lo (body : Z -> K S unit) s :
  P lo s ->
  (forall i t, lo <= i < lo + Z.of_nat n -> P i t ->
     exists t', body i t = Ret tt t' /\ P (i + 1) t') ->
  exists t, kfor n lo body s = Ret tt t /\ P (lo + Z.of_nat n) t.
Proof.
  revert lo s. induction n as [|n IH]; intros lo s H0 Hstep.
  - exists s. by rewrite Z.add_0_r.
  - destruct (Hstep lo s) as (t & E & Ht); [lia|done|].
    destruct (IH (lo + 1) t) as (t' & E' & Ht'); [done|intros; apply Hstep; lia || done|].
    exists t'. split; [by cbn [kfor]; rewrite (kbind_ret _ _ _ _ _ E)|].
    by replace (lo + Z.of_nat (Datatypes.S n)) with (lo + 1 + Z.of_nat n) by lia.
Qed.

(** ** Machine integers *)
Declare Scope word_scope.
Delimit Scope word_scope with word.

Definition wrap (w z : Z) : Z := z mod 2 ^ w.
Abbreviation u8 := (wrap 8).
Abbreviation u16 := (wrap 16).
Abbreviation u32 := (wrap 32).
Abbreviation u64 := (wrap 64).

(** Two's complement reading of a [w]-bit value. *)
Definition swrap (w z : Z) : Z :=
  let r := z mod 2 ^ w in if r <? 2 ^ (w - 1) then r else r - 2 ^ w.
Abbreviation s32 := (swrap 32).
Abbreviation s64 := (swrap 64).

Notation "a +64 b" := (u64 (a + b)) (at level 50, left associativity) : word_scope.
Notation "a -64 b" := (u64 (a - b)) (at level 50, left associativity) : word_scope.
Notation "a *64 b" := (u64 (a * b)) (at level 40, left associativity) : word_scope.

Definition SIZE_MAX : Z := 2 ^ 64 - 1.
Definition NULL : Z := 0.

Lemma wrap_range w z : 0 <= w -> 0 <= wrap w z < 2 ^ w.
Proof. intros. apply Z.mod_pos_bound, Z.pow_pos_nonneg; lia. Qed.

Lemma wrap_small w z : 0 <= z < 2 ^ w -> wrap w z = z.
Proof. apply Z.mod_small. Qed.

Lemma wrap_idemp w z : wrap w (wrap w z) = wrap w z.
Proof. unfold wrap. apply Zmod_mod. Qed.

Lemma u8_range z : 0 <= u8 z < 256.
Proof. apply (wrap_range 8). lia. Qed.

Lemma u64_range z : 0 <= u64 z < 2 ^ 64.
Proof. apply wrap_range. lia. Qed.

Lemma swrap_range w z : 0 < w -> - 2 ^ (w - 1) <= swrap w z < 2 ^ (w - 1).
Proof.
  intros Hw. unfold swrap.
  assert (E : 2 ^ w = 2 * 2 ^ (w - 1))
    by (rewrite <- Z.pow_succ_r by lia; f_equal; lia).
  pose proof (Z.mod_pos_bound z (2 ^ w)).
  destruct (Z.ltb_spec (z mod 2 ^ w) (2 ^ (w - 1))); lia.
Qed.

Create HintDb words discriminated.
Create Rewrite HintDb words.
#[export] Hint Resolve u8_range u64_range wrap_range : words.
#[export] Hint Rewrite wrap_idemp : words.

(** ** Tactics of the development *)

(** Evaluate the head of a monadic goal after its first action is known. *)
Ltac kstep E := erewrite kbind_ret by exact E; cbn beta.

(** Run the monad's plumbing. *)
Ltac krun :=
  cbv beta iota zeta delta
    [mbind K_bind mret K_ret kget kput kmod kasks kstop kderef kwhen].

(** Split hypotheses that say a bind returned. *)
Ltac kinv :=
  repeat match goal with
  | H : (_ ≫= _) _ = Ret _ _ |- _ =>
      let a := fresh "a" in let s1 := fresh "s" in
      let E1 := fresh "E" in
      apply kbind_inv in H as (a & s1 & E1 & H)
  end.

(** Case analysis on every boolean comparison of a goal or hypothesis, in
    [lia]'s vocabulary. *)
Ltac zcase :=
  repeat match goal with
  | |- context [Z.eqb ?a ?b] => destruct (Z.eqb_spec a b)
  | |- context [Z.ltb ?a ?b] => destruct (Z.ltb_spec a b)
  | |- context [Z.leb ?a ?b] => destruct (Z.leb_spec a b)
  end.

(** Linear arithmetic with division and remainder. *)
Ltac zdiv := Z.div_mod_to_equations; lia.
