(* ===== verification/Bytes.v ===== *)
(** * Byte-addressed memory

    [BMem] is the interface every byte memory of the kernel offers (physical
    memory through the higher-half direct map, virtual memory through the page
    tables): read a byte, write a byte.  [BMemOk] are its laws, restricted to
    the addresses the memory controls ([valid]).  On top of it this file
    builds the little-endian multi-byte accesses of x86-64. *)

From S2P Require Import Prelude.
Local Open Scope Z_scope.

Class BMem (S : Type) := {
  rb : S -> Z -> Z;
  wb : Z -> Z -> S -> S;
}.

Class BMemOk (S : Type) `{!BMem S} := {
  valid : S -> Z -> Prop;
  rb_range : forall s a, 0 <= rb s a < 256;
  rb_wb_eq : forall s a v, valid s a -> rb (wb a v s) a = u8 v;
  rb_wb_ne : forall s a b v, valid s a -> valid s b -> a <> b ->
                             rb (wb a v s) b = rb s b;
  valid_wb : forall s a b v, valid s a -> (valid (wb a v s) b <-> valid s b);
}.

(** The flat instance: a finite map from addresses to bytes; an address that
    was never written holds 0. *)
Abbreviation mem := (gmap Z Z).

#[export] Instance mem_BMem : BMem mem := {
  rb m a := u8 (default 0 (m !! a));
  wb a v m := <[a := u8 v]> m;
}.

#[export, refine] Instance mem_BMemOk : BMemOk mem := { valid _ _ := True }.
Proof.
  - intros. apply u8_range.
  - intros s a v _. cbn. rewrite lookup_insert_eq. apply wrap_idemp.
  - intros s a b v _ _ Hne. cbn. by rewrite lookup_insert_ne.
  - done.
Defined.

Section accesses.
Context {S : Type} `{!BMem S}.

(** Little-endian load and store of [n] bytes. *)
Fixpoint load (n : nat) (s : S) (a : Z) : Z :=
  match n with
  | O => 0
  | Datatypes.S n' => rb s a + 256 * load n' s (a + 1)
  end.

Fixpoint store (n : nat) (a v : Z) (s : S) : S :=
  match n with
  | O => s
  | Datatypes.S n' => store n' (a + 1) (v / 256) (wb a v s)
  end.
End accesses.

Abbreviation ld64 := (load 8).
Abbreviation st64 := (store 8).
Abbreviation ld32 := (load 4).
Abbreviation st32 := (store 4).

Section access_laws.
Context {S : Type} `{!BMem S} `{!BMemOk S}.
Implicit Types (s : S) (a b v : Z) (n k : nat).

Definition valid_range s a len : Prop :=
  forall i, 0 <= i < len -> valid s (a + i).

Lemma valid_range_sub s a len b len' :
  valid_range s a len -> a <= b -> b + len' <= a + len -> valid_range s b len'.
Proof.
  intros H ? ? i Hi. replace (b + i) with (a + (b - a + i)) by lia. apply H. lia.
Qed.

Lemma valid_range_at s a len b :
  valid_range s a len -> a <= b < a + len -> valid s b.
Proof.
  intros H Hb. replace b with (a + (b - a)) by lia. apply H. lia.
Qed.

Lemma valid_range_wb s a len b v :
  valid s b -> (valid_range (wb b v s) a len <-> valid_range s a len).
Proof.
  intros Hb. split; intros H i Hi; apply (valid_wb s b _ v Hb); auto.
Qed.

Lemma rb_wb_if s a b v :
  valid s a -> valid s b -> rb (wb a v s) b = if b =? a then u8 v else rb s b.
Proof.
  intros Ha Hb. destruct (Z.eqb_spec b a) as [->|Hne]; [by apply rb_wb_eq|].
  apply rb_wb_ne; [done..|congruence].
Qed.

Lemma load_range n s a : 0 <= load n s a < 256 ^ Z.of_nat n.
Proof.
  revert a. induction n as [|n IH]; intros a; [cbn; lia|].
  cbn [load]. rewrite Nat2Z.inj_succ, Z.pow_succ_r by lia.
  pose proof (rb_range s a). pose proof (IH (a + 1)). nia.
Qed.

Lemma ld64_range s a : 0 <= ld64 s a < 2 ^ 64.
Proof. exact (load_range 8 s a). Qed.

(** Two memories that agree on a range load the same value from it. *)
Lemma load_ext n s s' a :
  (forall i, 0 <= i < Z.of_nat n -> rb s (a + i) = rb s' (a + i)) ->
  load n s a = load n s' a.
Proof.
  revert a. induction n as [|n IH]; intros a H; [done|].
  cbn [load]. f_equal.
  - specialize (H 0). rewrite Z.add_0_r in H. apply H. lia.
  - f_equal. apply IH. intros i Hi.
    replace (a + 1 + i) with (a + (i + 1)) by lia. apply H. lia.
Qed.

Lemma valid_store n s a b v :
  valid_range s a (Z.of_nat n) -> (valid (store n a v s) b <-> valid s b).
Proof.
  revert s a v. induction n as [|n IH]; intros s a v H; [done|].
  cbn [store]. assert (Ha : valid s a) by (apply (valid_range_at _ _ _ _ H); lia).
  rewrite IH.
  - by apply valid_wb.
  - apply valid_range_wb; [done|]. apply (valid_range_sub _ _ _ _ _ H); lia.
Qed.

Lemma valid_range_store n s a v b len :
  valid_range s a (Z.of_nat n) ->
  (valid_range (store n a v s) b len <-> valid_range s b len).
Proof.
  intros H. split; intros Hr i Hi; apply (valid_store n s a _ v H); auto.
Qed.

Lemma rb_store_ne n s a v b :
  valid_range s a (Z.of_nat n) -> valid s b ->
  b < a \/ a + Z.of_nat n <= b -> rb (store n a v s) b = rb s b.
Proof.
  revert s a v. induction n as [|n IH]; intros s a v H Hb Hd; [done|].
  cbn [store]. assert (Ha : valid s a) by (apply (valid_range_at _ _ _ _ H); lia).
  rewrite IH; [apply rb_wb_ne; [done..|lia] | | | lia].
  - apply valid_range_wb; [done|]. apply (valid_range_sub _ _ _ _ _ H); lia.
  - by apply valid_wb.
Qed.

(** A load elsewhere does not see a store. *)
Lemma load_store_ne n k s a v b :
  valid_range s a (Z.of_nat n) -> valid_range s b (Z.of_nat k) ->
  b + Z.of_nat k <= a \/ a + Z.of_nat n <= b ->
  load k (store n a v s) b = load k s b.
Proof.
  intros H Hb Hd. apply load_ext. intros i Hi.
  apply rb_store_ne; [done|by apply Hb|lia].
Qed.

(** A load of what was stored, modulo the width. *)
Lemma load_store_eq n s a v :
  valid_range s a (Z.of_nat n) ->
  load n (store n a v s) a = v mod 256 ^ Z.of_nat n.
Proof.
  revert s a v. induction n as [|n IH]; intros s a v H.
  - cbn. by rewrite Z.mod_1_r.
  - cbn [load store].
    assert (Ha : valid s a) by (apply (valid_range_at _ _ _ _ H); lia).
    assert (H1 : valid_range (wb a v s) (a + 1) (Z.of_nat n)).
    { apply valid_range_wb; [done|]. apply (valid_range_sub _ _ _ _ _ H); lia. }
    rewrite IH by done. rewrite rb_store_ne; [|done|by apply valid_wb|lia].
    rewrite rb_wb_eq by done. unfold wrap. change (2 ^ 8) with 256.
    rewrite Nat2Z.inj_succ, Z.pow_succ_r by lia.
    rewrite Z.rem_mul_r by lia. lia.
Qed.

Lemma ld64_st64 s a v :
  valid_range s a 8 -> ld64 (st64 a v s) a = u64 v.
Proof. exact (load_store_eq 8 s a v). Qed.

Lemma ld64_st64_ne s a v b :
  valid_range s a 8 -> valid_range s b 8 -> b + 8 <= a \/ a + 8 <= b ->
  ld64 (st64 a v s) b = ld64 s b.
Proof. exact (load_store_ne 8 8 s a v b). Qed.

(** All-zero bytes load as zero. *)
Lemma load_zero n s a :
  (forall i, 0 <= i < Z.of_nat n -> rb s (a + i) = 0) -> load n s a = 0.
Proof.
  revert a. induction n as [|n IH]; intros a H; [done|].
  cbn [load]. rewrite IH.
  - specialize (H 0). rewrite Z.add_0_r in H. rewrite H; lia.
  - intros i Hi. replace (a + 1 + i) with (a + (i + 1)) by lia. apply H. lia.
Qed.
End access_laws.

(** ** Memories with the same contents

    [meq] is equality of contents at the valid addresses; loads respect it. *)
Section meq.
Context {S : Type} `{!BMem S} `{!BMemOk S}.

Definition meq (s s' : S) : Prop := forall a, rb s a = rb s' a.

#[export] Instance meq_equiv : Equivalence meq.
Proof.
  split; [by intros s a | by intros s s' H a |].
  intros s1 s2 s3 H12 H23 a. by rewrite H12, H23.
Qed.

#[export] Instance rb_proper : Proper (meq ==> eq ==> eq) rb.
Proof. intros s s' H a ? <-. apply H. Qed.

#[export] Instance load_proper n : Proper (meq ==> eq ==> eq) (load n).
Proof. intros s s' H a ? <-. apply load_ext. intros i _. by rewrite H. Qed.
End meq.

(** On the flat memory every range is valid. *)
Lemma mem_valid_range (m : mem) a len : valid_range m a len.
Proof. by intros i _. Qed.
#[export] Hint Resolve mem_valid_range : words.
