(* ===== verification/MemLib.v ===== *)
(** * The memory routines of the kernel's C library (klibc/kmem/mem.c)

    Each routine is the byte loop of the source over an abstract byte memory
    [BMem], so that the same definitions run on physical and on virtual
    memory.  Pointers are addresses in [Z]; a [size_t] argument is a
    non-negative [Z]. *)

From S2P Require Import Prelude Bytes.
Local Open Scope Z_scope.

Section mem_c.
Context {S : Type} `{!BMem S}.

(** src/klibc/kmem/mem.c:4-15 [memcpy] *)
Definition memcpy (dest src n : Z) : K S Z := fun s =>
  Ret dest (for_up (Z.to_nat n) 0 (fun i s => wb (dest + i) (rb s (src + i)) s) s).

(** src/klibc/kmem/mem.c:17-20 [mempcpy] *)
Definition mempcpy (dest src len : Z) : K S Z :=
  d ← memcpy dest src len;
  mret (d + len).

(** src/klibc/kmem/mem.c:22-32 [memset] *)
Definition memset (p c n : Z) : K S Z := fun s =>
  Ret p (for_up (Z.to_nat n) 0 (fun i s => wb (p + i) (u8 c) s) s).

(** src/klibc/kmem/mem.c:34-55 [memmove] *)
Definition memmove (dest src n : Z) : K S Z := fun s =>
  if dest <? src then
    Ret dest (for_up (Z.to_nat n) 0
                (fun i s => wb (dest + i) (rb s (src + i)) s) s)
  else if src <? dest then
    (* the loop counts i = n, n-1, ..., 1 and copies byte i-1 *)
    Ret dest (for_up (Z.to_nat n) 0
                (fun k s => let i := n - k in
                            wb (dest + (i - 1)) (rb s (src + (i - 1))) s) s)
  else Ret dest s.

(** src/klibc/kmem/mem.c:57-71 [memcmp] *)
Fixpoint memcmp_loop (n : nat) (p1 p2 : Z) (s : S) : Z :=
  match n with
  | O => 0
  | Datatypes.S n' =>
      if negb (rb s p1 =? rb s p2)
      then if rb s p1 <? rb s p2 then -1 else 1
      else memcmp_loop n' (p1 + 1) (p2 + 1) s
  end.

(** src/klibc/kmem/mem.c:57-71 [memcmp] *)
Definition memcmp (s1 s2 n : Z) : K S Z := fun s =>
  Ret (memcmp_loop (Z.to_nat n) s1 s2 s) s.

(** The [n] bytes at [p]. *)
Definition bytes_at (s : S) (p n : Z) : list Z :=
  (fun i => rb s (p + i)) <$> seqZ 0 n.
End mem_c.

(** Lexicographic order on byte strings, with the three answers of [memcmp]. *)
Fixpoint lex_compare (l1 l2 : list Z) : Z :=
  match l1, l2 with
  | x :: l1', y :: l2' =>
      if x =? y then lex_compare l1' l2' else if x <? y then -1 else 1
  | _, _ => 0
  end.

Section lemmas.
Context {S : Type} `{!BMem S} `{!BMemOk S}.
Implicit Types (s t : S).

Lemma seqZ_cons0 n : 0 < n -> seqZ 0 n = 0 :: (Z.add 1 <$> seqZ 0 (n - 1)).
Proof.
  intros. rewrite seqZ_cons by lia. f_equal. rewrite <- (fmap_add_seqZ 1 0). done.
Qed.

Lemma bytes_at_cons s p n :
  bytes_at s p (Z.of_nat (Datatypes.S n)) = rb s p :: bytes_at s (p + 1) (Z.of_nat n).
Proof.
  unfold bytes_at. rewrite seqZ_cons0 by lia. cbn [fmap list_fmap].
  rewrite Z.add_0_r. f_equal. rewrite <- list_fmap_compose.
  replace (Z.of_nat (Datatypes.S n) - 1) with (Z.of_nat n) by lia.
  apply list_fmap_ext. intros i x _. cbn. f_equal. lia.
Qed.

Lemma bytes_at_ext s t p q n :
  (forall i, 0 <= i < n -> rb s (p + i) = rb t (q + i)) ->
  bytes_at s p n = bytes_at t q n.
Proof.
  intros H. unfold bytes_at. apply list_fmap_ext. intros k i Hk.
  apply H. apply lookup_seqZ in Hk. lia.
Qed.

(** Copying byte by byte in any order that never reads a byte already
    overwritten: the shared invariant of [memcpy] and [memmove].  [done i]
    says the byte at offset [i] has been copied. *)
Definition copy_inv s dest src n (copied : Z -> bool) t : Prop :=
  (forall a, valid t a <-> valid s a) /\
  forall a, valid s a ->
    rb t a = if (dest <=? a) && (a <? dest + n) && copied (a - dest)
             then rb s (src + (a - dest)) else rb s a.

Lemma copy_inv_step s dest src n copied t i :
  valid_range s dest n -> valid_range s src n -> 0 <= i < n ->
  copy_inv s dest src n copied t ->
  rb t (src + i) = rb s (src + i) ->
  copy_inv s dest src n (fun j => (j =? i) || copied j)
    (wb (dest + i) (rb t (src + i)) t).
Proof.
  intros Hd Hs Hi [Hv Hr] Hsrc.
  assert (Hvi : valid t (dest + i)) by (apply Hv, Hd; lia).
  split.
  { intros a. rewrite valid_wb by done. apply Hv. }
  intros a Ha. destruct (Z.eq_dec a (dest + i)) as [->|Hne].
  - rewrite rb_wb_eq by done. rewrite Hsrc.
    replace (dest + i - dest) with i by lia.
    rewrite Z.eqb_refl, orb_true_l, andb_true_r.
    rewrite wrap_small by apply rb_range.
    zcase; cbn; try done; lia.
  - rewrite rb_wb_ne by (first [done | by apply Hv | lia]).
    rewrite Hr by done. destruct (Z.eqb_spec (a - dest) i); [lia|done].
Qed.

Lemma copy_inv_init s dest src n : copy_inv s dest src n (fun _ => false) s.
Proof. split; [done|]. intros a _. by rewrite andb_false_r. Qed.

(** [copied s t dest src n]: [t] is [s] with the [n] bytes at [src] copied to
    [dest], everything else unchanged. *)
Definition copied s t dest src n : Prop :=
  (forall a, valid t a <-> valid s a) /\
  forall a, valid s a ->
    rb t a = if (dest <=? a) && (a <? dest + n) then rb s (src + (a - dest)) else rb s a.

Lemma copy_inv_done s dest src n c t :
  (forall i, 0 <= i < n -> c i = true) ->
  copy_inv s dest src n c t -> copied s t dest src n.
Proof.
  intros Hall [Hv Hr]. split; [done|]. intros a Ha. rewrite Hr by done.
  destruct (Z.leb_spec dest a), (Z.ltb_spec a (dest + n)); cbn; try done.
  by rewrite Hall by lia.
Qed.

Lemma copy_inv_ext s dest src n c1 c2 t :
  (forall i, 0 <= i < n -> c1 i = c2 i) ->
  copy_inv s dest src n c1 t -> copy_inv s dest src n c2 t.
Proof.
  intros Hc [Hv Hr]. split; [done|]. intros a Ha. rewrite Hr by done.
  destruct (Z.leb_spec dest a), (Z.ltb_spec a (dest + n)); cbn; try done.
  by rewrite Hc by lia.
Qed.

(** The ascending copy loop, safe when no byte is read after its address was
    written: [src] is at or above [dest], or the two ranges are disjoint. *)
Lemma copy_up_spec s dest src n :
  0 <= n -> valid_range s dest n -> valid_range s src n ->
  dest <= src \/ src + n <= dest ->
  copy_inv s dest src n (fun _ => true)
    (for_up (Z.to_nat n) 0 (fun i t => wb (dest + i) (rb t (src + i)) t) s).
Proof.
  intros Hn Hd Hs Hlay.
  pose proof (for_up_ind (fun i t => copy_inv s dest src n (fun j => j <? i) t)
    (Z.to_nat n) 0 (fun i t => wb (dest + i) (rb t (src + i)) t) s) as HI.
  eapply copy_inv_ext; [|apply HI].
  - intros i Hi. cbn. destruct (Z.ltb_spec i (0 + Z.of_nat (Z.to_nat n))); [done|lia].
  - eapply copy_inv_ext; [|apply copy_inv_init].
    intros i Hi. cbn. destruct (Z.ltb_spec i 0); [lia|done].
  - intros i t Hi HP. eapply copy_inv_ext; [|apply copy_inv_step; try done; try lia].
    + intros j Hj. cbn. zcase; cbn; try done; lia.
    + destruct HP as [Hv Hr]. rewrite Hr by (apply Hs; lia).
      zcase; cbn; try done; lia.
Qed.

(** The descending copy loop, safe when [src] is below [dest]. *)
Lemma copy_down_spec s dest src n :
  0 <= n -> valid_range s dest n -> valid_range s src n -> src <= dest ->
  copy_inv s dest src n (fun _ => true)
    (for_up (Z.to_nat n) 0
       (fun k t => let i := n - k in
                   wb (dest + (i - 1)) (rb t (src + (i - 1))) t) s).
Proof.
  intros Hn Hd Hs Hlay.
  pose proof (for_up_ind (fun k t => copy_inv s dest src n (fun j => n - k <=? j) t)
    (Z.to_nat n) 0 (fun k t => let i := n - k in
       wb (dest + (i - 1)) (rb t (src + (i - 1))) t) s) as HI.
  eapply copy_inv_ext; [|apply HI].
  - intros i Hi. cbn. destruct (Z.leb_spec (n - (0 + Z.of_nat (Z.to_nat n))) i); [done|lia].
  - eapply copy_inv_ext; [|apply copy_inv_init].
    intros i Hi. cbn. destruct (Z.leb_spec (n - 0) i); [lia|done].
  - intros k t Hk HP. cbn. eapply copy_inv_ext; [|apply copy_inv_step; try done; try lia].
    + intros j Hj. cbn. zcase; cbn; try done; lia.
    + destruct HP as [Hv Hr]. rewrite Hr by (apply Hs; lia).
      zcase; cbn; try done; lia.
Qed.

Lemma memcpy_run s dest src n :
  0 <= n -> valid_range s dest n -> valid_range s src n ->
  dest <= src \/ src + n <= dest ->
  exists t, memcpy dest src n s = Ret dest t /\ copied s t dest src n.
Proof.
  intros. eexists. split; [done|]. eapply copy_inv_done; [done|]. by apply copy_up_spec.
Qed.

(** [memmove] downwards. *)
Lemma memmove_down s dest src n :
  0 <= n -> valid_range s dest n -> valid_range s src n -> dest < src ->
  exists t, memmove dest src n s = Ret dest t /\ copied s t dest src n.
Proof.
  intros Hn Hd Hs Hlt. unfold memmove. destruct (Z.ltb_spec dest src); [|lia].
  apply memcpy_run; try done. lia.
Qed.

Lemma copied_bytes s t dest src n :
  copied s t dest src n -> valid_range s dest n -> bytes_at t dest n = bytes_at s src n.
Proof.
  intros [_ Hr] Hd. apply bytes_at_ext. intros i Hi. rewrite Hr by (by apply Hd).
  replace (src + (dest + i - dest)) with (src + i) by lia. zcase; cbn; try done; lia.
Qed.

(** The fill loop of [memset]. *)
Lemma memset_spec s p c n :
  0 <= n -> valid_range s p n ->
  exists t, memset p c n s = Ret p t /\
    (forall a, valid t a <-> valid s a) /\
    forall a, valid s a ->
      rb t a = if (p <=? a) && (a <? p + n) then u8 c else rb s a.
Proof.
  intros Hn Hv. eexists. split; [done|].
  pose proof (for_up_ind (fun i t => (forall a, valid t a <-> valid s a) /\
     forall a, valid s a ->
       rb t a = if (p <=? a) && (a <? p + i) then u8 c else rb s a)
     (Z.to_nat n) 0 (fun i t => wb (p + i) (u8 c) t) s) as HI.
  replace (0 + Z.of_nat (Z.to_nat n)) with n in HI by lia. apply HI.
  - split; [done|]. intros a _. zcase; cbn; try done; lia.
  - intros i t Hi [Hvt Hr].
    assert (Hvi : valid t (p + i)) by (apply Hvt, Hv; lia). split.
    { intros a. by rewrite valid_wb. }
    intros a Ha. destruct (Z.eq_dec a (p + i)) as [->|Hne].
    + rewrite rb_wb_eq by done. autorewrite with words. zcase; cbn; try done; lia.
    + rewrite rb_wb_ne by (first [done | by apply Hvt | lia]). rewrite Hr by done.
      zcase; cbn; try done; lia.
Qed.

(** After [memset(p, 0, n)] every load inside the range is 0. *)
Lemma load_memset_zero s p n t k a :
  0 <= n -> valid_range s p n -> memset p 0 n s = Ret p t ->
  p <= a -> a + Z.of_nat k <= p + n -> load k t a = 0.
Proof.
  intros Hn Hv E ? ?. destruct (memset_spec s p 0 n) as (t' & E' & _ & Hr); [done..|].
  assert (t' = t) as -> by congruence. apply load_zero. intros i Hi.
  rewrite Hr by (apply (valid_range_at _ _ _ _ Hv); lia). zcase; cbn; try done; lia.
Qed.

(** [memset] leaves loads outside its range alone. *)
Lemma load_memset_ne s p c n t k a :
  0 <= n -> valid_range s p n -> valid_range s a (Z.of_nat k) ->
  memset p c n s = Ret p t -> a + Z.of_nat k <= p \/ p + n <= a ->
  load k t a = load k s a.
Proof.
  intros Hn Hv Hva E Hd. destruct (memset_spec s p c n) as (t' & E' & _ & Hr); [done..|].
  assert (t' = t) as -> by congruence. apply load_ext. intros i Hi.
  rewrite Hr by (by apply Hva). zcase; cbn; try done; lia.
Qed.

Lemma memcmp_loop_lex s p1 p2 n :
  memcmp_loop n p1 p2 s
  = lex_compare (bytes_at s p1 (Z.of_nat n)) (bytes_at s p2 (Z.of_nat n)).
Proof.
  revert p1 p2. induction n as [|n IH]; intros p1 p2; [done|].
  rewrite !bytes_at_cons. cbn [memcmp_loop lex_compare].
  destruct (Z.eqb_spec (rb s p1) (rb s p2)); cbn; [apply IH|done].
Qed.

Lemma lex_compare_eq l1 l2 :
  length l1 = length l2 -> (lex_compare l1 l2 = 0 <-> l1 = l2).
Proof.
  revert l2. induction l1 as [|x l1 IH]; intros [|y l2]; try done.
  cbn. intros [= Hl]. destruct (Z.eqb_spec x y) as [->|Hne].
  - rewrite IH by done. split; [by intros ->|by intros [= ->]].
  - destruct (Z.ltb_spec x y); split; try done; congruence.
Qed.

Lemma length_bytes_at s p n : length (bytes_at s p n) = Z.to_nat n.
Proof. unfold bytes_at. by rewrite length_fmap, length_seqZ. Qed.
End lemmas.

(** ** Properties *)
Section properties.
Context {S : Type} `{!BMem S} `{!BMemOk S}.

(** C26: [memmove] is correct whatever the overlap: afterwards the destination
    holds what the source held before the call, every other byte is
    unchanged, and the destination pointer is returned. *)
Theorem memmove_correct (s : S) (dest src n : Z)
    (Hn : 0 <= n) (Hd : valid_range s dest n) (Hs : valid_range s src n) :
  exists t, memmove dest src n s = Ret dest t /\
    copied s t dest src n /\ bytes_at t dest n = bytes_at s src n.
Proof.
  cut (exists t, memmove dest src n s = Ret dest t /\ copied s t dest src n).
  { intros (t & E & Hc). exists t. eauto using copied_bytes. }
  unfold memmove. destruct (Z.ltb_spec dest src); [|destruct (Z.ltb_spec src dest)].
  - apply memcpy_run; try done; lia.
  - eexists. split; [done|]. eapply copy_inv_done; [done|].
    apply copy_down_spec; try done; lia.
  - assert (dest = src) as -> by lia. exists s. do 2 (split; [done | ]).
    intros a _. replace (src + (a - src)) with a by lia. by destruct (_ && _).
Qed.

(** [memcpy] copies the source range over a disjoint destination range (or
    one at a lower address), changes nothing else, and returns [dest];
    [mempcpy] does the same and returns the end of the destination. *)
Theorem memcpy_correct (s : S) (dest src n : Z)
    (Hn : 0 <= n) (Hd : valid_range s dest n) (Hs : valid_range s src n)
    (Hlay : dest <= src \/ src + n <= dest) :
  exists t, memcpy dest src n s = Ret dest t /\ mempcpy dest src n s = Ret (dest + n) t /\
    copied s t dest src n /\ bytes_at t dest n = bytes_at s src n.
Proof.
  destruct (memcpy_run s dest src n) as (t & E & Hc); [done..|]. exists t.
  split_and!; [done| |done|by apply copied_bytes].
  unfold mempcpy. by rewrite (kbind_ret _ _ _ _ _ E).
Qed.

(** [memcmp] is the lexicographic comparison of the two byte strings: it
    is 0 exactly when they are equal, it never writes, and its sign is that
    of the first difference. *)
Theorem memcmp_lexicographic (s : S) (p1 p2 n : Z) :
  memcmp p1 p2 n s = Ret (lex_compare (bytes_at s p1 n) (bytes_at s p2 n)) s /\
  (lex_compare (bytes_at s p1 n) (bytes_at s p2 n) = 0
     <-> bytes_at s p1 n = bytes_at s p2 n).
Proof.
  split; [|apply lex_compare_eq; by rewrite !length_bytes_at].
  unfold memcmp. rewrite memcmp_loop_lex. f_equal.
  destruct (Z.le_gt_cases 0 n); [by rewrite Z2Nat.id|].
  destruct n; [done..|]. by unfold bytes_at, seqZ.
Qed.
End properties.

(** ** Witnesses *)
Section witnesses.
(** The bytes 1..5 at addresses 100..104. *)
Definition demo_mem : mem := list_to_map (zip (seqZ 100 5) [1; 2; 3; 4; 5]).

Lemma memmove_correct_witness :
  (exists t, memmove 102 100 3 demo_mem = Ret 102 t /\
    copied demo_mem t 102 100 3 /\ bytes_at t 102 3 = bytes_at demo_mem 100 3)
  /\ (exists t, memmove 102 100 3 demo_mem = Ret 102 t /\
        bytes_at t 100 5 = [1; 2; 1; 2; 3]).
Proof.
  split; [apply (memmove_correct demo_mem 102 100 3); [lia|done|done]|].
  eexists. split; [reflexivity|]. vm_compute. reflexivity.
Defined.

Lemma memcpy_correct_witness :
  exists t, memcpy 200 100 5 demo_mem = Ret 200 t /\
    mempcpy 200 100 5 demo_mem = Ret 205 t /\
    copied demo_mem t 200 100 5 /\ bytes_at t 200 5 = bytes_at demo_mem 100 5.
Proof. apply (memcpy_correct demo_mem 200 100 5); [lia|done|done|lia]. Defined.
End witnesses.
