(* ===== verification/StrLib.v ===== *)
(** * The string routines of the kernel's C library (klibc/kmem/string.c)

    Strings are NUL-terminated byte ranges of a memory [BMem].  Every loop of
    the source is a [kloop] whose locals are the C locals; [fuel] bounds its
    iterations, and the theorems say that a fuel above the string lengths is
    enough.  [cstr m p l] says that the C string at [p] is the list [l]. *)

From S2P Require Import Prelude Bytes MemLib.
Local Open Scope Z_scope.

Section string_c.
Context {S : Type} `{!BMem S}.
Context (fuel : nat).

Definition ldb (a : Z) : K S Z := kasks (fun m => rb m a).
Definition stb (a v : Z) : K S unit := kmod (wb a v).

(** src/klibc/kmem/string.c:3-9 [strlen] *)
Definition strlen (s : Z) : K S Z :=
  kloop fuel (fun len =>
    c ← ldb (s + len);
    mret (if c =? 0 then inr len else inl (len + 1))) 0.

(** src/klibc/kmem/string.c:11-17 [strnlen] *)
Definition strnlen (s max : Z) : K S Z :=
  kloop fuel (fun len =>
    if len <? max then
      c ← ldb (s + len);
      mret (if c =? 0 then inr len else inl (len + 1))
    else mret (inr len)) 0.

(** src/klibc/kmem/string.c:19-25 [stpcpy] *)
Definition stpcpy (dest src : Z) : K S Z :=
  len ← strlen src;
  p ← mempcpy dest src len;
  stb p 0;;
  mret p.

(** src/klibc/kmem/string.c:27-32 [stpncpy] *)
Definition stpncpy (dest src n : Z) : K S Z :=
  len ← strnlen src n;
  d ← memcpy dest src len;
  memset d 0 (u64 (n - len)).

(** src/klibc/kmem/string.c:34-38 [strcpy] *)
Definition strcpy (dest src : Z) : K S Z :=
  stpcpy dest src;; mret dest.

(** src/klibc/kmem/string.c:40-44 [strncpy] *)
Definition strncpy (dest src n : Z) : K S Z :=
  stpncpy dest src n;; mret dest.

(** src/klibc/kmem/string.c:46-50 [strcat] *)
Definition strcat (dest src : Z) : K S Z :=
  len ← strlen dest;
  stpcpy (dest + len) src;;
  mret dest.

(** src/klibc/kmem/string.c:52-60 [strcmp] *)
Definition strcmp (a b : Z) : K S Z :=
  kloop fuel (fun '(a, b) =>
    ca ← ldb a;
    cb ← ldb b;
    mret (if negb (ca =? 0) && (ca =? cb) then inl (a + 1, b + 1)
          else inr (ca - cb))) (a, b).

(** src/klibc/kmem/string.c:62-71 [strncmp] *)
Definition strncmp (a b n : Z) : K S Z :=
  kloop fuel (fun '(a, b, n) =>
    ca ← ldb a;
    cb ← ldb b;
    mret (if negb (n =? 0) && negb (ca =? 0) && (ca =? cb)
          then inl (a + 1, b + 1, n - 1)
          else inr (if negb (n =? 0) then ca - cb else 0))) (a, b, n).

(** src/klibc/kmem/string.c:73-82 [strchr] *)
Definition strchr (s c : Z) : K S Z :=
  kloop fuel (fun s =>
    x ← ldb s;
    mret (if x =? 0 then inr NULL
          else if x =? u8 c then inr s
          else inl (s + 1))) s.

(** src/klibc/kmem/string.c:84-94 [strrchr] *)
Definition strrchr (s c : Z) : K S Z :=
  kloop fuel (fun '(s, last) =>
    x ← ldb s;
    mret (if x =? 0 then inr last
          else inl (s + 1, if x =? u8 c then s else last))) (s, NULL).

(** src/klibc/kmem/string.c:103-110 [strstr] *)
Definition strstr_match (h n : Z) : K S Z :=
  kloop fuel (fun '(h, n) =>
    ch ← ldb h;
    cn ← ldb n;
    mret (if negb (ch =? 0) && negb (cn =? 0) && (ch =? cn)
          then inl (h + 1, n + 1) else inr n)) (h, n).

(** src/klibc/kmem/string.c:96-117 [strstr] *)
Definition strstr (haystack needle : Z) : K S Z :=
  c ← ldb needle;
  if c =? 0 then mret haystack else
  kloop fuel (fun haystack =>
    x ← ldb haystack;
    if x =? 0 then mret (inr NULL) else
    n ← strstr_match haystack needle;
    cn ← ldb n;
    mret (if cn =? 0 then inr haystack else inl (haystack + 1))) haystack.

(** src/klibc/kmem/string.c:119-124 [strdup] *)
Definition strdup (kmalloc : Z -> K S Z) (str : Z) : K S Z :=
  len ← strlen str;
  new_str ← kmalloc (len + 1);
  strcpy new_str str.

(** The scan of [strtok_r]: advance while the character is (or is not) one of
    [delim]; [strchr] answers NULL for the terminator, so both scans look at
    it explicitly as the source does.
    src/klibc/kmem/string.c:134-135 [strtok_r] *)
Definition strtok_skip (delim : Z) (p : Z) : K S Z :=
  kloop fuel (fun p =>
    c ← ldb p;
    q ← strchr delim c;
    mret (if negb (q =? NULL) then inl (p + 1) else inr p)) p.

(** src/klibc/kmem/string.c:137-138 [strtok_r] *)
Definition strtok_span (delim : Z) (p : Z) : K S Z :=
  kloop fuel (fun p =>
    c ← ldb p;
    q ← strchr delim c;
    mret (if (q =? NULL) && negb (c =? 0) then inl (p + 1) else inr p)) p.

(** [*save_ptr] is passed in and out as the second component.
    src/klibc/kmem/string.c:126-143 [strtok_r] *)
Definition strtok_r (str delim save : Z) : K S (Z * Z) :=
  if negb (str =? NULL) then mret (NULL, str) else
  ret ← strtok_skip delim save;
  save' ← strtok_span delim ret;
  c ← ldb ret;
  mret (if c =? 0 then NULL else ret, save').

(** The static variable [ptr] of the source is the argument [ptr].
    src/klibc/kmem/string.c:145-149 [strtok] *)
Definition strtok (str delim ptr : Z) : K S (Z * Z) := strtok_r str delim ptr.

(** The copy loop of [strlcpy]: [n] is decremented before each test.
    src/klibc/kmem/string.c:158-162 [strlcpy] *)
Definition strlcpy_copy (n dst s : Z) : K S (Z * Z * Z) :=
  kloop fuel (fun '(n, dst, s) =>
    let n := n - 1 in
    if n =? 0 then mret (inr (n, dst, s)) else
    c ← ldb s;
    stb dst c;;
    mret (if c =? 0 then inr (n, dst + 1, s + 1) else inl (n, dst + 1, s + 1)))
    (n, dst, s).

(** src/klibc/kmem/string.c:169-170 [strlcpy] *)
Definition strlcpy_rest (s : Z) : K S Z :=
  kloop fuel (fun s =>
    c ← ldb s;
    mret (if c =? 0 then inr (s + 1) else inl (s + 1))) s.

(** src/klibc/kmem/string.c:151-174 [strlcpy] *)
Definition strlcpy (dst src size : Z) : K S Z :=
  '(n, dst, s) ← (if negb (size =? 0) then strlcpy_copy size dst src
                  else mret (size, dst, src));
  s ← (if n =? 0 then
         kwhen (negb (size =? 0)) (stb dst 0);;
         strlcpy_rest s
       else mret s);
  mret (s - src - 1).

(** src/klibc/kmem/string.c:176-192 [strlcat] *)
Definition strlcat (dst src size : Z) : K S Z :=
  dlen ← strnlen dst size;
  slen ← strlen src;
  if dlen =? size then mret (size + slen) else
  let copy := size - dlen - 1 in
  let copy := if slen <? copy then slen else copy in
  memcpy (dst + dlen) src copy;;
  stb (dst + dlen + copy) 0;;
  mret (dlen + slen).
End string_c.

(** ** C strings and the functions the routines compute *)
Section spec.
Context {S : Type} `{!BMem S}.

Definition cstr (m : S) (p : Z) (l : list Z) : Prop :=
  (forall i c, l !! i = Some c -> rb m (p + Z.of_nat i) = c /\ c <> 0) /\
  rb m (p + Z.of_nat (length l)) = 0.
End spec.

(** What [strcmp] returns: the difference at the first differing position of
    the two terminated strings. *)
Fixpoint str_diff (l1 l2 : list Z) : Z :=
  match l1, l2 with
  | [], [] => 0
  | [], y :: _ => 0 - y
  | x :: _, [] => x - 0
  | x :: l1', y :: l2' => if x =? y then str_diff l1' l2' else x - y
  end.

(** Position of the first occurrence of [n] as a factor of [h]. *)
Fixpoint find_factor (h n : list Z) : option nat :=
  if decide (n `prefix_of` h) then Some O
  else match h with
       | [] => None
       | _ :: h' => Datatypes.S <$> find_factor h' n
       end.

(** Length of the longest prefix whose characters satisfy [P]. *)
Fixpoint span (P : Z -> bool) (l : list Z) : nat :=
  match l with
  | x :: l' => if P x then Datatypes.S (span P l') else O
  | [] => O
  end.

Section lemmas.
Context {S : Type} `{!BMem S} `{!BMemOk S}.
Implicit Types (m t : S) (l : list Z).

Lemma cstr_nil m p : cstr m p [] -> rb m p = 0.
Proof. intros [_ H]. by rewrite Z.add_0_r in H. Qed.

Lemma cstr_cons m p x l :
  cstr m p (x :: l) -> rb m p = x /\ x <> 0 /\ cstr m (p + 1) l.
Proof.
  intros [H H0]. destruct (H O x) as [Hx Hne]; [done|].
  rewrite Z.add_0_r in Hx. split_and!; [done..|]. split.
  - intros i c Hi. replace (p + 1 + Z.of_nat i) with (p + Z.of_nat (Datatypes.S i)) by lia.
    by apply H.
  - replace (p + 1 + Z.of_nat (length l))
      with (p + Z.of_nat (length (x :: l))) by (cbn; lia). done.
Qed.

Lemma cstr_cons_intro m p x l :
  rb m p = x -> x <> 0 -> cstr m (p + 1) l -> cstr m p (x :: l).
Proof.
  intros Hx Hne [H H0]. split.
  - intros [|i] c Hi; cbn in Hi.
    + simplify_eq. by rewrite Z.add_0_r.
    + replace (p + Z.of_nat (Datatypes.S i)) with (p + 1 + Z.of_nat i) by lia. by apply H.
  - cbn. replace (p + Z.of_nat (Datatypes.S (length l)))
      with (p + 1 + Z.of_nat (length l)) by lia. done.
Qed.

(** The head character of a string, its terminator included. *)
Lemma cstr_head m p l : cstr m p l -> rb m p = hd 0 l.
Proof. destruct l; [apply cstr_nil|]. intros H. by apply cstr_cons in H as (? & ? & ?). Qed.

(** A memory that agrees on the string and its terminator holds the same string. *)
Lemma cstr_ext m t p l :
  (forall i, 0 <= i <= Z.of_nat (length l) -> rb t (p + i) = rb m (p + i)) ->
  cstr m p l -> cstr t p l.
Proof.
  intros Hag [H H0]. split.
  - intros i c Hi. rewrite Hag; [by apply H|]. apply lookup_lt_Some in Hi. lia.
  - rewrite Hag; [done|lia].
Qed.

Lemma cstr_suffix m p l k :
  cstr m p l -> (k <= length l)%nat -> cstr m (p + Z.of_nat k) (drop k l).
Proof.
  intros [H H0] Hk. split.
  - intros i c Hi. rewrite lookup_drop in Hi.
    replace (p + Z.of_nat k + Z.of_nat i) with (p + Z.of_nat (k + i)) by lia. by apply H.
  - rewrite length_drop.
    replace (p + Z.of_nat k + Z.of_nat (length l - k)) with (p + Z.of_nat (length l)) by lia.
    done.
Qed.

Lemma cstr_char m p l i c : cstr m p l -> l !! i = Some c -> rb m (p + Z.of_nat i) = c.
Proof. intros [H _] Hi. by apply H. Qed.
End lemmas.

(** ** Scanning loops *)

(** Run one body of a loop of this file. *)
Ltac srun := unfold ldb, stb; krun.
Section scans.
Context {S : Type} `{!BMem S} `{!BMemOk S}.
Implicit Types (m t : S) (l : list Z) (fuel : nat).

Lemma strlen_spec fuel m s l :
  cstr m s l -> (length l < fuel)%nat ->
  strlen fuel s m = Ret (Z.of_nat (length l)) m.
Proof.
  unfold strlen. intros Hs Hf.
  cut (forall k, cstr m (s + k) l ->
         kloop fuel (fun len => c ← ldb (s + len);
            mret (if c =? 0 then inr len else inl (len + 1))) k m
         = Ret (k + Z.of_nat (length l)) m).
  { intros H. apply H. by rewrite Z.add_0_r. }
  clear Hs. revert fuel Hf. induction l as [|x l IH]; intros [|fuel] Hf k Hk;
    cbn in Hf; try lia.
  - erewrite kloop_exit; [|srun; by rewrite (cstr_nil _ _ Hk)]. f_equal. cbn. lia.
  - apply cstr_cons in Hk as (Hx & Hne & Hk).
    erewrite kloop_next; [|srun; rewrite Hx; by destruct (Z.eqb_spec x 0)].
    rewrite IH by (try lia; by rewrite Z.add_assoc). f_equal. cbn [length]. lia.
Qed.

Lemma strnlen_spec fuel m s l max :
  cstr m s l -> 0 <= max -> (length l < fuel)%nat ->
  strnlen fuel s max m = Ret (Z.min max (Z.of_nat (length l))) m.
Proof.
  unfold strnlen. intros Hs Hmax Hf.
  cut (forall k, 0 <= k <= max -> cstr m (s + k) l ->
         kloop fuel (fun len => if len <? max then
              c ← ldb (s + len); mret (if c =? 0 then inr len else inl (len + 1))
            else mret (inr len)) k m
         = Ret (Z.min max (k + Z.of_nat (length l))) m).
  { intros H. apply H; [lia|]. by rewrite Z.add_0_r. }
  clear Hs. revert fuel Hf. induction l as [|x l IH]; intros [|fuel] Hf k Hb Hk;
    cbn in Hf; try lia; destruct (Z.ltb_spec k max).
  - erewrite kloop_exit.
    2:{ srun. destruct (Z.ltb_spec k max); [|lia]. cbn. by rewrite (cstr_nil _ _ Hk). }
    f_equal. cbn. lia.
  - erewrite kloop_exit; [|srun; destruct (Z.ltb_spec k max); [lia|done]]. f_equal. cbn. lia.
  - apply cstr_cons in Hk as (Hx & Hne & Hk). erewrite kloop_next.
    2:{ srun. destruct (Z.ltb_spec k max); [|lia]. cbn. rewrite Hx.
        by destruct (Z.eqb_spec x 0). }
    rewrite IH by (try lia; by rewrite Z.add_assoc). f_equal. cbn [length]. lia.
  - erewrite kloop_exit; [|srun; destruct (Z.ltb_spec k max); [lia|done]]. f_equal.
    cbn [length]. lia.
Qed.

Lemma strcmp_spec fuel m a b l1 l2 :
  cstr m a l1 -> cstr m b l2 -> (length l1 < fuel)%nat ->
  strcmp fuel a b m = Ret (str_diff l1 l2) m.
Proof.
  unfold strcmp. revert fuel a b l2. induction l1 as [|x l1 IH]; intros [|fuel] a b l2 Ha Hb Hf;
    cbn in Hf; try lia.
  - erewrite kloop_exit.
    2:{ srun. by rewrite (cstr_nil _ _ Ha), (cstr_head _ _ _ Hb). }
    destruct l2; done.
  - apply cstr_cons in Ha as (Hx & Hne & Ha). destruct l2 as [|y l2].
    + erewrite kloop_exit.
      2:{ srun. rewrite Hx, (cstr_nil _ _ Hb). cbn. destruct (Z.eqb_spec x 0); [lia|].
          cbn. done. }
      done.
    + apply cstr_cons in Hb as (Hy & Hney & Hb). cbn [str_diff].
      destruct (Z.eqb_spec x y) as [->|Hxy].
      * erewrite kloop_next.
        2:{ srun. rewrite Hx, Hy, Z.eqb_refl. by destruct (Z.eqb_spec y 0). }
        apply IH; [done..|lia].
      * erewrite kloop_exit; [done|]. srun. rewrite Hx, Hy.
        destruct (Z.eqb_spec x y); [done|]. by rewrite andb_false_r.
Qed.

Lemma strchr_spec fuel m s l c :
  cstr m s l -> 0 <> s -> 0 <= s -> (length l < fuel)%nat ->
  strchr fuel s c m =
    Ret (match list_find (eq (u8 c)) l with
         | Some (i, _) => s + Z.of_nat i
         | None => NULL
         end) m.
Proof.
  unfold strchr. intros Hs Hs0 Hpos. revert fuel s Hs Hs0 Hpos.
  induction l as [|x l IH]; intros [|fuel] s Hs Hs0 Hpos Hf; cbn in Hf; try lia.
  - erewrite kloop_exit; [done|]. srun. by rewrite (cstr_nil _ _ Hs).
  - apply cstr_cons in Hs as (Hx & Hne & Hs). cbn [list_find].
    destruct (decide (u8 c = x)) as [<-|Hcx].
    + erewrite kloop_exit; [by rewrite Z.add_0_r|]. srun. rewrite Hx, Z.eqb_refl.
      by destruct (Z.eqb_spec (u8 c) 0).
    + erewrite kloop_next.
      2:{ srun. rewrite Hx. destruct (Z.eqb_spec x 0); [done|].
          by destruct (Z.eqb_spec x (u8 c)). }
      rewrite IH by (done || lia). f_equal.
      destruct (list_find (eq (u8 c)) l) as [[i y]|]; cbn; [lia|done].
Qed.

(** The inner loop of [strstr] stops at the end of the needle exactly when the
    needle is a prefix of the haystack at that place. *)
Lemma strstr_match_spec fuel m h n lh ln :
  cstr m h lh -> cstr m n ln -> (length ln < fuel)%nat ->
  exists n', strstr_match fuel h n m = Ret n' m /\
    (rb m n' = 0 <-> ln `prefix_of` lh).
Proof.
  unfold strstr_match. revert fuel h n lh.
  induction ln as [|y ln IH]; intros [|fuel] h n lh Hh Hn Hf; cbn in Hf; try lia.
  - exists n. split.
    + erewrite kloop_exit; [done|]. srun. rewrite (cstr_nil _ _ Hn). cbn.
      by rewrite andb_false_r.
    + rewrite (cstr_nil _ _ Hn). split; [|done]. intros _. apply prefix_nil.
  - pose proof (cstr_cons _ _ _ _ Hn) as (Hy & Hney & Hn').
    destruct lh as [|x lh].
    + exists n. split.
      * erewrite kloop_exit; [done|]. srun. by rewrite (cstr_nil _ _ Hh).
      * rewrite Hy. split; [lia|]. intros [k [=]].
    + apply cstr_cons in Hh as (Hx & Hnex & Hh). destruct (Z.eq_dec x y) as [->|Hxy].
      * destruct (IH fuel (h + 1) (n + 1) lh) as (n' & E & Hiff); [done..|lia|].
        exists n'. split.
        -- erewrite kloop_next; [exact E|]. srun. rewrite Hx, Hy, Z.eqb_refl.
           by destruct (Z.eqb_spec y 0).
        -- rewrite Hiff. split; [apply prefix_cons|apply prefix_cons_inv_2].
      * exists n. split.
        -- erewrite kloop_exit; [done|]. srun. rewrite Hx, Hy.
           destruct (Z.eqb_spec x y); [done|]. by rewrite andb_false_r.
        -- rewrite Hy. split; [lia|]. intros Hp. by apply prefix_cons_inv_1 in Hp.
Qed.

Lemma strstr_loop_spec fuel f m h n lh ln :
  cstr m h lh -> cstr m n ln -> ln <> [] -> (length ln < f)%nat -> (length lh < fuel)%nat ->
  kloop fuel (fun haystack =>
    x ← ldb haystack;
    if x =? 0 then mret (inr NULL) else
    n' ← strstr_match f haystack n;
    cn ← ldb n';
    mret (if cn =? 0 then inr haystack else inl (haystack + 1))) h m
  = Ret (match find_factor lh ln with Some i => h + Z.of_nat i | None => NULL end) m.
Proof.
  intros Hh Hn Hne Hf. revert fuel h Hh.
  induction lh as [|x lh IH]; intros [|fuel] h Hh Hfl; cbn in Hfl; try lia.
  - erewrite kloop_exit; [|srun; by rewrite (cstr_nil _ _ Hh)].
    cbn. destruct (decide _) as [Hp|]; [|done]. by apply prefix_nil_inv in Hp.
  - destruct (strstr_match_spec f m h n (x :: lh) ln) as (n' & E & Hiff); [done..|].
    pose proof (cstr_cons _ _ _ _ Hh) as (Hx & Hnex & Hh').
    assert (Hbody : forall r, rb m n' = r ->
      (c ← ldb h; if c =? 0 then mret (inr NULL) else
       n'' ← strstr_match f h n; cn ← ldb n'';
       mret (if cn =? 0 then inr h else inl (h + 1))) m
      = Ret (if r =? 0 then inr h else inl (h + 1)) m).
    { intros r Hr. srun. rewrite Hx. destruct (Z.eqb_spec x 0); [done|].
      rewrite E. by rewrite Hr. }
    cbn [find_factor]. destruct (decide (ln `prefix_of` x :: lh)) as [Hp|Hp].
    + erewrite kloop_exit; [by rewrite Z.add_0_r|].
      by rewrite (Hbody 0) by (by apply Hiff).
    + erewrite kloop_next.
      2:{ rewrite (Hbody _ eq_refl). destruct (Z.eqb_spec (rb m n') 0) as [H0|_]; [|done].
          by apply Hiff in H0. }
      rewrite IH by (done || lia).
      destruct (find_factor lh ln); cbn; f_equal; lia.
Qed.

(** [strchr] as a membership test: it answers NULL exactly for characters that
    are not in the (non-NULL) string. *)
Lemma strchr_null fuel m s l c :
  cstr m s l -> 0 < s -> (length l < fuel)%nat ->
  exists q, strchr fuel s c m = Ret q m /\ (q =? NULL) = negb (bool_decide (u8 c ∈ l)).
Proof.
  intros Hs Hp Hf. eexists. split; [by apply (strchr_spec _ _ _ l); (done || lia)|].
  destruct (list_find (eq (u8 c)) l) as [[i x]|] eqn:E.
  - apply list_find_Some in E as (Hi & <- & _).
    rewrite bool_decide_eq_true_2 by (by eapply list_elem_of_lookup_2).
    unfold NULL. by destruct (Z.eqb_spec (s + Z.of_nat i) 0); [lia|].
  - apply list_find_None in E. rewrite bool_decide_eq_false_2; [done|].
    intros Hin. rewrite Forall_forall in E. by eapply E.
Qed.

(** One scan of [strtok_r]: it stops at the first character outside [P]. *)
Lemma strtok_scan_spec fuel f m p delim l d (neg : bool) :
  cstr m p l -> cstr m delim d -> 0 < delim ->
  (length d < f)%nat -> (length l < fuel)%nat ->
  Forall (fun c => 0 <= c < 256) l ->
  kloop fuel (fun p =>
    c ← ldb p;
    q ← strchr f delim c;
    mret (if (if neg then (q =? NULL) && negb (c =? 0) else negb (q =? NULL))
          then inl (p + 1) else inr p)) p m
  = Ret (p + Z.of_nat (span (fun c => if neg then negb (bool_decide (c ∈ d))
                                      else bool_decide (c ∈ d)) l)) m.
Proof.
  intros Hp Hd Hpos Hfd. revert fuel p Hp.
  assert (H0d : 0 ∉ d).
  { intros (i & Hi)%list_elem_of_lookup. by apply Hd in Hi as []. }
  induction l as [|x l IH]; intros [|fuel] p Hp Hf Hb; cbn in Hf; try lia.
  - erewrite kloop_exit; [by rewrite Z.add_0_r|]. srun. rewrite (cstr_nil _ _ Hp).
    destruct (strchr_null f m delim d 0) as (q & -> & ->); [done|lia|done|].
    rewrite bool_decide_eq_false_2 by done. by destruct neg.
  - apply Forall_cons in Hb as [Hx0 Hb]. apply cstr_cons in Hp as (Hx & Hne & Hp).
    destruct (strchr_null f m delim d x) as (q & E & Hq); [done|lia|done|].
    rewrite (wrap_small 8 x) in Hq by done. cbn [span].
    assert (Hif : (if neg then (q =? NULL) && negb (x =? 0) else negb (q =? NULL))
                = (if neg then negb (bool_decide (x ∈ d)) else bool_decide (x ∈ d))).
    { rewrite Hq, negb_involutive. destruct (Z.eqb_spec x 0); [done|].
      by rewrite andb_true_r. }
    destruct (if neg then _ else _) eqn:Hg in |- *.
    + erewrite kloop_next by (srun; rewrite Hx, E, Hif; by rewrite Hg).
      rewrite IH by (done || lia). f_equal. lia.
    + erewrite kloop_exit; [by rewrite Z.add_0_r|]. srun. rewrite Hx, E, Hif. by rewrite Hg.
Qed.
End scans.

(** ** Bounded copies *)
Section copies.
Context {S : Type} `{!BMem S} `{!BMemOk S}.
Implicit Types (m t : S) (l : list Z) (fuel : nat).

Lemma copied_refl m dst src c : c <= 0 -> copied m m dst src c.
Proof. intros. split; [done|]. intros a _. zcase; cbn; try done; lia. Qed.

Lemma copied_cons m t dst src c :
  valid m dst -> 0 <= c ->
  (forall a, dst + 1 <= a < dst + 1 + c -> src + (a - dst) <> dst) ->
  (forall a, dst + 1 <= a < dst + 1 + c -> valid m (src + (a - dst))) ->
  copied (wb dst (rb m src) m) t (dst + 1) (src + 1) c ->
  copied m t dst src (c + 1).
Proof.
  intros Hd Hc Hne Hvs [Hv Hr]. split.
  { intros a. by rewrite Hv, valid_wb. }
  intros a Ha. rewrite Hr by (by apply valid_wb).
  destruct (Z.leb_spec (dst + 1) a), (Z.ltb_spec a (dst + 1 + c)); cbn.
  - replace (src + 1 + (a - (dst + 1))) with (src + (a - dst)) by lia.
    rewrite rb_wb_if by (done || apply Hvs; lia).
    destruct (Z.eqb_spec (src + (a - dst)) dst) as [E|_]; [by apply Hne in E; [|lia]|].
    zcase; cbn; try done; lia.
  - rewrite rb_wb_if by done. destruct (Z.eqb_spec a dst); [lia|].
    zcase; cbn; try done; lia.
  - rewrite rb_wb_if by done. rewrite wrap_small by apply rb_range.
    destruct (Z.eqb_spec a dst) as [->|].
    + replace (src + (dst - dst)) with src by lia. zcase; cbn; try done; lia.
    + zcase; cbn; try done; lia.
  - lia.
Qed.

(** The copy loop of [strlcpy]: it stops after the terminator, or after [n - 1]
    bytes with [n = 0]. *)
Lemma strlcpy_copy_spec fuel m l n dst s :
  cstr m s l -> 1 <= n -> (length l < fuel)%nat ->
  valid_range m dst n -> valid_range m s (Z.of_nat (length l) + 1) ->
  dst + n <= s \/ s + Z.of_nat (length l) + 1 <= dst ->
  exists t n' d' s', strlcpy_copy fuel n dst s m = Ret (n', d', s') t /\
    copied m t dst s (Z.min (Z.of_nat (length l) + 1) (n - 1)) /\
    if Z.of_nat (length l) <? n - 1
    then n' <> 0 /\ s' = s + Z.of_nat (length l) + 1
    else n' = 0 /\ d' = dst + (n - 1) /\ s' = s + (n - 1).
Proof.
  unfold strlcpy_copy. revert fuel m n dst s.
  induction l as [|x l IH]; intros [|fuel] m n dst s Hs Hn Hf Hd Hv Hdis;
    cbn [length] in *; try lia;
    (destruct (Z.eq_dec n 1) as [->|Hn1];
      [exists m, 0, dst, s; split_and!;
        [by erewrite kloop_exit by done|apply copied_refl; lia|
         zcase; try lia; split_and!; lia]|]).
  - exists (wb dst 0 m), (n - 1), (dst + 1), (s + 1). split_and!.
    + erewrite kloop_exit; [done|]. srun. destruct (Z.eqb_spec (n - 1) 0); [lia|].
      by rewrite (cstr_nil _ _ Hs).
    + replace (Z.min _ _) with (0 + 1) by lia. apply copied_cons; try lia.
      * apply (valid_range_at _ _ _ _ Hd). lia.
      * rewrite (cstr_nil _ _ Hs). apply copied_refl. lia.
    + zcase; [split; lia|lia].
  - apply cstr_cons in Hs as (Hx & Hne & Hs).
    assert (Hvd : valid m dst) by (apply (valid_range_at _ _ _ _ Hd); lia).
    destruct (IH fuel (wb dst x m) (n - 1) (dst + 1) (s + 1))
      as (t & n' & d' & s' & E & Hc & Hend); try lia.
    { apply (cstr_ext m); [|done]. intros i Hi.
      apply rb_wb_ne; [done| |lia]. apply (valid_range_at _ _ _ _ Hv). lia. }
    { apply valid_range_wb; [done|]. apply (valid_range_sub _ _ _ _ _ Hd); lia. }
    { apply valid_range_wb; [done|]. apply (valid_range_sub _ _ _ _ _ Hv); lia. }
    exists t, n', d', s'. split_and!.
    + erewrite kloop_next; [exact E|]. srun. destruct (Z.eqb_spec (n - 1) 0); [lia|].
      rewrite Hx. by destruct (Z.eqb_spec x 0).
    + replace (Z.min _ _)
        with (Z.min (Z.of_nat (length l) + 1) (n - 1 - 1) + 1) by lia.
      apply copied_cons; try done; try lia.
      * intros a Ha. apply (valid_range_at _ _ _ _ Hv). lia.
      * by rewrite Hx.
    + destruct (Z.ltb_spec (Z.of_nat (length l)) (n - 1 - 1)),
        (Z.ltb_spec (Z.of_nat (Datatypes.S (length l))) (n - 1)); try lia;
        destruct_and?; split_and!; lia.
Qed.

Lemma strlcpy_rest_spec fuel m s l :
  cstr m s l -> (length l < fuel)%nat ->
  strlcpy_rest fuel s m = Ret (s + Z.of_nat (length l) + 1) m.
Proof.
  unfold strlcpy_rest. revert fuel s.
  induction l as [|x l IH]; intros [|fuel] s Hs Hf; cbn in Hf; try lia.
  - erewrite kloop_exit; [|srun; by rewrite (cstr_nil _ _ Hs)]. f_equal. cbn. lia.
  - apply cstr_cons in Hs as (Hx & Hne & Hs). erewrite kloop_next.
    2:{ srun. rewrite Hx. by destruct (Z.eqb_spec x 0). }
    rewrite IH by (done || lia). f_equal. cbn [length]. lia.
Qed.

(** A copy of [k] characters of a string followed by a terminator is the
    [k]-prefix of that string. *)
Lemma cstr_of_prefix m t dst src l k :
  cstr m src l -> (k <= length l)%nat ->
  (forall i, 0 <= i < Z.of_nat k -> rb t (dst + i) = rb m (src + i)) ->
  rb t (dst + Z.of_nat k) = 0 ->
  cstr t dst (take k l).
Proof.
  intros [Hs _] Hk Hc H0. split.
  - intros i c Hi. apply lookup_take_Some in Hi as [Hi Hik].
    rewrite Hc by lia. by apply Hs.
  - rewrite length_take. by replace (k `min` length l)%nat with k by lia.
Qed.

(** A string followed by [k] characters of another one and a terminator. *)
Lemma cstr_append m t dst src l1 l2 k :
  cstr m dst l1 -> cstr m src l2 -> 0 <= k <= Z.of_nat (length l2) ->
  (forall i, 0 <= i < Z.of_nat (length l1) -> rb t (dst + i) = rb m (dst + i)) ->
  (forall i, 0 <= i < k -> rb t (dst + Z.of_nat (length l1) + i) = rb m (src + i)) ->
  rb t (dst + Z.of_nat (length l1) + k) = 0 ->
  cstr t dst (l1 ++ take (Z.to_nat k) l2).
Proof.
  intros [H1 _] [H2 _] Hk Hc1 Hc2 H0. split.
  - intros i c Hi. apply lookup_app_Some in Hi as [Hi|[Hle Hi]].
    + rewrite Hc1 by (apply lookup_lt_Some in Hi; lia). by apply H1.
    + apply lookup_take_Some in Hi as [Hi Hik].
      replace (dst + Z.of_nat i)
        with (dst + Z.of_nat (length l1) + Z.of_nat (i - length l1)) by lia.
      rewrite Hc2 by lia. by apply H2.
  - rewrite length_app, length_take.
    replace (dst + _) with (dst + Z.of_nat (length l1) + k) by lia. done.
Qed.
End copies.

(** ** The reference functions *)
Lemma str_diff_zero l1 l2 :
  Forall (fun c => c <> 0) l1 -> Forall (fun c => c <> 0) l2 ->
  (str_diff l1 l2 = 0 <-> l1 = l2).
Proof.
  revert l2. induction l1 as [|x l1 IH]; intros [|y l2] H1 H2; cbn.
  - done.
  - apply Forall_cons in H2 as [? _]. split; [lia|done].
  - apply Forall_cons in H1 as [? _]. split; [lia|done].
  - apply Forall_cons in H1 as [? ?], H2 as [? ?].
    destruct (Z.eqb_spec x y) as [->|]; [rewrite IH by done|]; split;
      (by intros ->) || (by intros [= ->]) || (intros; lia) || (by intros [= ?]; congruence).
Qed.

Lemma str_diff_opp l1 l2 : str_diff l2 l1 = - str_diff l1 l2.
Proof.
  revert l2. induction l1 as [|x l1 IH]; intros [|y l2]; cbn; [lia..|].
  rewrite (Z.eqb_sym y x). destruct (x =? y); [apply IH|lia].
Qed.

Lemma find_factor_Some h n i :
  find_factor h n = Some i <->
  n `prefix_of` drop i h /\ (i <= length h)%nat /\
  forall j, (j < i)%nat -> ~ n `prefix_of` drop j h.
Proof.
  revert i. induction h as [|x h IH]; intros i; cbn [find_factor];
    destruct (decide _) as [Hp|Hp].
  - split; [|intros (_ & Hi & _); cbn in Hi; f_equal; lia].
    intros [= <-]. split_and!; [done|lia|intros; lia].
  - split; [done|]. intros (Hpi & Hi & _). cbn in Hi.
    replace i with O in Hpi by lia. done.
  - split.
    + intros [= <-]. split_and!; [done|lia|intros; lia].
    + intros (_ & _ & Hmin). destruct i; [done|]. by destruct (Hmin O ltac:(lia)).
  - rewrite fmap_Some. split.
    + intros (k & Hk & ->). apply IH in Hk as (Hpk & Hlen & Hmin).
      split_and!; [done|cbn; lia|]. intros [|j] Hj; [done|]. apply Hmin. lia.
    + intros (Hpi & Hi & Hmin). destruct i as [|i]; [done|].
      exists i. split; [|done]. apply IH. split_and!; [done|cbn in Hi; lia|].
      intros j Hj. apply (Hmin (Datatypes.S j)). lia.
Qed.

Lemma find_factor_None h n :
  find_factor h n = None <-> forall j, ~ n `prefix_of` drop j h.
Proof.
  split.
  - induction h as [|x h IH]; cbn [find_factor]; destruct (decide _) as [Hp|Hp]; try done.
    + intros _ j. by rewrite drop_nil.
    + intros Hn [|j]; [done|]. apply IH. by destruct (find_factor h n).
  - intros H. destruct (find_factor h n) as [i|] eqn:E; [|done].
    apply find_factor_Some in E as (Hp & _). by apply H in Hp.
Qed.

Lemma span_le P l : (span P l <= length l)%nat.
Proof. induction l as [|x l IH]; cbn; [lia|]. destruct (P x); lia. Qed.

(** ** Properties *)
Section properties.
Context {S : Type} `{!BMem S} `{!BMemOk S}.
Implicit Types (m t : S) (l : list Z) (fuel : nat).

Lemma cstr_Forall m p l : cstr m p l -> Forall (fun c => c <> 0) l.
Proof.
  intros [H _]. apply Forall_lookup. intros i c Hi. by apply H in Hi as [_ ?].
Qed.

(** [strlcpy] terminates, returns the length of the source string, leaves
    in the destination the source truncated to [size - 1] characters and
    NUL-terminated, and writes nothing past that terminator. *)
Theorem strlcpy_correct fuel m dst src size l
    (Hs : cstr m src l) (Hsize : 1 <= size) (Hfuel : (length l < fuel)%nat)
    (Hd : valid_range m dst size)
    (Hv : valid_range m src (Z.of_nat (length l) + 1))
    (Hdis : dst + size <= src \/ src + Z.of_nat (length l) + 1 <= dst) :
  exists t, strlcpy fuel dst src size m = Ret (Z.of_nat (length l)) t /\
    cstr t dst (take (Z.to_nat (size - 1)) l) /\
    (forall a, valid m a ->
       a < dst \/ dst + Z.min (Z.of_nat (length l) + 1) size <= a -> rb t a = rb m a).
Proof.
  destruct (strlcpy_copy_spec fuel m l size dst src)
    as (t & n' & d' & s' & E & [Hvt Hr] & Hend); [done..|lia|].
  assert (Hch : forall i, 0 <= i < Z.min (Z.of_nat (length l) + 1) (size - 1) ->
            rb t (dst + i) = rb m (src + i)).
  { intros i Hi. rewrite Hr by (apply Hd; lia).
    replace (src + (dst + i - dst)) with (src + i) by lia. zcase; cbn; try done; lia. }
  unfold strlcpy. destruct (Z.eqb_spec size 0); [lia|]. cbn [negb].
  rewrite (kbind_ret _ _ _ _ _ E). cbn beta iota.
  destruct (Z.ltb_spec (Z.of_nat (length l)) (size - 1)) as [Hlt|Hge].
  - destruct Hend as [Hn' ->]. destruct (Z.eqb_spec n' 0); [done|].
    exists t. split_and!.
    + krun. f_equal. lia.
    + replace (take _ l) with (take (length l) l) by (by rewrite !take_ge by lia).
      apply (cstr_of_prefix m _ _ src); [done|lia|intros; apply Hch; lia|].
      rewrite Hch by lia. apply Hs.
    + intros a Ha Hout. rewrite Hr by done. zcase; cbn; try done; lia.
  - destruct Hend as (-> & -> & ->). cbn [Z.eqb].
    assert (Hvd : valid t (dst + (size - 1))) by (apply Hvt, Hd; lia).
    exists (wb (dst + (size - 1)) 0 t). split_and!.
    + unfold stb. erewrite kbind_ret; [|].
      2:{ erewrite kbind_ret by reflexivity.
          apply (strlcpy_rest_spec _ _ _ (drop (Z.to_nat (size - 1)) l)).
          - replace (src + (size - 1)) with (src + Z.of_nat (Z.to_nat (size - 1))) by lia.
            apply cstr_suffix; [|lia]. apply (cstr_ext m); [|done].
            intros i Hi. rewrite rb_wb_if by (done || apply Hvt, Hv; lia).
            rewrite Hr by (apply Hv; lia). zcase; cbn; try done; lia.
          - rewrite length_drop. lia. }
      krun. f_equal. rewrite length_drop. lia.
    + apply (cstr_of_prefix m _ _ src); [done|lia| |].
      * intros i Hi. rewrite rb_wb_if by (done || apply Hvt, Hd; lia).
        rewrite Hch by lia. zcase; cbn; try done; lia.
      * rewrite rb_wb_if by (done || apply Hvt, Hd; lia). zcase; [done|lia].
    + intros a Ha Hout. rewrite rb_wb_if by (done || by apply Hvt).
      rewrite Hr by done. zcase; cbn; try done; lia.
Qed.

(** [strlcat] terminates, returns the sum of the two lengths, and leaves in
    the destination the concatenation truncated to [size - 1] characters. *)
Theorem strlcat_correct fuel m dst src size l1 l2
    (H1 : cstr m dst l1) (H2 : cstr m src l2)
    (Hsize : Z.of_nat (length l1) < size)
    (Hfuel : (length l1 < fuel)%nat) (Hfuel2 : (length l2 < fuel)%nat)
    (Hd : valid_range m dst size)
    (Hv : valid_range m src (Z.of_nat (length l2) + 1))
    (Hdis : dst + size <= src \/ src + Z.of_nat (length l2) + 1 <= dst) :
  exists t, strlcat fuel dst src size m
              = Ret (Z.of_nat (length l1) + Z.of_nat (length l2)) t /\
    cstr t dst (take (Z.to_nat (size - 1)) (l1 ++ l2)) /\
    (forall a, valid m a -> a < dst \/ dst + size <= a -> rb t a = rb m a).
Proof.
  unfold strlcat. rewrite (kbind_ret _ _ _ _ _ (strnlen_spec fuel m dst l1 size H1 ltac:(lia) Hfuel)).
  rewrite (kbind_ret _ _ _ _ _ (strlen_spec fuel m src l2 H2 Hfuel2)).
  rewrite Z.min_r by lia. destruct (Z.eqb_spec (Z.of_nat (length l1)) size); [lia|].
  set (n1 := Z.of_nat (length l1)) in *.
  set (c := if Z.of_nat (length l2) <? size - n1 - 1 then Z.of_nat (length l2) else size - n1 - 1).
  assert (Hc : c = Z.min (Z.of_nat (length l2)) (size - n1 - 1)) by (unfold c; zcase; lia).
  clearbody c. subst c.
  destruct (memcpy_run m (dst + n1) src (Z.min (Z.of_nat (length l2)) (size - n1 - 1)))
    as (t & E & [Hvt Hr]); [lia| | |lia|].
  { apply (valid_range_sub _ _ _ _ _ Hd); lia. }
  { apply (valid_range_sub _ _ _ _ _ Hv); lia. }
  rewrite (kbind_ret _ _ _ _ _ E). unfold stb. krun.
  set (c := Z.min _ _) in *. eexists. split; [done|].
  assert (Hve : valid t (dst + n1 + c)) by (apply Hvt, (valid_range_at _ _ _ _ Hd); lia).
  assert (Hpre : forall a, valid m a -> a <> dst + n1 + c ->
            rb (wb (dst + n1 + c) 0 t) a
            = if (dst + n1 <=? a) && (a <? dst + n1 + c) then rb m (src + (a - (dst + n1)))
              else rb m a).
  { intros a Ha Hne. rewrite rb_wb_ne by (done || by apply Hvt). by apply Hr. }
  split.
  - replace (take (Z.to_nat (size - 1)) (l1 ++ l2)) with (l1 ++ take (Z.to_nat c) l2).
    2:{ rewrite take_app, (take_ge l1) by lia. f_equal.
        destruct (Z.le_gt_cases (Z.of_nat (length l2)) (size - n1 - 1)).
        - rewrite !take_ge by lia. done.
        - f_equal. lia. }
    apply (cstr_append m _ _ src); [done..|lia| | |].
    + fold n1. intros i Hi. rewrite Hpre by (try apply Hd; lia). zcase; cbn; try done; lia.
    + fold n1. intros i Hi. rewrite Hpre by (try (apply (valid_range_at _ _ _ _ Hd)); lia).
      replace (src + (dst + n1 + i - (dst + n1))) with (src + i) by lia.
      zcase; cbn; try done; lia.
    + rewrite rb_wb_eq by done. done.
  - intros a Ha Hout. rewrite Hpre by (done || lia). zcase; cbn; try done; lia.
Qed.
(** [strcmp] terminates with the difference of the first differing
    characters: it is 0 exactly on equal strings, and swapping the arguments
    negates it. *)
Theorem strcmp_correct fuel m a b l1 l2
    (H1 : cstr m a l1) (H2 : cstr m b l2)
    (Hf1 : (length l1 < fuel)%nat) (Hf2 : (length l2 < fuel)%nat) :
  strcmp fuel a b m = Ret (str_diff l1 l2) m /\
  (str_diff l1 l2 = 0 <-> l1 = l2) /\
  strcmp fuel b a m = Ret (- str_diff l1 l2) m.
Proof.
  split_and!; [by apply strcmp_spec| |].
  - apply str_diff_zero; by eapply cstr_Forall.
  - rewrite <- str_diff_opp. by apply strcmp_spec.
Qed.

(** [strstr] terminates with the address of the first occurrence of the
    needle: the needle is a prefix of the haystack there and nowhere before;
    it answers NULL exactly when the needle occurs nowhere. *)
Theorem strstr_correct fuel m h n lh ln
    (Hh : cstr m h lh) (Hn : cstr m n ln)
    (Hf1 : (length lh < fuel)%nat) (Hf2 : (length ln < fuel)%nat) :
  (exists i, strstr fuel h n m = Ret (h + Z.of_nat i) m /\ (i <= length lh)%nat /\
     ln `prefix_of` drop i lh /\ forall j, (j < i)%nat -> ~ ln `prefix_of` drop j lh)
  \/ (strstr fuel h n m = Ret NULL m /\ forall j, ~ ln `prefix_of` drop j lh).
Proof.
  assert (E : strstr fuel h n m
    = Ret (match find_factor lh ln with Some i => h + Z.of_nat i | None => NULL end) m).
  { unfold strstr. erewrite kbind_ret by reflexivity.
    rewrite (cstr_head _ _ _ Hn). destruct ln as [|y ln]; cbn [hd].
    - destruct lh; cbn [find_factor]; rewrite decide_True by apply prefix_nil;
        by rewrite Z.add_0_r.
    - destruct (cstr_cons _ _ _ _ Hn) as (_ & Hne & _).
      destruct (Z.eqb_spec y 0); [done|]. by apply (strstr_loop_spec _ _ _ _ _ lh (y :: ln)). }
  destruct (find_factor lh ln) as [i|] eqn:F.
  - left. exists i. apply find_factor_Some in F as (? & ? & ?). done.
  - right. split; [done|]. by apply find_factor_None.
Qed.

(** [stpncpy] (hence [strncpy]) pads at the wrong place: the [n - len] zero
    bytes are written at the start of the destination, because [memcpy] returns
    [dest] and not the end of the copy; with at least one byte of padding the
    destination is the empty string, whatever the source. *)
Theorem stpncpy_pads_from_start fuel m dest src n l
    (Hs : cstr m src l) (Hn : Z.of_nat (length l) < n < 2 ^ 64)
    (Hfuel : (length l < fuel)%nat)
    (Hd : valid_range m dest n) (Hv : valid_range m src (Z.of_nat (length l)))
    (Hdis : dest + n <= src \/ src + Z.of_nat (length l) <= dest) :
  exists t, stpncpy fuel dest src n m = Ret dest t /\
    strncpy fuel dest src n m = Ret dest t /\ cstr t dest [] /\
    forall i, Z.of_nat i < n - Z.of_nat (length l) -> rb t (dest + Z.of_nat i) = 0.
Proof.
  cut (exists t, stpncpy fuel dest src n m = Ret dest t /\
    forall i, Z.of_nat i < n - Z.of_nat (length l) -> rb t (dest + Z.of_nat i) = 0).
  { intros (t & E & H0). exists t. split_and!; [done| | |done].
    - unfold strncpy. by rewrite (kbind_ret _ _ _ _ _ E).
    - split; [by intros i c Hi|]. cbn. apply (H0 O). cbn. lia. }
  unfold stpncpy.
  rewrite (kbind_ret _ _ _ _ _ (strnlen_spec fuel m src l n Hs ltac:(lia) Hfuel)).
  rewrite Z.min_r by lia.
  destruct (memcpy_run m dest src (Z.of_nat (length l))) as (t & E & [Hvt Hr]);
    [lia| |done|lia|].
  { apply (valid_range_sub _ _ _ _ _ Hd); lia. }
  rewrite (kbind_ret _ _ _ _ _ E). rewrite wrap_small by lia.
  destruct (memset_spec t dest 0 (n - Z.of_nat (length l))) as (t' & E' & _ & Hr');
    [lia| |].
  { intros i Hi. apply Hvt, Hd. lia. }
  exists t'. split; [done|]. intros i Hi. rewrite Hr' by (apply Hvt, Hd; lia).
  zcase; cbn; try done; lia.
Qed.

(** [strtok_r]: a call with a string only records it and answers NULL (it
    never yields the first token); a call with NULL answers the maximal run of
    non-delimiters after the leading delimiters, advances the saved pointer to
    its end, and terminates nothing: the memory is unchanged. *)
Theorem strtok_r_tokens fuel m delim save l d
    (Hs : cstr m save l) (Hd : cstr m delim d) (Hpos : 0 < delim)
    (Hf1 : (length l < fuel)%nat) (Hf2 : (length d < fuel)%nat)
    (Hb : Forall (fun c => 0 <= c < 256) l) :
  let k := span (fun c => bool_decide (c ∈ d)) l in
  let j := span (fun c => negb (bool_decide (c ∈ d))) (drop k l) in
  strtok_r fuel NULL delim save m
    = Ret (if bool_decide (k = length l) then NULL else save + Z.of_nat k,
           save + Z.of_nat k + Z.of_nat j) m /\
  (forall str, str <> NULL -> strtok_r fuel str delim save m = Ret (NULL, str) m).
Proof.
  intros k j. split; [|intros str Hne; unfold strtok_r; by destruct (Z.eqb_spec str NULL)].
  unfold strtok_r. cbn [Z.eqb NULL negb].
  unfold strtok_skip, strtok_span.
  rewrite (kbind_ret _ _ _ _ _
    (strtok_scan_spec fuel fuel m save delim l d false Hs Hd Hpos Hf2 Hf1 Hb)).
  assert (Hk : (k <= length l)%nat) by apply span_le.
  assert (Hs' : cstr m (save + Z.of_nat k) (drop k l)) by (by apply cstr_suffix).
  rewrite (kbind_ret _ _ _ _ _
    (strtok_scan_spec fuel fuel m _ delim (drop k l) d true Hs' Hd Hpos Hf2
       ltac:(rewrite length_drop; lia) ltac:(by apply Forall_drop))).
  unfold ldb. krun. fold k. fold j. rewrite (cstr_head _ _ _ Hs'). f_equal. f_equal.
  case_bool_decide as Hl.
  - by rewrite Hl, drop_all.
  - destruct (drop k l) as [|x l'] eqn:Edrop; cbn [hd].
    + apply (f_equal length) in Edrop. rewrite length_drop in Edrop. cbn in Edrop. lia.
    + destruct (cstr_cons _ _ _ _ Hs') as (_ & Hne & _). by destruct (Z.eqb_spec x 0).
Qed.
End properties.

(** ** Witnesses *)

(** "ab,c" at 100, "b" at 200, "," at 300, "ab" at 400, in an otherwise zero
    memory. *)
Definition str_mem : mem :=
  list_to_map [(100, 97); (101, 98); (102, 44); (103, 99); (200, 98); (300, 44);
               (400, 97); (401, 98)].

Lemma str_mem_cstr : cstr str_mem 100 [97; 98; 44; 99] /\ cstr str_mem 200 [98] /\
  cstr str_mem 300 [44] /\ cstr str_mem 400 [97; 98].
Proof.
  split_and!; (split; [|reflexivity]);
    intros [|[|[|[|i]]]] c Hi; cbn in Hi; simplify_eq; (split; [reflexivity|lia]).
Qed.

Lemma strlcpy_correct_witness :
  exists t, strlcpy 10 500 100 3 str_mem = Ret 4 t /\ cstr t 500 [97; 98] /\
    (forall a, valid str_mem a -> a < 500 \/ 503 <= a -> rb t a = rb str_mem a).
Proof.
  apply (strlcpy_correct 10 str_mem 500 100 3 [97; 98; 44; 99]);
    [apply str_mem_cstr|lia|cbn; lia|done|done|cbn; lia].
Defined.

Lemma strlcat_correct_witness :
  exists t, strlcat 10 400 100 6 str_mem = Ret 6 t /\ cstr t 400 [97; 98; 97; 98; 44] /\
    (forall a, valid str_mem a -> a < 400 \/ 406 <= a -> rb t a = rb str_mem a).
Proof.
  apply (strlcat_correct 10 str_mem 400 100 6 [97; 98] [97; 98; 44; 99]);
    [apply str_mem_cstr|apply str_mem_cstr|cbn; lia|cbn; lia|cbn; lia|done|done|cbn; lia].
Defined.

Lemma strcmp_correct_witness :
  strcmp 10 100 400 str_mem = Ret 44 str_mem /\ (44 = 0 <-> [97; 98; 44; 99] = [97; 98]) /\
  strcmp 10 400 100 str_mem = Ret (-44) str_mem.
Proof.
  apply (strcmp_correct 10 str_mem 100 400 [97; 98; 44; 99] [97; 98]);
    [apply str_mem_cstr|apply str_mem_cstr|cbn; lia|cbn; lia].
Defined.

Lemma strstr_correct_witness :
  ((exists i, strstr 10 100 200 str_mem = Ret (100 + Z.of_nat i) str_mem /\ (i <= 4)%nat /\
     [98] `prefix_of` drop i [97; 98; 44; 99] /\
     forall j, (j < i)%nat -> ~ [98] `prefix_of` drop j [97; 98; 44; 99])
  \/ (strstr 10 100 200 str_mem = Ret NULL str_mem /\
       forall j, ~ [98] `prefix_of` drop j [97; 98; 44; 99]))
  /\ strstr 10 100 200 str_mem = Ret 101 str_mem.
Proof.
  split; [|vm_compute; reflexivity].
  apply (strstr_correct 10 str_mem 100 200 [97; 98; 44; 99] [98]);
    [apply str_mem_cstr|apply str_mem_cstr|cbn; lia|cbn; lia].
Defined.

Lemma stpncpy_pads_from_start_witness :
  exists t, stpncpy 10 500 400 5 str_mem = Ret 500 t /\
    strncpy 10 500 400 5 str_mem = Ret 500 t /\ cstr t 500 [] /\
    forall i, Z.of_nat i < 5 - 2 -> rb t (500 + Z.of_nat i) = 0.
Proof.
  apply (stpncpy_pads_from_start 10 str_mem 500 400 5 [97; 98]);
    [apply str_mem_cstr|cbn; lia|cbn; lia|done|done|cbn; lia].
Defined.

Lemma strtok_r_tokens_witness :
  strtok_r 10 NULL 300 100 str_mem = Ret (100, 102) str_mem /\
  (forall str, str <> NULL -> strtok_r 10 str 300 100 str_mem = Ret (NULL, str) str_mem).
Proof.
  apply (strtok_r_tokens 10 str_mem 300 100 [97; 98; 44; 99] [44]);
    [apply str_mem_cstr|apply str_mem_cstr|lia|cbn; lia|cbn; lia|].
  repeat constructor; lia.
Defined.
