(* ===== verification/Console.v ===== *)
(** * Console messages (vterm/kok.c, vterm/kerror.c, vterm/colors.h)

    What a component says on the console is a sequence of events: a colour
    change or a call of [kprintf] with the given text.  [Console] is the
    interface every component state with a console offers; Printf.v and
    Vterm.v model how a text becomes bytes and pixels. *)

From S2P Require Import Prelude.
Local Open Scope Z_scope.

(** src/include/vterm/colors.h:4-10 [COLOR_WHITE] *)
Definition COLOR_BLACK : Z := 0x000000.
Definition COLOR_WHITE : Z := 0xFFFFFF.
Definition COLOR_RED : Z := 0xFF00000.
Definition COLOR_GREEN : Z := 0x00FF00.

Inductive con_event : Type :=
  | SetColor (c : Z)       (* vterm_set_fg_color(c) *)
  | Print (text : string)  (* kprintf(text) *)
  | VtermPrint (text : string). (* vterm_print(text) *)

#[export] Instance con_event_eq_dec : EqDecision con_event.
Proof. solve_decision. Defined.

Class Console (S : Type) := { put_event : con_event -> S -> S }.

Definition newline : string := String (Ascii.ascii_of_nat 10) EmptyString.

Section console.
Context {S : Type} `{!Console S}.

Definition vterm_set_fg_color (c : Z) : K S unit := kmod (put_event (SetColor c)).
Definition kprintf (text : string) : K S unit := kmod (put_event (Print text)).
Definition vterm_print (text : string) : K S unit := kmod (put_event (VtermPrint text)).

(** src/vterm/kok.c:3-8 [kok] *)
Definition kok : K S unit :=
  vterm_set_fg_color COLOR_GREEN;;
  kprintf ("OK" +:+ newline);;
  vterm_set_fg_color COLOR_WHITE.

(** src/vterm/kerror.c:3-8 [kerror] *)
Definition kerror (msg : string) : K S unit :=
  vterm_set_fg_color COLOR_RED;;
  kprintf ("Error: " +:+ msg +:+ newline);;
  vterm_set_fg_color COLOR_WHITE.

(** Interrupts off, then a loop that never ends.
    src/arch/x86_64/asm/hcf.c:3-7 [hcf] *)
Definition hcf {A} : K S A := kstop Halted.
End console.

(** The effect of [kok] and of [kerror] on a state. *)
Definition ok_events : list con_event :=
  [SetColor COLOR_GREEN; Print ("OK" +:+ newline); SetColor COLOR_WHITE].
Definition error_events (msg : string) : list con_event :=
  [SetColor COLOR_RED; Print ("Error: " +:+ msg +:+ newline); SetColor COLOR_WHITE].

Definition put_events {S} `{!Console S} (es : list con_event) (s : S) : S :=
  foldl (fun s e => put_event e s) s es.

Lemma kok_run {S} `{!Console S} (s : S) : kok s = Ret tt (put_events ok_events s).
Proof. done. Qed.

Lemma kerror_run {S} `{!Console S} msg (s : S) :
  kerror msg s = Ret tt (put_events (error_events msg) s).
Proof. done. Qed.
