(* ===== verification/Machine.v ===== *)
(** * The machine state shared by the memory managers

    Physical memory, the page-frame allocator's bitmap, the page-table root and
    the console.  The kernel reaches physical memory through Limine's
    higher-half direct map: a pointer [g_hhdm_offset + p] is the physical byte
    [p], so an access through [physical_to_virtual p] is an access of [phys] at
    [p]. *)

From S2P Require Import Prelude Bytes Console.
Local Open Scope Z_scope.

(** src/include/limine/limine.h:555-560 [limine_memmap_entry] *)
Record memmap_entry := {
  me_base : Z;
  me_length : Z;
  me_type : Z;
}.

Definition LIMINE_MEMMAP_USABLE : Z := 0.
Definition PAGE_SIZE : Z := 4096.

(** The static variables of pmm.c.
    src/arch/x86_64/mem/pmm/pmm.c:3-6 [pmm_bitmap] *)
Record pmm_state := Pmm {
  pmm_bitmap : list Z;       (* the bytes at pmm_bitmap *)
  pmm_bitmap_size : Z;
  managed_base : Z;
  total_pages : Z;
}.

(** src/arch/x86_64/arch.c:3-4 [g_memmap] *)
Record machine := Machine {
  g_memmap : option (list memmap_entry);
  g_hhdm_offset : Z;
  pmm : pmm_state;
  phys : mem;                (* physical memory, byte-addressed *)
  current_pml4 : Z;          (* vmm.c's static variable *)
  cr3 : Z;                   (* the control register *)
  invlpgs : list Z;          (* addresses flushed from the TLB, latest first *)
  con : list con_event;      (* console events, latest last *)
}.

Definition set_memmap v m := Machine v (g_hhdm_offset m) (pmm m) (phys m)
  (current_pml4 m) (cr3 m) (invlpgs m) (con m).
Definition set_pmm v m := Machine (g_memmap m) (g_hhdm_offset m) v (phys m)
  (current_pml4 m) (cr3 m) (invlpgs m) (con m).
Definition set_phys v m := Machine (g_memmap m) (g_hhdm_offset m) (pmm m) v
  (current_pml4 m) (cr3 m) (invlpgs m) (con m).
Definition set_pml4 v m := Machine (g_memmap m) (g_hhdm_offset m) (pmm m) (phys m)
  v (cr3 m) (invlpgs m) (con m).
Definition set_cr3 v m := Machine (g_memmap m) (g_hhdm_offset m) (pmm m) (phys m)
  (current_pml4 m) v (invlpgs m) (con m).
Definition set_invlpgs v m := Machine (g_memmap m) (g_hhdm_offset m) (pmm m) (phys m)
  (current_pml4 m) (cr3 m) v (con m).
Definition set_con v m := Machine (g_memmap m) (g_hhdm_offset m) (pmm m) (phys m)
  (current_pml4 m) (cr3 m) (invlpgs m) v.

#[export] Instance machine_console : Console machine := {
  put_event e m := set_con (con m ++ [e]) m
}.

(** Accesses of physical memory by kernel code. *)
Definition pload64 (p : Z) : K machine Z := kasks (fun m => ld64 (phys m) p).
Definition pstore64 (p v : Z) : K machine unit :=
  kmod (fun m => set_phys (st64 p v (phys m)) m).
Definition on_phys {A} (k : K mem A) : K machine A := klift phys set_phys k.
