(* ===== verification/Pmm.v ===== *)
(** * Memory map and page-frame allocator (mem/mmu/mmu.c, mem/pmm/pmm.c)

    The bitmap allocator: bit [i] set means frame [managed_base + i * 4096] is
    in use.  The abstract specification is the set of free frame indices; the
    theorems say that [init_pmm] makes exactly the frames after the bitmap
    free, that [pmm_alloc_page] takes the lowest free frame (and fails only
    when none is left) and that [pmm_free_page] gives one back. *)

From S2P Require Import Prelude Bytes Console Machine.
Local Open Scope Z_scope.

(** ** Bitmap operations *)

(** src/arch/x86_64/mem/pmm/pmm.c:8-8 [BIT_SET] *)
Definition BIT_SET (b : list Z) (i : Z) : list Z :=
  <[Z.to_nat (i / 8) := u8 (Z.lor (b !!! Z.to_nat (i / 8)) (Z.shiftl 1 (i mod 8)))]> b.

(** src/arch/x86_64/mem/pmm/pmm.c:9-9 [BIT_CLEAR] *)
Definition BIT_CLEAR (b : list Z) (i : Z) : list Z :=
  <[Z.to_nat (i / 8) :=
      u8 (Z.land (b !!! Z.to_nat (i / 8)) (Z.lnot (Z.shiftl 1 (i mod 8))))]> b.

(** src/arch/x86_64/mem/pmm/pmm.c:10-10 [BIT_TEST] *)
Definition BIT_TEST (b : list Z) (i : Z) : bool :=
  negb (Z.land (b !!! Z.to_nat (i / 8)) (Z.shiftl 1 (i mod 8)) =? 0).

(** [for (i = lo; i < lo + n; ++i) if (P i) return i] *)
Fixpoint find_first (n : nat) (lo : Z) (P : Z -> bool) : option Z :=
  match n with
  | O => None
  | S n' => if P lo then Some lo else find_first n' (lo + 1) P
  end.

(** ** mmu.c *)

(** src/arch/x86_64/mem/mmu/mmu.c:3-16 [init_mmu] *)
Definition init_mmu (response : option (list memmap_entry)) : K machine unit :=
  kprintf "MMU...";;
  kmod (set_memmap response);;
  memmap ← kasks g_memmap;
  match memmap with
  | None => kerror "No MMU provided";; hcf
  | Some _ => kok
  end.

(** The loop body of [memmap_find_biggest_region] as a fold over the entries.
    src/arch/x86_64/mem/mmu/mmu.c:18-35 [memmap_find_biggest_region] *)
Definition memmap_find_biggest_region (entries : list memmap_entry) : option memmap_entry :=
  foldl (fun biggest entry =>
    if negb (me_type entry =? LIMINE_MEMMAP_USABLE) then biggest
    else match biggest with
         | None => Some entry
         | Some b => if me_length b <? me_length entry then Some entry else biggest
         end) None entries.

(** ** pmm.c *)

(** src/arch/x86_64/mem/pmm/pmm.c:12-42 [init_pmm] *)
Definition init_pmm : K machine unit :=
  memmap ← kasks g_memmap;
  entries ← kderef memmap;
  kprintf "PMM...";;
  match memmap_find_biggest_region entries with
  | None => kerror "No usable region found";; hcf
  | Some biggest =>
      let total := me_length biggest / PAGE_SIZE in
      let size := (total + 7) / 8 in
      (* the region's own memory holds the bitmap: its old contents are
         overwritten by the first loop *)
      let filled := for_up (Z.to_nat size) 0
                      (fun i b => <[Z.to_nat i := 0xFF]> b) (replicate (Z.to_nat size) 0) in
      let used_pages := (size + PAGE_SIZE - 1) / PAGE_SIZE in
      let bitmap := for_up (Z.to_nat (total - used_pages)) used_pages
                      (fun i b => BIT_CLEAR b i) filled in
      kmod (set_pmm (Pmm bitmap size (me_base biggest) total));;
      kok
  end.

(** src/arch/x86_64/mem/pmm/pmm.c:44-56 [pmm_alloc_page] *)
Definition pmm_alloc_page : K machine Z :=
  p ← kasks pmm;
  match find_first (Z.to_nat (total_pages p)) 0 (fun i => negb (BIT_TEST (pmm_bitmap p) i)) with
  | Some i =>
      kmod (set_pmm (Pmm (BIT_SET (pmm_bitmap p) i) (pmm_bitmap_size p)
                         (managed_base p) (total_pages p)));;
      mret (u64 (managed_base p + i * PAGE_SIZE))
  | None => mret 0
  end.

(** src/arch/x86_64/mem/pmm/pmm.c:58-70 [pmm_free_page] *)
Definition pmm_free_page (physical_address : Z) : K machine unit :=
  p ← kasks pmm;
  if physical_address <? managed_base p then mret tt else
  let i := (physical_address - managed_base p) / PAGE_SIZE in
  kwhen (i <? total_pages p)
    (kmod (set_pmm (Pmm (BIT_CLEAR (pmm_bitmap p) i) (pmm_bitmap_size p)
                        (managed_base p) (total_pages p)))).

(** src/arch/x86_64/mem/pmm/pmm.c:72-82 [pmm_alloc_page_hhdm] *)
Definition pmm_alloc_page_hhdm : K machine Z :=
  physical ← pmm_alloc_page;
  if physical =? 0 then mret NULL else
  off ← kasks g_hhdm_offset;
  mret (u64 (off + physical)).

(** ** Well-formedness and the abstract view *)

(** The bitmap has a bit for every frame and the region fits the address space. *)
Record pmm_wf (p : pmm_state) : Prop := {
  wf_total : 0 <= total_pages p;
  wf_size : pmm_bitmap_size p = (total_pages p + 7) / 8;
  wf_length : length (pmm_bitmap p) = Z.to_nat (pmm_bitmap_size p);
  wf_base : 0 <= managed_base p /\ managed_base p mod PAGE_SIZE = 0;
  wf_end : managed_base p + total_pages p * PAGE_SIZE <= 2 ^ 52;
}.

(** Frame [i] of the region is free. *)
Definition page_free (p : pmm_state) (i : Z) : Prop :=
  0 <= i < total_pages p /\ BIT_TEST (pmm_bitmap p) i = false.

(** The physical address [a] is a frame handed out (or reserved). *)
Definition frame_used (p : pmm_state) (a : Z) : Prop :=
  forall i, a = managed_base p + i * PAGE_SIZE -> ~ page_free p i.

(** ** Bit lemmas *)

Lemma land_pow2_testbit x k :
  0 <= k -> negb (Z.land x (Z.shiftl 1 k) =? 0) = Z.testbit x k.
Proof.
  intros Hk. destruct (Z.testbit x k) eqn:E.
  - destruct (Z.eqb_spec (Z.land x (Z.shiftl 1 k)) 0) as [H0|]; [|done].
    apply (f_equal (fun z => Z.testbit z k)) in H0.
    rewrite Z.land_spec, E, Z.shiftl_spec, Z.sub_diag, Z.testbit_0_l in H0 by lia. done.
  - replace (Z.land x (Z.shiftl 1 k)) with 0; [done|]. symmetry.
    apply Z.bits_inj'. intros n Hn.
    rewrite Z.land_spec, Z.testbit_0_l, Z.shiftl_spec by lia.
    destruct (Z.eq_dec n k) as [->|Hne]; [by rewrite E|].
    rewrite <- (Z.pow_0_r 2), Z.pow2_bits_false by lia. apply andb_false_r.
Qed.

Lemma shiftl_1_testbit k j : 0 <= k -> 0 <= j -> Z.testbit (Z.shiftl 1 k) j = (j =? k).
Proof.
  intros. rewrite Z.shiftl_1_l, Z.pow2_bits_eqb by lia. by rewrite Z.eqb_sym.
Qed.

Lemma u8_testbit x k : 0 <= k < 8 -> Z.testbit (u8 x) k = Z.testbit x k.
Proof. intros. unfold wrap. by rewrite Z.mod_pow2_bits_low by lia. Qed.

Section bits.
Context (b : list Z) (n : Z).
Hypothesis Hlen : length b = Z.to_nat ((n + 7) / 8).

Lemma byte_in_range i : 0 <= i < n -> (Z.to_nat (i / 8) < length b)%nat.
Proof. intros. rewrite Hlen. zdiv. Qed.

(** The byte at [i / 8] after an update of the byte at [j / 8]. *)
Lemma lookup_byte_update i j f :
  0 <= i < n -> 0 <= j < n ->
  <[Z.to_nat (j / 8) := f]> b !!! Z.to_nat (i / 8)
  = if i / 8 =? j / 8 then f else b !!! Z.to_nat (i / 8).
Proof.
  intros Hi Hj. destruct (Z.eqb_spec (i / 8) (j / 8)) as [->|Hne].
  - apply list_lookup_total_insert_eq. by apply byte_in_range.
  - apply list_lookup_total_insert_ne. zdiv.
Qed.

Lemma BIT_TEST_SET i j :
  0 <= i < n -> 0 <= j < n ->
  BIT_TEST (BIT_SET b j) i = (i =? j) || BIT_TEST b i.
Proof.
  intros Hi Hj. unfold BIT_TEST at 1, BIT_SET. rewrite lookup_byte_update by done.
  destruct (Z.eqb_spec (i / 8) (j / 8)) as [E|Hne].
  - unfold BIT_TEST. rewrite !land_pow2_testbit, u8_testbit, Z.lor_spec by zdiv.
    rewrite shiftl_1_testbit, <- E by zdiv.
    destruct (Z.eqb_spec (i mod 8) (j mod 8)), (Z.eqb_spec i j); subst;
      try (exfalso; zdiv); by rewrite ?orb_true_r, ?orb_false_r.
  - destruct (Z.eqb_spec i j) as [->|]; done.
Qed.

Lemma BIT_TEST_CLEAR i j :
  0 <= i < n -> 0 <= j < n ->
  BIT_TEST (BIT_CLEAR b j) i = negb (i =? j) && BIT_TEST b i.
Proof.
  intros Hi Hj. unfold BIT_TEST at 1, BIT_CLEAR. rewrite lookup_byte_update by done.
  destruct (Z.eqb_spec (i / 8) (j / 8)) as [E|Hne].
  - unfold BIT_TEST. rewrite !land_pow2_testbit, u8_testbit, Z.land_spec, Z.lnot_spec by zdiv.
    rewrite shiftl_1_testbit, <- E by zdiv.
    destruct (Z.eqb_spec (i mod 8) (j mod 8)), (Z.eqb_spec i j); subst;
      try (exfalso; zdiv); cbn; by rewrite ?andb_true_r, ?andb_false_r.
  - destruct (Z.eqb_spec i j) as [->|]; done.
Qed.

Lemma length_BIT_SET j : length (BIT_SET b j) = length b.
Proof. apply length_insert. Qed.

Lemma length_BIT_CLEAR j : length (BIT_CLEAR b j) = length b.
Proof. apply length_insert. Qed.
End bits.

Lemma find_first_Some n lo P i :
  find_first n lo P = Some i <->
  lo <= i < lo + Z.of_nat n /\ P i = true /\ forall j, lo <= j < i -> P j = false.
Proof.
  revert lo. induction n as [|n IH]; intros lo; cbn [find_first].
  - split; [done|lia].
  - destruct (P lo) eqn:E.
    + split.
      * intros [= <-]. split_and!; try lia; done.
      * intros (Hi & HPi & Hmin). destruct (Z.eq_dec i lo) as [->|]; [done|].
        rewrite Hmin in E by lia. done.
    + rewrite IH. split; intros (Hi & HPi & Hmin).
      * split_and!; [lia..|done|]. intros j Hj.
        destruct (Z.eq_dec j lo) as [->|]; [done|]. apply Hmin. lia.
      * assert (i <> lo) by congruence.
        split_and!; [lia..|done|]. intros j Hj. apply Hmin. lia.
Qed.

Lemma find_first_None n lo P :
  find_first n lo P = None <-> forall j, lo <= j < lo + Z.of_nat n -> P j = false.
Proof.
  split.
  - intros E j Hj. destruct (P j) eqn:HPj; [|done]. exfalso.
    revert lo E Hj. induction n as [|n IH]; intros lo E Hj; [lia|]. cbn in E.
    destruct (P lo) eqn:HP; [done|]. destruct (Z.eq_dec j lo) as [->|]; [congruence|].
    apply (IH (lo + 1)); [done|lia].
  - intros H. destruct (find_first n lo P) as [i|] eqn:E; [|done].
    apply find_first_Some in E as (Hi & HPi & _). rewrite H in HPi; done.
Qed.

(** ** Effect of the operations on the free frames *)

Definition take_frame (p : pmm_state) (i : Z) : pmm_state :=
  Pmm (BIT_SET (pmm_bitmap p) i) (pmm_bitmap_size p) (managed_base p) (total_pages p).
Definition release_frame (p : pmm_state) (i : Z) : pmm_state :=
  Pmm (BIT_CLEAR (pmm_bitmap p) i) (pmm_bitmap_size p) (managed_base p) (total_pages p).

Section frames.
Context (p : pmm_state) (Hwf : pmm_wf p).

Lemma wf_bits : length (pmm_bitmap p) = Z.to_nat ((total_pages p + 7) / 8).
Proof. destruct Hwf as [_ <- ? _ _]. done. Qed.

Lemma take_frame_wf i : pmm_wf (take_frame p i).
Proof.
  destruct Hwf. split; cbn; try done. by rewrite length_BIT_SET.
Qed.

Lemma release_frame_wf i : pmm_wf (release_frame p i).
Proof.
  destruct Hwf. split; cbn; try done. by rewrite length_BIT_CLEAR.
Qed.

Lemma page_free_take i j :
  0 <= i < total_pages p -> (page_free (take_frame p i) j <-> page_free p j /\ j <> i).
Proof.
  intros Hi. unfold page_free. cbn.
  destruct (decide (0 <= j < total_pages p)) as [Hj|]; [|intuition].
  rewrite (BIT_TEST_SET _ _ wf_bits) by done.
  destruct (Z.eqb_spec j i); cbn; intuition congruence.
Qed.

Lemma page_free_release i j :
  0 <= i < total_pages p -> (page_free (release_frame p i) j <-> page_free p j \/ j = i).
Proof.
  intros Hi. unfold page_free. cbn.
  destruct (decide (0 <= j < total_pages p)) as [Hj|]; [|intuition lia].
  rewrite (BIT_TEST_CLEAR _ _ wf_bits) by done.
  destruct (Z.eqb_spec j i); cbn; intuition congruence.
Qed.

Lemma frame_address_small i :
  0 <= i < total_pages p -> u64 (managed_base p + i * PAGE_SIZE) = managed_base p + i * PAGE_SIZE.
Proof.
  intros Hi. destruct Hwf as [_ _ _ [? _] ?]. unfold PAGE_SIZE in *.
  apply wrap_small. change (2 ^ 64) with (4096 * 2 ^ 52). nia.
Qed.
End frames.

(** The two outcomes of [pmm_alloc_page]. *)
Lemma pmm_alloc_cases m :
  pmm_wf (pmm m) ->
  (exists i, page_free (pmm m) i /\ (forall j, page_free (pmm m) j -> i <= j) /\
     pmm_alloc_page m
       = Ret (managed_base (pmm m) + i * PAGE_SIZE) (set_pmm (take_frame (pmm m) i) m))
  \/ ((forall j, ~ page_free (pmm m) j) /\ pmm_alloc_page m = Ret 0 m).
Proof.
  intros Hwf. unfold pmm_alloc_page. krun.
  pose proof (wf_total _ Hwf).
  destruct (find_first _ 0 _) as [i|] eqn:E.
  - apply find_first_Some in E as (Hi & HPi & Hmin). apply negb_true_iff in HPi. left.
    exists i. split_and!; [split; [lia|done]| |by rewrite frame_address_small by (done || lia)].
    intros j [Hj Hfree]. destruct (Z.le_gt_cases i j); [done|].
    specialize (Hmin j ltac:(lia)). by rewrite Hfree in Hmin.
  - rewrite find_first_None in E. right. split; [|done].
    intros j [Hj Hfree]. specialize (E j ltac:(lia)). by rewrite Hfree in E.
Qed.

(** [pmm_free_page] of the address of frame [i] releases that frame. *)
Lemma pmm_free_run m i :
  pmm_wf (pmm m) -> 0 <= i < total_pages (pmm m) ->
  pmm_free_page (managed_base (pmm m) + i * PAGE_SIZE) m
    = Ret tt (set_pmm (release_frame (pmm m) i) m).
Proof.
  intros Hwf Hi. unfold pmm_free_page, PAGE_SIZE. krun.
  destruct (Z.ltb_spec (managed_base (pmm m) + i * 4096) (managed_base (pmm m))); [lia|].
  replace ((managed_base (pmm m) + i * 4096 - managed_base (pmm m)) / 4096) with i by zdiv.
  destruct (Z.ltb_spec i (total_pages (pmm m))); [done|lia].
Qed.

(** ** Initialisation *)

Lemma for_up_fill n (b : list Z) :
  for_up n 0 (fun i b => <[Z.to_nat i := 0xFF]> b) b
  = replicate (n `min` length b) 0xFF ++ drop n b.
Proof.
  induction n as [|n IH]; [done|]. rewrite for_up_snoc, IH, Z.add_0_l, Nat2Z.id.
  destruct (decide (n < length b)%nat) as [Hn|Hn].
  - replace (Datatypes.S n `min` length b)%nat with (n + 1)%nat by lia.
    rewrite replicate_add, <- app_assoc. rewrite Nat.min_l by lia.
    rewrite insert_app_r_alt by (rewrite length_replicate; lia).
    rewrite length_replicate, Nat.sub_diag. f_equal.
    apply lookup_lt_is_Some in Hn as [x Hx]. by rewrite (drop_S _ _ _ Hx).
  - rewrite !drop_ge by lia. rewrite !app_nil_r.
    replace (Datatypes.S n `min` length b)%nat with (n `min` length b)%nat by lia.
    apply list_insert_ge. rewrite length_replicate. lia.
Qed.

Lemma BIT_TEST_filled n i :
  0 <= i < n -> BIT_TEST (replicate (Z.to_nat ((n + 7) / 8)) 0xFF) i = true.
Proof.
  intros Hi. unfold BIT_TEST. rewrite lookup_total_replicate_2 by zdiv.
  rewrite land_pow2_testbit by zdiv.
  assert (0 <= i mod 8 < 8) as Hk by zdiv. revert Hk. generalize (i mod 8). intros k Hk.
  change 255 with (Z.ones 8). apply Z.ones_spec_low. lia.
Qed.

(** The second loop clears exactly the bits from [lo] on. *)
Lemma for_up_clear n lo b k :
  length b = Z.to_nat ((n + 7) / 8) -> 0 <= lo -> lo + Z.of_nat k <= n ->
  let b' := for_up k lo (fun i b => BIT_CLEAR b i) b in
  length b' = length b /\
  forall i, 0 <= i < n ->
    BIT_TEST b' i = negb ((lo <=? i) && (i <? lo + Z.of_nat k)) && BIT_TEST b i.
Proof.
  intros Hlen Hlo Hk. cbn zeta. induction k as [|k IH].
  - split; [done|]. intros i Hi. cbn. zcase; cbn; try done; lia.
  - destruct IH as [IHl IHt]; [lia|]. rewrite for_up_snoc. split.
    + by rewrite length_BIT_CLEAR.
    + intros i Hi. rewrite (BIT_TEST_CLEAR _ n) by (done || lia || by rewrite IHl).
      rewrite IHt by done. zcase; cbn; try done; try lia; by rewrite ?andb_false_r.
Qed.

(** The state [init_pmm] builds from a usable region. *)
Definition region_pmm (r : memmap_entry) : pmm_state :=
  let total := me_length r / PAGE_SIZE in
  let size := (total + 7) / 8 in
  let used := (size + PAGE_SIZE - 1) / PAGE_SIZE in
  Pmm (for_up (Z.to_nat (total - used)) used (fun i b => BIT_CLEAR b i)
         (for_up (Z.to_nat size) 0 (fun i b => <[Z.to_nat i := 0xFF]> b)
                 (replicate (Z.to_nat size) 0)))
      size (me_base r) total.

(** What Limine documents for a usable entry: page-aligned, below the
    architecture's physical limit. *)
Record region_ok (r : memmap_entry) : Prop := {
  region_base : 0 <= me_base r /\ me_base r mod PAGE_SIZE = 0;
  region_length : 0 <= me_length r;
  region_limit : me_base r + me_length r <= 2 ^ 52;
}.

Lemma region_pmm_spec r :
  region_ok r ->
  pmm_wf (region_pmm r) /\
  forall i, page_free (region_pmm r) i <->
    ((me_length r / PAGE_SIZE + 7) / 8 + PAGE_SIZE - 1) / PAGE_SIZE <= i
      < me_length r / PAGE_SIZE.
Proof.
  intros [Hb Hl Hlim]. unfold PAGE_SIZE in *.
  set (total := me_length r / 4096) in *.
  assert (Ht : 0 <= total) by (unfold total; zdiv).
  assert (Hend : total * 4096 <= me_length r) by (unfold total; zdiv).
  assert (Hsz : 0 <= (total + 7) / 8) by zdiv.
  destruct (for_up_clear total (((total + 7) / 8 + 4096 - 1) / 4096)
              (replicate (Z.to_nat ((total + 7) / 8)) 255)
              (Z.to_nat (total - ((total + 7) / 8 + 4096 - 1) / 4096)))
    as [Hlen Htest]; [by rewrite length_replicate|zdiv|zdiv|].
  assert (Hfill : for_up (Z.to_nat ((total + 7) / 8)) 0
            (fun i b => <[Z.to_nat i:=255]> b) (replicate (Z.to_nat ((total + 7) / 8)) 0)
          = replicate (Z.to_nat ((total + 7) / 8)) 255).
  { rewrite for_up_fill, length_replicate, Nat.min_id, drop_ge by (rewrite length_replicate; lia).
    by rewrite app_nil_r. }
  split.
  - split; cbn; unfold PAGE_SIZE; fold total; rewrite ?Hfill, ?Hlen, ?length_replicate; try done.
    lia.
  - intros i. unfold page_free. cbn. unfold PAGE_SIZE. fold total. rewrite Hfill.
    split.
    + intros [Hi E]. rewrite Htest in E by done.
      rewrite (BIT_TEST_filled total) in E by done. revert E. zcase; cbn; try done; lia.
    + intros Hi. assert (0 <= i) by zdiv. split; [lia|].
      rewrite Htest by lia. zcase; cbn; try done; lia.
Qed.

Lemma init_pmm_run m entries r :
  g_memmap m = Some entries -> memmap_find_biggest_region entries = Some r ->
  init_pmm m = Ret tt (put_events ok_events
                         (set_pmm (region_pmm r) (put_event (Print "PMM...") m))).
Proof.
  intros E1 E2. unfold init_pmm. krun. rewrite E1. cbn. by rewrite E2.
Qed.

Lemma biggest_region_fold entries acc :
  (forall b, acc = Some b -> me_type b = LIMINE_MEMMAP_USABLE) ->
  match foldl (fun biggest entry =>
      if negb (me_type entry =? LIMINE_MEMMAP_USABLE) then biggest
      else match biggest with
           | None => Some entry
           | Some b => if me_length b <? me_length entry then Some entry else biggest
           end) acc entries with
  | Some r => (r ∈ entries \/ acc = Some r) /\ me_type r = LIMINE_MEMMAP_USABLE /\
      (forall e, e ∈ entries -> me_type e = LIMINE_MEMMAP_USABLE -> me_length e <= me_length r) /\
      (forall b, acc = Some b -> me_length b <= me_length r)
  | None => acc = None /\ forall e, e ∈ entries -> me_type e <> LIMINE_MEMMAP_USABLE
  end.
Proof.
  revert acc. induction entries as [|e entries IH]; intros acc Hacc.
  - cbn. destruct acc as [b|]; [|split; [done|by intros e []%elem_of_nil]].
    split_and!; [by right|by apply Hacc|by intros e []%elem_of_nil|intros ? [= ->]; lia].
  - cbn [foldl]. destruct (Z.eqb_spec (me_type e) LIMINE_MEMMAP_USABLE) as [Hu|Hu]; cbn [negb].
    + set (acc' := match acc with Some b => _ | None => _ end).
      assert (Hacc' : acc' = Some e /\ (forall b, acc = Some b -> me_length b <= me_length e)
                      \/ exists b, acc = Some b /\ acc' = acc /\ me_length e <= me_length b).
      { unfold acc'. destruct acc as [b|]; [|left; done].
        destruct (Z.ltb_spec (me_length b) (me_length e)); [left; split; [done|]; intros ? [= <-]; lia|].
        right. exists b. split_and!; [done..|lia]. }
      clearbody acc'. specialize (IH acc'). destruct (foldl _ acc' entries) as [r|].
      * destruct IH as (Hin & Hur & Hmax & Hmx').
        { intros b ->. destruct Hacc' as [[[= ->] _]|(b' & -> & [= ->] & _)]; [done|by apply Hacc]. }
        split_and!; [| done | |].
        -- destruct Hin as [?|E]; [left; by apply elem_of_cons; right|].
           destruct Hacc' as [[E' _]|(b & Eb & -> & _)]; [|by right].
           left. apply elem_of_cons. left. congruence.
        -- intros x [->|Hx]%elem_of_cons Hux; [|by apply Hmax].
           destruct Hacc' as [[-> _]|(b & -> & -> & Hle)]; [by apply Hmx'|].
           specialize (Hmx' _ eq_refl). lia.
        -- intros b Eb. destruct Hacc' as [[-> Hle]|(b' & Eb' & -> & _)]; [|by apply Hmx'].
           specialize (Hmx' _ eq_refl). specialize (Hle _ Eb). lia.
      * destruct IH as [-> _]; [|by destruct Hacc' as [[? _]|(b & ? & ? & _)]; simplify_eq].
        intros b ->. destruct Hacc' as [[[= ->] _]|(b' & -> & [= ->] & _)]; [done|by apply Hacc].
    + specialize (IH acc Hacc). destruct (foldl _ acc entries) as [r|].
      * destruct IH as (Hin & Hur & Hmax & Hmx). split_and!; [|done| |done].
        -- destruct Hin as [?|?]; [left; by apply elem_of_cons; right|by right].
        -- by intros x [->|Hx]%elem_of_cons Hux; [|apply Hmax].
      * destruct IH as [-> Hn]. split; [done|]. by intros x [->|Hx]%elem_of_cons; [|apply Hn].
Qed.

Lemma biggest_region_spec entries :
  match memmap_find_biggest_region entries with
  | Some r => r ∈ entries /\ me_type r = LIMINE_MEMMAP_USABLE /\
      forall e, e ∈ entries -> me_type e = LIMINE_MEMMAP_USABLE -> me_length e <= me_length r
  | None => forall e, e ∈ entries -> me_type e <> LIMINE_MEMMAP_USABLE
  end.
Proof.
  pose proof (biggest_region_fold entries None ltac:(done)) as H.
  unfold memmap_find_biggest_region. destruct (foldl _ None entries); [|by destruct H].
  by destruct H as ([?|?] & ? & ? & _).
Qed.

(** ** The abstract allocator: a finite set of free frame indices *)

Definition free_frames (p : pmm_state) : gset Z :=
  list_to_set (filter (fun i => BIT_TEST (pmm_bitmap p) i = false) (seqZ 0 (total_pages p))).

Lemma elem_of_free_frames p i : i ∈ free_frames p <-> page_free p i.
Proof.
  unfold free_frames, page_free. rewrite elem_of_list_to_set, list_elem_of_filter, elem_of_seqZ.
  intuition lia.
Qed.

Lemma free_frames_take p i :
  pmm_wf p -> 0 <= i < total_pages p -> free_frames (take_frame p i) = free_frames p ∖ {[i]}.
Proof.
  intros Hwf Hi. apply set_eq. intros j.
  rewrite elem_of_difference, elem_of_singleton, !elem_of_free_frames. by apply page_free_take.
Qed.

Lemma free_frames_release p i :
  pmm_wf p -> 0 <= i < total_pages p -> free_frames (release_frame p i) = free_frames p ∪ {[i]}.
Proof.
  intros Hwf Hi. apply set_eq. intros j.
  rewrite elem_of_union, elem_of_singleton, !elem_of_free_frames. by apply page_free_release.
Qed.

(** ** Properties *)

(** C8: [init_pmm] manages a longest usable region of the memory map: the state
    it builds is well formed, the free frames are exactly those after the pages
    holding the bitmap, and none of them overlaps the bitmap or leaves the
    region; without a usable region it reports the error and halts. *)
Theorem init_pmm_correct m entries
    (Hm : g_memmap m = Some entries)
    (Hok : forall e, e ∈ entries -> me_type e = LIMINE_MEMMAP_USABLE -> region_ok e) :
  (exists r m', init_pmm m = Ret tt m' /\ r ∈ entries /\
     me_type r = LIMINE_MEMMAP_USABLE /\
     (forall e, e ∈ entries -> me_type e = LIMINE_MEMMAP_USABLE ->
        me_length e <= me_length r) /\
     pmm_wf (pmm m') /\ managed_base (pmm m') = me_base r /\
     forall i, i ∈ free_frames (pmm m') <->
       pmm_bitmap_size (pmm m') <= i * PAGE_SIZE /\ (i + 1) * PAGE_SIZE <= me_length r)
  \/ (exists m', init_pmm m = Stop Halted m' /\
        forall e, e ∈ entries -> me_type e <> LIMINE_MEMMAP_USABLE).
Proof.
  pose proof (biggest_region_spec entries) as Hb.
  destruct (memmap_find_biggest_region entries) as [r|] eqn:E.
  - left. destruct Hb as (Hin & Hu & Hmax). pose proof (Hok r Hin Hu) as Hr.
    destruct (region_pmm_spec r Hr) as [Hwf Hfree].
    eexists r, _. split; [by eapply init_pmm_run|]. split_and!; [done..| |].
    + done.
    + intros i. cbn [pmm put_events foldl ok_events put_event machine_console set_con set_pmm].
      rewrite elem_of_free_frames, Hfree. cbn. destruct Hr. unfold PAGE_SIZE in *.
      split; intros [? ?]; split; zdiv.
  - right. unfold init_pmm. krun. rewrite Hm. cbn. rewrite E. eexists. split; [done|done].
Qed.

(** C7: [pmm_alloc_page] refines removing the least element of the free set: it
    returns the address of the lowest free frame, which is then no longer free,
    and leaves everything else of the machine alone; it answers 0 exactly when
    no frame is free (the frame at physical address 0 is never managed). *)
Theorem pmm_alloc_page_refines m
    (Hwf : pmm_wf (pmm m)) (Hbase : 0 < managed_base (pmm m)) :
  (exists i p', i ∈ free_frames (pmm m) /\ (forall j, j ∈ free_frames (pmm m) -> i <= j) /\
     pmm_alloc_page m = Ret (managed_base (pmm m) + i * PAGE_SIZE) (set_pmm p' m) /\
     managed_base (pmm m) + i * PAGE_SIZE <> 0 /\ pmm_wf p' /\
     free_frames p' = free_frames (pmm m) ∖ {[i]})
  \/ (free_frames (pmm m) = ∅ /\ pmm_alloc_page m = Ret 0 m).
Proof.
  destruct (pmm_alloc_cases m Hwf) as [(i & Hi & Hmin & E)|[Hnone E]].
  - left. exists i, (take_frame (pmm m) i). pose proof (proj1 Hi).
    split_and!; [by apply elem_of_free_frames| |done| |by apply take_frame_wf|by apply free_frames_take].
    + intros j Hj%elem_of_free_frames. by apply Hmin.
    + unfold PAGE_SIZE. lia.
  - right. split; [|done]. apply set_eq. intros j.
    rewrite elem_of_free_frames. split; [intros Hj; by apply Hnone in Hj|set_solver].
Qed.

(** [pmm_free_page] adds to the free set the frame of any address inside the
    managed region (even one of the bitmap's own frames, or one already free)
    and ignores every other address. *)
Theorem pmm_free_page_refines m a (Hwf : pmm_wf (pmm m)) (Ha : 0 <= a) :
  let p := pmm m in
  let inside := managed_base p <= a < managed_base p + total_pages p * PAGE_SIZE in
  exists p', pmm_free_page a m = Ret tt (set_pmm p' m) /\ pmm_wf p' /\
    free_frames p' = if decide inside
                     then free_frames p ∪ {[ (a - managed_base p) / PAGE_SIZE ]}
                     else free_frames p.
Proof.
  intros p inside. unfold pmm_free_page, PAGE_SIZE. krun. fold p.
  assert (Hself : Ret tt m = Ret tt (set_pmm p m)) by (by destruct m).
  destruct (Z.ltb_spec a (managed_base p)).
  { exists p. rewrite Hself, decide_False by (unfold inside; lia). done. }
  destruct (Z.ltb_spec ((a - managed_base p) / 4096) (total_pages p)).
  - exists (release_frame p ((a - managed_base p) / 4096)).
    rewrite decide_True by (unfold inside, PAGE_SIZE; zdiv).
    split_and!; [done|by apply release_frame_wf|]. apply free_frames_release; [done|zdiv].
  - exists p. rewrite Hself, decide_False by (unfold inside, PAGE_SIZE; zdiv). done.
Qed.

(** ** Witnesses *)

(** A 256 KiB usable region at 1 MiB and a larger reserved one. *)
Definition demo_memmap : list memmap_entry :=
  [ {| me_base := 0; me_length := 0x9000; me_type := 1 |};
    {| me_base := 0x100000; me_length := 0x40000; me_type := 0 |};
    {| me_base := 0x200000; me_length := 0x2000; me_type := 0 |} ].

Definition demo_boot : machine :=
  Machine (Some demo_memmap) 0xFFFF800000000000 (Pmm [] 0 0 0) ∅ 0 0 [] [].

Definition demo_pmm : machine :=
  match init_pmm demo_boot with Ret _ m => m | Stop _ m => m end.

Lemma demo_memmap_ok e :
  e ∈ demo_memmap -> me_type e = LIMINE_MEMMAP_USABLE -> region_ok e.
Proof.
  intros He Hu. unfold demo_memmap in He. rewrite !elem_of_cons in He.
  destruct He as [->|[->|[->|[]%elem_of_nil]]]; [done| |];
    (split; [split; [vm_compute; congruence|reflexivity]|vm_compute; congruence|vm_compute; congruence]).
Qed.

Lemma demo_pmm_wf : pmm_wf (pmm demo_pmm).
Proof. split; try reflexivity; vm_compute; first [done|split; [done|reflexivity]|congruence]. Qed.

Lemma init_pmm_correct_witness :
  (exists r m', init_pmm demo_boot = Ret tt m' /\ r ∈ demo_memmap /\
     me_type r = LIMINE_MEMMAP_USABLE /\
     (forall e, e ∈ demo_memmap -> me_type e = LIMINE_MEMMAP_USABLE ->
        me_length e <= me_length r) /\
     pmm_wf (pmm m') /\ managed_base (pmm m') = me_base r /\
     forall i, i ∈ free_frames (pmm m') <->
       pmm_bitmap_size (pmm m') <= i * PAGE_SIZE /\ (i + 1) * PAGE_SIZE <= me_length r)
  \/ (exists m', init_pmm demo_boot = Stop Halted m' /\
        forall e, e ∈ demo_memmap -> me_type e <> LIMINE_MEMMAP_USABLE).
Proof. exact (init_pmm_correct demo_boot demo_memmap eq_refl demo_memmap_ok). Defined.

Lemma pmm_alloc_page_refines_witness :
  ((exists i p', i ∈ free_frames (pmm demo_pmm) /\
     (forall j, j ∈ free_frames (pmm demo_pmm) -> i <= j) /\
     pmm_alloc_page demo_pmm
       = Ret (managed_base (pmm demo_pmm) + i * PAGE_SIZE) (set_pmm p' demo_pmm) /\
     managed_base (pmm demo_pmm) + i * PAGE_SIZE <> 0 /\ pmm_wf p' /\
     free_frames p' = free_frames (pmm demo_pmm) ∖ {[i]})
  \/ (free_frames (pmm demo_pmm) = ∅ /\ pmm_alloc_page demo_pmm = Ret 0 demo_pmm))
  /\ exists m', pmm_alloc_page demo_pmm = Ret 0x101000 m'.
Proof.
  split; [exact (pmm_alloc_page_refines demo_pmm demo_pmm_wf ltac:(vm_compute; reflexivity))|].
  eexists. vm_compute. reflexivity.
Defined.

Lemma pmm_free_page_refines_witness :
  exists p', pmm_free_page 0x103007 demo_pmm = Ret tt (set_pmm p' demo_pmm) /\ pmm_wf p' /\
    free_frames p' = if decide (managed_base (pmm demo_pmm) <= 0x103007
                       < managed_base (pmm demo_pmm) + total_pages (pmm demo_pmm) * PAGE_SIZE)
                     then free_frames (pmm demo_pmm)
                          ∪ {[ (0x103007 - managed_base (pmm demo_pmm)) / PAGE_SIZE ]}
                     else free_frames (pmm demo_pmm).
Proof. exact (pmm_free_page_refines demo_pmm 0x103007 demo_pmm_wf ltac:(lia)). Defined.
