(* ===== verification/Vmm.v ===== *)
(** * Virtual memory manager (mem/vmm/vmm.c)

    Four-level page tables in physical memory.  A page-table entry pointer of
    the source ([uint64_t *] into the direct map) is the physical address of
    the entry.  [pt_wf] is the invariant of the tables; the theorems say that
    [vmm_map] and [vmm_unmap] change the translation of exactly one page, that
    [vmm_resolve] computes that translation, and that it is the translation
    the processor performs. *)

From S2P Require Import Prelude Bytes MemLib Console Machine Pmm.
Local Open Scope Z_scope.

(** ** Constants (vmm.h) *)

(** src/include/arch/x86_64/mem/vmm/vmm.h:13-26 [VMM_PRESENT] *)
Definition PAGE_SIZE_VMM : Z := 0x1000.
Definition VMM_PRESENT : Z := Z.shiftl 1 0.
Definition VMM_WRITE : Z := Z.shiftl 1 1.
Definition VMM_USER : Z := Z.shiftl 1 2.
Definition VMM_HUGE : Z := Z.shiftl 1 7.
Definition VMM_NX : Z := Z.shiftl 1 63.
Definition ENTRIES_PER_TABLE : Z := 512.
Definition PAGE_MASK : Z := 0x000FFFFFFFFFF000.

(** src/include/arch/x86_64/mem/vmm/vmm.h:28-28 [PML4_INDEX] *)
Definition PML4_INDEX (x : Z) : Z := Z.land (Z.shiftr x 39) 0x1FF.
(** src/include/arch/x86_64/mem/vmm/vmm.h:29-29 [PDPT_INDEX] *)
Definition PDPT_INDEX (x : Z) : Z := Z.land (Z.shiftr x 30) 0x1FF.
(** src/include/arch/x86_64/mem/vmm/vmm.h:30-30 [PD_INDEX] *)
Definition PD_INDEX (x : Z) : Z := Z.land (Z.shiftr x 21) 0x1FF.
(** src/include/arch/x86_64/mem/vmm/vmm.h:31-31 [PT_INDEX] *)
Definition PT_INDEX (x : Z) : Z := Z.land (Z.shiftr x 12) 0x1FF.

Definition present (e : Z) : bool := negb (Z.land e VMM_PRESENT =? 0).

(** ** Operations *)

(** src/arch/x86_64/mem/vmm/vmm.c:14-17 [physical_to_virtual] *)
Definition physical_to_virtual (physical : Z) : K machine Z :=
  off ← kasks g_hhdm_offset; mret (u64 (off + physical)).

(** src/arch/x86_64/mem/vmm/vmm.c:19-22 [virtual_to_physical] *)
Definition virtual_to_physical (virtual : Z) : K machine Z :=
  off ← kasks g_hhdm_offset; mret (u64 (virtual - off)).

(** src/arch/x86_64/mem/vmm/vmm.c:24-31 [read_cr3] *)
Definition read_cr3 : K machine Z := kasks cr3.

(** src/arch/x86_64/mem/vmm/vmm.c:5-12 [get_address_space] *)
Definition get_address_space : K machine Z :=
  c ← read_cr3; off ← kasks g_hhdm_offset; mret (u64 (c + off)).

(** src/arch/x86_64/mem/vmm/vmm.c:33-40 [invlpg] *)
Definition invlpg (address : Z) : K machine unit :=
  kmod (fun m => set_invlpgs (address :: invlpgs m) m).

(** src/arch/x86_64/mem/vmm/vmm.c:42-54 [alloc_table] *)
Definition alloc_table : K machine Z :=
  physical ← pmm_alloc_page;
  if physical =? 0 then
    vterm_print ("VMM:   Out Of Memory" +:+ newline);; hcf
  else
    on_phys (memset physical 0 PAGE_SIZE_VMM);;
    mret physical.

(** One level of [walk]: follow (or create) the entry [index] of the table at
    [table]; [None] is the NULL of the source.
    src/arch/x86_64/mem/vmm/vmm.c:58-69 [walk] *)
Definition walk_level (create : bool) (table index : Z) : K machine (option Z) :=
  let slot := table + 8 * index in
  e ← pload64 slot;
  if negb (present e) then
    if negb create then mret None else
    new ← alloc_table;
    pstore64 slot (Z.lor (Z.lor (Z.land new PAGE_MASK) VMM_PRESENT) VMM_WRITE);;
    e' ← pload64 slot;
    mret (Some (Z.land e' PAGE_MASK))
  else mret (Some (Z.land e PAGE_MASK)).

(** src/arch/x86_64/mem/vmm/vmm.c:56-91 [walk] *)
Definition walk (virtual_address : Z) (create : bool) : K machine (option Z) :=
  pml4 ← kasks current_pml4;
  pdpt ← walk_level create pml4 (PML4_INDEX virtual_address);
  match pdpt with None => mret None | Some pdpt =>
  pd ← walk_level create pdpt (PDPT_INDEX virtual_address);
  match pd with None => mret None | Some pd =>
  pt ← walk_level create pd (PD_INDEX virtual_address);
  match pt with None => mret None | Some pt =>
  mret (Some (pt + 8 * PT_INDEX virtual_address))
  end end end.

(** src/arch/x86_64/mem/vmm/vmm.c:93-98 [vmm_map] *)
Definition vmm_map (virtual physical flags : Z) : K machine unit :=
  pte ← walk virtual true;
  pte ← kderef pte;
  pstore64 pte (Z.lor (Z.lor (Z.land physical PAGE_MASK) flags) VMM_PRESENT);;
  invlpg virtual.

(** src/arch/x86_64/mem/vmm/vmm.c:100-108 [vmm_unmap] *)
Definition vmm_unmap (virtual : Z) : K machine unit :=
  pte ← walk virtual false;
  match pte with
  | None => mret tt
  | Some pte =>
      e ← pload64 pte;
      kwhen (present e) (pstore64 pte 0;; invlpg virtual)
  end.

(** src/arch/x86_64/mem/vmm/vmm.c:110-119 [vmm_resolve] *)
Definition vmm_resolve (virtual : Z) : K machine Z :=
  pte ← walk virtual false;
  match pte with
  | None => mret 0
  | Some pte =>
      e ← pload64 pte;
      if negb (present e) then mret 0
      else mret (Z.lor (Z.land e PAGE_MASK) (Z.land virtual (PAGE_SIZE_VMM - 1)))
  end.

(** src/arch/x86_64/mem/vmm/vmm.c:121-129 [vmm_load_cr3] *)
Definition vmm_load_cr3 (physical_address : Z) : K machine unit :=
  kmod (set_pml4 (Z.land physical_address PAGE_MASK));;
  kmod (fun m => set_cr3 (current_pml4 m) m).

(** Copy of the upper (kernel) half of a root table.
    src/arch/x86_64/mem/vmm/vmm.c:140-143 [init_vmm] *)
Definition copy_upper_half (new_pml4 old_pml4 : Z) : K machine unit :=
  kfor (Z.to_nat (ENTRIES_PER_TABLE - 256)) 256 (fun i =>
    e ← pload64 (old_pml4 + 8 * i);
    pstore64 (new_pml4 + 8 * i) e).

(** [for (address = base; address < end; address += 4096) vmm_map(...)].
    src/arch/x86_64/mem/vmm/vmm.c:151-156 [init_vmm] *)
Definition identity_map (e : memmap_entry) : K machine unit :=
  let stop := u64 (me_base e + me_length e) in
  kfor (Z.to_nat ((stop - me_base e + PAGE_SIZE_VMM - 1) / PAGE_SIZE_VMM)) 0 (fun i =>
    let address := me_base e + i * PAGE_SIZE_VMM in
    vmm_map address address VMM_WRITE).

(** src/arch/x86_64/mem/vmm/vmm.c:145-158 [init_vmm] *)
Fixpoint identity_map_all (entries : list memmap_entry) : K machine unit :=
  match entries with
  | [] => mret tt
  | e :: rest =>
      kwhen (me_type e =? LIMINE_MEMMAP_USABLE) (identity_map e);;
      identity_map_all rest
  end.

(** src/arch/x86_64/mem/vmm/vmm.c:131-176 [init_vmm] *)
Definition init_vmm : K machine unit :=
  kprintf "VMM...";;
  c ← read_cr3;
  let old_cr3_physical := Z.land c PAGE_MASK in
  new_root ← alloc_table;
  kmod (set_pml4 new_root);;
  copy_upper_half new_root old_cr3_physical;;
  memmap ← kasks g_memmap;
  entries ← kderef memmap;
  identity_map_all entries;;
  p ← kasks pmm;
  off ← kasks g_hhdm_offset;
  let bitmap_pointer := u64 (off + managed_base p) in
  kwhen (negb (bitmap_pointer =? NULL) && negb (pmm_bitmap_size p =? 0))
    (bitmap_physical ← virtual_to_physical bitmap_pointer;
     kfor (Z.to_nat ((pmm_bitmap_size p + PAGE_SIZE_VMM - 1) / PAGE_SIZE_VMM)) 0 (fun k =>
       let i := k * PAGE_SIZE_VMM in
       vmm_map (u64 (bitmap_physical + off + i)) (bitmap_physical + i) VMM_WRITE));;
  root ← kasks current_pml4;
  vmm_load_cr3 root;;
  kok.

(** src/arch/x86_64/mem/vmm/vmm.c:178-198 [create_address_space] *)
Definition create_address_space : K machine Z :=
  new_pml4_phys ← pmm_alloc_page;
  if new_pml4_phys =? 0 then
    vterm_print ("VMM:   Out Of Memory (create_address_space)" +:+ newline);; hcf
  else
    on_phys (memset new_pml4_phys 0 PAGE_SIZE_VMM);;
    kernel_pml4 ← kasks current_pml4;
    copy_upper_half new_pml4_phys kernel_pml4;;
    mret new_pml4_phys.

(** Keep unification from running the loop. *)
#[local] Opaque memset.

(** ** The translation as a pure function of memory *)

(** The four indices of a virtual address, root first. *)
Definition pt_path (va : Z) : list Z :=
  [PML4_INDEX va; PDPT_INDEX va; PD_INDEX va; PT_INDEX va].

Definition entry (s : mem) (table index : Z) : Z := ld64 s (table + 8 * index).

(** The page-table entry reached through the indices [ix], if every entry on
    the way (the last one included) is present. *)
Fixpoint pt_lookup (s : mem) (table : Z) (ix : list Z) : option Z :=
  match ix with
  | [] => None
  | i :: ix' =>
      let e := entry s table i in
      if present e then
        match ix' with [] => Some e | _ => pt_lookup s (Z.land e PAGE_MASK) ix' end
      else None
  end.

(** The table reached through the indices [ix]. *)
Fixpoint descend (s : mem) (table : Z) (ix : list Z) : option Z :=
  match ix with
  | [] => Some table
  | i :: ix' =>
      let e := entry s table i in
      if present e then descend s (Z.land e PAGE_MASK) ix' else None
  end.

(** What [vmm_resolve] computes. *)
Definition resolve (m : machine) (va : Z) : Z :=
  match pt_lookup (phys m) (current_pml4 m) (pt_path va) with
  | None => 0
  | Some e => Z.lor (Z.land e PAGE_MASK) (Z.land va (PAGE_SIZE_VMM - 1))
  end.

(** The processor's translation (Intel SDM, 4-level paging): like the walk of
    the kernel, but an entry with the page-size bit set at the second or third
    level maps a 1 GiB or 2 MiB page directly. *)
Definition mmu_translate (s : mem) (root va : Z) : option Z :=
  let e4 := entry s root (PML4_INDEX va) in
  if negb (present e4) then None else
  let e3 := entry s (Z.land e4 PAGE_MASK) (PDPT_INDEX va) in
  if negb (present e3) then None else
  if negb (Z.land e3 VMM_HUGE =? 0)
  then Some (Z.lor (Z.land e3 0x000FFFFFC0000000) (Z.land va 0x3FFFFFFF)) else
  let e2 := entry s (Z.land e3 PAGE_MASK) (PD_INDEX va) in
  if negb (present e2) then None else
  if negb (Z.land e2 VMM_HUGE =? 0)
  then Some (Z.lor (Z.land e2 0x000FFFFFFFE00000) (Z.land va 0x1FFFFF)) else
  let e1 := entry s (Z.land e2 PAGE_MASK) (PT_INDEX va) in
  if negb (present e1) then None else
  Some (Z.lor (Z.land e1 PAGE_MASK) (Z.land va 0xFFF)).

(** ** Bit lemmas *)

Lemma present_testbit e : present e = Z.testbit e 0.
Proof. apply (land_pow2_testbit e 0). lia. Qed.

Lemma PAGE_MASK_shift : PAGE_MASK = Z.shiftl (Z.ones 40) 12.
Proof. reflexivity. Qed.

Lemma land_mask x : Z.land x PAGE_MASK = (x / 4096) mod 2 ^ 40 * 4096.
Proof.
  rewrite PAGE_MASK_shift. change 4096 with (2 ^ 12).
  rewrite <- Z.shiftr_div_pow2, <- Z.land_ones, <- Z.shiftl_mul_pow2 by lia.
  apply Z.bits_inj'. intros n Hn. rewrite Z.land_spec, !Z.shiftl_spec by lia.
  destruct (Z.ltb_spec n 12).
  - rewrite !(Z.testbit_neg_r _ (n - 12)) by lia. apply andb_false_r.
  - rewrite Z.land_spec, Z.shiftr_spec by lia. by replace (n - 12 + 12) with n by lia.
Qed.

Lemma land_mask_aligned x : 0 <= Z.land x PAGE_MASK < 2 ^ 52 /\ Z.land x PAGE_MASK mod 4096 = 0.
Proof.
  rewrite land_mask. pose proof (Z.mod_pos_bound (x / 4096) (2 ^ 40) ltac:(lia)).
  change (2 ^ 52) with (2 ^ 40 * 4096). split; [lia|]. apply Z.mod_mul. lia.
Qed.

Lemma land_mask_frame f : 0 <= f < 2 ^ 52 -> f mod 4096 = 0 -> Z.land f PAGE_MASK = f.
Proof.
  intros Hf Ha. rewrite land_mask, Z.mod_small; [zdiv|].
  change (2 ^ 52) with (2 ^ 40 * 4096) in Hf. zdiv.
Qed.

Lemma land_lor_mask x fl : Z.land fl PAGE_MASK = 0 ->
  Z.land (Z.lor x fl) PAGE_MASK = Z.land x PAGE_MASK.
Proof. intros H. by rewrite Z.land_lor_distr_l, H, Z.lor_0_r. Qed.

Lemma land_mask_idemp x : Z.land (Z.land x PAGE_MASK) PAGE_MASK = Z.land x PAGE_MASK.
Proof. by rewrite <- Z.land_assoc, Z.land_diag. Qed.

Lemma index_range x k : 0 <= Z.land (Z.shiftr x k) 0x1FF < 512.
Proof.
  change 511 with (Z.ones 9). rewrite Z.land_ones by lia. apply Z.mod_pos_bound. lia.
Qed.

Lemma pt_path_range va i : i ∈ pt_path va -> 0 <= i < 512.
Proof.
  unfold pt_path. rewrite !elem_of_cons.
  intros [->|[->|[->|[->|[]%elem_of_nil]]]]; apply index_range.
Qed.

Lemma pt_path_take_range va n i : i ∈ take n (pt_path va) -> 0 <= i < 512.
Proof.
  intros (k & Hk)%list_elem_of_lookup. apply lookup_take_Some in Hk as [Hk _].
  apply (pt_path_range va), list_elem_of_lookup. eauto.
Qed.

Lemma lor_64 a b : 0 <= a < 2 ^ 64 -> 0 <= b < 2 ^ 64 -> 0 <= Z.lor a b < 2 ^ 64.
Proof.
  intros Ha Hb. rewrite <- (Z.mod_small a (2 ^ 64)), <- (Z.mod_small b (2 ^ 64)) by done.
  rewrite <- !Z.land_ones, <- Z.land_lor_distr_l, Z.land_ones by lia.
  apply Z.mod_pos_bound. lia.
Qed.

(** The value [vmm_map] and [walk] store in an entry. *)
Definition pte_value (frame flags : Z) : Z :=
  Z.lor (Z.lor (Z.land frame PAGE_MASK) flags) VMM_PRESENT.

Lemma pte_value_spec frame flags :
  0 <= flags < 2 ^ 64 -> Z.land flags PAGE_MASK = 0 ->
  u64 (pte_value frame flags) = pte_value frame flags /\
  present (pte_value frame flags) = true /\
  Z.land (pte_value frame flags) PAGE_MASK = Z.land frame PAGE_MASK.
Proof.
  intros Hf Hm. unfold pte_value. split_and!.
  - apply wrap_small. apply lor_64; [apply lor_64; [|done]|change VMM_PRESENT with 1; lia].
    pose proof (land_mask_aligned frame). change (2 ^ 64) with (2 ^ 52 * 4096). lia.
  - rewrite present_testbit, Z.lor_spec. apply orb_true_r.
  - rewrite !land_lor_mask by done. apply land_mask_idemp.
Qed.

(** ** The invariant of the page tables

    [T] names the frames used as tables and gives each the indices leading to
    it from the root: distinct paths use distinct frames, so the tables form a
    tree. *)
Record pt_wf (m : machine) (T : gmap Z (list Z)) : Prop := {
  T_root : T !! current_pml4 m = Some [];
  T_frame : forall t p, T !! t = Some p -> 0 <= t < 2 ^ 52 /\ t mod 4096 = 0;
  T_child : forall t p i, T !! t = Some p -> (length p < 3)%nat -> 0 <= i < 512 ->
    present (entry (phys m) t i) = true ->
    Z.land (entry (phys m) t i) VMM_HUGE = 0 /\
    T !! Z.land (entry (phys m) t i) PAGE_MASK = Some (p ++ [i]);
  T_used : forall t p, T !! t = Some p -> frame_used (pmm m) t;
}.

(** Entries of distinct slots are independent. *)
Lemma entry_store s t i v t' j :
  t mod 4096 = 0 -> t' mod 4096 = 0 -> 0 <= i < 512 -> 0 <= j < 512 ->
  entry (st64 (t + 8 * i) v s) t' j
  = if decide (t' = t /\ j = i) then u64 v else entry s t' j.
Proof.
  intros Ht Ht' Hi Hj. unfold entry. case_decide as E.
  - destruct E as [-> ->]. by apply ld64_st64.
  - apply ld64_st64_ne; [done..|]. zdiv.
Qed.

(** [s'] is [s] with the frame [f] filled with zeros. *)
Definition zeroed (s : mem) (f : Z) (s' : mem) : Prop :=
  forall a, rb s' a = if (f <=? a) && (a <? f + 4096) then 0 else rb s a.

Lemma memset_zeroed s f :
  exists s', memset f 0 PAGE_SIZE_VMM s = Ret f s' /\ zeroed s f s'.
Proof.
  destruct (memset_spec s f 0 PAGE_SIZE_VMM) as (s' & E & _ & Hr);
    [unfold PAGE_SIZE_VMM; lia|apply mem_valid_range|].
  exists s'. split; [exact E|]. intros a. by rewrite Hr.
Qed.

Lemma entry_zeroed s s' f t j :
  f mod 4096 = 0 -> t mod 4096 = 0 -> 0 <= j < 512 -> zeroed s f s' ->
  entry s' t j = if decide (t = f) then 0 else entry s t j.
Proof.
  intros Hf Ht Hj E. unfold entry. case_decide as Heq.
  - subst t. apply load_zero. intros i Hi. rewrite E. zcase; cbn; try done; lia.
  - apply load_ext. intros i Hi. rewrite E. zcase; cbn; try done; zdiv.
Qed.

Section lookup_lemmas.
Context (s : mem) (T : gmap Z (list Z)).

(** The part of the invariant about one memory. *)
Definition tree : Prop :=
  (forall t p, T !! t = Some p -> 0 <= t < 2 ^ 52 /\ t mod 4096 = 0) /\
  forall t p i, T !! t = Some p -> (length p < 3)%nat -> 0 <= i < 512 ->
    present (entry s t i) = true ->
    T !! Z.land (entry s t i) PAGE_MASK = Some (p ++ [i]).

Context (Htree : tree).

Lemma descend_path t p ix t' :
  T !! t = Some p -> (length p + length ix <= 3)%nat -> (forall i, i ∈ ix -> 0 <= i < 512) ->
  descend s t ix = Some t' -> T !! t' = Some (p ++ ix).
Proof.
  destruct Htree as [_ Hch]. revert t p.
  induction ix as [|i ix IH]; intros t p Ht Hlen Hix; cbn [descend].
  - intros [= <-]. by rewrite app_nil_r.
  - destruct (present _) eqn:E; [|done]. cbn in Hlen. intros Hd.
    apply IH with (p := p ++ [i]) in Hd.
    + by rewrite <- app_assoc in Hd.
    + apply Hch; [done|lia|apply Hix, list_elem_of_here|done].
    + rewrite length_app. cbn. lia.
    + intros j Hj. apply Hix. by apply list_elem_of_further.
Qed.

(** Changing one entry of a level-3 table at path [q] changes the lookups of
    the path [q ++ [i]] and no other. *)
Lemma lookup_store_leaf t q i v :
  T !! t = Some q -> length q = 3%nat -> 0 <= i < 512 ->
  forall t0 p ix, T !! t0 = Some p -> (length p + length ix = 4)%nat -> ix <> [] ->
    (forall j, j ∈ ix -> 0 <= j < 512) ->
    pt_lookup (st64 (t + 8 * i) v s) t0 ix
    = if decide (descend s t0 (take (length ix - 1) ix) = Some t /\ last ix = Some i)
      then (if present (u64 v) then Some (u64 v) else None)
      else pt_lookup s t0 ix.
Proof.
  intros Ht Hq Hi t0 p ix. destruct Htree as [Hfr Hch].
  destruct (Hfr _ _ Ht) as [_ Hta]. revert t0 p.
  induction ix as [|j ix IH]; intros t0 p Ht0 Hlen Hne Hix; [done|].
  destruct (Hfr _ _ Ht0) as [_ Ht0a].
  assert (Hj : 0 <= j < 512) by (apply Hix, list_elem_of_here).
  cbn [pt_lookup]. rewrite entry_store by done. destruct ix as [|j' ix].
  - cbn.
    destruct (decide (t0 = t /\ j = i)) as [[-> ->]|Hn].
    + by rewrite decide_True.
    + rewrite decide_False; [done|]. intros [[= ->] [= ->]]. by apply Hn.
  - destruct (decide (t0 = t /\ j = i)) as [[-> ->]|_].
    { rewrite Ht in Ht0. simplify_eq. cbn in Hlen. lia. }
    replace (take (length (j :: j' :: ix) - 1) (j :: j' :: ix))
      with (j :: take (length (j' :: ix) - 1) (j' :: ix)) by (cbn; by rewrite Nat.sub_0_r).
    cbn [descend]. destruct (present (entry s t0 j)) eqn:E.
    + rewrite (IH _ (p ++ [j])); [done| | |done|].
      * apply Hch; [done|cbn in Hlen; lia|done..].
      * rewrite length_app. cbn in *. lia.
      * intros x Hx. apply Hix. by apply list_elem_of_further.
    + rewrite decide_False; [done|]. by intros [? _].
Qed.

(** Linking a fresh, zeroed table [f] into an absent slot changes no lookup. *)
Lemma lookup_link s1 t q i f v :
  T !! t = Some q -> 0 <= i < 512 -> T !! f = None ->
  present (entry s t i) = false ->
  0 <= f < 2 ^ 52 -> f mod 4096 = 0 -> u64 v = v -> present v = true ->
  Z.land v PAGE_MASK = f -> zeroed s f s1 ->
  (length q < 3)%nat ->
  forall t0 p ix, T !! t0 = Some p -> (length p + length ix = 4)%nat -> ix <> [] ->
    (forall j, j ∈ ix -> 0 <= j < 512) ->
    pt_lookup (st64 (t + 8 * i) v s1) t0 ix = pt_lookup s t0 ix.
Proof.
  intros Ht Hi Hf Habs Hf52 Hfa Hv Hpv Hvm Es Hq t0 p ix.
  destruct Htree as [Hfr Hch]. destruct (Hfr _ _ Ht) as [_ Hta]. revert t0 p.
  induction ix as [|j ix IH]; intros t0 p Ht0 Hlen Hne Hix; [done|].
  destruct (Hfr _ _ Ht0) as [_ Ht0a].
  assert (Hj : 0 <= j < 512) by (apply Hix, list_elem_of_here).
  assert (Hix' : forall x, x ∈ ix -> 0 <= x < 512)
    by (intros x Hx; apply Hix; by apply list_elem_of_further).
  cbn [pt_lookup]. rewrite entry_store by done.
  destruct (decide (t0 = t /\ j = i)) as [[-> ->]|Hn].
  - rewrite Hv, Hpv, Habs. assert (q = p) as -> by congruence.
    destruct ix as [|j' ix]; [cbn in Hlen; lia|].
    cbn [pt_lookup]. assert (Hj' : 0 <= j' < 512) by (apply Hix', list_elem_of_here).
    rewrite Hvm, entry_store by done. rewrite decide_False.
    2:{ intros [-> _]. congruence. }
    rewrite (entry_zeroed s s1 f) by done. by rewrite decide_True.
  - rewrite (entry_zeroed s s1 f) by done. rewrite decide_False by congruence.
    destruct (present (entry s t0 j)) eqn:E; [|done]. destruct ix as [|j' ix]; [done|].
    apply (IH _ (p ++ [j])); [|rewrite length_app; cbn in *; lia|done|done].
    apply Hch; [done|cbn in Hlen; lia|done..].
Qed.
End lookup_lemmas.

(** No entry of the lower half of the root at [root] lets ring 3 through. *)
Definition supervisor_half (s : mem) (root : Z) : Prop :=
  forall j, 0 <= j < 256 -> Z.land (entry s root j) VMM_USER = 0.

(** ** One step of the walk *)

(** [grown m T m' T']: from [m] to [m'] some tables were added and nothing else
    changed: old entries and all translations are preserved. *)
Record grown (m : machine) (T : gmap Z (list Z)) (m' : machine) (T' : gmap Z (list Z)) : Prop := {
  g_wf : pt_wf m' T';
  g_pmm : pmm_wf (pmm m');
  g_sub : T ⊆ T';
  g_new : forall t p, T' !! t = Some p -> T !! t = Some p \/
    exists k, k ∈ free_frames (pmm m) /\ t = managed_base (pmm m) + k * PAGE_SIZE;
  g_root : current_pml4 m' = current_pml4 m;
  g_base : managed_base (pmm m') = managed_base (pmm m);
  g_total : total_pages (pmm m') = total_pages (pmm m);
  g_free : free_frames (pmm m') ⊆ free_frames (pmm m);
  g_entries : forall t p j, T !! t = Some p -> 0 <= j < 512 ->
    present (entry (phys m) t j) = true -> entry (phys m') t j = entry (phys m) t j;
  g_lookup : forall t p ix, T !! t = Some p -> (length p + length ix = 4)%nat -> ix <> [] ->
    (forall j, j ∈ ix -> 0 <= j < 512) ->
    pt_lookup (phys m') t ix = pt_lookup (phys m) t ix;
  g_frame : forall a, (forall t p, T' !! t = Some p -> ~ (t <= a < t + 4096)) ->
    rb (phys m') a = rb (phys m) a;
  g_user : supervisor_half (phys m) (current_pml4 m) -> supervisor_half (phys m') (current_pml4 m');
  g_rest : g_hhdm_offset m' = g_hhdm_offset m /\ con m' = con m /\ cr3 m' = cr3 m /\
    g_memmap m' = g_memmap m /\ invlpgs m' = invlpgs m;
}.

Lemma wf_tree m T : pt_wf m T -> tree (phys m) T.
Proof.
  intros H. split; [apply H|]. intros t p i ????. by apply (T_child _ _ H t p i).
Qed.

Lemma grown_refl m T : pt_wf m T -> pmm_wf (pmm m) -> grown m T m T.
Proof. intros. split; auto. Qed.

Lemma grown_trans m1 T1 m2 T2 m3 T3 :
  grown m1 T1 m2 T2 -> grown m2 T2 m3 T3 -> grown m1 T1 m3 T3.
Proof.
  intros H1 H2.
  assert (Hsub : forall t p, T1 !! t = Some p -> T2 !! t = Some p).
  { intros. by eapply lookup_weaken; [|apply H1]. }
  split; try apply H2.
  - etrans; [apply H1|apply H2].
  - intros t p Ht. destruct (g_new _ _ _ _ H2 t p Ht) as [Ht2|(k & Hk & ->)].
    + by apply (g_new _ _ _ _ H1).
    + right. exists k. split; [by apply (g_free _ _ _ _ H1)|by rewrite (g_base _ _ _ _ H1)].
  - etrans; [apply H2|apply H1].
  - etrans; [apply H2|apply H1].
  - etrans; [apply H2|apply H1].
  - etrans; [apply H2|apply H1].
  - intros t p j Ht Hj Hp. pose proof (g_entries _ _ _ _ H1 t p j Ht Hj Hp) as E.
    rewrite <- E. apply (g_entries _ _ _ _ H2 t p j); [by apply Hsub|done|by rewrite E].
  - intros t p ix Ht Hl Hne Hix. rewrite (g_lookup _ _ _ _ H2 t p ix); [|by apply Hsub|done..].
    by apply (g_lookup _ _ _ _ H1 t p ix).
  - intros a Ha. rewrite (g_frame _ _ _ _ H2) by done. apply (g_frame _ _ _ _ H1).
    intros t p Ht. apply (Ha t p). by eapply lookup_weaken; [|apply H2].
  - intros Hu. by apply (g_user _ _ _ _ H2), (g_user _ _ _ _ H1).
  - destruct (g_rest _ _ _ _ H1) as (? & ? & ? & ? & ?).
    destruct (g_rest _ _ _ _ H2) as (? & ? & ? & ? & ?). split_and!; congruence.
Qed.

Lemma grown_descend m T m' T' t p ix t' :
  pt_wf m T -> grown m T m' T' -> T !! t = Some p -> (length p + length ix <= 3)%nat ->
  (forall i, i ∈ ix -> 0 <= i < 512) ->
  descend (phys m) t ix = Some t' -> descend (phys m') t ix = Some t'.
Proof.
  intros Hwf Hg. revert t p. induction ix as [|i ix IH]; intros t p Ht Hl Hix; [done|].
  cbn [descend]. assert (Hi : 0 <= i < 512) by (apply Hix, list_elem_of_here).
  destruct (present (entry (phys m) t i)) eqn:E; [|done].
  rewrite (g_entries _ _ _ _ Hg t p i) by done. rewrite E. intros Hd.
  apply (IH _ (p ++ [i])); [|rewrite length_app; cbn in *; lia| |done].
  - apply (T_child _ _ Hwf); [done|cbn in Hl; lia|done..].
  - intros j Hj. apply Hix. by apply list_elem_of_further.
Qed.

(** The value [walk] stores for a new table. *)
Lemma link_value f :
  Z.lor (Z.lor (Z.land f PAGE_MASK) VMM_PRESENT) VMM_WRITE = pte_value f VMM_WRITE.
Proof. unfold pte_value. by rewrite <- !Z.lor_assoc, (Z.lor_comm VMM_PRESENT). Qed.

Lemma link_value_spec f :
  u64 (pte_value f VMM_WRITE) = pte_value f VMM_WRITE /\
  present (pte_value f VMM_WRITE) = true /\
  Z.land (pte_value f VMM_WRITE) PAGE_MASK = Z.land f PAGE_MASK.
Proof. apply pte_value_spec; [change VMM_WRITE with 2; lia|reflexivity]. Qed.

Lemma link_value_nohuge f : Z.land (pte_value f VMM_WRITE) VMM_HUGE = 0.
Proof.
  unfold pte_value. rewrite !Z.land_lor_distr_l, PAGE_MASK_shift, <- Z.land_assoc.
  change (Z.land (Z.shiftl (Z.ones 40) 12) VMM_HUGE) with 0.
  by rewrite Z.land_0_r.
Qed.

Lemma link_value_nouser f : Z.land (pte_value f VMM_WRITE) VMM_USER = 0.
Proof.
  unfold pte_value. rewrite !Z.land_lor_distr_l, PAGE_MASK_shift, <- Z.land_assoc.
  change (Z.land (Z.shiftl (Z.ones 40) 12) VMM_USER) with 0.
  by rewrite Z.land_0_r.
Qed.

(** The machine after a new table was allocated at frame index [k] and linked
    from entry [i] of [t]. *)
Definition linked (m : machine) (k t i : Z) (s1 : mem) : machine :=
  set_phys (st64 (t + 8 * i) (pte_value (managed_base (pmm m) + k * PAGE_SIZE) VMM_WRITE) s1)
    (set_pmm (take_frame (pmm m) k) m).

Section link.
Context (m : machine) (T : gmap Z (list Z)) (t i k : Z) (q : list Z) (s1 : mem).
Context (Hwf : pt_wf m T) (Hpmm : pmm_wf (pmm m)).
Context (Ht : T !! t = Some q) (Hq : (length q < 3)%nat) (Hi : 0 <= i < 512).
Context (Habs : present (entry (phys m) t i) = false) (Hk : page_free (pmm m) k).
Let f := managed_base (pmm m) + k * PAGE_SIZE.
Context (Es : zeroed (phys m) f s1).
Let T' := <[f := q ++ [i]]> T.
Let m' := linked m k t i s1.

Lemma link_frame : 0 <= f < 2 ^ 52 /\ f mod 4096 = 0.
Proof.
  clear -Hpmm Hk. destruct Hpmm as [_ _ _ [Hb Ha] He], Hk as [Hkr _]. unfold f, PAGE_SIZE in *.
  split; [nia|]. rewrite Z.mod_add by lia. done.
Qed.

Lemma link_fresh : T !! f = None.
Proof.
  destruct (T !! f) as [p|] eqn:E; [|done]. exfalso.
  by apply (T_used _ _ Hwf f p E k).
Qed.

Lemma link_entry t0 p j : T !! t0 = Some p -> 0 <= j < 512 ->
  entry (phys m') t0 j
  = if decide (t0 = t /\ j = i) then pte_value f VMM_WRITE else entry (phys m) t0 j.
Proof.
  intros Ht0 Hj. destruct (T_frame _ _ Hwf _ _ Ht0) as [_ H0a].
  destruct (T_frame _ _ Hwf _ _ Ht) as [_ Hta]. destruct link_frame as [Hf52 Hfa].
  unfold m', linked. cbn [phys set_phys set_pmm]. rewrite entry_store by done.
  case_decide; [apply link_value_spec|].
  rewrite (entry_zeroed (phys m) s1 f) by done.
  rewrite decide_False; [done|]. intros ->. by rewrite link_fresh in Ht0.
Qed.

Lemma link_entry_new j : 0 <= j < 512 -> entry (phys m') f j = 0.
Proof.
  intros Hj. destruct (T_frame _ _ Hwf _ _ Ht) as [_ Hta]. destruct link_frame as [Hf52 Hfa].
  unfold m', linked. cbn [phys set_phys set_pmm]. rewrite entry_store by done.
  rewrite decide_False by (intros [<- _]; by rewrite link_fresh in Ht).
  rewrite (entry_zeroed (phys m) s1 f) by done. by rewrite decide_True.
Qed.

Lemma link_wf : pt_wf m' T'.
Proof.
  destruct link_frame as [Hf52 Hfa].
  destruct (link_value_spec f) as (Hv & Hpv & Hvm).
  assert (Hmask : Z.land (pte_value f VMM_WRITE) PAGE_MASK = f)
    by (rewrite Hvm; by apply land_mask_frame).
  split.
  - change (current_pml4 m') with (current_pml4 m).
    unfold T'. rewrite lookup_insert_ne; [apply Hwf|].
    intros E. pose proof (T_root _ _ Hwf) as Hr. rewrite <- E in Hr. by rewrite link_fresh in Hr.
  - intros t0 p. unfold T'. rewrite lookup_insert. case_decide as E0; [by subst|].
    apply Hwf.
  - intros t0 p j. unfold T' at 1. rewrite lookup_insert. case_decide as E0.
    + intros _ _ Hj. subst t0. by rewrite link_entry_new.
    + intros Ht0 Hp Hj. rewrite (link_entry t0 p) by done. case_decide as E.
      * destruct E as [-> ->]. intros _. rewrite Hmask. split; [apply link_value_nohuge|].
        unfold T'. rewrite lookup_insert_eq. congruence.
      * intros Hpr. destruct (T_child _ _ Hwf t0 p j Ht0 Hp Hj Hpr) as [Hh Hc].
        split; [done|]. unfold T'. rewrite lookup_insert_ne; [done|].
        intros E'. rewrite <- E' in Hc. by rewrite link_fresh in Hc.
  - intros t0 p. unfold T'. rewrite lookup_insert. case_decide as E0.
    + intros _ j Ej Hj. apply page_free_take in Hj; [|done|apply Hk].
      destruct Hj as [_ Hne]. subst t0. unfold f, PAGE_SIZE in Ej. cbn in Ej. lia.
    + intros Ht0 j Ej Hj. apply page_free_take in Hj; [|done|apply Hk].
      destruct Hj as [Hj _]. exact (T_used _ _ Hwf _ _ Ht0 j Ej Hj).
Qed.

Lemma link_grown : grown m T m' T'.
Proof.
  destruct link_frame as [Hf52 Hfa].
  destruct (link_value_spec f) as (Hv & Hpv & Hvm).
  split; [apply link_wf|by apply take_frame_wf|..|done].
  - apply insert_subseteq, link_fresh.
  - intros t0 p. unfold T'. rewrite lookup_insert. case_decide as E0; [|by left].
    intros _. right. exists k. split; [by apply elem_of_free_frames|by subst].
  - done.
  - done.
  - done.
  - unfold m', linked. cbn [pmm set_phys set_pmm].
    rewrite free_frames_take; [|exact Hpmm|exact (proj1 Hk)].
    intros x. rewrite elem_of_difference. by intros [? _].
  - intros t0 p j Ht0 Hj Hpr. rewrite (link_entry t0 p) by done.
    rewrite decide_False; [done|]. intros [-> ->]. by rewrite Habs in Hpr.
  - intros t0 p ix Ht0 Hl Hne Hix. unfold m', linked. cbn [phys set_phys set_pmm].
    assert (Hmask : Z.land (pte_value f VMM_WRITE) PAGE_MASK = f)
      by (rewrite Hvm; by apply land_mask_frame).
    exact (lookup_link (phys m) T (wf_tree _ _ Hwf) s1 t q i f _ Ht Hi link_fresh Habs
             Hf52 Hfa Hv Hpv Hmask Es Hq t0 p ix Ht0 Hl Hne Hix).
  - intros a Ha. unfold m', linked. cbn [phys set_phys set_pmm].
    destruct (T_frame _ _ Hwf _ _ Ht) as [_ Hta].
    assert (~ (t <= a < t + 4096)).
    { apply (Ha t q). unfold T'. rewrite lookup_insert_ne; [done|].
      intros <-. by rewrite link_fresh in Ht. }
    assert (~ (f <= a < f + 4096)).
    { apply (Ha f (q ++ [i])). unfold T'. by rewrite lookup_insert_eq. }
    rewrite rb_store_ne by (done || lia).
    rewrite Es. zcase; cbn; try done; lia.
  - change (current_pml4 m') with (current_pml4 m). intros Hu j Hj.
    rewrite (link_entry _ [] j (T_root _ _ Hwf)) by lia. case_decide; [apply link_value_nouser|by apply Hu].
Qed.
End link.

Lemma alloc_table_cases m :
  pmm_wf (pmm m) -> 0 < managed_base (pmm m) ->
  (exists k s1, let f := managed_base (pmm m) + k * PAGE_SIZE in
     page_free (pmm m) k /\ zeroed (phys m) f s1 /\
     alloc_table m = Ret f (set_phys s1 (set_pmm (take_frame (pmm m) k) m)))
  \/ (free_frames (pmm m) = ∅ /\ exists m', alloc_table m = Stop Halted m').
Proof.
  intros Hwf Hb. destruct (pmm_alloc_cases m Hwf) as [(k & Hk & _ & E)|[Hno E]].
  - left. destruct (memset_zeroed (phys m) (managed_base (pmm m) + k * PAGE_SIZE))
      as (s1 & Es & Hz).
    exists k, s1. split_and!; [done..|]. unfold alloc_table. rewrite (kbind_ret _ _ _ _ _ E).
    destruct (Z.eqb_spec (managed_base (pmm m) + k * PAGE_SIZE) 0) as [H0|_].
    + pose proof (proj1 Hk). unfold PAGE_SIZE in H0. lia.
    + unfold on_phys. erewrite kbind_ret; [reflexivity|].
      by apply (klift_ret phys set_phys _ (set_pmm (take_frame (pmm m) k) m)).
  - right. split.
    + apply set_eq. intros j. rewrite elem_of_free_frames.
      split; [intros Hj; by apply Hno in Hj|set_solver].
    + eexists. unfold alloc_table. by rewrite (kbind_ret _ _ _ _ _ E).
Qed.

(** How a computation that may run out of frames ends. *)
Definition size_free (m : machine) : nat := size (free_frames (pmm m)).

Lemma walk_level_create m T t q i :
  pt_wf m T -> pmm_wf (pmm m) -> 0 < managed_base (pmm m) ->
  T !! t = Some q -> (length q < 3)%nat -> 0 <= i < 512 ->
  (exists m' T' t', walk_level true t i m = Ret (Some t') m' /\ grown m T m' T' /\
     descend (phys m') t [i] = Some t' /\ T' !! t' = Some (q ++ [i]) /\
     (size_free m <= size_free m' + 1)%nat)
  \/ (size_free m = O /\ exists m', walk_level true t i m = Stop Halted m').
Proof.
  intros Hwf Hp Hb Ht Hq Hi. unfold walk_level, pload64, pstore64.
  rewrite (kbind_ret _ _ m (entry (phys m) t i) m) by done. cbn beta.
  destruct (present (entry (phys m) t i)) eqn:Hpr; cbn [negb].
  - left. eexists m, T, _. split; [done|]. split; [by apply grown_refl|].
    split; [cbn [descend]; by rewrite Hpr|]. split; [|unfold size_free; lia].
    by apply (T_child _ _ Hwf t q i).
  - destruct (alloc_table_cases m Hp Hb) as [(k & s1 & Hk & Hz & E)|[He [m' E]]].
    + left. set (f := managed_base (pmm m) + k * PAGE_SIZE) in *.
      exists (linked m k t i s1), (<[f := q ++ [i]]> T), f.
      pose proof (link_entry m T t i k q s1 Hwf Hp Ht Hi Hk Hz t q i Ht Hi) as He.
      rewrite decide_True in He by done. fold f in He.
      destruct (link_value_spec f) as (Hv & Hpv & Hvm).
      rewrite (land_mask_frame f) in Hvm by apply (link_frame m k Hp Hk).
      pose proof (link_grown m T t i k q s1 Hwf Hp Ht Hq Hi Hpr Hk Hz) as Hg.
      split_and!; [|exact Hg| | |].
      * rewrite (kbind_ret _ _ _ _ _ E), link_value. krun. change (ld64 _ _) with
          (entry (phys (linked m k t i s1)) t i). by rewrite He, Hvm.
      * cbn [descend]. by rewrite He, Hpv, Hvm.
      * by rewrite lookup_insert_eq.
      * unfold size_free, linked. cbn [pmm set_phys set_pmm].
        rewrite free_frames_take by (exact Hp || exact (proj1 Hk)).
        rewrite size_difference by (apply singleton_subseteq_l, elem_of_free_frames, Hk).
        rewrite size_singleton. lia.
    + right. split; [unfold size_free; by rewrite He, size_empty|].
      exists m'. by rewrite (kbind_stop _ _ _ _ _ E).
Qed.

(** [walk] with [create] reaches the page-table slot of the address. *)
Lemma walk_create m T va :
  pt_wf m T -> pmm_wf (pmm m) -> 0 < managed_base (pmm m) ->
  (exists m' T' pt, walk va true m = Ret (Some (pt + 8 * PT_INDEX va)) m' /\
     grown m T m' T' /\
     descend (phys m') (current_pml4 m') (take 3 (pt_path va)) = Some pt /\
     T' !! pt = Some (take 3 (pt_path va)) /\ (size_free m <= size_free m' + 3)%nat)
  \/ ((size_free m < 3)%nat /\ exists m', walk va true m = Stop Halted m').
Proof.
  intros Hwf Hp Hb. unfold walk.
  rewrite (kbind_ret _ _ m (current_pml4 m) m) by done. cbn beta.
  destruct (walk_level_create m T (current_pml4 m) [] (PML4_INDEX va))
    as [(m1 & T1 & t1 & E1 & G1 & D1 & H1 & S1)|[H0 [m1 E1]]];
    [done..|apply Hwf|cbn; lia|apply index_range| |].
  2:{ right. split; [lia|]. exists m1. by rewrite (kbind_stop _ _ _ _ _ E1). }
  rewrite (kbind_ret _ _ _ _ _ E1).
  destruct (walk_level_create m1 T1 t1 [PML4_INDEX va] (PDPT_INDEX va))
    as [(m2 & T2 & t2 & E2 & G2 & D2 & H2 & S2)|[H0 [m2 E2]]];
    [apply G1|apply G1|by rewrite (g_base _ _ _ _ G1)|done|cbn; lia|apply index_range| |].
  2:{ right. split; [lia|]. exists m2. by rewrite (kbind_stop _ _ _ _ _ E2). }
  rewrite (kbind_ret _ _ _ _ _ E2).
  pose proof (grown_trans _ _ _ _ _ _ G1 G2) as G12.
  destruct (walk_level_create m2 T2 t2 [PML4_INDEX va; PDPT_INDEX va] (PD_INDEX va))
    as [(m3 & T3 & t3 & E3 & G3 & D3 & H3 & S3)|[H0 [m3 E3]]];
    [apply G12|apply G12|by rewrite (g_base _ _ _ _ G12)|done|cbn; lia|apply index_range| |].
  2:{ right. split; [lia|]. exists m3. by rewrite (kbind_stop _ _ _ _ _ E3). }
  rewrite (kbind_ret _ _ _ _ _ E3).
  pose proof (grown_trans _ _ _ _ _ _ G12 G3) as G123.
  left. exists m3, T3, t3. do 2 (split; [done | ]). split; [|split; [done|lia]].
  rewrite (g_root _ _ _ _ G123).
  pose proof (grown_trans _ _ _ _ _ _ G2 G3) as G23.
  apply (grown_descend m1 T1 m3 T3 _ [] [_] _ (g_wf _ _ _ _ G1) G23) in D1;
    [|by rewrite <- (g_root _ _ _ _ G1); apply G1|cbn; lia|by intros j ->%list_elem_of_singleton; apply index_range].
  apply (grown_descend m2 T2 m3 T3 _ [PML4_INDEX va] [_] _ (g_wf _ _ _ _ G2) G3) in D2;
    [| |cbn; lia|by intros j ->%list_elem_of_singleton; apply index_range].
  2:{ eapply lookup_weaken; [exact H1|apply G2]. }
  cbn [descend take pt_path] in D1, D2, D3 |- *.
  destruct (present (entry (phys m3) (current_pml4 m) (PML4_INDEX va))); [|done].
  injection D1 as ->. destruct (present (entry (phys m3) t1 (PDPT_INDEX va))); [|done].
  injection D2 as ->. exact D3.
Qed.

(** ** Pure walks *)

Lemma walk_level_lookup m t i :
  walk_level false t i m
  = Ret (if present (entry (phys m) t i)
         then Some (Z.land (entry (phys m) t i) PAGE_MASK) else None) m.
Proof.
  unfold walk_level, pload64. krun. fold (entry (phys m) t i).
  by destruct (present (entry (phys m) t i)).
Qed.

Lemma walk_lookup m va :
  walk va false m
  = Ret (option_map (fun pt => pt + 8 * PT_INDEX va)
           (descend (phys m) (current_pml4 m) (take 3 (pt_path va)))) m.
Proof.
  unfold walk. rewrite (kbind_ret _ _ m (current_pml4 m) m) by done. cbn beta.
  cbn [pt_path take descend].
  rewrite (kbind_ret _ _ _ _ _ (walk_level_lookup _ _ _)).
  destruct (present (entry _ _ (PML4_INDEX va))); [cbv beta iota|done].
  rewrite (kbind_ret _ _ _ _ _ (walk_level_lookup _ _ _)).
  destruct (present (entry _ _ (PDPT_INDEX va))); [cbv beta iota|done].
  rewrite (kbind_ret _ _ _ _ _ (walk_level_lookup _ _ _)).
  by destruct (present (entry _ _ (PD_INDEX va))).
Qed.

Lemma pt_lookup_descend s t va :
  pt_lookup s t (pt_path va)
  = match descend s t (take 3 (pt_path va)) with
    | Some pt => let e := entry s pt (PT_INDEX va) in if present e then Some e else None
    | None => None
    end.
Proof.
  cbn [pt_path take descend pt_lookup].
  destruct (present (entry _ _ (PML4_INDEX va))); [|done].
  destruct (present (entry _ _ (PDPT_INDEX va))); [|done].
  by destruct (present (entry _ _ (PD_INDEX va))).
Qed.

Lemma vmm_resolve_run m va : vmm_resolve va m = Ret (resolve m va) m.
Proof.
  unfold vmm_resolve, resolve. rewrite (kbind_ret _ _ _ _ _ (walk_lookup m va)).
  rewrite pt_lookup_descend.
  destruct (descend _ _ _) as [pt|]; [|done]. cbn [option_map]. unfold pload64. krun.
  fold (entry (phys m) pt (PT_INDEX va)). by destruct (present _).
Qed.

(** ** Changing one leaf entry *)

Definition with_pte (m : machine) (pt i v va : Z) : machine :=
  set_invlpgs (va :: invlpgs m) (set_phys (st64 (pt + 8 * i) v (phys m)) m).

Section leaf.
Context (m : machine) (T : gmap Z (list Z)) (pt va v : Z).
Context (Hwf : pt_wf m T).
Context (Hd : descend (phys m) (current_pml4 m) (take 3 (pt_path va)) = Some pt).
Let m' := with_pte m pt (PT_INDEX va) v va.

Lemma leaf_path : T !! pt = Some (take 3 (pt_path va)).
Proof.
  apply (descend_path (phys m) T (wf_tree _ _ Hwf) _ [] _ _ (T_root _ _ Hwf)) in Hd;
    [done|cbn; lia|apply pt_path_take_range].
Qed.

Lemma leaf_wf : pt_wf m' T.
Proof.
  pose proof leaf_path as Hp. destruct (T_frame _ _ Hwf _ _ Hp) as [_ Ha].
  split; try apply Hwf.
  intros t p j Ht Hl Hj. destruct (T_frame _ _ Hwf _ _ Ht) as [_ Ht0].
  unfold m', with_pte. cbn [phys set_phys set_invlpgs].
  rewrite entry_store by (done || apply index_range). rewrite decide_False.
  - by apply (T_child _ _ Hwf).
  - intros [-> _]. rewrite Hp in Ht. injection Ht as <-. cbn in Hl. lia.
Qed.

(** The page of [va] gets the new entry; every other page keeps its own. *)
Lemma leaf_lookup va' :
  pt_lookup (phys m') (current_pml4 m') (pt_path va')
  = if decide (pt_path va' = pt_path va)
    then (if present (u64 v) then Some (u64 v) else None)
    else pt_lookup (phys m) (current_pml4 m) (pt_path va').
Proof.
  unfold m', with_pte. cbn [phys set_phys set_invlpgs current_pml4].
  rewrite (lookup_store_leaf (phys m) T (wf_tree _ _ Hwf) pt (take 3 (pt_path va))
             (PT_INDEX va) v leaf_path eq_refl (index_range _ _) _ [] (pt_path va')
             (T_root _ _ Hwf) eq_refl ltac:(done) (pt_path_range va')).
  change (length (pt_path va') - 1)%nat with 3%nat.
  destruct (decide (pt_path va' = pt_path va)) as [E|E].
  - rewrite decide_True; [done|]. rewrite E. done.
  - rewrite decide_False; [done|]. intros [Hd' Hl].
    apply (descend_path (phys m) T (wf_tree _ _ Hwf) _ [] _ _ (T_root _ _ Hwf)) in Hd';
      [|cbn; lia|apply pt_path_take_range].
    rewrite leaf_path in Hd'. apply E. cbn in Hd', Hl. unfold pt_path in *. congruence.
Qed.

Lemma leaf_user : supervisor_half (phys m) (current_pml4 m) -> supervisor_half (phys m') (current_pml4 m').
Proof.
  intros Hu j Hj. destruct (T_frame _ _ Hwf _ _ leaf_path) as [_ Ha].
  destruct (T_frame _ _ Hwf _ _ (T_root _ _ Hwf)) as [_ Hra].
  unfold m', with_pte. cbn [phys set_phys set_invlpgs current_pml4].
  rewrite entry_store by (done || apply index_range || lia). rewrite decide_False; [by apply Hu|].
  intros [E _]. pose proof (T_root _ _ Hwf) as Hr. rewrite E, leaf_path in Hr. done.
Qed.

Lemma leaf_frame a :
  (forall t p, T !! t = Some p -> ~ (t <= a < t + 4096)) -> rb (phys m') a = rb (phys m) a.
Proof.
  intros Ha. unfold m', with_pte. cbn [phys set_phys set_invlpgs].
  pose proof (Ha _ _ leaf_path). pose proof (index_range va 12).
  fold (PT_INDEX va) in *. apply rb_store_ne; [apply mem_valid_range|done|lia].
Qed.
End leaf.

(** What a successful [vmm_map] does to the machine and its tables. *)
Record mapped (m : machine) (T : gmap Z (list Z)) (va pa flags : Z)
    (m' : machine) (T' : gmap Z (list Z)) : Prop := {
  mp_wf : pt_wf m' T';
  mp_sub : T ⊆ T';
  mp_pmm : pmm_wf (pmm m');
  mp_invlpg : invlpgs m' = va :: invlpgs m;
  mp_lookup : forall va', pt_lookup (phys m') (current_pml4 m') (pt_path va')
    = if decide (pt_path va' = pt_path va) then Some (pte_value pa flags)
      else pt_lookup (phys m) (current_pml4 m) (pt_path va');
  mp_frame : forall a, (forall t p, T' !! t = Some p -> ~ (t <= a < t + 4096)) ->
    rb (phys m') a = rb (phys m) a;
  mp_user : supervisor_half (phys m) (current_pml4 m) -> supervisor_half (phys m') (current_pml4 m');
  mp_new : forall t p, T' !! t = Some p -> T !! t = Some p \/
    exists k, k ∈ free_frames (pmm m) /\ t = managed_base (pmm m) + k * PAGE_SIZE;
  mp_size : (size_free m <= size_free m' + 3)%nat;
  mp_free : free_frames (pmm m') ⊆ free_frames (pmm m);
  mp_base : managed_base (pmm m') = managed_base (pmm m);
  mp_total : total_pages (pmm m') = total_pages (pmm m);
  mp_hhdm : g_hhdm_offset m' = g_hhdm_offset m;
}.

Lemma vmm_map_run m T va pa flags :
  pt_wf m T -> pmm_wf (pmm m) -> 0 < managed_base (pmm m) ->
  0 <= flags < 2 ^ 64 -> Z.land flags PAGE_MASK = 0 -> (3 <= size_free m)%nat ->
  exists m' T', vmm_map va pa flags m = Ret tt m' /\ mapped m T va pa flags m' T'.
Proof.
  intros Hwf Hp Hb Hfl Hmask Hfree.
  destruct (walk_create m T va Hwf Hp Hb) as [(m1 & T1 & pt & E & G & D & Hpt & Hs)|[Hno _]];
    [|lia].
  exists (with_pte m1 pt (PT_INDEX va) (pte_value pa flags) va), T1.
  destruct (pte_value_spec pa flags Hfl Hmask) as (Hv & Hpv & Hvm).
  split; [unfold vmm_map; rewrite (kbind_ret _ _ _ _ _ E); done|].
  split; try apply G; try done.
  - by apply leaf_wf; [apply G|].
  - cbn. by destruct (g_rest _ _ _ _ G) as (_ & _ & _ & _ & ->).
  - intros va'. rewrite (leaf_lookup m1 T1 pt va _ (g_wf _ _ _ _ G) D).
    case_decide; [by rewrite Hv, Hpv|]. rewrite (g_root _ _ _ _ G).
    apply (g_lookup _ _ _ _ G _ [] (pt_path va')); [apply Hwf|done|done|apply pt_path_range].
  - intros a Ha. rewrite (leaf_frame m1 T1 pt va _ (g_wf _ _ _ _ G) D) by done.
    by apply (g_frame _ _ _ _ G).
  - intros Hu. by apply (leaf_user m1 T1 pt va _ (g_wf _ _ _ _ G) D), (g_user _ _ _ _ G).
Qed.

Lemma vmm_unmap_run m T va : pt_wf m T ->
  exists m', vmm_unmap va m = Ret tt m' /\ pt_wf m' T /\ pmm m' = pmm m /\
    g_hhdm_offset m' = g_hhdm_offset m /\
    (forall va', pt_lookup (phys m') (current_pml4 m') (pt_path va')
       = if decide (pt_path va' = pt_path va) then None
         else pt_lookup (phys m) (current_pml4 m) (pt_path va')) /\
    (forall a, (forall t p, T !! t = Some p -> ~ (t <= a < t + 4096)) ->
       rb (phys m') a = rb (phys m) a).
Proof.
  intros Hwf. unfold vmm_unmap. rewrite (kbind_ret _ _ _ _ _ (walk_lookup m va)).
  assert (Hsame : pt_lookup (phys m) (current_pml4 m) (pt_path va) = None ->
    forall va', pt_lookup (phys m) (current_pml4 m) (pt_path va')
      = if decide (pt_path va' = pt_path va) then None
        else pt_lookup (phys m) (current_pml4 m) (pt_path va')).
  { intros Hn va'. case_decide as E; [|done]. by rewrite E, Hn. }
  rewrite pt_lookup_descend in Hsame.
  destruct (descend (phys m) (current_pml4 m) (take 3 (pt_path va))) as [pt|] eqn:D.
  2:{ exists m. split_and!; try done. by apply Hsame. }
  cbn [option_map]. rewrite (kbind_ret _ _ m (entry (phys m) pt (PT_INDEX va)) m) by done.
  destruct (present (entry (phys m) pt (PT_INDEX va))) eqn:Hpr.
  - exists (with_pte m pt (PT_INDEX va) 0 va). split_and!; [done|by apply leaf_wf|done|done| |].
    + intros va'. rewrite (leaf_lookup m T pt va 0 Hwf D). by case_decide.
    + intros a Ha. by apply (leaf_frame m T pt va 0 Hwf D).
  - exists m. split_and!; try done. apply Hsame. cbn zeta. by rewrite Hpr.
Qed.

(** ** Address spaces *)

Lemma copy_upper_half_run m new old :
  new mod 4096 = 0 -> old mod 4096 = 0 -> new <> old ->
  exists s', copy_upper_half new old m = Ret tt (set_phys s' m) /\
    (forall t i, t mod 4096 = 0 -> 0 <= i < 512 ->
       entry s' t i = if decide (t = new /\ 256 <= i) then entry (phys m) old i
                      else entry (phys m) t i) /\
    (forall a, ~ (new <= a < new + 4096) -> rb s' a = rb (phys m) a).
Proof.
  intros Hn Ho Hne.
  destruct (kfor_ind (fun k m' => exists s', m' = set_phys s' m /\
      (forall t i, t mod 4096 = 0 -> 0 <= i < 512 ->
        entry s' t i = if decide (t = new /\ 256 <= i < k) then entry (phys m) old i
                       else entry (phys m) t i) /\
      (forall a, ~ (new <= a < new + 4096) -> rb s' a = rb (phys m) a))
    (Z.to_nat (ENTRIES_PER_TABLE - 256)) 256
    (fun i => e ← pload64 (old + 8 * i); pstore64 (new + 8 * i) e) m)
    as (m' & E & s' & -> & H & Hb).
  - exists (phys m). split; [by destruct m|]. split; [|done]. intros t i _ _. by rewrite decide_False by lia.
  - intros k t Hk (s' & -> & H & Hb).
    change (256 + Z.of_nat (Z.to_nat (ENTRIES_PER_TABLE - 256))) with 512 in Hk.
    eexists. split; [reflexivity|]. eexists. split; [reflexivity|]. split.
    2:{ intros a Ha. cbn [phys set_phys]. rewrite rb_store_ne; [by apply Hb|apply mem_valid_range|done|lia]. }
    intros t i Ht Hi. change (ld64 _ (old + 8 * k)) with (entry s' old k).
    rewrite entry_store by (done || lia). rewrite !H by (done || lia).
    rewrite (decide_False (P := old = new /\ _)) by (intros [? _]; congruence).
    destruct (decide (t = new /\ i = k)) as [[-> ->]|Hd].
    + rewrite decide_True by lia. apply wrap_small, ld64_range.
    + destruct (decide (t = new /\ 256 <= i < k)), (decide (t = new /\ 256 <= i < k + 1));
        try done; exfalso; lia.
  - exists s'. split; [exact E|]. split; [|exact Hb]. clear E.
    change (256 + Z.of_nat (Z.to_nat (ENTRIES_PER_TABLE - 256))) with 512 in H.
    intros t i Ht Hi. rewrite (H t i Ht Hi).
    destruct (decide (t = new /\ 256 <= i)), (decide (t = new /\ 256 <= i < 512));
      try reflexivity; lia.
Qed.

Lemma pt_lookup_cons s t i ix :
  pt_lookup s t (i :: ix)
  = if present (entry s t i)
    then match ix with
         | [] => Some (entry s t i)
         | _ => pt_lookup s (Z.land (entry s t i) PAGE_MASK) ix
         end
    else None.
Proof. done. Qed.

(** A lookup only depends on the entries along its path. *)
Lemma pt_lookup_ext m T s t p ix :
  pt_wf m T -> T !! t = Some p -> (length p + length ix <= 4)%nat ->
  (forall i, i ∈ ix -> 0 <= i < 512) ->
  (forall t i p, T !! t = Some p -> 0 <= i < 512 -> entry s t i = entry (phys m) t i) ->
  pt_lookup s t ix = pt_lookup (phys m) t ix.
Proof.
  intros Hwf Ht Hl Hix Hs. revert t p Ht Hl.
  induction ix as [|i ix IH]; intros t p Ht Hl; [done|]. cbn [pt_lookup].
  assert (Hi : 0 <= i < 512) by (apply Hix, list_elem_of_here).
  rewrite (Hs t i p) by done.
  destruct (present (entry (phys m) t i)) eqn:E; [|done]. destruct ix as [|j ix]; [done|].
  apply (IH ltac:(intros x Hx; apply Hix; by apply list_elem_of_further) _ (p ++ [i])).
  - apply (T_child _ _ Hwf t p i); [done|cbn in Hl; lia|done..].
  - rewrite length_app. cbn in *. lia.
Qed.

Section new_space.
Context (m : machine) (T : gmap Z (list Z)) (Hwf : pt_wf m T).

(** Taking a frame and writing outside the tables keeps the invariant. *)
Lemma new_space_wf k s' :
  pmm_wf (pmm m) -> page_free (pmm m) k ->
  (forall t i p, T !! t = Some p -> 0 <= i < 512 -> entry s' t i = entry (phys m) t i) ->
  forall s1, pt_wf (set_phys s' (set_phys s1 (set_pmm (take_frame (pmm m) k) m))) T.
Proof.
  intros Hp Hk Hold s1. split; try apply Hwf.
  - intros t p i Ht Hl Hi. cbn [phys set_phys]. rewrite (Hold t i p) by done.
    by apply (T_child _ _ Hwf).
  - intros t p Ht j Ej Hj. apply page_free_take in Hj as [Hj _]; [|done|apply Hk].
    exact (T_used _ _ Hwf _ _ Ht j Ej Hj).
Qed.

Lemma new_space_lookup f s' s1 :
  f mod 4096 = 0 -> zeroed (phys m) f s1 -> T !! f = None ->
  (forall t i, t mod 4096 = 0 -> 0 <= i < 512 ->
     entry s' t i = if decide (t = f /\ 256 <= i) then entry s1 (current_pml4 m) i
                    else entry s1 t i) ->
  (forall t i p, T !! t = Some p -> 0 <= i < 512 -> entry s' t i = entry (phys m) t i) ->
  forall va, pt_lookup s' f (pt_path va)
    = if decide (256 <= PML4_INDEX va)
      then pt_lookup (phys m) (current_pml4 m) (pt_path va) else None.
Proof.
  intros Hfa Hz Hfresh He Hold va. pose proof (T_root _ _ Hwf) as Hr.
  destruct (T_frame _ _ Hwf _ _ Hr) as [_ Hra].
  assert (Hrf : current_pml4 m <> f) by (intros <-; congruence).
  pose proof (index_range va 39) as Hi4. fold (PML4_INDEX va) in Hi4.
  change (pt_path va) with (PML4_INDEX va :: tail (pt_path va)).
  rewrite !pt_lookup_cons, (He f) by done. case_decide as Hc.
  - destruct Hc as [_ Hc]. rewrite decide_True by done.
    rewrite (entry_zeroed _ _ _ _ _ Hfa Hra Hi4 Hz), decide_False by done.
    destruct (present (entry (phys m) (current_pml4 m) (PML4_INDEX va))) eqn:P4; [|done].
    cbn [pt_path tail]. apply (pt_lookup_ext m T s' _ [PML4_INDEX va]); [done| |cbn; lia| |done].
    + by apply (T_child _ _ Hwf _ [] _ Hr ltac:(cbn; lia) Hi4).
    + intros i Hi. apply (pt_path_range va). by apply list_elem_of_further.
  - rewrite decide_False by (intros ?; apply Hc; auto).
    rewrite (entry_zeroed _ _ _ _ _ Hfa Hfa Hi4 Hz), decide_True by done. done.
Qed.
End new_space.

(** ** Properties *)

(** C1: [vmm_map]: if three page frames are free the call returns; afterwards
    the tables are well formed, [vmm_resolve] sends every address of the page to
    the mapped frame (same offset), every other address translates as before,
    no byte outside the tables has changed, and the page was flushed from the
    TLB. *)
Theorem vmm_map_correct m T va pa flags
    (Hwf : pt_wf m T) (Hp : pmm_wf (pmm m)) (Hb : 0 < managed_base (pmm m))
    (Hfl : 0 <= flags < 2 ^ 64) (Hmask : Z.land flags PAGE_MASK = 0)
    (Hfree : (3 <= size_free m)%nat) :
  exists m' T', vmm_map va pa flags m = Ret tt m' /\ pt_wf m' T' /\ T ⊆ T' /\
    pmm_wf (pmm m') /\ invlpgs m' = va :: invlpgs m /\
    (forall va', vmm_resolve va' m'
       = Ret (if decide (pt_path va' = pt_path va)
              then Z.lor (Z.land pa PAGE_MASK) (Z.land va' (PAGE_SIZE_VMM - 1))
              else resolve m va') m') /\
    (forall a, (forall t p, T' !! t = Some p -> ~ (t <= a < t + 4096)) ->
       rb (phys m') a = rb (phys m) a).
Proof.
  destruct (vmm_map_run m T va pa flags Hwf Hp Hb Hfl Hmask Hfree)
    as (m' & T' & E & M).
  exists m', T'. destruct M. split_and!; auto.
  intros va'. rewrite vmm_resolve_run. f_equal. unfold resolve. rewrite mp_lookup0.
  case_decide; [|done]. destruct (pte_value_spec pa flags Hfl Hmask) as (_ & _ & ->). done.
Qed.

(** C2: [vmm_unmap] always returns, keeps the tables well formed, makes exactly
    the addresses of the given page unmapped ([vmm_resolve] answers 0), allocates
    nothing, and leaves every byte outside the tables alone. *)
Theorem vmm_unmap_correct m T va (Hwf : pt_wf m T) :
  exists m', vmm_unmap va m = Ret tt m' /\ pt_wf m' T /\ pmm m' = pmm m /\
    (forall va', vmm_resolve va' m'
       = Ret (if decide (pt_path va' = pt_path va) then 0 else resolve m va') m') /\
    (forall a, (forall t p, T !! t = Some p -> ~ (t <= a < t + 4096)) ->
       rb (phys m') a = rb (phys m) a).
Proof.
  destruct (vmm_unmap_run m T va Hwf) as (m' & E & Hw & Hp & _ & Hl & Hf).
  exists m'. split_and!; auto. intros va'. rewrite vmm_resolve_run. f_equal.
  unfold resolve. rewrite Hl. by case_decide.
Qed.

(** C3: on well-formed tables [vmm_resolve] is the processor's translation of
    the address, page-size bits included; 0 stands for "not present". *)
Theorem vmm_resolve_is_mmu_translation m T va (Hwf : pt_wf m T) :
  vmm_resolve va m
  = Ret (match mmu_translate (phys m) (current_pml4 m) va with
         | Some pa => pa | None => 0 end) m.
Proof.
  rewrite vmm_resolve_run. f_equal. unfold resolve, mmu_translate.
  cbn [pt_path pt_lookup].
  pose proof (T_root _ _ Hwf) as H0.
  destruct (present (entry (phys m) (current_pml4 m) (PML4_INDEX va))) eqn:P4; [|done].
  destruct (T_child _ _ Hwf _ _ _ H0 ltac:(cbn; lia) (index_range _ _) P4) as [_ H1].
  set (t3 := Z.land _ PAGE_MASK) in *. cbn [negb].
  destruct (present (entry (phys m) t3 (PDPT_INDEX va))) eqn:P3; [|done].
  destruct (T_child _ _ Hwf _ _ _ H1 ltac:(cbn; lia) (index_range _ _) P3) as [N3 H2].
  fold (PDPT_INDEX va) in *. rewrite N3. cbn [negb Z.eqb].
  set (t2 := Z.land (entry (phys m) t3 (PDPT_INDEX va)) PAGE_MASK) in *.
  destruct (present (entry (phys m) t2 (PD_INDEX va))) eqn:P2; [|done].
  destruct (T_child _ _ Hwf _ _ _ H2 ltac:(cbn; lia) (index_range _ _) P2) as [N2 H3].
  fold (PD_INDEX va) in *. rewrite N2. cbn [negb Z.eqb].
  by destruct (present (entry (phys m) _ (PT_INDEX va))).
Qed.

Lemma create_address_space_run m T :
  pt_wf m T -> pmm_wf (pmm m) -> 0 < managed_base (pmm m) ->
  (exists root m', create_address_space m = Ret root m' /\ pt_wf m' T /\
     T !! root = None /\ current_pml4 m' = current_pml4 m /\
     (forall va, vmm_resolve va m' = Ret (resolve m va) m') /\
     (forall va, pt_lookup (phys m') root (pt_path va)
        = if decide (256 <= PML4_INDEX va)
          then pt_lookup (phys m) (current_pml4 m) (pt_path va) else None) /\
     supervisor_half (phys m') root)
  \/ (free_frames (pmm m) = ∅ /\ exists m', create_address_space m = Stop Halted m').
Proof.
  intros Hwf Hp Hb. unfold create_address_space.
  destruct (pmm_alloc_cases m Hp) as [(k & Hk & _ & E)|[Hno E]];
    rewrite (kbind_ret _ _ _ _ _ E).
  2:{ right. split; [|by eexists]. apply set_eq. intros j. rewrite elem_of_free_frames.
      split; [intros Hj; by apply Hno in Hj|set_solver]. }
  left. set (f := managed_base (pmm m) + k * PAGE_SIZE) in *.
  pose proof (link_frame m k Hp Hk) as [Hf52 Hfa]. fold f in Hf52, Hfa.
  pose proof (link_fresh m T k Hwf Hk) as Hfresh. fold f in Hfresh.
  destruct (Z.eqb_spec f 0) as [H0|_].
  { pose proof (proj1 Hk). unfold f, PAGE_SIZE in H0. lia. }
  destruct (memset_zeroed (phys m) f) as (s1 & Es & Hz).
  unfold on_phys. erewrite kbind_ret; [|by apply (klift_ret phys set_phys _ (set_pmm _ m))].
  set (m1 := set_phys s1 (set_pmm (take_frame (pmm m) k) m)).
  rewrite (kbind_ret _ _ m1 (current_pml4 m) m1) by done. cbn beta.
  assert (Hroot : forall t p, T !! t = Some p -> t <> f) by (intros t p Ht ->; congruence).
  pose proof (T_root _ _ Hwf) as Hr.
  destruct (copy_upper_half_run m1 f (current_pml4 m)) as (s' & Ec & He & _);
    [done|by apply (T_frame _ _ Hwf _ [])|intros E'; by apply (Hroot _ _ Hr)|].
  assert (Hold : forall t i p, T !! t = Some p -> 0 <= i < 512 ->
            entry s' t i = entry (phys m) t i).
  { intros t i p Ht Hi. destruct (T_frame _ _ Hwf _ _ Ht) as [_ Ha].
    rewrite He by done. rewrite decide_False by (intros [? _]; by apply (Hroot _ _ Ht)).
    cbn [phys m1 set_phys]. rewrite (entry_zeroed _ _ _ _ _ Hfa Ha Hi Hz).
    by rewrite decide_False by (by apply (Hroot _ _ Ht)). }
  exists f, (set_phys s' m1). clear Es.
  split_and!; [rewrite (kbind_ret _ _ _ _ _ Ec); reflexivity| |exact Hfresh|reflexivity| | |];
    clear Ec.
  - exact (new_space_wf m T Hwf k s' Hp Hk Hold s1).
  - intros va. rewrite vmm_resolve_run. unfold resolve. cbn [phys current_pml4 set_phys set_pmm m1].
    rewrite (pt_lookup_ext m T s' _ [] (pt_path va) Hwf Hr (le_n 4) (pt_path_range va) Hold).
    reflexivity.
  - intros va. cbn [phys set_phys].
    exact (new_space_lookup m T Hwf f s' s1 Hfa Hz Hfresh He Hold va).
  - intros j Hj. cbn [phys set_phys]. rewrite He by (done || lia). rewrite decide_False by lia.
    assert (Hj5 : 0 <= j < 512) by lia. cbn [phys m1 set_phys].
    by rewrite (entry_zeroed _ _ _ _ _ Hfa Hfa Hj5 Hz), decide_True.
Qed.

(** C4: [create_address_space] returns a fresh root frame that translates every
    kernel-half address exactly as the current root does and no user-half
    address; the current address space is unaffected.  It halts only when no
    frame is free. *)
Theorem create_address_space_correct m T
    (Hwf : pt_wf m T) (Hp : pmm_wf (pmm m)) (Hb : 0 < managed_base (pmm m)) :
  (exists root m', create_address_space m = Ret root m' /\ pt_wf m' T /\
     T !! root = None /\ current_pml4 m' = current_pml4 m /\
     (forall va, vmm_resolve va m' = Ret (resolve m va) m') /\
     (forall va, pt_lookup (phys m') root (pt_path va)
        = if decide (256 <= PML4_INDEX va)
          then pt_lookup (phys m) (current_pml4 m) (pt_path va) else None))
  \/ (free_frames (pmm m) = ∅ /\ exists m', create_address_space m = Stop Halted m').
Proof.
  destruct (create_address_space_run m T Hwf Hp Hb) as [(root & m' & E & H1 & H2 & H3 & H4 & H5 & _)|H];
    [left; by exists root, m'|by right].
Qed.

(** ** Witnesses *)

(** A machine whose only table is an empty root in frame 1. *)
Definition demo_vmm : machine :=
  match pmm_alloc_page demo_pmm with
  | Ret root m => set_pml4 root m
  | Stop _ m => m
  end.
Definition demo_tables : gmap Z (list Z) := {[ 0x101000 := [] ]}.

Lemma demo_vmm_pmm : pmm_wf (pmm demo_vmm).
Proof. split; try reflexivity; vm_compute; first [done|split; [done|reflexivity]|congruence]. Qed.

Lemma demo_vmm_wf : pt_wf demo_vmm demo_tables.
Proof.
  assert (Hkey : forall t p, demo_tables !! t = Some p -> t = 0x101000 /\ p = [])
    by (unfold demo_tables; intros t p H; apply lookup_singleton_Some in H as [<- <-]; auto).
  split.
  - reflexivity.
  - intros t p [-> ->]%Hkey. split; [lia|reflexivity].
  - intros t p i [-> ->]%Hkey _ Hi. unfold entry.
    rewrite load_zero by (intros; reflexivity). done.
  - intros t p [-> ->]%Hkey k Hk [Hr Ht].
    change (managed_base (pmm demo_vmm)) with 0x100000 in Hk. unfold PAGE_SIZE in Hk.
    assert (k = 1) as -> by lia. vm_compute in Ht. done.
Qed.

Lemma vmm_map_correct_witness :
  exists m' T', vmm_map 0x400123 0x105000 VMM_WRITE demo_vmm = Ret tt m' /\ pt_wf m' T' /\
    demo_tables ⊆ T' /\ pmm_wf (pmm m') /\ invlpgs m' = [0x400123] /\
    (forall va', vmm_resolve va' m'
       = Ret (if decide (pt_path va' = pt_path 0x400123)
              then Z.lor (Z.land 0x105000 PAGE_MASK) (Z.land va' (PAGE_SIZE_VMM - 1))
              else resolve demo_vmm va') m') /\
    (forall a, (forall t p, T' !! t = Some p -> ~ (t <= a < t + 4096)) ->
       rb (phys m') a = rb (phys demo_vmm) a).
Proof.
  apply (vmm_map_correct demo_vmm demo_tables 0x400123 0x105000 VMM_WRITE demo_vmm_wf demo_vmm_pmm).
  - vm_compute. reflexivity.
  - change VMM_WRITE with 2. lia.
  - reflexivity.
  - change (size_free demo_vmm) with 62%nat. lia.
Defined.

Lemma vmm_unmap_correct_witness :
  exists m', vmm_unmap 0x400123 demo_vmm = Ret tt m' /\ pt_wf m' demo_tables /\
    pmm m' = pmm demo_vmm /\
    (forall va', vmm_resolve va' m'
       = Ret (if decide (pt_path va' = pt_path 0x400123) then 0 else resolve demo_vmm va') m') /\
    (forall a, (forall t p, demo_tables !! t = Some p -> ~ (t <= a < t + 4096)) ->
       rb (phys m') a = rb (phys demo_vmm) a).
Proof. exact (vmm_unmap_correct demo_vmm demo_tables 0x400123 demo_vmm_wf). Defined.

Lemma vmm_resolve_is_mmu_translation_witness :
  vmm_resolve 0x400123 demo_vmm
  = Ret (match mmu_translate (phys demo_vmm) (current_pml4 demo_vmm) 0x400123 with
         | Some pa => pa | None => 0 end) demo_vmm.
Proof. exact (vmm_resolve_is_mmu_translation demo_vmm demo_tables 0x400123 demo_vmm_wf). Defined.

Lemma create_address_space_correct_witness :
  (exists root m', create_address_space demo_vmm = Ret root m' /\ pt_wf m' demo_tables /\
     demo_tables !! root = None /\ current_pml4 m' = current_pml4 demo_vmm /\
     (forall va, vmm_resolve va m' = Ret (resolve demo_vmm va) m') /\
     (forall va, pt_lookup (phys m') root (pt_path va)
        = if decide (256 <= PML4_INDEX va)
          then pt_lookup (phys demo_vmm) (current_pml4 demo_vmm) (pt_path va) else None))
  \/ (free_frames (pmm demo_vmm) = ∅ /\ exists m', create_address_space demo_vmm = Stop Halted m').
Proof.
  apply (create_address_space_correct demo_vmm demo_tables demo_vmm_wf demo_vmm_pmm).
  vm_compute. reflexivity.
Defined.
