(* ===== verification/Pages.v ===== *)
(** * Mapped pages: what the heaps need from the memory managers

    [Pages] is the interface between the page allocators (pmm.c, vmm.c) and
    their clients kheap.c and slab.c; [PagesOk] is what it promises, in terms
    of the byte memory the client sees ([valid] addresses, [rb], [wb]).  The
    second half of the file discharges it for the machine: bytes are reached
    through the page tables, and taking a frame and mapping it makes a page
    valid without touching any other valid byte. *)

From S2P Require Import Prelude Bytes MemLib Console Machine Pmm Vmm.
Local Open Scope Z_scope.

(** src/include/klibc/kmem/kheap.h:11-11 [HEAP_START] *)
Definition HEAP_START : Z := 0xFFFF800010000000.
(** The model's bound on the heap's growth: 256 GiB of address space. *)
Definition HEAP_END : Z := HEAP_START + 2 ^ 38.

Definition heap_va (a : Z) : Prop := HEAP_START <= a < HEAP_END.
Definition low_va (a : Z) : Prop := 0 <= a < 2 ^ 47.
Definition in_page (va a : Z) : Prop := va <= a < va + 4096.

Class Pages (S : Type) := {
  pg_alloc : K S Z;                        (* pmm_alloc_page *)
  pg_free : Z -> K S unit;                 (* pmm_free_page *)
  pg_map : Z -> Z -> Z -> K S unit;        (* vmm_map *)
  pg_unmap : Z -> K S unit;                (* vmm_unmap *)
  pg_v2p : Z -> K S Z;                     (* virtual_to_physical *)
}.

Class PagesOk (S : Type) `{!BMem S} `{!BMemOk S} `{!Pages S} `{!Console S} := {
  pg_inv : S -> Prop;
  pg_budget : S -> nat;       (* pages that can certainly be had *)
  pg_frames : S -> gset Z;    (* the free frames *)
  pg_frames_wb : forall s a v, pg_frames (wb a v s) = pg_frames s;
  pg_inv_wb : forall s a v, pg_inv s -> valid s a ->
    pg_inv (wb a v s) /\ pg_budget (wb a v s) = pg_budget s;
  pg_grow : forall s, pg_inv s -> (1 <= pg_budget s)%nat ->
    exists p s1, pg_alloc s = Ret p s1 /\ 0 < p /\ p + 4096 <= 2 ^ 47 /\ p mod 4096 = 0 /\
      (forall a, in_page p a -> ~ valid s a) /\
      forall es va, va mod 4096 = 0 -> (forall a, in_page va a -> heap_va a) \/ va = p ->
        exists s', pg_map va p (Z.lor VMM_PRESENT VMM_WRITE) (put_events es s1) = Ret tt s' /\
          pg_inv s' /\
          (pg_budget s <= Datatypes.S (pg_budget s'))%nat /\
          (forall a, valid s a \/ in_page va a -> valid s' a) /\
          (forall a, valid s a -> ~ in_page va a -> rb s' a = rb s a);
  pg_unmap_ok : forall s va, pg_inv s -> va mod 4096 = 0 -> low_va va ->
    exists s', pg_unmap va s = Ret tt s' /\ pg_inv s' /\ pg_budget s' = pg_budget s /\
      pg_frames s' = pg_frames s /\
      forall a, valid s a -> ~ in_page va a -> valid s' a /\ rb s' a = rb s a;
  pg_v2p_low : forall s v, pg_inv s -> low_va v -> exists x, pg_v2p v s = Ret x s /\ 2 ^ 47 <= x;
  pg_free_outside : forall s x, pg_inv s -> 2 ^ 47 <= x -> pg_free x s = Ret tt s;
}.

(** ** The machine as a byte memory reached through its page tables *)

#[export] Instance machine_pages : Pages machine := {
  pg_alloc := pmm_alloc_page;
  pg_free := pmm_free_page;
  pg_map := vmm_map;
  pg_unmap := vmm_unmap;
  pg_v2p := virtual_to_physical;
}.

Definition leaf (m : machine) (va : Z) : option Z :=
  pt_lookup (phys m) (current_pml4 m) (pt_path va).
Definition frame_of (m : machine) (va : Z) : option Z :=
  option_map (fun e => Z.land e PAGE_MASK) (leaf m va).

(** The physical byte behind a virtual address. *)
Definition phys_of (m : machine) (va : Z) : option Z :=
  option_map (fun f => f + va mod 4096) (frame_of m va).

#[export] Instance machine_BMem : BMem machine := {
  rb m a := match phys_of m a with Some p => rb (phys m) p | None => 0 end;
  wb a v m := match phys_of m a with
              | Some p => set_phys (wb p v (phys m)) m
              | None => m
              end;
}.

(** A frame handed out and not used as a page table. *)
Definition owned (m : machine) (T : gmap Z (list Z)) (f : Z) : Prop :=
  frame_used (pmm m) f /\ T !! f = None.

(** The invariant: well-formed managers, all tables of [T] reachable, and the
    pages of the heap backed by distinct owned frames. *)
Record vm_inv (m : machine) (T : gmap Z (list Z)) : Prop := {
  vi_wf : pt_wf m T;
  vi_reach : forall t p, T !! t = Some p ->
    (length p <= 3)%nat /\ (forall i, i ∈ p -> 0 <= i < 512) /\
    descend (phys m) (current_pml4 m) p = Some t;
  vi_pmm : pmm_wf (pmm m);
  vi_base : 0 < managed_base (pmm m);
  vi_end : managed_base (pmm m) + total_pages (pmm m) * PAGE_SIZE <= 2 ^ 47;
  vi_hhdm : 2 ^ 63 <= g_hhdm_offset m <= 2 ^ 64 - 2 ^ 47;
  vi_heap : forall va f, heap_va va -> frame_of m va = Some f -> owned m T f;
  vi_inj : forall va va' f, heap_va va -> heap_va va' ->
    frame_of m va = Some f -> frame_of m va' = Some f -> pt_path va = pt_path va';
}.

Definition page_of (a : Z) : Z := a - a mod 4096.

(** An address of the heap that is mapped, or an identity-mapped address whose
    frame is owned and does not back the heap. *)
Definition valid_va (m : machine) (T : gmap Z (list Z)) (a : Z) : Prop :=
  (heap_va a /\ is_Some (frame_of m a)) \/
  (low_va a /\ frame_of m a = Some (page_of a) /\ owned m T (page_of a) /\
   forall h, heap_va h -> frame_of m h <> Some (page_of a)).

(** ** Addresses *)

Lemma index_div va k : 0 <= k -> Z.land (Z.shiftr va k) 0x1FF = (va / 2 ^ k) mod 512.
Proof.
  intros. change 511 with (Z.ones 9). by rewrite Z.land_ones, Z.shiftr_div_pow2 by lia.
Qed.

(** The path of an address determines it modulo 2^48, up to the offset. *)
Lemma pt_path_page a b :
  pt_path a = pt_path b -> (a / 4096) mod 2 ^ 36 = (b / 4096) mod 2 ^ 36.
Proof.
  unfold pt_path, PML4_INDEX, PDPT_INDEX, PD_INDEX, PT_INDEX.
  rewrite !index_div by lia. intros [= H4 H3 H2 H1].
  assert (E : forall x, (x / 4096) mod 2 ^ 36
    = (x / 2 ^ 12) mod 512 + 512 * ((x / 2 ^ 21) mod 512)
      + 512 * 512 * ((x / 2 ^ 30) mod 512) + 512 * 512 * 512 * ((x / 2 ^ 39) mod 512)).
  { clear. intros x. change 4096 with (2 ^ 12). set (y := x / 2 ^ 12).
    replace (x / 2 ^ 21) with (y / 512) by (unfold y; rewrite Z.div_div by lia; done).
    replace (x / 2 ^ 30) with (y / 512 / 512) by (unfold y; rewrite !Z.div_div by lia; done).
    replace (x / 2 ^ 39) with (y / 512 / 512 / 512) by (unfold y; rewrite !Z.div_div by lia; done).
    change (2 ^ 36) with (512 * (512 * (512 * 512))).
    rewrite !Z.rem_mul_r by lia. lia. }
  rewrite !E, H1, H2, H3, H4. done.
Qed.

Lemma heap_path_page a b :
  heap_va a -> heap_va b -> pt_path a = pt_path b -> page_of a = page_of b.
Proof.
  intros Ha Hb E%pt_path_page. unfold heap_va, HEAP_END, HEAP_START, page_of in *.
  change (2 ^ 38) with 274877906944 in *. change (2 ^ 36) with 68719476736 in E. zdiv.
Qed.

Lemma low_path_page a b :
  low_va a -> low_va b -> pt_path a = pt_path b -> page_of a = page_of b.
Proof.
  intros Ha Hb E%pt_path_page. unfold low_va, page_of in *.
  change (2 ^ 47) with 140737488355328 in *. change (2 ^ 36) with 68719476736 in E. zdiv.
Qed.

Lemma low_heap_path a b : low_va a -> heap_va b -> pt_path a <> pt_path b.
Proof.
  intros Ha Hb E%pt_path_page. unfold low_va, heap_va, HEAP_END, HEAP_START in *.
  change (2 ^ 38) with 274877906944 in *. change (2 ^ 47) with 140737488355328 in *.
  change (2 ^ 36) with 68719476736 in E. zdiv.
Qed.

(** Addresses of one page have one path. *)
Lemma same_page_path a b : page_of a = page_of b -> pt_path a = pt_path b.
Proof.
  unfold page_of. intros E. assert (Hd : a / 2 ^ 12 = b / 2 ^ 12)
    by (change (2 ^ 12) with 4096; zdiv).
  unfold pt_path, PML4_INDEX, PDPT_INDEX, PD_INDEX, PT_INDEX.
  rewrite !index_div by lia.
  assert (Hk : forall k, 12 <= k -> a / 2 ^ k = b / 2 ^ k).
  { intros k Hk. replace k with (12 + (k - 12)) by lia.
    by rewrite Z.pow_add_r, <- !Z.div_div, Hd by lia. }
  by rewrite !Hk by lia.
Qed.

Lemma in_page_page va a : va mod 4096 = 0 -> in_page va a <-> page_of a = va.
Proof. unfold in_page, page_of. intros. split; intros; zdiv. Qed.

(** ** Writes outside the tables *)
Section write.
Context (m : machine) (T : gmap Z (list Z)) (Hinv : vm_inv m T).
Context (f o v : Z) (Hf : T !! f = None) (Hfa : f mod 4096 = 0) (Ho : 0 <= o < 4096).
Let s' := wb (f + o) v (phys m).
Let m' := set_phys s' m.

Lemma write_entry t p i : T !! t = Some p -> 0 <= i < 512 ->
  entry s' t i = entry (phys m) t i.
Proof.
  intros Ht Hi. destruct (T_frame _ _ (vi_wf _ _ Hinv) _ _ Ht) as [_ Hta].
  assert (t <> f) by (intros ->; congruence).
  apply load_ext. intros j Hj. apply rb_wb_ne; [done..|]. intros E.
  assert (t = f) by (clear -Hfa Hta Ho Hi Hj E; zdiv). done.
Qed.

Lemma write_descend p t : (length p <= 3)%nat ->
  (forall i, i ∈ p -> 0 <= i < 512) ->
  descend (phys m) (current_pml4 m) p = Some t -> descend s' (current_pml4 m) p = Some t.
Proof.
  pose proof (vi_wf _ _ Hinv) as Hwf. pose proof (T_root _ _ Hwf) as H0. revert H0.
  change (length p) with (length (@nil Z) + length p)%nat.
  generalize (current_pml4 m). generalize (@nil Z).
  induction p as [|i p IH]; intros q r Hr Hl Hp; [done|]. cbn [descend].
  assert (Hi : 0 <= i < 512) by (apply Hp, list_elem_of_here).
  rewrite (write_entry r q) by done.
  destruct (present (entry (phys m) r i)) eqn:E; [|done].
  apply (IH (q ++ [i])); [|rewrite length_app; cbn in *; lia|].
  - apply (T_child _ _ Hwf); [done|cbn in Hl; lia|done..].
  - intros j Hj. apply Hp. by apply list_elem_of_further.
Qed.

Lemma write_leaf va : leaf m' va = leaf m va.
Proof.
  pose proof (vi_wf _ _ Hinv) as Hwf.
  apply (pt_lookup_ext m T s' _ [] (pt_path va) Hwf (T_root _ _ Hwf) (le_n 4) (pt_path_range va)).
  intros t i p Ht Hi. by apply (write_entry t p).
Qed.

Lemma write_frame_of va : frame_of m' va = frame_of m va.
Proof. unfold frame_of. by rewrite write_leaf. Qed.

Lemma write_inv : vm_inv m' T.
Proof.
  destruct Hinv as [Hwf Hr Hp Hb He Hhd Hh Hi]. split; try done.
  - split; try apply Hwf. intros t p i Ht Hl Hin. cbn [phys m' set_phys].
    rewrite (write_entry t p i) by done. by apply (T_child _ _ Hwf).
  - intros t p Ht. destruct (Hr t p Ht) as (Hl & Hix & Hd). split_and!; [done..|].
    by apply write_descend.
  - intros va g Hva. rewrite write_frame_of. by apply Hh.
  - intros va va' g Hva Hva'. rewrite !write_frame_of. by apply Hi.
Qed.

Lemma write_valid a : valid_va m' T a <-> valid_va m T a.
Proof.
  unfold valid_va. rewrite write_frame_of. unfold owned. cbn [pmm set_phys m'].
  setoid_rewrite write_frame_of. done.
Qed.
End write.

(** ** [BMemOk] for the machine *)

Lemma frame_aligned m va f : frame_of m va = Some f -> 0 <= f < 2 ^ 52 /\ f mod 4096 = 0.
Proof.
  unfold frame_of. destruct (leaf m va); [|done]. intros [= <-]. apply land_mask_aligned.
Qed.

Lemma valid_frame m T a : vm_inv m T -> valid_va m T a ->
  exists f, frame_of m a = Some f /\ owned m T f.
Proof.
  intros Hinv [[Ha [f Hf]]|(Ha & Hf & Ho & _)].
  - exists f. split; [done|]. by apply (vi_heap _ _ Hinv a).
  - by exists (page_of a).
Qed.

(** The tables reachable from the root are determined by the memory. *)
Lemma tables_unique m T T' : vm_inv m T -> vm_inv m T' -> T = T'.
Proof.
  assert (Hsub : forall T T', vm_inv m T -> vm_inv m T' ->
            forall t p, T !! t = Some p -> T' !! t = Some p).
  { clear. intros T T' H H' t p Ht. destruct (vi_reach _ _ H t p Ht) as (Hl & Hix & Hd).
    pose proof (vi_wf _ _ H') as Hwf.
    by apply (descend_path (phys m) T' (wf_tree _ _ Hwf) _ [] p t (T_root _ _ Hwf)) in Hd. }
  intros H H'. apply map_eq. intros t.
  destruct (T !! t) as [p|] eqn:E; [symmetry; by apply (Hsub T T')|].
  destruct (T' !! t) as [p|] eqn:E'; [|done].
  by rewrite (Hsub T' T H' H t p E') in E.
Qed.

Lemma valid_distinct m T a b p : vm_inv m T -> valid_va m T a -> valid_va m T b ->
  phys_of m a = Some p -> phys_of m b = Some p -> a = b.
Proof.
  intros Hinv Ha Hb. unfold phys_of.
  destruct (frame_of m a) as [fa|] eqn:Ea; [|done].
  destruct (frame_of m b) as [fb|] eqn:Eb; [|done].
  destruct (frame_aligned _ _ _ Ea) as [_ Haa], (frame_aligned _ _ _ Eb) as [_ Hba].
  cbn. intros [= <-] [= E].
  assert (fb = fa /\ b mod 4096 = a mod 4096) as [-> Eo] by (clear -Haa Hba E; zdiv). clear E.
  cut (page_of a = page_of b); [unfold page_of; lia|].
  destruct Ha as [[Ha _]|(Ha & Ef & _ & Hna)], Hb as [[Hb _]|(Hb & Eg & _ & Hnb)].
  - apply heap_path_page; [done..|]. by apply (vi_inj _ _ Hinv a b fa).
  - exfalso. apply (Hnb a Ha). congruence.
  - exfalso. apply (Hna b Hb). congruence.
  - congruence.
Qed.

Lemma machine_rb (m : machine) a p : phys_of m a = Some p -> rb m a = rb (phys m) p.
Proof. unfold rb at 1, machine_BMem. by intros ->. Qed.

Lemma machine_wb (m : machine) a v p :
  phys_of m a = Some p -> wb a v m = set_phys (wb p v (phys m)) m.
Proof. unfold wb at 1, machine_BMem. by intros ->. Qed.

(** The physical byte behind a valid address, and a write to it. *)
Lemma valid_phys m T a : vm_inv m T -> valid_va m T a ->
  exists f, phys_of m a = Some (f + a mod 4096) /\ T !! f = None /\ f mod 4096 = 0 /\ 0 <= a mod 4096 < 4096.
Proof.
  intros Hinv Ha. destruct (valid_frame _ _ _ Hinv Ha) as (f & Ef & _ & Hf).
  destruct (frame_aligned _ _ _ Ef) as [_ Hfa]. exists f. unfold phys_of. rewrite Ef.
  split_and!; try done; zdiv.
Qed.

#[export, refine] Instance machine_BMemOk : BMemOk machine := {
  valid m a := exists T, vm_inv m T /\ valid_va m T a
}.
Proof.
  - intros m a. unfold rb, machine_BMem. destruct (phys_of m a); [apply u8_range|lia].
  - intros m a v (T & Hinv & Ha). destruct (valid_phys _ _ _ Hinv Ha) as (f & Ep & Hf & Hfa & Ho).
    rewrite (machine_wb _ _ _ _ Ep), (machine_rb _ _ (f + a mod 4096)); [by apply rb_wb_eq|].
    unfold phys_of. by rewrite (write_frame_of m T Hinv f (a mod 4096) v Hf Hfa Ho).
  - intros m a b v (T & Hinv & Ha) (T' & Hinv' & Hb) Hne.
    rewrite <- (tables_unique _ _ _ Hinv Hinv') in Hb. clear T' Hinv'.
    destruct (valid_phys _ _ _ Hinv Ha) as (f & Ep & Hf & Hfa & Ho).
    destruct (valid_phys _ _ _ Hinv Hb) as (g & Ep' & _).
    rewrite (machine_wb _ _ _ _ Ep), (machine_rb _ _ _ Ep'), (machine_rb _ _ (g + b mod 4096)).
    + apply rb_wb_ne; [done..|]. intros E. apply Hne.
      apply (valid_distinct m T a b (f + a mod 4096)); congruence.
    + unfold phys_of. by rewrite (write_frame_of m T Hinv f (a mod 4096) v Hf Hfa Ho).
  - intros m a b v (T & Hinv & Ha). destruct (valid_phys _ _ _ Hinv Ha) as (f & Ep & Hf & Hfa & Ho).
    rewrite (machine_wb _ _ _ _ Ep).
    pose proof (write_inv m T Hinv f (a mod 4096) v Hf Hfa Ho) as Hinv2.
    pose proof (write_valid m T Hinv f (a mod 4096) v Hf Hfa Ho b) as Hv.
    split; intros (T' & Hi & Hb).
    + exists T. split; [done|]. apply Hv. by rewrite (tables_unique _ _ _ Hinv2 Hi).
    + exists T. split; [done|]. apply Hv. by rewrite (tables_unique _ _ _ Hinv Hi).
Defined.

(** ** Pruning unreachable tables *)

Definition reachable_at (m : machine) (tp : Z * list Z) : Prop :=
  (length (snd tp) <= 3)%nat /\ Forall (fun i => 0 <= i < 512) (snd tp) /\
  descend (phys m) (current_pml4 m) (snd tp) = Some (fst tp).

#[export] Instance reachable_dec m tp : Decision (reachable_at m tp).
Proof. unfold reachable_at. apply _. Defined.

Lemma descend_snoc s t p i t' :
  descend s t p = Some t' -> present (entry s t' i) = true ->
  descend s t (p ++ [i]) = Some (Z.land (entry s t' i) PAGE_MASK).
Proof.
  revert t. induction p as [|j p IH]; intros t; cbn [descend app].
  - intros [= ->] ->. done.
  - destruct (present (entry s t j)); [apply IH|done].
Qed.

(** The reachable part of a well-formed set of tables is well formed. *)
Lemma prune m T : pt_wf m T ->
  exists T', T' ⊆ T /\ pt_wf m T' /\
    forall t p, T' !! t = Some p ->
      (length p <= 3)%nat /\ (forall i, i ∈ p -> 0 <= i < 512) /\
      descend (phys m) (current_pml4 m) p = Some t.
Proof.
  intros Hwf. exists (filter (reachable_at m) T).
  split; [apply map_filter_subseteq|]. split.
  - split.
    + apply map_lookup_filter_Some. split; [apply Hwf|]. split_and!; [cbn; lia|constructor|done].
    + intros t p [Ht _]%map_lookup_filter_Some. by apply (T_frame _ _ Hwf t p).
    + intros t p i [Ht (Hl & Hix & Hd)]%map_lookup_filter_Some Hp Hi Hpr. cbn in *.
      destruct (T_child _ _ Hwf t p i Ht Hp Hi Hpr) as [Hh Hc]. split; [done|].
      apply map_lookup_filter_Some. split; [done|]. split_and!; cbn.
      * rewrite length_app. cbn. lia.
      * by apply Forall_app_2; [|apply Forall_singleton].
      * by apply descend_snoc.
    + intros t p [Ht _]%map_lookup_filter_Some. by apply (T_used _ _ Hwf t p).
  - intros t p [Ht (Hl & Hix & Hd)]%map_lookup_filter_Some. cbn in *.
    split_and!; [done| |done]. by rewrite <- Forall_forall.
Qed.

(** ** Growing by one page *)

Section grow.
Context (m : machine) (T : gmap Z (list Z)) (Hinv : vm_inv m T).
Context (k : Z) (Hk : page_free (pmm m) k).
Let p := managed_base (pmm m) + k * PAGE_SIZE.
Context (c : list con_event).
Let m1 := set_con c (set_pmm (take_frame (pmm m) k) m).

Lemma grow_p : 0 < p /\ p + 4096 <= 2 ^ 47 /\ p mod 4096 = 0.
Proof.
  destruct Hinv as [_ _ [_ _ _ [_ Ha] _] Hb He _ _ _], Hk as [Hkr _]. unfold p, PAGE_SIZE in *.
  split_and!; [lia|nia|]. by rewrite Z.mod_add by lia.
Qed.

Lemma grow_not_used : ~ frame_used (pmm m) p.
Proof. intros H. by apply (H k). Qed.

Lemma grow_wf1 : pt_wf m1 T.
Proof.
  destruct Hinv as [Hwf _ Hp _ _ _ _ _]. split; try apply Hwf.
  intros t q Ht j Ej Hj. apply page_free_take in Hj as [Hj _]; [|done|apply Hk].
  exact (T_used _ _ Hwf _ _ Ht j Ej Hj).
Qed.

Lemma grow_free1 i : i ∈ free_frames (pmm m1) <-> i ∈ free_frames (pmm m) /\ i <> k.
Proof.
  destruct Hinv as [_ _ Hp _ _ _ _ _]. cbn.
  rewrite free_frames_take by (done || apply Hk).
  rewrite elem_of_difference, elem_of_singleton. done.
Qed.

Context (va : Z) (Hva : va mod 4096 = 0).
Context (Hdom : (forall a, in_page va a -> heap_va a) \/ va = p).
Context (m' : machine) (T' T2 : gmap Z (list Z)).
Context (M : mapped m1 T va p (Z.lor VMM_PRESENT VMM_WRITE) m' T') (Hsub : T2 ⊆ T').
Context (Hwf2 : pt_wf m' T2).
Context (Hr2 : forall t p, T2 !! t = Some p ->
      (length p <= 3)%nat /\ (forall i, i ∈ p -> 0 <= i < 512) /\
      descend (phys m') (current_pml4 m') p = Some t).

Lemma grow_frame va' :
  frame_of m' va' = if decide (pt_path va' = pt_path va) then Some p else frame_of m va'.
Proof.
  unfold frame_of, leaf. rewrite (mp_lookup _ _ _ _ _ _ _ M). case_decide; [|done]. cbn.
  destruct (pte_value_spec p (Z.lor VMM_PRESENT VMM_WRITE)) as (_ & _ & ->);
    [vm_compute; split; congruence|reflexivity|].
  destruct grow_p as (? & ? & ?). f_equal. apply land_mask_frame; [|done].
  change (2 ^ 52) with (2 ^ 47 * 32). lia.
Qed.

Lemma grow_used f : frame_used (pmm m) f -> frame_used (pmm m') f.
Proof.
  intros H i Ei Hi. rewrite (mp_base _ _ _ _ _ _ _ M) in Ei. cbn in Ei.
  apply (H i Ei). apply elem_of_free_frames.
  apply elem_of_free_frames, (mp_free _ _ _ _ _ _ _ M), grow_free1 in Hi. by destruct Hi.
Qed.

Lemma grow_T f : frame_used (pmm m) f -> T !! f = None -> T2 !! f = None.
Proof.
  intros Hu Hn. destruct (T2 !! f) as [q|] eqn:E; [|done]. exfalso.
  apply (lookup_weaken _ T') in E; [|done].
  apply (mp_new _ _ _ _ _ _ _ M) in E as [E|(i & Hi & ->)]; [congruence|].
  apply grow_free1 in Hi as [Hi _]. apply (Hu i eq_refl). by apply elem_of_free_frames.
Qed.

Lemma grow_owned f : owned m T f -> owned m' T2 f.
Proof. intros [Hu Hn]. split; [by apply grow_used|by apply grow_T]. Qed.

Lemma grow_owned_p : owned m' T2 p.
Proof.
  split.
  - intros i Ei Hi. rewrite (mp_base _ _ _ _ _ _ _ M) in Ei. cbn in Ei. unfold p, PAGE_SIZE in Ei.
    apply elem_of_free_frames, (mp_free _ _ _ _ _ _ _ M), grow_free1 in Hi as [_ Hne]. lia.
  - destruct (T2 !! p) as [q|] eqn:E; [|done]. exfalso.
    apply (lookup_weaken _ T') in E; [|done].
    apply (mp_new _ _ _ _ _ _ _ M) in E as [E|(i & Hi & E)].
    + by apply grow_not_used, (T_used _ _ (vi_wf _ _ Hinv) _ q).
    + cbn in E. unfold p, PAGE_SIZE in E. apply grow_free1 in Hi as [_ ?]. lia.
Qed.

Lemma grow_heap_not_p h : heap_va h -> frame_of m h <> Some p.
Proof. intros Hh E. apply grow_not_used. by apply (vi_heap _ _ Hinv h). Qed.

Lemma grow_inv : vm_inv m' T2.
Proof.
  split; [done|done|apply M| | | | |].
  - rewrite (mp_base _ _ _ _ _ _ _ M). apply Hinv.
  - rewrite (mp_base _ _ _ _ _ _ _ M), (mp_total _ _ _ _ _ _ _ M). apply Hinv.
  - rewrite (mp_hhdm _ _ _ _ _ _ _ M). apply Hinv.
  - intros v f Hv. rewrite grow_frame. case_decide.
    + intros [= <-]. apply grow_owned_p.
    + intros E. apply grow_owned. by apply (vi_heap _ _ Hinv v).
  - intros v v' f Hv Hv'. rewrite !grow_frame. repeat case_decide.
    + congruence.
    + intros [= <-] E. by apply grow_heap_not_p in E.
    + intros E [= <-]. by apply grow_heap_not_p in E.
    + by apply (vi_inj _ _ Hinv).
Qed.

Lemma grow_path a : valid_va m T a -> pt_path a = pt_path va -> in_page va a.
Proof.
  intros Ha E. apply in_page_page; [done|].
  assert (Hpv : page_of va = va) by (unfold page_of; lia). destruct grow_p as (? & ? & ?).
  assert (Hh : (forall a, in_page va a -> heap_va a) -> heap_va va)
    by (intros Hd; apply Hd; unfold in_page; lia).
  destruct Ha as [[Ha _]|(Ha & Hf & Ho & _)], Hdom as [Hd|Ep].
  - rewrite <- Hpv. apply heap_path_page; auto.
  - exfalso. apply (low_heap_path va a); [|done|done]. rewrite Ep. unfold low_va. lia.
  - exfalso. apply (low_heap_path a va); auto.
  - rewrite <- Hpv. apply low_path_page; [done|rewrite Ep; unfold low_va; lia|done].
Qed.

Lemma grow_valid_old a : valid_va m T a -> valid_va m' T2 a.
Proof.
  intros Hv. pose proof Hv as [[Ha [f Hf]]|(Ha & Hf & Ho & Hn)].
  - left. split; [done|]. rewrite grow_frame. case_decide; eauto.
  - right. split; [done|]. split_and!.
    + rewrite grow_frame. case_decide as E; [|done]. exfalso.
      apply grow_path in E as Hin; [|exact Hv]. apply in_page_page in Hin; [|done].
      destruct Hdom as [Hd|Ep].
      * apply (low_heap_path a va); [done| |done]. apply Hd. unfold in_page; lia.
      * apply grow_not_used. rewrite <- Ep, <- Hin. apply Ho.
    + by apply grow_owned.
    + intros h Hh. rewrite grow_frame. case_decide; [|by apply Hn].
      intros [= E]. apply grow_not_used. rewrite E. apply Ho.
Qed.

Lemma grow_valid_new a : in_page va a -> valid_va m' T2 a.
Proof.
  intros Hin. apply in_page_page in Hin as Hpg; [|done].
  assert (Hpath : pt_path a = pt_path va) by (apply same_page_path; unfold page_of in *; lia).
  destruct grow_p as (? & ? & ?). destruct Hdom as [Hd|Ep].
  - left. split; [by apply Hd|]. rewrite grow_frame, decide_True by done. eauto.
  - right. rewrite Hpg. split_and!.
    + unfold in_page, low_va in *. lia.
    + by rewrite grow_frame, decide_True, <- Ep.
    + rewrite Ep. apply grow_owned_p.
    + intros h Hh. rewrite Ep, grow_frame.
      rewrite decide_False; [by apply grow_heap_not_p|]. intros E. apply (low_heap_path va h); [|done|done]. unfold low_va. lia.
Qed.

Lemma grow_rb a : valid_va m T a -> ~ in_page va a -> rb m' a = rb m a.
Proof.
  intros Ha Hout. destruct (valid_frame _ _ _ Hinv Ha) as (f & Ef & Hu & Hn).
  destruct (frame_aligned _ _ _ Ef) as [_ Hfa].
  rewrite (machine_rb m a (f + a mod 4096)) by (unfold phys_of; by rewrite Ef).
  rewrite (machine_rb m' a (f + a mod 4096)).
  - apply (mp_frame _ _ _ _ _ _ _ M). intros t q Ht Hin.
    destruct (T_frame _ _ (mp_wf _ _ _ _ _ _ _ M) _ _ Ht) as [_ Hta].
    assert (t = f) as -> by (clear -Hta Hfa Hin; zdiv).
    apply (mp_new _ _ _ _ _ _ _ M) in Ht as [Ht|(i & Hi & E)]; [congruence|].
    apply grow_free1 in Hi as [Hi _]. apply (Hu i E). by apply elem_of_free_frames.
  - unfold phys_of. rewrite grow_frame. rewrite decide_False; [by rewrite Ef|].
    intros E. apply Hout. by apply grow_path.
Qed.
End grow.

(** The effect of unmapping a page of the identity map. *)
Lemma unmap_run m T va :
  vm_inv m T -> va mod 4096 = 0 -> low_va va ->
  exists m' T2, vmm_unmap va m = Ret tt m' /\ vm_inv m' T2 /\ pmm m' = pmm m /\
    forall a, valid_va m T a -> ~ in_page va a -> valid_va m' T2 a /\ rb m' a = rb m a.
Proof.
  intros Hinv Hva Hlow.
  destruct (vmm_unmap_run m T va (vi_wf _ _ Hinv)) as (m' & E & Hw & Hp & Hhd & Hl & Hfr).
  destruct (prune m' T Hw) as (T2 & Hsub & Hw2 & Hr2). exists m', T2.
  assert (Hf : forall a, frame_of m' a
            = if decide (pt_path a = pt_path va) then None else frame_of m a)
    by (intros a; unfold frame_of, leaf; rewrite Hl; by case_decide).
  assert (Hown : forall f, owned m T f -> owned m' T2 f).
  { intros f [Hu Hn]. split; [by rewrite Hp|].
    destruct (T2 !! f) eqn:E'; [|done]. apply (lookup_weaken _ T) in E'; [congruence|done]. }
  split; [done|]. split; [|split; [done|]].
  - split; [done|done| | | | | |]; rewrite ?Hp, ?Hhd; try apply Hinv.
    + intros v f Hv. rewrite Hf. case_decide; [done|]. intros. by apply Hown, (vi_heap _ _ Hinv v).
    + intros v v' f Hv Hv'. rewrite !Hf. repeat case_decide; [done..|]. by apply (vi_inj _ _ Hinv).
  - intros a Ha Hout.
    assert (Hne : pt_path a <> pt_path va).
    { intros Ep. apply Hout, in_page_page; [done|].
      assert (Hpv : page_of va = va) by (unfold page_of; lia).
      destruct Ha as [[Ha _]|(Ha & _)]; [by apply (low_heap_path va a) in Hlow|].
      rewrite <- Hpv. by apply low_path_page. }
    assert (Hfa : frame_of m' a = frame_of m a) by (by rewrite Hf, decide_False).
    split.
    + unfold valid_va. rewrite Hfa. destruct Ha as [Ha|(Ha & Ef & Ho & Hn)]; [by left|right].
      split_and!; [done|done|by apply Hown|]. intros h Hh. rewrite Hf.
      case_decide; [done|by apply Hn].
    + destruct (valid_phys _ _ _ Hinv Ha) as (f & Ep & Hn & Hfal & Ho).
      rewrite (machine_rb m a _ Ep), (machine_rb m' a (f + a mod 4096)).
      * apply Hfr. intros t q Ht Hin. destruct (T_frame _ _ Hw _ _ Ht) as [_ Hta].
        assert (t = f) as -> by (clear -Hta Hfal Hin; zdiv). congruence.
      * unfold phys_of. by rewrite Hfa.
Qed.

Lemma machine_put_events es m : put_events es m = set_con (con m ++ es) m.
Proof.
  revert m. induction es as [|e es IH]; intros m; [by destruct m; cbn; rewrite app_nil_r|].
  change (put_events (e :: es) m) with (put_events es (put_event e m)).
  rewrite IH. cbn. by rewrite <- app_assoc.
Qed.

Lemma pmm_free_outside m x :
  pmm_wf (pmm m) -> managed_base (pmm m) + total_pages (pmm m) * PAGE_SIZE <= x ->
  pmm_free_page x m = Ret tt m.
Proof.
  intros Hp Hx. unfold pmm_free_page, PAGE_SIZE in *. krun.
  pose proof (wf_total _ Hp).
  destruct (Z.ltb_spec x (managed_base (pmm m))); [done|].
  destruct (Z.ltb_spec ((x - managed_base (pmm m)) / 4096) (total_pages (pmm m))); [|done].
  exfalso. zdiv.
Qed.

Lemma grow_run m T :
  vm_inv m T -> (4 <= size_free m)%nat ->
  exists p m1, pmm_alloc_page m = Ret p m1 /\ 0 < p /\ p + 4096 <= 2 ^ 47 /\ p mod 4096 = 0 /\
    (forall a, in_page p a -> ~ valid_va m T a) /\
    forall es va, va mod 4096 = 0 -> (forall a, in_page va a -> heap_va a) \/ va = p ->
      exists m' T2, vmm_map va p (Z.lor VMM_PRESENT VMM_WRITE) (put_events es m1) = Ret tt m' /\
        vm_inv m' T2 /\ (size_free m <= size_free m' + 4)%nat /\
        (forall a, valid_va m T a \/ in_page va a -> valid_va m' T2 a) /\
        (forall a, valid_va m T a -> ~ in_page va a -> rb m' a = rb m a).
Proof.
  intros Hinv Hfree. pose proof (vi_pmm _ _ Hinv) as Hp.
  destruct (pmm_alloc_cases m Hp) as [(k & Hk & _ & E)|[Hno _]].
  2:{ exfalso. unfold size_free in Hfree.
      assert (free_frames (pmm m) = ∅) as E0.
      { apply set_eq. intros j. rewrite elem_of_free_frames. split; [|set_solver].
        intros Hj. by apply Hno in Hj. }
      rewrite E0, size_empty in Hfree. lia. }
  destruct (grow_p m T Hinv k Hk) as (Hp0 & Hp1 & Hp2).
  eexists _, _. split; [exact E|]. split_and!; [done..| |].
  - intros a Hin [[Ha _]|(_ & _ & [Hu _] & _)].
    + unfold in_page, heap_va, HEAP_START in *. lia.
    + apply (grow_not_used m k Hk). by apply in_page_page in Hin as <-.
  - intros es va Hva Hdom. rewrite machine_put_events. set (c := con _ ++ es).
    destruct (vmm_map_run _ T va (managed_base (pmm m) + k * PAGE_SIZE)
                (Z.lor VMM_PRESENT VMM_WRITE) (grow_wf1 m T Hinv k Hk c)
                (take_frame_wf (pmm m) Hp k)) as (m' & T' & Em & M).
    + apply Hinv.
    + vm_compute. split; congruence.
    + reflexivity.
    + unfold size_free in *. cbn [pmm set_pmm set_con].
      rewrite free_frames_take by (done || apply Hk).
      rewrite size_difference by (apply singleton_subseteq_l, elem_of_free_frames, Hk).
      rewrite size_singleton. lia.
    + destruct (prune m' T' (mp_wf _ _ _ _ _ _ _ M)) as (T2 & Hsub & Hw2 & Hr2).
      exists m', T2. split; [exact Em|]. split_and!.
      * by eapply (grow_inv m T Hinv k Hk c va).
      * pose proof (mp_size _ _ _ _ _ _ _ M) as Hs. revert Hs. unfold size_free. cbn [pmm set_pmm set_con].
        rewrite free_frames_take by (done || apply Hk).
        rewrite size_difference by (apply singleton_subseteq_l, elem_of_free_frames, Hk).
        rewrite size_singleton. lia.
      * intros a [Ha|Ha]; [by eapply (grow_valid_old m T Hinv k Hk c va)
                          |by eapply (grow_valid_new m T Hinv k Hk c va)].
      * intros a. by eapply (grow_rb m T Hinv k Hk c va).
Qed.

#[export, refine] Instance machine_PagesOk : PagesOk machine := {
  pg_inv m := exists T, vm_inv m T;
  pg_budget m := (size_free m / 4)%nat;
  pg_frames m := free_frames (pmm m);
}.
Proof.
  - intros m a v. unfold wb, machine_BMem. by destruct (phys_of m a).
  - intros m a v _ (T & Hinv & Ha).
    destruct (valid_phys _ _ _ Hinv Ha) as (f & Ep & Hf & Hfa & Ho).
    rewrite (machine_wb _ _ _ _ Ep). split; [|done].
    exists T. exact (write_inv m T Hinv f (a mod 4096) v Hf Hfa Ho).
  - intros m (T & Hinv) Hb.
    assert (Hf : (4 <= size_free m)%nat).
    { destruct (Nat.lt_ge_cases (size_free m) 4) as [Hlt|]; [|done].
      rewrite Nat.div_small in Hb by done. lia. }
    destruct (grow_run m T Hinv Hf) as (p & m1 & E & Hp0 & Hp1 & Hp2 & Hfresh & Hmap).
    exists p, m1. split_and!; [done..| |].
    + intros a Ha (T' & Hinv' & Hv). apply (Hfresh a Ha). by rewrite (tables_unique _ _ _ Hinv Hinv').
    + intros es va Hva Hdom. destruct (Hmap es va Hva Hdom) as (m' & T2 & Em & Hinv2 & Hs & Hv & Hr).
      exists m'. split_and!; [done|by exists T2| | |].
      * pose proof (Nat.Div0.div_le_mono _ _ 4 Hs) as H.
        replace (size_free m' + 4)%nat with (size_free m' + 1 * 4)%nat in H by lia.
        rewrite Nat.div_add in H by done. lia.
      * intros a Ha. exists T2. split; [done|]. apply Hv.
        destruct Ha as [(T' & Hinv' & Ha)|]; [left|by right].
        by rewrite (tables_unique _ _ _ Hinv Hinv').
      * intros a (T' & Hinv' & Ha). apply Hr. by rewrite (tables_unique _ _ _ Hinv Hinv').
  - intros m va (T & Hinv) Hva Hlow.
    destruct (unmap_run m T va Hinv Hva Hlow) as (m' & T2 & E & Hinv2 & Hp & H).
    exists m'. split_and!; [done|by exists T2|by unfold size_free; rewrite Hp|by rewrite Hp|].
    intros a (T' & Hinv' & Ha) Hout. rewrite (tables_unique _ _ _ Hinv' Hinv) in Ha.
    destruct (H a Ha Hout) as [Hv Hr]. split; [|done]. by exists T2.
  - intros m v (T & Hinv) Hv. exists (u64 (v - g_hhdm_offset m)). split; [done|].
    pose proof (vi_hhdm _ _ Hinv) as H. unfold low_va in Hv.
    replace (u64 (v - g_hhdm_offset m)) with (v - g_hhdm_offset m + 2 ^ 64).
    + change (2 ^ 64) with 18446744073709551616 in *. change (2 ^ 63) with 9223372036854775808 in *.
      change (2 ^ 47) with 140737488355328 in *. lia.
    + apply (Z.mod_unique _ _ (-1)); [|lia]. left.
      change (2 ^ 64) with 18446744073709551616 in *. change (2 ^ 63) with 9223372036854775808 in *.
      change (2 ^ 47) with 140737488355328 in *. lia.
  - intros m x (T & Hinv) Hx. apply pmm_free_outside; [apply Hinv|].
    pose proof (vi_end _ _ Hinv). lia.
Defined.

(** ** Console output does not touch memory *)
Class ConsoleOk (S : Type) `{!BMem S} `{!BMemOk S} `{!Pages S} `{!Console S} `{!PagesOk S} := {
  con_rb : forall e (s : S) a, rb (put_event e s) a = rb s a;
  con_valid : forall e (s : S) a, valid s a -> valid (put_event e s) a;
  con_inv : forall e (s : S), pg_inv s -> pg_inv (put_event e s);
  con_budget : forall e (s : S), pg_budget (put_event e s) = pg_budget s;
}.

Lemma con_vm_inv m T c : vm_inv m T -> vm_inv (set_con c m) T.
Proof. intros [[] ? ? ? ? ? ? ?]. by split; [split|..]. Qed.

#[export, refine] Instance machine_ConsoleOk : ConsoleOk machine := {}.
Proof.
  - done.
  - intros e m a (T & Hinv & Ha). exists T. split; [by apply con_vm_inv|exact Ha].
  - intros e m (T & Hinv). exists T. by apply con_vm_inv.
  - done.
Defined.

(** Events leave valid memory alone. *)
Lemma put_events_mem {S} `{ConsoleOk S} es (s : S) :
  (forall a, rb (put_events es s) a = rb s a) /\
  (forall a, valid s a -> valid (put_events es s) a) /\
  (pg_inv s -> pg_inv (put_events es s)) /\
  pg_budget (put_events es s) = pg_budget s.
Proof.
  revert s. induction es as [|e es IH]; intros s; [done|].
  destruct (IH (put_event e s)) as (Hr & Hv & Hi & Hb). split_and!.
  - intros a. cbn. rewrite Hr. apply con_rb.
  - intros a Ha. apply Hv. by apply con_valid.
  - intros Hs. by apply Hi, con_inv.
  - change (put_events (e :: es) s) with (put_events es (put_event e s)). rewrite Hb. apply con_budget.
Qed.

(** ** The demonstration machine *)

(** On a memory whose tables hold only zeros nothing is mapped. *)
Lemma demo_frame_of va : frame_of demo_vmm va = None.
Proof.
  unfold frame_of, leaf. pose proof (T_root _ _ demo_vmm_wf) as Hr.
  change (pt_path va) with (PML4_INDEX va :: tail (pt_path va)). rewrite pt_lookup_cons.
  assert (E : entry (phys demo_vmm) (current_pml4 demo_vmm) (PML4_INDEX va) = 0)
    by (apply load_zero; intros; reflexivity).
  rewrite E. reflexivity.
Qed.

Lemma demo_vmm_inv : vm_inv demo_vmm demo_tables.
Proof.
  split.
  - apply demo_vmm_wf.
  - intros t p Ht. unfold demo_tables in Ht. apply lookup_singleton_Some in Ht as [<- <-].
    split_and!; [cbn; lia|by intros i []%elem_of_nil|reflexivity].
  - apply demo_vmm_pmm.
  - vm_compute. reflexivity.
  - vm_compute. congruence.
  - vm_compute. split; congruence.
  - intros va f _ H. rewrite demo_frame_of in H. discriminate H.
  - intros va va' f _ _ H. rewrite demo_frame_of in H. discriminate H.
Qed.
