(* ===== verification/VmmInit.v ===== *)
(** * Building the kernel's address space (vmm.c, init_vmm)

    [init_vmm] gives the kernel a root table of its own: the kernel half of the
    loader's, every usable page mapped to itself, and the bitmap of the page
    allocator in the direct map.  How many frames its tables take is counted
    by the prefixes of the mapped addresses that have no table yet. *)

From S2P Require Import Prelude Bytes MemLib Console Machine Pmm Vmm Pages.
Local Open Scope Z_scope.

(** ** The frames a mapping takes *)

(** The index paths of the three tables below the root on the way to [va]. *)
Definition prefixes (va : Z) : gset (list Z) :=
  {[ take 1 (pt_path va); take 2 (pt_path va); take 3 (pt_path va) ]}.

(** The paths of [N] at which there is no table. *)
Definition missing (N : gset (list Z)) (m : machine) : gset (list Z) :=
  filter (fun p => descend (phys m) (current_pml4 m) p = None) N.

(** The free frames are enough for the missing tables, and [r] are left. *)
Definition enough (N : gset (list Z)) (r : nat) (m : machine) : Prop :=
  (size (missing N m) + r <= size_free m)%nat.

(** Paths within the tables. *)
Definition paths_ok (N : gset (list Z)) : Prop :=
  forall p, p ∈ N -> (length p <= 3)%nat /\ forall i, i ∈ p -> 0 <= i < 512.

Lemma prefixes_ok va : paths_ok (prefixes va).
Proof.
  intros p Hp. unfold prefixes in Hp. rewrite !elem_of_union, !elem_of_singleton in Hp.
  destruct Hp as [[->| ->]| ->]; (split; [cbn; lia|apply pt_path_take_range]).
Qed.

Lemma descend_app s t p q :
  descend s t (p ++ q) = match descend s t p with Some t' => descend s t' q | None => None end.
Proof.
  revert t. induction p as [|i p IH]; intros t; cbn [descend app]; [done|].
  by destruct (present (entry s t i)).
Qed.

Lemma missing_grown N m T m' T' :
  pt_wf m T -> grown m T m' T' -> paths_ok N -> missing N m' ⊆ missing N m.
Proof.
  intros Hwf G HN p. unfold missing. rewrite !elem_of_filter. intros [Hd Hp]. split; [|done].
  destruct (descend (phys m) (current_pml4 m) p) as [t'|] eqn:E; [|done].
  destruct (HN p Hp) as [Hl Hi].
  rewrite (g_root _ _ _ _ G) in Hd.
  by rewrite (grown_descend m T m' T' _ [] p t' Hwf G (T_root _ _ Hwf) Hl Hi E) in Hd.
Qed.

(** One level of a walk: a table is made only where one is missing. *)
Lemma walk_level_enough N r m T t q i :
  pt_wf m T -> pmm_wf (pmm m) -> 0 < managed_base (pmm m) -> paths_ok N ->
  descend (phys m) (current_pml4 m) q = Some t -> T !! t = Some q -> (length q < 3)%nat ->
  0 <= i < 512 -> q ++ [i] ∈ N -> enough N r m ->
  exists m' T' t', walk_level true t i m = Ret (Some t') m' /\ grown m T m' T' /\
    descend (phys m') (current_pml4 m') (q ++ [i]) = Some t' /\ T' !! t' = Some (q ++ [i]) /\
    enough N r m'.
Proof.
  intros Hwf Hp Hb HN Hd Ht Hq Hi Hin He.
  destruct (present (entry (phys m) t i)) eqn:Hpr.
  - exists m, T, (Z.land (entry (phys m) t i) PAGE_MASK). split_and!.
    + unfold walk_level, pload64. krun. change (ld64 (phys m) (t + 8 * i)) with (entry (phys m) t i).
      by rewrite Hpr.
    + by apply grown_refl.
    + rewrite descend_app, Hd. cbn [descend]. by rewrite Hpr.
    + by apply (T_child _ _ Hwf t q i).
    + done.
  - assert (Hm : q ++ [i] ∈ missing N m).
    { apply elem_of_filter. split; [|done]. rewrite descend_app, Hd. cbn [descend]. by rewrite Hpr. }
    assert (H1 : (1 <= size (missing N m))%nat).
    { rewrite <- (size_singleton (C := gset (list Z)) (q ++ [i])). by apply subseteq_size, singleton_subseteq_l. }
    destruct (walk_level_create m T t q i Hwf Hp Hb Ht Hq Hi)
      as [(m' & T' & t' & E & G & D & HT & Hs)|[H0 _]]; [|unfold enough in He; lia].
    assert (D' : descend (phys m') (current_pml4 m') (q ++ [i]) = Some t').
    { rewrite descend_app, (g_root _ _ _ _ G).
      rewrite (grown_descend m T m' T' _ [] q t Hwf G (T_root _ _ Hwf)); [done| | |done].
      - cbn. lia.
      - intros j Hj. apply (HN _ Hin). apply elem_of_app. by left. }
    exists m', T', t'. do 4 (split; [done|]).
    pose proof (missing_grown N m T m' T' Hwf G HN) as Hsub. unfold enough in *.
    assert (Hm' : q ++ [i] ∉ missing N m') by (intros [Hx _]%elem_of_filter; congruence).
    assert (Hlt : (size (missing N m') < size (missing N m))%nat)
      by (apply subset_size; split; [done|]; intros Hc; by apply Hm', Hc).
    lia.
Qed.

Lemma walk_enough N r m T va :
  pt_wf m T -> pmm_wf (pmm m) -> 0 < managed_base (pmm m) -> paths_ok N ->
  prefixes va ⊆ N -> enough N r m ->
  exists m' T' pt, walk va true m = Ret (Some (pt + 8 * PT_INDEX va)) m' /\ grown m T m' T' /\
    descend (phys m') (current_pml4 m') (take 3 (pt_path va)) = Some pt /\ enough N r m'.
Proof.
  intros Hwf Hp Hb HN Hsub He.
  assert (Hin : forall p, p = take 1 (pt_path va) \/ p = take 2 (pt_path va) \/ p = take 3 (pt_path va) -> p ∈ N).
  { intros p Hx. apply Hsub. unfold prefixes. rewrite !elem_of_union, !elem_of_singleton. tauto. }
  unfold walk. rewrite (kbind_ret _ _ m (current_pml4 m) m) by done. cbn beta.
  destruct (walk_level_enough N r m T (current_pml4 m) [] (PML4_INDEX va))
    as (m1 & T1 & t1 & E1 & G1 & D1 & H1 & S1);
    [done..|apply Hwf|cbn; lia|apply index_range|apply Hin; by left|done|].
  rewrite (kbind_ret _ _ _ _ _ E1).
  destruct (walk_level_enough N r m1 T1 t1 [PML4_INDEX va] (PDPT_INDEX va))
    as (m2 & T2 & t2 & E2 & G2 & D2 & H2 & S2);
    [apply G1|apply G1|by rewrite (g_base _ _ _ _ G1)|done|exact D1|done|cbn; lia|apply index_range
    |apply Hin; by right; left|done|].
  rewrite (kbind_ret _ _ _ _ _ E2). pose proof (grown_trans _ _ _ _ _ _ G1 G2) as G12.
  destruct (walk_level_enough N r m2 T2 t2 [PML4_INDEX va; PDPT_INDEX va] (PD_INDEX va))
    as (m3 & T3 & t3 & E3 & G3 & D3 & H3 & S3);
    [apply G12|apply G12|by rewrite (g_base _ _ _ _ G12)|done|exact D2|done|cbn; lia|apply index_range
    |apply Hin; by right; right|done|].
  rewrite (kbind_ret _ _ _ _ _ E3).
  exists m3, T3, t3. split; [done|]. split; [exact (grown_trans _ _ _ _ _ _ G12 G3)|].
  split; [exact D3|exact S3].
Qed.

(** Writing a leaf entry does not change which tables there are. *)
Lemma leaf_missing N m T pt va v :
  pt_wf m T -> descend (phys m) (current_pml4 m) (take 3 (pt_path va)) = Some pt -> paths_ok N ->
  missing N (with_pte m pt (PT_INDEX va) v va) = missing N m.
Proof.
  intros Hwf Hd HN. pose proof (leaf_path m T pt va Hwf Hd) as Hp.
  destruct (T_frame _ _ Hwf _ _ Hp) as [_ Ha].
  apply set_eq. intros p. unfold missing. rewrite !elem_of_filter.
  destruct (decide (p ∈ N)) as [Hin|]; [|tauto]. destruct (HN p Hin) as [Hl Hi].
  enough (E : descend (phys (with_pte m pt (PT_INDEX va) v va)) (current_pml4 m) p
              = descend (phys m) (current_pml4 m) p) by (cbn in *; by rewrite E).
  clear Hin. assert (Hr : forall t q, T !! t = Some q -> (length q + length p <= 3)%nat ->
    descend (phys (with_pte m pt (PT_INDEX va) v va)) t p = descend (phys m) t p).
  { clear Hl. induction p as [|i p IH]; intros t q Ht Hl; [done|]. cbn [descend].
    cbn [length] in Hl. destruct (T_frame _ _ Hwf _ _ Ht) as [_ Hta].
    assert (Hi0 : 0 <= i < 512) by (apply Hi, list_elem_of_here).
    assert (Ee : entry (phys (with_pte m pt (PT_INDEX va) v va)) t i = entry (phys m) t i).
    { unfold with_pte. cbn [phys set_phys set_invlpgs].
      rewrite entry_store by (done || apply index_range). rewrite decide_False; [done|].
      intros [-> _]. rewrite Hp in Ht. injection Ht as <-. cbn in Hl. lia. }
    rewrite Ee. destruct (present (entry (phys m) t i)) eqn:Hpr; [|done].
    apply (IH ltac:(intros j Hj; apply Hi; by apply list_elem_of_further) _ (q ++ [i])).
    - apply (T_child _ _ Hwf); [done|lia|done|done].
    - rewrite length_app. cbn. lia. }
  apply (Hr _ [] (T_root _ _ Hwf)). exact Hl.
Qed.

(** ** A sequence of mappings *)

Fixpoint map_all (l : list (Z * Z)) : K machine unit :=
  match l with
  | [] => mret tt
  | (va, pa) :: r => vmm_map va pa VMM_WRITE;; map_all r
  end.

(** The frame the last mapping of the page of [va] gave it. *)
Fixpoint target (l : list (Z * Z)) (va : Z) : option Z :=
  match l with
  | [] => None
  | (v, p) :: r =>
      match target r va with
      | Some x => Some x
      | None => if decide (pt_path va = pt_path v) then Some p else None
      end
  end.

Record remapped (m : machine) (T : gmap Z (list Z)) (l : list (Z * Z))
    (m' : machine) (T' : gmap Z (list Z)) : Prop := {
  rm_wf : pt_wf m' T';
  rm_pmm : pmm_wf (pmm m');
  rm_sub : T ⊆ T';
  rm_root : current_pml4 m' = current_pml4 m;
  rm_base : managed_base (pmm m') = managed_base (pmm m);
  rm_total : total_pages (pmm m') = total_pages (pmm m);
  rm_free : free_frames (pmm m') ⊆ free_frames (pmm m);
  rm_rest : g_hhdm_offset m' = g_hhdm_offset m /\ con m' = con m /\ cr3 m' = cr3 m /\
    g_memmap m' = g_memmap m;
  rm_lookup : forall va, pt_lookup (phys m') (current_pml4 m) (pt_path va)
    = match target l va with
      | Some p => Some (pte_value p VMM_WRITE)
      | None => pt_lookup (phys m) (current_pml4 m) (pt_path va)
      end;
  rm_frame : forall a, (forall t p, T' !! t = Some p -> ~ (t <= a < t + 4096)) ->
    rb (phys m') a = rb (phys m) a;
  rm_user : supervisor_half (phys m) (current_pml4 m) -> supervisor_half (phys m') (current_pml4 m');
}.

Lemma remapped_nil m T : pt_wf m T -> pmm_wf (pmm m) -> remapped m T [] m T.
Proof. by split. Qed.

Lemma target_app l1 l2 va :
  target (l1 ++ l2) va = match target l2 va with Some x => Some x | None => target l1 va end.
Proof.
  induction l1 as [|[v p] l1 IH]; cbn [app target]; [by destruct (target l2 va)|].
  rewrite IH. by destruct (target l2 va).
Qed.

Lemma remapped_app m T l1 m1 T1 l2 m2 T2 :
  remapped m T l1 m1 T1 -> remapped m1 T1 l2 m2 T2 -> remapped m T (l1 ++ l2) m2 T2.
Proof.
  intros R1 R2. split; try apply R2.
  - etrans; [apply R1|apply R2].
  - by rewrite (rm_root _ _ _ _ _ R2), (rm_root _ _ _ _ _ R1).
  - by rewrite (rm_base _ _ _ _ _ R2), (rm_base _ _ _ _ _ R1).
  - by rewrite (rm_total _ _ _ _ _ R2), (rm_total _ _ _ _ _ R1).
  - etrans; [apply R2|apply R1].
  - destruct (rm_rest _ _ _ _ _ R1) as (? & ? & ? & ?), (rm_rest _ _ _ _ _ R2) as (? & ? & ? & ?).
    split_and!; congruence.
  - intros va'. rewrite <- (rm_root _ _ _ _ _ R1), (rm_lookup _ _ _ _ _ R2), target_app.
    destruct (target l2 va'); [done|]. rewrite (rm_root _ _ _ _ _ R1). apply (rm_lookup _ _ _ _ _ R1).
  - intros a Ha. rewrite (rm_frame _ _ _ _ _ R2) by done. apply (rm_frame _ _ _ _ _ R1).
    intros t p Ht. apply (Ha t p). by eapply lookup_weaken; [|apply R2].
  - intros Hu. by apply (rm_user _ _ _ _ _ R2), (rm_user _ _ _ _ _ R1).
Qed.

Lemma remapped_cons m T va pa m1 T1 l m2 T2 :
  remapped m T [(va, pa)] m1 T1 -> remapped m1 T1 l m2 T2 -> remapped m T ((va, pa) :: l) m2 T2.
Proof. exact (remapped_app m T [(va, pa)] m1 T1 l m2 T2). Qed.

Lemma vmm_map_enough N r m T va pa :
  pt_wf m T -> pmm_wf (pmm m) -> 0 < managed_base (pmm m) -> paths_ok N ->
  prefixes va ⊆ N -> enough N r m ->
  exists m' T', vmm_map va pa VMM_WRITE m = Ret tt m' /\ remapped m T [(va, pa)] m' T' /\ enough N r m'.
Proof.
  intros Hwf Hp Hb HN Hsub He.
  destruct (walk_enough N r m T va Hwf Hp Hb HN Hsub He) as (m1 & T1 & pt & E & G & D & S1).
  exists (with_pte m1 pt (PT_INDEX va) (pte_value pa VMM_WRITE) va), T1.
  destruct (link_value_spec pa) as (Hv & Hpv & _).
  split; [unfold vmm_map; rewrite (kbind_ret _ _ _ _ _ E); done|]. split.
  - split; try apply G; try done.
    + by apply leaf_wf; [apply G|].
    + cbn. by destruct (g_rest _ _ _ _ G) as (? & ? & ? & ? & _).
    + intros va'. pose proof (leaf_lookup m1 T1 pt va (pte_value pa VMM_WRITE) (g_wf _ _ _ _ G) D va') as L.
      change (current_pml4 (with_pte _ _ _ _ _)) with (current_pml4 m1) in L.
      rewrite (g_root _ _ _ _ G) in L. rewrite L. cbn [target].
      case_decide; [by rewrite Hv, Hpv|].
      apply (g_lookup _ _ _ _ G _ [] (pt_path va')); [apply Hwf|done|done|apply pt_path_range].
    + intros a Ha. rewrite (leaf_frame m1 T1 pt va _ (g_wf _ _ _ _ G) D) by done.
      by apply (g_frame _ _ _ _ G).
    + intros Hu. by apply (leaf_user m1 T1 pt va _ (g_wf _ _ _ _ G) D), (g_user _ _ _ _ G).
  - unfold enough. rewrite (leaf_missing N m1 T1 pt va _ (g_wf _ _ _ _ G) D HN). exact S1.
Qed.

Lemma map_all_run N r l m T :
  pt_wf m T -> pmm_wf (pmm m) -> 0 < managed_base (pmm m) -> paths_ok N ->
  (forall va pa, (va, pa) ∈ l -> prefixes va ⊆ N) -> enough N r m ->
  exists m' T', map_all l m = Ret tt m' /\ remapped m T l m' T' /\ enough N r m'.
Proof.
  revert m T. induction l as [|[va pa] l IH]; intros m T Hwf Hp Hb HN Hl He.
  { exists m, T. split_and!; [done|by apply remapped_nil|done]. }
  destruct (vmm_map_enough N r m T va pa Hwf Hp Hb HN) as (m1 & T1 & E1 & R1 & S1);
    [apply (Hl va pa), list_elem_of_here|done|].
  destruct (IH m1 T1) as (m2 & T2 & E2 & R2 & S2);
    [apply R1|apply R1|by rewrite (rm_base _ _ _ _ _ R1)|done| |done|].
  { intros v p Hin. apply (Hl v p). by apply list_elem_of_further. }
  exists m2, T2. split_and!; [|by apply (remapped_cons m T va pa m1 T1)|done].
  cbn [map_all]. by rewrite (kbind_ret _ _ _ _ _ E1).
Qed.

Lemma map_all_app l1 l2 m :
  map_all (l1 ++ l2) m = (map_all l1;; map_all l2) m.
Proof.
  revert m. induction l1 as [|[va pa] l1 IH]; intros m; [done|]. cbn [map_all app].
  unfold mbind, K_bind. destruct (vmm_map va pa VMM_WRITE m) as [[] m1|]; [|done].
  rewrite IH. done.
Qed.

(** A [for] loop that maps one page in each turn. *)
Lemma kfor_map_all n lo (f g : Z -> Z) m :
  kfor n lo (fun i => vmm_map (f i) (g i) VMM_WRITE) m
  = map_all (map (fun k => (f (lo + Z.of_nat k), g (lo + Z.of_nat k))) (seq 0 n)) m.
Proof.
  revert lo m. induction n as [|n IH]; intros lo m; [done|]. cbn [kfor seq map map_all].
  rewrite Z.add_0_r. unfold mbind, K_bind. destruct (vmm_map (f lo) (g lo) VMM_WRITE m) as [[] m1|]; [|done].
  rewrite IH. rewrite <- seq_shift, map_map. apply (f_equal (fun l => map_all l m1)), map_ext. intros k.
  by replace (lo + 1 + Z.of_nat k) with (lo + Z.of_nat (S k)) by lia.
Qed.

(** ** The kernel's root table *)

Definition upper (tp : Z * list Z) : Prop :=
  match tp.2 with i :: _ => 256 <= i | [] => False end.
#[export] Instance upper_dec tp : Decision (upper tp).
Proof. unfold upper. destruct (tp.2); apply _. Defined.

(** The tables of a new root that shares the kernel half of the tables [T]. *)
Definition shared_tables (f : Z) (T : gmap Z (list Z)) : gmap Z (list Z) :=
  <[f := []]> (filter upper T).

(** The state of the machine when [init_vmm] starts: [root] is the loader's
    root table, [T] its tables. *)
Record loader_tables (m : machine) (T : gmap Z (list Z)) : Prop := {
  lt_wf : pt_wf (set_pml4 (Z.land (cr3 m) PAGE_MASK) m) T;
  lt_pmm : pmm_wf (pmm m);
  lt_base : 0 < managed_base (pmm m);
}.

Section new_root.
Context (m : machine) (T : gmap Z (list Z)) (H : loader_tables m T).
Let old := Z.land (cr3 m) PAGE_MASK.
Context (k : Z) (Hk : page_free (pmm m) k) (s1 s' : mem).
Let f := managed_base (pmm m) + k * PAGE_SIZE.
Context (Hz : zeroed (phys m) f s1).
Context (He : forall t i, t mod 4096 = 0 -> 0 <= i < 512 ->
  entry s' t i = if decide (t = f /\ 256 <= i) then entry s1 old i else entry s1 t i).
Let m' := set_phys s' (set_pml4 f (set_pmm (take_frame (pmm m) k) m)).

Lemma new_root_frame : 0 <= f < 2 ^ 52 /\ f mod 4096 = 0.
Proof. exact (link_frame m k (lt_pmm _ _ H) Hk). Qed.

Lemma new_root_fresh : T !! f = None.
Proof. exact (link_fresh (set_pml4 old m) T k (lt_wf _ _ H) Hk). Qed.

Lemma new_root_old t i p : T !! t = Some p -> 0 <= i < 512 -> entry s' t i = entry (phys m) t i.
Proof.
  intros Ht Hi. destruct (T_frame _ _ (lt_wf _ _ H) _ _ Ht) as [_ Ha].
  assert (t <> f) by (intros ->; by rewrite new_root_fresh in Ht).
  rewrite He, decide_False by (done || by intros [? _]).
  rewrite (entry_zeroed _ _ _ _ _ (proj2 new_root_frame) Ha Hi Hz). by rewrite decide_False.
Qed.

Lemma new_root_entry i : 0 <= i < 512 ->
  entry s' f i = if decide (256 <= i) then entry (phys m) old i else 0.
Proof.
  intros Hi. destruct new_root_frame as [_ Hfa]. pose proof (T_root _ _ (lt_wf _ _ H)) as Hr.
  destruct (T_frame _ _ (lt_wf _ _ H) _ _ Hr) as [_ Hra].
  change (T !! old = Some []) in Hr. change (old mod 4096 = 0) in Hra.
  assert (old <> f) by (intros E; by rewrite E, new_root_fresh in Hr).
  rewrite He by done. destruct (decide (256 <= i)).
  - rewrite decide_True, (entry_zeroed _ _ _ _ _ Hfa Hra Hi Hz) by done. by rewrite decide_False.
  - rewrite decide_False by tauto. rewrite (entry_zeroed _ _ _ _ _ Hfa Hfa Hi Hz). by rewrite decide_True.
Qed.

Lemma new_root_wf : pt_wf m' (shared_tables f T).
Proof.
  pose proof (lt_wf _ _ H) as Hwf. pose proof new_root_fresh as Hfr.
  assert (Hkeep : forall t p, shared_tables f T !! t = Some p ->
    (t = f /\ p = []) \/ (t <> f /\ T !! t = Some p /\ upper (t, p))).
  { intros t p. unfold shared_tables. rewrite lookup_insert. case_decide as E; [by intros [= <-]; left|].
    intros [? ?]%map_lookup_filter_Some. right. by split_and!. }
  split.
  - apply lookup_insert_eq.
  - intros t p [[-> _]|(_ & Ht & _)]%Hkeep; [apply new_root_frame|by apply (T_frame _ _ Hwf t p)].
  - intros t p i Ht Hl Hi. change (phys m') with s'.
    assert (Hchild : forall t0 q, T !! t0 = Some q -> (length q < 3)%nat -> upper (t0, q ++ [i]) ->
      present (entry (phys m) t0 i) = true ->
      Z.land (entry (phys m) t0 i) VMM_HUGE = 0 /\
      shared_tables f T !! Z.land (entry (phys m) t0 i) PAGE_MASK = Some (q ++ [i])).
    { intros t0 q Ht0 Hq Hu Hpr. destruct (T_child _ _ Hwf t0 q i Ht0 Hq Hi Hpr) as [Hh Hc].
      split; [done|]. unfold shared_tables. rewrite lookup_insert_ne.
      - apply map_lookup_filter_Some. by split.
      - intros E. change (phys (set_pml4 _ m)) with (phys m) in Hc. rewrite <- E in Hc. by rewrite Hfr in Hc. }
    apply Hkeep in Ht as [[-> ->]|(Hne & Ht & Hu)].
    + rewrite new_root_entry by done. case_decide; [|done].
      by apply (Hchild old [] (T_root _ _ Hwf)).
    + rewrite (new_root_old t i p) by done. apply Hchild; [done|done|].
      unfold upper in *. cbn in *. by destruct p.
  - intros t p Ht j Ej Hj. apply page_free_take in Hj as [Hj Hne]; [|apply H|apply Hk].
    apply Hkeep in Ht as [[-> _]|(_ & Ht & _)].
    + unfold f in Ej. cbn in Ej. unfold PAGE_SIZE in Ej. lia.
    + exact (T_used _ _ Hwf _ _ Ht j Ej Hj).
Qed.

Lemma new_root_lookup va : pt_lookup s' f (pt_path va)
  = if decide (256 <= PML4_INDEX va) then pt_lookup (phys m) old (pt_path va) else None.
Proof.
  exact (new_space_lookup (set_pml4 old m) T (lt_wf _ _ H) f s' s1 (proj2 new_root_frame) Hz
           new_root_fresh He new_root_old va).
Qed.
End new_root.

(** ** What [init_vmm] maps *)

(** Every page of a memory-map entry to itself. *)
Definition identity_pages (e : memmap_entry) : list (Z * Z) :=
  map (fun k => (me_base e + Z.of_nat k * PAGE_SIZE_VMM, me_base e + Z.of_nat k * PAGE_SIZE_VMM))
    (seq 0 (Z.to_nat ((u64 (me_base e + me_length e) - me_base e + PAGE_SIZE_VMM - 1) / PAGE_SIZE_VMM))).

Fixpoint identity_list (entries : list memmap_entry) : list (Z * Z) :=
  match entries with
  | [] => []
  | e :: r => (if me_type e =? LIMINE_MEMMAP_USABLE then identity_pages e else []) ++ identity_list r
  end.

(** The bitmap of the page allocator in the direct map. *)
Definition bitmap_list (off : Z) (p : pmm_state) : list (Z * Z) :=
  map (fun k => (u64 (managed_base p + off + Z.of_nat k * PAGE_SIZE_VMM),
                 managed_base p + Z.of_nat k * PAGE_SIZE_VMM))
    (seq 0 (Z.to_nat ((pmm_bitmap_size p + PAGE_SIZE_VMM - 1) / PAGE_SIZE_VMM))).

Definition boot_list (m : machine) (entries : list memmap_entry) : list (Z * Z) :=
  identity_list entries ++ bitmap_list (g_hhdm_offset m) (pmm m).

(** The tables below the root that a list of mappings needs. *)
Definition tables_of (l : list (Z * Z)) : gset (list Z) := ⋃ map (fun vp => prefixes vp.1) l.

Lemma tables_of_prefixes l va pa : (va, pa) ∈ l -> prefixes va ⊆ tables_of l.
Proof.
  intros Hin p Hp. unfold tables_of. apply elem_of_union_list. exists (prefixes va).
  split; [|done]. apply list_elem_of_fmap. by exists (va, pa).
Qed.

Lemma tables_of_ok l : paths_ok (tables_of l).
Proof.
  intros p Hp. unfold tables_of in Hp. apply elem_of_union_list in Hp as (X & HX & Hp).
  apply list_elem_of_fmap in HX as ([va pa] & -> & _). by apply (prefixes_ok va).
Qed.

Lemma tables_of_app l1 l2 : tables_of (l1 ++ l2) = tables_of l1 ∪ tables_of l2.
Proof. unfold tables_of. rewrite map_app, union_list_app_L. done. Qed.

Lemma identity_map_all_list entries m : identity_map_all entries m = map_all (identity_list entries) m.
Proof.
  revert m. induction entries as [|e r IH]; intros m; [done|]. cbn [identity_map_all identity_list].
  rewrite map_all_app. unfold mbind, K_bind, kwhen.
  destruct (me_type e =? LIMINE_MEMMAP_USABLE); [|by cbn; rewrite IH].
  unfold identity_map. cbv zeta.
  rewrite (kfor_map_all _ 0 (fun i => me_base e + i * PAGE_SIZE_VMM) (fun i => me_base e + i * PAGE_SIZE_VMM)).
  unfold identity_pages. destruct (map_all _ m) as [[] m1|]; [apply IH|done].
Qed.

(** ** The address space after [init_vmm] *)

Record kernel_space (m : machine) (l : list (Z * Z)) (m' : machine) (T' : gmap Z (list Z)) : Prop := {
  ks_wf : pt_wf m' T';
  ks_pmm : pmm_wf (pmm m');
  ks_cr3 : cr3 m' = current_pml4 m';
  ks_base : managed_base (pmm m') = managed_base (pmm m);
  ks_total : total_pages (pmm m') = total_pages (pmm m);
  ks_free : free_frames (pmm m') ⊆ free_frames (pmm m);
  ks_rest : g_hhdm_offset m' = g_hhdm_offset m /\ g_memmap m' = g_memmap m;
  ks_lookup : forall va, pt_lookup (phys m') (current_pml4 m') (pt_path va)
    = match target l va with
      | Some p => Some (pte_value p VMM_WRITE)
      | None => if decide (256 <= PML4_INDEX va)
                then pt_lookup (phys m) (Z.land (cr3 m) PAGE_MASK) (pt_path va) else None
      end;
  ks_user : supervisor_half (phys m') (current_pml4 m');
  ks_frame : forall a, (forall t p, T' !! t = Some p -> ~ (t <= a < t + 4096)) ->
    rb (phys m') a = rb (phys m) a;
}.

(** The new root: the state [m1] after the loop that copies the kernel half. *)
Record rooted (m : machine) (f : Z) (m1 : machine) (T1 : gmap Z (list Z)) : Prop := {
  rt_root : current_pml4 m1 = f;
  rt_wf : pt_wf m1 T1;
  rt_pmm : pmm_wf (pmm m1);
  rt_base : managed_base (pmm m1) = managed_base (pmm m);
  rt_total : total_pages (pmm m1) = total_pages (pmm m);
  rt_free : free_frames (pmm m1) ⊆ free_frames (pmm m);
  rt_size : size_free m = S (size_free m1);
  rt_rest : g_hhdm_offset m1 = g_hhdm_offset m /\ g_memmap m1 = g_memmap m;
  rt_lookup : forall va, pt_lookup (phys m1) f (pt_path va)
    = if decide (256 <= PML4_INDEX va)
      then pt_lookup (phys m) (Z.land (cr3 m) PAGE_MASK) (pt_path va) else None;
  rt_user : supervisor_half (phys m1) f;
  rt_frame : forall a, ~ (f <= a < f + 4096) -> rb (phys m1) a = rb (phys m) a;
}.

Lemma new_root_run m T : loader_tables m T -> (1 <= size_free m)%nat ->
  exists f ma m1 T1, alloc_table m = Ret f ma /\
    copy_upper_half f (Z.land (cr3 m) PAGE_MASK) (set_pml4 f ma) = Ret tt m1 /\ rooted m f m1 T1.
Proof.
  intros H Hfree. set (old := Z.land (cr3 m) PAGE_MASK).
  destruct (alloc_table_cases m (lt_pmm _ _ H) (lt_base _ _ H)) as [(k & s1 & Hk & Hz & E)|[E0 _]].
  2:{ exfalso. unfold size_free in Hfree. rewrite E0, size_empty in Hfree. lia. }
  set (f := managed_base (pmm m) + k * PAGE_SIZE) in *.
  destruct (new_root_frame m T H k Hk) as [Hf52 Hfa]. fold f in Hf52, Hfa.
  pose proof (T_root _ _ (lt_wf _ _ H)) as Hr. change (T !! old = Some []) in Hr.
  pose proof (T_frame _ _ (lt_wf _ _ H) _ _ Hr) as [_ Hra].
  pose proof (new_root_fresh m T H k Hk) as Hfr. fold f in Hfr.
  set (ma := set_phys s1 (set_pmm (take_frame (pmm m) k) m)) in *.
  destruct (copy_upper_half_run (set_pml4 f ma) f old Hfa Hra) as (s' & Ec & He & Hrest); [congruence|].
  exists f, ma, (set_phys s' (set_pml4 f ma)), (shared_tables f T).
  split; [exact E|]. split; [exact Ec|].
  split.
  - reflexivity.
  - exact (new_root_wf m T H k Hk s1 s' Hz He).
  - exact (take_frame_wf (pmm m) (lt_pmm _ _ H) k).
  - reflexivity.
  - reflexivity.
  - cbn. rewrite free_frames_take by (apply H || apply Hk). apply subseteq_difference_l. reflexivity.
  - unfold size_free. cbn. rewrite free_frames_take by (apply H || apply Hk).
    rewrite size_difference by (apply singleton_subseteq_l, elem_of_free_frames, Hk).
    rewrite size_singleton. unfold size_free in Hfree. lia.
  - split; reflexivity.
  - exact (new_root_lookup m T H k Hk s1 s' Hz He).
  - intros j Hj. cbn [phys set_phys]. rewrite (new_root_entry m T H k Hk s1 s' Hz He) by lia.
    by rewrite decide_False by lia.
  - intros a Ha. cbn [phys set_phys]. rewrite Hrest by done.
    change (phys (set_pml4 f ma)) with s1. rewrite Hz. clear -Ha.
    destruct (Z.leb_spec f a), (Z.ltb_spec a (f + 4096)); cbn [andb]; [exfalso; lia|reflexivity..].
Qed.

(** The direct map lies in the kernel half and reaches all managed memory. *)
Record hhdm_ok (m : machine) : Prop := {
  hh_low : 2 ^ 64 - 2 ^ 47 <= g_hhdm_offset m;
  hh_page : g_hhdm_offset m mod 4096 = 0;
  hh_total : 0 < total_pages (pmm m);
  hh_end : g_hhdm_offset m + managed_base (pmm m) + total_pages (pmm m) * 4096 <= 2 ^ 64;
}.

(** The loop over the bitmap. *)
Lemma bitmap_loop_run m : pmm_wf (pmm m) -> hhdm_ok m ->
  let p := pmm m in
  (kwhen (negb (u64 (g_hhdm_offset m + managed_base p) =? NULL) && negb (pmm_bitmap_size p =? 0))
     (bitmap_physical ← virtual_to_physical (u64 (g_hhdm_offset m + managed_base p));
      kfor (Z.to_nat ((pmm_bitmap_size p + PAGE_SIZE_VMM - 1) / PAGE_SIZE_VMM)) 0 (fun k =>
        let i := k * PAGE_SIZE_VMM in
        vmm_map (u64 (bitmap_physical + g_hhdm_offset m + i)) (bitmap_physical + i) VMM_WRITE))) m
  = map_all (bitmap_list (g_hhdm_offset m) p) m.
Proof.
  intros Hp [Ho _ Ht He]. cbv zeta. pose proof (wf_base _ Hp) as [Hb _].
  change (2 ^ 64 - 2 ^ 47) with 18446603336221196288 in Ho. change (2 ^ 64) with 18446744073709551616 in He.
  assert (Hw : u64 (g_hhdm_offset m + managed_base (pmm m)) = g_hhdm_offset m + managed_base (pmm m)).
  { apply wrap_small. change (2 ^ 64) with 18446744073709551616. lia. }
  rewrite Hw. destruct (Z.eqb_spec (g_hhdm_offset m + managed_base (pmm m)) NULL) as [E|_];
    [unfold NULL in E; lia|]. cbn [negb andb].
  unfold bitmap_list. destruct (Z.eqb_spec (pmm_bitmap_size (pmm m)) 0) as [E|_]; cbn [negb kwhen].
  - rewrite E. done.
  - rewrite (kbind_ret _ _ m (managed_base (pmm m)) m).
    + apply (kfor_map_all _ 0 (fun i => u64 (managed_base (pmm m) + g_hhdm_offset m + i * PAGE_SIZE_VMM))
               (fun i => managed_base (pmm m) + i * PAGE_SIZE_VMM)).
    + unfold virtual_to_physical. krun. f_equal.
      replace (g_hhdm_offset m + managed_base (pmm m) - g_hhdm_offset m) with (managed_base (pmm m)) by lia.
      apply wrap_small. change (2 ^ 64) with 18446744073709551616. lia.
Qed.

Lemma bitmap_size_eq p q : pmm_wf p -> pmm_wf q -> total_pages p = total_pages q ->
  pmm_bitmap_size p = pmm_bitmap_size q.
Proof. intros Hp Hq E. by rewrite (wf_size _ Hp), (wf_size _ Hq), E. Qed.

Lemma bitmap_list_eq off p q : pmm_wf p -> pmm_wf q -> total_pages p = total_pages q ->
  managed_base p = managed_base q -> bitmap_list off p = bitmap_list off q.
Proof. intros Hp Hq E1 E2. unfold bitmap_list. by rewrite (bitmap_size_eq p q Hp Hq E1), E2. Qed.

Lemma loader_tables_con c m T : loader_tables m T -> loader_tables (set_con c m) T.
Proof. intros [[] ? ?]. split; [by split|done|done]. Qed.

Lemma pt_wf_cr3 m T c es : pt_wf m T -> pt_wf (set_con es (set_cr3 c m)) T.
Proof. intros []. by split. Qed.

Lemma init_vmm_run m T entries r :
  loader_tables m T -> g_memmap m = Some entries -> hhdm_ok m ->
  (S (size (tables_of (boot_list m entries))) + r <= size_free m)%nat ->
  exists m' T', init_vmm m = Ret tt m' /\ kernel_space m (boot_list m entries) m' T' /\
    (r <= size_free m')%nat.
Proof.
  intros H Hmap Hh Hfree. set (l := boot_list m entries) in *.
  set (mp := set_con (con m ++ [Print "VMM..."]) m).
  destruct (new_root_run mp T (loader_tables_con _ _ _ H)) as (f & ma & m1 & T1 & Ea & Ec & R);
    [change (size_free mp) with (size_free m); lia|].
  destruct R. change (pmm mp) with (pmm m) in *. change (size_free mp) with (size_free m) in *.
  destruct rt_rest0 as [Eo Em1]. change (g_hhdm_offset mp) with (g_hhdm_offset m) in Eo.
  change (g_memmap mp) with (g_memmap m) in Em1. rewrite Hmap in Em1.
  assert (Hb1 : 0 < managed_base (pmm m1)) by (rewrite rt_base0; apply H).
  assert (Hen : enough (tables_of l) r m1).
  { unfold enough.
    assert (size (missing (tables_of l) m1) <= size (tables_of l))%nat
      by (apply subseteq_size; intros p [_ Hp]%elem_of_filter; exact Hp). lia. }
  assert (Hin : forall v p, (v, p) ∈ l -> prefixes v ⊆ tables_of l) by (intros v p; apply tables_of_prefixes).
  destruct (map_all_run (tables_of l) r (identity_list entries) m1 T1) as (mi & Ti & Ei & Ri & Si);
    [exact rt_wf0|exact rt_pmm0|exact Hb1|apply tables_of_ok| |exact Hen|].
  { intros v p Hvp. apply (Hin v p). apply elem_of_app. by left. }
  pose proof (rm_rest _ _ _ _ _ Ri) as (Eoi & _ & _ & _).
  assert (Hhi : hhdm_ok mi).
  { destruct Hh. split; rewrite ?Eoi, ?Eo, ?(rm_base _ _ _ _ _ Ri), ?(rm_total _ _ _ _ _ Ri), ?rt_base0, ?rt_total0;
      assumption. }
  assert (Ebl : bitmap_list (g_hhdm_offset mi) (pmm mi) = bitmap_list (g_hhdm_offset m) (pmm m)).
  { rewrite Eoi, Eo. apply bitmap_list_eq; [apply Ri|apply H| |].
    - by rewrite (rm_total _ _ _ _ _ Ri), rt_total0.
    - by rewrite (rm_base _ _ _ _ _ Ri), rt_base0. }
  pose proof (bitmap_loop_run mi (rm_pmm _ _ _ _ _ Ri) Hhi) as Eb. cbv zeta in Eb. rewrite Ebl in Eb.
  destruct (map_all_run (tables_of l) r (bitmap_list (g_hhdm_offset m) (pmm m)) mi Ti)
    as (m2 & T2 & E2 & R2 & S2);
    [apply Ri|apply Ri|by rewrite (rm_base _ _ _ _ _ Ri)|apply tables_of_ok| |exact Si|].
  { intros v p Hvp. apply (Hin v p). apply elem_of_app. by right. }
  assert (R12 : remapped m1 T1 l m2 T2) by exact (remapped_app _ _ _ _ _ _ _ _ Ri R2). rewrite E2 in Eb.
  rewrite <- identity_map_all_list in Ei.
  assert (Hroot : Z.land (current_pml4 m2) PAGE_MASK = current_pml4 m2).
  { pose proof (T_root _ _ (rm_wf _ _ _ _ _ R12)) as Hr.
    destruct (T_frame _ _ (rm_wf _ _ _ _ _ R12) _ _ Hr). by apply land_mask_frame. }
  exists (put_events ok_events (set_cr3 (current_pml4 m2) m2)), T2. split; [|split].
  - unfold init_vmm. rewrite (kbind_ret _ _ m tt mp) by reflexivity.
    rewrite (kbind_ret _ _ mp (cr3 m) mp) by reflexivity. cbv beta zeta.
    rewrite (kbind_ret _ _ _ _ _ Ea). rewrite (kbind_ret _ _ ma tt (set_pml4 f ma)) by reflexivity.
    rewrite (kbind_ret _ _ _ _ _ Ec). rewrite (kbind_ret _ _ m1 (Some entries) m1) by (unfold kasks; by rewrite Em1).
    cbv beta. rewrite (kbind_ret _ _ m1 entries m1) by reflexivity.
    rewrite (kbind_ret _ _ _ _ _ Ei). rewrite (kbind_ret _ _ mi (pmm mi) mi) by reflexivity.
    cbv beta. rewrite (kbind_ret _ _ mi (g_hhdm_offset mi) mi) by reflexivity. cbv beta zeta.
    rewrite (kbind_ret _ _ _ _ _ Eb). rewrite (kbind_ret _ _ m2 (current_pml4 m2) m2) by reflexivity.
    unfold vmm_load_cr3. krun. rewrite Hroot.
    assert (Eself : set_pml4 (current_pml4 m2) m2 = m2) by (clear; by destruct m2).
    by rewrite Eself, kok_run.
  - rewrite machine_put_events. set (m3 := set_con _ _).
    split.
    + apply pt_wf_cr3, R12.
    + apply R12.
    + reflexivity.
    + change (pmm m3) with (pmm m2). by rewrite (rm_base _ _ _ _ _ R12).
    + change (pmm m3) with (pmm m2). by rewrite (rm_total _ _ _ _ _ R12).
    + change (pmm m3) with (pmm m2). etrans; [apply R12|exact rt_free0].
    + pose proof (rm_rest _ _ _ _ _ R12) as (E3 & _ & _ & E4).
      change (g_hhdm_offset m3) with (g_hhdm_offset m2). change (g_memmap m3) with (g_memmap m2).
      rewrite E3, E4, Eo, Em1, Hmap. split; reflexivity.
    + intros va. change (phys m3) with (phys m2). change (current_pml4 m3) with (current_pml4 m2).
      rewrite (rm_root _ _ _ _ _ R12), (rm_lookup _ _ _ _ _ R12).
      clear -rt_lookup0 rt_root0. clearbody l.
      destruct (target l va) as [p|]; [reflexivity|]. rewrite rt_root0. apply rt_lookup0.
    + change (phys m3) with (phys m2). change (current_pml4 m3) with (current_pml4 m2).
      apply (rm_user _ _ _ _ _ R12). rewrite rt_root0. exact rt_user0.
    + intros a Ha. change (phys m3) with (phys m2). rewrite (rm_frame _ _ _ _ _ R12) by exact Ha.
      apply rt_frame0. intros Hf. apply (Ha f []); [|exact Hf].
      eapply lookup_weaken; [|apply R12]. rewrite <- rt_root0. apply (T_root _ _ rt_wf0).
  - rewrite machine_put_events. change (size_free (set_con _ _)) with (size_free m2).
    unfold enough in S2. lia.
Qed.

(** ** Addresses and targets *)

Lemma target_None l va : (forall v p, (v, p) ∈ l -> pt_path va <> pt_path v) -> target l va = None.
Proof.
  induction l as [|[v p] l IH]; intros Hl; [done|]. cbn [target].
  rewrite IH by (intros v' p' Hin; apply (Hl v' p'); by apply list_elem_of_further).
  rewrite decide_False; [done|]. apply (Hl v p), list_elem_of_here.
Qed.

Lemma target_Some l va v p : (v, p) ∈ l -> pt_path va = pt_path v ->
  (forall v' p', (v', p') ∈ l -> pt_path va = pt_path v' -> p' = p) -> target l va = Some p.
Proof.
  induction l as [|[v0 p0] l IH]; intros Hin Hv Hl; [by apply elem_of_nil in Hin|]. cbn [target].
  assert (Hr : target l va = Some p \/ target l va = None).
  { clear IH Hin. assert (Hl' : forall v' p', (v', p') ∈ l -> pt_path va = pt_path v' -> p' = p)
      by (intros v' p' Hin; apply (Hl v' p'); by apply list_elem_of_further).
    clear Hl. induction l as [|[v1 p1] l IH]; [by right|]. cbn [target].
    destruct IH as [-> | ->]; [intros v' p' Hin; apply (Hl' v' p'); by apply list_elem_of_further|by left|].
    case_decide as E; [|by right]. left. f_equal. apply (Hl' v1 p1); [apply list_elem_of_here|done]. }
  destruct Hr as [-> |Hn]; [done|]. rewrite Hn.
  apply elem_of_cons in Hin as [[= -> ->]|Hin]; [by rewrite decide_True|].
  rewrite IH in Hn; [done|done|done|]. intros v' p' Hin'. apply (Hl v' p'). by apply list_elem_of_further.
Qed.

Lemma path_page a b : - 2 ^ 47 <= a - b <= 2 ^ 47 -> pt_path a = pt_path b -> page_of a = page_of b.
Proof.
  intros Ha E%pt_path_page. unfold page_of. change (2 ^ 47) with 140737488355328 in *.
  change (2 ^ 36) with 68719476736 in E. zdiv.
Qed.

Lemma low_index a : 0 <= a < 2 ^ 47 -> PML4_INDEX a < 256.
Proof.
  intros. unfold PML4_INDEX. rewrite index_div by lia. change (2 ^ 47) with 140737488355328 in *.
  change (2 ^ 39) with 549755813888. zdiv.
Qed.

Lemma high_index a : 2 ^ 64 - 2 ^ 47 <= a < 2 ^ 64 -> 256 <= PML4_INDEX a.
Proof.
  intros. unfold PML4_INDEX. rewrite index_div by lia. change (2 ^ 64) with 18446744073709551616 in *.
  change (2 ^ 47) with 140737488355328 in *. change (2 ^ 39) with 549755813888. zdiv.
Qed.

Lemma low_high_path a b : 0 <= a < 2 ^ 47 -> 256 <= PML4_INDEX b -> pt_path a <> pt_path b.
Proof. intros Ha Hb [= E _ _ _]. pose proof (low_index a Ha). lia. Qed.

(** A page's entry and the offset in it. *)
Lemma pte_address p va : 0 <= p < 2 ^ 52 -> p mod 4096 = 0 ->
  Z.lor (Z.land (pte_value p VMM_WRITE) PAGE_MASK) (Z.land va (PAGE_SIZE_VMM - 1)) = p + va mod 4096.
Proof.
  intros Hp Hpa. destruct (link_value_spec p) as (_ & _ & ->). rewrite land_mask_frame by done.
  change (PAGE_SIZE_VMM - 1) with (Z.ones 12). rewrite Z.land_ones by lia. change (2 ^ 12) with 4096.
  symmetry. apply Z.add_nocarry_lor. apply Z.bits_inj'. intros n Hn. rewrite Z.land_spec, Z.bits_0.
  destruct (Z.lt_ge_cases n 12).
  - replace p with (p / 2 ^ 12 * 2 ^ 12) by (change (2 ^ 12) with 4096; zdiv).
    by rewrite Z.mul_pow2_bits_low by lia.
  - change 4096 with (2 ^ 12). rewrite Z.mod_pow2_bits_high by lia. apply andb_false_r.
Qed.

(** What Limine documents for the usable entries, on a machine whose memory
    ends below 2^47. *)
Definition low_regions (entries : list memmap_entry) : Prop :=
  forall e, e ∈ entries -> me_type e = LIMINE_MEMMAP_USABLE ->
    0 <= me_base e /\ me_base e mod 4096 = 0 /\ 0 <= me_length e /\ me_length e mod 4096 = 0 /\
    me_base e + me_length e <= 2 ^ 47.

Lemma identity_pages_elem e v p :
  0 <= me_base e /\ me_base e mod 4096 = 0 /\ 0 <= me_length e /\ me_length e mod 4096 = 0 /\
    me_base e + me_length e <= 2 ^ 47 ->
  (v, p) ∈ identity_pages e <->
  p = v /\ v mod 4096 = 0 /\ me_base e <= v < me_base e + me_length e.
Proof.
  intros (H1 & H2 & H3 & H4 & H5). unfold identity_pages, PAGE_SIZE_VMM.
  change (2 ^ 47) with 140737488355328 in *.
  rewrite (wrap_small 64 (me_base e + me_length e)) by (change (2 ^ 64) with 18446744073709551616; lia).
  replace (me_base e + me_length e - me_base e + 4096 - 1) with (me_length e + 4095) by lia.
  rewrite list_elem_of_fmap. split.
  - intros (k & [= -> ->] & Hk%elem_of_seq). split; [done|]. split; zdiv.
  - intros (-> & Hv & Hr). exists (Z.to_nat ((v - me_base e) / 4096)). split.
    + f_equal; zdiv.
    + apply elem_of_seq. zdiv.
Qed.

Lemma identity_list_elem entries v p : low_regions entries ->
  (v, p) ∈ identity_list entries <->
  p = v /\ v mod 4096 = 0 /\ exists e, e ∈ entries /\ me_type e = LIMINE_MEMMAP_USABLE /\
    me_base e <= v < me_base e + me_length e.
Proof.
  induction entries as [|e r IH]; intros Hl; cbn [identity_list].
  { split; [by intros ?%elem_of_nil|]. by intros (_ & _ & e & ?%elem_of_nil & _). }
  rewrite elem_of_app, IH by (intros e' He'; apply Hl; by apply list_elem_of_further).
  destruct (Z.eqb_spec (me_type e) LIMINE_MEMMAP_USABLE) as [Hu|Hu].
  - rewrite identity_pages_elem by (apply Hl; [apply list_elem_of_here|done]). split.
    + intros [(-> & ? & ?)|(-> & ? & e' & ? & ? & ?)]; (split; [done|]; split; [done|]).
      * exists e. split_and!; [apply list_elem_of_here|done|lia|lia].
      * exists e'. split_and!; [by apply list_elem_of_further|done|lia|lia].
    + intros (-> & ? & e' & [-> |?]%elem_of_cons & ? & ?); [by left|right].
      split; [done|]. split; [done|]. by exists e'.
  - split.
    + intros [[]%elem_of_nil|(-> & ? & e' & ? & ? & ?)]. split; [done|]. split; [done|].
      exists e'. split_and!; [by apply list_elem_of_further|done|lia|lia].
    + intros (-> & ? & e' & [-> |?]%elem_of_cons & ? & ?); [done|right].
      split; [done|]. split; [done|]. by exists e'.
Qed.

Lemma bitmap_list_elem m v p : pmm_wf (pmm m) -> hhdm_ok m ->
  (v, p) ∈ bitmap_list (g_hhdm_offset m) (pmm m) <->
  v = g_hhdm_offset m + p /\ p mod 4096 = 0 /\
  managed_base (pmm m) <= p < managed_base (pmm m) + pmm_bitmap_size (pmm m).
Proof.
  intros Hp [Ho _ Ht He]. pose proof (wf_base _ Hp) as [Hb Hba]. pose proof (wf_size _ Hp) as Hs.
  change (2 ^ 64 - 2 ^ 47) with 18446603336221196288 in Ho. change (2 ^ 64) with 18446744073709551616 in He.
  unfold PAGE_SIZE in Hba. unfold bitmap_list, PAGE_SIZE_VMM. rewrite list_elem_of_fmap.
  assert (Hw : forall k, 0 <= k * 4096 < pmm_bitmap_size (pmm m) ->
    u64 (managed_base (pmm m) + g_hhdm_offset m + k * 4096) = g_hhdm_offset m + (managed_base (pmm m) + k * 4096)).
  { intros k Hk. rewrite wrap_small; [lia|]. change (2 ^ 64) with 18446744073709551616. zdiv. }
  split.
  - intros (k & [= -> ->] & Hk%elem_of_seq). rewrite Hw by zdiv. split; [done|]. split; zdiv.
  - intros (-> & Hpa & Hr). exists (Z.to_nat ((p - managed_base (pmm m)) / 4096)).
    assert (E : Z.of_nat (Z.to_nat ((p - managed_base (pmm m)) / 4096)) * 4096 = p - managed_base (pmm m)) by zdiv.
    split; [rewrite Hw by lia; f_equal; lia|]. apply elem_of_seq. zdiv.
Qed.

Section boot_targets.
Context (m : machine) (entries : list memmap_entry).
Context (Hp : pmm_wf (pmm m)) (Hh : hhdm_ok m) (Hl : low_regions entries).

(** The two kinds of mappings never meet. *)
Lemma boot_list_elem v p : (v, p) ∈ boot_list m entries <->
  (p = v /\ v mod 4096 = 0 /\ exists e, e ∈ entries /\ me_type e = LIMINE_MEMMAP_USABLE /\
    me_base e <= v < me_base e + me_length e) \/
  (v = g_hhdm_offset m + p /\ p mod 4096 = 0 /\
    managed_base (pmm m) <= p < managed_base (pmm m) + pmm_bitmap_size (pmm m)).
Proof. unfold boot_list. by rewrite elem_of_app, identity_list_elem, bitmap_list_elem. Qed.

Lemma identity_low v e : e ∈ entries -> me_type e = LIMINE_MEMMAP_USABLE ->
  me_base e <= v < me_base e + me_length e -> 0 <= v < 2 ^ 47.
Proof. intros He Hu Hv. pose proof (Hl e He Hu). lia. Qed.

Lemma bitmap_high p : managed_base (pmm m) <= p < managed_base (pmm m) + pmm_bitmap_size (pmm m) ->
  256 <= PML4_INDEX (g_hhdm_offset m + p).
Proof.
  intros Hr. pose proof (wf_base _ Hp) as [Hb _]. pose proof (wf_size _ Hp) as Hs. destruct Hh.
  apply high_index. zdiv.
Qed.

Lemma bitmap_span p q :
  managed_base (pmm m) <= p < managed_base (pmm m) + pmm_bitmap_size (pmm m) ->
  managed_base (pmm m) <= q < managed_base (pmm m) + pmm_bitmap_size (pmm m) ->
  - 2 ^ 47 <= p - q <= 2 ^ 47.
Proof.
  intros Hr1 Hr2. pose proof (wf_base _ Hp) as [Hb _]. pose proof (wf_size _ Hp) as Hs. destruct Hh.
  change (2 ^ 64 - 2 ^ 47) with 18446603336221196288 in *. change (2 ^ 64) with 18446744073709551616 in *.
  change (2 ^ 47) with 140737488355328. zdiv.
Qed.

Lemma page_of_bounds a : page_of a mod 4096 = 0 /\ page_of a <= a < page_of a + 4096.
Proof. unfold page_of. split; zdiv. Qed.

(** A usable page is mapped to itself. *)
Lemma boot_target_usable e va : e ∈ entries -> me_type e = LIMINE_MEMMAP_USABLE ->
  me_base e <= va < me_base e + me_length e -> target (boot_list m entries) va = Some (page_of va).
Proof.
  intros He Hu Hva. pose proof (identity_low va e He Hu Hva) as Hlow.
  destruct (page_of_bounds va) as [Ha Hb]. destruct (Hl e He Hu) as (? & ? & ? & ? & ?).
  assert (Hpv : me_base e <= page_of va < me_base e + me_length e) by (unfold page_of in *; zdiv).
  apply (target_Some _ _ (page_of va)).
  - apply boot_list_elem. left. split; [done|]. split; [done|]. by exists e.
  - apply same_page_path. unfold page_of. zdiv.
  - intros v p Hin E. apply boot_list_elem in Hin as [(-> & Hv & e' & He' & Hu' & Hv')|(-> & Hpa & Hr)].
    + apply path_page in E; [unfold page_of in *; zdiv|].
      pose proof (identity_low v e' He' Hu' Hv'). change (2 ^ 47) with 140737488355328 in *. lia.
    + exfalso. by apply (low_high_path va (g_hhdm_offset m + p) Hlow (bitmap_high p Hr)).
Qed.

(** The bitmap is reached through the direct map. *)
Lemma boot_target_bitmap i : 0 <= i < pmm_bitmap_size (pmm m) ->
  target (boot_list m entries) (g_hhdm_offset m + managed_base (pmm m) + i)
  = Some (page_of (managed_base (pmm m) + i)).
Proof.
  intros Hi. set (q := managed_base (pmm m) + i).
  replace (g_hhdm_offset m + managed_base (pmm m) + i) with (g_hhdm_offset m + q) by (unfold q; lia).
  destruct (page_of_bounds q) as [Ha Hb]. pose proof (wf_base _ Hp) as [_ Hba]. unfold PAGE_SIZE in Hba.
  assert (Hq : managed_base (pmm m) <= page_of q < managed_base (pmm m) + pmm_bitmap_size (pmm m))
    by (unfold page_of, q in *; zdiv).
  assert (Hq' : managed_base (pmm m) <= q < managed_base (pmm m) + pmm_bitmap_size (pmm m)) by (unfold q; lia).
  pose proof (hh_page _ Hh) as Ho.
  apply (target_Some _ _ (g_hhdm_offset m + page_of q)).
  - apply boot_list_elem. right. split; [reflexivity|]. split; [exact Ha|exact Hq].
  - apply same_page_path. unfold page_of. zdiv.
  - intros v p Hin E. apply boot_list_elem in Hin as [(-> & Hv & e' & He' & Hu' & Hv')|(-> & Hpa & Hr)].
    + exfalso. apply (low_high_path v (g_hhdm_offset m + q) (identity_low v e' He' Hu' Hv') (bitmap_high q Hq')).
      by symmetry.
    + apply path_page in E; [unfold page_of in *; zdiv|].
      pose proof (bitmap_span q p Hq' Hr). lia.
Qed.

(** Other low addresses are not mapped. *)
Lemma boot_target_unusable va : 0 <= va < 2 ^ 47 ->
  (forall e, e ∈ entries -> me_type e = LIMINE_MEMMAP_USABLE -> ~ (me_base e <= va < me_base e + me_length e)) ->
  target (boot_list m entries) va = None.
Proof.
  intros Hva Hn. apply target_None. intros v p Hin E.
  apply boot_list_elem in Hin as [(-> & Hv & e' & He' & Hu' & Hv')|(-> & Hpa & Hr)].
  - apply path_page in E.
    + apply (Hn e' He' Hu'). destruct (Hl e' He' Hu') as (? & ? & ? & ? & ?). unfold page_of in E. zdiv.
    + pose proof (identity_low v e' He' Hu' Hv'). change (2 ^ 47) with 140737488355328 in *. lia.
  - by apply (low_high_path va (g_hhdm_offset m + p) Hva (bitmap_high p Hr)).
Qed.

(** Addresses of the kernel half outside the bitmap keep the loader's mapping. *)
Lemma boot_target_kernel va : 256 <= PML4_INDEX va ->
  (forall i, 0 <= i < pmm_bitmap_size (pmm m) ->
     pt_path va <> pt_path (g_hhdm_offset m + managed_base (pmm m) + i)) ->
  target (boot_list m entries) va = None.
Proof.
  intros Hva Hn. apply target_None. intros v p Hin E.
  apply boot_list_elem in Hin as [(-> & Hv & e' & He' & Hu' & Hv')|(-> & Hpa & Hr)].
  - symmetry in E. by apply (low_high_path v va (identity_low v e' He' Hu' Hv') Hva).
  - apply (Hn (p - managed_base (pmm m))); [lia|]. rewrite E. f_equal. lia.
Qed.
End boot_targets.

(** What [vmm_resolve] answers in the new address space. *)
Lemma kernel_space_resolve m l m' T' va : kernel_space m l m' T' ->
  vmm_resolve va m' = Ret
    match target l va with
    | Some p => Z.lor (Z.land (pte_value p VMM_WRITE) PAGE_MASK) (Z.land va (PAGE_SIZE_VMM - 1))
    | None => if decide (256 <= PML4_INDEX va)
              then resolve (set_pml4 (Z.land (cr3 m) PAGE_MASK) m) va else 0
    end m'.
Proof.
  intros K. rewrite vmm_resolve_run. f_equal. unfold resolve. rewrite (ks_lookup _ _ _ _ K).
  destruct (target l va); [done|]. by case_decide.
Qed.

(** ** Properties *)


(** ** The invariant of the memory managers holds *)

(** The loader left the heap's window alone, and the bitmap does not reach into
    it: with the direct map at its usual place this holds on machines with
    less than 256 MiB of memory. *)
Record window_free (m : machine) : Prop := {
  wi_hhdm : g_hhdm_offset m = 2 ^ 64 - 2 ^ 47;
  wi_end : managed_base (pmm m) + total_pages (pmm m) * PAGE_SIZE <= 2 ^ 47;
  wi_heap : forall va, heap_va va ->
    pt_lookup (phys m) (Z.land (cr3 m) PAGE_MASK) (pt_path va) = None;
  wi_bitmap : managed_base (pmm m) + pmm_bitmap_size (pmm m) <= HEAP_START - g_hhdm_offset m;
}.

Lemma heap_index va : heap_va va -> 256 <= PML4_INDEX va.
Proof.
  unfold heap_va, HEAP_END, HEAP_START. intros. apply high_index. change (2 ^ 38) with 274877906944 in *.
  change (2 ^ 64) with 18446744073709551616. change (2 ^ 47) with 140737488355328. lia.
Qed.

Lemma kernel_space_inv m T entries m' T' :
  loader_tables m T -> hhdm_ok m -> low_regions entries -> window_free m ->
  kernel_space m (boot_list m entries) m' T' -> exists T2, vm_inv m' T2.
Proof.
  intros H Hh Hl [Ho He Hw Hb] K. pose proof (lt_pmm _ _ H) as Hp.
  assert (Hno : forall va, heap_va va -> frame_of m' va = None).
  { intros va Hva. unfold frame_of, leaf. rewrite (ks_lookup _ _ _ _ K).
    rewrite (boot_target_kernel m entries Hp Hh Hl va (heap_index va Hva)).
    - rewrite decide_True by (by apply heap_index). by rewrite Hw.
    - intros i Hi E. apply path_page in E; unfold heap_va, HEAP_END, HEAP_START, page_of in *;
        change (2 ^ 38) with 274877906944 in *; change (2 ^ 64 - 2 ^ 47) with 18446603336221196288 in *;
        change (2 ^ 47) with 140737488355328 in *;
        rewrite Ho in *; pose proof (wf_base _ Hp) as [Hb0 _].
      + pose proof (hh_page _ Hh). zdiv.
      + lia. }
  destruct (prune m' T' (ks_wf _ _ _ _ K)) as (T2 & Hsub & Hwf & Hr).
  exists T2. pose proof (ks_rest _ _ _ _ K) as [Eo _]. split.
  - exact Hwf.
  - exact Hr.
  - apply K.
  - rewrite (ks_base _ _ _ _ K). apply H.
  - by rewrite (ks_base _ _ _ _ K), (ks_total _ _ _ _ K).
  - rewrite Eo, Ho. vm_compute. split; congruence.
  - intros va f Hva Hf. by rewrite Hno in Hf.
  - intros va va' f Hva _ Hf. by rewrite Hno in Hf.
Qed.

(** ** Witnesses *)

(** The demonstration machine under a loader whose root table is empty. *)
Definition demo_loader : machine := set_cr3 0x101000 demo_vmm.

Lemma loader_tables_intro m T c : pt_wf m T -> pmm_wf (pmm m) -> 0 < managed_base (pmm m) ->
  Z.land c PAGE_MASK = current_pml4 m -> loader_tables (set_cr3 c m) T.
Proof. intros [] ? ? E. split; [|done|done]. change (cr3 (set_cr3 c m)) with c. rewrite E. by split. Qed.

Lemma demo_loader_tables : loader_tables demo_loader demo_tables.
Proof.
  exact (loader_tables_intro demo_vmm demo_tables 0x101000 demo_vmm_wf demo_vmm_pmm
           ltac:(vm_compute; reflexivity) ltac:(vm_compute; reflexivity)).
Qed.

Lemma demo_loader_hhdm : hhdm_ok demo_loader.
Proof. split; vm_compute; try reflexivity; congruence. Qed.

Lemma demo_low_regions : low_regions demo_memmap.
Proof.
  intros e He Hu. unfold demo_memmap in He. rewrite !elem_of_cons in He.
  destruct He as [->|[->|[->|[]%elem_of_nil]]]; [done| |];
    (split_and!; first [reflexivity|vm_compute; congruence]).
Qed.

Lemma demo_loader_frames :
  (S (size (tables_of (boot_list demo_loader demo_memmap))) + 54 <= size_free demo_loader)%nat.
Proof. change (size_free demo_loader) with 62%nat. vm_compute. lia. Qed.

