(* ===== verification/VmmAccess.v ===== *)
(** * Access from ring 3 (vmm.c)

    What the processor demands of the page tables before a program in ring 3
    may touch a page, and that no sequence of calls of the virtual memory
    manager ever grants it in the lower half of the addresses: [walk] links the
    tables it makes without [VMM_USER]. *)

From S2P Require Import Prelude Bytes MemLib Console Machine Pmm Vmm Pages VmmInit.
Local Open Scope Z_scope.

(** ** The processor's check

    An access from ring 3 needs the present and the user bit in every entry of
    the walk (Intel SDM, access rights); a set page-size bit at the second or
    third level ends the walk. *)
Definition user_entry (e : Z) : bool := present e && negb (Z.land e VMM_USER =? 0).

Definition mmu_user (s : mem) (root va : Z) : bool :=
  let e4 := entry s root (PML4_INDEX va) in
  if negb (user_entry e4) then false else
  let e3 := entry s (Z.land e4 PAGE_MASK) (PDPT_INDEX va) in
  if negb (user_entry e3) then false else
  if negb (Z.land e3 VMM_HUGE =? 0) then true else
  let e2 := entry s (Z.land e3 PAGE_MASK) (PD_INDEX va) in
  if negb (user_entry e2) then false else
  if negb (Z.land e2 VMM_HUGE =? 0) then true else
  user_entry (entry s (Z.land e2 PAGE_MASK) (PT_INDEX va)).

Lemma supervisor_half_closed s root va : supervisor_half s root -> 0 <= va < 2 ^ 47 -> mmu_user s root va = false.
Proof.
  intros Hs Hva. pose proof (index_range va 39) as Hi. fold (PML4_INDEX va) in Hi.
  pose proof (low_index va Hva). unfold mmu_user, user_entry. cbv zeta.
  rewrite (Hs (PML4_INDEX va)) by lia. by rewrite Z.eqb_refl, andb_false_r.
Qed.

(** ** Sequences of calls *)

Inductive page_op :=
  | Map (va pa flags : Z)
  | Unmap (va : Z).

Definition run_op (o : page_op) : K machine unit :=
  match o with
  | Map va pa flags => vmm_map va pa flags
  | Unmap va => vmm_unmap va
  end.

Fixpoint run_ops (l : list page_op) : K machine unit :=
  match l with
  | [] => mret tt
  | o :: l => run_op o;; run_ops l
  end.

(** The flags of a mapping are flags, not frame bits. *)
Definition op_ok (o : page_op) : Prop :=
  match o with
  | Map _ _ flags => 0 <= flags < 2 ^ 64 /\ Z.land flags PAGE_MASK = 0
  | Unmap _ => True
  end.

(** What the calls keep. *)
Record closed (m : machine) (T : gmap Z (list Z)) : Prop := {
  cl_wf : pt_wf m T;
  cl_pmm : pmm_wf (pmm m);
  cl_base : 0 < managed_base (pmm m);
  cl_user : supervisor_half (phys m) (current_pml4 m);
}.

Lemma vmm_unmap_user m T va m' : pt_wf m T -> vmm_unmap va m = Ret tt m' ->
  supervisor_half (phys m) (current_pml4 m) -> supervisor_half (phys m') (current_pml4 m').
Proof.
  intros Hwf. unfold vmm_unmap. rewrite (kbind_ret _ _ _ _ _ (walk_lookup m va)).
  destruct (descend (phys m) (current_pml4 m) (take 3 (pt_path va))) as [pt|] eqn:D; [|by intros [= <-]].
  cbn [option_map]. rewrite (kbind_ret _ _ m (entry (phys m) pt (PT_INDEX va)) m) by done.
  destruct (present (entry (phys m) pt (PT_INDEX va))); [|by intros [= <-]].
  intros [= <-]. exact (leaf_user m T pt va 0 Hwf D).
Qed.

Lemma run_op_closed m T o : closed m T -> op_ok o -> (3 <= size_free m)%nat ->
  exists m' T', run_op o m = Ret tt m' /\ closed m' T' /\ (size_free m <= size_free m' + 3)%nat.
Proof.
  intros [Hwf Hp Hb Hu] Ho Hf. destruct o as [va pa flags|va]; cbn [run_op].
  - destruct Ho as [Hfl Hm]. destruct (vmm_map_run m T va pa flags Hwf Hp Hb Hfl Hm Hf) as (m' & T' & E & M).
    exists m', T'. split; [done|]. split; [|apply M].
    split; [apply M|apply M|by rewrite (mp_base _ _ _ _ _ _ _ M)|by apply (mp_user _ _ _ _ _ _ _ M)].
  - destruct (vmm_unmap_run m T va Hwf) as (m' & E & Hw & Ep & _). exists m', T. split; [done|].
    unfold size_free. rewrite Ep. split; [|lia].
    split; [done|by rewrite Ep|by rewrite Ep|by apply (vmm_unmap_user m T va)].
Qed.

Lemma run_ops_closed l : forall m T, closed m T -> Forall op_ok l -> (3 * length l <= size_free m)%nat ->
  exists m' T', run_ops l m = Ret tt m' /\ closed m' T'.
Proof.
  induction l as [|o l IH]; intros m T C Hl Hf; [by exists m, T|].
  apply Forall_cons in Hl as [Ho Hl]. cbn [length] in Hf.
  destruct (run_op_closed m T o C Ho) as (m1 & T1 & E1 & C1 & S1); [lia|].
  destruct (IH m1 T1 C1 Hl) as (m2 & T2 & E2 & C2); [lia|].
  exists m2, T2. split; [|done]. cbn [run_ops]. by rewrite (kbind_ret _ _ _ _ _ E1).
Qed.


