(* ===== verification/Kheap.v ===== *)
(** * The kernel heap (klibc/kmem/kheap.c)

    A list of blocks, each a 24-byte header ([size], [free], [next]) followed
    by its payload, laid out one after the other from [HEAP_START].  The
    operations run on any memory that offers the [Pages] interface; the
    abstract view is the list of the blocks' sizes and free flags, on which
    allocation is first fit with splitting and release is a coalescing pass. *)

From S2P Require Import Prelude Bytes MemLib Console Machine Pmm Vmm Pages.
Local Open Scope Z_scope.

(** The static variables of kheap.c and the memory they describe.
    src/klibc/kmem/kheap.c:3-4 [heap_current, free_list] *)
Record heap (S : Type) : Type := Heap {
  heap_current : Z;
  free_list : Z;
  inner : S;
}.
Arguments Heap {S}.
Arguments heap_current {S}.
Arguments free_list {S}.
Arguments inner {S}.

(** sizeof(block_header_t) and the offsets of its fields.
    src/include/klibc/kmem/kheap.h:13-18 [block_header] *)
Definition HEADER : Z := 24.
Definition OFF_SIZE : Z := 0.
Definition OFF_FREE : Z := 8.
Definition OFF_NEXT : Z := 16.

Section kheap.
Context {S : Type} `{!BMem S} `{!Pages S} `{!Console S}.

Definition set_inner (s : S) (h : heap S) : heap S := Heap (heap_current h) (free_list h) s.
Definition set_heap_current (v : Z) (h : heap S) : heap S := Heap v (free_list h) (inner h).
Definition set_free_list (v : Z) (h : heap S) : heap S := Heap (heap_current h) v (inner h).

#[export] Instance heap_BMem : BMem (heap S) := {
  rb h a := rb (inner h) a;
  wb a v h := set_inner (wb a v (inner h)) h;
}.
#[export] Instance heap_Console : Console (heap S) := {
  put_event e h := set_inner (put_event e (inner h)) h;
}.
#[export] Instance heap_Pages : Pages (heap S) := {
  pg_alloc := klift inner set_inner pg_alloc;
  pg_free a := klift inner set_inner (pg_free a);
  pg_map v p f := klift inner set_inner (pg_map v p f);
  pg_unmap v := klift inner set_inner (pg_unmap v);
  pg_v2p v := klift inner set_inner (pg_v2p v);
}.

(** Field accesses through a [block_header_t *]. *)
Definition get_size (b : Z) : K (heap S) Z := kasks (fun h => ld64 h b).
Definition get_free (b : Z) : K (heap S) Z := kasks (fun h => ld32 h (b + OFF_FREE)).
Definition get_next (b : Z) : K (heap S) Z := kasks (fun h => ld64 h (b + OFF_NEXT)).
Definition put_size (b v : Z) : K (heap S) unit := kmod (st64 b v).
Definition put_free (b v : Z) : K (heap S) unit := kmod (st32 (b + OFF_FREE) v).
Definition put_next (b v : Z) : K (heap S) unit := kmod (st64 (b + OFF_NEXT) v).

(** src/klibc/kmem/kheap.c:6-28 [init_kheap] *)
Definition init_kheap : K (heap S) Z :=
  kmod (set_heap_current HEAP_START);;
  physical ← pg_alloc;
  kprintf "Kheap...";;
  if physical =? 0 then
    kerror "Failed to initialize kheap";;
    mret 0
  else
    cur ← kasks heap_current;
    pg_map cur physical (Z.lor VMM_PRESENT VMM_WRITE);;
    kmod (set_free_list cur);;
    fl ← kasks free_list;
    put_size fl (PAGE_SIZE_VMM - HEADER);;
    put_free fl 1;;
    put_next fl NULL;;
    kok;;
    get_size fl.

(** src/klibc/kmem/kheap.c:30-43 [split_block] *)
Definition split_block (block size : Z) : K (heap S) unit :=
  bsize ← get_size block;
  if bsize <=? u64 (size + HEADER) then mret tt else
  let new_block := u64 (block + HEADER + size) in
  bsize ← get_size block;
  put_size new_block (u64 (bsize - size - HEADER));;
  put_free new_block 1;;
  bnext ← get_next block;
  put_next new_block bnext;;
  put_size block size;;
  put_next block new_block.

(** The loop of [request_more_memory]: [false] is its [return NULL].
    src/klibc/kmem/kheap.c:53-60 [request_more_memory] *)
Fixpoint map_pages (n : nat) (va : Z) : K (heap S) bool :=
  match n with
  | O => mret true
  | Datatypes.S n' =>
      physical ← pg_alloc;
      if physical =? 0 then mret false else
      pg_map va physical (Z.lor VMM_PRESENT VMM_WRITE);;
      map_pages n' (va + PAGE_SIZE_VMM)
  end.

(** src/klibc/kmem/kheap.c:45-69 [request_more_memory] *)
Definition request_more_memory (size : Z) : K (heap S) Z :=
  if SIZE_MAX - HEADER <? size then mret NULL else
  let total_size := u64 (size + HEADER) in
  let total_size := Z.land (u64 (total_size + PAGE_SIZE_VMM - 1)) (u64 (Z.lnot (PAGE_SIZE_VMM - 1))) in
  alloc_base ← kasks heap_current;
  ok ← map_pages (Z.to_nat (total_size / PAGE_SIZE_VMM)) alloc_base;
  if negb ok then mret NULL else
  kmod (fun h => set_heap_current (u64 (heap_current h + total_size)) h);;
  put_size alloc_base (u64 (total_size - HEADER));;
  put_free alloc_base 0;;
  put_next alloc_base NULL;;
  mret (u64 (alloc_base + HEADER)).

(** One turn of the search: go on at the next block, answer a payload, or stop
    at the last block.
    src/klibc/kmem/kheap.c:79-91 [kheap_alloc] *)
Definition alloc_step (size current : Z) : K (heap S) (Z + (Z + Z)) :=
  if current =? NULL then mret (inr (inr current)) else
  f ← get_free current;
  n ← get_size current;
  if negb (f =? 0) && (size <=? n) then
    split_block current size;;
    put_free current 0;;
    mret (inr (inl (u64 (current + HEADER))))
  else
    next ← get_next current;
    if next =? NULL then mret (inr (inr current)) else mret (inl next).

(** src/klibc/kmem/kheap.c:71-103 [kheap_alloc] *)
Definition kheap_alloc (fuel : nat) (size : Z) : K (heap S) Z :=
  if size =? 0 then mret NULL else
  let size := Z.land (u64 (size + 15)) (u64 (Z.lnot 15)) in
  current ← kasks free_list;
  r ← kloop fuel (alloc_step size) current;
  match r with
  | inl p => mret p
  | inr current =>
      new_block ← request_more_memory size;
      if new_block =? NULL then
        kerror "Out of memory";;
        mret NULL
      else if current =? NULL then kstop Faulted
      else
        put_next current (u64 (new_block - HEADER));;
        mret new_block
  end.

(** One turn of the coalescing pass.
    src/klibc/kmem/kheap.c:116-127 [kheap_free] *)
Definition coalesce_step (current : Z) : K (heap S) (Z + unit) :=
  if current =? NULL then mret (inr tt) else
  f ← get_free current;
  next ← get_next current;
  fn ← (if negb (f =? 0) && negb (next =? NULL) then get_free next else mret 0);
  if negb (fn =? 0) then
    n ← get_size current;
    nn ← get_size next;
    put_size current (u64 (n + (HEADER + nn)));;
    nnext ← get_next next;
    put_next current nnext;;
    mret (inl current)
  else
    next ← get_next current;
    mret (inl next).

(** src/klibc/kmem/kheap.c:105-128 [kheap_free] *)
Definition kheap_free (fuel : nat) (ptr : Z) : K (heap S) unit :=
  if ptr =? NULL then mret tt else
  let block := u64 (ptr - HEADER) in
  put_free block 1;;
  current ← kasks free_list;
  kloop fuel coalesce_step current.

(** src/klibc/kmem/kheap.c:130-133 [kmalloc] *)
Definition kmalloc (fuel : nat) (size : Z) : K (heap S) Z := kheap_alloc fuel size.

(** src/klibc/kmem/kheap.c:135-141 [kzalloc] *)
Definition kzalloc (fuel : nat) (size : Z) : K (heap S) Z :=
  ptr ← kmalloc fuel size;
  kwhen (negb (ptr =? NULL)) (memset ptr 0 size;; mret tt);;
  mret ptr.

(** src/klibc/kmem/kheap.c:143-148 [kcalloc] *)
Definition kcalloc (fuel : nat) (n size : Z) : K (heap S) Z :=
  if negb (n =? 0) && negb (size =? 0) && (SIZE_MAX / size <? n) then mret NULL
  else kzalloc fuel (u64 (n * size)).

(** src/klibc/kmem/kheap.c:150-153 [kfree] *)
Definition kfree (fuel : nat) (ptr : Z) : K (heap S) unit := kheap_free fuel ptr.
End kheap.

#[local] Arguments Z.add : simpl never.
#[local] Arguments Z.sub : simpl never.
#[local] Arguments Z.mul : simpl never.

(** ** The heap as a memory *)
Section heap_memory.
Context {S : Type} `{!BMem S} `{!BMemOk S} `{!Pages S} `{!Console S} `{!PagesOk S} `{!ConsoleOk S}.

#[export, refine] Instance heap_BMemOk : BMemOk (heap S) := {
  valid h a := valid (inner h) a
}.
Proof.
  - intros h a. apply (rb_range (inner h)).
  - intros h a v H. by apply (rb_wb_eq (inner h)).
  - intros h a b v Ha Hb Hne. by apply (rb_wb_ne (inner h)).
  - intros h a b v H. by apply (valid_wb (inner h)).
Defined.

Lemma heap_put_events es (s : S) (h : heap S) :
  put_events es (set_inner s h) = set_inner (put_events es s) h.
Proof. revert s. induction es as [|e es IH]; intros s; [done|]. apply (IH (put_event e s)). Qed.

Lemma klift_grow (h : heap S) :
  pg_inv (inner h) -> (1 <= pg_budget (inner h))%nat ->
  exists p s1, pg_alloc h = Ret p (set_inner s1 h) /\ 0 < p /\ p + 4096 <= 2 ^ 47 /\
    p mod 4096 = 0 /\ (forall a, in_page p a -> ~ valid h a) /\
    forall es va, va mod 4096 = 0 -> (forall a, in_page va a -> heap_va a) \/ va = p ->
      exists s', pg_map va p (Z.lor VMM_PRESENT VMM_WRITE) (put_events es (set_inner s1 h))
          = Ret tt (set_inner s' h) /\ pg_inv s' /\ (pg_budget (inner h) <= Datatypes.S (pg_budget s'))%nat /\
        (forall a, valid h a \/ in_page va a -> valid s' a) /\
        (forall a, valid h a -> ~ in_page va a -> rb s' a = rb h a).
Proof.
  intros Hi Hb. destruct (pg_grow (inner h) Hi Hb) as (p & s1 & E & ? & ? & ? & Hf & Hm).
  exists p, s1. split_and!; try done.
  - unfold pg_alloc at 1, heap_Pages. by apply klift_ret.
  - intros es va Hva Hd. destruct (Hm es va Hva Hd) as (s' & E' & Hs'). exists s'.
    split; [|exact Hs']. rewrite heap_put_events. unfold pg_map at 1, heap_Pages.
    rewrite (klift_ret inner set_inner _ (set_inner (put_events es s1) h) tt s'); [done|exact E'].
Qed.
End heap_memory.

(** ** The abstract heap: sizes and free flags, in address order *)

Abbreviation blocks := (list (Z * bool)).

(** First fit with splitting; the answer is the payload's address. *)
Fixpoint alloc_blocks (a size : Z) (bs : blocks) : option (Z * blocks) :=
  match bs with
  | [] => None
  | (n, f) :: r =>
      if f && (size <=? n) then
        Some (a + HEADER,
              if n <=? size + HEADER then (n, false) :: r
              else (size, false) :: (n - size - HEADER, true) :: r)
      else option_map (fun '(p, r') => (p, (n, f) :: r')) (alloc_blocks (a + HEADER + n) size r)
  end.

(** Merge every run of free blocks into its first one. *)
Fixpoint merge_blocks (n : Z) (f : bool) (bs : blocks) : blocks :=
  match bs with
  | [] => [(n, f)]
  | (n', f') :: r =>
      if f && f' then merge_blocks (n + HEADER + n') true r
      else (n, f) :: merge_blocks n' f' r
  end.
Definition coalesce (bs : blocks) : blocks :=
  match bs with [] => [] | (n, f) :: r => merge_blocks n f r end.

(** [x] is a payload byte of a block in use. *)
Fixpoint in_used (a : Z) (bs : blocks) (x : Z) : Prop :=
  match bs with
  | [] => False
  | (n, f) :: r => (f = false /\ a + HEADER <= x < a + HEADER + n) \/ in_used (a + HEADER + n) r x
  end.

(** [x] is a byte of a block header. *)
Fixpoint in_header (a : Z) (bs : blocks) (x : Z) : Prop :=
  match bs with
  | [] => False
  | (n, f) :: r => a <= x < a + HEADER \/ in_header (a + HEADER + n) r x
  end.

Fixpoint span (bs : blocks) : Z :=
  match bs with [] => 0 | (n, _) :: r => HEADER + n + span r end.

Definition blocks_pos (bs : blocks) : Prop := forall b, b ∈ bs -> 0 <= fst b.

Lemma blocks_pos_cons b bs : blocks_pos (b :: bs) <-> 0 <= fst b /\ blocks_pos bs.
Proof.
  unfold blocks_pos. setoid_rewrite elem_of_cons. split.
  - intros H. split; [apply H; by left|]. intros c Hc. apply H. by right.
  - intros [H1 H2] c [->|Hc]; [done|by apply H2].
Qed.

Lemma span_nonneg bs : blocks_pos bs -> 0 <= span bs.
Proof.
  induction bs as [|[n f] bs IH]; [done|]. rewrite blocks_pos_cons. cbn. unfold HEADER.
  intros [? Hp]. specialize (IH Hp). lia.
Qed.

Lemma in_header_bounds a bs x : blocks_pos bs -> in_header a bs x -> a <= x < a + span bs.
Proof.
  revert a. induction bs as [|[n f] bs IH]; intros a; [done|]. rewrite blocks_pos_cons. cbn.
  intros [Hn Hp]. pose proof (span_nonneg _ Hp). unfold HEADER in *.
  intros [H1|H1]; [lia|]. apply IH in H1; [lia|done].
Qed.

Lemma in_used_bounds a bs x : blocks_pos bs -> in_used a bs x -> a <= x < a + span bs.
Proof.
  revert a. induction bs as [|[n f] bs IH]; intros a; [done|]. rewrite blocks_pos_cons. cbn.
  intros [Hn Hp]. pose proof (span_nonneg _ Hp). unfold HEADER in *.
  intros [[_ H1]|H1]; [lia|]. apply IH in H1; [lia|done].
Qed.

(** Headers and used payloads are disjoint. *)
Lemma header_not_used a bs x : blocks_pos bs -> in_header a bs x -> ~ in_used a bs x.
Proof.
  revert a. induction bs as [|[n f] bs IH]; intros a; [done|]. rewrite blocks_pos_cons. cbn.
  intros [Hn Hp] [H1|H1] [[_ H2]|H2].
  - unfold HEADER in *. lia.
  - apply in_used_bounds in H2; [|done]. unfold HEADER in *. lia.
  - apply in_header_bounds in H1; [|done]. unfold HEADER in *. lia.
  - by apply (IH _ Hp H1).
Qed.

Lemma span_app bs bs' : span (bs ++ bs') = span bs + span bs'.
Proof. induction bs as [|[n f] bs IH]; cbn [app span]; lia. Qed.

(** Freeing one block removes its payload from the bytes in use. *)
Lemma in_used_mark a pre n post x :
  blocks_pos (pre ++ (n, false) :: post) ->
  in_used a (pre ++ (n, true) :: post) x <->
  in_used a (pre ++ (n, false) :: post) x /\
    ~ (a + span pre + HEADER <= x < a + span pre + HEADER + n).
Proof.
  revert a. induction pre as [|[n0 f0] pre IH]; intros a Hpos; cbn [app in_used span];
    apply blocks_pos_cons in Hpos as [Hn Hpos]; cbn [fst] in Hn.
  - rewrite Z.add_0_r. split.
    + intros [[? _]|Hu]; [done|]. split; [by right|].
      apply in_used_bounds in Hu; [lia|done].
    + intros [[[_ Hx]|Hu] Hout]; [done|by right].
  - rewrite IH by done.
    replace (a + HEADER + n0 + span pre) with (a + (HEADER + n0 + span pre)) by lia.
    assert (0 <= span pre).
    { apply span_nonneg. intros b Hb. apply Hpos, elem_of_app. by left. }
    split; [|intuition]. intros [[-> Hx]|[Hu Hout]]; [|by split; [right|]].
    split; [by left|]. unfold HEADER in *. lia.
Qed.

Lemma in_header_at a pre n f post x :
  a + span pre <= x < a + span pre + HEADER -> in_header a (pre ++ (n, f) :: post) x.
Proof.
  revert a. induction pre as [|[n0 f0] pre IH]; intros a Hx; cbn [app in_header span] in *.
  - left. lia.
  - right. apply IH. lia.
Qed.

Lemma in_header_flag a pre n f f' post x :
  in_header a (pre ++ (n, f) :: post) x <-> in_header a (pre ++ (n, f') :: post) x.
Proof.
  revert a. induction pre as [|[n0 f0] pre IH]; intros a; cbn [app in_header]; [done|].
  by rewrite IH.
Qed.

(** *** First fit on the abstract heap *)
Lemma alloc_blocks_spec a size bs p bs' :
  blocks_pos bs -> 0 <= size -> alloc_blocks a size bs = Some (p, bs') ->
  bs' <> [] /\ blocks_pos bs' /\ span bs' = span bs /\
  (forall x, p <= x < p + size -> in_used a bs' x) /\
  (forall x, p <= x < p + size -> ~ in_used a bs x) /\
  (forall x, in_used a bs x -> in_used a bs' x).
Proof.
  intros Hpos Hs. revert a bs' Hpos. induction bs as [|[n f] r IH]; intros a bs' Hpos; [done|].
  apply blocks_pos_cons in Hpos as [Hn Hr]. cbn [fst] in Hn. cbn [alloc_blocks].
  destruct (f && (size <=? n)) eqn:E.
  - apply andb_true_iff in E as [-> Hle%Z.leb_le]. intros [= <- <-].
    assert (Hout : forall x, in_used (a + HEADER + n) r x -> a + HEADER + n <= x)
      by (intros x Hx; apply in_used_bounds in Hx; [lia|done]).
    destruct (Z.leb_spec n (size + HEADER)).
    + split_and!; [done|by apply blocks_pos_cons|done| | |].
      * intros x Hx. left. lia.
      * intros x Hx [[? _]|Hu]; [done|]. apply Hout in Hu. lia.
      * intros x [[? _]|Hu]; [done|]. by right.
    + split_and!; [done| |cbn; lia| | |].
      * rewrite !blocks_pos_cons. cbn. unfold HEADER in *. lia || (split_and!; [lia|lia|done]).
      * intros x Hx. left. lia.
      * intros x Hx [[? _]|Hu]; [done|]. apply Hout in Hu. unfold HEADER in *. lia.
      * intros x [[? _]|Hu]; [done|]. right. right.
        by replace (a + HEADER + size + HEADER + (n - size - HEADER)) with (a + HEADER + n) by lia.
  - destruct (alloc_blocks (a + HEADER + n) size r) as [[q r']|] eqn:Er; [|done].
    intros [= <- <-]. destruct (IH _ _ Hr Er) as (? & ? & Hsp & Hin & Hni & Hmono).
    split_and!; [done|by apply blocks_pos_cons|cbn; lia| | |].
    + intros x Hx. right. by apply Hin.
    + intros x Hx [[-> Hu]|Hu]; [|by apply (Hni x Hx)].
      apply Hin, in_used_bounds in Hx; [lia|done].
    + intros x [Hu|Hu]; [by left|right; by apply Hmono].
Qed.

(** *** Coalescing on the abstract heap *)
Lemma merge_spec bs n f a :
  0 <= n -> blocks_pos bs ->
  merge_blocks n f bs <> [] /\ blocks_pos (merge_blocks n f bs) /\
  span (merge_blocks n f bs) = HEADER + n + span bs /\
  (forall x, in_used a (merge_blocks n f bs) x <-> in_used a ((n, f) :: bs) x).
Proof.
  revert n f a. induction bs as [|[n' f'] bs IH]; intros n f a Hn Hp.
  - split_and!; [done|by apply blocks_pos_cons|done|done].
  - apply blocks_pos_cons in Hp as [Hn' Hp]. cbn [fst] in Hn'. cbn [merge_blocks].
    destruct (f && f') eqn:E.
    + apply andb_true_iff in E as [-> ->].
      destruct (IH (n + HEADER + n') true a ltac:(unfold HEADER; lia) Hp) as (H1 & H2 & H3 & H4).
      split_and!; [done|done|rewrite H3; cbn; lia|]. intros x. rewrite H4. cbn.
      replace (a + HEADER + (n + HEADER + n')) with (a + HEADER + n + HEADER + n') by lia.
      intuition discriminate.
    + destruct (IH n' f' (a + HEADER + n) Hn' Hp) as (H1 & H2 & H3 & H4).
      split_and!; [done|by apply blocks_pos_cons|cbn; rewrite H3; cbn; lia|].
      intros x. cbn [in_used]. by rewrite H4.
Qed.

(** No two neighbours of a coalesced list are both free. *)
Fixpoint no_free_pair (bs : blocks) : Prop :=
  match bs with
  | (_, f) :: ((_, f') :: _) as r => ~ (f = true /\ f' = true) /\ no_free_pair r
  | _ => True
  end.

Lemma merge_no_free_pair n f bs : no_free_pair (merge_blocks n f bs) /\
  exists n' r, merge_blocks n f bs = (n', f) :: r.
Proof.
  revert n f. induction bs as [|[n' f'] bs IH]; intros n f; cbn [merge_blocks].
  - split; [done|]. by exists n, [].
  - destruct (f && f') eqn:E.
    + apply andb_true_iff in E as [-> ->]. apply IH.
    + destruct (IH n' f') as [H1 (m & r & E')]. split; [|by eexists _, _].
      rewrite E' in *. split; [|exact H1]. intros [-> ->]. done.
Qed.

(** ** The concrete layout *)
Section layout.
Context {S : Type} `{!BMem S} `{!BMemOk S}.

(** A block header holding the given fields. *)
Definition hdr (s : S) (b n : Z) (f : bool) (nx : Z) : Prop :=
  ld64 s b = n /\ (ld32 s (b + OFF_FREE) =? 0) = negb f /\ ld64 s (b + OFF_NEXT) = nx.

Definition next_of (a n : Z) (r : blocks) : Z :=
  match r with [] => NULL | _ => a + HEADER + n end.

(** The headers of [bs] are in memory from [a] to [e], linked in order. *)
Fixpoint blocks_at (s : S) (a : Z) (bs : blocks) (e : Z) : Prop :=
  match bs with
  | [] => a = e
  | (n, f) :: r => hdr s a n f (next_of a n r) /\ blocks_at s (a + HEADER + n) r e
  end.

Lemma blocks_at_span s a bs e : blocks_at s a bs e -> e = a + span bs.
Proof.
  revert a. induction bs as [|[n f] r IH]; intros a; cbn [blocks_at span].
  - lia.
  - intros [_ H]. apply IH in H. lia.
Qed.

Lemma blocks_at_pos s a bs e : blocks_at s a bs e -> blocks_pos bs.
Proof.
  revert a. induction bs as [|[n f] r IH]; intros a; [by intros _ b []%elem_of_nil|].
  cbn [blocks_at]. intros [(Hn & _) H]. apply blocks_pos_cons. split; [|by eapply IH].
  cbn. pose proof (ld64_range s a). lia.
Qed.

(** Headers depend on the header bytes only. *)
Lemma hdr_ext s s' b n f nx :
  (forall x, b <= x < b + HEADER -> rb s' x = rb s x) -> hdr s b n f nx -> hdr s' b n f nx.
Proof.
  intros Hx (Hn & Hf & Hnx).
  assert (E : forall k o, 0 <= o -> o + Z.of_nat k <= HEADER ->
            load k s' (b + o) = load k s (b + o)).
  { intros k o Ho Hk. apply load_ext. intros i Hi. rewrite <- Z.add_assoc. apply Hx. lia. }
  split_and!.
  - pose proof (E 8%nat 0 ltac:(lia) ltac:(unfold HEADER; lia)) as E0.
    rewrite Z.add_0_r in E0. by rewrite E0.
  - by rewrite E by (unfold OFF_FREE, HEADER; lia).
  - by rewrite E by (unfold OFF_NEXT, HEADER; lia).
Qed.

Lemma blocks_at_ext s s' a bs e :
  (forall x, in_header a bs x -> rb s' x = rb s x) -> blocks_at s a bs e -> blocks_at s' a bs e.
Proof.
  revert a. induction bs as [|[n f] r IH]; intros a Hx; [done|].
  cbn [blocks_at]. intros [Hh H]. cbn [in_header] in Hx. split.
  - apply (hdr_ext s); [|done]. intros x Hin. apply Hx. by left.
  - apply IH; [|done]. intros x Hin. apply Hx. by right.
Qed.

(** A header written field by field. *)
Lemma header_fields (s s' : S) b n f nx :
  valid_range s b HEADER ->
  s' = st64 (b + OFF_NEXT) nx (st32 (b + OFF_FREE) f (st64 b n s)) ->
  ld64 s' b = u64 n /\ ld32 s' (b + OFF_FREE) = u32 f /\ ld64 s' (b + OFF_NEXT) = u64 nx /\
  (forall x, valid s' x <-> valid s x) /\
  (forall x, valid s x -> ~ (b <= x < b + HEADER) -> rb s' x = rb s x).
Proof.
  intros Hv ->. unfold HEADER, OFF_NEXT, OFF_FREE in *.
  assert (V1 : valid_range s b (Z.of_nat 8)) by (apply (valid_range_sub _ _ _ _ _ Hv); lia).
  assert (V2 : valid_range (st64 b n s) (b + 8) (Z.of_nat 4))
    by (apply valid_range_store; [done|]; apply (valid_range_sub _ _ _ _ _ Hv); lia).
  assert (V3 : valid_range (st32 (b + 8) f (st64 b n s)) (b + 16) (Z.of_nat 8)).
  { apply valid_range_store; [done|]. apply valid_range_store; [done|].
    apply (valid_range_sub _ _ _ _ _ Hv); lia. }
  assert (W1 : valid_range (st64 b n s) b (Z.of_nat 8)) by (by apply valid_range_store).
  assert (W2 : valid_range (st32 (b + 8) f (st64 b n s)) b (Z.of_nat 8))
    by (by apply valid_range_store).
  assert (W3 : valid_range (st32 (b + 8) f (st64 b n s)) (b + 8) (Z.of_nat 4))
    by (by apply valid_range_store).
  split_and!.
  - rewrite (load_store_ne 8 8), (load_store_ne 4 8) by (done || lia). exact (load_store_eq 8 s b n V1).
  - rewrite (load_store_ne 8 4) by (done || lia). exact (load_store_eq 4 _ _ f V2).
  - exact (load_store_eq 8 _ _ nx V3).
  - intros x. by rewrite !valid_store.
  - intros x Hx Hout.
    assert (X1 : valid (st64 b n s) x) by (by apply valid_store).
    assert (X2 : valid (st32 (b + 8) f (st64 b n s)) x) by (by apply valid_store).
    rewrite !rb_store_ne by (done || lia). done.
Qed.

(** A single field rewritten. *)
Lemma field_store k (s : S) b o v :
  valid_range s b HEADER -> 0 <= o -> o + Z.of_nat k <= HEADER ->
  load k (store k (b + o) v s) (b + o) = v mod 256 ^ Z.of_nat k /\
  (forall j o', 0 <= o' -> o' + Z.of_nat j <= HEADER ->
     o' + Z.of_nat j <= o \/ o + Z.of_nat k <= o' ->
     load j (store k (b + o) v s) (b + o') = load j s (b + o')) /\
  (forall x, valid (store k (b + o) v s) x <-> valid s x) /\
  (forall x, valid s x -> ~ (b + o <= x < b + o + Z.of_nat k) ->
     rb (store k (b + o) v s) x = rb s x).
Proof.
  intros Hv Ho Hk.
  assert (V1 : valid_range s (b + o) (Z.of_nat k)) by (apply (valid_range_sub _ _ _ _ _ Hv); lia).
  split_and!.
  - by apply load_store_eq.
  - intros j o' Ho' Hj Hd. apply load_store_ne; [done| |lia].
    apply (valid_range_sub _ _ _ _ _ Hv); lia.
  - intros x. by apply valid_store.
  - intros x Hx Hout. apply rb_store_ne; [done|done|lia].
Qed.
End layout.

(** ** Stores into the heap *)
Section kept.
Context {S : Type} `{!BMem S} `{!BMemOk S} `{!Pages S} `{!Console S} `{!PagesOk S} `{!ConsoleOk S}.
Implicit Types h : heap S.

(** Only bytes of memory changed. *)
Record kept h h' : Prop := {
  k_current : heap_current h' = heap_current h;
  k_list : free_list h' = free_list h;
  k_inv : pg_inv (inner h) -> pg_inv (inner h');
  k_budget : pg_inv (inner h) -> pg_budget (inner h') = pg_budget (inner h);
  k_frames : pg_frames (inner h') = pg_frames (inner h);
  k_valid : forall x, valid h' x <-> valid h x;
}.

Lemma kept_refl h : kept h h.
Proof. by split. Qed.

Lemma kept_trans h1 h2 h3 : kept h1 h2 -> kept h2 h3 -> kept h1 h3.
Proof.
  intros H1 H2. split.
  - by rewrite (k_current _ _ H2), (k_current _ _ H1).
  - by rewrite (k_list _ _ H2), (k_list _ _ H1).
  - intros Hi. by apply (k_inv _ _ H2), (k_inv _ _ H1).
  - intros Hi. rewrite (k_budget _ _ H2), (k_budget _ _ H1); [done..|]. by apply (k_inv _ _ H1).
  - by rewrite (k_frames _ _ H2), (k_frames _ _ H1).
  - intros x. by rewrite (k_valid _ _ H2), (k_valid _ _ H1).
Qed.

Lemma kept_wb h a v : valid h a -> kept h (wb a v h).
Proof.
  intros Hv. split; [done|done| | |apply pg_frames_wb|].
  - intros Hi. by apply (pg_inv_wb (inner h) a v Hi).
  - intros Hi. by apply (pg_inv_wb (inner h) a v Hi).
  - intros x. by apply (valid_wb h).
Qed.

Lemma kept_store k h a v : valid_range h a (Z.of_nat k) -> kept h (store k a v h).
Proof.
  revert h a v. induction k as [|k IH]; intros h a v Hv; [apply kept_refl|]. cbn [store].
  assert (Ha : valid h a) by (apply (valid_range_at _ _ _ _ Hv); lia).
  apply (kept_trans _ (wb a v h)); [by apply kept_wb|]. apply IH.
  apply valid_range_wb; [done|]. apply (valid_range_sub _ _ _ _ _ Hv); lia.
Qed.

Lemma kept_field k h b o v :
  valid_range h b HEADER -> 0 <= o -> o + Z.of_nat k <= HEADER -> kept h (store k (b + o) v h).
Proof.
  intros Hv ??. apply kept_store. apply (valid_range_sub _ _ _ _ _ Hv); lia.
Qed.

Lemma kept_range h h' a n : kept h h' -> valid_range h a n -> valid_range h' a n.
Proof. intros K Hv i Hi. by apply (k_valid _ _ K), Hv. Qed.

(** Rewriting one field of a header. *)
Lemma hdr_put_free h b n f nx v :
  valid_range h b HEADER -> hdr h b n f nx -> u32 v = v ->
  let h' := st32 (b + OFF_FREE) v h in
  kept h h' /\ hdr h' b n (negb (v =? 0)) nx /\
  forall x, valid h x -> ~ (b <= x < b + HEADER) -> rb h' x = rb h x.
Proof.
  intros Hv (Hn & Hf & Hnx) Ev h'.
  destruct (field_store 4 h b OFF_FREE v Hv ltac:(done) ltac:(done)) as (E & Ene & _ & Hr).
  split_and!; [by apply kept_field| |].
  - split_and!.
    + pose proof (Ene 8%nat 0 ltac:(lia) ltac:(done) ltac:(left; done)) as E0.
      rewrite !Z.add_0_r in E0. unfold h'. by rewrite E0.
    + unfold h'. rewrite E. change (256 ^ Z.of_nat 4) with (2 ^ 32). fold (u32 v).
      by rewrite Ev, negb_involutive.
    + unfold h'. rewrite Ene; [done|done|done|right; done].
  - intros x Hx Hout. apply Hr; [done|]. unfold HEADER, OFF_FREE in *. lia.
Qed.

Lemma hdr_put_size h b n f nx v :
  valid_range h b HEADER -> hdr h b n f nx -> 0 <= v < 2 ^ 64 ->
  let h' := st64 b v h in
  kept h h' /\ hdr h' b v f nx /\
  forall x, valid h x -> ~ (b <= x < b + HEADER) -> rb h' x = rb h x.
Proof.
  intros Hv (Hn & Hf & Hnx) Ev h'. subst h'.
  destruct (field_store 8 h b 0 v Hv ltac:(done) ltac:(done)) as (E & Ene & _ & Hr).
  rewrite Z.add_0_r in E, Ene, Hr.
  split_and!; [by rewrite <- (Z.add_0_r b); apply kept_field| |].
  - split_and!.
    + rewrite E. by apply Z.mod_small.
    + rewrite Ene; [done|done|done|right; done].
    + rewrite Ene; [done|done|done|right; done].
  - intros x Hx Hout. apply Hr; [done|]. unfold HEADER in *. lia.
Qed.

Lemma hdr_put_next h b n f nx v :
  valid_range h b HEADER -> hdr h b n f nx -> 0 <= v < 2 ^ 64 ->
  let h' := st64 (b + OFF_NEXT) v h in
  kept h h' /\ hdr h' b n f v /\
  forall x, valid h x -> ~ (b <= x < b + HEADER) -> rb h' x = rb h x.
Proof.
  intros Hv (Hn & Hf & Hnx) Ev h'.
  destruct (field_store 8 h b OFF_NEXT v Hv ltac:(done) ltac:(done)) as (E & Ene & _ & Hr).
  split_and!; [by apply kept_field| |].
  - split_and!; unfold h'.
    + pose proof (Ene 8%nat 0 ltac:(lia) ltac:(done) ltac:(left; done)) as E0.
      rewrite !Z.add_0_r in E0. by rewrite E0.
    + rewrite Ene; [done|done|done|left; done].
    + rewrite E. by apply Z.mod_small.
  - intros x Hx Hout. apply Hr; [done|]. unfold HEADER, OFF_NEXT in *. lia.
Qed.

(** A header written from scratch, in the order of the source. *)
Lemma hdr_new h b n f nx :
  valid_range h b HEADER -> 0 <= n < 2 ^ 64 -> 0 <= nx < 2 ^ 64 -> u32 f = f ->
  let h' := st64 (b + OFF_NEXT) nx (st32 (b + OFF_FREE) f (st64 b n h)) in
  kept h h' /\ hdr h' b n (negb (f =? 0)) nx /\
  forall x, valid h x -> ~ (b <= x < b + HEADER) -> rb h' x = rb h x.
Proof.
  intros Hv Hn Hnx Hf h'.
  destruct (header_fields h h' b n f nx Hv eq_refl) as (E1 & E2 & E3 & _ & Hr).
  split_and!; [|split_and!|done].
  - assert (K1 : kept h (st64 b n h))
      by (rewrite <- (Z.add_0_r b); by apply kept_field).
    assert (K2 : kept h (st32 (b + OFF_FREE) f (st64 b n h))).
    { apply (kept_trans _ _ _ K1). apply kept_field; [|done..]. by apply (kept_range _ _ _ _ K1). }
    apply (kept_trans _ _ _ K2). apply kept_field; [|done..]. by apply (kept_range _ _ _ _ K2).
  - rewrite E1. by apply wrap_small.
  - by rewrite E2, Hf, negb_involutive.
  - rewrite E3. by apply wrap_small.
Qed.
End kept.

(** ** The search of [kheap_alloc] *)
Section search.
Context {S : Type} `{!BMem S} `{!BMemOk S} `{!Pages S} `{!Console S} `{!PagesOk S} `{!ConsoleOk S}.
Implicit Types h : heap S.

Lemma get_fields h b n f nx : hdr h b n f nx ->
  get_size b h = Ret n h /\ get_next b h = Ret nx h /\
  exists v, get_free b h = Ret v h /\ (v =? 0) = negb f.
Proof.
  intros (<- & Hf & <-). split_and!; [done|done|]. by exists (ld32 h (b + OFF_FREE)).
Qed.

(** Taking the block at [b]: split it if it is large enough, mark it used. *)
Lemma take_block_run h b n nx size :
  hdr h b n true nx -> valid_range h b (HEADER + n) -> 0 < b -> b + HEADER + n < 2 ^ 64 ->
  0 <= size <= n -> 0 <= nx < 2 ^ 64 ->
  exists h', (split_block b size;; put_free b 0) h = Ret tt h' /\ kept h h' /\
    (if n <=? size + HEADER then hdr h' b n false nx
     else hdr h' b size false (b + HEADER + size) /\
          hdr h' (b + HEADER + size) (n - size - HEADER) true nx) /\
    forall x, valid h x -> ~ (b <= x < b + HEADER + n) -> rb h' x = rb h x.
Proof.
  intros Hh Hv Hb Hend Hs Hnx. destruct (get_fields _ _ _ _ _ Hh) as (En & Enx & _).
  assert (Hvb : valid_range h b HEADER) by (apply (valid_range_sub _ _ _ _ _ Hv); lia).
  unfold split_block. unfold HEADER in Hend.
  assert (Hws : u64 (size + HEADER) = size + HEADER) by (apply wrap_small; unfold HEADER; lia).
  rewrite Hws. destruct (Z.leb_spec n (size + HEADER)) as [Hsmall|Hbig].
  - destruct (hdr_put_free h b n true nx 0 Hvb Hh eq_refl) as (K & Hh' & Hr).
    eexists. split; [|split; [exact K|split; [exact Hh'|]]].
    + rewrite (kbind_ret _ _ h tt h); [done|]. rewrite (kbind_ret _ _ _ _ _ En).
      destruct (Z.leb_spec n (size + HEADER)); [done|lia].
    + intros x Hx Hout. apply Hr; [done|]. unfold HEADER in *. lia.
  - set (nb := b + HEADER + size).
    assert (Hnb : u64 nb = nb) by (apply wrap_small; unfold nb, HEADER in *; lia).
    assert (Hvn : valid_range h nb HEADER)
      by (apply (valid_range_sub _ _ _ _ _ Hv); unfold nb, HEADER in *; lia).
    destruct (hdr_new h nb (n - size - HEADER) 1 nx Hvn ltac:(unfold HEADER in *; lia) Hnx eq_refl)
      as (K1 & H1 & R1). set (h1 := st64 (nb + OFF_NEXT) nx _) in *.
    assert (Hh1 : hdr h1 b n true nx).
    { apply (hdr_ext h); [|done]. intros x Hx. apply R1; [|unfold nb, HEADER in *; lia].
      by apply (valid_range_at _ _ _ _ Hvb). }
    pose proof (kept_range _ _ _ _ K1 Hvb) as Hvb1.
    destruct (hdr_put_size h1 b n true nx size Hvb1 Hh1 ltac:(lia)) as (K2 & H2 & R2).
    set (h2 := st64 b size h1) in *. pose proof (kept_range _ _ _ _ K2 Hvb1) as Hvb2.
    destruct (hdr_put_next h2 b size true nx nb Hvb2 H2 ltac:(unfold nb, HEADER in *; lia))
      as (K3 & H3 & R3). set (h3 := st64 (b + OFF_NEXT) nb h2) in *.
    pose proof (kept_range _ _ _ _ K3 Hvb2) as Hvb3.
    destruct (hdr_put_free h3 b size true nb 0 Hvb3 H3 eq_refl) as (K4 & H4 & R4).
    set (h4 := st32 (b + OFF_FREE) 0 h3) in *.
    pose proof (kept_trans _ _ _ K1 K2) as K12. pose proof (kept_trans _ _ _ K12 K3) as K13.
    assert (Rall : forall x, valid h x -> ~ (b <= x < b + HEADER) -> rb h4 x = rb h1 x).
    { intros x Hx Hout. pose proof (proj2 (k_valid _ _ K1 x) Hx).
      pose proof (proj2 (k_valid _ _ K12 x) Hx). pose proof (proj2 (k_valid _ _ K13 x) Hx).
      by rewrite R4, R3, R2. }
    exists h4. split; [|split; [|split]].
    + rewrite (kbind_ret _ _ h tt h3); [done|].
      rewrite (kbind_ret _ _ _ _ _ En).
      destruct (Z.leb_spec n (size + HEADER)); [lia|].
      rewrite (kbind_ret _ _ _ _ _ En). fold nb. rewrite Hnb.
      rewrite (wrap_small 64 (n - size - HEADER)) by (unfold HEADER in *; lia).
      unfold put_size, put_free, put_next. krun.
      unfold get_next, kasks.
      assert (E : ld64 (st32 (nb + OFF_FREE) 1 (st64 nb (n - size - HEADER) h)) (b + OFF_NEXT) = nx).
      { destruct Hh as (_ & _ & <-). unfold OFF_FREE, OFF_NEXT, HEADER in *.
        assert (Va : valid_range h nb (Z.of_nat 8)) by (apply (valid_range_sub _ _ _ _ _ Hvn); lia).
        assert (Vb : valid_range h (b + 16) (Z.of_nat 8)) by (apply (valid_range_sub _ _ _ _ _ Hvb); lia).
        rewrite !load_store_ne; [done|done|done|unfold nb; lia| | |unfold nb; lia].
        - apply valid_range_store; [done|]. apply (valid_range_sub _ _ _ _ _ Hvn); lia.
        - by apply valid_range_store. }
      rewrite E. done.
    + by apply (kept_trans _ _ _ K13).
    + split; [exact H4|]. apply (hdr_ext h1); [|done]. intros x Hx. apply Rall.
      * by apply (valid_range_at _ _ _ _ Hvn).
      * unfold nb, HEADER in *. lia.
    + intros x Hx Hout. rewrite Rall by (done || unfold HEADER in *; lia).
      apply R1; [done|]. unfold nb, HEADER in *. lia.
Qed.

Definition last_addr (a : Z) (bs : blocks) : Z :=
  match bs with
  | [] => a
  | _ => a + span (removelast bs)
  end.

Lemma next_of_nonnull a n r : 0 < a -> 0 <= n -> (next_of a n r =? NULL) =
  match r with [] => true | _ => false end.
Proof.
  intros. destruct r; cbn; [done|]. unfold NULL, HEADER. destruct (Z.eqb_spec (a + 24 + n) 0); lia.
Qed.

(** The search finds the first fitting block, or stops at the last block. *)
Lemma alloc_search h size : 0 <= size -> forall bs a e fuel,
  blocks_at h a bs e -> bs <> [] -> valid_range h a (e - a) -> 0 < a -> e < 2 ^ 64 ->
  (length bs <= fuel)%nat ->
  match alloc_blocks a size bs with
  | Some (p, bs') => exists h', kloop fuel (alloc_step size) a h = Ret (inl p) h' /\
      kept h h' /\ blocks_at h' a bs' e /\
      forall x, valid h x -> in_used a bs x \/ ~ (a <= x < e) -> rb h' x = rb h x
  | None => kloop fuel (alloc_step size) a h = Ret (inr (last_addr a bs)) h
  end.
Proof.
  intros Hsz bs. induction bs as [|[n f] r IH]; intros a e fuel Hbs Hne Hv Ha He Hfuel; [done|].
  pose proof (blocks_at_pos _ _ _ _ Hbs) as Hpos. pose proof (blocks_at_span _ _ _ _ Hbs) as Hspan.
  destruct Hbs as [Hh Hr]. apply blocks_pos_cons in Hpos as [Hn Hpos]. cbn [fst] in Hn.
  cbn [span] in Hspan. pose proof (span_nonneg _ Hpos) as Hsp.
  destruct fuel as [|fuel]; [cbn in Hfuel; lia|]. cbn in Hfuel.
  destruct (get_fields _ _ _ _ _ Hh) as (En & Enx & v & Ev & Evf).
  cbn [alloc_blocks].
  assert (Hstep : alloc_step size a h
    = if f && (size <=? n) then (split_block a size;; put_free a 0;; mret (inr (inl (u64 (a + HEADER))))) h
      else Ret (if next_of a n r =? NULL then inr (inr a) else inl (next_of a n r)) h).
  { unfold alloc_step. destruct (Z.eqb_spec a NULL) as [E0|_]; [unfold NULL in E0; lia|].
    rewrite (kbind_ret _ _ _ _ _ Ev), (kbind_ret _ _ _ _ _ En), Evf, negb_involutive.
    destruct (f && (size <=? n)); [done|]. rewrite (kbind_ret _ _ _ _ _ Enx).
    by destruct (next_of a n r =? NULL). }
  destruct (f && (size <=? n)) eqn:Efit.
  - apply andb_true_iff in Efit as [-> Hle%Z.leb_le].
    destruct (take_block_run h a n (next_of a n r) size Hh) as (h' & E & K & Hsplit & Rx);
      [apply (valid_range_sub _ _ _ _ _ Hv); unfold HEADER in *; lia|lia|lia|lia| |].
    { destruct Hh as (_ & _ & <-). apply ld64_range. }
    exists h'. split_and!; [|done| |].
    + rewrite (kloop_exit _ _ _ (inl (a + HEADER)) _ h'); [done|]. rewrite Hstep.
      apply kbind_inv in E as ([] & h1 & E1 & E2).
      rewrite (kbind_ret _ _ _ _ _ E1), (kbind_ret _ _ _ _ _ E2).
      by rewrite wrap_small by (unfold HEADER in *; lia).
    + assert (Hrest : blocks_at h' (a + HEADER + n) r e).
      { apply (blocks_at_ext h); [|done]. intros x Hx. apply in_header_bounds in Hx; [|done].
        apply Rx; [|lia]. apply (valid_range_at _ _ _ _ Hv). unfold HEADER in *. lia. }
      destruct (n <=? size + HEADER); [by split|]. destruct Hsplit as [H1 H2].
      split; [exact H1|]. split; cycle 1.
      * by replace (a + HEADER + size + HEADER + (n - size - HEADER)) with (a + HEADER + n) by lia.
      * replace (next_of (a + HEADER + size) (n - size - HEADER) r) with (next_of a n r); [done|].
        destruct r; [done|]. cbn. lia.
    + intros x Hx [[[? _]|Hu]|Hout]; [done| |].
      * apply in_used_bounds in Hu; [|done]. apply Rx; [done|lia].
      * apply Rx; [done|]. unfold HEADER in *. lia.
  - rewrite next_of_nonnull in Hstep by done. destruct r as [|b' r].
    + rewrite (kloop_exit _ _ _ _ _ _ Hstep). cbn. by rewrite Z.add_0_r.
    + cbn [next_of] in Hstep. specialize (IH (a + HEADER + n) e fuel Hr ltac:(done)
        ltac:(apply (valid_range_sub _ _ _ _ _ Hv); unfold HEADER in *; lia)
        ltac:(unfold HEADER in *; lia) He ltac:(lia)).
      destruct (alloc_blocks (a + HEADER + n) size (b' :: r)) as [[p bs']|] eqn:Ea; cbn [option_map].
      * destruct IH as (h' & E & K & Hbs' & Rx). exists h'. split_and!; [|done| |].
        -- by rewrite (kloop_next _ _ _ _ _ _ Hstep).
        -- destruct (alloc_blocks_spec _ _ _ _ _ Hpos Hsz Ea) as (Hne' & _).
           split; [|done]. replace (next_of a n bs') with (next_of a n (b' :: r))
             by (destruct bs'; done).
           apply (hdr_ext h); [|done]. intros x Hx. apply Rx; [|right; unfold HEADER in *; lia].
           apply (valid_range_at _ _ _ _ Hv). unfold HEADER in *. lia.
        -- intros x Hx Hu. apply Rx; [done|]. destruct Hu as [[[-> Hu]|Hu]|Hu]; [|by left|].
           ++ right. unfold HEADER in *. lia.
           ++ right. unfold HEADER in *. lia.
      * rewrite (kloop_next _ _ _ _ _ _ Hstep), IH.
        enough (E : last_addr (a + HEADER + n) (b' :: r) = last_addr a ((n, f) :: b' :: r))
          by (by rewrite E).
        unfold last_addr.
        change (removelast ((n, f) :: b' :: r)) with ((n, f) :: removelast (b' :: r)).
        cbn [span]. lia.
Qed.
End search.

(** ** Alignment *)
Lemma land_align x k w : 0 <= k -> 0 <= w ->
  Z.land x (Z.shiftl (Z.ones w) k) = (x / 2 ^ k) mod 2 ^ w * 2 ^ k.
Proof.
  intros. rewrite <- Z.shiftr_div_pow2, <- Z.land_ones, <- Z.shiftl_mul_pow2 by lia.
  apply Z.bits_inj'. intros n Hn. rewrite Z.land_spec, !Z.shiftl_spec by lia.
  destruct (Z.ltb_spec n k).
  - rewrite !(Z.testbit_neg_r _ (n - k)) by lia. apply andb_false_r.
  - rewrite Z.land_spec, Z.shiftr_spec by lia. by replace (n - k + k) with n by lia.
Qed.

(** The request rounded up to 16 bytes, and the growth rounded up to pages. *)
Definition round16 (n : Z) : Z := (n + 15) / 16 * 16.
Definition grow_size (n : Z) : Z := (n + HEADER + 4095) / 4096 * 4096.

Lemma round16_run n : 0 <= n -> n + 15 < 2 ^ 64 ->
  Z.land (u64 (n + 15)) (u64 (Z.lnot 15)) = round16 n.
Proof.
  intros. rewrite wrap_small by lia.
  change (u64 (Z.lnot 15)) with (Z.shiftl (Z.ones 60) 4).
  rewrite land_align by lia. unfold round16. change (2 ^ 4) with 16.
  rewrite Z.mod_small; [done|]. change (2 ^ 64) with (2 ^ 60 * 16) in *. zdiv.
Qed.

Lemma grow_size_run n : 0 <= n -> n + HEADER + 4095 < 2 ^ 64 ->
  Z.land (u64 (u64 (n + HEADER) + PAGE_SIZE_VMM - 1)) (u64 (Z.lnot (PAGE_SIZE_VMM - 1)))
  = grow_size n.
Proof.
  intros. unfold HEADER, PAGE_SIZE_VMM in *.
  rewrite (wrap_small 64 (n + 24)), wrap_small by lia.
  change (u64 (Z.lnot (4096 - 1))) with (Z.shiftl (Z.ones 52) 12).
  rewrite land_align by lia. unfold grow_size, HEADER. change (2 ^ 12) with 4096.
  replace (n + 24 + 4096 - 1) with (n + 24 + 4095) by lia.
  rewrite Z.mod_small; [done|]. change (2 ^ 64) with (2 ^ 52 * 4096) in *. zdiv.
Qed.

Lemma round16_bounds n : 0 < n -> n <= round16 n < n + 16.
Proof. unfold round16. intros. zdiv. Qed.

(** ** Growth *)
Section growth.
Context {S : Type} `{!BMem S} `{!BMemOk S} `{!Pages S} `{!Console S} `{!PagesOk S} `{!ConsoleOk S}.
Implicit Types h : heap S.

Lemma map_pages_run n : forall h va,
  pg_inv (inner h) -> (n <= pg_budget (inner h))%nat -> va mod 4096 = 0 ->
  HEAP_START <= va -> va + Z.of_nat n * 4096 <= HEAP_END ->
  exists s', map_pages n va h = Ret true (set_inner s' h) /\ pg_inv s' /\
    (forall x, valid h x \/ va <= x < va + Z.of_nat n * 4096 -> valid s' x) /\
    (forall x, valid h x -> ~ (va <= x < va + Z.of_nat n * 4096) -> rb s' x = rb h x) /\
    (pg_budget (inner h) <= n + pg_budget s')%nat.
Proof.
  induction n as [|n IH]; intros h va Hi Hb Hva Hlo Hhi.
  { exists (inner h). split_and!; [by destruct h|done|intros x [?|?]; [done|lia]|done|lia]. }
  destruct (klift_grow h Hi ltac:(lia)) as (p & s1 & E & Hp0 & Hp1 & Hp2 & _ & Hmap).
  destruct (Hmap [] va Hva) as (s2 & Em & Hi2 & Hb2 & Hv2 & Hr2).
  { left. intros a Ha. unfold in_page, heap_va in *. lia. }
  destruct (IH (set_inner s2 h) (va + PAGE_SIZE_VMM)) as (s3 & E3 & Hi3 & Hv3 & Hr3 & Hb3);
    [done|cbn; lia|unfold PAGE_SIZE_VMM; zdiv|unfold PAGE_SIZE_VMM; lia|unfold PAGE_SIZE_VMM; lia|].
  exists s3. unfold PAGE_SIZE_VMM in *. split_and!; [|done| | |cbn [inner set_inner] in Hb3; lia].
  - cbn [map_pages]. rewrite (kbind_ret _ _ _ _ _ E).
    destruct (Z.eqb_spec p 0); [lia|]. rewrite (kbind_ret _ _ _ _ _ Em). exact E3.
  - intros x Hx. apply Hv3.
    destruct (decide (va + 4096 <= x < va + 4096 + Z.of_nat n * 4096)); [by right|left].
    apply Hv2. destruct Hx as [Hx|Hx]; [by left|right]. unfold in_page. lia.
  - intros x Hx Hout. rewrite Hr3; [|apply Hv2; by left|lia].
    apply Hr2; [done|]. unfold in_page. lia.
Qed.

(** A new block at [heap_current]. *)
Lemma request_run h size :
  let a := heap_current h in let t := grow_size size in
  pg_inv (inner h) -> 0 <= size -> (Z.to_nat (t / 4096) <= pg_budget (inner h))%nat ->
  a mod 4096 = 0 -> HEAP_START <= a -> a + t <= HEAP_END ->
  exists h', request_more_memory size h = Ret (a + HEADER) h' /\
    heap_current h' = a + t /\ free_list h' = free_list h /\ pg_inv (inner h') /\
    hdr h' a (t - HEADER) false NULL /\
    (forall x, valid h x \/ a <= x < a + t -> valid h' x) /\
    (forall x, valid h x -> ~ (a <= x < a + t) -> rb h' x = rb h x) /\
    (pg_budget (inner h) <= Z.to_nat (t / 4096) + pg_budget (inner h'))%nat.
Proof.
  intros a t Hi Hs Hb Ha Hlo Hhi.
  assert (Ht : size + HEADER <= t < size + HEADER + 4096) by (unfold t, grow_size; zdiv).
  assert (Htm : t mod 4096 = 0) by (unfold t, grow_size; apply Z.mod_mul; lia).
  unfold HEAP_END, HEAP_START in *. change (2 ^ 38) with 274877906944 in *.
  unfold HEADER in Ht.
  unfold request_more_memory. unfold SIZE_MAX.
  destruct (Z.ltb_spec (2 ^ 64 - 1 - HEADER) size); [unfold HEADER in *; lia|].
  rewrite grow_size_run by (unfold HEADER; lia). fold t.
  rewrite (kbind_ret _ _ h a h) by done. change PAGE_SIZE_VMM with 4096.
  assert (Hn : Z.of_nat (Z.to_nat (t / 4096)) * 4096 = t) by zdiv.
  destruct (map_pages_run (Z.to_nat (t / 4096)) h a Hi Hb Ha ltac:(unfold HEAP_START; lia)
              ltac:(unfold HEAP_END, HEAP_START; lia)) as (s1 & E1 & Hi1 & Hv1 & Hr1 & Hb1).
  rewrite Hn in *. rewrite (kbind_ret _ _ _ _ _ E1). cbn [negb].
  set (h1 := set_heap_current (u64 (heap_current (set_inner s1 h) + t)) (set_inner s1 h)).
  rewrite (kbind_ret _ _ _ tt h1) by done.
  assert (Hvr : valid_range h1 a HEADER).
  { intros i Hin. apply Hv1. right. unfold HEADER in *. lia. }
  destruct (hdr_new h1 a (t - HEADER) 0 NULL Hvr ltac:(unfold HEADER in *; lia) ltac:(unfold NULL; lia) eq_refl)
    as (K & Hh & Hr).
  eexists. split; [|split; [|split; [|split; [|split; [exact Hh|split; [|split]]]]]].
  - unfold put_size, put_free, put_next. krun.
    rewrite (wrap_small 64 (a + HEADER)), (wrap_small 64 (t - HEADER)) by (unfold HEADER in *; lia). done.
  - rewrite (k_current _ _ K). cbn. apply wrap_small. fold a. lia.
  - by rewrite (k_list _ _ K).
  - by apply (k_inv _ _ K).
  - intros x Hx. apply (k_valid _ _ K), Hv1, Hx.
  - intros x Hx Hout. rewrite Hr; [by apply Hr1|by apply Hv1; left|unfold HEADER in *; lia].
  - by rewrite (k_budget _ _ K).
Qed.

(** Linking the new block from the last one. *)
Lemma append_run h e n f : forall bs a,
  blocks_at h a bs e -> bs <> [] -> valid_range h a (e - a) -> 0 < a -> e < 2 ^ 64 ->
  forall h', h' = st64 (last_addr a bs + OFF_NEXT) e h -> hdr h e n f NULL ->
  (forall x, e <= x < e + HEADER -> valid h x) ->
  kept h h' /\ blocks_at h' a (bs ++ [(n, f)]) (e + HEADER + n) /\
  forall x, valid h x -> in_used a bs x \/ ~ (a <= x < e) -> rb h' x = rb h x.
Proof.
  intros bs. induction bs as [|[n0 f0] r IH]; intros a Hbs Hne Hv Ha He h' Eh' Hnew Hvn; [done|].
  pose proof (blocks_at_pos _ _ _ _ Hbs) as Hpos. pose proof (blocks_at_span _ _ _ _ Hbs) as Hspan.
  destruct Hbs as [Hh Hr]. apply blocks_pos_cons in Hpos as [Hn Hpos]. cbn [fst] in Hn.
  cbn [span] in Hspan. pose proof (span_nonneg _ Hpos) as Hsp.
  assert (Hvh : valid_range h a HEADER)
    by (apply (valid_range_sub _ _ _ _ _ Hv); unfold HEADER in *; lia).
  destruct r as [|b r].
  - cbn [span] in Hspan. cbn [last_addr removelast span] in Eh'. rewrite Z.add_0_r in Eh'.
    destruct (hdr_put_next h a n0 f0 _ e Hvh Hh ltac:(unfold HEADER in *; lia)) as (K & Hh' & Hr').
    cbv zeta in K, Hh', Hr'. rewrite <- Eh' in K, Hh', Hr'. clear Eh'. split; [done|]. split.
    + cbn [app blocks_at]. split; [|split].
      * cbn [next_of]. by replace (a + HEADER + n0) with e by lia.
      * replace (a + HEADER + n0) with e by lia. cbn [next_of]. apply (hdr_ext h); [|done].
        intros x Hx. apply Hr'; [by apply Hvn|unfold HEADER in *; lia].
      * lia.
    + intros x Hx Hu. apply Hr'; [done|]. destruct Hu as [[[_ Hu]|[]]|Hu]; unfold HEADER in *; lia.
  - assert (El : last_addr a ((n0, f0) :: b :: r) = last_addr (a + HEADER + n0) (b :: r)).
    { unfold last_addr.
      change (removelast ((n0, f0) :: b :: r)) with ((n0, f0) :: removelast (b :: r)).
      cbn [span]. lia. }
    rewrite El in Eh'.
    destruct (IH (a + HEADER + n0) Hr ltac:(done)
      ltac:(apply (valid_range_sub _ _ _ _ _ Hv); unfold HEADER in *; lia)
      ltac:(unfold HEADER in *; lia) He h' Eh' Hnew Hvn) as (K & Hbs' & Hx').
    split; [done|]. split.
    + cbn [app blocks_at]. split; [|exact Hbs']. cbn [next_of] in Hh |- *.
      apply (hdr_ext h); [|done]. intros x Hx. apply Hx'; [|right; unfold HEADER in *; lia].
      by apply (valid_range_at _ _ _ _ Hvh).
    + intros x Hx Hu. apply Hx'; [done|]. destruct Hu as [[[_ Hu]|Hu]|Hu];
        [right; unfold HEADER in *; lia|by left|right; unfold HEADER in *; lia].
Qed.
End growth.

(** ** The coalescing pass of [kheap_free] *)
Section coalescing.
Context {S : Type} `{!BMem S} `{!BMemOk S} `{!Pages S} `{!Console S} `{!PagesOk S} `{!ConsoleOk S}.
Implicit Types h : heap S.

Lemma coalesce_step_last h a n f :
  hdr h a n f NULL -> 0 < a -> coalesce_step a h = Ret (inl NULL) h.
Proof.
  intros Hh Ha. destruct (get_fields _ _ _ _ _ Hh) as (En & Enx & v & Ev & Evf).
  unfold coalesce_step. destruct (Z.eqb_spec a NULL) as [E|_]; [unfold NULL in E; lia|].
  rewrite (kbind_ret _ _ _ _ _ Ev), (kbind_ret _ _ _ _ _ Enx).
  change (NULL =? NULL) with true. rewrite andb_false_r.
  rewrite (kbind_ret _ _ h 0 h) by done. cbn [Z.eqb negb]. by rewrite (kbind_ret _ _ _ _ _ Enx).
Qed.

(** A block and its successor, in the order of the source's accesses. *)
Lemma coalesce_step_next h a n f n' f' nx :
  let b := a + HEADER + n in
  hdr h a n f b -> hdr h b n' f' nx -> 0 < a -> 0 <= n -> 0 <= n' ->
  b + HEADER + n' < 2 ^ 64 -> valid_range h a (HEADER + n + HEADER) -> 0 <= nx < 2 ^ 64 ->
  if f && f' then
    exists h', coalesce_step a h = Ret (inl a) h' /\ kept h h' /\
      hdr h' a (n + HEADER + n') true nx /\
      forall x, valid h x -> ~ (a <= x < a + HEADER) -> rb h' x = rb h x
  else coalesce_step a h = Ret (inl b) h.
Proof.
  intros b Ha Hb Ha0 Hn Hn' Hend Hv Hnx.
  destruct (get_fields _ _ _ _ _ Ha) as (En & Enx & v & Ev & Evf).
  destruct (get_fields _ _ _ _ _ Hb) as (En' & Enx' & v' & Ev' & Evf').
  assert (Hb0 : (b =? NULL) = false) by (unfold b, NULL, HEADER in *; zcase; lia || done).
  assert (Hstart : coalesce_step a h =
    (if f && f' then
       (put_size a (u64 (n + (HEADER + n')));; nnext ← get_next b; put_next a nnext;; mret (inl a)) h
     else Ret (inl b) h)).
  { unfold coalesce_step. destruct (Z.eqb_spec a NULL) as [E|_]; [unfold NULL in E; lia|].
    rewrite (kbind_ret _ _ _ _ _ Ev), (kbind_ret _ _ _ _ _ Enx), Evf, Hb0, negb_involutive.
    destruct f; cbn [andb negb].
    - rewrite (kbind_ret _ _ _ _ _ Ev'), Evf', negb_involutive. destruct f'.
      + by rewrite (kbind_ret _ _ _ _ _ En), (kbind_ret _ _ _ _ _ En').
      + by rewrite (kbind_ret _ _ _ _ _ Enx).
    - rewrite (kbind_ret _ _ h 0 h) by done. cbn [Z.eqb negb]. by rewrite (kbind_ret _ _ _ _ _ Enx). }
  rewrite Hstart. destruct (f && f') eqn:Eff; [|done].
  apply andb_true_iff in Eff as [-> ->].
  rewrite (wrap_small 64 (n + (HEADER + n'))) by (unfold b, HEADER in *; lia).
  replace (n + (HEADER + n')) with (n + HEADER + n') by lia.
  assert (Hva : valid_range h a HEADER) by (apply (valid_range_sub _ _ _ _ _ Hv); unfold HEADER; lia).
  destruct (hdr_put_size h a n true b (n + HEADER + n') Hva Ha ltac:(unfold b, HEADER in *; lia))
    as (K1 & H1 & R1). cbv zeta in K1, H1, R1. set (h1 := st64 a (n + HEADER + n') h) in *.
  destruct (hdr_put_next h1 a _ true b nx (kept_range _ _ _ _ K1 Hva) H1 Hnx) as (K2 & H2 & R2).
  cbv zeta in K2, H2, R2. set (h2 := st64 (a + OFF_NEXT) nx h1) in *.
  exists h2. split; [|split; [by apply (kept_trans _ _ _ K1)|split; [exact H2|]]].
  - rewrite (kbind_ret _ _ h tt h1) by done.
    rewrite (kbind_ret _ _ h1 nx h1); [done|]. unfold get_next, kasks. f_equal.
    destruct Hb as (_ & _ & <-). unfold h1, OFF_NEXT. apply (load_store_ne 8 8).
    + apply (valid_range_sub _ _ _ _ _ Hva); unfold HEADER; lia.
    + apply (valid_range_sub _ _ _ _ _ Hv); unfold b, HEADER; lia.
    + unfold b, HEADER. lia.
  - intros x Hx Hout. rewrite R2, R1; [done|done|done| |done]. by apply (k_valid _ _ K1).
Qed.

Lemma coalesce_run r : forall h a n f e fuel,
  blocks_at h a ((n, f) :: r) e -> valid_range h a (e - a) -> 0 < a -> e < 2 ^ 64 ->
  (length r + 2 <= fuel)%nat ->
  exists h', kloop fuel coalesce_step a h = Ret tt h' /\ kept h h' /\
    blocks_at h' a (merge_blocks n f r) e /\
    forall x, valid h x -> ~ in_header a ((n, f) :: r) x -> rb h' x = rb h x.
Proof.
  induction r as [|[n' f'] r IH]; intros h a n f e fuel Hbs Hv Ha He Hfuel;
    pose proof (blocks_at_pos _ _ _ _ Hbs) as Hpos;
    pose proof (blocks_at_span _ _ _ _ Hbs) as Hspan;
    destruct fuel as [|fuel]; try (cbn in Hfuel; lia).
  - destruct Hbs as [Hh Hr]. destruct fuel as [|fuel]; [cbn in Hfuel; lia|].
    exists h. split; [|split; [apply kept_refl|split; [by split|done]]].
    rewrite (kloop_next _ _ _ NULL _ h) by (by eapply coalesce_step_last).
    by apply kloop_exit.
  - destruct Hbs as [Hh Hr]. pose proof Hr as [Hh' Hr'].
    apply blocks_pos_cons in Hpos as [Hn Hpos']. pose proof Hpos' as Hpos2.
    apply blocks_pos_cons in Hpos2 as [Hn' Hpos]. cbn [fst] in Hn, Hn'.
    cbn [span] in Hspan. pose proof (span_nonneg _ Hpos) as Hsp. cbn in Hfuel.
    assert (Hnx : 0 <= next_of (a + HEADER + n) n' r < 2 ^ 64)
      by (destruct Hh' as (_ & _ & <-); apply ld64_range).
    pose proof (coalesce_step_next h a n f n' f' _ Hh Hh' Ha Hn Hn'
      ltac:(unfold HEADER in *; lia)
      ltac:(apply (valid_range_sub _ _ _ _ _ Hv); unfold HEADER in *; lia) Hnx) as Hstep.
    cbn [merge_blocks]. destruct (f && f') eqn:Eff.
    + apply andb_true_iff in Eff as [-> ->]. destruct Hstep as (h1 & E1 & K1 & H1 & R1).
      assert (Hbs1 : blocks_at h1 a ((n + HEADER + n', true) :: r) e).
      { split.
        - replace (next_of a (n + HEADER + n') r) with (next_of (a + HEADER + n) n' r); [done|].
          destruct r; [done|]. cbn [next_of]. lia.
        - replace (a + HEADER + (n + HEADER + n')) with (a + HEADER + n + HEADER + n') by lia.
          apply (blocks_at_ext h); [|done]. intros x Hx. apply in_header_bounds in Hx; [|done].
          apply R1; [|unfold HEADER in *; lia].
          apply (valid_range_at _ _ _ _ Hv). unfold HEADER in *. lia. }
      destruct (IH h1 a (n + HEADER + n') true e fuel Hbs1 (kept_range _ _ _ _ K1 Hv) Ha He
                  ltac:(lia)) as (h2 & E2 & K2 & H2 & R2).
      exists h2. split_and!; [by rewrite (kloop_next _ _ _ _ _ _ E1)
                             |by apply (kept_trans _ _ _ K1)|done|].
      intros x Hx Hout. rewrite R2; [apply R1; [done|]| |].
      * intros Hin. apply Hout. by left.
      * by apply (k_valid _ _ K1).
      * intros [Hin|Hin]; apply Hout; [by left|right; right].
        by replace (a + HEADER + n + HEADER + n') with (a + HEADER + (n + HEADER + n')) by lia.
    + destruct (IH h (a + HEADER + n) n' f' e fuel Hr
        ltac:(apply (valid_range_sub _ _ _ _ _ Hv); unfold HEADER in *; lia)
        ltac:(unfold HEADER in *; lia) He ltac:(lia)) as (h2 & E2 & K2 & H2 & R2).
      exists h2. split_and!; [by rewrite (kloop_next _ _ _ _ _ _ Hstep)|done| |].
      * destruct (merge_no_free_pair n' f' r) as [_ (n2 & r2 & Em)]. rewrite Em in *.
        split; [|exact H2]. apply (hdr_ext h); [|exact Hh].
        intros x Hx. apply R2.
        -- apply (valid_range_at _ _ _ _ Hv). unfold HEADER in *. lia.
        -- intros Hin. apply in_header_bounds in Hin; [|done]. unfold HEADER in *. lia.
      * intros x Hx Hout. apply R2; [done|]. intros Hin. apply Hout. by right.
Qed.

(** Changing the free flag of one block. *)
Lemma mark_run h pre n f post a e v :
  blocks_at h a (pre ++ (n, f) :: post) e -> valid_range h a (e - a) -> u32 v = v ->
  let b := a + span pre in
  let h' := st32 (b + OFF_FREE) v h in
  kept h h' /\ blocks_at h' a (pre ++ (n, negb (v =? 0)) :: post) e /\
  forall x, valid h x -> ~ (b <= x < b + HEADER) -> rb h' x = rb h x.
Proof.
  revert a. induction pre as [|[n0 f0] pre IH]; intros a Hbs Hv Ev b h'.
  - subst h' b. cbn [app span] in *. rewrite !Z.add_0_r.
    pose proof (blocks_at_pos _ _ _ _ Hbs) as Hpos. pose proof (blocks_at_span _ _ _ _ Hbs) as Hspan.
    destruct Hbs as [Hh Hr]. apply blocks_pos_cons in Hpos as [Hn Hpos]. cbn [fst] in Hn.
    cbn [span] in Hspan. pose proof (span_nonneg _ Hpos) as Hsp.
    destruct (hdr_put_free h a n f _ v
      ltac:(apply (valid_range_sub _ _ _ _ _ Hv); unfold HEADER in *; lia) Hh Ev) as (K & H1 & R1).
    split; [done|]. split; [|done]. split; [exact H1|].
    apply (blocks_at_ext h); [|done]. intros x Hx. apply in_header_bounds in Hx; [|done].
    apply R1; [|unfold HEADER in *; lia].
    apply (valid_range_at _ _ _ _ Hv). unfold HEADER in *. lia.
  - cbn [app span] in *.
    pose proof (blocks_at_pos _ _ _ _ Hbs) as Hpos. pose proof (blocks_at_span _ _ _ _ Hbs) as Hspan.
    destruct Hbs as [Hh Hr]. apply blocks_pos_cons in Hpos as [Hn Hpos]. cbn [fst] in Hn.
    cbn [span] in Hspan. pose proof (span_nonneg _ Hpos) as Hsp.
    destruct (IH (a + HEADER + n0) Hr
      ltac:(apply (valid_range_sub _ _ _ _ _ Hv); unfold HEADER in *; lia) Ev) as (K & H1 & R1).
    assert (Eb : a + HEADER + n0 + span pre = b) by (unfold b; lia). rewrite Eb in K, H1, R1.
    assert (Hpp : 0 <= span pre).
    { apply span_nonneg. intros c Hc. apply Hpos, elem_of_app. by left. }
    split; [done|]. split; [|done]. split; [|exact H1].
    replace (next_of a n0 (pre ++ (n, negb (v =? 0)) :: post))
      with (next_of a n0 (pre ++ (n, f) :: post)) by (by destruct pre).
    apply (hdr_ext h); [|done]. intros x Hx. apply R1.
    + apply (valid_range_at _ _ _ _ Hv). unfold HEADER in *. lia.
    + unfold b, HEADER in *. lia.
Qed.
End coalescing.

(** ** Well-formed heaps and correct allocations *)
Section properties.
Context {S : Type} `{!BMem S} `{!BMemOk S} `{!Pages S} `{!Console S} `{!PagesOk S} `{!ConsoleOk S}.
Implicit Types h : heap S.

(** The blocks [bs] fill the mapped range from [HEAP_START] to [e]. *)
Record heap_wf h (bs : blocks) (e : Z) : Prop := {
  hw_list : free_list h = HEAP_START;
  hw_some : bs <> [];
  hw_blocks : blocks_at h HEAP_START bs e;
  hw_end : e <= HEAP_END;
  hw_page : e mod 4096 = 0;
  hw_valid : valid_range h HEAP_START (e - HEAP_START);
  hw_inv : pg_inv (inner h);
}.

(** [p] is a fresh block of [size] bytes: valid, in use now, not in use
    before; and every byte that was in use still is, with its value. *)
Record allocated h (bs : blocks) (p size : Z) h' (bs' : blocks) : Prop := {
  al_fresh : forall x, p <= x < p + size ->
    valid h' x /\ in_used HEAP_START bs' x /\ ~ in_used HEAP_START bs x;
  al_kept : forall x, in_used HEAP_START bs x ->
    in_used HEAP_START bs' x /\ rb h' x = rb h x;
}.

Lemma hw_bounds h bs e : heap_wf h bs e -> 0 < HEAP_START /\ e < 2 ^ 64.
Proof.
  intros H. pose proof (hw_end _ _ _ H). unfold HEAP_END, HEAP_START in *.
  change (2 ^ 38) with 274877906944 in *. lia.
Qed.

Lemma used_valid h bs e x : heap_wf h bs e -> in_used HEAP_START bs x -> valid h x.
Proof.
  intros H Hx. pose proof (blocks_at_span _ _ _ _ (hw_blocks _ _ _ H)).
  apply in_used_bounds in Hx; [|apply (blocks_at_pos _ _ _ _ (hw_blocks _ _ _ H))].
  apply (valid_range_at _ _ _ _ (hw_valid _ _ _ H)). lia.
Qed.

Lemma in_used_snoc a bs n f x :
  in_used a (bs ++ [(n, f)]) x <->
  in_used a bs x \/ (f = false /\ a + span bs + HEADER <= x < a + span bs + HEADER + n).
Proof.
  revert a. induction bs as [|[n0 f0] bs IH]; intros a; cbn [app in_used span].
  - rewrite Z.add_0_r. intuition.
  - rewrite IH. replace (a + HEADER + n0 + span bs) with (a + (HEADER + n0 + span bs)) by lia.
    intuition.
Qed.

(** The request fits: first fit. *)
Lemma kmalloc_fit_run h bs e fuel size p bs' :
  heap_wf h bs e -> 0 < size -> size + 15 < 2 ^ 64 -> (length bs <= fuel)%nat ->
  alloc_blocks HEAP_START (round16 size) bs = Some (p, bs') ->
  exists h', kmalloc fuel size h = Ret p h' /\ heap_wf h' bs' e /\
    heap_current h' = heap_current h /\ allocated h bs p size h' bs' /\
    pg_budget (inner h') = pg_budget (inner h).
Proof.
  intros H Hs Hs' Hfuel Ea. destruct (hw_bounds _ _ _ H) as [H0 He].
  pose proof (round16_bounds size Hs) as Hr. pose proof (hw_blocks _ _ _ H) as Hbs.
  pose proof (alloc_search h (round16 size) ltac:(lia) bs HEAP_START e fuel Hbs (hw_some _ _ _ H)
                (hw_valid _ _ _ H) H0 He Hfuel) as Hsearch.
  rewrite Ea in Hsearch. destruct Hsearch as (h' & E & K & Hbs' & Hx).
  destruct (alloc_blocks_spec HEAP_START (round16 size) bs p bs'
              (blocks_at_pos _ _ _ _ Hbs) ltac:(lia) Ea)
    as (Hne & Hpos' & Hsp & Hin & Hnin & Hmono).
  assert (Hwf' : heap_wf h' bs' e).
  { split; [by rewrite (k_list _ _ K), (hw_list _ _ _ H)|done|done|apply H|apply H| |].
    - apply (kept_range _ _ _ _ K), H.
    - apply (k_inv _ _ K), H. }
  exists h'. split_and!; [|done|apply K| |apply K, H].
  - unfold kmalloc, kheap_alloc. destruct (Z.eqb_spec size 0); [lia|].
    rewrite round16_run by lia. rewrite (kbind_ret _ _ h HEAP_START h)
      by (unfold kasks; by rewrite (hw_list _ _ _ H)).
    by rewrite (kbind_ret _ _ _ _ _ E).
  - split.
    + intros x Hxp. assert (Hu : in_used HEAP_START bs' x) by (apply Hin; lia).
      split_and!; [by apply (used_valid _ _ _ _ Hwf')|done|apply Hnin; lia].
    + intros x Hu. split; [by apply Hmono|]. apply Hx; [|by left].
      by apply (used_valid _ _ _ _ H).
Qed.

(** The request does not fit: a new block at the end. *)
Lemma kmalloc_grow_run h bs e fuel size :
  let n := round16 size in
  heap_wf h bs e -> heap_current h = e -> 0 < size -> size + 15 < 2 ^ 64 ->
  (length bs <= fuel)%nat -> alloc_blocks HEAP_START n bs = None ->
  (Z.to_nat (grow_size n / 4096) <= pg_budget (inner h))%nat -> e + grow_size n <= HEAP_END ->
  let bs' := bs ++ [(grow_size n - HEADER, false)] in
  exists h', kmalloc fuel size h = Ret (e + HEADER) h' /\ heap_wf h' bs' (e + grow_size n) /\
    heap_current h' = e + grow_size n /\ allocated h bs (e + HEADER) size h' bs' /\
    (pg_budget (inner h) <= Z.to_nat (grow_size n / 4096) + pg_budget (inner h'))%nat.
Proof.
  intros n H Hc Hs Hs' Hfuel Ea Hb Hend bs'. destruct (hw_bounds _ _ _ H) as [H0 He].
  pose proof (round16_bounds size Hs) as Hr. fold n in Hr. pose proof (hw_blocks _ _ _ H) as Hbs.
  assert (Hlo : HEAP_START <= e).
  { pose proof (blocks_at_span _ _ _ _ Hbs) as Hsp.
    pose proof (span_nonneg _ (blocks_at_pos _ _ _ _ Hbs)). lia. }
  assert (Hg : n + HEADER <= grow_size n /\ grow_size n mod 4096 = 0).
  { split; [unfold grow_size; zdiv|]. unfold grow_size. apply Z.mod_mul. lia. }
  unfold HEADER in Hg.
  pose proof (alloc_search h n ltac:(lia) bs HEAP_START e fuel Hbs (hw_some _ _ _ H)
                (hw_valid _ _ _ H) H0 He Hfuel) as Hsearch. rewrite Ea in Hsearch.
  destruct (request_run h n) as (h1 & E1 & Hc1 & Hl1 & Hi1 & Hh1 & Hv1 & Hr1 & Hb1);
    [apply H|lia|done|rewrite Hc; apply H|lia|lia|]. rewrite Hc in *.
  assert (Hbs1 : blocks_at h1 HEAP_START bs e).
  { apply (blocks_at_ext h); [|done]. intros x Hx.
    apply in_header_bounds in Hx; [|exact (blocks_at_pos _ _ _ _ Hbs)].
    pose proof (blocks_at_span _ _ _ _ Hbs).
    apply Hr1; [|lia]. apply (valid_range_at _ _ _ _ (hw_valid _ _ _ H)). lia. }
  destruct (append_run h1 e (grow_size n - HEADER) false bs HEAP_START Hbs1 (hw_some _ _ _ H)
    ltac:(intros i Hi; apply Hv1; left; by apply (hw_valid _ _ _ H)) H0 He _ eq_refl Hh1
    ltac:(intros x Hx; apply Hv1; right; unfold HEADER in *; lia)) as (K & Hbs2 & Hr2).
  set (h2 := st64 (last_addr HEAP_START bs + OFF_NEXT) e h1) in *.
  replace (e + HEADER + (grow_size n - HEADER)) with (e + grow_size n) in Hbs2 by lia.
  assert (Hwf' : heap_wf h2 bs' (e + grow_size n)).
  { split; [by rewrite (k_list _ _ K), Hl1, (hw_list _ _ _ H)|by destruct bs|done|done| | |].
    - pose proof (hw_page _ _ _ H). zdiv.
    - intros i Hi. apply (k_valid _ _ K), Hv1.
      destruct (decide (HEAP_START + i < e)); [left|right; lia].
      apply (valid_range_at _ _ _ _ (hw_valid _ _ _ H)). lia.
    - by apply (k_inv _ _ K). }
  exists h2. split_and!; [|done|by rewrite (k_current _ _ K)| |by rewrite (k_budget _ _ K)].
  - unfold kmalloc, kheap_alloc. destruct (Z.eqb_spec size 0); [lia|].
    rewrite round16_run by lia. fold n. rewrite (kbind_ret _ _ h HEAP_START h)
      by (unfold kasks; by rewrite (hw_list _ _ _ H)).
    rewrite (kbind_ret _ _ _ _ _ Hsearch), (kbind_ret _ _ _ _ _ E1).
    unfold HEADER at 1. destruct (Z.eqb_spec (e + 24) NULL); [unfold NULL in *; lia|].
    destruct (Z.eqb_spec (last_addr HEAP_START bs) NULL) as [E0|_].
    { exfalso. revert E0. unfold last_addr, NULL.
      pose proof (blocks_at_pos _ _ _ _ Hbs) as Hpos. clear -H0 Hpos.
      assert (0 <= span (removelast bs)).
      { apply span_nonneg. intros b Hb. apply Hpos.
        destruct bs as [|l x _] using rev_ind; [by apply elem_of_nil in Hb|].
        rewrite removelast_last in Hb. apply elem_of_app. by left. }
      destruct bs; lia. }
    unfold put_next. rewrite (kbind_ret _ _ _ tt h2); [done|]. unfold kmod, h2.
    replace (u64 (e + HEADER - HEADER)) with e; [done|].
    rewrite wrap_small by lia. lia.
  - pose proof (blocks_at_span _ _ _ _ Hbs) as Hsp. split.
    + intros x Hx. assert (Hu : in_used HEAP_START bs' x).
      { apply in_used_snoc. right. split; [done|]. unfold HEADER in *. lia. }
      split_and!; [by apply (used_valid _ _ _ _ Hwf')|done|].
      intros Hu'. apply in_used_bounds in Hu'; [|exact (blocks_at_pos _ _ _ _ Hbs)]. unfold HEADER in *. lia.
    + intros x Hu. split; [apply in_used_snoc; by left|].
      pose proof (used_valid _ _ _ _ H Hu) as Hvx.
      assert (x < e) by (apply in_used_bounds in Hu; [lia|exact (blocks_at_pos _ _ _ _ Hbs)]).
      rewrite Hr2; [apply Hr1; [done|lia]|apply Hv1; by left|by left].
Qed.

Lemma heap_wf_current h bs e v : heap_wf h bs e -> heap_wf (set_heap_current v h) bs e.
Proof.
  intros []. split; try done. by apply (blocks_at_ext h).
Qed.

Lemma kept_memset h p c n t :
  0 <= n -> valid_range h p n -> memset p c n h = Ret p t -> kept h t.
Proof.
  intros Hn Hv. unfold memset. intros [= <-].
  pose proof (for_up_ind (fun i t => kept h t) (Z.to_nat n) 0
                (fun i t => wb (p + i) (u8 c) t) h) as HI. apply HI; [apply kept_refl|].
  intros i t Hi K. apply (kept_trans _ _ _ K), kept_wb, (k_valid _ _ K), Hv. lia.
Qed.

(** Writing payload bytes keeps the heap well formed. *)
Lemma heap_wf_payload h h' bs e :
  heap_wf h bs e -> kept h h' ->
  (forall x, valid h x -> ~ in_used HEAP_START bs x -> rb h' x = rb h x) -> heap_wf h' bs e.
Proof.
  intros H K Hx. pose proof (blocks_at_pos _ _ _ _ (hw_blocks _ _ _ H)) as Hpos.
  split; [by rewrite (k_list _ _ K), (hw_list _ _ _ H)|apply H| |apply H|apply H| |].
  - apply (blocks_at_ext h); [|apply H]. intros x Hin. apply Hx.
    + pose proof (blocks_at_span _ _ _ _ (hw_blocks _ _ _ H)).
      apply in_header_bounds in Hin; [|done].
      apply (valid_range_at _ _ _ _ (hw_valid _ _ _ H)). lia.
    + by apply header_not_used.
  - apply (kept_range _ _ _ _ K), H.
  - apply (k_inv _ _ K), H.
Qed.

(** [kzalloc] after a successful [kmalloc]. *)
Lemma kzalloc_run h bs e fuel size p h1 bs' e' :
  heap_wf h bs e -> 0 < size -> p <> NULL -> kmalloc fuel size h = Ret p h1 ->
  heap_wf h1 bs' e' -> allocated h bs p size h1 bs' ->
  exists h', kzalloc fuel size h = Ret p h' /\ heap_wf h' bs' e' /\
    heap_current h' = heap_current h1 /\ allocated h bs p size h' bs' /\
    forall x, p <= x < p + size -> rb h' x = 0.
Proof.
  intros H Hs Hp E H1 A.
  assert (Hv : valid_range h1 p size) by (intros i Hi; apply (al_fresh _ _ _ _ _ _ A); lia).
  assert (Hs0 : 0 <= size) by lia.
  destruct (memset_spec h1 p 0 size Hs0 Hv) as (h' & Em & Hvm & Hr).
  pose proof (kept_memset _ _ _ _ _ Hs0 Hv Em) as K. exists h'. split_and!.
  - unfold kzalloc. rewrite (kbind_ret _ _ _ _ _ E).
    destruct (Z.eqb_spec p NULL); [done|]. cbn [negb].
    rewrite (kbind_ret _ _ _ tt h'); [done|]. unfold kwhen.
    rewrite (kbind_ret _ _ _ _ _ Em). done.
  - apply (heap_wf_payload h1); [done..|]. intros x Hx Hu. rewrite Hr by done.
    destruct (Z.leb_spec p x), (Z.ltb_spec x (p + size)); cbn; try done.
    exfalso. apply Hu, (al_fresh _ _ _ _ _ _ A). lia.
  - apply K.
  - split.
    + intros x Hx. destruct (al_fresh _ _ _ _ _ _ A x Hx) as (? & ? & ?).
      split_and!; [by apply (k_valid _ _ K)|done|done].
    + intros x Hu. destruct (al_kept _ _ _ _ _ _ A x Hu) as [Hu' Ex]. split; [done|].
      rewrite <- Ex. rewrite Hr by (by apply (used_valid _ _ _ _ H1)).
      destruct (Z.leb_spec p x), (Z.ltb_spec x (p + size)); cbn; try done.
      exfalso. by apply (al_fresh _ _ _ _ _ _ A x ltac:(lia)).
  - intros x Hx. rewrite Hr by (by apply (al_fresh _ _ _ _ _ _ A)).
    destruct (Z.leb_spec p x), (Z.ltb_spec x (p + size)); cbn; try done; lia.
Qed.

(** The first block, as [init_kheap] leaves it. *)
Lemma init_kheap_run h :
  pg_inv (inner h) -> (1 <= pg_budget (inner h))%nat ->
  exists h', init_kheap h = Ret (4096 - HEADER) h' /\
    heap_wf h' [(4096 - HEADER, true)] (HEAP_START + 4096) /\ heap_current h' = HEAP_START /\
    (pg_budget (inner h) <= Datatypes.S (pg_budget (inner h')))%nat.
Proof.
  intros Hi Hb. set (h0 := set_heap_current HEAP_START h).
  destruct (klift_grow h0 Hi Hb) as (p & s1 & E & Hp0 & _ & _ & _ & Hmap).
  destruct (Hmap [Print "Kheap..."] HEAP_START eq_refl) as (s2 & Em & Hi2 & Hb2 & Hv2 & _).
  { left. intros a Ha. unfold in_page, heap_va, HEAP_END in *. change (2 ^ 38) with 274877906944. lia. }
  set (h2 := set_free_list HEAP_START (set_inner s2 h0)).
  assert (Hv : valid_range h2 HEAP_START 4096).
  { intros i Hin. apply Hv2. right. unfold in_page. lia. }
  destruct (hdr_new h2 HEAP_START (4096 - HEADER) 1 NULL
    ltac:(apply (valid_range_sub _ _ _ _ _ Hv); unfold HEADER; lia)
    ltac:(unfold HEADER; lia) ltac:(unfold NULL; lia) eq_refl) as (K & Hh & _).
  set (h3 := st64 (HEAP_START + OFF_NEXT) NULL _) in *.
  destruct (put_events_mem ok_events (inner h3)) as (Hr & Hve & Hie & Hbe).
  set (h4 := set_inner (put_events ok_events (inner h3)) h3).
  assert (Hh4 : hdr h4 HEAP_START (4096 - HEADER) true NULL)
    by (apply (hdr_ext h3); [intros x _; apply Hr|exact Hh]).
  exists h4. split; [|split; [|split]].
  - unfold init_kheap. rewrite (kbind_ret _ _ h tt h0) by done.
    rewrite (kbind_ret _ _ _ _ _ E).
    rewrite (kbind_ret _ _ _ tt (put_events [Print "Kheap..."] (set_inner s1 h0))) by done.
    destruct (Z.eqb_spec p 0); [lia|].
    rewrite (kbind_ret _ _ _ HEAP_START (put_events [Print "Kheap..."] (set_inner s1 h0))) by done.
    rewrite (kbind_ret _ _ _ _ _ Em).
    rewrite (kbind_ret _ _ _ tt h2) by done. rewrite (kbind_ret _ _ _ HEAP_START h2) by done.
    change PAGE_SIZE_VMM with 4096. unfold put_size, put_free, put_next.
    rewrite (kbind_ret _ _ h2 tt (st64 HEAP_START (4096 - HEADER) h2)) by done.
    rewrite (kbind_ret _ _ _ tt (st32 (HEAP_START + OFF_FREE) 1
                                   (st64 HEAP_START (4096 - HEADER) h2))) by done.
    rewrite (kbind_ret _ _ _ tt h3) by done.
    rewrite (kbind_ret _ _ h3 tt h4); [apply (get_fields _ _ _ _ _ Hh4)|].
    by rewrite kok_run.
  - split; [by change (free_list h4) with (free_list h3); rewrite (k_list _ _ K)|done| | |done| |].
    + split; [exact Hh4|]. cbn. unfold HEADER. lia.
    + unfold HEAP_END. change (2 ^ 38) with 274877906944. lia.
    + intros i Hin. apply Hve, (k_valid _ _ K), Hv. lia.
    + by apply Hie, (k_inv _ _ K).
  - change (heap_current h4) with (heap_current h3). by rewrite (k_current _ _ K).
  - change (inner h4) with (put_events ok_events (inner h3)). rewrite Hbe, (k_budget _ _ K) by done. exact Hb2.
Qed.

(** Growth when [heap_current] still is [HEAP_START], as [init_kheap] leaves
    it: the new block is placed over the first page. *)
Lemma kmalloc_regrow_run h bs e fuel size :
  let n := round16 size in
  heap_wf h bs e -> heap_current h = HEAP_START -> 0 < size -> size + 15 < 2 ^ 64 ->
  (length bs <= fuel)%nat -> alloc_blocks HEAP_START n bs = None ->
  (Z.to_nat (grow_size n / 4096) <= pg_budget (inner h))%nat ->
  HEAP_START + grow_size n <= HEAP_END ->
  exists h1, kmalloc fuel size h
      = Ret (HEAP_START + HEADER) (st64 (last_addr HEAP_START bs + OFF_NEXT) HEAP_START h1) /\
    free_list h1 = HEAP_START /\ pg_inv (inner h1) /\
    hdr h1 HEAP_START (grow_size n - HEADER) false NULL /\
    valid_range h1 HEAP_START (grow_size n) /\ heap_current h1 = HEAP_START + grow_size n /\
    (pg_budget (inner h) <= Z.to_nat (grow_size n / 4096) + pg_budget (inner h1))%nat.
Proof.
  intros n H Hc Hs Hs' Hfuel Ea Hb Hend. destruct (hw_bounds _ _ _ H) as [H0 He].
  pose proof (round16_bounds size Hs) as Hr. fold n in Hr. pose proof (hw_blocks _ _ _ H) as Hbs.
  assert (Hg : n + HEADER <= grow_size n) by (unfold grow_size; zdiv).
  pose proof (alloc_search h n ltac:(lia) bs HEAP_START e fuel Hbs (hw_some _ _ _ H)
                (hw_valid _ _ _ H) H0 He Hfuel) as Hsearch. rewrite Ea in Hsearch.
  destruct (request_run h n) as (h1 & E1 & Hc1 & Hl1 & Hi1 & Hh1 & Hv1 & Hr1 & Hb1);
    [apply H|lia|done|by rewrite Hc|rewrite Hc; lia|rewrite Hc; lia|]. rewrite Hc in *.
  exists h1. split_and!; [|by rewrite Hl1, (hw_list _ _ _ H)|done|apply Hh1..| |done|done].
  - unfold kmalloc, kheap_alloc. destruct (Z.eqb_spec size 0); [lia|].
    rewrite round16_run by lia. fold n. rewrite (kbind_ret _ _ h HEAP_START h)
      by (unfold kasks; by rewrite (hw_list _ _ _ H)).
    rewrite (kbind_ret _ _ _ _ _ Hsearch), (kbind_ret _ _ _ _ _ E1).
    change (HEAP_START + HEADER =? NULL) with false. cbv iota.
    assert (Hl : HEAP_START <= last_addr HEAP_START bs).
    { pose proof (blocks_at_pos _ _ _ _ Hbs) as Hpos. unfold last_addr. clear -H0 Hpos.
      assert (0 <= span (removelast bs)).
      { apply span_nonneg. intros b Hb. apply Hpos.
        destruct bs as [|l x _] using rev_ind; [by apply elem_of_nil in Hb|].
        rewrite removelast_last in Hb. apply elem_of_app. by left. }
      destruct bs; lia. }
    destruct (Z.eqb_spec (last_addr HEAP_START bs) NULL) as [E0|_]; [unfold NULL in E0; lia|].
    by replace (u64 (HEAP_START + HEADER - HEADER)) with HEAP_START by done.
  - intros i Hi. apply Hv1. right. lia.
Qed.

(** If the last header of the old list lies in the new block, the new block is
    the whole heap afterwards. *)
Lemma kmalloc_regrow_wf h bs e fuel size :
  let n := round16 size in
  heap_wf h bs e -> heap_current h = HEAP_START -> 0 < size -> size + 15 < 2 ^ 64 ->
  (length bs <= fuel)%nat -> alloc_blocks HEAP_START n bs = None ->
  (Z.to_nat (grow_size n / 4096) <= pg_budget (inner h))%nat ->
  HEAP_START + grow_size n <= HEAP_END ->
  HEAP_START + HEADER <= last_addr HEAP_START bs ->
  last_addr HEAP_START bs + HEADER <= HEAP_START + grow_size n ->
  exists h', kmalloc fuel size h = Ret (HEAP_START + HEADER) h' /\
    heap_wf h' [(grow_size n - HEADER, false)] (HEAP_START + grow_size n) /\
    heap_current h' = HEAP_START + grow_size n /\
    (pg_budget (inner h) <= Z.to_nat (grow_size n / 4096) + pg_budget (inner h'))%nat.
Proof.
  intros n H Hc Hs Hs' Hfuel Ea Hb Hend Hlo Hhi. pose proof (round16_bounds size Hs) as Hr. fold n in Hr.
  assert (Hg : n + HEADER <= grow_size n) by (unfold grow_size; zdiv).
  destruct (kmalloc_regrow_run h bs e fuel size H Hc Hs Hs' Hfuel Ea Hb Hend)
    as (h1 & E & Hl & Hi & Hh & Hv & Hc1 & Hb1). fold n in Hh, Hv, Hc1, Hb1.
  set (l := last_addr HEAP_START bs) in *. unfold HEADER in Hlo, Hhi, Hg.
  assert (Hvl : valid_range h1 (l + OFF_NEXT) (Z.of_nat 8))
    by (apply (valid_range_sub _ _ _ _ _ Hv); unfold OFF_NEXT; lia).
  assert (K : kept h1 (st64 (l + OFF_NEXT) HEAP_START h1)) by (by apply kept_store).
  eexists. split; [exact E|]. split_and!.
  - split; [by rewrite (k_list _ _ K)|done| |done| | |by apply (k_inv _ _ K)].
    + split; [|cbn; unfold HEADER; lia]. apply (hdr_ext h1); [|exact Hh].
      intros x Hx. apply rb_store_ne; [done| |unfold OFF_NEXT, HEADER in *; lia].
      apply (valid_range_at _ _ _ _ Hv). unfold HEADER in *; lia.
    + unfold grow_size. rewrite Z.mod_add by lia. done.
    + replace (HEAP_START + grow_size n - HEAP_START) with (grow_size n) by lia. by apply (kept_range _ _ _ _ K).
  - by rewrite (k_current _ _ K).
  - by rewrite (k_budget _ _ K).
Qed.

(** C9: a request that fits some free block is served by the first one that
    fits: the answer points at [size] valid bytes that no live allocation used,
    they are marked used, every byte of every live allocation keeps its value,
    and the list of blocks stays well formed.  No more turns of the search are
    needed than there are blocks. *)
Theorem kmalloc_first_fit h bs e fuel size p bs'
    (Hwf : heap_wf h bs e) (Hs : 0 < size) (Hs' : size + 15 < 2 ^ 64)
    (Hfuel : (length bs <= fuel)%nat)
    (Hfit : alloc_blocks HEAP_START (round16 size) bs = Some (p, bs')) :
  exists h', kmalloc fuel size h = Ret p h' /\ heap_wf h' bs' e /\
    heap_current h' = heap_current h /\ allocated h bs p size h' bs'.
Proof.
  destruct (kmalloc_fit_run h bs e fuel size p bs') as (h' & E & W & C & A & _); [done..|].
  by exists h'.
Qed.

(** C10: a request that fits no free block of a heap whose [heap_current] is the
    end of its last block gets a new block there, one page-rounded mapping
    later; nothing already allocated moves or changes. *)
Theorem kmalloc_grows h bs e fuel size
    (Hwf : heap_wf h bs e) (Hcur : heap_current h = e)
    (Hs : 0 < size) (Hs' : size + 15 < 2 ^ 64) (Hfuel : (length bs <= fuel)%nat)
    (Hfit : alloc_blocks HEAP_START (round16 size) bs = None)
    (Hpages : (Z.to_nat (grow_size (round16 size) / 4096) <= pg_budget (inner h))%nat)
    (Hroom : e + grow_size (round16 size) <= HEAP_END) :
  let bs' := bs ++ [(grow_size (round16 size) - HEADER, false)] in
  exists h', kmalloc fuel size h = Ret (e + HEADER) h' /\
    heap_wf h' bs' (e + grow_size (round16 size)) /\
    heap_current h' = e + grow_size (round16 size) /\
    allocated h bs (e + HEADER) size h' bs'.
Proof.
  destruct (kmalloc_grow_run h bs e fuel size) as (h' & E & W & C & A & _); [done..|].
  by exists h'.
Qed.


(** [init_kheap] maps one page and leaves a heap with a single free block
    that fills it; it reports the block's size. *)
Theorem init_kheap_correct h
    (Hinv : pg_inv (inner h)) (Hpage : (1 <= pg_budget (inner h))%nat) :
  exists h', init_kheap h = Ret (PAGE_SIZE_VMM - HEADER) h' /\
    heap_wf h' [(PAGE_SIZE_VMM - HEADER, true)] (HEAP_START + PAGE_SIZE_VMM).
Proof.
  destruct (init_kheap_run h Hinv Hpage) as (h' & E & Hwf & _). by exists h'.
Qed.

(** [kzalloc] of a request that fits answers a correct allocation whose
    bytes are all zero; [kcalloc] of a product that overflows [size_t] answers
    NULL and changes nothing, and is otherwise [kzalloc] of the product. *)
Theorem kzalloc_kcalloc_correct h bs e fuel n size p bs'
    (Hwf : heap_wf h bs e) (Hn : 0 < n < 2 ^ 64) (Hs : 0 < size < 2 ^ 64)
    (Hfuel : (length bs <= fuel)%nat) :
  if decide (n * size < 2 ^ 64) then
    n * size + 15 < 2 ^ 64 ->
    alloc_blocks HEAP_START (round16 (n * size)) bs = Some (p, bs') ->
    exists h', kcalloc fuel n size h = Ret p h' /\ kzalloc fuel (n * size) h = Ret p h' /\
      heap_wf h' bs' e /\ allocated h bs p (n * size) h' bs' /\
      forall x, p <= x < p + n * size -> rb h' x = 0
  else kcalloc fuel n size h = Ret NULL h.
Proof.
  assert (Hdiv : (SIZE_MAX / size <? n) = negb (bool_decide (n * size < 2 ^ 64))).
  { unfold SIZE_MAX. pose proof (Z.mul_div_le (2 ^ 64 - 1) size ltac:(lia)) as H1.
    pose proof (Z.mul_succ_div_gt (2 ^ 64 - 1) size ltac:(lia)) as H2.
    case_bool_decide; cbn [negb]; [apply Z.ltb_ge|apply Z.ltb_lt]; nia. }
  unfold kcalloc. rewrite Hdiv. clear Hdiv.
  assert (Hpos : 0 < n * size) by (apply Z.mul_pos_pos; lia).
  destruct (Z.eqb_spec n 0), (Z.eqb_spec size 0); try lia. cbn [negb andb].
  case_decide as Hp; [rewrite bool_decide_true by done|by rewrite bool_decide_false].
  intros Hr Ea. cbn [negb]. rewrite wrap_small by lia.
  destruct (kmalloc_fit_run h bs e fuel (n * size) p bs' Hwf Hpos Hr Hfuel Ea)
    as (h1 & E1 & H1 & Hc & A & _).
  assert (Hpn : p <> NULL).
  { pose proof (al_fresh _ _ _ _ _ _ A p ltac:(lia)) as (_ & Hu & _).
    apply in_used_bounds in Hu; [|exact (blocks_at_pos _ _ _ _ (hw_blocks _ _ _ H1))].
    unfold HEAP_START, NULL in *. lia. }
  destruct (kzalloc_run h bs e fuel _ p h1 bs' e Hwf Hpos Hpn E1 H1 A)
    as (h' & E & Hwf' & _ & A' & Hz).
  by exists h'.
Qed.

(** Rounding a request up to 16 bytes wraps: every request of the last 15
    sizes of [size_t] is served as a request of 0 bytes, so [kmalloc] answers
    the first free block's payload after making that block empty. *)
Theorem kmalloc_huge_request_wraps h n r e fuel size
    (Hwf : heap_wf h ((n, true) :: r) e) (Hn : HEADER < n)
    (Hs : 2 ^ 64 - 15 <= size < 2 ^ 64) (Hfuel : (length r + 1 <= fuel)%nat) :
  exists h', kmalloc fuel size h = Ret (HEAP_START + HEADER) h' /\
    heap_wf h' ((0, false) :: (n - HEADER, true) :: r) e.
Proof.
  destruct (hw_bounds _ _ _ Hwf) as [H0 He].
  pose proof (alloc_search h 0 (Z.le_refl 0) _ HEAP_START e fuel (hw_blocks _ _ _ Hwf) (hw_some _ _ _ Hwf)
                (hw_valid _ _ _ Hwf) H0 He ltac:(cbn [length]; lia)) as Hsearch.
  cbn [alloc_blocks andb] in Hsearch. pose proof (Z.leb_spec 0 n) as Hle.
  unfold HEADER in Hn. destruct Hle; [|lia].
  destruct (Z.leb_spec n (0 + HEADER)); [unfold HEADER in *; lia|].
  destruct Hsearch as (h' & E & K & Hbs' & _). exists h'. split.
  - unfold kmalloc, kheap_alloc. destruct (Z.eqb_spec size 0); [lia|].
    assert (Z.land (u64 (size + 15)) (u64 (Z.lnot 15)) = 0) as ->.
    { change (u64 (Z.lnot 15)) with (Z.shiftl (Z.ones 60) 4). rewrite land_align by lia.
      replace (u64 (size + 15)) with (size + 15 - 2 ^ 64).
      - rewrite (Z.div_small _ (2 ^ 4)); [done|]. change (2 ^ 4) with 16. lia.
      - apply (Z.mod_unique _ _ 1); lia. }
    rewrite (kbind_ret _ _ h HEAP_START h) by (unfold kasks; by rewrite (hw_list _ _ _ Hwf)).
    by rewrite (kbind_ret _ _ _ _ _ E).
  - replace (n - 0 - HEADER) with (n - HEADER) in Hbs' by lia.
    split; [by rewrite (k_list _ _ K), (hw_list _ _ _ Hwf)|done|done|apply Hwf|apply Hwf| |].
    + apply (kept_range _ _ _ _ K), Hwf.
    + apply (k_inv _ _ K), Hwf.
Qed.

(** C33: [init_kheap] leaves [heap_current] at the page it has just mapped, so
    the first growth of the heap maps a fresh frame over it: if the first block
    is a live allocation, [kmalloc] hands out its address again. *)
Theorem first_growth_aliases_live_block h n0 r e fuel size
    (Hwf : heap_wf h ((n0, false) :: r) e) (Hn0 : 0 < n0)
    (Hcur : heap_current h = HEAP_START)
    (Hs : 0 < size) (Hs' : size + 15 < 2 ^ 64) (Hfuel : (length r + 1 <= fuel)%nat)
    (Hfit : alloc_blocks HEAP_START (round16 size) ((n0, false) :: r) = None)
    (Hpages : (Z.to_nat (grow_size (round16 size) / 4096) <= pg_budget (inner h))%nat)
    (Hroom : HEAP_START + grow_size (round16 size) <= HEAP_END) :
  exists p h', kmalloc fuel size h = Ret p h' /\
    p = HEAP_START + HEADER /\ in_used HEAP_START ((n0, false) :: r) p.
Proof.
  destruct (kmalloc_regrow_run h _ e fuel size Hwf Hcur Hs Hs') as (h1 & E & _);
    [cbn [length]; lia|done..|].
  eexists _, _. split; [exact E|]. split; [done|]. left. split; [done|]. lia.
Qed.

(** On a heap fresh from [init_kheap], a first request too large for the
    first page succeeds but links the block to itself: every later [kmalloc]
    searches for ever. *)
Theorem large_first_request_hangs_heap h fuel size
    (Hinv : pg_inv (inner h)) (Hs : PAGE_SIZE_VMM - HEADER < size) (Hs' : size + 15 < 2 ^ 64)
    (Hfuel : (1 <= fuel)%nat) (Hroom : HEAP_START + grow_size (round16 size) <= HEAP_END)
    (Hpages : forall h1 v, init_kheap h = Ret v h1 ->
       (Z.to_nat (grow_size (round16 size) / 4096) <= pg_budget (inner h1))%nat)
    (Hpage : (1 <= pg_budget (inner h))%nat) :
  exists v h1 p h2, init_kheap h = Ret v h1 /\ kmalloc fuel size h1 = Ret p h2 /\
    forall fuel' size', 0 < size' -> exists h3, kmalloc fuel' size' h2 = Stop OutOfFuel h3.
Proof.
  destruct (init_kheap_run h Hinv Hpage) as (h1 & E1 & Hwf & Hc & _).
  change PAGE_SIZE_VMM with 4096 in Hs. unfold HEADER in Hs.
  pose proof (round16_bounds size ltac:(lia)) as Hr.
  destruct (kmalloc_regrow_run h1 _ _ fuel size Hwf Hc ltac:(lia) Hs')
    as (h2 & E2 & Hl & Hi & Hh & Hv & _); [cbn [length]; lia| |by apply (Hpages _ _ E1)|done|].
  { cbn [alloc_blocks andb]. destruct (Z.leb_spec (round16 size) (4096 - HEADER)); [|done].
    unfold HEADER in *. lia. }
  change (last_addr HEAP_START [(4096 - HEADER, true)]) with HEAP_START in E2.
  assert (Hvh : valid_range h2 HEAP_START HEADER).
  { apply (valid_range_sub _ _ _ _ _ Hv); unfold grow_size, HEADER in *; [lia|zdiv]. }
  destruct (hdr_put_next h2 HEAP_START _ false NULL HEAP_START Hvh Hh
              ltac:(unfold HEAP_START; lia)) as (K & Hh3 & _). cbv zeta in K, Hh3.
  set (h3 := st64 (HEAP_START + OFF_NEXT) HEAP_START h2) in *.
  exists (4096 - HEADER), h1, (HEAP_START + HEADER), h3. do 2 (split; [done | ]).
  intros fuel' size' Hs2.
  destruct (get_fields _ _ _ _ _ Hh3) as (En & Enx & v & Ev & Evf).
  assert (Hl3 : free_list h3 = HEAP_START) by (by rewrite (k_list _ _ K)).
  unfold kmalloc, kheap_alloc. destruct (Z.eqb_spec size' 0); [lia|].
  set (sz := Z.land _ _).
  rewrite (kbind_ret _ _ h3 HEAP_START h3) by (unfold kasks; by rewrite Hl3).
  destruct (kloop_diverges (alloc_step sz) (fun l s => l = HEAP_START /\ s = h3))
    with (fuel := fuel') (l := HEAP_START) (s := h3) as (h4 & E4); [|done|].
  - intros l s [-> ->]. exists HEAP_START, h3. split; [|done]. unfold alloc_step.
    change (HEAP_START =? NULL) with false. cbv iota.
    rewrite (kbind_ret _ _ _ _ _ Ev), (kbind_ret _ _ _ _ _ En), Evf. cbn [negb andb].
    by rewrite (kbind_ret _ _ _ _ _ Enx).
  - exists h4. by rewrite (kbind_stop _ _ _ _ _ E4).
Qed.
End properties.

(** ** Witnesses: the heap of the demonstration machine *)

Definition demo_heap0 : heap machine := Heap 0 0 demo_vmm.
Definition demo_heap : heap machine :=
  match init_kheap demo_heap0 with Ret _ h => h | Stop _ h => h end.

Lemma demo_heap0_inv : pg_inv (inner demo_heap0).
Proof. exists demo_tables. apply demo_vmm_inv. Qed.

Lemma demo_heap0_budget : (1 <= pg_budget (inner demo_heap0))%nat.
Proof. change (pg_budget (inner demo_heap0)) with 15%nat. lia. Qed.

Lemma demo_heap_wf :
  heap_wf demo_heap [(4072, true)] (HEAP_START + 4096) /\ heap_current demo_heap = HEAP_START.
Proof.
  destruct (init_kheap_run demo_heap0 demo_heap0_inv demo_heap0_budget) as (h & E & H & Hc & _).
  unfold demo_heap. rewrite E. exact (conj H Hc).
Qed.

(** The same heap after a request that takes the whole block. *)
Definition demo_full : heap machine :=
  match kmalloc 9 4064 demo_heap with Ret _ h => h | Stop _ h => h end.

Lemma demo_full_wf :
  heap_wf demo_full [(4072, false)] (HEAP_START + 4096) /\ heap_current demo_full = HEAP_START.
Proof.
  destruct demo_heap_wf as [H Hc].
  destruct (kmalloc_fit_run demo_heap _ _ 9 4064 (HEAP_START + HEADER) [(4072, false)] H
              ltac:(lia) ltac:(lia) ltac:(cbn [length]; lia) eq_refl) as (h & E & H' & Hc' & _).
  unfold demo_full. rewrite E. exact (conj H' (eq_trans Hc' Hc)).
Qed.

Lemma demo_full_budget : pg_budget (inner demo_full) = 14%nat.
Proof. vm_compute. reflexivity. Qed.


Lemma kmalloc_first_fit_witness :
  exists h', kmalloc 1 100 demo_heap = Ret (HEAP_START + HEADER) h' /\
    heap_wf h' [(112, false); (3936, true)] (HEAP_START + 4096) /\
    heap_current h' = heap_current demo_heap /\
    allocated demo_heap [(4072, true)] (HEAP_START + HEADER) 100 h' [(112, false); (3936, true)].
Proof.
  apply (kmalloc_first_fit demo_heap [(4072, true)] (HEAP_START + 4096) 1 100 (HEAP_START + HEADER)
           [(112, false); (3936, true)] (proj1 demo_heap_wf)); [lia|lia|cbn [length]; lia|reflexivity].
Defined.

(** The full heap with [heap_current] at its end. *)
Definition demo_grown : heap machine := set_heap_current (HEAP_START + 4096) demo_full.

Lemma demo_grown_wf : heap_wf demo_grown [(4072, false)] (HEAP_START + 4096).
Proof. exact (heap_wf_current _ _ _ _ (proj1 demo_full_wf)). Qed.

Lemma demo_grown_budget : pg_budget (inner demo_grown) = 14%nat.
Proof. vm_compute. reflexivity. Qed.

Lemma kmalloc_grows_witness :
  exists h', kmalloc 1 100 demo_grown = Ret (HEAP_START + 4096 + HEADER) h' /\
    heap_wf h' [(4072, false); (4072, false)] (HEAP_START + 4096 + 4096) /\
    heap_current h' = HEAP_START + 4096 + 4096 /\
    allocated demo_grown [(4072, false)] (HEAP_START + 4096 + HEADER) 100 h'
      [(4072, false); (4072, false)].
Proof.
  apply (kmalloc_grows demo_grown [(4072, false)] (HEAP_START + 4096) 1 100 demo_grown_wf eq_refl);
    [lia|lia|cbn [length]; lia|reflexivity| |vm_compute; congruence].
  rewrite demo_grown_budget. vm_compute. lia.
Defined.


Lemma init_kheap_correct_witness :
  exists h', init_kheap demo_heap0 = Ret 4072 h' /\
    heap_wf h' [(4072, true)] (HEAP_START + 4096).
Proof. exact (init_kheap_correct demo_heap0 demo_heap0_inv demo_heap0_budget). Defined.

Lemma kzalloc_kcalloc_correct_witness :
  (exists h', kcalloc 1 10 10 demo_heap = Ret (HEAP_START + HEADER) h' /\
     kzalloc 1 100 demo_heap = Ret (HEAP_START + HEADER) h' /\
     heap_wf h' [(112, false); (3936, true)] (HEAP_START + 4096) /\
     allocated demo_heap [(4072, true)] (HEAP_START + HEADER) 100 h' [(112, false); (3936, true)] /\
     forall x, HEAP_START + HEADER <= x < HEAP_START + HEADER + 100 -> rb h' x = 0)
  /\ kcalloc 1 (2 ^ 32) (2 ^ 32) demo_heap = Ret NULL demo_heap.
Proof.
  split.
  - apply (kzalloc_kcalloc_correct demo_heap [(4072, true)] (HEAP_START + 4096) 1 10 10
             (HEAP_START + HEADER) [(112, false); (3936, true)] (proj1 demo_heap_wf));
      [lia|lia|cbn [length]; lia|lia|reflexivity].
  - apply (kzalloc_kcalloc_correct demo_heap [(4072, true)] (HEAP_START + 4096) 1 (2 ^ 32) (2 ^ 32)
             0 [] (proj1 demo_heap_wf)); [lia|lia|cbn [length]; lia].
Defined.

Lemma kmalloc_huge_request_wraps_witness :
  exists h', kmalloc 1 (2 ^ 64 - 1) demo_heap = Ret (HEAP_START + HEADER) h' /\
    heap_wf h' [(0, false); (4048, true)] (HEAP_START + 4096).
Proof.
  apply (kmalloc_huge_request_wraps demo_heap 4072 [] (HEAP_START + 4096) 1 (2 ^ 64 - 1)
           (proj1 demo_heap_wf)); [unfold HEADER; lia|lia|cbn [length]; lia].
Defined.

Lemma first_growth_aliases_live_block_witness :
  exists p h', kmalloc 1 100 demo_full = Ret p h' /\
    p = HEAP_START + HEADER /\ in_used HEAP_START [(4072, false)] p.
Proof.
  apply (first_growth_aliases_live_block demo_full 4072 [] (HEAP_START + 4096) 1 100
           (proj1 demo_full_wf)); [lia|exact (proj2 demo_full_wf)|lia|lia|cbn [length]; lia|reflexivity|
    |vm_compute; congruence].
  rewrite demo_full_budget. vm_compute. lia.
Defined.

Lemma large_first_request_hangs_heap_witness :
  exists v h1 p h2, init_kheap demo_heap0 = Ret v h1 /\ kmalloc 1 5000 h1 = Ret p h2 /\
    forall fuel' size', 0 < size' -> exists h3, kmalloc fuel' size' h2 = Stop OutOfFuel h3.
Proof.
  apply (large_first_request_hangs_heap demo_heap0 1 5000 demo_heap0_inv);
    [vm_compute; congruence|lia|lia|vm_compute; congruence| |exact demo_heap0_budget].
  intros h1 v E. assert (h1 = demo_heap) as -> by (unfold demo_heap; rewrite E; exact eq_refl).
  assert (pg_budget (inner demo_heap) = 14%nat) as -> by (vm_compute; reflexivity).
  vm_compute. lia.
Defined.
