(* ===== verification/Slab.v ===== *)
(** * Slab allocator (klibc/kmem/slab.c)

    A cache of equally sized objects.  A slab is one identity-mapped page: a
    40-byte header, then the objects; the free objects form a list through
    their first eight bytes.  The operations run on the kernel heap's memory
    ([heap S]), byte by byte, as the source does; a constructor or destructor
    is a function pointer, called through the parameter [call]. *)

From S2P Require Import Prelude Bytes MemLib Console Machine Pmm Vmm Pages Kheap.
Local Open Scope Z_scope.

(** src/include/klibc/kmem/slab.h:13-14 [SLAB_MAGIC] *)
Definition PAGE_SIZE_SLAB : Z := PAGE_SIZE_VMM.
Definition SLAB_MAGIC : Z := 0x534C4142.

(** Offsets of the fields of [slab_t].
    src/include/klibc/kmem/slab.h:19-27 [slab_t] *)
Definition SLAB_NEXT : Z := 0.
Definition SLAB_CACHE : Z := 8.
Definition SLAB_FREE_COUNT : Z := 16.
Definition SLAB_TOTAL : Z := 20.
Definition SLAB_MAGIC_OFF : Z := 24.
Definition SLAB_FREE_LIST : Z := 32.
Definition SIZEOF_SLAB : Z := 40.

(** Offsets of the fields of [slab_cache_t].
    src/include/klibc/kmem/slab.h:29-40 [slab_cache_t] *)
Definition CACHE_NAME : Z := 0.
Definition CACHE_OBJECT_SIZE : Z := 8.
Definition CACHE_ALIGN : Z := 16.
Definition CACHE_PER_SLAB : Z := 24.
Definition CACHE_PARTIAL : Z := 32.
Definition CACHE_FULL : Z := 40.
Definition CACHE_EMPTY : Z := 48.
Definition CACHE_CTOR : Z := 56.
Definition CACHE_DTOR : Z := 64.
Definition SIZEOF_CACHE : Z := 72.

(** src/klibc/kmem/slab.c:3-6 [align_up] *)
Definition align_up (v a : Z) : Z :=
  Z.land (u64 (v + u64 (a - 1))) (u64 (Z.lnot (u64 (a - 1)))).

Section slab.
Context {S : Type} `{!BMem S} `{!Pages S} `{!Console S}.
Context (fuel : nat) (call : Z -> Z -> K (heap S) unit).

Definition get64 (a : Z) : K (heap S) Z := kasks (fun h => ld64 h a).
Definition put64 (a v : Z) : K (heap S) unit := kmod (st64 a v).
Definition get32 (a : Z) : K (heap S) Z := kasks (fun h => ld32 h a).
Definition put32 (a v : Z) : K (heap S) unit := kmod (st32 a v).

(** src/klibc/kmem/slab.c:8-12 [slab_from_object] *)
Definition slab_from_object (object : Z) : Z := Z.land object (u64 (Z.lnot (PAGE_SIZE_SLAB - 1))).

(** Store [previous] in the slot, make the slot [previous], go on to the next.
    src/klibc/kmem/slab.c:43-52 [slab_init] *)
Definition link_objects (cache object : Z) (objects : nat) : K (heap S) (Z * Z) :=
  kloop (Datatypes.S objects) (fun '(i, slot, previous) =>
    if i <? Z.of_nat objects then
      put64 slot previous;;
      size ← get64 (cache + CACHE_OBJECT_SIZE);
      mret (inl (i + 1, slot + size, slot))
    else mret (inr (slot, previous))) (0, object, NULL).

(** A division by the size of an object traps when the size is 0.
    src/klibc/kmem/slab.c:14-56 [slab_init] *)
Definition slab_init (cache : Z) : K (heap S) Z :=
  physical ← pg_alloc;
  if physical =? 0 then mret NULL else
  let virtual_address := physical in
  pg_map virtual_address physical (Z.lor VMM_PRESENT VMM_WRITE);;
  let slab := virtual_address in
  memset slab 0 PAGE_SIZE_SLAB;;
  let header_size := align_up SIZEOF_SLAB 8 in
  align ← get64 (cache + CACHE_ALIGN);
  let first_object_offset := align_up header_size align in
  let usable := u64 (PAGE_SIZE_SLAB - first_object_offset) in
  object_size ← get64 (cache + CACHE_OBJECT_SIZE);
  if object_size =? 0 then kstop Faulted else
  let objects := usable / object_size in
  if objects =? 0 then mret NULL else
  put64 (slab + SLAB_CACHE) cache;;
  put32 (slab + SLAB_TOTAL) (u32 objects);;
  put32 (slab + SLAB_FREE_COUNT) (u32 objects);;
  put32 (slab + SLAB_MAGIC_OFF) SLAB_MAGIC;;
  r ← link_objects cache (virtual_address + first_object_offset) (Z.to_nat objects);
  put64 (slab + SLAB_FREE_LIST) (snd r);;
  mret slab.

(** src/klibc/kmem/slab.c:58-93 [slab_cache_create] *)
Definition slab_cache_create (name object_size align ctor dtor : Z) : K (heap S) Z :=
  if object_size =? 0 then mret NULL else
  let align := if align <? 8 then 8 else align in
  cache ← kmalloc fuel SIZEOF_CACHE;
  if cache =? NULL then mret NULL else
  put64 (cache + CACHE_NAME) name;;
  put64 (cache + CACHE_ALIGN) align;;
  put64 (cache + CACHE_CTOR) ctor;;
  put64 (cache + CACHE_DTOR) dtor;;
  put64 (cache + CACHE_PARTIAL) NULL;;
  put64 (cache + CACHE_FULL) NULL;;
  put64 (cache + CACHE_EMPTY) NULL;;
  put64 (cache + CACHE_OBJECT_SIZE) (align_up object_size align);;
  let header_size := align_up SIZEOF_SLAB 8 in
  let first_object_offset := align_up header_size align in
  let usable := u64 (PAGE_SIZE_SLAB - first_object_offset) in
  size ← get64 (cache + CACHE_OBJECT_SIZE);
  if size =? 0 then kstop Faulted else
  put64 (cache + CACHE_PER_SLAB) (usable / size);;
  n ← get64 (cache + CACHE_PER_SLAB);
  if n =? 0 then kfree fuel cache;; mret NULL else mret cache.

(** src/klibc/kmem/slab.c:95-103 [slab_pop_object] *)
Definition slab_pop_object (slab : Z) : K (heap S) Z :=
  if slab =? NULL then mret NULL else
  object ← get64 (slab + SLAB_FREE_LIST);
  if object =? NULL then mret NULL else
  next ← get64 object;
  put64 (slab + SLAB_FREE_LIST) next;;
  n ← get32 (slab + SLAB_FREE_COUNT);
  put32 (slab + SLAB_FREE_COUNT) (u32 (n - 1));;
  mret object.

(** src/klibc/kmem/slab.c:105-110 [slab_push_object] *)
Definition slab_push_object (slab object : Z) : K (heap S) unit :=
  l ← get64 (slab + SLAB_FREE_LIST);
  put64 object l;;
  put64 (slab + SLAB_FREE_LIST) object;;
  n ← get32 (slab + SLAB_FREE_COUNT);
  put32 (slab + SLAB_FREE_COUNT) (u32 (n + 1)).

(** The search for the pointer to [slab] in a list whose head pointer is at
    [pointer]: the address of the pointer, or of the NULL at the end.
    src/klibc/kmem/slab.c:143-145 [slab_alloc] *)
Definition find_pointer (pointer slab : Z) : K (heap S) Z :=
  kloop fuel (fun pp =>
    p ← get64 pp;
    if negb (p =? NULL) && negb (p =? slab) then mret (inl (p + SLAB_NEXT))
    else mret (inr pp)) pointer.

(** Redirect a found pointer past the slab.
    src/klibc/kmem/slab.c:146-147 [slab_alloc] *)
Definition unlink (pp slab : Z) : K (heap S) bool :=
  p ← get64 pp;
  if p =? NULL then mret false else
  next ← get64 (slab + SLAB_NEXT);
  put64 pp next;;
  mret true.

(** src/klibc/kmem/slab.c:112-156 [slab_alloc] *)
Definition slab_alloc (cache : Z) : K (heap S) Z :=
  if cache =? NULL then mret NULL else
  slab ← get64 (cache + CACHE_PARTIAL);
  slab ← (if slab =? NULL then get64 (cache + CACHE_EMPTY) else mret slab);
  slab ← (if slab =? NULL then
            slab ← slab_init cache;
            if slab =? NULL then mret (inl NULL) else
            p ← get64 (cache + CACHE_PARTIAL);
            put64 (slab + SLAB_NEXT) p;;
            put64 (cache + CACHE_PARTIAL) slab;;
            mret (inr slab)
          else mret (inr slab));
  match slab with
  | inl _ =>
      size ← get64 (cache + CACHE_OBJECT_SIZE);
      kmalloc fuel size
  | inr slab =>
      object ← slab_pop_object slab;
      if object =? NULL then mret NULL else
      n ← get32 (slab + SLAB_FREE_COUNT);
      kwhen (n =? 0)
        (pp ← find_pointer (cache + CACHE_PARTIAL) slab;
         unlink pp slab;;
         full ← get64 (cache + CACHE_FULL);
         put64 (slab + SLAB_NEXT) full;;
         put64 (cache + CACHE_FULL) slab);;
      ctor ← get64 (cache + CACHE_CTOR);
      kwhen (negb (ctor =? NULL)) (call ctor object);;
      mret object
  end.

(** Unmap a slab's page and give its frame back, as the source does: with
    [virtual_to_physical] of an identity-mapped address.
    src/klibc/kmem/slab.c:202-206 [slab_free] *)
Definition release_slab (slab : Z) : K (heap S) unit :=
  slab_physical_address ← pg_v2p slab;
  pg_unmap slab;;
  pg_free slab_physical_address.

(** src/klibc/kmem/slab.c:158-208 [slab_free] *)
Definition slab_free (cache object : Z) : K (heap S) unit :=
  if (cache =? NULL) || (object =? NULL) then mret tt else
  let slab := slab_from_object object in
  magic ← get32 (slab + SLAB_MAGIC_OFF);
  if negb (magic =? SLAB_MAGIC) then kfree fuel object else
  dtor ← get64 (cache + CACHE_DTOR);
  kwhen (negb (dtor =? NULL)) (call dtor object);;
  n ← get32 (slab + SLAB_FREE_COUNT);
  let was_full := n =? 0 in
  slab_push_object slab object;;
  if was_full then
    pp ← find_pointer (cache + CACHE_FULL) slab;
    found ← unlink pp slab;
    kwhen found
      (p ← get64 (cache + CACHE_PARTIAL);
       put64 (slab + SLAB_NEXT) p;;
       put64 (cache + CACHE_PARTIAL) slab)
  else
    n ← get32 (slab + SLAB_FREE_COUNT);
    total ← get32 (slab + SLAB_TOTAL);
    kwhen (n =? total)
      (pp ← find_pointer (cache + CACHE_PARTIAL) slab;
       unlink pp slab;;
       release_slab slab).

(** One of the two loops of [slab_destroy].
    src/klibc/kmem/slab.c:219-229 [slab_destroy] *)
Definition destroy_list (slab : Z) : K (heap S) unit :=
  kloop fuel (fun slab =>
    if slab =? NULL then mret (inr tt) else
    next ← get64 (slab + SLAB_NEXT);
    release_slab slab;;
    mret (inl next)) slab.

(** src/klibc/kmem/slab.c:210-244 [slab_destroy] *)
Definition slab_destroy (cache : Z) : K (heap S) unit :=
  if cache =? NULL then mret tt else
  slab ← get64 (cache + CACHE_PARTIAL);
  destroy_list slab;;
  slab ← get64 (cache + CACHE_EMPTY);
  destroy_list slab;;
  kfree fuel cache.
End slab.

#[local] Arguments Z.add : simpl never.
#[local] Arguments Z.sub : simpl never.
#[local] Arguments Z.mul : simpl never.

(** ** Alignment *)
Lemma slab_from_object_run b o : 0 <= b -> b mod 4096 = 0 -> b <= o < b + 4096 ->
  o < 2 ^ 64 -> slab_from_object o = b.
Proof.
  intros Hb0 Hb Ho Hlt. unfold slab_from_object, PAGE_SIZE_SLAB, PAGE_SIZE_VMM.
  change (u64 (Z.lnot (0x1000 - 1))) with (Z.shiftl (Z.ones 52) 12).
  rewrite land_align by lia. change (2 ^ 12) with 4096.
  rewrite Z.mod_small; [zdiv|]. change (2 ^ 64) with (2 ^ 52 * 4096) in Hlt. zdiv.
Qed.

Lemma align_up_range v a : 0 <= align_up v a < 2 ^ 64.
Proof.
  unfold align_up. set (x := u64 (v + _)). set (y := u64 (Z.lnot _)).
  assert (Hy : Z.land y (Z.ones 64) = y) by (rewrite Z.land_ones by lia; apply Z.mod_small, u64_range).
  rewrite <- Hy, Z.land_assoc, Z.land_ones by lia. apply Z.mod_pos_bound. lia.
Qed.

(** ** Memory of one cache and one slab *)
Section arena.
Context {S : Type} `{!BMem S} `{!BMemOk S}.
Context (b c : Z) (Hdisj : c + SIZEOF_CACHE <= b \/ b + 4096 <= c).
Implicit Types h : S.

Definition arena h : Prop := valid_range h b 4096 /\ valid_range h c SIZEOF_CACHE.
Definition in_arena (a : Z) (n : nat) : Prop :=
  (b <= a /\ a + Z.of_nat n <= b + 4096) \/ (c <= a /\ a + Z.of_nat n <= c + SIZEOF_CACHE).

Lemma arena_range h a n : arena h -> in_arena a n -> valid_range h a (Z.of_nat n).
Proof.
  intros [Hb Hc] [[? ?]|[? ?]];
    [by apply (valid_range_sub _ _ _ _ _ Hb)|by apply (valid_range_sub _ _ _ _ _ Hc)].
Qed.

Lemma arena_store h n a v : arena h -> in_arena a n -> arena (store n a v h).
Proof.
  intros Ha Hin. pose proof (arena_range h a n Ha Hin).
  split; apply valid_range_store; [done|apply Ha|done|apply Ha].
Qed.

Lemma ld_eq h n a v : arena h -> in_arena a n ->
  load n (store n a v h) a = v mod 256 ^ Z.of_nat n.
Proof. intros Ha Hin. by apply load_store_eq, arena_range. Qed.

Lemma ld_ne h n k a v a' : arena h -> in_arena a n -> in_arena a' k ->
  a' + Z.of_nat k <= a \/ a + Z.of_nat n <= a' ->
  load k (store n a v h) a' = load k h a'.
Proof. intros Ha Hin Hin' Hd. apply load_store_ne; [by apply arena_range..|done]. Qed.

(** The free list of a slab. *)
Fixpoint chain h (p : Z) (objs : list Z) : Prop :=
  match objs with
  | [] => p = NULL
  | o :: r => p = o /\ o <> NULL /\ chain h (ld64 h o) r
  end.

Lemma chain_ext h h' p objs :
  (forall o, o ∈ objs -> ld64 h' o = ld64 h o) -> chain h p objs -> chain h' p objs.
Proof.
  revert p. induction objs as [|o r IH]; intros p Hx; [done|].
  intros (-> & Hne & H). split_and!; [done..|].
  rewrite Hx by apply list_elem_of_here. apply IH; [|done].
  intros o' Ho'. apply Hx. by apply list_elem_of_further.
Qed.

(** The objects of the slab, the last one first, as [slab_init] links them. *)
Fixpoint objs_of (base size : Z) (n : nat) : list Z :=
  match n with
  | O => []
  | Datatypes.S k => base + Z.of_nat k * size :: objs_of base size k
  end.

Lemma elem_of_objs_of base size n o :
  o ∈ objs_of base size n <-> exists k, (k < n)%nat /\ o = base + Z.of_nat k * size.
Proof.
  induction n as [|n IH]; cbn [objs_of].
  - split; [by intros []%elem_of_nil|intros (k & ? & _); lia].
  - rewrite elem_of_cons, IH. split.
    + intros [->|(k & Hk & ->)]; [exists n|exists k]; split; lia.
    + intros (k & Hk & ->). destruct (decide (k = n)) as [->|]; [by left|right].
      exists k. split; lia.
Qed.

Lemma objs_of_length base size n : length (objs_of base size n) = n.
Proof. induction n; cbn [objs_of length]; congruence. Qed.

(** A slab of [cache] at [b] with the free objects [objs], of size at least 8,
    inside its page. *)
Record slab_ok h (objs : list Z) (total : Z) : Prop := {
  so_cache : ld64 h (b + SLAB_CACHE) = c;
  so_count : ld32 h (b + SLAB_FREE_COUNT) = Z.of_nat (length objs);
  so_total : ld32 h (b + SLAB_TOTAL) = total;
  so_magic : ld32 h (b + SLAB_MAGIC_OFF) = SLAB_MAGIC;
  so_chain : chain h (ld64 h (b + SLAB_FREE_LIST)) objs;
  so_in : forall o, o ∈ objs -> b + SIZEOF_SLAB <= o /\ o + 8 <= b + 4096;
}.

(** A store that misses the header and the first bytes of the free objects. *)
Lemma slab_ok_frame h objs total n a v :
  arena h -> in_arena a n -> slab_ok h objs total ->
  (a + Z.of_nat n <= b + SLAB_CACHE \/ b + SIZEOF_SLAB <= a) ->
  (forall o, o ∈ objs -> o + 8 <= a \/ a + Z.of_nat n <= o) ->
  slab_ok (store n a v h) objs total.
Proof.
  intros Ha Hin H Hh Ho.
  unfold SLAB_CACHE, SIZEOF_SLAB in *.
  assert (E : forall k o, 8 <= o -> o + Z.of_nat k <= 40 ->
            load k (store n a v h) (b + o) = load k h (b + o)).
  { intros k o ??. apply ld_ne; [done|done| |lia]. left. lia. }
  split; try (rewrite E; [apply H|done|done]).
  - rewrite E by done. apply (chain_ext h); [|apply H].
    intros o Hin'. destruct (so_in _ _ _ H o Hin') as [H1 H2]. unfold SIZEOF_SLAB in H1.
    apply ld_ne; [done|done|left; lia|]. destruct (Ho o Hin'); lia.
  - apply H.
Qed.
End arena.

(** Side conditions of the arena lemmas. *)
Ltac arena_side :=
  unfold in_arena, SIZEOF_CACHE, SIZEOF_SLAB, SLAB_NEXT, SLAB_CACHE, SLAB_FREE_COUNT, SLAB_TOTAL,
    SLAB_MAGIC_OFF, SLAB_FREE_LIST, CACHE_NAME, CACHE_OBJECT_SIZE, CACHE_ALIGN, CACHE_PER_SLAB,
    CACHE_PARTIAL, CACHE_FULL, CACHE_EMPTY, CACHE_CTOR, CACHE_DTOR in *;
  lia.
Ltac arena_ok := repeat (apply arena_store; [|arena_side]); assumption.
Ltac arena_simpl b c :=
  repeat first
    [ rewrite (ld_eq b c) by (first [arena_ok|arena_side])
    | rewrite (ld_ne b c) by (first [arena_ok|arena_side]) ].

Section slab_proofs.
Context {S : Type} `{!BMem S} `{!BMemOk S} `{!Pages S} `{!Console S} `{!PagesOk S} `{!ConsoleOk S}.
Context (fuel : nat) (call : Z -> Z -> K (heap S) unit).
Implicit Types h : heap S.

Lemma get64_run a h : get64 a h = Ret (ld64 h a) h.
Proof. done. Qed.
Lemma get32_run a h : get32 a h = Ret (ld32 h a) h.
Proof. done. Qed.
Lemma put64_run a v h : put64 a v h = Ret tt (st64 a v h).
Proof. done. Qed.
Lemma put32_run a v h : put32 a v h = Ret tt (st32 a v h).
Proof. done. Qed.

Section one_slab.
Context (b c : Z) (Hdisj : c + SIZEOF_CACHE <= b \/ b + 4096 <= c).
Context (Hb : 0 < b) (Hb47 : b + 4096 <= 2 ^ 47) (Hba : b mod 4096 = 0) (Hc : 0 < c < 2 ^ 64).

(** Popping takes the head of the free list. *)
Lemma pop_run h o r total :
  arena b c h -> slab_ok b c h (o :: r) total -> NoDup (o :: r) ->
  (forall x y, x ∈ o :: r -> y ∈ o :: r -> x <> y -> x + 8 <= y \/ y + 8 <= x) ->
  exists h', slab_pop_object b h = Ret o h' /\ arena b c h' /\ kept h h' /\
    slab_ok b c h' r total /\
    (forall k a, in_arena b c a k -> a + Z.of_nat k <= b + SLAB_FREE_COUNT \/ b + SIZEOF_SLAB <= a ->
       load k h' a = load k h a).
Proof.
  intros Ha H Hnd Hsep.
  pose proof (so_chain _ _ _ _ _ H) as (Hfl & Hone & Hch).
  destruct (so_in _ _ _ _ _ H o (list_elem_of_here _ _)) as [Ho1 Ho2].
  set (h1 := st64 (b + SLAB_FREE_LIST) (ld64 h o) h).
  set (h2 := st32 (b + SLAB_FREE_COUNT) (u32 (ld32 h1 (b + SLAB_FREE_COUNT) - 1)) h1).
  assert (A1 : arena b c h1) by (apply arena_store; [done|arena_side]).
  assert (A2 : arena b c h2) by (apply arena_store; [done|arena_side]).
  assert (E1 : ld32 h1 (b + SLAB_FREE_COUNT) = Z.of_nat (Datatypes.S (length r))).
  { unfold h1. rewrite (ld_ne b c) by (done || arena_side). apply (so_count _ _ _ _ _ H). }
  pose proof (load_range 4 h1 (b + SLAB_FREE_COUNT)) as Hr. rewrite E1 in Hr.
  change (256 ^ Z.of_nat 4) with 4294967296 in Hr.
  exists h2. split_and!; [|done| | |].
  - unfold slab_pop_object. destruct (Z.eqb_spec b NULL) as [E|_]; [unfold NULL in E; lia|].
    rewrite (kbind_ret _ _ _ _ _ (get64_run _ _)), Hfl.
    destruct (Z.eqb_spec o NULL); [done|].
    rewrite (kbind_ret _ _ _ _ _ (get64_run _ _)), (kbind_ret _ _ _ _ _ (put64_run _ _ _)).
    rewrite (kbind_ret _ _ _ _ _ (get32_run _ _)), (kbind_ret _ _ _ _ _ (put32_run _ _ _)). done.
  - apply (kept_trans _ h1); apply kept_store; apply (arena_range b c); (done || arena_side).
  - assert (Hin : forall x, x ∈ r -> x ∈ o :: r) by (intros; by apply list_elem_of_further).
    split.
    + unfold h2, h1. rewrite !(ld_ne b c) by (done || arena_side). apply H.
    + unfold h2. rewrite (ld_eq b c) by (done || arena_side). rewrite E1. cbn [length].
      replace (Z.of_nat (Datatypes.S (length r)) - 1) with (Z.of_nat (length r)) by lia.
      rewrite (wrap_small 32) by lia. apply Z.mod_small. change (256 ^ Z.of_nat 4) with 4294967296. lia.
    + unfold h2, h1. rewrite !(ld_ne b c) by (done || arena_side). apply H.
    + unfold h2, h1. rewrite !(ld_ne b c) by (done || arena_side). apply H.
    + unfold h2. rewrite (ld_ne b c) by (done || arena_side). unfold h1.
      rewrite (ld_eq b c) by (done || arena_side).
      change (256 ^ Z.of_nat 8) with (2 ^ 64). rewrite Z.mod_small by apply ld64_range.
      apply (chain_ext h); [|done]. intros x Hx.
      destruct (so_in _ _ _ _ _ H x (Hin x Hx)) as [? ?].
      fold h1. rewrite (ld_ne b c) by (done || arena_side). unfold h1.
      by rewrite (ld_ne b c) by (done || arena_side).
    + intros x Hx. apply (so_in _ _ _ _ _ H), Hin, Hx.
  - intros k a Hin Hd. unfold h2. rewrite (ld_ne b c) by (done || arena_side). unfold h1.
    by rewrite (ld_ne b c) by (done || arena_side).
Qed.

(** Pushing puts an object back at the head. *)
Lemma push_run h o r total :
  arena b c h -> slab_ok b c h r total -> b + SIZEOF_SLAB <= o -> o + 8 <= b + 4096 ->
  (forall x, x ∈ r -> x + 8 <= o \/ o + 8 <= x) -> Z.of_nat (length r) < total ->
  exists h', slab_push_object b o h = Ret tt h' /\ arena b c h' /\ kept h h' /\
    slab_ok b c h' (o :: r) total /\
    (forall k a, in_arena b c a k ->
       a + Z.of_nat k <= b + SLAB_FREE_COUNT \/ b + SIZEOF_SLAB <= a ->
       a + Z.of_nat k <= o \/ o + 8 <= a -> load k h' a = load k h a).
Proof.
  intros Ha H Ho1 Ho2 Hsep Htot. pose proof (load_range 4 h (b + SLAB_TOTAL)) as Hlen.
  rewrite (so_total _ _ _ _ _ H) in Hlen. change (256 ^ Z.of_nat 4) with (2 ^ 32) in Hlen.
  set (h1 := st64 o (ld64 h (b + SLAB_FREE_LIST)) h).
  set (h2 := st64 (b + SLAB_FREE_LIST) o h1).
  set (h3 := st32 (b + SLAB_FREE_COUNT) (u32 (ld32 h2 (b + SLAB_FREE_COUNT) + 1)) h2).
  assert (A1 : arena b c h1) by (apply arena_store; [done|arena_side]).
  assert (A2 : arena b c h2) by (apply arena_store; [done|arena_side]).
  assert (A3 : arena b c h3) by (apply arena_store; [done|arena_side]).
  assert (E2 : ld32 h2 (b + SLAB_FREE_COUNT) = Z.of_nat (length r)).
  { unfold h2. rewrite (ld_ne b c) by (done || arena_side). unfold h1.
    rewrite (ld_ne b c) by (done || arena_side). apply (so_count _ _ _ _ _ H). }
  exists h3. split_and!; [|done| | |].
  - unfold slab_push_object. rewrite (kbind_ret _ _ _ _ _ (get64_run _ _)).
    rewrite !(kbind_ret _ _ _ _ _ (put64_run _ _ _)), (kbind_ret _ _ _ _ _ (get32_run _ _)). done.
  - apply (kept_trans _ h1); [|apply (kept_trans _ h2)];
      apply kept_store; apply (arena_range b c); (done || arena_side).
  - split.
    + unfold h3, h2, h1. rewrite !(ld_ne b c) by (done || arena_side). apply H.
    + unfold h3. rewrite (ld_eq b c) by (done || arena_side). rewrite E2. cbn [length].
      replace (Z.of_nat (length r) + 1) with (Z.of_nat (Datatypes.S (length r))) in * by lia.
      rewrite (wrap_small 32) by lia. apply Z.mod_small.
      change (256 ^ Z.of_nat 4) with (2 ^ 32). lia.
    + unfold h3, h2, h1. rewrite !(ld_ne b c) by (done || arena_side). apply H.
    + unfold h3, h2, h1. rewrite !(ld_ne b c) by (done || arena_side). apply H.
    + unfold h3. rewrite (ld_ne b c) by (done || arena_side). unfold h2.
      rewrite (ld_eq b c) by (done || arena_side). fold h2 h3.
      change (256 ^ Z.of_nat 8) with (2 ^ 64). rewrite Z.mod_small by arena_side.
      split; [done|]. split; [unfold NULL; arena_side|].
      assert (Eo : forall x, b + SIZEOF_SLAB <= x -> x + 8 <= b + 4096 -> ld64 h3 x = ld64 h1 x).
      { intros x ??. unfold h3. rewrite (ld_ne b c) by (done || arena_side). unfold h2.
        by rewrite (ld_ne b c) by (done || arena_side). }
      rewrite Eo by done. unfold h1 at 1. rewrite (ld_eq b c) by (done || arena_side).
      change (256 ^ Z.of_nat 8) with (2 ^ 64). rewrite Z.mod_small by apply ld64_range.
      apply (chain_ext h); [|apply H]. intros x Hx.
      destruct (so_in _ _ _ _ _ H x Hx) as [? ?]. rewrite Eo by done. unfold h1.
      specialize (Hsep x Hx). by rewrite (ld_ne b c) by (done || arena_side).
    + intros x [->|Hx]%elem_of_cons; [done|by apply (so_in _ _ _ _ _ H)].
  - intros k a Hin Hd Hd'. unfold h3. rewrite (ld_ne b c) by (done || arena_side). unfold h2.
    rewrite (ld_ne b c) by (done || arena_side). unfold h1.
    by rewrite (ld_ne b c) by (done || arena_side).
Qed.
(** The pointer of a list that already points at the slab. *)
Lemma find_here pp h : (1 <= fuel)%nat -> ld64 h pp = b -> find_pointer fuel pp b h = Ret pp h.
Proof.
  intros Hf E. destruct fuel as [|f]; [lia|]. apply kloop_exit.
  rewrite (kbind_ret _ _ _ _ _ (get64_run _ _)), E, Z.eqb_refl, andb_false_r. done.
Qed.

(** Taking [b] off the list whose head pointer is at [pp], onto the one whose
    head pointer is at [qq]. *)
Definition moved h (pp qq : Z) : heap S :=
  let h1 := st64 pp (ld64 h (b + SLAB_NEXT)) h in
  let h2 := st64 (b + SLAB_NEXT) (ld64 h1 qq) h1 in
  st64 qq b h2.

Lemma moved_spec h pp qq objs total :
  arena b c h -> slab_ok b c h objs total ->
  (pp = c + CACHE_PARTIAL /\ qq = c + CACHE_FULL) \/ (pp = c + CACHE_FULL /\ qq = c + CACHE_PARTIAL) ->
  let h' := moved h pp qq in
  arena b c h' /\ kept h h' /\ slab_ok b c h' objs total /\
  ld64 h' pp = ld64 h (b + SLAB_NEXT) /\ ld64 h' qq = b /\
  ld64 h' (b + SLAB_NEXT) = ld64 h qq /\
  (forall a k, in_arena b c a k -> a + Z.of_nat k <= c + CACHE_PARTIAL \/ c + CACHE_EMPTY <= a ->
     a + Z.of_nat k <= b \/ b + SLAB_CACHE <= a -> load k h' a = load k h a).
Proof.
  intros Ha H Hpq h'. unfold h', moved.
  set (h1 := st64 pp (ld64 h (b + SLAB_NEXT)) h).
  set (h2 := st64 (b + SLAB_NEXT) (ld64 h1 qq) h1). set (h3 := st64 qq b h2).
  assert (A1 : arena b c h1) by (apply arena_store; [done|arena_side]).
  assert (A2 : arena b c h2) by (apply arena_store; [done|arena_side]).
  assert (A3 : arena b c h3) by (apply arena_store; [done|arena_side]).
  assert (Hobj : forall o, o ∈ objs -> b + SIZEOF_SLAB <= o /\ o + 8 <= b + 4096)
    by apply (so_in _ _ _ _ _ H).
  assert (E1q : ld64 h1 qq = ld64 h qq) by (unfold h1; rewrite (ld_ne b c) by (done || arena_side); done).
  change (256 ^ Z.of_nat 8) with (2 ^ 64). split_and!; [done| | | | | |].
  - apply (kept_trans _ h1); [|apply (kept_trans _ h2)];
      apply kept_store; apply (arena_range b c); (done || arena_side).
  - assert (S1 : slab_ok b c h1 objs total).
    { apply (slab_ok_frame b c); [done|arena_side|done|arena_side|].
      intros o Ho. specialize (Hobj o Ho). arena_side. }
    assert (S2 : slab_ok b c h2 objs total).
    { apply (slab_ok_frame b c); [done|arena_side|done|arena_side|].
      intros o Ho. specialize (Hobj o Ho). arena_side. }
    apply (slab_ok_frame b c); [done|arena_side|done|arena_side|].
    intros o Ho. specialize (Hobj o Ho). arena_side.
  - unfold h3. rewrite (ld_ne b c) by (done || arena_side). unfold h2.
    rewrite (ld_ne b c) by (done || arena_side). unfold h1.
    rewrite (ld_eq b c) by (done || arena_side). apply Z.mod_small, ld64_range.
  - unfold h3. rewrite (ld_eq b c) by (done || arena_side). apply Z.mod_small.
    change (256 ^ Z.of_nat 8) with (2 ^ 64). lia.
  - unfold h3. rewrite (ld_ne b c) by (done || arena_side). unfold h2.
    rewrite (ld_eq b c) by (done || arena_side). rewrite <- E1q. apply Z.mod_small, ld64_range.
  - intros a k Hin Hd Hd'. unfold h3. rewrite (ld_ne b c) by (done || arena_side). unfold h2.
    rewrite (ld_ne b c) by (done || arena_side). unfold h1.
    by rewrite (ld_ne b c) by (done || arena_side).
Qed.

(** Objects of a list, pairwise apart. *)
Definition apart (objs : list Z) : Prop :=
  NoDup objs /\ forall x y, x ∈ objs -> y ∈ objs -> x <> y -> x + 8 <= y \/ y + 8 <= x.

(** The fields of the cache and the link of the slab. *)
Definition cache_fields h (partial full next ctor dtor : Z) : Prop :=
  ld64 h (c + CACHE_PARTIAL) = partial /\ ld64 h (c + CACHE_FULL) = full /\
  ld64 h (b + SLAB_NEXT) = next /\ ld64 h (c + CACHE_CTOR) = ctor /\ ld64 h (c + CACHE_DTOR) = dtor.

Lemma slab_alloc_run h o r total full next dtor :
  (1 <= fuel)%nat -> arena b c h -> slab_ok b c h (o :: r) total -> apart (o :: r) ->
  cache_fields h b full next NULL dtor ->
  exists h', slab_alloc fuel call c h = Ret o h' /\ arena b c h' /\ kept h h' /\
    slab_ok b c h' r total /\
    cache_fields h' (match r with [] => next | _ => b end)
      (match r with [] => b | _ => full end) (match r with [] => full | _ => next end) NULL dtor.
Proof.
  intros Hf Ha H [Hnd Hsep] (Ep & Ef & En & Ect & Edt).
  destruct (pop_run h o r total Ha H Hnd Hsep) as (h1 & E1 & A1 & K1 & S1 & L1).
  pose proof (so_chain _ _ _ _ _ H) as (_ & Hone & _).
  assert (Ec : forall off, 0 <= off <= 64 -> ld64 h1 (c + off) = ld64 h (c + off))
    by (intros off Hoff; apply L1; arena_side).
  assert (En1 : ld64 h1 (b + SLAB_NEXT) = next) by (rewrite L1; [done|arena_side|arena_side]).
  unfold slab_alloc. destruct (Z.eqb_spec c NULL) as [E|_]; [unfold NULL in E; lia|].
  rewrite (kbind_ret _ _ _ _ _ (get64_run _ _)), Ep.
  destruct (Z.eqb_spec b NULL) as [E|_]; [unfold NULL in E; lia|].
  rewrite (kbind_ret _ _ h b h) by done. destruct (Z.eqb_spec b NULL) as [E|_]; [unfold NULL in E; lia|].
  rewrite (kbind_ret _ _ h (inr b) h) by done. cbv beta iota.
  rewrite (kbind_ret _ _ _ _ _ E1). destruct (Z.eqb_spec o NULL); [done|].
  rewrite (kbind_ret _ _ _ _ _ (get32_run _ _)), (so_count _ _ _ _ _ S1).
  destruct r as [|o' r].
  - destruct (moved_spec h1 (c + CACHE_PARTIAL) (c + CACHE_FULL) [] total A1 S1
                ltac:(by left)) as (A2 & K2 & S2 & Epp & Eqq & Enx & L2). cbv zeta in *.
    set (h2 := moved h1 (c + CACHE_PARTIAL) (c + CACHE_FULL)) in *.
    exists h2. split_and!; [|done|by apply (kept_trans _ _ _ K1)|done|].
    + change (Z.of_nat (length (@nil Z)) =? 0) with true. cbn [kwhen].
      rewrite (kbind_ret _ _ h1 tt h2).
      * rewrite (kbind_ret _ _ _ _ _ (get64_run _ _)).
        assert (ld64 h2 (c + CACHE_CTOR) = NULL) as ->; [|done].
        rewrite L2; [|arena_side..]. by rewrite Ec by arena_side.
      * assert (Hp1 : ld64 h1 (c + CACHE_PARTIAL) = b) by (by rewrite Ec by arena_side).
        rewrite (kbind_ret _ _ _ _ _ (find_here _ h1 Hf Hp1)).
        unfold unlink. rewrite (kbind_ret _ _ h1 true (st64 (c + CACHE_PARTIAL) (ld64 h1 (b + SLAB_NEXT)) h1)).
        -- rewrite (kbind_ret _ _ _ _ _ (get64_run _ _)), (kbind_ret _ _ _ _ _ (put64_run _ _ _)). done.
        -- rewrite (kbind_ret _ _ _ _ _ (get64_run _ _)), Ec, Ep by arena_side.
           destruct (Z.eqb_spec b NULL) as [E|_]; [unfold NULL in E; lia|]. done.
    + unfold cache_fields. rewrite Epp, Eqq, Enx, En1, Ec, Ef by arena_side.
      split_and!; [done..| |]; (rewrite L2; [|arena_side..]); by rewrite Ec by arena_side.
  - exists h1. split_and!; [|done..|].
    + destruct (Z.eqb_spec (Z.of_nat (length (o' :: r))) 0) as [E|_]; [cbn in E; lia|].
      rewrite (kbind_ret _ _ h1 tt h1) by done.
      rewrite (kbind_ret _ _ _ _ _ (get64_run _ _)), Ec, Ect by arena_side. done.
    + unfold cache_fields. rewrite !Ec by arena_side. done.
Qed.

(** The part of [slab_free] up to the push. *)
Lemma slab_free_push h o r total p f n ct :
  arena b c h -> slab_ok b c h r total -> apart (o :: r) -> o ∉ r ->
  b + SIZEOF_SLAB <= o -> o + 8 <= b + 4096 -> Z.of_nat (length r) < total ->
  cache_fields h p f n ct NULL ->
  exists h1, slab_free fuel call c o h
    = (if (length r =? 0)%nat then
         pp ← find_pointer fuel (c + CACHE_FULL) b;
         found ← unlink pp b;
         kwhen found
           (p ← get64 (c + CACHE_PARTIAL);
            put64 (b + SLAB_NEXT) p;;
            put64 (c + CACHE_PARTIAL) b)
       else
         n ← get32 (b + SLAB_FREE_COUNT);
         total ← get32 (b + SLAB_TOTAL);
         kwhen (n =? total)
           (pp ← find_pointer fuel (c + CACHE_PARTIAL) b;
            unlink pp b;;
            release_slab b)) h1 /\
    arena b c h1 /\ kept h h1 /\ slab_ok b c h1 (o :: r) total /\ cache_fields h1 p f n ct NULL.
Proof.
  intros Ha H [Hnd Hsep] Hor Ho1 Ho2 Htot (Ep & Ef & En & Ect & Edt).
  destruct (push_run h o r total Ha H Ho1 Ho2) as (h1 & E1 & A1 & K1 & S1 & L1).
  { intros x Hx. apply Hsep; [by apply list_elem_of_further|apply list_elem_of_here|by intros ->]. }
  { done. }
  exists h1. split_and!; [|done..|].
  - unfold slab_free.
    destruct (Z.eqb_spec c NULL) as [E|_]; [unfold NULL in E; lia|].
    destruct (Z.eqb_spec o NULL) as [E|_]; [unfold NULL in E; arena_side|]. cbn [orb].
    rewrite (slab_from_object_run b o) by arena_side.
    rewrite (kbind_ret _ _ _ _ _ (get32_run _ _)), (so_magic _ _ _ _ _ H), Z.eqb_refl. cbn [negb].
    rewrite (kbind_ret _ _ _ _ _ (get64_run _ _)), Edt. cbn [Z.eqb negb kwhen NULL].
    rewrite (kbind_ret _ _ h tt h) by done.
    rewrite (kbind_ret _ _ _ _ _ (get32_run _ _)), (so_count _ _ _ _ _ H).
    rewrite (kbind_ret _ _ _ _ _ E1). by destruct r.
  - unfold cache_fields. rewrite !L1 by arena_side. done.
Qed.
Lemma set_inner_same (h : heap S) : set_inner (inner h) h = h.
Proof. by destruct h. Qed.

(** Giving back a slab's page reaches [pmm_free_page] with an address outside
    physical memory. *)
Lemma release_run h :
  pg_inv (inner h) -> exists h', release_slab b h = Ret tt h' /\
    pg_frames (inner h') = pg_frames (inner h) /\
    (forall a, valid h a -> ~ in_page b a -> valid h' a /\ rb h' a = rb h a).
Proof.
  intros Hi. assert (Hlow : low_va b) by (unfold low_va; lia).
  destruct (pg_v2p_low (inner h) b Hi Hlow) as (x & Ex & Hx).
  destruct (pg_unmap_ok (inner h) b Hi Hba Hlow) as (s1 & Eu & Hi1 & _ & Hf1 & Hr1).
  exists (set_inner s1 h). split_and!; [|done|done].
  unfold release_slab, pg_v2p, pg_unmap, pg_free, heap_Pages.
  rewrite (kbind_ret _ _ _ _ _ (klift_ret inner set_inner _ h x (inner h) Ex)), set_inner_same.
  rewrite (kbind_ret _ _ _ _ _ (klift_ret inner set_inner _ h tt s1 Eu)).
  rewrite (klift_ret inner set_inner _ (set_inner s1 h) tt s1); [done|].
  by apply pg_free_outside.
Qed.

(** *** Properties of a cache and one slab *)

Lemma roundtrip_run h o r total full next :
  (1 <= fuel)%nat -> arena b c h -> slab_ok b c h (o :: r) total -> apart (o :: r) ->
  Z.of_nat (length (o :: r)) <= total -> r = [] \/ Z.of_nat (length (o :: r)) <> total ->
  cache_fields h b full next NULL NULL ->
  exists h1 h2, slab_alloc fuel call c h = Ret o h1 /\ slab_ok b c h1 r total /\
    slab_free fuel call c o h1 = Ret tt h2 /\ slab_ok b c h2 (o :: r) total /\
    cache_fields h2 b full next NULL NULL.
Proof.
  intros Hf Ha H Hap Htot Hne Hcf.
  destruct (slab_alloc_run h o r total full next NULL Hf Ha H Hap Hcf)
    as (h1 & E1 & A1 & K1 & S1 & C1).
  destruct (so_in _ _ _ _ _ H o (list_elem_of_here _ _)) as [Ho1 Ho2].
  pose proof (proj1 Hap) as [Hor _]%NoDup_cons. cbn [length] in Htot, Hne.
  destruct (slab_free_push h1 o r total _ _ _ _ A1 S1 Hap Hor Ho1 Ho2 ltac:(lia) C1)
    as (h2 & E2 & A2 & K2 & S2 & C2).
  destruct r as [|o' r]; cbn [length] in E2.
  - destruct C2 as (Ep & Ef & En & Ect & Edt).
    destruct (moved_spec h2 (c + CACHE_FULL) (c + CACHE_PARTIAL) [o] total A2 S2
                ltac:(by right)) as (A3 & K3 & S3 & Epp & Eqq & Enx & L3). cbv zeta in *.
    set (h3 := moved h2 (c + CACHE_FULL) (c + CACHE_PARTIAL)) in *.
    exists h1, h3. split_and!; [done|done| |done|].
    + rewrite E2. cbn [Nat.eqb]. rewrite (kbind_ret _ _ _ _ _ (find_here _ h2 Hf Ef)).
      rewrite (kbind_ret _ _ h2 true (st64 (c + CACHE_FULL) (ld64 h2 (b + SLAB_NEXT)) h2)).
      * cbn [kwhen]. rewrite (kbind_ret _ _ _ _ _ (get64_run _ _)), (kbind_ret _ _ _ _ _ (put64_run _ _ _)). done.
      * unfold unlink. rewrite (kbind_ret _ _ _ _ _ (get64_run _ _)), Ef.
        destruct (Z.eqb_spec b NULL) as [E|_]; [unfold NULL in E; lia|]. done.
    + unfold cache_fields. rewrite Epp, Eqq, Enx, En, Ep.
      split_and!; [done..| |]; (rewrite L3; [|arena_side..]; done).
  - exists h1, h2. split_and!; [done|done| |done|done]. rewrite E2. cbn [Nat.eqb].
    rewrite (kbind_ret _ _ _ _ _ (get32_run _ _)), (so_count _ _ _ _ _ S2).
    rewrite (kbind_ret _ _ _ _ _ (get32_run _ _)), (so_total _ _ _ _ _ S2).
    destruct (Z.eqb_spec (Z.of_nat (length (o :: o' :: r))) total) as [E|_]; [|done].
    cbn [length] in *. destruct Hne; [done|lia].
Qed.

Lemma leak_run h o r total full next :
  (1 <= fuel)%nat -> arena b c h -> slab_ok b c h r total -> apart (o :: r) -> r <> [] ->
  b + SIZEOF_SLAB <= o -> o + 8 <= b + 4096 -> Z.of_nat (length r) + 1 = total ->
  pg_inv (inner h) -> cache_fields h b full next NULL NULL ->
  exists h', slab_free fuel call c o h = Ret tt h' /\
    pg_frames (inner h') = pg_frames (inner h) /\ ld64 h' (c + CACHE_PARTIAL) = next.
Proof.
  intros Hf Ha H Hap Hr Ho1 Ho2 Htot Hi Hcf.
  pose proof (proj1 Hap) as [Hor _]%NoDup_cons.
  destruct (slab_free_push h o r total _ _ _ _ Ha H Hap Hor Ho1 Ho2 ltac:(lia) Hcf)
    as (h1 & E1 & A1 & K1 & S1 & (Ep & Ef & En & Ect & Edt)).
  set (h2 := st64 (c + CACHE_PARTIAL) next h1).
  assert (A2 : arena b c h2) by (apply arena_store; [done|arena_side]).
  assert (K2 : kept h1 h2) by (apply kept_store, (arena_range b c); [done|arena_side]).
  destruct (release_run h2) as (h3 & E3 & F3 & R3).
  { by apply (k_inv _ _ K2), (k_inv _ _ K1). }
  exists h3. split_and!.
  - rewrite E1. destruct r as [|o' r]; [done|]. cbn [length Nat.eqb].
    rewrite (kbind_ret _ _ _ _ _ (get32_run _ _)), (so_count _ _ _ _ _ S1).
    rewrite (kbind_ret _ _ _ _ _ (get32_run _ _)), (so_total _ _ _ _ _ S1).
    destruct (Z.eqb_spec (Z.of_nat (length (o :: o' :: r))) total) as [_|E];
      [|cbn [length] in *; lia]. cbn [kwhen].
    rewrite (kbind_ret _ _ _ _ _ (find_here _ h1 Hf Ep)).
    rewrite (kbind_ret _ _ h1 true h2); [done|].
    unfold unlink. rewrite (kbind_ret _ _ _ _ _ (get64_run _ _)), Ep.
    destruct (Z.eqb_spec b NULL) as [E|_]; [unfold NULL in E; lia|].
    rewrite (kbind_ret _ _ _ _ _ (get64_run _ _)), En. done.
  - by rewrite F3, (k_frames _ _ K2), (k_frames _ _ K1).
  - transitivity (ld64 h2 (c + CACHE_PARTIAL)).
    + apply load_ext. intros i Hin. apply R3; [|unfold in_page; arena_side].
      pose proof (arena_range b c h2 (c + CACHE_PARTIAL) 8 A2 ltac:(arena_side)) as Hv. by apply Hv.
    + unfold h2. rewrite (ld_eq b c) by (done || arena_side). apply Z.mod_small.
      rewrite <- En. apply ld64_range.
Qed.
End one_slab.

(** *** A fresh slab *)

Lemma link_loop c size base n : 8 <= size ->
  forall k i h slot prev,
  n = (i + k)%nat -> slot = base + Z.of_nat i * size -> 0 < base -> base + Z.of_nat n * size <= 2 ^ 64 ->
  chain h prev (objs_of base size i) -> prev = hd NULL (objs_of base size i) ->
  valid_range h base (Z.of_nat n * size) -> valid_range h (c + CACHE_OBJECT_SIZE) 8 ->
  ld64 h (c + CACHE_OBJECT_SIZE) = size ->
  (c + CACHE_OBJECT_SIZE + 8 <= base \/ base + Z.of_nat n * size <= c + CACHE_OBJECT_SIZE) ->
  exists h', kloop (Datatypes.S k) (fun '(i, slot, previous) =>
      if i <? Z.of_nat n then
        put64 slot previous;;
        size ← get64 (c + CACHE_OBJECT_SIZE);
        mret (inl (i + 1, slot + size, slot))
      else mret (inr (slot, previous))) (Z.of_nat i, slot, prev) h
    = Ret (base + Z.of_nat n * size, hd NULL (objs_of base size n)) h' /\
    kept h h' /\ chain h' (hd NULL (objs_of base size n)) (objs_of base size n) /\
    forall a, valid h a -> ~ (base <= a < base + Z.of_nat n * size) -> rb h' a = rb h a.
Proof.
  intros Hsz k. induction k as [|k IH]; intros i h slot prev Hn -> Hb0 Hb1 Hch Hpv Hv Hvc Hs Hd.
  - rewrite Nat.add_0_r in Hn. subst n. exists h.
    split; [|split; [apply kept_refl|split; [by rewrite <- Hpv|done]]].
    cbn [kloop]. destruct (Z.ltb_spec (Z.of_nat i) (Z.of_nat i)); [lia|]. krun. by rewrite Hpv.
  - assert (Hi : (i < n)%nat) by lia.
    set (slot := base + Z.of_nat i * size).
    assert (Hslot : base <= slot /\ slot + size <= base + Z.of_nat n * size) by (unfold slot; nia).
    assert (Hvs : valid_range h slot (Z.of_nat 8)) by (apply (valid_range_sub _ _ _ _ _ Hv); lia).
    set (h1 := st64 slot prev h).
    assert (K1 : kept h h1) by (by apply kept_store).
    assert (Hs1 : ld64 h1 (c + CACHE_OBJECT_SIZE) = size)
      by (unfold h1; rewrite (load_store_ne 8 8) by (done || lia); done).
    assert (Hch1 : chain h1 slot (objs_of base size (Datatypes.S i))).
    { cbn [objs_of chain]. fold slot. split; [done|]. split; [unfold NULL; lia|].
      assert (Hpr : 0 <= prev < 2 ^ 64).
      { rewrite Hpv. destruct i as [|i']; cbn [objs_of hd]; [unfold NULL; lia|]. nia. }
      assert (Es : ld64 h1 slot = prev).
      { unfold h1. rewrite (load_store_eq 8) by done. by apply Z.mod_small. }
      rewrite Es. apply (chain_ext h); [|done].
      intros o (j & Hj & ->)%elem_of_objs_of. unfold h1. apply (load_store_ne 8 8); [done| |].
      - apply (valid_range_sub _ _ _ _ _ Hv); nia.
      - left. unfold slot. change (Z.of_nat 8) with 8.
        assert (Z.of_nat j * size + size <= Z.of_nat i * size) by nia. lia. }
    destruct (IH (Datatypes.S i) h1 (slot + size) slot) as (h2 & E2 & K2 & C2 & R2);
      [lia|unfold slot; nia|done|done|exact Hch1|done|by apply (kept_range _ _ _ _ K1)
      |by apply (kept_range _ _ _ _ K1)|done|done|].
    exists h2. split_and!; [|by apply (kept_trans _ _ _ K1)|done|].
    + rewrite (kloop_next _ _ _ (Z.of_nat (Datatypes.S i), slot + size, slot) _ h1); [exact E2|].
      destruct (Z.ltb_spec (Z.of_nat i) (Z.of_nat n)); [|lia].
      rewrite (kbind_ret _ _ _ _ _ (put64_run _ _ _)). fold slot h1.
      rewrite (kbind_ret _ _ _ _ _ (get64_run _ _)), Hs1. krun.
      by replace (Z.of_nat i + 1) with (Z.of_nat (Datatypes.S i)) by lia.
    + intros a Hav Hout. rewrite R2; [|by apply (k_valid _ _ K1)|done].
      unfold h1. apply rb_store_ne; [done|done|]. lia.
Qed.

Lemma load_frame k h h' a lo hi :
  (forall x, valid h x -> ~ (lo <= x < hi) -> rb h' x = rb h x) ->
  valid_range h a (Z.of_nat k) -> a + Z.of_nat k <= lo \/ hi <= a -> load k h' a = load k h a.
Proof. intros Hr Hv Hd. apply load_ext. intros i Hi. apply Hr; [by apply Hv|lia]. Qed.

(** The header words that [slab_init] writes before it links the objects. *)
Definition with_header (b c n : Z) h : heap S :=
  st32 (b + SLAB_MAGIC_OFF) SLAB_MAGIC (st32 (b + SLAB_FREE_COUNT) n
    (st32 (b + SLAB_TOTAL) n (st64 (b + SLAB_CACHE) c h))).

Lemma with_header_spec b c n h :
  c + SIZEOF_CACHE <= b \/ b + 4096 <= c -> arena b c h -> 0 <= n < 2 ^ 32 -> 0 <= c < 2 ^ 64 ->
  let h' := with_header b c n h in
  arena b c h' /\ kept h h' /\ ld64 h' (b + SLAB_CACHE) = c /\
  ld32 h' (b + SLAB_FREE_COUNT) = n /\ ld32 h' (b + SLAB_TOTAL) = n /\
  ld32 h' (b + SLAB_MAGIC_OFF) = SLAB_MAGIC /\
  forall a, valid h a -> ~ (b <= a < b + SIZEOF_SLAB) -> rb h' a = rb h a.
Proof.
  intros Hd Ha Hn Hc h'. unfold h', with_header.
  set (h1 := st64 (b + SLAB_CACHE) c h). set (h2 := st32 (b + SLAB_TOTAL) n h1).
  set (h3 := st32 (b + SLAB_FREE_COUNT) n h2). set (h4 := st32 (b + SLAB_MAGIC_OFF) SLAB_MAGIC h3).
  assert (A1 : arena b c h1) by (apply arena_store; [done|arena_side]).
  assert (A2 : arena b c h2) by (apply arena_store; [done|arena_side]).
  assert (A3 : arena b c h3) by (apply arena_store; [done|arena_side]).
  assert (A4 : arena b c h4) by (apply arena_store; [done|arena_side]).
  change (2 ^ 32) with (256 ^ Z.of_nat 4) in Hn. change (2 ^ 64) with (256 ^ Z.of_nat 8) in Hc.
  split_and!; [done| | | | | |].
  - apply (kept_trans _ h1); [|apply (kept_trans _ h2); [|apply (kept_trans _ h3)]];
      apply kept_store; apply (arena_range b c); (done || arena_side).
  - unfold h4, h3, h2. rewrite !(ld_ne b c) by (done || arena_side). unfold h1.
    rewrite (ld_eq b c) by (done || arena_side). by apply Z.mod_small.
  - unfold h4. rewrite !(ld_ne b c) by (done || arena_side). unfold h3.
    rewrite (ld_eq b c) by (done || arena_side). by apply Z.mod_small.
  - unfold h4, h3. rewrite !(ld_ne b c) by (done || arena_side). unfold h2.
    rewrite (ld_eq b c) by (done || arena_side). by apply Z.mod_small.
  - unfold h4. rewrite (ld_eq b c) by (done || arena_side). reflexivity.
  - intros a Hv Hout.
    assert (V : forall x : heap S, arena b c x -> forall k o, 0 <= o -> o + Z.of_nat k <= 40 ->
              valid_range x (b + o) (Z.of_nat k))
      by (intros x Hx k o ??; apply (arena_range b c); [done|left; lia]).
    assert (W1 : valid h1 a) by (apply valid_store; [by apply (V h)|done]).
    assert (W2 : valid h2 a) by (apply valid_store; [by apply (V h1)|done]).
    assert (W3 : valid h3 a) by (apply valid_store; [by apply (V h2)|done]).
    unfold h4. rewrite rb_store_ne; [|by apply (V h3)|done|arena_side].
    unfold h3. rewrite rb_store_ne; [|by apply (V h2)|done|arena_side].
    unfold h2. rewrite rb_store_ne; [|by apply (V h1)|done|arena_side].
    unfold h1. rewrite rb_store_ne; [done|by apply (V h)|done|arena_side].
Qed.

Lemma objs_apart base size n : 8 <= size -> apart (objs_of base size n).
Proof.
  intros Hs. split.
  - induction n as [|n IH]; cbn [objs_of]; constructor; [|done].
    intros (k & Hk & E)%elem_of_objs_of. nia.
  - intros x y (i & Hi & ->)%elem_of_objs_of (j & Hj & ->)%elem_of_objs_of Hne.
    destruct (Nat.lt_trichotomy i j) as [H|[->|H]]; [left|done|right]; nia.
Qed.

Lemma slab_init_run h c :
  let first := align_up 40 (ld64 h (c + CACHE_ALIGN)) in
  let size := ld64 h (c + CACHE_OBJECT_SIZE) in
  let n := (4096 - first) / size in
  pg_inv (inner h) -> (1 <= pg_budget (inner h))%nat ->
  valid_range h c SIZEOF_CACHE -> 0 < c < 2 ^ 64 ->
  40 <= first <= 4096 -> 8 <= size -> 1 <= n ->
  exists b h', slab_init c h = Ret b h' /\ 0 < b /\ b + 4096 <= 2 ^ 47 /\ b mod 4096 = 0 /\
    (c + SIZEOF_CACHE <= b \/ b + 4096 <= c) /\ arena b c h' /\ pg_inv (inner h') /\
    slab_ok b c h' (objs_of (b + first) size (Z.to_nat n)) n /\
    (forall a, valid h a -> rb h' a = rb h a /\ ~ in_page b a).
Proof.
  intros first size n Hi Hbud Hvc Hc Hfirst Hsize Hn.
  destruct (klift_grow h Hi Hbud) as (b & s1 & Ea & Hb0 & Hb1 & Hba & Hfresh & Hmap).
  destruct (Hmap [] b Hba ltac:(by right)) as (s2 & Em & Hi2 & _ & Hv2 & Hr2).
  assert (Hout : forall a, valid h a -> ~ in_page b a) by (intros a Ha Hp; by apply (Hfresh a Hp)).
  assert (Hd : c + SIZEOF_CACHE <= b \/ b + 4096 <= c).
  { unfold SIZEOF_CACHE in *. destruct (Z.le_gt_cases (c + 72) b); [by left|].
    destruct (Z.le_gt_cases (b + 4096) c); [by right|]. exfalso.
    apply (Hfresh (Z.max b c)); [unfold in_page; lia|].
    replace (Z.max b c) with (c + (Z.max b c - c)) by lia. apply Hvc. lia. }
  set (h2 := set_inner s2 h) in *.
  assert (A2 : arena b c h2).
  { split; intros i Hin; apply Hv2; [right; unfold in_page; lia|left; by apply Hvc]. }
  destruct (memset_spec h2 b 0 4096 ltac:(lia) (proj1 A2)) as (h3 & Es & Hv3 & Hr3).
  pose proof (kept_memset h2 b 0 4096 h3 ltac:(lia) (proj1 A2) Es) as K3.
  assert (A3 : arena b c h3) by (destruct A2; split; by apply (kept_range _ _ _ _ K3)).
  assert (R3 : forall a, valid h a -> rb h3 a = rb h a).
  { intros a Ha. rewrite Hr3 by (apply Hv2; by left). specialize (Hout a Ha). unfold in_page in Hout.
    destruct (Z.leb_spec b a), (Z.ltb_spec a (b + 4096)); cbn; try lia;
      (apply Hr2; [done|unfold in_page; lia]). }
  assert (Ec : forall o, 0 <= o <= 64 -> ld64 h3 (c + o) = ld64 h (c + o)).
  { intros o Ho. apply load_ext. intros i Hin. apply R3.
    replace (c + o + i) with (c + (o + i)) by lia. apply Hvc. unfold SIZEOF_CACHE. lia. }
  assert (Hnn : Z.of_nat (Z.to_nat n) = n) by lia.
  assert (Hfit : first + n * size <= 4096).
  { pose proof (Z.mul_div_le (4096 - first) size ltac:(lia)) as H. fold n in H. lia. }
  assert (Hn32 : 0 <= n < 2 ^ 32) by (split; [lia|]; nia).
  destruct (with_header_spec b c n h3 Hd A3 Hn32 ltac:(lia)) as (A4 & K4 & W1 & W2 & W3 & W4 & R4).
  cbv zeta in *. remember (with_header b c n h3) as h4 eqn:Eh4.
  pose proof (Ec CACHE_OBJECT_SIZE ltac:(unfold CACHE_OBJECT_SIZE; lia)) as EcS.
  pose proof (Ec CACHE_ALIGN ltac:(unfold CACHE_ALIGN; lia)) as EcA.
  assert (EcS4 : ld64 h4 (c + CACHE_OBJECT_SIZE) = size).
  { unfold size. rewrite <- EcS.
    apply load_ext. intros i Hin. apply R4; [|unfold CACHE_OBJECT_SIZE; arena_side].
    apply (arena_range b c h3 (c + CACHE_OBJECT_SIZE) 8 A3); [arena_side|exact Hin]. }
  destruct (link_loop c size (b + first) (Z.to_nat n) Hsize (Z.to_nat n) O h4 (b + first) NULL)
    as (h5 & E5 & K5 & C5 & R5).
  { lia. } { lia. } { lia. } { rewrite Hnn. lia. } { done. } { done. }
  { rewrite Hnn. apply (valid_range_sub _ b 4096); [apply A4|lia|lia]. }
  { apply (arena_range b c h4 _ 8 A4). arena_side. }
  { exact EcS4. }
  { rewrite Hnn. arena_side. }
  rewrite Hnn in E5, R5.
  set (objs := objs_of (b + first) size (Z.to_nat n)) in *.
  assert (A5 : arena b c h5) by (destruct A4; split; by apply (kept_range _ _ _ _ K5)).
  set (h6 := st64 (b + SLAB_FREE_LIST) (hd NULL objs) h5).
  assert (Hobjs : forall o, o ∈ objs -> b + SIZEOF_SLAB <= o /\ o + 8 <= b + 4096).
  { intros o (k & Hk & ->)%elem_of_objs_of. unfold SIZEOF_SLAB.
    assert (Z.of_nat k * size + size <= n * size) by nia. nia. }
  assert (Hhead : 0 <= hd NULL objs < 2 ^ 64).
  { destruct objs as [|o r]; [unfold NULL; cbn; lia|]. cbn.
    destruct (Hobjs o (list_elem_of_here _ _)). unfold SIZEOF_SLAB in *. lia. }
  assert (E5' : forall k o, 0 <= o -> o + Z.of_nat k <= 40 -> load k h5 (b + o) = load k h4 (b + o)).
  { intros k o ??. apply (load_frame k h4 h5 _ _ _ R5); [|left; lia].
    apply (arena_range b c); [done|left; lia]. }
  exists b, h6. split_and!; [|done|done|done|done| | | |].
  - unfold slab_init. rewrite (kbind_ret _ _ _ _ _ Ea).
    destruct (Z.eqb_spec b 0); [lia|]. rewrite (kbind_ret _ _ _ _ _ Em). fold h2.
    change PAGE_SIZE_SLAB with 4096. rewrite (kbind_ret _ _ _ _ _ Es).
    change (align_up SIZEOF_SLAB 8) with 40.
    rewrite (kbind_ret _ _ _ _ _ (get64_run _ _)), EcA. fold first.
    rewrite (kbind_ret _ _ _ _ _ (get64_run _ _)), EcS. fold size.
    destruct (Z.eqb_spec size 0); [lia|]. rewrite (wrap_small 64) by lia. fold n.
    destruct (Z.eqb_spec n 0); [lia|]. rewrite (wrap_small 32) by lia.
    rewrite (kbind_ret _ _ h3 tt (st64 (b + SLAB_CACHE) c h3)) by done.
    rewrite !(kbind_ret _ _ _ _ _ (put32_run _ _ _)).
    unfold with_header in Eh4. rewrite <- Eh4.
    unfold link_objects. change (Z.of_nat 0) with 0 in E5. rewrite Hnn.
    rewrite (kbind_ret _ _ _ _ _ E5). reflexivity.
  - apply arena_store; [done|arena_side].
  - apply (k_inv h5); [|by apply (k_inv _ _ K5), (k_inv _ _ K4), (k_inv _ _ K3)].
    apply kept_store, (arena_range b c); [done|arena_side].
  - split.
    + unfold h6. rewrite (ld_ne b c) by (assumption || arena_side).
      rewrite E5' by arena_side. exact W1.
    + unfold h6. rewrite (ld_ne b c) by (assumption || arena_side).
      rewrite E5' by arena_side. rewrite W2. unfold objs. rewrite objs_of_length, Hnn. reflexivity.
    + unfold h6. rewrite (ld_ne b c) by (assumption || arena_side). rewrite E5' by arena_side. exact W3.
    + unfold h6. rewrite (ld_ne b c) by (assumption || arena_side). rewrite E5' by arena_side. exact W4.
    + unfold h6. rewrite (ld_eq b c) by (assumption || arena_side).
      change (256 ^ Z.of_nat 8) with (2 ^ 64). rewrite Z.mod_small by done.
      apply (chain_ext h5); [|done]. intros o Ho. destruct (Hobjs o Ho).
      by rewrite (ld_ne b c) by (assumption || arena_side).
    + exact Hobjs.
  - intros a Ha. split; [|by apply Hout]. specialize (Hout a Ha). unfold in_page in Hout.
    assert (Hva : valid h3 a) by (apply Hv3, Hv2; by left).
    unfold h6. rewrite rb_store_ne.
    + rewrite R5; [|by apply (k_valid _ _ K4)|nia]. rewrite R4; [by apply R3|done|].
      unfold SIZEOF_SLAB. lia.
    + apply (arena_range b c); [done|arena_side].
    + by apply (k_valid _ _ K5), (k_valid _ _ K4).
    + arena_side.
Qed.

(** The first allocation of a cache: build a slab, put it on the partial list,
    and go on as if it had been there. *)
Lemma fresh_run h c full :
  let first := align_up 40 (ld64 h (c + CACHE_ALIGN)) in
  let size := ld64 h (c + CACHE_OBJECT_SIZE) in
  let n := (4096 - first) / size in
  pg_inv (inner h) -> (1 <= pg_budget (inner h))%nat ->
  valid_range h c SIZEOF_CACHE -> 0 < c < 2 ^ 64 ->
  40 <= first <= 4096 -> 8 <= size -> 1 <= n ->
  ld64 h (c + CACHE_PARTIAL) = NULL -> ld64 h (c + CACHE_EMPTY) = NULL ->
  ld64 h (c + CACHE_FULL) = full ->
  exists b h', slab_alloc fuel call c h = slab_alloc fuel call c h' /\
    0 < b /\ b + 4096 <= 2 ^ 47 /\ b mod 4096 = 0 /\
    (c + SIZEOF_CACHE <= b \/ b + 4096 <= c) /\ arena b c h' /\ pg_inv (inner h') /\
    slab_ok b c h' (objs_of (b + first) size (Z.to_nat n)) n /\
    cache_fields b c h' b full NULL (ld64 h (c + CACHE_CTOR)) (ld64 h (c + CACHE_DTOR)) /\
    (forall a, valid h a -> ~ in_page b a).
Proof.
  intros first size n Hi Hbud Hvc Hc Hfirst Hsize Hn Ep Ee Ef.
  destruct (slab_init_run h c Hi Hbud Hvc Hc Hfirst Hsize Hn)
    as (b & h1 & E & Hb0 & Hb1 & Hba & Hd & A1 & Hi1 & S1 & R1).
  fold first size n in S1.
  assert (Ec : forall o, 0 <= o <= 64 -> ld64 h1 (c + o) = ld64 h (c + o)).
  { intros o Ho. apply load_ext. intros i Hin. apply R1.
    replace (c + o + i) with (c + (o + i)) by lia. apply Hvc. unfold SIZEOF_CACHE. lia. }
  set (h2 := st64 (b + SLAB_NEXT) (ld64 h1 (c + CACHE_PARTIAL)) h1).
  set (h3 := st64 (c + CACHE_PARTIAL) b h2).
  assert (A2 : arena b c h2) by (apply arena_store; [exact A1|arena_side]).
  assert (A3 : arena b c h3) by (apply arena_store; [exact A2|arena_side]).
  assert (Ep3 : ld64 h3 (c + CACHE_PARTIAL) = b).
  { unfold h3. rewrite (ld_eq b c) by (assumption || arena_side). apply Z.mod_small.
    change (256 ^ Z.of_nat 8) with (2 ^ 64). lia. }
  assert (Eo3 : forall o, 0 <= o <= 64 -> o + 8 <= CACHE_PARTIAL \/ CACHE_FULL <= o ->
            ld64 h3 (c + o) = ld64 h (c + o)).
  { intros o Ho Ho'. unfold h3. rewrite (ld_ne b c) by (assumption || arena_side). unfold h2.
    rewrite (ld_ne b c) by (assumption || arena_side). by apply Ec. }
  exists b, h3. split_and!; [|exact Hb0|exact Hb1|exact Hba|exact Hd|exact A3| | | |].
  - destruct (Z.eqb_spec b NULL) as [E0|Hbn]; [unfold NULL in E0; lia|].
    unfold slab_alloc. destruct (Z.eqb_spec c NULL) as [E0|_]; [unfold NULL in E0; lia|].
    rewrite !(kbind_ret _ _ _ _ _ (get64_run _ _)), Ep, Ep3.
    destruct (Z.eqb_spec b NULL) as [|_]; [contradiction|]. change (NULL =? NULL) with true. cbv iota.
    rewrite (kbind_ret _ _ _ _ _ (get64_run _ _)), Ee. change (NULL =? NULL) with true. cbv iota.
    rewrite (kbind_ret _ _ h3 b h3) by reflexivity. destruct (Z.eqb_spec b NULL) as [|_]; [contradiction|].
    rewrite (kbind_ret _ _ h3 (inr b) h3) by reflexivity.
    rewrite (kbind_ret _ _ h (inr b) h3); [reflexivity|].
    rewrite (kbind_ret _ _ _ _ _ E). destruct (Z.eqb_spec b NULL) as [|_]; [contradiction|].
    rewrite (kbind_ret _ _ _ _ _ (get64_run _ _)), !(kbind_ret _ _ _ _ _ (put64_run _ _ _)).
    reflexivity.
  - apply (k_inv h2); [apply kept_store, (arena_range b c); [exact A2|arena_side]|].
    apply (k_inv h1); [apply kept_store, (arena_range b c); [exact A1|arena_side]|exact Hi1].
  - assert (Hob := so_in _ _ _ _ _ S1).
    assert (S2 : slab_ok b c h2 (objs_of (b + first) size (Z.to_nat n)) n).
    { apply (slab_ok_frame b c); [exact A1|arena_side|exact S1|arena_side|].
      intros o Ho. specialize (Hob o Ho). arena_side. }
    apply (slab_ok_frame b c); [exact A2|arena_side|exact S2|arena_side|].
    intros o Ho. specialize (Hob o Ho). arena_side.
  - split; [exact Ep3|]. split; [rewrite Eo3; [exact Ef|arena_side|arena_side]|].
    split; [|split; apply Eo3; arena_side].
    unfold h3. rewrite (ld_ne b c) by (assumption || arena_side). unfold h2.
    rewrite (ld_eq b c) by (assumption || arena_side). rewrite Ec, Ep by arena_side. reflexivity.
  - intros a Ha. by apply R1.
Qed.

(** *** A new cache *)
Section fields.
Context (c : Z).
Definition cache_at h : Prop := valid_range h c SIZEOF_CACHE.

Lemma cache_put h o v : cache_at h -> 0 <= o <= 64 -> cache_at (st64 (c + o) v h) /\
  kept h (st64 (c + o) v h) /\ ld64 (st64 (c + o) v h) (c + o) = u64 v /\
  forall o', 0 <= o' <= 64 -> o' + 8 <= o \/ o + 8 <= o' ->
    ld64 (st64 (c + o) v h) (c + o') = ld64 h (c + o').
Proof.
  intros Hc Ho. assert (Hr : forall o, 0 <= o <= 64 -> valid_range h (c + o) (Z.of_nat 8))
    by (intros o1 Ho1; apply (valid_range_sub _ _ _ _ _ Hc); unfold SIZEOF_CACHE; lia).
  specialize (Hr o Ho) as Hro. split_and!.
  - by apply valid_range_store.
  - by apply kept_store.
  - by apply load_store_eq.
  - intros o' Ho' Hd. apply (load_store_ne 8 8); [done|by apply Hr|lia].
Qed.
End fields.

(** A list of writes to the cache's fields, the first one first. *)
Definition put_fields (c : Z) (ws : list (Z * Z)) h : heap S :=
  fold_left (fun h w => st64 (c + fst w) (snd w) h) ws h.

Lemma put_fields_run c ws : forall h,
  cache_at c h -> Forall (fun w => 0 <= fst w <= 64 /\ fst w mod 8 = 0) ws ->
  cache_at c (put_fields c ws h) /\ kept h (put_fields c ws h) /\
  (forall a, valid h a -> ~ (c <= a < c + SIZEOF_CACHE) -> rb (put_fields c ws h) a = rb h a) /\
  forall o, 0 <= o <= 64 -> o mod 8 = 0 ->
    ld64 (put_fields c ws h) (c + o)
    = fold_left (fun x w => if o =? fst w then u64 (snd w) else x) ws (ld64 h (c + o)).
Proof.
  induction ws as [|[o v] ws IH]; intros h Hc Hw;
    [split; [done|]; split; [apply kept_refl|done]|].
  apply Forall_cons in Hw as [[Ho Hm] Hw]. cbn [fst snd] in *.
  destruct (cache_put c h o v Hc Ho) as (C1 & K1 & E1 & N1).
  destruct (IH (st64 (c + o) v h) C1 Hw) as (C2 & K2 & R2 & E2).
  split; [exact C2|]. split; [exact (kept_trans _ _ _ K1 K2)|]. split.
  - intros a Ha Hout. change (put_fields c ((o, v) :: ws) h) with (put_fields c ws (st64 (c + o) v h)).
    rewrite R2; [|by apply (k_valid _ _ K1)|done]. apply rb_store_ne; [|done|].
    + apply (valid_range_sub _ _ _ _ _ Hc); unfold SIZEOF_CACHE; lia.
    + unfold SIZEOF_CACHE in Hout. lia.
  - intros o' Ho' Hm'. change (put_fields c ((o, v) :: ws) h) with (put_fields c ws (st64 (c + o) v h)).
    cbn [fold_left fst snd]. rewrite E2 by done. f_equal.
    destruct (Z.eqb_spec o' o) as [->|Hne]; [exact E1|]. apply N1; [done|]. zdiv.
Qed.

(** The fields [slab_cache_create] writes before it looks at the object size,
    in the order of the source. *)
Definition new_fields (name align ctor dtor size : Z) : list (Z * Z) :=
  [(CACHE_NAME, name); (CACHE_ALIGN, align); (CACHE_CTOR, ctor); (CACHE_DTOR, dtor);
   (CACHE_PARTIAL, NULL); (CACHE_FULL, NULL); (CACHE_EMPTY, NULL); (CACHE_OBJECT_SIZE, size)].

Lemma slab_cache_create_run h bs e p bs' name osz align ctor dtor :
  let al := if align <? 8 then 8 else align in
  let size := align_up osz al in
  let first := align_up 40 al in
  heap_wf h bs e -> (length bs <= fuel)%nat ->
  alloc_blocks HEAP_START (round16 SIZEOF_CACHE) bs = Some (p, bs') -> p <> NULL ->
  0 < osz -> 0 < size -> 0 <= first <= 4096 -> 1 <= (4096 - first) / size ->
  exists h', slab_cache_create fuel name osz align ctor dtor h = Ret p h' /\
    heap_wf h' bs' e /\ valid_range h' p SIZEOF_CACHE /\
    ld64 h' (p + CACHE_NAME) = u64 name /\ ld64 h' (p + CACHE_OBJECT_SIZE) = size /\
    ld64 h' (p + CACHE_ALIGN) = u64 al /\ ld64 h' (p + CACHE_PER_SLAB) = (4096 - first) / size /\
    ld64 h' (p + CACHE_PARTIAL) = NULL /\ ld64 h' (p + CACHE_FULL) = NULL /\
    ld64 h' (p + CACHE_EMPTY) = NULL /\
    ld64 h' (p + CACHE_CTOR) = u64 ctor /\ ld64 h' (p + CACHE_DTOR) = u64 dtor.
Proof.
  intros al size first Hw Hf Ea Hp Hosz Hsz Hfirst Hper.
  destruct (kmalloc_fit_run h bs e fuel SIZEOF_CACHE p bs' Hw eq_refl eq_refl Hf Ea)
    as (h1 & E1 & W1 & _ & Al & _).
  assert (C1 : cache_at p h1) by (intros i Hi; apply (al_fresh _ _ _ _ _ _ Al); lia).
  destruct (put_fields_run p (new_fields name al ctor dtor size) h1 C1) as (C2 & K2 & R2 & L2).
  { unfold new_fields. repeat constructor; vm_compute; congruence. }
  set (h2 := put_fields p _ h1) in *.
  destruct (put_fields_run p [(CACHE_PER_SLAB, (4096 - first) / size)] h2 C2) as (C3 & K3 & R3 & L3).
  { repeat constructor; vm_compute; congruence. }
  set (h3 := put_fields p _ h2) in *.
  pose proof (align_up_range osz al) as Hsr. fold size in Hsr.
  assert (Hpr : 0 <= (4096 - first) / size < 2 ^ 64).
  { split; [lia|]. pose proof (Z.div_le_upper_bound (4096 - first) size 4096 Hsz ltac:(nia)). lia. }
  exists h3. split; [|split; [|split; [exact C3|]]].
  - unfold slab_cache_create. destruct (Z.eqb_spec osz 0); [lia|]. fold al. cbv zeta.
    rewrite (kbind_ret _ _ _ _ _ E1). destruct (Z.eqb_spec p NULL); [contradiction|].
    rewrite !(kbind_ret _ _ _ _ _ (put64_run _ _ _)).
    change (align_up SIZEOF_SLAB 8) with 40. fold size first.
    change (st64 (p + CACHE_OBJECT_SIZE) size _) with h2.
    rewrite (kbind_ret _ _ _ _ _ (get64_run _ _)), L2 by (vm_compute; split; congruence || reflexivity).
    change (fold_left _ _ _) with (u64 size). rewrite (wrap_small 64) by lia.
    destruct (Z.eqb_spec size 0); [lia|]. change PAGE_SIZE_SLAB with 4096.
    rewrite (wrap_small 64 (4096 - first)) by lia.
    rewrite (kbind_ret _ _ _ _ _ (put64_run _ _ _)).
    change (st64 (p + CACHE_PER_SLAB) ((4096 - first) / size) h2) with h3.
    rewrite (kbind_ret _ _ _ _ _ (get64_run _ _)), L3 by (vm_compute; split; congruence || reflexivity).
    change (fold_left _ _ _) with (u64 ((4096 - first) / size)). rewrite (wrap_small 64) by lia.
    destruct (Z.eqb_spec ((4096 - first) / size) 0); [lia|]. reflexivity.
  - apply (heap_wf_payload h1); [exact W1|exact (kept_trans _ _ _ K2 K3)|].
    intros x Hx Hu. assert (Ho : ~ (p <= x < p + SIZEOF_CACHE))
      by (intros Hin; apply Hu, (al_fresh _ _ _ _ _ _ Al x Hin)).
    rewrite R3; [by apply R2|by apply (k_valid _ _ K2)|exact Ho].
  - split_and!; (rewrite L3 by (vm_compute; split; congruence || reflexivity));
      (rewrite L2 by (vm_compute; split; congruence || reflexivity)); cbn -[wrap Z.div];
      try reflexivity; by apply wrap_small.
Qed.

(** ** Properties *)

(** On a cache without slabs, [slab_alloc] takes a page that was not
    mapped before, divides it behind the header into as many objects as fit,
    and answers the last of them; the others stay free, in a slab whose header,
    count and magic number are right, and the slab is on the partial list, or
    on the full list when it has a single object.  No object is lost: the
    object size times their number fills the page up to a remainder. *)
Theorem slab_alloc_first h c full dtor
    (Hinv : pg_inv (inner h)) (Hbudget : (1 <= pg_budget (inner h))%nat) (Hfuel : (1 <= fuel)%nat)
    (Hcache : valid_range h c SIZEOF_CACHE) (Hc : 0 < c < 2 ^ 64)
    (Hfirst : 40 <= align_up 40 (ld64 h (c + CACHE_ALIGN)) <= 4096)
    (Hsize : 8 <= ld64 h (c + CACHE_OBJECT_SIZE))
    (Hn : 1 <= (4096 - align_up 40 (ld64 h (c + CACHE_ALIGN))) / ld64 h (c + CACHE_OBJECT_SIZE))
    (Hpartial : ld64 h (c + CACHE_PARTIAL) = NULL) (Hempty : ld64 h (c + CACHE_EMPTY) = NULL)
    (Hfull : ld64 h (c + CACHE_FULL) = full) (Hctor : ld64 h (c + CACHE_CTOR) = NULL)
    (Hdtor : ld64 h (c + CACHE_DTOR) = dtor) :
  let first := align_up 40 (ld64 h (c + CACHE_ALIGN)) in
  let size := ld64 h (c + CACHE_OBJECT_SIZE) in
  let n := (4096 - first) / size in
  let rest b := objs_of (b + first) size (Z.to_nat n - 1) in
  exists b h', slab_alloc fuel call c h = Ret (b + first + (n - 1) * size) h' /\
    (forall a, valid h a -> ~ in_page b a) /\ arena b c h' /\ pg_inv (inner h') /\
    slab_ok b c h' (rest b) n /\
    cache_fields b c h' (if n =? 1 then NULL else b) (if n =? 1 then b else full)
      (if n =? 1 then full else NULL) NULL dtor.
Proof.
  intros first size n rest.
  destruct (fresh_run h c full Hinv Hbudget Hcache Hc Hfirst Hsize Hn Hpartial Hempty Hfull)
    as (b & h1 & E & Hb0 & Hb1 & Hba & Hd & A1 & Hi1 & S1 & C1 & Hnew).
  fold first size n in S1, Hn. rewrite Hctor, Hdtor in C1.
  assert (Hk : Z.to_nat n = Datatypes.S (Z.to_nat n - 1)) by lia.
  pose proof (objs_apart (b + first) size (Z.to_nat n) Hsize) as Hap.
  rewrite Hk in S1, Hap. cbn [objs_of] in S1, Hap. fold (rest b) in S1, Hap.
  replace (b + first + Z.of_nat (Z.to_nat n - 1) * size) with (b + first + (n - 1) * size)
    in S1, Hap by lia.
  destruct (slab_alloc_run b c Hd Hb0 ltac:(lia) Hc h1 _ _ n full NULL dtor Hfuel A1 S1 Hap C1)
    as (h2 & E2 & A2 & K2 & S2 & C2).
  exists b, h2. rewrite E. split_and!; [exact E2|exact Hnew|exact A2|by apply (k_inv _ _ K2)|exact S2|].
  unfold rest in C2. destruct (Z.eqb_spec n 1) as [E1|Hne].
  - rewrite E1 in C2. exact C2.
  - assert (Hk' : (Z.to_nat n - 1)%nat = Datatypes.S (Z.to_nat n - 2)) by lia.
    rewrite Hk' in C2. exact C2.
Qed.

(** C25: allocating an object from a partial slab and giving it back restores
    the slab's free list, its count and the cache's lists, also when the
    allocation empties the slab and moves it to the full list and back.  (When
    every object would be free again the slab is released instead.) *)
Theorem slab_alloc_free_roundtrip b c h o r total full next
    (Hdisj : c + SIZEOF_CACHE <= b \/ b + 4096 <= c) (Hb : 0 < b) (Hb47 : b + 4096 <= 2 ^ 47)
    (Hba : b mod 4096 = 0) (Hc : 0 < c < 2 ^ 64) (Hfuel : (1 <= fuel)%nat)
    (Harena : arena b c h) (Hslab : slab_ok b c h (o :: r) total) (Hapart : apart (o :: r))
    (Htotal : Z.of_nat (length (o :: r)) <= total)
    (Hkeep : r = [] \/ Z.of_nat (length (o :: r)) <> total)
    (Hfields : cache_fields b c h b full next NULL NULL) :
  exists h1 h2, slab_alloc fuel call c h = Ret o h1 /\ slab_ok b c h1 r total /\
    slab_free fuel call c o h1 = Ret tt h2 /\ slab_ok b c h2 (o :: r) total /\
    cache_fields b c h2 b full next NULL NULL.
Proof. by eapply (roundtrip_run b c). Qed.

(** Giving back the last object of a slab takes the slab off the partial
    list and unmaps its page, but does not release its frame: the source asks
    [virtual_to_physical] for the physical address of an identity-mapped one,
    and [pmm_free_page] ignores the answer. *)
Theorem slab_free_last_object_leaks_frame b c h o r total full next
    (Hdisj : c + SIZEOF_CACHE <= b \/ b + 4096 <= c) (Hb : 0 < b) (Hb47 : b + 4096 <= 2 ^ 47)
    (Hba : b mod 4096 = 0) (Hc : 0 < c < 2 ^ 64) (Hfuel : (1 <= fuel)%nat)
    (Harena : arena b c h) (Hslab : slab_ok b c h r total) (Hapart : apart (o :: r))
    (Hr : r <> []) (Ho1 : b + SIZEOF_SLAB <= o) (Ho2 : o + 8 <= b + 4096)
    (Htotal : Z.of_nat (length r) + 1 = total) (Hinv : pg_inv (inner h))
    (Hfields : cache_fields b c h b full next NULL NULL) :
  exists h', slab_free fuel call c o h = Ret tt h' /\
    pg_frames (inner h') = pg_frames (inner h) /\ ld64 h' (c + CACHE_PARTIAL) = next.
Proof. by eapply (leak_run b c). Qed.
End slab_proofs.

(** ** Witnesses: a cache of 1360-byte objects on the demonstration heap *)

Definition no_call (f o : Z) : K (heap machine) unit := mret tt.
Definition demo_cache_at : Z := HEAP_START + HEADER.
Definition demo_cache : heap machine :=
  match slab_cache_create 1 0 1360 0 0 0 demo_heap with Ret _ h => h | Stop _ h => h end.

Lemma demo_cache_fields :
  pg_inv (inner demo_cache) /\ valid_range demo_cache demo_cache_at SIZEOF_CACHE /\
  ld64 demo_cache (demo_cache_at + CACHE_OBJECT_SIZE) = 1360 /\
  ld64 demo_cache (demo_cache_at + CACHE_ALIGN) = 8 /\
  ld64 demo_cache (demo_cache_at + CACHE_PARTIAL) = NULL /\
  ld64 demo_cache (demo_cache_at + CACHE_FULL) = NULL /\
  ld64 demo_cache (demo_cache_at + CACHE_EMPTY) = NULL /\
  ld64 demo_cache (demo_cache_at + CACHE_CTOR) = NULL /\
  ld64 demo_cache (demo_cache_at + CACHE_DTOR) = NULL.
Proof.
  destruct (slab_cache_create_run 1 no_call demo_heap [(4072, true)] (HEAP_START + 4096) demo_cache_at
              [(80, false); (3968, true)] 0 1360 0 0 0 (proj1 demo_heap_wf) ltac:(cbn [length]; lia)
              eq_refl ltac:(vm_compute; congruence) eq_refl eq_refl
              ltac:(vm_compute; split; congruence) ltac:(vm_compute; congruence))
    as (h & E & W & V & _ & E1 & E2 & _ & E3 & E4 & E5 & E6 & E7).
  assert (demo_cache = h) as -> by (unfold demo_cache; rewrite E; reflexivity).
  split; [exact (hw_inv _ _ _ W)|]. split; [exact V|].
  split; [exact E1|]. split; [exact E2|]. split; [exact E3|]. split; [exact E4|].
  split; [exact E5|]. split; [exact E6|]. exact E7.
Qed.

Lemma demo_cache_budget : (1 <= pg_budget (inner demo_cache))%nat.
Proof. vm_compute. lia. Qed.


Lemma slab_alloc_first_witness :
  exists b h', slab_alloc 1 no_call demo_cache_at demo_cache = Ret (b + 40 + (2 - 1) * 1360) h' /\
    (forall a, valid demo_cache a -> ~ in_page b a) /\ arena b demo_cache_at h' /\ pg_inv (inner h') /\
    slab_ok b demo_cache_at h' [b + 40 + 0 * 1360] 2 /\
    cache_fields b demo_cache_at h' b NULL NULL NULL NULL.
Proof.
  destruct demo_cache_fields as (Hi & Hv & E1 & E2 & E3 & E4 & E5 & E6 & E7).
  pose proof (slab_alloc_first 1 no_call demo_cache demo_cache_at NULL NULL Hi demo_cache_budget
                (le_n 1) Hv ltac:(vm_compute; split; congruence || reflexivity)) as H.
  rewrite E1, E2 in H.
  exact (H ltac:(vm_compute; split; congruence) ltac:(vm_compute; congruence)
           ltac:(vm_compute; congruence) E3 E5 E4 E6 E7).
Defined.

(** The same cache after its first allocation. *)
Definition demo_slab : heap machine :=
  match slab_alloc 1 no_call demo_cache_at demo_cache with Ret _ h => h | Stop _ h => h end.

Lemma demo_slab_fields :
  exists b, (demo_cache_at + SIZEOF_CACHE <= b \/ b + 4096 <= demo_cache_at) /\ 0 < b /\
    b + 4096 <= 2 ^ 47 /\ b mod 4096 = 0 /\
    arena b demo_cache_at demo_slab /\ pg_inv (inner demo_slab) /\
    slab_ok b demo_cache_at demo_slab [b + 40] 2 /\
    apart [b + 1400; b + 40] /\
    cache_fields b demo_cache_at demo_slab b NULL NULL NULL NULL.
Proof.
  destruct demo_cache_fields as (Hi & Hv & E1 & E2 & E3 & E4 & E5 & E6 & E7).
  assert (Hc : 0 < demo_cache_at < 2 ^ 64) by (vm_compute; split; congruence || reflexivity).
  pose proof (fresh_run 1 no_call demo_cache demo_cache_at NULL Hi demo_cache_budget Hv Hc) as F.
  rewrite E1, E2, E6, E7 in F.
  destruct (F ltac:(vm_compute; split; congruence) ltac:(vm_compute; congruence)
              ltac:(vm_compute; congruence) E3 E5 E4)
    as (b & h1 & E & Hb0 & Hb1 & Hba & Hd & A1 & Hi1 & S1 & C1 & _).
  pose proof (objs_apart (b + 40) 1360 2 ltac:(lia)) as Hap.
  change (objs_of (b + 40) 1360 2) with [b + 40 + 1 * 1360; b + 40 + 0 * 1360] in Hap.
  change (objs_of (b + align_up 40 8) 1360 (Z.to_nat ((4096 - align_up 40 8) / 1360)))
    with [b + 40 + 1 * 1360; b + 40 + 0 * 1360] in S1.
  replace (b + 40 + 1 * 1360) with (b + 1400) in Hap, S1 by lia.
  replace (b + 40 + 0 * 1360) with (b + 40) in Hap, S1 by lia.
  destruct (slab_alloc_run 1 no_call b demo_cache_at Hd Hb0 ltac:(lia) Hc h1 _ _ _ _ _ _
              (le_n 1) A1 S1 Hap C1) as (h2 & E2' & A2 & K2 & S2 & C2).
  assert (demo_slab = h2) as -> by (unfold demo_slab; rewrite E, E2'; reflexivity).
  exists b. split_and!; [exact Hd|exact Hb0|exact Hb1|exact Hba|exact A2|by apply (k_inv _ _ K2)
    |exact S2|exact Hap|exact C2].
Qed.

Lemma slab_alloc_free_roundtrip_witness :
  exists b h1 h2, slab_alloc 1 no_call demo_cache_at demo_slab = Ret (b + 40) h1 /\
    slab_ok b demo_cache_at h1 [] 2 /\
    slab_free 1 no_call demo_cache_at (b + 40) h1 = Ret tt h2 /\ slab_ok b demo_cache_at h2 [b + 40] 2 /\
    cache_fields b demo_cache_at h2 b NULL NULL NULL NULL.
Proof.
  destruct demo_slab_fields as (b & Hd & Hb0 & Hb1 & Hba & A & Hi & Sl & Hap & C).
  exists b.
  apply (slab_alloc_free_roundtrip 1 no_call b demo_cache_at demo_slab (b + 40) [] 2 NULL NULL Hd Hb0
           Hb1 Hba); [vm_compute; split; congruence || reflexivity|lia|exact A|exact Sl| |vm_compute; congruence
           |by left|exact C].
  destruct Hap as [[_ Hnd]%NoDup_cons Hs]. split; [exact Hnd|].
  intros x y Hx Hy. apply Hs; by apply list_elem_of_further.
Defined.

Lemma slab_free_last_object_leaks_frame_witness :
  exists b h', slab_free 1 no_call demo_cache_at (b + 1400) demo_slab = Ret tt h' /\
    pg_frames (inner h') = pg_frames (inner demo_slab) /\
    ld64 h' (demo_cache_at + CACHE_PARTIAL) = NULL.
Proof.
  destruct demo_slab_fields as (b & Hd & Hb0 & Hb1 & Hba & A & Hi & Sl & Hap & C).
  exists b.
  apply (slab_free_last_object_leaks_frame 1 no_call b demo_cache_at demo_slab (b + 1400) [b + 40] 2
           NULL NULL Hd Hb0 Hb1 Hba); [vm_compute; split; congruence || reflexivity|lia|exact A|exact Sl|
           exact Hap|discriminate|unfold SIZEOF_SLAB; lia|lia|reflexivity|exact Hi|exact C].
Defined.
