(* ===== verification/Spinlock.v ===== *)
(** * Interrupt flag and spinlocks (arch/x86_64/asm/asm.h, scheduling/spinlock.h)

    [Cpu] is the interface of a state with an interrupt flag.  A spinlock is a
    field of some object, so the operations take its accessors ([slens]).  On
    one processor a lock that is already held is never released while it is
    being waited for: interrupts are off, so acquiring it spins for ever. *)

From S2P Require Import Prelude.
Local Open Scope Z_scope.

Class Cpu (S : Type) := {
  get_if : S -> bool;
  set_if : bool -> S -> S;
}.

Class CpuOk (S : Type) `{!Cpu S} := {
  get_set_if : forall b s, get_if (set_if b s) = b;
  set_set_if : forall b b' s, set_if b (set_if b' s) = set_if b s;
  set_get_if : forall s, set_if (get_if s) s = s;
}.

(** src/include/scheduling/spinlock.h:7-11 [spinlock_t] *)
Record spinlock := Spinlock {
  lock : bool;
  had_interrupt : bool;
}.

#[export] Instance spinlock_eq_dec : EqDecision spinlock.
Proof. solve_decision. Defined.

(** Where a spinlock lives in a state. *)
Record slens (S : Type) := Slens {
  sl_get : S -> spinlock;
  sl_set : spinlock -> S -> S;
}.
Arguments Slens {S}.
Arguments sl_get {S}.
Arguments sl_set {S}.

Section spinlock.
Context {S : Type} `{!Cpu S}.

(** src/include/arch/x86_64/asm/asm.h:6-6 [disable_interrupt] *)
Definition disable_interrupt : K S unit := kmod (set_if false).
(** src/include/arch/x86_64/asm/asm.h:7-7 [enable_interrupt] *)
Definition enable_interrupt : K S unit := kmod (set_if true).
(** src/include/arch/x86_64/asm/asm.h:8-8 [halt] *)
Definition halt {A} : K S A := kstop Spinning.
(** src/include/arch/x86_64/asm/asm.h:14-22 [have_interrupt] *)
Definition have_interrupt : K S bool := kasks get_if.

(** src/include/scheduling/spinlock.h:13-13 [spinlock_init] *)
Definition spinlock_init (l : slens S) : K S unit :=
  kmod (fun s => sl_set l (Spinlock false (had_interrupt (sl_get l s))) s).

(** src/include/scheduling/spinlock.h:15-23 [spinlock_acquire] *)
Definition spinlock_acquire (l : slens S) : K S unit :=
  i ← have_interrupt;
  kmod (fun s => sl_set l (Spinlock (lock (sl_get l s)) i) s);;
  disable_interrupt;;
  held ← kasks (fun s => lock (sl_get l s));
  if held : bool then kstop Spinning
  else kmod (fun s => sl_set l (Spinlock true (had_interrupt (sl_get l s))) s).

(** src/include/scheduling/spinlock.h:25-31 [spinlock_release] *)
Definition spinlock_release (l : slens S) : K S unit :=
  kmod (fun s => sl_set l (Spinlock false (had_interrupt (sl_get l s))) s);;
  had ← kasks (fun s => had_interrupt (sl_get l s));
  kwhen had enable_interrupt.
End spinlock.

(** ** Laws of the accessors *)
Class SlensOk {S : Type} `{!Cpu S} (l : slens S) := {
  sl_get_set : forall v s, sl_get l (sl_set l v s) = v;
  sl_set_set : forall v w s, sl_set l v (sl_set l w s) = sl_set l v s;
  sl_get_if : forall v s, get_if (sl_set l v s) = get_if s;
  sl_if_get : forall b s, sl_get l (set_if b s) = sl_get l s;
  sl_if_set : forall b v s, sl_set l v (set_if b s) = set_if b (sl_set l v s);
}.

Section spinlock_laws.
Context {S : Type} `{!Cpu S} `{!CpuOk S} (l : slens S) `{!SlensOk l}.

Lemma set_if_same b s : get_if s = b -> set_if b s = s.
Proof. intros <-. apply set_get_if. Qed.

(** The state inside the critical section. *)
Definition locked (s : S) : S := set_if false (sl_set l (Spinlock true (get_if s)) s).

Lemma spinlock_acquire_run s :
  spinlock_acquire l s
  = if lock (sl_get l s)
    then Stop Spinning (set_if false (sl_set l (Spinlock true (get_if s)) s))
    else Ret tt (locked s).
Proof.
  unfold spinlock_acquire, have_interrupt, disable_interrupt, locked. krun.
  rewrite !sl_if_get, !sl_get_set. cbn [lock had_interrupt].
  destruct (lock (sl_get l s)); [reflexivity|].
  cbv beta. rewrite sl_if_get, sl_get_set, sl_if_set, sl_set_set. done.
Qed.

(** Release gives back the interrupt flag that [acquire] saved. *)
Lemma spinlock_release_run s :
  get_if s = false ->
  spinlock_release l s
  = Ret tt (set_if (had_interrupt (sl_get l s))
              (sl_set l (Spinlock false (had_interrupt (sl_get l s))) s)).
Proof.
  intros Hif. unfold spinlock_release, enable_interrupt. krun.
  rewrite sl_get_set. cbn [had_interrupt]. destruct (had_interrupt (sl_get l s)) eqn:E; [done|].
  by rewrite set_if_same by (by rewrite sl_get_if).
Qed.

(** A critical section: what [f] does between acquire and release. *)
Lemma spin_section {A} (m : K S A) s a s' :
  lock (sl_get l s) = false ->
  m (locked s) = Ret a s' -> get_if s' = false ->
  sl_get l s' = Spinlock true (get_if s) ->
  (spinlock_acquire l;; r ← m; spinlock_release l;; mret r) s
  = Ret a (set_if (get_if s) (sl_set l (Spinlock false (get_if s)) s')).
Proof.
  intros Hl Hm Hif Hsl.
  rewrite (kbind_ret _ _ s tt (locked s)) by (by rewrite spinlock_acquire_run, Hl).
  rewrite (kbind_ret _ _ _ _ _ Hm).
  erewrite kbind_ret; [|by apply spinlock_release_run]. by rewrite Hsl.
Qed.

(** Taking a lock that is held never returns. *)
Lemma spin_held s : lock (sl_get l s) = true -> exists s', spinlock_acquire l s = Stop Spinning s'.
Proof. intros Hl. rewrite spinlock_acquire_run, Hl. by eexists. Qed.
End spinlock_laws.
