(* ===== verification/Printf.v ===== *)
(** * Formatted output (klibc/printf.c) and assertion failures (klibc/assert.c)

    [kprintf] walks a NUL-terminated format in memory, takes its variadic
    arguments from a list of 64-bit slots, and sends bytes to the serial port
    and to the terminal.  [fuel] bounds its loops; [junk] is what the stack
    holds where [kprintnp] keeps its [buffer[32]]. *)

From S2P Require Import Prelude Bytes MemLib StrLib Console Spinlock.
Local Open Scope Z_scope.

(** The lock, the interrupt flag, the memory of the strings and what the two
    output devices received.
    src/klibc/printf.c:4-4 [kprintf_spinlock] *)
Record pstate := PState {
  kprintf_spinlock : spinlock;
  p_if : bool;
  p_mem : mem;
  serial_out : list Z;
  vterm_out : list Z;
  fg_color : Z;
}.

#[export] Instance pstate_Cpu : Cpu pstate := {
  get_if := p_if;
  set_if b s := PState (kprintf_spinlock s) b (p_mem s) (serial_out s) (vterm_out s) (fg_color s);
}.
#[export] Instance pstate_CpuOk : CpuOk pstate.
Proof. split; [done|done|by intros []]. Qed.

Definition printf_lock : slens pstate :=
  Slens kprintf_spinlock
    (fun l s => PState l (p_if s) (p_mem s) (serial_out s) (vterm_out s) (fg_color s)).
#[export] Instance printf_lock_ok : SlensOk printf_lock.
Proof. by split. Qed.

Definition write_serial_char (c : Z) : K pstate unit :=
  kmod (fun s => PState (kprintf_spinlock s) (p_if s) (p_mem s) (serial_out s ++ [c]) (vterm_out s) (fg_color s)).
Definition vterm_putc (c : Z) : K pstate unit :=
  kmod (fun s => PState (kprintf_spinlock s) (p_if s) (p_mem s) (serial_out s) (vterm_out s ++ [c]) (fg_color s)).

(** A byte of a string. *)
Definition rdc (a : Z) : K pstate Z := kasks (fun s => rb (p_mem s) a).

(** src/include/klibc/printf.h:10-11 [DIGITS_UPPERCASE] *)
Definition DIGITS_UPPERCASE : list Z :=
  [48; 49; 50; 51; 52; 53; 54; 55; 56; 57; 65; 66; 67; 68; 69; 70].
Definition DIGITS_LOWERCASE : list Z :=
  [48; 49; 50; 51; 52; 53; 54; 55; 56; 57; 97; 98; 99; 100; 101; 102].

Section printf.
Context (fuel : nat) (junk : list Z).

(** src/klibc/printf.c:6-10 [kputc] *)
Definition kputc (c : Z) : K pstate unit :=
  write_serial_char c;; vterm_putc c.

(** src/klibc/printf.c:12-16 [kprints] *)
Definition kprints (str : Z) : K pstate unit :=
  kloop fuel (fun str =>
    c ← rdc str;
    if c =? 0 then mret (inr tt) else kputc c;; mret (inl (str + 1))) str.

(** [buffer[i] = v] for [char buffer[32]]. *)
Definition put_buffer (buffer : list Z) (i v : Z) : K pstate (list Z) :=
  if i <? 32 then mret (<[Z.to_nat i := v]> buffer) else kstop Faulted.

(** src/klibc/printf.c:31-35 [kprintnp] *)
Definition digit_step (digits : list Z) (base : Z) :
    Z * Z * list Z -> K pstate (Z * Z * list Z + Z * list Z) :=
  fun '(num, i, buffer) =>
    if 0 <? num then
      buffer ← put_buffer buffer (i + 1) (digits !!! Z.to_nat (num mod base));
      mret (inl (num / base, i + 1, buffer))
    else mret (inr (i, buffer)).

(** src/klibc/printf.c:38-41 [kprintnp] *)
Definition pad_step (width pad : Z) : Z * list Z -> K pstate (Z * list Z + Z * list Z) :=
  fun '(i, buffer) =>
    if i <? width then
      buffer ← put_buffer buffer (i + 1) pad;
      mret (inl (i + 1, buffer))
    else mret (inr (i, buffer)).

(** src/klibc/printf.c:43-44 [kprintnp] *)
Definition out_step (buffer : list Z) (i : Z) : K pstate (Z + unit) :=
  let i := i - 1 in
  if 0 <=? i then kputc (buffer !!! Z.to_nat i);; mret (inl i) else mret (inr tt).

(** src/klibc/printf.c:18-45 [kprintnp] *)
Definition kprintnp (num base : Z) (uppercase : bool) (width pad : Z) : K pstate unit :=
  let digits := if uppercase then DIGITS_UPPERCASE else DIGITS_LOWERCASE in
  ib ← (if num =? 0 then
          buffer ← put_buffer junk 1 48; mret (1, buffer)
        else kloop fuel (digit_step digits base) (num, 0, junk));
  ib ← kloop fuel (pad_step width pad) ib;
  kloop fuel (out_step (snd ib)) (fst ib).

(** src/klibc/printf.c:47-56 [kprintns] *)
Definition kprintns (num base : Z) : K pstate unit :=
  if num <? 0 then
    kputc 45;;
    kprintnp (u64 (s64 (- num))) base false 0 32
  else kprintnp (u64 num) base false 0 32.

(** [va_arg]: the next 64-bit slot. *)
Definition va_arg (args : list Z) : K pstate (Z * list Z) :=
  match args with
  | [] => kstop Faulted
  | a :: args' => mret (a, args')
  end.

(** The literal "(null)" as an output. *)
Definition kprint_null : K pstate unit :=
  kputc 40;; kputc 110;; kputc 117;; kputc 108;; kputc 108;; kputc 41.

(** src/klibc/printf.c:84-88 [kprintf] *)
Definition width_step : Z * Z -> K pstate (Z * Z + Z * Z) :=
  fun '(format, width) =>
    c ← rdc format;
    if (48 <=? c) && (c <=? 57) then mret (inl (format + 1, width * 10 + (c - 48)))
    else mret (inr (format, width)).

(** The conversion at [format], after the flags.
    src/klibc/printf.c:96-169 [kprintf] *)
Definition convert (format width pad : Z) (is_long : bool) (args : list Z) (count : Z) :
    K pstate (list Z * Z) :=
  c ← rdc format;
  let unsigned base uppercase :=
    '(v, args) ← va_arg args;
    kprintnp (if is_long then u64 v else u32 v) base uppercase width pad;;
    mret (args, count + 1) in
  if c =? 99 (* c *) then
    '(v, args) ← va_arg args; kputc (u8 v);; mret (args, count + 1)
  else if c =? 115 (* s *) then
    '(str, args) ← va_arg args;
    if str =? NULL then kprint_null;; mret (args, count + 6)
    else
      kprints str;;
      m ← kasks p_mem;
      match strlen fuel str m with
      | Ret n _ => mret (args, count + n)
      | Stop r _ => kstop r
      end
  else if (c =? 100) || (c =? 105) (* d, i *) then
    '(v, args) ← va_arg args;
    kprintns (if is_long then s64 v else s32 v) 10;;
    mret (args, count + 1)
  else if c =? 117 (* u *) then unsigned 10 false
  else if c =? 120 (* x *) then unsigned 16 false
  else if c =? 88 (* X *) then unsigned 16 true
  else if c =? 112 (* p *) then
    '(v, args) ← va_arg args;
    kputc 48;; kputc 120;;
    kprintnp (u64 v) 16 false 16 48;;
    mret (args, count + 1)
  else if c =? 37 (* % *) then kputc 37;; mret (args, count + 1)
  else kputc 37;; kputc c;; mret (args, count + 2).

(** One turn of the loop over the format.
    src/klibc/printf.c:67-181 [kprintf] *)
Definition format_step : Z * list Z * Z -> K pstate (Z * list Z * Z + Z) :=
  fun '(format, args, count) =>
    c ← rdc format;
    if c =? 0 then mret (inr count) else
    if c =? 37 then
      let format := format + 1 in
      c ← rdc format;
      let pad := if c =? 48 then 48 else 32 in
      let format := if c =? 48 then format + 1 else format in
      '(format, width) ← kloop fuel width_step (format, 0);
      c ← rdc format;
      let is_long := c =? 108 in
      let format := if is_long then format + 1 else format in
      '(args, count) ← convert format width pad is_long args count;
      mret (inl (format + 1, args, count))
    else
      kputc c;;
      mret (inl (format + 1, args, count + 1)).

(** src/klibc/printf.c:58-188 [kprintf] *)
Definition kprintf (format : Z) (args : list Z) : K pstate Z :=
  spinlock_acquire printf_lock;;
  count ← kloop fuel format_step (format, args, 0);
  spinlock_release printf_lock;;
  mret count.
End printf.

(** The console of Console.v on these devices. *)
Fixpoint bytes_of_string (t : string) : list Z :=
  match t with
  | EmptyString => []
  | String c t' => Z.of_N (Ascii.N_of_ascii c) :: bytes_of_string t'
  end.

#[export] Instance pstate_Console : Console pstate := {
  put_event e s :=
    match e with
    | SetColor c => PState (kprintf_spinlock s) (p_if s) (p_mem s) (serial_out s) (vterm_out s) c
    | Print t => PState (kprintf_spinlock s) (p_if s) (p_mem s)
        (serial_out s ++ bytes_of_string t) (vterm_out s ++ bytes_of_string t) (fg_color s)
    | VtermPrint t => PState (kprintf_spinlock s) (p_if s) (p_mem s)
        (serial_out s) (vterm_out s ++ bytes_of_string t) (fg_color s)
    end;
}.

(** [msg] is the address of the literal "Kprintf spinlock...".
    src/klibc/printf.c:190-195 [init_kprintf_spinlock] *)
Definition init_kprintf_spinlock (fuel : nat) (junk : list Z) (msg : Z) : K pstate unit :=
  spinlock_init printf_lock;;
  kprintf fuel junk msg [];;
  kok.

(** ** What the pieces print *)

(** [cs] sent to both devices. *)
Definition emit (cs : list Z) (s : pstate) : pstate :=
  PState (kprintf_spinlock s) (p_if s) (p_mem s) (serial_out s ++ cs) (vterm_out s ++ cs) (fg_color s).

Lemma emit_nil s : emit [] s = s.
Proof. destruct s. unfold emit. cbn. by rewrite !app_nil_r. Qed.

Lemma emit_app cs cs' s : emit cs' (emit cs s) = emit (cs ++ cs') s.
Proof. unfold emit. cbn. by rewrite <- !app_assoc. Qed.

Lemma kputc_run c s : kputc c s = Ret tt (emit [c] s).
Proof. done. Qed.

Lemma kprints_run fuel p l s :
  cstr (p_mem s) p l -> (length l < fuel)%nat ->
  kprints fuel p s = Ret tt (emit l s).
Proof.
  unfold kprints. revert p s fuel. induction l as [|x l IH]; intros p s fuel Hl Hf;
    (destruct fuel as [|fuel]; [cbn in Hf; lia|]).
  - rewrite emit_nil. apply kloop_exit. unfold rdc. krun. by rewrite (cstr_nil _ _ Hl).
  - apply cstr_cons in Hl as (Hx & Hne & Hl).
    rewrite (kloop_next _ _ _ (p + 1) _ (emit [x] s))
      by (unfold rdc; krun; rewrite Hx; by destruct (Z.eqb_spec x 0)).
    rewrite IH; [by rewrite emit_app|done|cbn in Hf; lia].
Qed.

(** *** Numbers *)

(** Digits, least significant first. *)
Fixpoint digits (fuel : nat) (table : list Z) (base num : Z) : list Z :=
  match fuel with
  | O => []
  | Datatypes.S fuel' =>
      if 0 <? num then table !!! Z.to_nat (num mod base) :: digits fuel' table base (num / base)
      else []
  end.

(** The number that a list of digit values denotes, least significant first. *)
Fixpoint value_of (base : Z) (ds : list Z) : Z :=
  match ds with [] => 0 | d :: r => d + base * value_of base r end.

(** The digits are those of the number. *)
Lemma digits_value f table base num :
  2 <= base -> 0 <= num < base ^ Z.of_nat f ->
  exists ds, digits f table base num = (fun d => table !!! Z.to_nat d) <$> ds /\
    (forall d, d ∈ ds -> 0 <= d < base) /\ value_of base ds = num /\
    (num <> 0 -> exists d, last ds = Some d /\ d <> 0).
Proof.
  intros Hb. revert num. induction f as [|f IH]; intros num Hn.
  - exists []. cbn in *. split_and!; [done|by intros d []%elem_of_nil|lia|lia].
  - cbn [digits]. destruct (Z.ltb_spec 0 num) as [Hpos|].
    2:{ exists []. split_and!; [done|by intros d []%elem_of_nil|cbn; lia|lia]. }
    rewrite Nat2Z.inj_succ, Z.pow_succ_r in Hn by lia.
    assert (Hq : 0 <= num / base < base ^ Z.of_nat f)
      by (split; [apply Z.div_pos; lia|apply Z.div_lt_upper_bound; lia]).
    destruct (IH (num / base) Hq) as (ds & E & Hr & Hv & Hl).
    exists (num mod base :: ds). split_and!.
    + cbn. by rewrite E.
    + intros d [->|Hd]%elem_of_cons; [apply Z.mod_pos_bound; lia|by apply Hr].
    + cbn [value_of]. rewrite Hv. pose proof (Z.div_mod num base ltac:(lia)). lia.
    + intros _. destruct (Z.eq_dec (num / base) 0) as [E0|Hne].
      * destruct ds as [|d ds].
        -- exists (num mod base). split; [done|]. pose proof (Z.div_mod num base ltac:(lia)). lia.
        -- exfalso. rewrite E0 in E. by destruct f.
      * destruct (Hl Hne) as (d & Hd & Hd0). exists d. split; [|done]. by destruct ds.
Qed.

(** The number as the format asks for it, padding included. *)
Definition padded (table : list Z) (base num width pad : Z) : list Z :=
  let ds := if num =? 0 then [48] else digits 64 table base num in
  ds ++ replicate (Z.to_nat (width - Z.of_nat (length ds))) pad.

Lemma digits_length f table base num k :
  2 <= base -> num < base ^ Z.of_nat k -> (length (digits f table base num) <= k)%nat.
Proof.
  intros Hb. revert num k. induction f as [|f IH]; intros num k Hn; [cbn; lia|].
  cbn [digits]. destruct (Z.ltb_spec 0 num); [|cbn; lia].
  destruct k as [|k]; [cbn in Hn; lia|]. cbn [length]. apply le_n_S, IH.
  rewrite Nat2Z.inj_succ, Z.pow_succ_r in Hn by lia.
  apply Z.div_lt_upper_bound; lia.
Qed.

(** The buffer after the bytes [P] were stored at 1, 2, ... *)
Definition stored (junk P : list Z) : list Z :=
  hd 0 junk :: P ++ drop (Datatypes.S (length P)) junk.

Lemma stored_snoc junk P v :
  length junk = 32%nat -> (Datatypes.S (length P) < 32)%nat ->
  <[Datatypes.S (length P) := v]> (stored junk P) = stored junk (P ++ [v]).
Proof.
  intros Hj Hp. unfold stored.
  match goal with |- <[_:=_]> (?h :: ?L) = _ =>
    change (h :: <[length P := v]> L = hd 0 junk :: (P ++ [v]) ++ drop (Datatypes.S (length (P ++ [v]))) junk)
  end. f_equal.
  rewrite length_app. cbn [length]. rewrite insert_app_r_alt, Nat.sub_diag by lia.
  rewrite <- app_assoc. f_equal.
  destruct (lookup_lt_is_Some_2 junk (Datatypes.S (length P))) as [y Hy]; [lia|].
  rewrite (drop_S _ _ _ Hy). cbn. by rewrite Nat.add_1_r.
Qed.

Lemma put_buffer_run junk P v s :
  length junk = 32%nat ->
  put_buffer (stored junk P) (Z.of_nat (length P) + 1) v s
  = if decide (Datatypes.S (length P) < 32)%nat then Ret (stored junk (P ++ [v])) s
    else Stop Faulted s.
Proof.
  intros Hj. unfold put_buffer. case_decide as Hp.
  - destruct (Z.ltb_spec (Z.of_nat (length P) + 1) 32); [|lia].
    replace (Z.to_nat (Z.of_nat (length P) + 1)) with (Datatypes.S (length P)) by lia.
    by rewrite stored_snoc.
  - by destruct (Z.ltb_spec (Z.of_nat (length P) + 1) 32); [lia|].
Qed.

Lemma rev_replicate_eq {A} n (x : A) : rev (replicate n x) = replicate n x.
Proof.
  induction n as [|n IH]; [done|]. cbn [replicate rev]. rewrite IH.
  symmetry. apply (replicate_cons_app n x).
Qed.

(** The digit loop. *)
Lemma digit_loop junk table base : length junk = 32%nat -> 2 <= base ->
  forall f num P s fuel,
  0 <= num < base ^ Z.of_nat f -> (f < fuel)%nat ->
  (length P + length (digits f table base num) < 32)%nat ->
  kloop fuel (digit_step table base) (num, Z.of_nat (length P), stored junk P) s
  = Ret (Z.of_nat (length (P ++ digits f table base num)),
         stored junk (P ++ digits f table base num)) s.
Proof.
  intros Hj Hb f. induction f as [|f IH]; intros num P s fuel Hn Hf Hl;
    (destruct fuel as [|fuel]; [lia|]).
  - assert (num = 0) as -> by (cbn in Hn; lia). cbn [digits]. rewrite app_nil_r.
    by apply kloop_exit.
  - cbn [digits] in *. destruct (Z.ltb_spec 0 num) as [Hpos|].
    + cbn [length] in Hl.
      rewrite (kloop_next _ _ _ (num / base, Z.of_nat (length (P ++ [table !!! Z.to_nat (num mod base)])),
                 stored junk (P ++ [table !!! Z.to_nat (num mod base)])) _ s).
      * rewrite IH.
        -- by rewrite <- app_assoc.
        -- rewrite Nat2Z.inj_succ, Z.pow_succ_r in Hn by lia. split; [apply Z.div_pos; lia|].
           apply Z.div_lt_upper_bound; lia.
        -- lia.
        -- rewrite length_app. cbn [length]. lia.
      * unfold digit_step. destruct (Z.ltb_spec 0 num); [|lia].
        rewrite (kbind_ret _ _ s (stored junk (P ++ [table !!! Z.to_nat (num mod base)])) s).
        -- rewrite length_app. cbn [length]. krun.
           by replace (Z.of_nat (length P + 1)) with (Z.of_nat (length P) + 1) by lia.
        -- rewrite put_buffer_run by done. by rewrite decide_True by lia.
    + rewrite app_nil_r. apply kloop_exit. unfold digit_step.
      by destruct (Z.ltb_spec 0 num); [lia|].
Qed.

(** The padding loop; past 31 bytes it leaves the buffer. *)
Lemma pad_loop junk width pad : length junk = 32%nat ->
  forall n P s fuel, n = Z.to_nat (width - Z.of_nat (length P)) -> (n < fuel)%nat ->
  (length P < 32)%nat ->
  kloop fuel (pad_step width pad) (Z.of_nat (length P), stored junk P) s
  = if decide (length P + n < 32)%nat
    then Ret (Z.of_nat (length P + n), stored junk (P ++ replicate n pad)) s
    else Stop Faulted s.
Proof.
  intros Hj n. induction n as [|n IH]; intros P s fuel Hn Hf Hl;
    (destruct fuel as [|fuel]; [lia|]).
  - rewrite decide_True by lia. rewrite Nat.add_0_r. cbn [replicate]. rewrite app_nil_r.
    apply kloop_exit. unfold pad_step. by destruct (Z.ltb_spec (Z.of_nat (length P)) width); [lia|].
  - assert (Hstep : pad_step width pad (Z.of_nat (length P), stored junk P) s
      = if decide (Datatypes.S (length P) < 32)%nat
        then Ret (inl (Z.of_nat (length (P ++ [pad])), stored junk (P ++ [pad]))) s
        else Stop Faulted s).
    { unfold pad_step. destruct (Z.ltb_spec (Z.of_nat (length P)) width); [|lia].
      pose proof (put_buffer_run junk P pad s Hj) as E. case_decide.
      - rewrite (kbind_ret _ _ _ _ _ E). rewrite length_app. cbn [length]. krun.
        by replace (Z.of_nat (length P + 1)) with (Z.of_nat (length P) + 1) by lia.
      - by rewrite (kbind_stop _ _ _ _ _ E). }
    case_decide as Hp.
    + rewrite (kloop_next _ _ _ _ _ _ Hstep), IH; [|try rewrite length_app; cbn [length]; lia..].
      rewrite length_app. cbn [length replicate].
      replace (length P + 1 + n)%nat with (length P + Datatypes.S n)%nat by lia.
      by rewrite <- app_assoc.
    + rewrite decide_False by lia. cbn [kloop]. by rewrite (kbind_stop _ _ _ _ _ Hstep).
Qed.

(** The output loop sends [buffer[i - 1]], ..., [buffer[0]]. *)
Lemma out_loop buffer : forall i s fuel, (i < fuel)%nat -> (i <= length buffer)%nat ->
  kloop fuel (out_step buffer) (Z.of_nat i) s = Ret tt (emit (rev (take i buffer)) s).
Proof.
  intros i. induction i as [|i IH]; intros s fuel Hf Hl; (destruct fuel as [|fuel]; [lia|]).
  - cbn [take rev]. rewrite emit_nil. by apply kloop_exit.
  - destruct (lookup_lt_is_Some_2 buffer i) as [y Hy]; [lia|].
    rewrite (take_S_r _ _ _ Hy), rev_app_distr. cbn [rev app].
    rewrite (kloop_next _ _ _ (Z.of_nat i) _ (emit [y] s)).
    + rewrite IH by lia. by rewrite emit_app.
    + unfold out_step. replace (Z.of_nat (Datatypes.S i) - 1) with (Z.of_nat i) by lia.
      destruct (Z.leb_spec 0 (Z.of_nat i)); [|lia].
      rewrite Nat2Z.id, (list_lookup_total_correct _ _ _ Hy). done.
Qed.

(** What [kprintnp] really prints: the padded digits without their most
    significant byte, then the stack byte [buffer[0]]. *)
Definition kprintnp_bytes (junk table : list Z) (base num width pad : Z) : list Z :=
  tail (rev (padded table base num width pad)) ++ [hd 0 junk].

Lemma rev_take_stored junk P :
  P <> [] -> rev (take (length P) (stored junk P)) = tail (rev P) ++ [hd 0 junk].
Proof.
  intros HP. destruct P as [|x P _] using rev_ind; [done|].
  rewrite length_app, Nat.add_1_r. unfold stored. cbn [take rev length].
  rewrite <- app_assoc, take_app_length, rev_app_distr. done.
Qed.

Lemma padded_nonempty table base num width pad :
  0 <= num -> padded table base num width pad <> [].
Proof.
  intros Hn. unfold padded. destruct (Z.eqb_spec num 0); [done|].
  cbn [digits]. by destruct (Z.ltb_spec 0 num); [|lia].
Qed.

Lemma kprintnp_run fuel junk num base (up : bool) width pad s :
  let table := if up then DIGITS_UPPERCASE else DIGITS_LOWERCASE in
  length junk = 32%nat -> 10 <= base <= 16 -> 0 <= num < 2 ^ 64 ->
  (64 < fuel)%nat -> (Z.to_nat width < fuel)%nat ->
  kprintnp fuel junk num base up width pad s
  = if decide (width < 32) then Ret tt (emit (kprintnp_bytes junk table base num width pad) s)
    else Stop Faulted s.
Proof.
  intros table Hj Hb Hn Hf Hw. unfold kprintnp. fold table.
  set (ds := if num =? 0 then [48] else digits 64 table base num).
  assert (Hds : (0 < length ds <= 20)%nat).
  { unfold ds. destruct (Z.eqb_spec num 0); [cbn; lia|]. split.
    - change (digits 64 table base num) with
        (if 0 <? num then table !!! Z.to_nat (num mod base) :: digits 63 table base (num / base) else []).
      destruct (Z.ltb_spec 0 num); cbn [length]; lia.
    - apply digits_length; [lia|]. apply (Z.lt_le_trans _ (10 ^ Z.of_nat 20)); [cbn; lia|].
      apply Z.pow_le_mono_l. lia. }
  assert (E1 : (if num =? 0 then buffer ← put_buffer junk 1 48; mret (1, buffer)
          else kloop fuel (digit_step table base) (num, 0, junk)) s
          = Ret (Z.of_nat (length ds), stored junk ds) s).
  { assert (Hst : stored junk [] = junk) by (destruct junk; [done|]; by unfold stored; cbn; rewrite drop_0).
    unfold ds. destruct (Z.eqb_spec num 0).
    - pose proof (put_buffer_run junk [] 48 s Hj) as E. rewrite Hst in E.
      by rewrite (kbind_ret _ _ _ _ _ E).
    - rewrite <- Hst at 1. apply (digit_loop junk table base Hj ltac:(lia) 64 num [] s fuel); [|lia|].
      + split; [lia|]. apply (Z.lt_le_trans _ (2 ^ 64)); [lia|].
        change (Z.of_nat 64) with 64. apply Z.pow_le_mono_l. lia.
      + unfold ds in Hds. destruct (Z.eqb_spec num 0); [lia|]. cbn [length]. lia. }
  rewrite (kbind_ret _ _ _ _ _ E1).
  pose proof (pad_loop junk width pad Hj _ ds s fuel eq_refl ltac:(lia) ltac:(lia)) as E2.
  set (P := ds ++ replicate (Z.to_nat (width - Z.of_nat (length ds))) pad) in *.
  assert (EP : padded table base num width pad = P) by done.
  assert (HlP : length P = (length ds + Z.to_nat (width - Z.of_nat (length ds)))%nat)
    by (unfold P; by rewrite length_app, length_replicate).
  rewrite <- HlP in E2. case_decide as Hp.
  - rewrite decide_True by lia. rewrite (kbind_ret _ _ _ _ _ E2). cbn [fst snd].
    rewrite out_loop; [|lia|].
    + unfold kprintnp_bytes. rewrite EP. rewrite rev_take_stored; [done|].
      rewrite <- EP. apply padded_nonempty. lia.
    + unfold stored. cbn [length]. rewrite length_app, length_drop. lia.
  - rewrite decide_False by lia. by rewrite (kbind_stop _ _ _ _ _ E2).
Qed.

(** ** Formats as lists of items *)
Inductive item : Type :=
  | Lit (c : Z)                             (* an ordinary character *)
  | Percent                                 (* %% *)
  | Chr (v : Z)                             (* %c *)
  | Str (p : Z) (l : list Z)                (* %s, of the string [l] at [p] *)
  | Num (conv : Z) (is_long : bool) (v : Z). (* %u %x %X %lu %lx %lX *)

Definition item_fmt (i : item) : list Z :=
  match i with
  | Lit c => [c]
  | Percent => [37; 37]
  | Chr _ => [37; 99]
  | Str _ _ => [37; 115]
  | Num conv is_long _ => 37 :: (if is_long then [108] else []) ++ [conv]
  end.

Definition item_args (i : item) : list Z :=
  match i with
  | Lit _ | Percent => []
  | Chr v => [v]
  | Str p _ => [p]
  | Num _ _ v => [v]
  end.

Definition num_bytes (junk : list Z) (conv : Z) (is_long : bool) (v : Z) : list Z :=
  kprintnp_bytes junk (if conv =? 88 then DIGITS_UPPERCASE else DIGITS_LOWERCASE)
    (if conv =? 117 then 10 else 16) (if is_long then u64 v else u32 v) 0 32.

Definition item_out (junk : list Z) (i : item) : list Z :=
  match i with
  | Lit c => [c]
  | Percent => [37]
  | Chr v => [u8 v]
  | Str _ l => l
  | Num conv is_long v => num_bytes junk conv is_long v
  end.

Definition item_count (i : item) : Z :=
  match i with Str _ l => Z.of_nat (length l) | _ => 1 end.

Definition item_ok (fuel : nat) (m : mem) (i : item) : Prop :=
  match i with
  | Lit c => c <> 37
  | Str p l => p <> NULL /\ cstr m p l /\ (length l < fuel)%nat
  | Num conv _ _ => conv = 117 \/ conv = 120 \/ conv = 88
  | _ => True
  end.

Definition fmt (its : list item) : list Z := its ≫= item_fmt.
Definition args_of (its : list item) : list Z := its ≫= item_args.
Definition out_of (junk : list Z) (its : list item) : list Z := its ≫= item_out junk.
Definition count_of (its : list item) : Z := foldr (fun i n => item_count i + n) 0 its.

Section format.
Context (fuel : nat) (junk : list Z) (Hjunk : length junk = 32%nat) (Hfuel : (64 < fuel)%nat).

Lemma rdc_run a s : rdc a s = Ret (rb (p_mem s) a) s.
Proof. done. Qed.

(** No width digits: the width loop leaves at once. *)
Lemma width_none format s :
  (48 <=? rb (p_mem s) format) && (rb (p_mem s) format <=? 57) = false ->
  kloop fuel width_step (format, 0) s = Ret (format, 0) s.
Proof.
  intros H. destruct fuel as [|f]; [lia|]. apply kloop_exit.
  unfold width_step. rewrite (kbind_ret _ _ _ _ _ (rdc_run _ _)). by rewrite H.
Qed.

Lemma convert_num conv format is_long v args count s :
  rb (p_mem s) format = conv -> conv = 117 \/ conv = 120 \/ conv = 88 ->
  convert fuel junk format 0 32 is_long (v :: args) count s
  = Ret (args, count + 1) (emit (num_bytes junk conv is_long v) s).
Proof.
  intros Hc Hconv. unfold convert. rewrite (kbind_ret _ _ _ _ _ (rdc_run _ _)), Hc. cbn beta.
  assert (Hr : 0 <= (if is_long then u64 v else u32 v) < 2 ^ 64).
  { destruct is_long; [apply u64_range|]. pose proof (wrap_range 32 v ltac:(lia)).
    change (2 ^ 64) with (2 ^ 32 * 2 ^ 32). lia. }
  assert (E : forall base up, 10 <= base <= 16 ->
    ('(v, args) ← va_arg (v :: args);
     kprintnp fuel junk (if is_long then u64 v else u32 v) base up 0 32;;
     mret (args, count + 1)) s
    = Ret (args, count + 1)
        (emit (kprintnp_bytes junk (if up : bool then DIGITS_UPPERCASE else DIGITS_LOWERCASE) base
                 (if is_long then u64 v else u32 v) 0 32) s)).
  { intros base up Hb. rewrite (kbind_ret _ _ s (v, args) s) by done.
    pose proof (kprintnp_run fuel junk (if is_long then u64 v else u32 v) base up 0 32 s
                  Hjunk Hb Hr Hfuel ltac:(lia)) as Ek.
    rewrite decide_True in Ek by lia. by rewrite (kbind_ret _ _ _ _ _ Ek). }
  unfold num_bytes. destruct Hconv as [-> | [-> | ->]];
    [apply (E 10 false)|apply (E 16 false)|apply (E 16 true)]; lia.
Qed.

(** One item of the format. *)
Lemma format_item i rest args count format s :
  item_ok fuel (p_mem s) i -> cstr (p_mem s) format (item_fmt i ++ rest) ->
  format_step fuel junk (format, item_args i ++ args, count) s
    = Ret (inl (format + Z.of_nat (length (item_fmt i)), args, count + item_count i))
        (emit (item_out junk i) s) /\
  cstr (p_mem s) (format + Z.of_nat (length (item_fmt i))) rest.
Proof.
  intros Hok Hf. unfold format_step. rewrite (kbind_ret _ _ _ _ _ (rdc_run _ _)).
  destruct i as [c| |v|p l|conv is_long v]; cbn [item_fmt item_args item_out item_count app] in *;
    apply cstr_cons in Hf as (H0 & N0 & Hf); rewrite H0.
  - destruct (Z.eqb_spec c 0); [done|]. destruct (Z.eqb_spec c 37); [done|]. done.
  - apply cstr_cons in Hf as (H1 & N1 & Hf). cbn [Z.eqb Pos.eqb].
    rewrite (kbind_ret _ _ _ _ _ (rdc_run _ _)), H1. cbn [Z.eqb Pos.eqb].
    rewrite (kbind_ret _ _ _ _ _ (width_none _ _ ltac:(by rewrite H1))).
    rewrite (kbind_ret _ _ _ _ _ (rdc_run _ _)), H1. cbn [Z.eqb Pos.eqb].
    rewrite (kbind_ret _ _ s (args, count + 1) (emit [37] s)).
    + cbn [length]. split; [|by replace (format + Z.of_nat 2) with (format + 1 + 1) by lia].
      by replace (format + 1 + 1) with (format + Z.of_nat 2) by lia.
    + unfold convert. by rewrite (kbind_ret _ _ _ _ _ (rdc_run _ _)), H1.
  - apply cstr_cons in Hf as (H1 & N1 & Hf). cbn [Z.eqb Pos.eqb].
    rewrite (kbind_ret _ _ _ _ _ (rdc_run _ _)), H1. cbn [Z.eqb Pos.eqb].
    rewrite (kbind_ret _ _ _ _ _ (width_none _ _ ltac:(by rewrite H1))).
    rewrite (kbind_ret _ _ _ _ _ (rdc_run _ _)), H1. cbn [Z.eqb Pos.eqb].
    rewrite (kbind_ret _ _ s (args, count + 1) (emit [u8 v] s)).
    + cbn [length]. split; [|by replace (format + Z.of_nat 2) with (format + 1 + 1) by lia].
      by replace (format + 1 + 1) with (format + Z.of_nat 2) by lia.
    + unfold convert. by rewrite (kbind_ret _ _ _ _ _ (rdc_run _ _)), H1.
  - apply cstr_cons in Hf as (H1 & N1 & Hf). cbn [Z.eqb Pos.eqb].
    destruct Hok as (Hp & Hl & Hlen).
    rewrite (kbind_ret _ _ _ _ _ (rdc_run _ _)), H1. cbn [Z.eqb Pos.eqb].
    rewrite (kbind_ret _ _ _ _ _ (width_none _ _ ltac:(by rewrite H1))).
    rewrite (kbind_ret _ _ _ _ _ (rdc_run _ _)), H1. cbn [Z.eqb Pos.eqb].
    rewrite (kbind_ret _ _ s (args, count + Z.of_nat (length l)) (emit l s)).
    + cbn [length]. split; [|by replace (format + Z.of_nat 2) with (format + 1 + 1) by lia].
      by replace (format + 1 + 1) with (format + Z.of_nat 2) by lia.
    + unfold convert. rewrite (kbind_ret _ _ _ _ _ (rdc_run _ _)), H1. cbn [Z.eqb Pos.eqb].
      rewrite (kbind_ret _ _ s (p, args) s) by done.
      destruct (Z.eqb_spec p NULL); [done|].
      rewrite (kbind_ret _ _ _ _ _ (kprints_run fuel p l s Hl Hlen)).
      rewrite (kbind_ret _ _ (emit l s) (p_mem s) (emit l s)) by done.
      by rewrite (strlen_spec fuel (p_mem s) p l Hl Hlen).
  - destruct is_long; cbn [app] in *.
    + apply cstr_cons in Hf as (H1 & N1 & Hf). apply cstr_cons in Hf as (H2 & N2 & Hf).
      cbn [Z.eqb Pos.eqb].
      rewrite (kbind_ret _ _ _ _ _ (rdc_run _ _)), H1. cbn [Z.eqb Pos.eqb].
      rewrite (kbind_ret _ _ _ _ _ (width_none _ _ ltac:(by rewrite H1))).
      rewrite (kbind_ret _ _ _ _ _ (rdc_run _ _)), H1. cbn [Z.eqb Pos.eqb].
      rewrite (kbind_ret _ _ _ _ _ (convert_num conv _ true v args count s H2 Hok)).
      cbn [length]. split; [|by replace (format + Z.of_nat 3) with (format + 1 + 1 + 1) by lia].
      by replace (format + 1 + 1 + 1) with (format + Z.of_nat 3) by lia.
    + apply cstr_cons in Hf as (H1 & N1 & Hf). cbn [Z.eqb Pos.eqb].
      assert (Hb : (conv =? 48) = false /\ (conv =? 108) = false /\
                   (48 <=? conv) && (conv <=? 57) = false)
        by (cbn in Hok; destruct Hok as [-> | [-> | ->]]; done).
      destruct Hb as (B1 & B2 & B3).
      rewrite (kbind_ret _ _ _ _ _ (rdc_run _ _)), H1, B1.
      rewrite (kbind_ret _ _ _ _ _ (width_none _ _ ltac:(by rewrite H1))).
      rewrite (kbind_ret _ _ _ _ _ (rdc_run _ _)), H1, B2.
      rewrite (kbind_ret _ _ _ _ _ (convert_num conv _ false v args count s H1 Hok)).
      cbn [length]. split; [|by replace (format + Z.of_nat 2) with (format + 1 + 1) by lia].
      by replace (format + 1 + 1) with (format + Z.of_nat 2) by lia.
Qed.

Lemma format_loop : forall its n format count s,
  (forall i, i ∈ its -> item_ok fuel (p_mem s) i) -> cstr (p_mem s) format (fmt its) ->
  (length its < n)%nat ->
  kloop n (format_step fuel junk) (format, args_of its, count) s
  = Ret (count + count_of its) (emit (out_of junk its) s).
Proof.
  intros its. induction its as [|i its IH]; intros n format count s Hok Hf Hn;
    (destruct n as [|n]; [lia|]).
  - unfold out_of. cbn [mbind list_bind]. rewrite emit_nil. apply kloop_exit.
    unfold format_step. rewrite (kbind_ret _ _ _ _ _ (rdc_run _ _)), (cstr_nil _ _ Hf).
    cbn. by rewrite Z.add_0_r.
  - destruct (format_item i (fmt its) (args_of its) count format s) as [E Hf'];
      [apply Hok, list_elem_of_here|done|].
    unfold args_of. cbn [mbind list_bind]. fold (args_of its).
    rewrite (kloop_next _ _ _ _ _ _ E), IH.
    + rewrite emit_app. unfold out_of. cbn [mbind list_bind count_of foldr].
      fold (count_of its). by rewrite Z.add_assoc.
    + intros j Hj. apply Hok. by apply list_elem_of_further.
    + done.
    + cbn in Hn. lia.
Qed.
End format.

(** ** Properties *)


(** [kprintnp] computes the digits of the number but prints them shifted by
    one buffer cell: the most significant printed byte (a digit, or a pad byte)
    is lost and the uninitialised byte [buffer[0]] is printed last; a width of
    32 or more writes past the buffer. *)
Theorem kprintnp_loses_leading_digit fuel junk num base (up : bool) width pad s
    (Hjunk : length junk = 32%nat) (Hbase : 10 <= base <= 16) (Hnum : 0 < num < 2 ^ 64)
    (Hfuel : (64 < fuel)%nat) (Hw : (Z.to_nat width < fuel)%nat) :
  let table := if up then DIGITS_UPPERCASE else DIGITS_LOWERCASE in
  exists ds, value_of base ds = num /\ (forall d, d ∈ ds -> 0 <= d < base) /\
    kprintnp fuel junk num base up width pad s =
      if decide (width < 32) then
        Ret tt (emit (tail (replicate (Z.to_nat (width - Z.of_nat (length ds))) pad
                              ++ rev ((fun d => table !!! Z.to_nat d) <$> ds))
                      ++ [hd 0 junk]) s)
      else Stop Faulted s.
Proof.
  intros table.
  destruct (digits_value 64 table base num ltac:(lia)) as (ds & E & Hr & Hv & _).
  { split; [lia|]. apply (Z.lt_le_trans _ (2 ^ 64)); [lia|].
    change (Z.of_nat 64) with 64. apply Z.pow_le_mono_l. lia. }
  exists ds. do 2 (split; [done | ]).
  rewrite kprintnp_run by (done || lia). fold table.
  unfold kprintnp_bytes, padded. destruct (Z.eqb_spec num 0); [lia|].
  rewrite E, length_fmap, rev_app_distr, rev_replicate_eq. done.
Qed.

(** ** Witnesses *)

(** "n=%u, %s%%" at 100 and "ok" at 200. *)
Definition fmt_mem : mem :=
  list_to_map [(100, 110); (101, 61); (102, 37); (103, 117); (104, 44); (105, 32);
               (106, 37); (107, 115); (108, 37); (109, 37); (200, 111); (201, 107)].
Definition fmt_state : pstate := PState (Spinlock false false) true fmt_mem [] [] 0.
Definition fmt_items : list item :=
  [Lit 110; Lit 61; Num 117 false 407; Lit 44; Lit 32; Str 200 [111; 107]; Percent].

Lemma fmt_mem_cstr : cstr fmt_mem 100 (fmt fmt_items) /\ cstr fmt_mem 200 [111; 107].
Proof.
  split; (split; [|reflexivity]); intros i c Hi.
  - do 10 (destruct i as [|i]; [cbn in Hi; simplify_eq; (split; [reflexivity|lia])|]).
    cbn in Hi. done.
  - do 2 (destruct i as [|i]; [cbn in Hi; simplify_eq; (split; [reflexivity|lia])|]).
    cbn in Hi. done.
Qed.


Lemma kprintnp_loses_leading_digit_witness :
  (exists ds, value_of 10 ds = 42 /\ (forall d, d ∈ ds -> 0 <= d < 10) /\
    kprintnp 65 (replicate 32 63) 42 10 false 0 32 fmt_state =
      if decide (0 < 32) then
        Ret tt (emit (tail (replicate (Z.to_nat (0 - Z.of_nat (length ds))) 32
                        ++ rev ((fun d => DIGITS_LOWERCASE !!! Z.to_nat d) <$> ds))
                      ++ [63]) fmt_state)
      else Stop Faulted fmt_state)
  /\ kprintnp 65 (replicate 32 63) 42 10 false 0 32 fmt_state = Ret tt (emit [50; 63] fmt_state).
Proof.
  split; [|vm_compute; reflexivity].
  apply (kprintnp_loses_leading_digit 65 (replicate 32 63) 42 10 false 0 32 fmt_state);
    [reflexivity|lia|lia|lia|change (Z.to_nat 0) with O; lia].
Defined.
