(* ===== verification/Assert.v ===== *)
(** * Assertion failures (klibc/assert.c)

    [utoa] writes the decimal digits of a number backwards and reverses them
    in place; [__assert] reports the failed expression and halts. *)

From S2P Require Import Prelude Bytes StrLib Console.
Local Open Scope Z_scope.

Section utoa.
Context {S : Type} `{!BMem S}.
Context (fuel : nat).

(** src/klibc/assert.c:7-11 [utoa] *)
Definition utoa_digit : Z * Z -> K S (Z * Z + Z) :=
  fun '(n, q) =>
    stb q (48 + n mod 10);;
    let n := n / 10 in
    mret (if n =? 0 then inr (q + 1) else inl (n, q + 1)).

(** src/klibc/assert.c:13-18 [utoa] *)
Definition utoa_swap : Z * Z -> K S (Z * Z + unit) :=
  fun '(p, q) =>
    if p <? q then
      tmp ← ldb p;
      c ← ldb q;
      stb p c;;
      stb q tmp;;
      mret (inl (p + 1, q - 1))
    else mret (inr tt).

(** src/klibc/assert.c:3-20 [utoa] *)
Definition utoa (n buf : Z) : K S Z :=
  q ← kloop fuel utoa_digit (u32 n, buf);
  stb q 0;;
  kloop fuel utoa_swap (buf, q - 1);;
  mret buf.
End utoa.

(** The bytes of a C string as a text, for the console. *)
Fixpoint text_at (fuel : nat) (m : mem) (p : Z) : string :=
  match fuel with
  | O => EmptyString
  | Datatypes.S f =>
      if rb m p =? 0 then EmptyString
      else String (Ascii.ascii_of_N (Z.to_N (rb m p))) (text_at f m (p + 1))
  end.

(** The 16-byte array [buf] is the range from 0 of an empty memory; 16 turns
    are enough for the ten digits of a 32-bit number.
    src/klibc/assert.c:22-35 [__assert] *)
Definition __assert {S} `{!Console S} (expr file : string) (line : Z) (func : option string) :
    K S unit :=
  kerror "Assertion failed:";;
  kerror expr;;
  kerror "Function:";;
  kerror (match func with Some f => f | None => "<unknown>"%string end);;
  kerror "File:";;
  kerror file;;
  kerror "Line:";;
  match utoa 16 line 0 (∅ : mem) with
  | Ret buf m => kerror (text_at 16 m buf)
  | Stop c _ => kstop c
  end;;
  hcf.

(** ** Digits *)

(** Decimal digits, least significant first, as characters. *)
Fixpoint decimal (f : nat) (n : Z) : list Z :=
  match f with
  | O => []
  | Datatypes.S f' => (48 + n mod 10) :: if n / 10 =? 0 then [] else decimal f' (n / 10)
  end.

Lemma foldl_rev_foldr {A B} (f : A -> B -> A) a l :
  foldl f a (rev l) = foldr (fun x y => f y x) a l.
Proof.
  induction l as [|x l IH]; [done|]. cbn [rev foldr]. by rewrite foldl_app, IH.
Qed.

Lemma decimal_spec f n :
  0 <= n < 10 ^ Z.of_nat f -> (1 <= f)%nat ->
  (0 < length (decimal f n) <= f)%nat /\ (forall c, c ∈ decimal f n -> 48 <= c < 58) /\
  foldr (fun c a => 10 * a + (c - 48)) 0 (decimal f n) = n.
Proof.
  revert n. induction f as [|f IH]; intros n Hn Hf; [lia|]. cbn [decimal length foldr].
  rewrite Nat2Z.inj_succ, Z.pow_succ_r in Hn by lia.
  pose proof (Z.mod_pos_bound n 10 ltac:(lia)) as Hm.
  destruct (Z.eqb_spec (n / 10) 0) as [E|Hne].
  - split_and!; [cbn; lia|cbn; lia| |cbn; zdiv].
    intros c Hc. apply list_elem_of_singleton in Hc as ->. lia.
  - assert (Hq : 0 <= n / 10 < 10 ^ Z.of_nat f)
      by (split; [apply Z.div_pos; lia|apply Z.div_lt_upper_bound; lia]).
    destruct f as [|f]; [exfalso; cbn in Hq; lia|].
    destruct (IH (n / 10) Hq ltac:(lia)) as (Hl & Hc & Hv).
    split_and!; [lia|lia| |rewrite Hv; zdiv].
    intros c [->|Hin]%elem_of_cons; [lia|by apply Hc].
Qed.

Section utoa_proofs.
Context {S : Type} `{!BMem S} `{!BMemOk S}.
Implicit Types (s t : S) (l : list Z).

(** The bytes [l] are at [p]. *)
Definition at_bytes s p l : Prop := forall i c, l !! i = Some c -> rb s (p + Z.of_nat i) = c.

Lemma digit_loop_run f : forall n q s fuel,
  0 <= n < 10 ^ Z.of_nat f -> (1 <= f)%nat -> (f <= fuel)%nat ->
  valid_range s q (Z.of_nat (length (decimal f n))) ->
  exists t, kloop fuel utoa_digit (n, q) s = Ret (q + Z.of_nat (length (decimal f n))) t /\
    at_bytes t q (decimal f n) /\ (forall a, valid t a <-> valid s a) /\
    forall a, valid s a -> ~ (q <= a < q + Z.of_nat (length (decimal f n))) -> rb t a = rb s a.
Proof.
  induction f as [|f IH]; intros n q s fuel Hn Hf Hfuel Hv; [lia|].
  destruct fuel as [|fuel]; [lia|]. cbn [decimal length] in *.
  pose proof (Z.mod_pos_bound n 10 ltac:(lia)) as Hm.
  assert (Hq0 : valid s q) by (apply (valid_range_at _ _ _ _ Hv); lia).
  set (s1 := wb q (48 + n mod 10) s).
  assert (H1 : rb s1 q = 48 + n mod 10)
    by (unfold s1; rewrite rb_wb_eq by done; apply wrap_small; lia).
  assert (Hr1 : forall a, valid s a -> a <> q -> rb s1 a = rb s a)
    by (intros a Ha Hne; by apply rb_wb_ne).
  assert (Hstep : utoa_digit (n, q) s
    = Ret (if n / 10 =? 0 then inr (q + 1) else inl (n / 10, q + 1)) s1) by done.
  destruct (Z.eqb_spec (n / 10) 0) as [E|Hne].
  - exists s1. split_and!.
    + by rewrite (kloop_exit _ _ _ _ _ _ Hstep).
    + intros [|i] c Hi; cbn in Hi; [|done]. injection Hi as <-. by rewrite Z.add_0_r.
    + intros a. by apply valid_wb.
    + intros a Ha Hout. apply Hr1; [done|]. cbn in Hout. lia.
  - rewrite Nat2Z.inj_succ, Z.pow_succ_r in Hn by lia.
    assert (Hq : 0 <= n / 10 < 10 ^ Z.of_nat f)
      by (split; [apply Z.div_pos; lia|apply Z.div_lt_upper_bound; lia]).
    destruct f as [|f]; [exfalso; cbn in Hq; lia|].
    destruct (IH (n / 10) (q + 1) s1 fuel Hq ltac:(lia) ltac:(lia)) as (t & Et & Hb & Hvt & Hr).
    { apply valid_range_wb; [done|]. apply (valid_range_sub _ _ _ _ _ Hv); lia. }
    set (D := decimal (Datatypes.S f) (n / 10)) in *. exists t. split_and!.
    + rewrite (kloop_next _ _ _ _ _ _ Hstep), Et. f_equal. cbn [length]. lia.
    + intros [|i] c Hi; cbn in Hi.
      * injection Hi as <-. rewrite Z.add_0_r, Hr; [done|by apply valid_wb|lia].
      * replace (q + Z.of_nat (Datatypes.S i)) with (q + 1 + Z.of_nat i) by lia. by apply Hb.
    + intros a. rewrite Hvt. by apply valid_wb.
    + intros a Ha Hout. cbn [length] in Hout. rewrite Hr; [|by apply valid_wb|lia].
      apply Hr1; [done|lia].
Qed.

Lemma swap_loop_run n : forall l p s fuel,
  length l = n -> (n < fuel)%nat -> valid_range s p (Z.of_nat n) ->
  (forall c, c ∈ l -> 0 <= c < 256) -> at_bytes s p l ->
  exists t, kloop fuel utoa_swap (p, p + Z.of_nat n - 1) s = Ret tt t /\
    at_bytes t p (rev l) /\ (forall a, valid t a <-> valid s a) /\
    forall a, valid s a -> ~ (p <= a < p + Z.of_nat n) -> rb t a = rb s a.
Proof.
  induction n as [n IH] using lt_wf_ind. intros l p s fuel Hl Hf Hv Hc Hb.
  destruct fuel as [|fuel]; [lia|].
  destruct l as [|x l]; [|destruct l as [|y l _] using rev_ind]; cbn in Hl.
  - exists s. subst n. split_and!; [|by intros i c Hi|done|done].
    apply kloop_exit. unfold utoa_swap. by destruct (Z.ltb_spec p (p + Z.of_nat 0 - 1)); [lia|].
  - exists s. subst n. split_and!; [|done|done|done].
    apply kloop_exit. unfold utoa_swap. by destruct (Z.ltb_spec p (p + Z.of_nat 1 - 1)); [lia|].
  - rewrite length_app in Hl. cbn in Hl.
    set (q := p + Z.of_nat n - 1).
    assert (Hx : rb s p = x) by (rewrite <- (Z.add_0_r p); by apply (Hb O)).
    assert (Hy : rb s q = y).
    { replace q with (p + Z.of_nat (length (x :: l))) by (unfold q; cbn [length]; lia).
      apply Hb. change (x :: l ++ [y]) with ((x :: l) ++ [y]).
      rewrite lookup_app_r by lia. by rewrite Nat.sub_diag. }
    assert (Hvp : valid s p) by (apply (valid_range_at _ _ _ _ Hv); lia).
    assert (Hvq : valid s q) by (apply (valid_range_at _ _ _ _ Hv); unfold q; lia).
    set (s2 := wb q x (wb p y s)).
    assert (Hv2 : forall a, valid s2 a <-> valid s a)
      by (intros a; unfold s2; rewrite !valid_wb; [done|done|by apply valid_wb]).
    assert (Hr2 : forall a, valid s a ->
              rb s2 a = if a =? q then x else if a =? p then y else rb s a).
    { intros a Ha. unfold s2.
      rewrite !rb_wb_if by (done || by apply valid_wb).
      rewrite !(wrap_small 8); [done|..]; apply Hc; [|by left].
      right. apply elem_of_app. right. by left. }
    destruct (IH (length l) ltac:(lia) l (p + 1) s2 fuel eq_refl ltac:(lia)) as (t & Et & Hbt & Hvt & Hrt).
    { intros i Hi. apply Hv2. replace (p + 1 + i) with (p + (1 + i)) by lia. apply Hv. lia. }
    { intros c Hin. apply Hc. right. apply elem_of_app. by left. }
    { intros i c Hi. pose proof (lookup_lt_Some _ _ _ Hi).
      rewrite Hr2 by (apply (valid_range_at _ _ _ _ Hv); lia).
      destruct (Z.eqb_spec (p + 1 + Z.of_nat i) q); [unfold q in *; lia|].
      destruct (Z.eqb_spec (p + 1 + Z.of_nat i) p); [lia|].
      replace (p + 1 + Z.of_nat i) with (p + Z.of_nat (Datatypes.S i)) by lia.
      apply Hb. change ((l ++ [y]) !! i = Some c). by rewrite lookup_app_l by lia. }
    exists t. split_and!.
    + rewrite (kloop_next _ _ _ (p + 1, q - 1) _ s2).
      * rewrite <- Et. do 2 f_equal. unfold q. lia.
      * unfold utoa_swap, ldb, stb. krun. destruct (Z.ltb_spec p q); [|unfold q in *; lia].
        by rewrite Hx, Hy.
    + cbn [rev]. rewrite rev_app_distr. cbn [rev app].
      intros i c Hi. destruct i as [|i];
        [change (Some y = Some c) in Hi|change ((rev l ++ [x]) !! i = Some c) in Hi].
      * injection Hi as <-. rewrite Z.add_0_r, Hrt; [|by apply Hv2|lia]. rewrite Hr2 by done.
        destruct (Z.eqb_spec p q); [unfold q in *; lia|]. by rewrite Z.eqb_refl.
      * destruct (decide (i < length l)%nat) as [Hil|Hil].
        -- rewrite lookup_app_l in Hi by (rewrite length_rev; lia).
           replace (p + Z.of_nat (Datatypes.S i)) with (p + 1 + Z.of_nat i) by lia. by apply Hbt.
        -- rewrite lookup_app_r in Hi by (rewrite length_rev; lia). rewrite length_rev in Hi.
           destruct (i - length l)%nat as [|k] eqn:Ek; [|by destruct k].
           cbn in Hi. injection Hi as <-.
           replace (p + Z.of_nat (Datatypes.S i)) with q by (unfold q; lia).
           rewrite Hrt; [|by apply Hv2|unfold q; lia]. rewrite Hr2 by done. by rewrite Z.eqb_refl.
    + intros a. rewrite Hvt. apply Hv2.
    + intros a Ha Hout. rewrite Hrt; [|by apply Hv2|lia]. rewrite Hr2 by done.
      destruct (Z.eqb_spec a q); [unfold q in *; lia|]. destruct (Z.eqb_spec a p); [lia|done].
Qed.

(** [utoa] terminates and leaves at [buf] the decimal representation of the
    number, most significant digit first, NUL-terminated, in at most eleven
    bytes; it writes nowhere else. *)
Theorem utoa_correct fuel n buf s
    (Hfuel : (11 <= fuel)%nat) (Hv : valid_range s buf 11) :
  exists t l, utoa fuel n buf s = Ret buf t /\ cstr t buf l /\
    foldl (fun a c => 10 * a + (c - 48)) 0 l = u32 n /\
    (0 < length l <= 10)%nat /\ (forall c, c ∈ l -> 48 <= c < 58) /\
    forall a, valid s a -> ~ (buf <= a < buf + 11) -> rb t a = rb s a.
Proof.
  pose proof (wrap_range 32 n ltac:(lia)) as Hn.
  destruct (decimal_spec 10 (u32 n)) as (Hl & Hc & Hval);
    [change (10 ^ Z.of_nat 10) with 10000000000; change (2 ^ 32) with 4294967296 in Hn; lia|lia|].
  set (D := decimal 10 (u32 n)) in *.
  destruct (digit_loop_run 10 (u32 n) buf s fuel) as (t1 & E1 & Hb1 & Hv1 & Hr1);
    [change (10 ^ Z.of_nat 10) with 10000000000; change (2 ^ 32) with 4294967296 in Hn; lia|lia|lia
    |apply (valid_range_sub _ _ _ _ _ Hv); fold D; lia|]. fold D in E1, Hb1, Hr1.
  set (q := buf + Z.of_nat (length D)) in *.
  assert (Hvq : valid t1 q) by (apply Hv1, (valid_range_at _ _ _ _ Hv); unfold q; lia).
  destruct (swap_loop_run (length D) D buf (wb q 0 t1) fuel eq_refl) as (t & Et & Hbt & Hvt & Hrt).
  { lia. }
  { apply valid_range_wb; [done|]. intros i Hi. apply Hv1, Hv. lia. }
  { intros c Hin. apply Hc in Hin. lia. }
  { intros i c Hi. pose proof (lookup_lt_Some _ _ _ Hi). rewrite rb_wb_ne; [by apply Hb1|done| |unfold q; lia].
    apply Hv1, (valid_range_at _ _ _ _ Hv). lia. }
  fold q in Et. exists t, (rev D). split_and!.
  - unfold utoa. rewrite (kbind_ret _ _ _ _ _ E1). unfold stb.
    rewrite (kbind_ret _ _ t1 tt (wb q 0 t1)) by done. by rewrite (kbind_ret _ _ _ _ _ Et).
  - split.
    + intros i c Hi. split; [by apply Hbt|].
      apply list_elem_of_lookup_2, list_elem_of_In, in_rev, list_elem_of_In, Hc in Hi. lia.
    + rewrite length_rev. fold q. rewrite Hrt; [by rewrite rb_wb_eq|by apply valid_wb|unfold q; lia].
  - by rewrite foldl_rev_foldr.
  - rewrite length_rev. lia.
  - rewrite length_rev. lia.
  - intros c Hin. apply Hc. by apply list_elem_of_In, in_rev, list_elem_of_In.
  - intros a Ha Hout. rewrite Hrt; [|by apply valid_wb, Hv1|lia].
    rewrite rb_wb_ne; [apply Hr1; [done|unfold q in *; lia]|done|by apply Hv1|unfold q; lia].
Qed.
End utoa_proofs.

Lemma utoa_correct_witness :
  exists t l, utoa 11 4096 100 (∅ : mem) = Ret 100 t /\ cstr t 100 l /\
    foldl (fun a c => 10 * a + (c - 48)) 0 l = 4096 /\
    (0 < length l <= 10)%nat /\ (forall c, c ∈ l -> 48 <= c < 58) /\
    forall a, valid (∅ : mem) a -> ~ (100 <= a < 100 + 11) -> rb t a = rb (∅ : mem) a.
Proof. apply (utoa_correct 11 4096 100 (∅ : mem)); [lia|done]. Defined.

