(* ===== verification/Kmem.v ===== *)
(** * Dynamic memory as its clients see it

    [Kmem] is the interface between the kernel heap and the components that
    keep typed objects (threads, processes, vnodes, hash tables): they use the
    address [kmalloc] answers as a name and hold the object itself in a map.
    The kernel heap over the machine implements it. *)

From S2P Require Import Prelude Bytes MemLib Console Machine Pmm Vmm Pages Kheap Slab.
Local Open Scope Z_scope.

Class Kmem (A : Type) := {
  km_malloc : Z -> K A Z;                       (* kmalloc *)
  km_free : Z -> K A unit;                      (* kfree *)
  km_new_space : K A Z;                         (* create_address_space *)
  km_cache_create : Z -> Z -> K A Z;            (* slab_cache_create, size and alignment *)
  km_cache_alloc : Z -> K A Z;                  (* slab_alloc *)
  km_cache_free : Z -> Z -> K A unit;           (* slab_free *)
}.

(** The kernel heap; [fuel] bounds the walks over its block list.  The caches
    its clients make have no constructor or destructor. *)
Definition heap_Kmem (fuel : nat) : Kmem (heap machine) := {|
  km_malloc := kmalloc fuel;
  km_free := kfree fuel;
  km_new_space := klift inner set_inner create_address_space;
  km_cache_create size align := slab_cache_create fuel NULL size align NULL NULL;
  km_cache_alloc := slab_alloc fuel no_call;
  km_cache_free := slab_free fuel no_call;
|}.
