(* ===== verification/Errno.v ===== *)
(** * Error numbers (sysroot/usr/include/errno.h, vterm_status of vterm/vterm.c)

    The numbers the kernel's functions answer, negated, and the messages of
    [__get_err_code], which the terminal's status line prints. *)

From S2P Require Import Prelude Console.
Local Open Scope Z_scope.

(** sysroot/usr/include/errno.h:11-133 [EPERM] *)
Definition EPERM : Z := 1.
Definition ENOENT : Z := 2.
Definition ESRCH : Z := 3.
Definition EINTR : Z := 4.
Definition EIO : Z := 5.
Definition ENXIO : Z := 6.
Definition E2BIG : Z := 7.
Definition ENOEXEC : Z := 8.
Definition EBADF : Z := 9.
Definition ECHILD : Z := 10.
Definition EAGAIN : Z := 11.
Definition ENOMEM : Z := 12.
Definition EACCES : Z := 13.
Definition EFAULT : Z := 14.
Definition ENOTBLK : Z := 15.
Definition EBUSY : Z := 16.
Definition EEXIST : Z := 17.
Definition EXDEV : Z := 18.
Definition ENODEV : Z := 19.
Definition ENOTDIR : Z := 20.
Definition EISDIR : Z := 21.
Definition EINVAL : Z := 22.
Definition ENFILE : Z := 23.
Definition EMFILE : Z := 24.
Definition ENOTTY : Z := 25.
Definition ETXTBSY : Z := 26.
Definition EFBIG : Z := 27.
Definition ENOSPC : Z := 28.
Definition ESPIPE : Z := 29.
Definition EROFS : Z := 30.
Definition EMLINK : Z := 31.
Definition EPIPE : Z := 32.
Definition EDOM : Z := 33.
Definition ERANGE : Z := 34.
Definition ENOMSG : Z := 35.
Definition EIDRM : Z := 36.
Definition ECHRNG : Z := 37.
Definition EL2NSYNC : Z := 38.
Definition EL3HLT : Z := 39.
Definition EL3RST : Z := 40.
Definition ELNRNG : Z := 41.
Definition EUNATCH : Z := 42.
Definition ENOCSI : Z := 43.
Definition EL2HLT : Z := 44.
Definition EDEADLK : Z := 45.
Definition ENOLCK : Z := 46.
Definition EBADE : Z := 50.
Definition EBADR : Z := 51.
Definition EXFULL : Z := 52.
Definition ENOANO : Z := 53.
Definition EBADRQC : Z := 54.
Definition EBADSLT : Z := 55.
Definition EDEADLOCK : Z := 56.
Definition EBFONT : Z := 57.
Definition ENOSTR : Z := 60.
Definition ENODATA : Z := 61.
Definition ETIME : Z := 62.
Definition ENOSR : Z := 63.
Definition ENONET : Z := 64.
Definition ENOPKG : Z := 65.
Definition EREMOTE : Z := 66.
Definition ENOLINK : Z := 67.
Definition EADV : Z := 68.
Definition ESRMNT : Z := 69.
Definition ECOMM : Z := 70.
Definition EPROTO : Z := 71.
Definition EMULTIHOP : Z := 74.
Definition ELBIN : Z := 75.
Definition EDOTDOT : Z := 76.
Definition EBADMSG : Z := 77.
Definition EFTYPE : Z := 79.
Definition ENOTUNIQ : Z := 80.
Definition EBADFD : Z := 81.
Definition EREMCHG : Z := 82.
Definition ELIBACC : Z := 83.
Definition ELIBBAD : Z := 84.
Definition ELIBSCN : Z := 85.
Definition ELIBMAX : Z := 86.
Definition ELIBEXEC : Z := 87.
Definition ENOSYS : Z := 88.
Definition ENOTEMPTY : Z := 90.
Definition ENAMETOOLONG : Z := 91.
Definition ELOOP : Z := 92.
Definition EOPNOTSUPP : Z := 95.
Definition EPFNOSUPPORT : Z := 96.
Definition ECONNRESET : Z := 104.
Definition ENOBUFS : Z := 105.
Definition EAFNOSUPPORT : Z := 106.
Definition EPROTOTYPE : Z := 107.
Definition ENOTSOCK : Z := 108.
Definition ENOPROTOOPT : Z := 109.
Definition ESHUTDOWN : Z := 110.
Definition ECONNREFUSED : Z := 111.
Definition EADDRINUSE : Z := 112.
Definition ECONNABORTED : Z := 113.
Definition ENETUNREACH : Z := 114.
Definition ENETDOWN : Z := 115.
Definition ETIMEDOUT : Z := 116.
Definition EHOSTDOWN : Z := 117.
Definition EHOSTUNREACH : Z := 118.
Definition EINPROGRESS : Z := 119.
Definition EALREADY : Z := 120.
Definition EDESTADDRREQ : Z := 121.
Definition EMSGSIZE : Z := 122.
Definition EPROTONOSUPPORT : Z := 123.
Definition ESOCKTNOSUPPORT : Z := 124.
Definition EADDRNOTAVAIL : Z := 125.
Definition ENETRESET : Z := 126.
Definition EISCONN : Z := 127.
Definition ENOTCONN : Z := 128.
Definition ETOOMANYREFS : Z := 129.
Definition EPROCLIM : Z := 130.
Definition EUSERS : Z := 131.
Definition EDQUOT : Z := 132.
Definition ESTALE : Z := 133.
Definition ENOTSUP : Z := 134.
Definition EILSEQ : Z := 138.
Definition EOVERFLOW : Z := 139.
Definition ECANCELED : Z := 140.
Definition ENOTRECOVERABLE : Z := 141.
Definition EOWNERDEAD : Z := 142.
Definition ESTRPIPE : Z := 143.
Definition EWOULDBLOCK : Z := 11.

(** sysroot/usr/include/errno.h:149-296 [__get_err_code] *)
Definition err_cases_1 : list (Z * string) := [
  (EPERM, "Operation not permitted");
  (ENOENT, "No such file or directory");
  (ESRCH, "No such process");
  (EINTR, "Interrupted system call");
  (EIO, "I/O error");
  (ENXIO, "No such device or address");
  (E2BIG, "Argument list too long");
  (ENOEXEC, "Exec format error");
  (EBADF, "Bad file descriptor");
  (ECHILD, "No child processes");
  (EAGAIN, "Resource temporarily unavailable");
  (ENOMEM, "Not enough memory");
  (EACCES, "Permission denied");
  (EFAULT, "Bad address");
  (ENOTBLK, "Block device required");
  (EBUSY, "Resource busy");
  (EEXIST, "File exists");
  (EXDEV, "Cross-device link");
  (ENODEV, "No such device");
  (ENOTDIR, "Not a directory");
  (EISDIR, "Is a directory");
  (EINVAL, "Invalid argument");
  (ENFILE, "Too many open files in system");
  (EMFILE, "Too many open files");
  (ENOTTY, "Not a typewriter");
  (ETXTBSY, "Text file busy");
  (EFBIG, "File too large");
  (ENOSPC, "No space left on device");
  (ESPIPE, "Illegal seek");
  (EROFS, "Read-only file system");
  (EMLINK, "Too many links");
  (EPIPE, "Broken pipe");
  (EDOM, "Math argument out of domain of func");
  (ERANGE, "Math result not representable");
  (ENOMSG, "No message of desired type");
  (EIDRM, "Identifier removed");
  (ECHRNG, "Channel number out of range");
  (EL2NSYNC, "Level 2 not synchronized");
  (EL3HLT, "Level 3 halted");
  (EL3RST, "Level 3 reset");
  (ELNRNG, "Link number out of range");
  (EUNATCH, "Protocol driver not attached");
  (ENOCSI, "No CSI structure available");
  (EL2HLT, "Level 2 halted");
  (EDEADLK, "Deadlock condition");
  (ENOLCK, "No record locks available");
  (EBADE, "Invalid exchange");
  (EBADR, "Invalid request descriptor");
  (EXFULL, "Exchange full");
  (ENOANO, "No anode");
  (EBADRQC, "Invalid request code");
  (EBADSLT, "Invalid slot");
  (EDEADLOCK, "File locking deadlock error");
  (EBFONT, "Bad font file format");
  (ENOSTR, "Device not a stream");
  (ENODATA, "No data (for no delay IO)");
  (ETIME, "Timer expired");
  (ENOSR, "Out of streams resources");
  (ENONET, "Machine is not on the network");
  (ENOPKG, "Package not installed");
  (EREMOTE, "Object is remote");
  (ENOLINK, "Link has been severed");
  (EADV, "Advertise error");
  (ESRMNT, "Srmount error");
  (ECOMM, "Communication error on send");
  (EPROTO, "Protocol error");
  (EMULTIHOP, "Multihop attempted");
  (ELBIN, "Inode is remote");
  (EDOTDOT, "Cross mount point");
  (EBADMSG, "Unreadable message");
  (EFTYPE, "Inappropriate file type or format");
  (ENOTUNIQ, "Given log. name not unique");
  (EBADFD, "Invalid file descriptor");
  (EREMCHG, "Remote address changed")]%string.

(** sysroot/usr/include/errno.h:297-390 [__get_err_code] *)
Definition err_cases_2 : list (Z * string) := [
  (ELIBACC, "Can't access needed shared lib");
  (ELIBBAD, "Corrupted shared lib");
  (ELIBSCN, ".lib section in a.out corrupted");
  (ELIBMAX, "Too many libs linked");
  (ELIBEXEC, "Exec shared library failed");
  (ENOSYS, "Function not implemented");
  (ENOTEMPTY, "Directory not empty");
  (ENAMETOOLONG, "File or path name too long");
  (ELOOP, "Too many symbolic links");
  (EOPNOTSUPP, "Operation not supported");
  (EPFNOSUPPORT, "Protocol family not supported");
  (ECONNRESET, "Connection reset by peer");
  (ENOBUFS, "No buffer space available");
  (EAFNOSUPPORT, "Address family not supported");
  (EPROTOTYPE, "Protocol wrong type for socket");
  (ENOTSOCK, "Socket operation on non-socket");
  (ENOPROTOOPT, "Protocol not available");
  (ESHUTDOWN, "Can't send after socket shutdown");
  (ECONNREFUSED, "Connection refused");
  (EADDRINUSE, "Address already in use");
  (ECONNABORTED, "Connection aborted");
  (ENETUNREACH, "Network is unreachable");
  (ENETDOWN, "Network interface not configured");
  (ETIMEDOUT, "Connection timed out");
  (EHOSTDOWN, "Host is down");
  (EHOSTUNREACH, "Host unreachable");
  (EINPROGRESS, "Connection already in progress");
  (EALREADY, "Socket already connected");
  (EDESTADDRREQ, "Destination address required");
  (EMSGSIZE, "Message too long");
  (EPROTONOSUPPORT, "Unknown protocol");
  (ESOCKTNOSUPPORT, "Socket type not supported");
  (EADDRNOTAVAIL, "Address not available");
  (ENETRESET, "Network reset");
  (EISCONN, "Socket is already connected");
  (ENOTCONN, "Socket not connected");
  (ETOOMANYREFS, "Too many references");
  (EPROCLIM, "Process limit reached");
  (EUSERS, "Too many users");
  (EDQUOT, "Quota exceeded");
  (ESTALE, "Stale file handle");
  (EILSEQ, "Illegal byte sequence");
  (EOVERFLOW, "Value too large for type");
  (ECANCELED, "Operation canceled");
  (ENOTRECOVERABLE, "State not recoverable");
  (EOWNERDEAD, "Previous owner died");
  (ESTRPIPE, "Streams pipe error")]%string.

(** The message of the first case that matches.
    sysroot/usr/include/errno.h:145-148 [__get_err_code] *)
Fixpoint find_case (err : Z) (cases : list (Z * string)) : string :=
  match cases with
  | [] => "Unknown error"
  | (n, text) :: r => if err =? n then text else find_case err r
  end.
Definition __get_err_code (err : Z) : string := find_case err (err_cases_1 ++ err_cases_2).

(** src/vterm/vterm.c:113-126 [vterm_status] *)
Definition vterm_status {S} `{!Console S} (str : string) (ret : Z) : K S unit :=
  vterm_print str;;
  vterm_print "...";;
  if negb (ret =? 0) then kerror (__get_err_code ret) else kok.

(** No number has two cases, and 0 and the negative numbers have none. *)
Lemma err_cases_distinct : NoDup (fst <$> err_cases_1 ++ err_cases_2).
Proof. apply (bool_decide_unpack _). vm_compute. exact I. Qed.

Lemma find_case_in err cases text : NoDup (fst <$> cases) -> (err, text) ∈ cases ->
  find_case err cases = text.
Proof.
  induction cases as [|[n t] r IH]; cbn [fmap list_fmap fst]; intros Hnd Hin.
  - by apply elem_of_nil in Hin.
  - apply NoDup_cons in Hnd as [Hn Hnd]. cbn [find_case]. apply elem_of_cons in Hin as [[= -> ->]|Hin].
    + by rewrite Z.eqb_refl.
    + destruct (Z.eqb_spec err n) as [->|_]; [|by apply IH].
      destruct Hn. apply (list_elem_of_fmap_2 fst _ (n, text)) in Hin. exact Hin.
Qed.

Lemma find_case_out err cases : err ∉ fst <$> cases -> find_case err cases = "Unknown error"%string.
Proof.
  induction cases as [|[n t] r IH]; [done|]. cbn [fmap list_fmap fst find_case].
  rewrite not_elem_of_cons. intros [Hne Hr]. destruct (Z.eqb_spec err n); [done|]. by apply IH.
Qed.

(** Every case answers its own message; the negated numbers the kernel
    returns have none. *)
Lemma get_err_code_correct err :
  (forall text, (err, text) ∈ err_cases_1 ++ err_cases_2 -> __get_err_code err = text) /\
  (err <= 0 -> __get_err_code err = "Unknown error"%string).
Proof.
  split.
  - intros text H. apply find_case_in; [apply err_cases_distinct|done].
  - intros H. apply find_case_out. intros Hin.
    assert (Hall : Forall (fun n => 0 < n) (fst <$> err_cases_1 ++ err_cases_2)).
    { apply (bool_decide_unpack _). vm_compute. exact I. }
    rewrite Forall_forall in Hall. specialize (Hall _ Hin). lia.
Qed.
