(* ===== verification/SchedState.v ===== *)
(** * Threads, processes and their locks: the data of the scheduler

    The objects of thread.h, process.h and mutex.h and the globals of thread.c,
    scheduler.c and process.c, as one state.  An object is named by the address
    [kmalloc] gave it; following a pointer to no object is a fault.  The state
    has an interrupt flag, so spinlocks work on it, and the kernel heap as a
    part. *)

From S2P Require Import Prelude Console Spinlock Kmem Errno.
Local Open Scope Z_scope.

(** src/include/scheduling/thread.h:11-11 [MAX_THREADS] *)
Definition MAX_THREADS : nat := 256.
(** src/include/scheduling/process.h:16-17 [MAX_PROCS] *)
Definition MAX_PROCS : nat := 1024.
Definition MAX_FD : nat := 32.

(** src/include/arch/x86_64/arch.h:8-20 [MAX_SYS_CALLS] *)
Definition KERNEL_CODE64 : Z := 0x08.
Definition KERNEL_DATA64 : Z := 0x10.
Definition USER_CODE64 : Z := 0x1B.
Definition USER_DATA64 : Z := 0x23.
Definition TSS : Z := 0x28.
Definition KSTACK_SIZE : Z := 0x8000.
Definition IST_STACK_SIZE : Z := 0x4000.
Definition TSTACK_SIZE : Z := 0x4000.
Definition MAX_SYS_CALLS : Z := 420.


(** src/include/scheduling/thread.h:13-19 [thread_state_t] *)
Inductive thread_state_t :=
  | THREAD_READY | THREAD_RUNNING | THREAD_BLOCKED | THREAD_TERMED.

(** src/include/scheduling/thread.h:21-25 [thread_privilege_t] *)
Inductive thread_privilege_t := THREAD_RING_0 | THREAD_RING_3.

(** src/include/scheduling/thread.h:27-36 [thread_priority_t] *)
Inductive thread_priority_t :=
  | THREAD_PRIO_LOW | THREAD_PRIO_BG | THREAD_PRIO_NORMAL | THREAD_PRIO_HIGH
  | THREAD_PRIO_IMPORTANT | THREAD_PRIO_IMMEDIATE | PRIORITY_LEVELS.

(** src/include/scheduling/process.h:27-34 [process_state_t] *)
Inductive process_state_t :=
  | PROC_READY | PROC_RUNNING | PROC_BLOCKED | PROC_ZOMBIE | PROC_EXITED.

#[export] Instance thread_state_eq_dec : EqDecision thread_state_t.
Proof. solve_decision. Defined.
#[export] Instance thread_privilege_eq_dec : EqDecision thread_privilege_t.
Proof. solve_decision. Defined.
#[export] Instance thread_priority_eq_dec : EqDecision thread_priority_t.
Proof. solve_decision. Defined.
#[export] Instance process_state_eq_dec : EqDecision process_state_t.
Proof. solve_decision. Defined.

(** The saved registers.
    src/include/arch/x86_64/arch.h:29-40 [context_t] *)
Record context_t := Context_t {
  r15 : Z; r14 : Z; r13 : Z; r12 : Z; r11 : Z; r10 : Z; r9 : Z; r8 : Z;
  rbp : Z; rdi : Z; rsi : Z; rdx : Z; rcx : Z; rbx : Z; rax : Z;
  int_no : Z; err_code : Z; rip : Z; cs : Z; rflags : Z; rsp : Z; ss : Z;
}.

(** src/include/scheduling/thread.h:38-55 [thread_t] *)
Record thread := Thread {
  tid : Z;
  o_pid : Z;  (* owner process *)
  proc : Z;  (* process_t * *)
  state : thread_state_t;
  privilege : thread_privilege_t;
  priority : thread_priority_t;
  context : context_t;
  stack_base : Z;
  stack_size : Z;
  kernel_stack : Z;
  time_slice : Z;
  time_used : Z;
  cooldown : Z;
  user_data : Z;
  next : Z;  (* thread_t * *)
}.

Definition t_set_o_pid v t :=
  Thread (tid t) v (proc t) (state t) (privilege t) (priority t) (context t) (stack_base t)
    (stack_size t) (kernel_stack t) (time_slice t) (time_used t) (cooldown t) (user_data t)
    (next t).
Definition t_set_proc v t :=
  Thread (tid t) (o_pid t) v (state t) (privilege t) (priority t) (context t) (stack_base t)
    (stack_size t) (kernel_stack t) (time_slice t) (time_used t) (cooldown t) (user_data t)
    (next t).
Definition t_set_state v t :=
  Thread (tid t) (o_pid t) (proc t) v (privilege t) (priority t) (context t) (stack_base t)
    (stack_size t) (kernel_stack t) (time_slice t) (time_used t) (cooldown t) (user_data t)
    (next t).
Definition t_set_context v t :=
  Thread (tid t) (o_pid t) (proc t) (state t) (privilege t) (priority t) v (stack_base t)
    (stack_size t) (kernel_stack t) (time_slice t) (time_used t) (cooldown t) (user_data t)
    (next t).
Definition t_set_stack_base v t :=
  Thread (tid t) (o_pid t) (proc t) (state t) (privilege t) (priority t) (context t) v
    (stack_size t) (kernel_stack t) (time_slice t) (time_used t) (cooldown t) (user_data t)
    (next t).
Definition t_set_kernel_stack v t :=
  Thread (tid t) (o_pid t) (proc t) (state t) (privilege t) (priority t) (context t)
    (stack_base t) (stack_size t) v (time_slice t) (time_used t) (cooldown t) (user_data t)
    (next t).
Definition t_set_cooldown v t :=
  Thread (tid t) (o_pid t) (proc t) (state t) (privilege t) (priority t) (context t)
    (stack_base t) (stack_size t) (kernel_stack t) (time_slice t) (time_used t) v (user_data t)
    (next t).
Definition t_set_next v t :=
  Thread (tid t) (o_pid t) (proc t) (state t) (privilege t) (priority t) (context t)
    (stack_base t) (stack_size t) (kernel_stack t) (time_slice t) (time_used t) (cooldown t)
    (user_data t) v.

(** src/include/scheduling/process.h:36-42 [file_descriptor_t] *)
Record file_descriptor_t := Fd { node : Z; offset : Z; present : Z; flags : Z }.

(** The members of a process but [cred], which nothing reads, and [lock],
    which is kept with the other mutexes.
    src/include/scheduling/process.h:44-66 [process_t] *)
Record process := Process {
  pid : Z;
  ppid : Z;
  p_state : process_state_t;  (* state *)
  umask : Z;
  next_sibling : Z;
  main_thread : Z;  (* thread_t * *)
  wait_head : Z;  (* thread_t * *)
  wait_tail : Z;  (* thread_t * *)
  cwd : Z;  (* vnode_t * *)
  cwd_path : list Z;
  address_space : Z;
  fds : list file_descriptor_t;
  exit_code : Z;
}.

Definition p_set_pid v p :=
  Process v (ppid p) (p_state p) (umask p) (next_sibling p) (main_thread p) (wait_head p)
    (wait_tail p) (cwd p) (cwd_path p) (address_space p) (fds p) (exit_code p).
Definition p_set_p_state v p :=
  Process (pid p) (ppid p) v (umask p) (next_sibling p) (main_thread p) (wait_head p)
    (wait_tail p) (cwd p) (cwd_path p) (address_space p) (fds p) (exit_code p).
Definition p_set_main_thread v p :=
  Process (pid p) (ppid p) (p_state p) (umask p) (next_sibling p) v (wait_head p) (wait_tail p)
    (cwd p) (cwd_path p) (address_space p) (fds p) (exit_code p).
Definition p_set_wait_head v p :=
  Process (pid p) (ppid p) (p_state p) (umask p) (next_sibling p) (main_thread p) v
    (wait_tail p) (cwd p) (cwd_path p) (address_space p) (fds p) (exit_code p).
Definition p_set_wait_tail v p :=
  Process (pid p) (ppid p) (p_state p) (umask p) (next_sibling p) (main_thread p) (wait_head p)
    v (cwd p) (cwd_path p) (address_space p) (fds p) (exit_code p).
Definition p_set_address_space v p :=
  Process (pid p) (ppid p) (p_state p) (umask p) (next_sibling p) (main_thread p) (wait_head p)
    (wait_tail p) (cwd p) (cwd_path p) v (fds p) (exit_code p).
Definition p_set_exit_code v p :=
  Process (pid p) (ppid p) (p_state p) (umask p) (next_sibling p) (main_thread p) (wait_head p)
    (wait_tail p) (cwd p) (cwd_path p) (address_space p) (fds p) v.

(** src/include/scheduling/mutex.h:14-22 [mutex_t] *)
Record mutex := Mutex {
  mlock : spinlock;  (* lock *)
  mlocked : Z;  (* locked *)
  owner : Z;  (* thread_t * *)
  waiter_head : Z;  (* thread_t * *)
  waiter_tail : Z;  (* thread_t * *)
  waiter_count : Z;
}.

Definition m_set_mlock v m :=
  Mutex v (mlocked m) (owner m) (waiter_head m) (waiter_tail m) (waiter_count m).
Definition m_set_mlocked v m :=
  Mutex (mlock m) v (owner m) (waiter_head m) (waiter_tail m) (waiter_count m).
Definition m_set_owner v m :=
  Mutex (mlock m) (mlocked m) v (waiter_head m) (waiter_tail m) (waiter_count m).
Definition m_set_waiter_head v m :=
  Mutex (mlock m) (mlocked m) (owner m) v (waiter_tail m) (waiter_count m).
Definition m_set_waiter_tail v m :=
  Mutex (mlock m) (mlocked m) (owner m) (waiter_head m) v (waiter_count m).
Definition m_set_waiter_count v m :=
  Mutex (mlock m) (mlocked m) (owner m) (waiter_head m) (waiter_tail m) v.

(** The mutexes there are: the thread table's, the process table's and one in
    each process. *)
Inductive mutex_ref := ThreadMutex | ProcTableLock | ProcLock (p : Z).

#[export] Instance mutex_ref_eq_dec : EqDecision mutex_ref.
Proof. solve_decision. Defined.
#[export] Instance mutex_ref_countable : Countable mutex_ref.
Proof.
  apply (inj_countable'
    (fun r => match r with ThreadMutex => inl true | ProcTableLock => inl false | ProcLock p => inr p end)
    (fun x => match x with inl true => ThreadMutex | inl false => ProcTableLock | inr p => ProcLock p end)).
  by intros [].
Defined.

(** The globals of thread.c, scheduler.c, process.c and the kernel table.
    src/include/kernel.h:31-46 [kernel_table] *)
Record sched (A : Type) := SchedState {
  threads : gmap Z thread;  (* the thread objects, by address *)
  procs : gmap Z process;  (* the process objects, by address *)
  mutexes : gmap mutex_ref mutex;  (* thread_mutex, process_table_lock, p->lock *)
  schedule_lock : spinlock;
  ready_head : Z;
  ready_tail : Z;
  priority_counter : Z;
  current_thread : Z;  (* kernel->current_thread *)
  thread_table : list Z;  (* kernel->thread_table *)
  thread_count : Z;  (* kernel->thread_count *)
  next_tid : Z;  (* kernel->next_tid *)
  process_table : list Z;
  next_pid : Z;
  rsp0 : Z;  (* tss.rsp0 *)
  frame : context_t;  (* the interrupt frame *)
  intr : bool;  (* the interrupt flag *)
  kmem : A;  (* the kernel heap and the console *)
}.

Arguments SchedState {A}.
Arguments threads {A}.
Arguments procs {A}.
Arguments mutexes {A}.
Arguments schedule_lock {A}.
Arguments ready_head {A}.
Arguments ready_tail {A}.
Arguments priority_counter {A}.
Arguments current_thread {A}.
Arguments thread_table {A}.
Arguments thread_count {A}.
Arguments next_tid {A}.
Arguments process_table {A}.
Arguments next_pid {A}.
Arguments rsp0 {A}.
Arguments frame {A}.
Arguments intr {A}.
Arguments kmem {A}.

Section setters.
Context {A : Type}.
Implicit Types s : sched A.

Definition set_threads v s : sched A :=
  SchedState v (procs s) (mutexes s) (schedule_lock s) (ready_head s) (ready_tail s)
    (priority_counter s) (current_thread s) (thread_table s) (thread_count s) (next_tid s)
    (process_table s) (next_pid s) (rsp0 s) (frame s) (intr s) (kmem s).
Definition set_procs v s : sched A :=
  SchedState (threads s) v (mutexes s) (schedule_lock s) (ready_head s) (ready_tail s)
    (priority_counter s) (current_thread s) (thread_table s) (thread_count s) (next_tid s)
    (process_table s) (next_pid s) (rsp0 s) (frame s) (intr s) (kmem s).
Definition set_mutexes v s : sched A :=
  SchedState (threads s) (procs s) v (schedule_lock s) (ready_head s) (ready_tail s)
    (priority_counter s) (current_thread s) (thread_table s) (thread_count s) (next_tid s)
    (process_table s) (next_pid s) (rsp0 s) (frame s) (intr s) (kmem s).
Definition set_schedule_lock v s : sched A :=
  SchedState (threads s) (procs s) (mutexes s) v (ready_head s) (ready_tail s)
    (priority_counter s) (current_thread s) (thread_table s) (thread_count s) (next_tid s)
    (process_table s) (next_pid s) (rsp0 s) (frame s) (intr s) (kmem s).
Definition set_ready_head v s : sched A :=
  SchedState (threads s) (procs s) (mutexes s) (schedule_lock s) v (ready_tail s)
    (priority_counter s) (current_thread s) (thread_table s) (thread_count s) (next_tid s)
    (process_table s) (next_pid s) (rsp0 s) (frame s) (intr s) (kmem s).
Definition set_ready_tail v s : sched A :=
  SchedState (threads s) (procs s) (mutexes s) (schedule_lock s) (ready_head s) v
    (priority_counter s) (current_thread s) (thread_table s) (thread_count s) (next_tid s)
    (process_table s) (next_pid s) (rsp0 s) (frame s) (intr s) (kmem s).
Definition set_priority_counter v s : sched A :=
  SchedState (threads s) (procs s) (mutexes s) (schedule_lock s) (ready_head s) (ready_tail s) v
    (current_thread s) (thread_table s) (thread_count s) (next_tid s) (process_table s)
    (next_pid s) (rsp0 s) (frame s) (intr s) (kmem s).
Definition set_current_thread v s : sched A :=
  SchedState (threads s) (procs s) (mutexes s) (schedule_lock s) (ready_head s) (ready_tail s)
    (priority_counter s) v (thread_table s) (thread_count s) (next_tid s) (process_table s)
    (next_pid s) (rsp0 s) (frame s) (intr s) (kmem s).
Definition set_thread_table v s : sched A :=
  SchedState (threads s) (procs s) (mutexes s) (schedule_lock s) (ready_head s) (ready_tail s)
    (priority_counter s) (current_thread s) v (thread_count s) (next_tid s) (process_table s)
    (next_pid s) (rsp0 s) (frame s) (intr s) (kmem s).
Definition set_thread_count v s : sched A :=
  SchedState (threads s) (procs s) (mutexes s) (schedule_lock s) (ready_head s) (ready_tail s)
    (priority_counter s) (current_thread s) (thread_table s) v (next_tid s) (process_table s)
    (next_pid s) (rsp0 s) (frame s) (intr s) (kmem s).
Definition set_next_tid v s : sched A :=
  SchedState (threads s) (procs s) (mutexes s) (schedule_lock s) (ready_head s) (ready_tail s)
    (priority_counter s) (current_thread s) (thread_table s) (thread_count s) v
    (process_table s) (next_pid s) (rsp0 s) (frame s) (intr s) (kmem s).
Definition set_process_table v s : sched A :=
  SchedState (threads s) (procs s) (mutexes s) (schedule_lock s) (ready_head s) (ready_tail s)
    (priority_counter s) (current_thread s) (thread_table s) (thread_count s) (next_tid s) v
    (next_pid s) (rsp0 s) (frame s) (intr s) (kmem s).
Definition set_next_pid v s : sched A :=
  SchedState (threads s) (procs s) (mutexes s) (schedule_lock s) (ready_head s) (ready_tail s)
    (priority_counter s) (current_thread s) (thread_table s) (thread_count s) (next_tid s)
    (process_table s) v (rsp0 s) (frame s) (intr s) (kmem s).
Definition set_rsp0 v s : sched A :=
  SchedState (threads s) (procs s) (mutexes s) (schedule_lock s) (ready_head s) (ready_tail s)
    (priority_counter s) (current_thread s) (thread_table s) (thread_count s) (next_tid s)
    (process_table s) (next_pid s) v (frame s) (intr s) (kmem s).
Definition set_frame v s : sched A :=
  SchedState (threads s) (procs s) (mutexes s) (schedule_lock s) (ready_head s) (ready_tail s)
    (priority_counter s) (current_thread s) (thread_table s) (thread_count s) (next_tid s)
    (process_table s) (next_pid s) (rsp0 s) v (intr s) (kmem s).
Definition set_intr v s : sched A :=
  SchedState (threads s) (procs s) (mutexes s) (schedule_lock s) (ready_head s) (ready_tail s)
    (priority_counter s) (current_thread s) (thread_table s) (thread_count s) (next_tid s)
    (process_table s) (next_pid s) (rsp0 s) (frame s) v (kmem s).
Definition set_kmem v s : sched A :=
  SchedState (threads s) (procs s) (mutexes s) (schedule_lock s) (ready_head s) (ready_tail s)
    (priority_counter s) (current_thread s) (thread_table s) (thread_count s) (next_tid s)
    (process_table s) (next_pid s) (rsp0 s) (frame s) (intr s) v.
End setters.

(** ** Access to the objects *)
Section access.
Context {A : Type}.

Definition get_thread (p : Z) : K (sched A) thread :=
  t ← kasks (fun s => threads s !! p); kderef t.
Definition upd_thread (p : Z) (f : thread -> thread) : K (sched A) unit :=
  t ← get_thread p; kmod (fun s => set_threads (<[p := f t]> (threads s)) s).

Definition get_process (p : Z) : K (sched A) process :=
  t ← kasks (fun s => procs s !! p); kderef t.
Definition upd_process (p : Z) (f : process -> process) : K (sched A) unit :=
  t ← get_process p; kmod (fun s => set_procs (<[p := f t]> (procs s)) s).

Definition mutex_zero : mutex := Mutex (Spinlock false false) 0 NULL NULL NULL 0.
Definition mutex_at (r : mutex_ref) (s : sched A) : mutex := default mutex_zero (mutexes s !! r).
Definition put_mutex (r : mutex_ref) (m : mutex) (s : sched A) : sched A :=
  set_mutexes (<[r := m]> (mutexes s)) s.
Definition upd_mutex (r : mutex_ref) (f : mutex -> mutex) : K (sched A) unit :=
  kmod (fun s => put_mutex r (f (mutex_at r s)) s).

#[export] Instance sched_Cpu : Cpu (sched A) := { get_if := intr; set_if := set_intr }.
#[export] Instance sched_CpuOk : CpuOk (sched A).
Proof. split; by intros; repeat match goal with s : sched A |- _ => destruct s end. Qed.

Definition schedule_spin : slens (sched A) := Slens schedule_lock set_schedule_lock.
Definition mutex_spin (r : mutex_ref) : slens (sched A) :=
  Slens (fun s => mlock (mutex_at r s)) (fun l s => put_mutex r (m_set_mlock l (mutex_at r s)) s).

#[export] Instance schedule_spin_ok : SlensOk schedule_spin.
Proof. split; by intros; destruct s. Qed.
#[export] Instance mutex_spin_ok r : SlensOk (mutex_spin r).
Proof.
  split; intros; destruct s; unfold mutex_spin, mutex_at, put_mutex; cbn;
    rewrite ?lookup_insert_eq, ?insert_insert_eq; done.
Qed.

#[export] Instance sched_Console `{!Console A} : Console (sched A) := {
  put_event e s := set_kmem (put_event e (kmem s)) s;
}.

Definition on_kmem {B} (m : K A B) : K (sched A) B := klift kmem set_kmem m.
End access.
