(* ===== verification/Sched.v ===== *)
(** * Ready queue, mutexes and blocking (scheduler.c, mutex.c, thread.c)

    The ready queue is a singly linked list through [next] with a head and a
    tail pointer; the waiters of a mutex are another one through the same
    field.  A mutex that is taken blocks the caller: [thread_block] marks it,
    takes it out of the ready queue and traps to the scheduler.  [thread_block]
    itself takes the thread table's mutex, so the two functions call each
    other; [fuel] bounds the depth of that recursion and the walks. *)

From S2P Require Import Prelude Errno Console Spinlock Kmem SchedState.
Local Open Scope Z_scope.

Section sched.
Context {A : Type} (fuel : nat).

(** src/scheduling/scheduler.c:14-21 [lock_schedule_spin] *)
Definition lock_schedule_spin : K (sched A) unit := spinlock_acquire schedule_spin.
Definition unlock_schedule_spin : K (sched A) unit := spinlock_release schedule_spin.

(** src/scheduling/scheduler.c:37-56 [priority_to_stride] *)
Definition priority_to_stride (p : thread_priority_t) : Z :=
  match p with
  | THREAD_PRIO_IMMEDIATE => 1
  | THREAD_PRIO_IMPORTANT => 2
  | THREAD_PRIO_HIGH => 4
  | THREAD_PRIO_NORMAL => 8
  | THREAD_PRIO_BG => 16
  | THREAD_PRIO_LOW => 32
  | PRIORITY_LEVELS => 8
  end.

(** Link a thread, whose [next] is NULL already, behind the tail.
    src/scheduling/thread.c:197-205 [thread_create] *)
Definition link_ready_tail (t : Z) : K (sched A) unit :=
  head ← kasks ready_head;
  if head =? NULL then
    kmod (set_ready_head t);; kmod (set_ready_tail t)
  else
    tail ← kasks ready_tail;
    upd_thread tail (t_set_next t);;
    kmod (set_ready_tail t).

(** src/scheduling/scheduler.c:58-74 [enqueue_ready_tail] *)
Definition enqueue_ready_tail (t : Z) : K (sched A) unit :=
  if t =? NULL then mret tt else
  upd_thread t (t_set_next NULL);;
  link_ready_tail t.

(** src/scheduling/scheduler.c:76-88 [dequeue_ready_head] *)
Definition dequeue_ready_head : K (sched A) Z :=
  t ← kasks ready_head;
  if t =? NULL then mret NULL else
  th ← get_thread t;
  kmod (set_ready_head (next th));;
  kwhen (next th =? NULL) (kmod (set_ready_tail NULL));;
  upd_thread t (t_set_next NULL);;
  mret t.

(** The search for a duplicate.
    src/scheduling/scheduler.c:97-107 [add_to_ready_queue] *)
Definition in_ready_queue (t check : Z) : K (sched A) bool :=
  kloop fuel (fun check =>
    if check =? NULL then mret (inr false)
    else if check =? t then mret (inr true)
    else th ← get_thread check; mret (inl (next th))) check.

(** src/scheduling/scheduler.c:90-113 [add_to_ready_queue] *)
Definition add_to_ready_queue (t : Z) : K (sched A) unit :=
  if t =? NULL then mret tt else
  th ← get_thread t;
  if decide (state th = THREAD_TERMED) then mret tt else
  lock_schedule_spin;;
  check ← kasks ready_head;
  dup ← in_ready_queue t check;
  if dup : bool then unlock_schedule_spin else
  upd_thread t (t_set_next NULL);;
  upd_thread t (t_set_state THREAD_READY);;
  enqueue_ready_tail t;;
  unlock_schedule_spin.

(** One turn of the search for [t], with the loop's [prev] and [cur].
    src/scheduling/scheduler.c:125-143 [remove_from_ready_queue] *)
Definition remove_step (t : Z) (l : Z * Z) : K (sched A) (Z * Z + unit) :=
  let '(prev, cur) := l in
  if cur =? NULL then mret (inr tt)
  else if cur =? t then
    c ← get_thread cur;
    (if negb (prev =? NULL) then upd_thread prev (t_set_next (next c))
     else kmod (set_ready_head (next c)));;
    tail ← kasks ready_tail;
    kwhen (cur =? tail) (kmod (set_ready_tail prev));;
    upd_thread t (t_set_next NULL);;
    mret (inr tt)
  else
    c ← get_thread cur;
    mret (inl (cur, next c)).

(** src/scheduling/scheduler.c:115-146 [remove_from_ready_queue] *)
Definition remove_from_ready_queue (t : Z) : K (sched A) unit :=
  if t =? NULL then mret tt else
  lock_schedule_spin;;
  head ← kasks ready_head;
  kloop fuel (remove_step t) (NULL, head);;
  unlock_schedule_spin.

(** ** Mutexes *)

(** src/scheduling/mutex.c:4-15 [init_mutex] *)
Definition init_mutex (m : mutex_ref) : K (sched A) unit :=
  spinlock_init (mutex_spin m);;
  upd_mutex m (m_set_mlocked 0);;
  upd_mutex m (m_set_owner NULL);;
  upd_mutex m (m_set_waiter_head NULL);;
  upd_mutex m (m_set_waiter_tail NULL);;
  upd_mutex m (m_set_waiter_count 0).

(** src/scheduling/mutex.c:48-79 [release_mutex] *)
Definition release_mutex (m : mutex_ref) : K (sched A) unit :=
  spinlock_acquire (mutex_spin m);;
  o ← kasks (fun s => owner (mutex_at m s));
  current ← kasks current_thread;
  if negb (o =? current) then spinlock_release (mutex_spin m) else
  upd_mutex m (m_set_mlocked 0);;
  upd_mutex m (m_set_owner NULL);;
  head ← kasks (fun s => waiter_head (mutex_at m s));
  kwhen (negb (head =? NULL))
    (th ← get_thread head;
     upd_mutex m (m_set_waiter_head (next th));;
     kwhen (next th =? NULL) (upd_mutex m (m_set_waiter_tail NULL));;
     count ← kasks (fun s => waiter_count (mutex_at m s));
     upd_mutex m (m_set_waiter_count (u64 (count - 1)));;
     upd_thread head (t_set_state THREAD_READY);;
     add_to_ready_queue head);;
  spinlock_release (mutex_spin m).

(** The loop of [thread_from_tid] over the thread table.
    src/scheduling/thread.c:47-56 [thread_from_tid] *)
Fixpoint find_tid (table : list Z) (i : Z) : K (sched A) Z :=
  match table with
  | [] => mret NULL
  | t :: rest =>
      if t =? NULL then find_tid rest i else
      th ← get_thread t;
      if tid th =? i then mret t else find_tid rest i
  end.

(** src/scheduling/thread.c:43-59 [thread_from_tid] *)
Definition thread_from_tid (i : Z) : K (sched A) Z :=
  table ← kasks thread_table; find_tid table i.

(** [thread_block], given the [acquire_mutex] it calls; [int 0x20] does not
    come back.
    src/scheduling/thread.c:212-228 [thread_block] *)
Definition thread_block_with {B} (acquire : mutex_ref -> K (sched A) Z) (i : Z) : K (sched A) B :=
  acquire ThreadMutex;;
  t ← thread_from_tid i;
  release_mutex ThreadMutex;;
  if t =? NULL then hcf else
  th ← get_thread t;
  if tid th =? 0 then hcf else
  upd_thread t (t_set_state THREAD_BLOCKED);;
  remove_from_ready_queue t;;
  kstop Trapped.

(** Put the current thread at the end of a mutex's waiters.
    src/scheduling/mutex.c:31-42 [acquire_mutex] *)
Definition enqueue_waiter (m : mutex_ref) (current : Z) : K (sched A) unit :=
  upd_thread current (t_set_state THREAD_BLOCKED);;
  upd_thread current (t_set_next NULL);;
  tail ← kasks (fun s => waiter_tail (mutex_at m s));
  (if negb (tail =? NULL) then
     upd_thread tail (t_set_next current);;
     upd_mutex m (m_set_waiter_tail current)
   else
     upd_mutex m (m_set_waiter_tail current);;
     upd_mutex m (m_set_waiter_head current));;
  count ← kasks (fun s => waiter_count (mutex_at m s));
  upd_mutex m (m_set_waiter_count (u64 (count + 1))).

(** The loop's body never comes back from [thread_block], so it is entered once
    per call; the fuel counts nested calls.
    src/scheduling/mutex.c:17-46 [acquire_mutex] *)
Fixpoint acquire_mutex_fuel (depth : nat) (m : mutex_ref) : K (sched A) Z :=
  match depth with
  | O => kstop OutOfFuel
  | S depth' =>
      spinlock_acquire (mutex_spin m);;
      locked ← kasks (fun s => mlocked (mutex_at m s));
      current ← kasks current_thread;
      if locked =? 0 then
        upd_mutex m (m_set_mlocked 1);;
        upd_mutex m (m_set_owner current);;
        spinlock_release (mutex_spin m);;
        mret 0
      else
        enqueue_waiter m current;;
        spinlock_release (mutex_spin m);;
        th ← get_thread current;
        thread_block_with (acquire_mutex_fuel depth') (tid th)
  end.

Definition acquire_mutex : mutex_ref -> K (sched A) Z := acquire_mutex_fuel fuel.

(** src/scheduling/thread.c:212-228 [thread_block] *)
Definition thread_block {B} (i : Z) : K (sched A) B := thread_block_with acquire_mutex i.

(** src/scheduling/thread.c:22-29 [lock_thread_mutex] *)
Definition lock_thread_mutex : K (sched A) Z := acquire_mutex ThreadMutex.
Definition unlock_thread_mutex : K (sched A) unit := release_mutex ThreadMutex.

(** src/scheduling/thread.c:230-259 [thread_unblock] *)
Definition thread_unblock (i : Z) : K (sched A) Z :=
  lock_thread_mutex;;
  t ← thread_from_tid i;
  unlock_thread_mutex;;
  if t =? NULL then mret (- ESRCH) else
  th ← get_thread t;
  if decide (state th <> THREAD_BLOCKED) then mret (- EINVAL) else
  upd_thread t (t_set_state THREAD_READY);;
  upd_thread t (t_set_next NULL);;
  lock_schedule_spin;;
  link_ready_tail t;;
  unlock_schedule_spin;;
  mret 0.
End sched.
