(* ===== verification/Queue.v ===== *)
(** * Linked lists of threads

    The refinement relation between the linked lists the scheduler keeps
    through [next] and lists of thread addresses: [segto], a path of [next]
    pointers, [queue], the ready queue, and [waiters], the waiters of a mutex;
    and what each list operation of the scheduler does to the abstract list. *)

From S2P Require Import Prelude Console Spinlock Kmem SchedState Sched.
Local Open Scope Z_scope.

(** [p] leads through the threads of [q] to [r]. *)
Fixpoint segto (m : gmap Z thread) (p : Z) (q : list Z) (r : Z) : Prop :=
  match q with
  | [] => p = r
  | t :: q' => p = t /\ t <> NULL /\ exists th, m !! t = Some th /\ segto m (next th) q' r
  end.

Lemma segto_app m q1 q2 p r :
  segto m p (q1 ++ q2) r <-> exists x, segto m p q1 x /\ segto m x q2 r.
Proof.
  revert p. induction q1 as [|t q1 IH]; intros p; cbn [app segto].
  - split; [by exists p|by intros (x & -> & H)].
  - split.
    + intros (-> & Ht & th & E & H). apply IH in H as (x & H1 & H2). exists x. eauto 10.
    + intros (x & (-> & Ht & th & E & H1) & H2). split_and!; [done..|]. exists th.
      split; [done|]. apply IH. eauto.
Qed.

Lemma segto_ext m m' q p r :
  (forall t, t ∈ q -> next <$> m' !! t = next <$> m !! t) -> segto m p q r -> segto m' p q r.
Proof.
  revert p. induction q as [|t q IH]; intros p Hx; [done|].
  intros (-> & Ht & th & E & H). split_and!; [done..|].
  pose proof (Hx t (list_elem_of_here _ _)) as Ex. rewrite E in Ex.
  destruct (m' !! t) as [th'|] eqn:E'; [|done]. injection Ex as Ex.
  exists th'. split; [done|]. rewrite Ex. apply IH; [|done].
  intros x Hin. apply Hx. by apply list_elem_of_further.
Qed.

Lemma segto_some m q p r t : segto m p q r -> t ∈ q -> t <> NULL /\ is_Some (m !! t).
Proof.
  revert p. induction q as [|x q IH]; intros p; [by intros _ []%elem_of_nil|].
  intros (-> & Hx & th & E & H) [->|Hin]%elem_of_cons; [by rewrite E|by eapply IH].
Qed.

(** A list of distinct threads that ends in NULL, with the address of its last
    element. *)
Definition list_at (m : gmap Z thread) (head tail : Z) (q : list Z) : Prop :=
  segto m head q NULL /\ tail = default NULL (last q) /\ NoDup q.

(** Everything of a thread but its link. *)
Abbreviation strip := (t_set_next NULL).

(** What a list operation leaves alone: the links of the threads outside [X],
    everything else of every thread. *)
Record linked (X : list Z) (m m' : gmap Z thread) : Prop := {
  lk_out : forall t, t ∉ X -> m' !! t = m !! t;
  lk_strip : strip <$> m' = strip <$> m;
}.

Lemma linked_refl X m : linked X m m.
Proof. by split. Qed.

Lemma linked_trans X Y m1 m2 m3 : linked X m1 m2 -> linked Y m2 m3 -> linked (X ++ Y) m1 m3.
Proof.
  intros [O1 S1] [O2 S2]. split; [|by rewrite S2].
  intros t [H1 H2]%not_elem_of_app. by rewrite O2, O1.
Qed.

Lemma linked_weaken X Y m1 m2 : X ⊆ Y -> linked X m1 m2 -> linked Y m1 m2.
Proof. intros Hs [O1 S1]. split; [|done]. intros t Ht. apply O1. by intros ?%Hs. Qed.

Lemma linked_lookup X m m' t th : linked X m m' -> m !! t = Some th ->
  exists th', m' !! t = Some th' /\ strip th' = strip th.
Proof.
  intros L E. pose proof (f_equal (fun x => x !! t) (lk_strip _ _ _ L)) as H.
  cbn beta in H. rewrite !lookup_fmap, E in H. destruct (m' !! t) as [th'|]; [|done].
  exists th'. split; [done|]. cbn in H. by apply (inj Some) in H.
Qed.

Lemma linked_link m t v th : m !! t = Some th -> linked [t] m (<[t := t_set_next v th]> m).
Proof.
  intros E. split.
  - intros x Hx. apply lookup_insert_ne. set_solver.
  - rewrite fmap_insert. apply map_eq. intros x. rewrite lookup_insert, !lookup_fmap.
    case_decide as Hx; [subst; by rewrite E|done].
Qed.

Lemma linked_segto X m m' q p r :
  linked X m m' -> (forall t, t ∈ q -> t ∉ X) -> segto m p q r -> segto m' p q r.
Proof. intros L Hd. apply segto_ext. intros t Ht. by rewrite (lk_out _ _ _ L) by auto. Qed.

Lemma list_at_linked X m m' h l q :
  linked X m m' -> (forall t, t ∈ q -> t ∉ X) -> list_at m h l q -> list_at m' h l q.
Proof. intros L Hd (H & ? & ?). split_and!; [by eapply linked_segto|done..]. Qed.

Lemma list_at_ext m m' h l q :
  (forall t, t ∈ q -> next <$> m' !! t = next <$> m !! t) -> list_at m h l q -> list_at m' h l q.
Proof. intros Hx (H & ? & ?). split_and!; [by eapply segto_ext|done..]. Qed.

(** Appending to a list: link the last element to the new one. *)
Lemma segto_snoc m head q t l thl :
  segto m head (q ++ [l]) NULL -> NoDup (q ++ [l]) -> m !! l = Some thl -> t <> NULL ->
  t ∉ q ++ [l] -> (exists th, m !! t = Some th /\ next th = NULL) ->
  segto (<[l := t_set_next t thl]> m) head ((q ++ [l]) ++ [t]) NULL.
Proof.
  intros H Hnd El Ht Hin (th & Et & En).
  apply segto_app in H as (x & H1 & (-> & Hl & _)). apply NoDup_app in Hnd as (_ & Hnd & _).
  apply not_elem_of_app in Hin as [Hin Htl].
  apply segto_app. exists t. split; [apply segto_app; exists l; split|].
  - eapply segto_ext; [|exact H1]. intros y Hy. rewrite lookup_insert_ne; [done|].
    intros ->. apply (Hnd _ Hy). set_solver.
  - split_and!; [done..|]. eexists. rewrite lookup_insert_eq. by split.
  - split_and!; [done..|]. exists th. rewrite lookup_insert_ne by set_solver. by split.
Qed.

(** Redirecting the last link of a path. *)
Lemma segto_relink m head q l r v thl :
  segto m head (q ++ [l]) r -> NoDup (q ++ [l]) -> m !! l = Some thl ->
  segto (<[l := t_set_next v thl]> m) head (q ++ [l]) v.
Proof.
  intros H Hnd El. apply segto_app in H as (x & H1 & (-> & Hl & _)).
  apply NoDup_app in Hnd as (_ & Hnd & _). apply segto_app. exists l. split.
  - eapply segto_ext; [|exact H1]. intros y Hy. rewrite lookup_insert_ne; [done|].
    intros ->. apply (Hnd _ Hy). set_solver.
  - split_and!; [done..|]. eexists. rewrite lookup_insert_eq. by split.
Qed.

Lemma filter_keep (t : Z) (q : list Z) : (forall z, z ∈ q -> z <> t) -> filter (fun x => x <> t) q = q.
Proof.
  induction q as [|x q IH]; intros H; [done|].
  rewrite filter_cons_True by (apply H; set_solver). f_equal. apply IH. set_solver.
Qed.

Section queue.
Context {A : Type}.
Implicit Types s : sched A.

Lemma get_thread_run s p th : threads s !! p = Some th -> get_thread p s = Ret th s.
Proof. intros E. unfold get_thread. krun. by rewrite E. Qed.

Lemma upd_thread_run s p f th : threads s !! p = Some th ->
  upd_thread p f s = Ret tt (set_threads (<[p := f th]> (threads s)) s).
Proof. intros E. unfold upd_thread. by rewrite (kbind_ret _ _ _ _ _ (get_thread_run _ _ _ E)). Qed.

(** The ready queue of a state is the list [q]. *)
Definition queue s (q : list Z) : Prop := list_at (threads s) (ready_head s) (ready_tail s) q.

(** Only links and the queue's pointers change. *)
Record qframe (X : list Z) s s' : Prop := {
  qf_linked : linked X (threads s) (threads s');
  qf_rest : s' = set_threads (threads s') (set_ready_head (ready_head s')
                   (set_ready_tail (ready_tail s') s));
}.

Lemma qframe_refl X s : qframe X s s.
Proof. split; [done|by destruct s]. Qed.

Lemma qframe_trans X Y s1 s2 s3 : qframe X s1 s2 -> qframe Y s2 s3 -> qframe (X ++ Y) s1 s3.
Proof.
  intros [L1 R1] [L2 R2]. split; [by eapply linked_trans|].
  rewrite R2, R1. by destruct s1, s2, s3.
Qed.

Lemma qframe_weaken X Y s s' : X ⊆ Y -> qframe X s s' -> qframe Y s s'.
Proof. intros Hs [L R]. split; [by eapply linked_weaken|done]. Qed.

Lemma queue_some s q t : queue s q -> t ∈ q -> t <> NULL /\ is_Some (threads s !! t).
Proof. intros (H & _). by eapply segto_some. Qed.

Lemma link_run s q t th :
  queue s q -> threads s !! t = Some th -> next th = NULL -> t <> NULL -> t ∉ q ->
  exists s', link_ready_tail t s = Ret tt s' /\ queue s' (q ++ [t]) /\ qframe q s s'.
Proof.
  intros (H & Htl & Hnd) Et En Ht Hin. unfold link_ready_tail.
  rewrite (kbind_ret _ _ s (ready_head s) s) by reflexivity.
  destruct q as [|l q _] using rev_ind.
  - cbn in H. rewrite H. cbn [Z.eqb NULL].
    exists (set_ready_tail t (set_ready_head t s)). split_and!; [done| |].
    + split_and!; [|done|apply NoDup_singleton]. cbn. split_and!; [done..|]. by exists th.
    + split; [done|by destruct s].
  - destruct (segto_some _ _ _ _ l H) as [Hl [thl El]]; [set_solver|].
    assert (Hh : ready_head s <> NULL).
    { destruct q as [|x q]; destruct H as (-> & Hx & _); done. }
    destruct (Z.eqb_spec (ready_head s) NULL); [done|].
    rewrite last_snoc in Htl. cbn in Htl.
    rewrite (kbind_ret _ _ s l s) by (unfold kasks; by rewrite Htl).
    rewrite (kbind_ret _ _ _ _ _ (upd_thread_run _ _ _ _ El)).
    eexists. split_and!; [reflexivity| |].
    + split_and!; cbn.
      * apply segto_snoc; try done. by exists th.
      * by rewrite last_snoc.
      * apply NoDup_app. split_and!; [done|set_solver|apply NoDup_singleton].
    + split; cbn; [|by destruct s]. eapply linked_weaken; [|by apply linked_link]. set_solver.
Qed.

Lemma enqueue_run s q t th :
  queue s q -> threads s !! t = Some th -> t <> NULL -> t ∉ q ->
  exists s', enqueue_ready_tail t s = Ret tt s' /\ queue s' (q ++ [t]) /\ qframe (t :: q) s s'.
Proof.
  intros Hq Et Ht Hin. unfold enqueue_ready_tail. destruct (Z.eqb_spec t NULL); [done|].
  rewrite (kbind_ret _ _ _ _ _ (upd_thread_run _ _ _ _ Et)).
  set (s1 := set_threads _ s).
  assert (F1 : qframe [t] s s1) by (split; [by apply linked_link|by destruct s]).
  destruct (link_run s1 q t (t_set_next NULL th)) as (s' & E & Hq' & F'); [| |done|done|done|].
  - by apply (list_at_linked [t] (threads s)); [apply F1|set_solver|].
  - cbn. apply lookup_insert_eq.
  - exists s'. split_and!; [done..|]. exact (qframe_trans _ _ _ _ _ F1 F').
Qed.

Lemma dequeue_nil s : queue s [] -> dequeue_ready_head s = Ret NULL s.
Proof. intros (H & _). cbn in H. unfold dequeue_ready_head. krun. by rewrite H. Qed.

Lemma dequeue_run s t q :
  queue s (t :: q) ->
  exists s' th', dequeue_ready_head s = Ret t s' /\ queue s' q /\ qframe [t] s s' /\
    threads s' !! t = Some th' /\ next th' = NULL.
Proof.
  intros ((Hh & Ht & th & Et & H) & Htl & [Hnin Hnd]%NoDup_cons).
  unfold dequeue_ready_head. rewrite (kbind_ret _ _ s t s) by (unfold kasks; by rewrite Hh).
  destruct (Z.eqb_spec t NULL); [done|].
  rewrite (kbind_ret _ _ _ _ _ (get_thread_run _ _ _ Et)).
  rewrite (kbind_ret _ _ _ tt (set_ready_head (next th) s)) by reflexivity.
  set (s1 := if next th =? NULL then set_ready_tail NULL (set_ready_head (next th) s)
             else set_ready_head (next th) s).
  rewrite (kbind_ret _ _ _ tt s1) by (unfold kwhen, s1; by destruct (next th =? NULL)).
  assert (Et1 : threads s1 !! t = Some th) by (unfold s1; by destruct (next th =? NULL)).
  rewrite (kbind_ret _ _ _ _ _ (upd_thread_run _ _ _ _ Et1)).
  eexists _, (t_set_next NULL th). split; [reflexivity|].
  assert (L : linked [t] (threads s) (<[t := t_set_next NULL th]> (threads s)))
    by (by apply linked_link).
  split_and!.
  - assert (E1 : threads s1 = threads s) by (unfold s1; by destruct (next th =? NULL)).
    split_and!; cbn.
    + rewrite E1. replace (ready_head s1) with (next th)
        by (unfold s1; by destruct (next th =? NULL)).
      eapply linked_segto; [exact L|set_solver|done].
    + unfold s1. destruct q as [|x q].
      * cbn in H. by rewrite H.
      * destruct H as (-> & Hx & _). destruct (Z.eqb_spec x NULL); [done|]. cbn. by rewrite Htl.
    + done.
  - split; cbn; unfold s1; destruct (next th =? NULL); try exact L; by destruct s.
  - cbn. apply lookup_insert_eq.
  - done.
Qed.

Lemma in_ready_run fuel s t q p :
  segto (threads s) p q NULL -> (length q < fuel)%nat -> t <> NULL ->
  in_ready_queue fuel t p s = Ret (bool_decide (t ∈ q)) s.
Proof.
  revert p fuel. induction q as [|x q IH]; intros p fuel H Hf Ht; (destruct fuel as [|fuel]; [cbn in Hf; lia|]).
  - cbn in H. subst p. rewrite bool_decide_false by set_solver. apply kloop_exit. reflexivity.
  - destruct H as (-> & Hx & th & E & H). unfold in_ready_queue.
    destruct (Z.eqb_spec x t) as [->|Hne].
    + rewrite bool_decide_true by set_solver. apply kloop_exit.
      destruct (Z.eqb_spec t NULL); [done|]. by rewrite Z.eqb_refl.
    + rewrite (kloop_next _ _ _ (next th) _ s).
      * unfold in_ready_queue in IH. rewrite IH by (cbn in Hf; done || lia).
        f_equal. apply bool_decide_ext. set_solver.
      * destruct (Z.eqb_spec x NULL); [done|]. destruct (Z.eqb_spec x t); [done|].
        by rewrite (kbind_ret _ _ _ _ _ (get_thread_run _ _ _ E)).
Qed.

(** Unlinking the thread at the walk's [cur]. *)
Lemma unlink_run t pre q th s :
  queue s (pre ++ t :: q) -> t <> NULL -> threads s !! t = Some th ->
  exists s', remove_step t (default NULL (last pre), t) s = Ret (inr tt) s' /\
    queue s' (pre ++ q) /\ qframe (pre ++ t :: q) s s'.
Proof.
  intros (H & Htl & Hnd) Ht E. pose proof Hnd as (Hnd1 & Hnd2 & [Htq Hnd3]%NoDup_cons)%NoDup_app.
  assert (Hnd' : NoDup (pre ++ q)).
  { apply NoDup_app. split_and!; [done| |done]. intros x Hx Hxq. apply (Hnd2 x Hx). set_solver. }
  assert (Htp : t ∉ pre) by (intros Hx; apply (Hnd2 t Hx); set_solver).
  apply segto_app in H as (y & H1 & (-> & _ & th0 & E0 & H2)).
  rewrite E in E0. injection E0 as <-.
  unfold remove_step. destruct (Z.eqb_spec t NULL); [done|]. rewrite Z.eqb_refl.
  rewrite (kbind_ret _ _ _ _ _ (get_thread_run _ _ _ E)).
  assert (exists s1, (if negb (default NULL (last pre) =? NULL)
        then upd_thread (default NULL (last pre)) (t_set_next (next th))
        else kmod (set_ready_head (next th))) s = Ret tt s1 /\
      segto (threads s1) (ready_head s1) pre (next th) /\ segto (threads s1) (next th) q NULL /\
      ready_tail s1 = ready_tail s /\ threads s1 !! t = Some th /\ qframe pre s s1)
    as (s1 & E1 & S1 & S2 & T1 & Et1 & F1).
  { destruct pre as [|l pre _] using rev_ind.
    - exists (set_ready_head (next th) s). cbn in H1. by split_and!; try (split; [|destruct s]).
    - rewrite last_snoc. cbn [from_option id].
      destruct (segto_some _ _ _ _ l H1) as [Hl [thl El]]; [set_solver|].
      destruct (Z.eqb_spec l NULL); [done|]. cbn [negb].
      rewrite (upd_thread_run _ _ _ _ El). eexists. split; [reflexivity|]. cbn.
      assert (L : linked [l] (threads s) (<[l := t_set_next (next th) thl]> (threads s)))
        by by apply linked_link.
      split_and!; [by eapply segto_relink| |done| |].
      + eapply linked_segto; [exact L| |exact H2]. intros x Hx ->%list_elem_of_singleton.
        apply (Hnd2 l); set_solver.
      + rewrite lookup_insert_ne by set_solver. done.
      + split; [|by destruct s]. eapply linked_weaken; [|exact L]. set_solver. }
  rewrite (kbind_ret _ _ _ _ _ E1), (kbind_ret _ _ s1 (ready_tail s) s1)
    by (unfold kasks; by rewrite T1).
  set (s2 := if t =? ready_tail s then set_ready_tail (default NULL (last pre)) s1 else s1).
  rewrite (kbind_ret _ _ s1 tt s2) by (unfold s2, kwhen; by destruct (t =? ready_tail s)).
  assert (Et2 : threads s2 !! t = Some th) by (unfold s2; by destruct (t =? ready_tail s)).
  rewrite (kbind_ret _ _ _ _ _ (upd_thread_run _ _ _ _ Et2)).
  eexists. split; [reflexivity|].
  assert (Ethr : threads s2 = threads s1) by (unfold s2; by destruct (t =? ready_tail s)).
  assert (L2 : linked [t] (threads s2) (<[t := t_set_next NULL th]> (threads s2)))
    by by apply linked_link.
  split.
  - split_and!; cbn; [| |done].
    + apply segto_app. exists (next th). replace (ready_head s2) with (ready_head s1)
        by (unfold s2; by destruct (t =? ready_tail s)).
      split; (eapply linked_segto; [exact L2| |by rewrite Ethr]); set_solver.
    + rewrite last_app, last_cons in Htl. rewrite last_app. unfold s2.
      destruct (last q) as [z|] eqn:Eq; cbn [from_option id] in *; rewrite Htl.
      * assert (z ∈ q) by (apply last_Some in Eq as [? ->]; set_solver).
        destruct (Z.eqb_spec t z) as [->|]; [done|]. by rewrite T1.
      * by rewrite Z.eqb_refl.
  - apply (qframe_weaken (pre ++ [t])); [set_solver|]. eapply qframe_trans; [exact F1|].
    split; cbn; [by rewrite <- Ethr|]. unfold s2. destruct (t =? ready_tail s); by destruct s1.
Qed.

(** The walk of [remove_from_ready_queue], from [pre] on. *)
Lemma remove_loop t q fuel s pre :
  queue s (pre ++ q) -> t <> NULL -> t ∉ pre -> (length q < fuel)%nat ->
  exists s', kloop fuel (remove_step t) (default NULL (last pre), hd NULL q) s = Ret tt s' /\
    queue s' (pre ++ filter (fun x => x <> t) q) /\ qframe (pre ++ q) s s'.
Proof.
  revert fuel pre. induction q as [|x q IH]; intros fuel pre Hq Ht Hpre Hf;
    (destruct fuel as [|fuel]; [cbn in Hf; lia|]).
  - exists s. rewrite app_nil_r in *. split_and!; [by apply kloop_exit|done|apply qframe_refl].
  - pose proof Hq as (H & Htl & Hnd). apply segto_app in H as (y & H1 & (-> & Hx & th & E & H2)).
    pose proof Hnd as (Hnd1 & Hnd2 & [Hxq Hnd3]%NoDup_cons)%NoDup_app. cbn [hd].
    destruct (decide (x = t)) as [->|Hne].
    2:{ destruct (IH fuel (pre ++ [x])) as (s' & E' & Hq' & F').
        { by rewrite <- app_assoc. } { done. } { set_solver. } { cbn in Hf. lia. }
        exists s'. rewrite filter_cons_True by done. rewrite <- app_assoc in Hq', F'.
        split_and!; [|done..].
        rewrite (kloop_next _ _ _ (x, next th) _ s).
        - rewrite last_snoc in E'. cbn [from_option id] in E'. rewrite <- E'. f_equal. f_equal.
          destruct q as [|z q]; [exact H2|]. by destruct H2 as (-> & _).
        - unfold remove_step. destruct (Z.eqb_spec x NULL); [done|].
          destruct (Z.eqb_spec x t); [done|]. by rewrite (kbind_ret _ _ _ _ _ (get_thread_run _ _ _ E)). }
    rewrite filter_cons_False by (intros Hn; by apply Hn).
    rewrite filter_keep by (intros z Hz ->; done).
    set (prev := default NULL (last pre)).
    assert (Hrun : exists s', remove_step t (prev, t) s = Ret (inr tt) s' /\
              queue s' (pre ++ q) /\ qframe (pre ++ t :: q) s s').
    2:{ destruct Hrun as (s' & E' & ?). exists s'. split; [by apply kloop_exit|done]. }
    apply (unlink_run t pre q th s); done.
Qed.

(** ** Under the scheduler's spinlock *)

(** What an operation that takes and gives back the scheduler's spinlock leaves
    alone: the links outside [X], everything else of the threads, and the rest
    of the state, the interrupt flag included. *)
Record sframe (X : list Z) s s' : Prop := {
  sf_linked : linked X (threads s) (threads s');
  sf_lock : schedule_lock s' = Spinlock false (intr s);
  sf_rest : s' = set_threads (threads s') (set_ready_head (ready_head s')
              (set_ready_tail (ready_tail s') (set_schedule_lock (schedule_lock s') s)));
}.

Lemma sframe_trans X Y s1 s2 s3 : sframe X s1 s2 -> sframe Y s2 s3 -> sframe (X ++ Y) s1 s3.
Proof.
  intros [L1 K1 R1] [L2 K2 R2]. split; [by eapply linked_trans|by rewrite K2, R1|].
  rewrite R2, R1. by destruct s1, s2, s3.
Qed.

Lemma sframe_weaken X Y s s' : X ⊆ Y -> sframe X s s' -> sframe Y s s'.
Proof. intros Hs [L K R]. split; [by eapply linked_weaken|done..]. Qed.

(** A thread's own update, then a frame. *)
Lemma sframe_link X s s' t v th :
  threads s !! t = Some th ->
  sframe X (set_threads (<[t := t_set_next v th]> (threads s)) s) s' -> sframe (t :: X) s s'.
Proof.
  intros E [L K R]. split; [|done|].
  - change (t :: X) with ([t] ++ X). eapply linked_trans; [by apply linked_link|exact L].
  - rewrite R. by destruct s.
Qed.

Lemma lock_run s : lock (schedule_lock s) = false ->
  lock_schedule_spin s = Ret tt (locked schedule_spin s).
Proof.
  intros Hl. unfold lock_schedule_spin. rewrite (spinlock_acquire_run schedule_spin).
  change (sl_get schedule_spin s) with (schedule_lock s). by rewrite Hl.
Qed.

Lemma unlock_run X s s1 q :
  qframe X (locked schedule_spin s) s1 -> queue s1 q ->
  exists s', unlock_schedule_spin s1 = Ret tt s' /\ queue s' q /\ sframe X s s'.
Proof.
  intros [L R] Hq. unfold unlock_schedule_spin.
  rewrite (spinlock_release_run schedule_spin) by (rewrite R; by destruct s).
  eexists. split; [reflexivity|]. rewrite R in *. destruct s, s1. by split.
Qed.

Lemma add_to_ready_queue_run fuel s q t th :
  queue s q -> lock (schedule_lock s) = false -> (length q < fuel)%nat ->
  threads s !! t = Some th -> t <> NULL -> state th <> THREAD_TERMED ->
  exists s', add_to_ready_queue fuel t s = Ret tt s' /\
    if decide (t ∈ q) then queue s' q /\ sframe [] s s'
    else queue s' (q ++ [t]) /\
         sframe (t :: q) (set_threads (<[t := t_set_state THREAD_READY th]> (threads s)) s) s'.
Proof.
  intros Hq Hl Hf Et Ht Hst. unfold add_to_ready_queue.
  destruct (Z.eqb_spec t NULL); [done|].
  rewrite (kbind_ret _ _ _ _ _ (get_thread_run _ _ _ Et)).
  destruct (decide (state th = THREAD_TERMED)); [done|].
  rewrite (kbind_ret _ _ _ _ _ (lock_run s Hl)). set (s1 := locked schedule_spin s).
  assert (Hq1 : queue s1 q) by exact Hq.
  rewrite (kbind_ret _ _ s1 (ready_head s) s1) by reflexivity.
  rewrite (kbind_ret _ _ _ _ _ (in_ready_run fuel s1 t q _ (proj1 Hq1) Hf Ht)).
  destruct (decide (t ∈ q)) as [Hin|Hin].
  - rewrite bool_decide_true by done.
    destruct (unlock_run [] s s1 q (qframe_refl _ _) Hq1) as (s' & E & H). by exists s'.
  - rewrite bool_decide_false by done.
    rewrite (kbind_ret _ _ _ _ _ (upd_thread_run s1 t _ th Et)).
    set (th1 := t_set_next NULL th). set (s2 := set_threads _ s1).
    assert (Et2 : threads s2 !! t = Some th1) by apply lookup_insert_eq.
    rewrite (kbind_ret _ _ _ _ _ (upd_thread_run s2 t _ th1 Et2)). cbn [threads s2 set_threads].
    set (s0 := set_threads (<[t := t_set_state THREAD_READY th]> (threads s)) s).
    set (s0' := set_threads (<[t := t_set_next NULL (t_set_state THREAD_READY th)]> (threads s0)) s0).
    replace (set_threads _ s2) with (locked schedule_spin s0')
      by (subst s2 s0 s0'; destruct s; cbn; by rewrite !insert_insert_eq).
    destruct (enqueue_run (locked schedule_spin s0') q t (t_set_next NULL (t_set_state THREAD_READY th)))
      as (s3 & E3 & Hq3 & F3); [|apply lookup_insert_eq|done|done|].
    { eapply list_at_ext; [|exact Hq]. intros x Hx. cbn.
      by rewrite !lookup_insert_ne by (intros <-; done). }
    rewrite (kbind_ret _ _ _ _ _ E3).
    destruct (unlock_run _ s0' s3 _ F3 Hq3) as (s' & E' & Hq' & F').
    exists s'. split_and!; [exact E'|done|].
    apply (sframe_weaken (t :: t :: q)); [set_solver|].
    eapply sframe_link; [|exact F']. apply lookup_insert_eq.
Qed.

Lemma remove_from_ready_queue_run fuel s q t :
  queue s q -> lock (schedule_lock s) = false -> (length q < fuel)%nat -> t <> NULL ->
  exists s', remove_from_ready_queue fuel t s = Ret tt s' /\
    queue s' (filter (fun x => x <> t) q) /\ sframe q s s'.
Proof.
  intros Hq Hl Hf Ht. unfold remove_from_ready_queue. destruct (Z.eqb_spec t NULL); [done|].
  rewrite (kbind_ret _ _ _ _ _ (lock_run s Hl)). set (s1 := locked schedule_spin s).
  rewrite (kbind_ret _ _ s1 (ready_head s) s1) by reflexivity.
  destruct (remove_loop t q fuel s1 []) as (s2 & E2 & Hq2 & F2); [exact Hq|done|set_solver|done|].
  replace (hd NULL q) with (ready_head s) in E2
    by (destruct q as [|x q]; [by destruct Hq|by destruct Hq as ((-> & _) & _)]).
  cbn [last from_option id] in E2. rewrite (kbind_ret _ _ _ _ _ E2).
  by apply unlock_run.
Qed.

(** ** Property *)

End queue.

(** ** Witness: a queue of one thread, and another one *)
Definition two_threads : sched unit :=
  let c := Context_t 0 0 0 0 0 0 0 0 0 0 0 0 0 0 0 0 0 0 0 0 0 0 in
  let t i := Thread i 0 NULL THREAD_READY THREAD_RING_0 THREAD_PRIO_NORMAL c 0 0 0 0 0 0 NULL NULL in
  SchedState (<[101 := t 1]> {[102 := t 2]}) ∅ ∅ (Spinlock false false) 101 101 0 102 [101; 102]
    2 3 [] 0 0 c true tt.

