(* ===== verification/Mutex.v ===== *)
(** * Mutexes: ownership, hand-over and blocking (mutex.c) *)

From S2P Require Import Prelude Console Spinlock Kmem SchedState Sched Queue.
Local Open Scope Z_scope.

(** Evaluate field updates of a mutex. *)
Ltac mutex_cbn :=
  unfold m_set_mlock, m_set_mlocked, m_set_owner, m_set_waiter_head, m_set_waiter_tail,
    m_set_waiter_count;
  cbn [mlock mlocked owner waiter_head waiter_tail waiter_count lock had_interrupt].

Section mutex.
Context {A : Type}.
Implicit Types s : sched A.

Lemma mutex_at_put m v s : mutex_at m (put_mutex m v s) = v.
Proof. unfold mutex_at, put_mutex. cbn. by rewrite lookup_insert_eq. Qed.

Lemma mutex_at_put_ne m m' v s : m <> m' -> mutex_at m' (put_mutex m v s) = mutex_at m' s.
Proof. intros H. unfold mutex_at, put_mutex. cbn. by rewrite lookup_insert_ne. Qed.

Lemma put_mutex_put m v w s : put_mutex m v (put_mutex m w s) = put_mutex m v s.
Proof. unfold put_mutex. destruct s. cbn. by rewrite insert_insert_eq. Qed.

(** The state while the spinlock inside a mutex is held. *)
Lemma mutex_lock_run m s : lock (mlock (mutex_at m s)) = false ->
  spinlock_acquire (mutex_spin m) s
  = Ret tt (set_intr false (put_mutex m (m_set_mlock (Spinlock true (intr s)) (mutex_at m s)) s)).
Proof.
  intros Hl. rewrite (spinlock_acquire_run (mutex_spin m)).
  change (sl_get (mutex_spin m) s) with (mlock (mutex_at m s)). by rewrite Hl.
Qed.

Lemma mutex_unlock_run m s : intr s = false ->
  spinlock_release (mutex_spin m) s
  = Ret tt (set_intr (had_interrupt (mlock (mutex_at m s)))
      (put_mutex m (m_set_mlock (Spinlock false (had_interrupt (mlock (mutex_at m s)))) (mutex_at m s)) s)).
Proof. intros Hi. by rewrite (spinlock_release_run (mutex_spin m)). Qed.

(** The mutex after the current thread has taken it. *)
Definition taken (m : mutex_ref) s : mutex :=
  Mutex (Spinlock false (intr s)) 1 (current_thread s) (waiter_head (mutex_at m s))
    (waiter_tail (mutex_at m s)) (waiter_count (mutex_at m s)).

Lemma acquire_free_depth fuel depth m s :
  lock (mlock (mutex_at m s)) = false -> mlocked (mutex_at m s) = 0 -> (1 <= depth)%nat ->
  acquire_mutex_fuel fuel depth m s = Ret 0 (put_mutex m (taken m s) s).
Proof.
  intros Hl Hz Hf. destruct depth as [|d]; [lia|]. cbn [acquire_mutex_fuel].
  rewrite (kbind_ret _ _ _ _ _ (mutex_lock_run m s Hl)).
  set (s1 := set_intr false _). set (mu := mutex_at m s) in *.
  assert (E1 : mutex_at m s1 = m_set_mlock (Spinlock true (intr s)) mu) by apply mutex_at_put.
  rewrite (kbind_ret _ _ s1 0 s1) by (unfold kasks; rewrite E1; cbn; by rewrite Hz).
  rewrite (kbind_ret _ _ s1 (current_thread s) s1) by reflexivity. cbn [Z.eqb].
  unfold upd_mutex.
  rewrite (kbind_ret _ _ s1 tt (put_mutex m (m_set_mlocked 1 (mutex_at m s1)) s1)) by reflexivity.
  set (s2 := put_mutex m _ s1).
  rewrite (kbind_ret _ _ s2 tt (put_mutex m (m_set_owner (current_thread s) (mutex_at m s2)) s2)) by reflexivity.
  set (s3 := put_mutex m _ s2).
  rewrite (kbind_ret _ _ _ _ _ (mutex_unlock_run m s3 eq_refl)).
  unfold s3, s2. rewrite !mutex_at_put, E1. cbn [mlock had_interrupt m_set_mlocked m_set_owner m_set_mlock].
  unfold mret, K_ret. f_equal. unfold s1, taken. fold mu. destruct s. unfold put_mutex. cbn.
  by rewrite !insert_insert_eq.
Qed.

Lemma acquire_free_run fuel m s :
  lock (mlock (mutex_at m s)) = false -> mlocked (mutex_at m s) = 0 -> (1 <= fuel)%nat ->
  acquire_mutex fuel m s = Ret 0 (put_mutex m (taken m s) s).
Proof. apply acquire_free_depth. Qed.

(** Release by its owner with nobody waiting. *)
Lemma release_idle_run fuel m s :
  lock (mlock (mutex_at m s)) = false -> owner (mutex_at m s) = current_thread s ->
  waiter_head (mutex_at m s) = NULL ->
  release_mutex fuel m s
  = Ret tt (put_mutex m (Mutex (Spinlock false (intr s)) 0 NULL NULL (waiter_tail (mutex_at m s))
                           (waiter_count (mutex_at m s))) s).
Proof.
  intros Hl Ho Hw. unfold release_mutex.
  rewrite (kbind_ret _ _ _ _ _ (mutex_lock_run m s Hl)).
  set (s1 := set_intr false _). set (mu := mutex_at m s) in *.
  assert (E1 : mutex_at m s1 = m_set_mlock (Spinlock true (intr s)) mu) by apply mutex_at_put.
  rewrite (kbind_ret _ _ s1 (current_thread s) s1) by (unfold kasks; rewrite E1; cbn; by rewrite Ho).
  rewrite (kbind_ret _ _ s1 (current_thread s) s1) by reflexivity. rewrite Z.eqb_refl. cbn [negb].
  unfold upd_mutex.
  rewrite (kbind_ret _ _ s1 tt (put_mutex m (m_set_mlocked 0 (mutex_at m s1)) s1)) by reflexivity.
  set (s2 := put_mutex m _ s1).
  rewrite (kbind_ret _ _ s2 tt (put_mutex m (m_set_owner NULL (mutex_at m s2)) s2)) by reflexivity.
  set (s3 := put_mutex m _ s2).
  assert (E3 : mutex_at m s3 = Mutex (Spinlock true (intr s)) 0 NULL NULL (waiter_tail mu) (waiter_count mu)).
  { unfold s3, s2. rewrite !mutex_at_put, E1. mutex_cbn. by rewrite Hw. }
  rewrite (kbind_ret _ _ s3 NULL s3) by (unfold kasks; by rewrite E3).
  change (negb (NULL =? NULL)) with false. cbn [kwhen].
  rewrite (kbind_ret _ _ s3 tt s3) by reflexivity.
  rewrite (mutex_unlock_run m s3 eq_refl), E3. cbn [mlock had_interrupt].
  f_equal. unfold s3, s2, s1. destruct s. unfold put_mutex. cbn. by rewrite !insert_insert_eq.
Qed.

(** A mutex nobody holds or waits for. *)
Record idle (m : mutex_ref) s : Prop := {
  id_lock : lock (mlock (mutex_at m s)) = false;
  id_free : mlocked (mutex_at m s) = 0;
  id_head : waiter_head (mutex_at m s) = NULL;
}.

(** The mutex after a critical section without waiters. *)
Definition rested (m : mutex_ref) s : mutex :=
  Mutex (Spinlock false (intr s)) 0 NULL NULL (waiter_tail (mutex_at m s)) (waiter_count (mutex_at m s)).

(** A critical section that does not touch its own mutex. *)
Lemma mutex_section_run {B} fuel m (f : K (sched A) B) s b s' :
  idle m s -> (1 <= fuel)%nat ->
  f (put_mutex m (taken m s) s) = Ret b s' ->
  mutex_at m s' = taken m s -> current_thread s' = current_thread s -> intr s' = intr s ->
  (acquire_mutex fuel m;; r ← f; release_mutex fuel m;; mret r) s
  = Ret b (put_mutex m (rested m s) s').
Proof.
  intros [Hl Hz Hw] Hf Ef Em Ec Ei.
  rewrite (kbind_ret _ _ _ _ _ (acquire_free_run fuel m s Hl Hz Hf)).
  rewrite (kbind_ret _ _ _ _ _ Ef).
  rewrite (kbind_ret _ _ s' tt (put_mutex m (rested m s) s')); [reflexivity|].
  rewrite release_idle_run; rewrite ?Em; cbn; [by rewrite Ei|done|done|done].
Qed.

Lemma release_not_owner_run fuel m s :
  lock (mlock (mutex_at m s)) = false -> owner (mutex_at m s) <> current_thread s ->
  release_mutex fuel m s
  = Ret tt (put_mutex m (m_set_mlock (Spinlock false (intr s)) (mutex_at m s)) s).
Proof.
  intros Hl Ho. unfold release_mutex.
  rewrite (kbind_ret _ _ _ _ _ (mutex_lock_run m s Hl)).
  set (s1 := set_intr false _). set (mu := mutex_at m s) in *.
  assert (E1 : mutex_at m s1 = m_set_mlock (Spinlock true (intr s)) mu) by apply mutex_at_put.
  rewrite (kbind_ret _ _ s1 (owner mu) s1) by (unfold kasks; by rewrite E1).
  rewrite (kbind_ret _ _ s1 (current_thread s) s1) by reflexivity.
  destruct (Z.eqb_spec (owner mu) (current_thread s)); [done|]. cbn [negb].
  rewrite (mutex_unlock_run m s1 eq_refl), E1. cbn. f_equal.
  unfold s1. destruct s. unfold put_mutex. cbn. by rewrite insert_insert_eq.
Qed.

(** The waiters of a mutex are the list [w]. *)
Definition waiters (m : mutex_ref) s (w : list Z) : Prop :=
  list_at (threads s) (waiter_head (mutex_at m s)) (waiter_tail (mutex_at m s)) w /\
  waiter_count (mutex_at m s) = Z.of_nat (length w).

Lemma list_at_tail mm h l x q : list_at mm h l (x :: q) ->
  h = x /\ x <> NULL /\ x ∉ q /\ exists th, mm !! x = Some th /\
    list_at mm (next th) (if next th =? NULL then NULL else l) q.
Proof.
  intros ((-> & Hx & th & E & H) & Hl & [Hn Hnd]%NoDup_cons).
  split_and!; [done..|]. exists th. split; [done|]. split_and!; [done| |done].
  destruct q as [|y q].
  - cbn in H. by rewrite H.
  - destruct H as (-> & Hy & _). destruct (Z.eqb_spec y NULL); [done|]. exact Hl.
Qed.

(** Release by its owner with waiters: the first one becomes ready. *)
Lemma release_hand_run fuel m s w ws q th :
  lock (mlock (mutex_at m s)) = false -> owner (mutex_at m s) = current_thread s ->
  waiters m s (w :: ws) -> Z.of_nat (length (w :: ws)) < 2 ^ 64 ->
  queue s q -> lock (schedule_lock s) = false -> (length q < fuel)%nat ->
  threads s !! w = Some th -> (forall x, x ∈ w :: ws -> x ∉ q) ->
  exists s', release_mutex fuel m s = Ret tt s' /\ waiters m s' ws /\ queue s' (q ++ [w]) /\
    mlocked (mutex_at m s') = 0 /\ owner (mutex_at m s') = NULL /\
    lock (mlock (mutex_at m s')) = false /\ intr s' = intr s /\
    current_thread s' = current_thread s /\ lock (schedule_lock s') = false /\
    linked (w :: q) (<[w := t_set_state THREAD_READY th]> (threads s)) (threads s').
Proof.
  intros Hl Ho [Hw Hc] Hlen Hq Hsl Hf Et Hd. unfold release_mutex.
  rewrite (kbind_ret _ _ _ _ _ (mutex_lock_run m s Hl)).
  set (s1 := set_intr false _). set (mu := mutex_at m s) in *.
  assert (E1 : mutex_at m s1 = m_set_mlock (Spinlock true (intr s)) mu) by apply mutex_at_put.
  rewrite (kbind_ret _ _ s1 (current_thread s) s1) by (unfold kasks; rewrite E1; cbn; by rewrite Ho).
  rewrite (kbind_ret _ _ s1 (current_thread s) s1) by reflexivity. rewrite Z.eqb_refl. cbn [negb].
  destruct (list_at_tail _ _ _ _ _ Hw) as (Hh & Hwn & Hww & th' & Et' & Hw').
  rewrite Et in Et'. injection Et' as <-.
  unfold upd_mutex.
  rewrite (kbind_ret _ _ s1 tt (put_mutex m (m_set_mlocked 0 (mutex_at m s1)) s1)) by reflexivity.
  set (s2 := put_mutex m _ s1).
  rewrite (kbind_ret _ _ s2 tt (put_mutex m (m_set_owner NULL (mutex_at m s2)) s2)) by reflexivity.
  set (s3 := put_mutex m _ s2).
  assert (E3 : mutex_at m s3 = Mutex (Spinlock true (intr s)) 0 NULL w (waiter_tail mu) (waiter_count mu)).
  { unfold s3, s2. rewrite !mutex_at_put, E1. mutex_cbn. by rewrite Hh. }
  rewrite (kbind_ret _ _ s3 w s3) by (unfold kasks; by rewrite E3).
  destruct (Z.eqb_spec w NULL); [done|]. cbn [negb kwhen].
  set (mu' := Mutex (Spinlock true (intr s)) 0 NULL (next th)
                (if next th =? NULL then NULL else waiter_tail mu) (Z.of_nat (length ws))).
  set (s4 := set_threads (<[w := t_set_state THREAD_READY th]> (threads s)) (put_mutex m mu' s3)).
  destruct (add_to_ready_queue_run fuel s4 q w (t_set_state THREAD_READY th)) as (s5 & E5 & H5).
  { eapply list_at_ext; [|exact Hq]. intros x Hx. cbn.
    rewrite lookup_insert_ne; [done|]. intros <-. apply (Hd w); set_solver. }
  { done. } { done. } { apply lookup_insert_eq. } { done. } { done. }
  rewrite decide_False in H5 by (apply Hd; set_solver). destruct H5 as [Hq5 [L5 K5%(f_equal lock) R5]].
  assert (Em5 : mutex_at m s5 = mu') by (rewrite R5; unfold mutex_at; cbn; by rewrite lookup_insert_eq).
  rewrite (kbind_ret _ _ s3 tt s5).
  - assert (Ei5 : intr s5 = false) by (rewrite R5; reflexivity).
    rewrite (mutex_unlock_run m s5 Ei5), Em5. cbn [mlock had_interrupt mu'].
    eexists. split; [reflexivity|].
    assert (Emf : forall b, mutex_at m (set_intr b (put_mutex m (m_set_mlock (Spinlock false b) mu') s5))
              = m_set_mlock (Spinlock false b) mu') by (intros; apply mutex_at_put).
    split_and!; rewrite ?Emf; try done.
    + split; [|by rewrite Emf]. rewrite Emf. cbn.
      apply (list_at_linked (w :: q) (<[w := t_set_state THREAD_READY th]> (threads s))).
      * revert L5. cbn. by rewrite insert_insert_eq.
      * intros x Hx [->|Hxq]%elem_of_cons; [done|]. apply (Hd x); set_solver.
      * eapply list_at_ext; [|exact Hw']. intros x Hx. by rewrite lookup_insert_ne by (intros <-; done).
    + rewrite R5. reflexivity.
    + revert L5. cbn. by rewrite insert_insert_eq.
  - assert (Et3 : threads s3 !! w = Some th) by exact Et.
    rewrite (kbind_ret _ _ _ _ _ (get_thread_run _ _ _ Et3)).
    rewrite (kbind_ret _ _ s3 tt (put_mutex m (m_set_waiter_head (next th) (mutex_at m s3)) s3)) by reflexivity.
    rewrite E3. cbn [m_set_waiter_head mlock mlocked owner waiter_head waiter_tail waiter_count].
    set (s6 := put_mutex m _ s3).
    set (s7 := put_mutex m (Mutex (Spinlock true (intr s)) 0 NULL (next th)
                (if next th =? NULL then NULL else waiter_tail mu) (waiter_count mu)) s3).
    rewrite (kbind_ret _ _ s6 tt s7).
    2:{ unfold kwhen, s7, s6. destruct (next th =? NULL); [|done].
        unfold kmod. by rewrite mutex_at_put, put_mutex_put. }
    rewrite (kbind_ret _ _ s7 (waiter_count mu) s7) by (unfold kasks, s7; by rewrite mutex_at_put).
    rewrite (kbind_ret _ _ s7 tt (put_mutex m mu' s3)).
    2:{ unfold kmod, s7. rewrite mutex_at_put, put_mutex_put. unfold mu', m_set_waiter_count.
        cbn [mlock mlocked owner waiter_head waiter_tail]. rewrite Hc. cbn [length] in *.
        rewrite Nat2Z.inj_succ in *. unfold Z.succ. by rewrite Z.add_simpl_r, wrap_small by lia. }
    rewrite (kbind_ret _ _ _ tt s4); [exact E5|].
    exact (upd_thread_run (put_mutex m mu' s3) w _ th Et).
Qed.

(** ** Waiting *)

Lemma enqueue_waiter_run m s c thc w :
  waiters m s w -> threads s !! c = Some thc -> c <> NULL -> c ∉ w ->
  Z.of_nat (length w) + 1 < 2 ^ 64 ->
  exists s', enqueue_waiter m c s = Ret tt s' /\ waiters m s' (w ++ [c]) /\
    linked (c :: w) (<[c := t_set_state THREAD_BLOCKED thc]> (threads s)) (threads s') /\
    s' = put_mutex m (mutex_at m s') (set_threads (threads s') s) /\
    mlock (mutex_at m s') = mlock (mutex_at m s) /\
    mlocked (mutex_at m s') = mlocked (mutex_at m s) /\ owner (mutex_at m s') = owner (mutex_at m s).
Proof.
  intros [Hw Hc] Et Hcn Hcw Hlen. unfold enqueue_waiter.
  rewrite (kbind_ret _ _ _ _ _ (upd_thread_run s c _ thc Et)).
  set (th1 := t_set_state THREAD_BLOCKED thc).
  set (s1 := set_threads (<[c := th1]> (threads s)) s).
  assert (E1 : threads s1 !! c = Some th1) by apply lookup_insert_eq.
  rewrite (kbind_ret _ _ _ _ _ (upd_thread_run s1 c _ th1 E1)).
  set (m2 := <[c := t_set_next NULL th1]> (threads s1)). set (s2 := set_threads m2 s1).
  assert (L12 : linked [c] (threads s1) m2) by by apply linked_link.
  set (mu := mutex_at m s) in *. assert (Em : mutex_at m s2 = mu) by reflexivity.
  assert (Hw2 : list_at m2 (waiter_head mu) (waiter_tail mu) w).
  { eapply list_at_ext; [|exact Hw]. intros x Hx. unfold m2, s1. cbn [threads set_threads].
    by rewrite !lookup_insert_ne by (intros <-; done). }
  rewrite (kbind_ret _ _ s2 (waiter_tail mu) s2) by (unfold kasks; by rewrite Em).
  unfold upd_mutex. destruct w as [|l w _] using rev_ind.
  - destruct Hw as (Hh & Htl & _). cbn in Hh, Htl. rewrite Htl.
    change (negb (NULL =? NULL)) with false. cbv iota.
    set (s3 := put_mutex m (m_set_waiter_head c (m_set_waiter_tail c mu)) s2).
    rewrite (kbind_ret _ _ s2 tt s3).
    2:{ unfold kmod, mbind, K_bind. unfold s3. by rewrite mutex_at_put, put_mutex_put, Em. }
    rewrite (kbind_ret _ _ s3 (waiter_count mu) s3) by (unfold kasks, s3; by rewrite mutex_at_put).
    eexists. split; [reflexivity|]. unfold s3. rewrite !mutex_at_put, put_mutex_put. mutex_cbn.
    refine (conj _ (conj _ (conj _ (conj _ (conj _ _))))); try reflexivity.
    + split; rewrite mutex_at_put; mutex_cbn.
      * split_and!; [|done|apply NoDup_singleton]. cbn. split_and!; [done..|].
        exists (t_set_next NULL th1). split; [apply lookup_insert_eq|done].
      * rewrite Hc. reflexivity.
    + unfold s2, s1. by destruct s.
  - destruct (segto_some _ _ _ _ l (proj1 Hw2)) as [Hl [thl El]]; [set_solver|].
    pose proof Hw as (_ & Htl & Hnd). rewrite last_snoc in Htl. cbn in Htl. rewrite Htl.
    destruct (Z.eqb_spec l NULL); [done|]. cbn [negb].
    set (m3 := <[l := t_set_next c thl]> m2).
    set (s3 := put_mutex m (m_set_waiter_tail c mu) (set_threads m3 s2)).
    rewrite (kbind_ret _ _ s2 tt s3).
    2:{ rewrite (kbind_ret _ _ _ _ _ (upd_thread_run s2 l _ thl El)). reflexivity. }
    rewrite (kbind_ret _ _ s3 (waiter_count mu) s3) by (unfold kasks, s3; by rewrite mutex_at_put).
    eexists. split; [reflexivity|]. unfold s3. rewrite !mutex_at_put, put_mutex_put. mutex_cbn.
    refine (conj _ (conj _ (conj _ (conj _ (conj _ _))))); try reflexivity.
    + split; rewrite mutex_at_put; mutex_cbn.
      * split_and!; [|by rewrite last_snoc|].
        -- apply segto_snoc; try done; [apply Hw2|]. exists (t_set_next NULL th1).
           split; [apply lookup_insert_eq|done].
        -- apply NoDup_app. split_and!; [done|set_solver|apply NoDup_singleton].
      * rewrite Hc, !length_app, wrap_small by (rewrite length_app in Hlen; cbn in *; lia).
        cbn. lia.
    + eapply linked_weaken; [|eapply linked_trans; [exact L12|by apply linked_link]]. set_solver.
Qed.

(** The thread of a number, as [thread_from_tid] finds it. *)
Fixpoint tid_lookup (m : gmap Z thread) (table : list Z) (i : Z) : Z :=
  match table with
  | [] => NULL
  | t :: rest =>
      if t =? NULL then tid_lookup m rest i else
      match m !! t with
      | Some th => if tid th =? i then t else tid_lookup m rest i
      | None => NULL
      end
  end.

(** Every used slot of a table holds a live object. *)
Definition table_live {X} (m : gmap Z X) (table : list Z) : Prop :=
  forall t, t ∈ table -> t = NULL \/ is_Some (m !! t).

Lemma thread_from_tid_run s i :
  table_live (threads s) (thread_table s) ->
  thread_from_tid i s = Ret (tid_lookup (threads s) (thread_table s) i) s.
Proof.
  unfold thread_from_tid. rewrite (kbind_ret _ _ s (thread_table s) s) by reflexivity.
  induction (thread_table s) as [|t r IH]; intros Hl; [done|]. cbn [find_tid tid_lookup].
  assert (Hr : table_live (threads s) r) by (intros x Hx; apply Hl; set_solver).
  destruct (Z.eqb_spec t NULL); [by apply IH|].
  destruct (Hl t) as [|[th E]]; [set_solver|done|]. rewrite E.
  rewrite (kbind_ret _ _ _ _ _ (get_thread_run _ _ _ E)).
  destruct (tid th =? i); [done|by apply IH].
Qed.

Lemma tid_lookup_ext (m m' : gmap Z thread) table i :
  (forall t, tid <$> m' !! t = tid <$> m !! t) -> tid_lookup m' table i = tid_lookup m table i.
Proof.
  intros Hx. induction table as [|t r IH]; [done|]. cbn [tid_lookup]. specialize (Hx t).
  destruct (t =? NULL); [done|]. destruct (m !! t), (m' !! t); try done.
  injection Hx as ->. by destruct (_ =? _).
Qed.

Lemma strip_tid (m m' : gmap Z thread) : strip <$> m' = strip <$> m ->
  forall t, tid <$> m' !! t = tid <$> m !! t.
Proof.
  intros E t. pose proof (f_equal (fun x => tid <$> x !! t) E) as H. cbn beta in H.
  rewrite !lookup_fmap in H. by destruct (m !! t), (m' !! t).
Qed.

Lemma insert_tid (m : gmap Z thread) c th th' : m !! c = Some th -> tid th' = tid th ->
  forall t, tid <$> <[c := th']> m !! t = tid <$> m !! t.
Proof. intros E Et t. rewrite lookup_insert. case_decide; [subst; rewrite E; cbn; by f_equal|done]. Qed.

(** A table whose threads have other links is as live as before. *)
Lemma table_live_ext (m m' : gmap Z thread) table :
  (forall t, tid <$> m' !! t = tid <$> m !! t) -> table_live m table -> table_live m' table.
Proof.
  intros Hx Hl t Ht. destruct (Hl t Ht) as [|[th E]]; [by left|right].
  specialize (Hx t). rewrite E in Hx. by destruct (m' !! t).
Qed.

(** [thread_block] on a live thread other than the kernel's, when the thread
    table's mutex is idle. *)
Lemma thread_block_run {B} fuel depth s q t th :
  idle ThreadMutex s -> (1 <= depth)%nat ->
  table_live (threads s) (thread_table s) ->
  tid_lookup (threads s) (thread_table s) (tid th) = t -> threads s !! t = Some th ->
  t <> NULL -> tid th <> 0 ->
  queue s q -> lock (schedule_lock s) = false -> (length q < fuel)%nat ->
  exists s', @thread_block_with A fuel B (acquire_mutex_fuel fuel depth) (tid th) s = Stop Trapped s' /\
    queue s' (filter (fun x => x <> t) q) /\
    linked q (<[t := t_set_state THREAD_BLOCKED th]> (threads s)) (threads s') /\
    (forall m, m <> ThreadMutex -> mutex_at m s' = mutex_at m s) /\ idle ThreadMutex s' /\
    intr s' = intr s /\ current_thread s' = current_thread s /\ lock (schedule_lock s') = false.
Proof.
  intros Hid Hf Htab Elk Et Ht Hid0 Hq Hsl Hfq. unfold thread_block_with.
  pose proof Hid as [I1 I2 I3]. set (m0 := ThreadMutex).
  set (s1 := put_mutex m0 (taken m0 s) s). set (s2 := put_mutex m0 (rested m0 s) s).
  rewrite (kbind_ret _ _ _ _ _ (acquire_free_depth fuel depth m0 s I1 I2 Hf)). fold s1.
  rewrite (kbind_ret _ _ s1 t s1) by (rewrite <- Elk; exact (thread_from_tid_run s1 (tid th) Htab)).
  rewrite (kbind_ret _ _ s1 tt s2).
  2:{ unfold s2. rewrite (release_idle_run fuel m0 s1); unfold s1; rewrite ?mutex_at_put;
        [by rewrite put_mutex_put|done..]. }
  destruct (Z.eqb_spec t NULL); [done|].
  assert (Et2 : threads s2 !! t = Some th) by exact Et.
  rewrite (kbind_ret _ _ _ _ _ (get_thread_run _ _ _ Et2)).
  destruct (Z.eqb_spec (tid th) 0); [done|].
  rewrite (kbind_ret _ _ _ _ _ (upd_thread_run s2 t _ th Et2)). set (s3 := set_threads _ s2).
  destruct (remove_from_ready_queue_run fuel s3 q t) as (s4 & E4 & Hq4 & [L4 K4%(f_equal lock) R4]);
    [|exact Hsl|exact Hfq|exact Ht|].
  { eapply list_at_ext; [|exact Hq]. intros x _. cbn. rewrite lookup_insert.
    case_decide; [subst; by rewrite Et|done]. }
  rewrite (kbind_ret _ _ _ _ _ E4). exists s4.
  assert (Em : forall m, mutex_at m s4 = mutex_at m s2) by (intros m; by rewrite R4).
  refine (conj _ (conj Hq4 (conj L4 (conj _ (conj _ (conj _ (conj _ K4))))))).
  - reflexivity.
  - intros m Hm. rewrite Em. unfold s2. by rewrite mutex_at_put_ne.
  - split; rewrite Em; unfold s2; by rewrite mutex_at_put.
  - by rewrite R4.
  - by rewrite R4.
Qed.

(** A contended mutex other than the thread table's. *)
Lemma acquire_taken_run fuel m s w q c thc :
  lock (mlock (mutex_at m s)) = false -> mlocked (mutex_at m s) <> 0 -> m <> ThreadMutex ->
  idle ThreadMutex s -> waiters m s w -> Z.of_nat (length w) + 1 < 2 ^ 64 ->
  current_thread s = c -> c <> NULL -> threads s !! c = Some thc -> tid thc <> 0 ->
  table_live (threads s) (thread_table s) ->
  tid_lookup (threads s) (thread_table s) (tid thc) = c ->
  queue s q -> lock (schedule_lock s) = false -> (length q < fuel)%nat ->
  c ∉ w -> c ∉ q -> (forall x, x ∈ w -> x ∉ q) ->
  exists s', acquire_mutex (Datatypes.S fuel) m s = Stop Trapped s' /\
    waiters m s' (w ++ [c]) /\ queue s' q /\
    state <$> threads s' !! c = Some THREAD_BLOCKED /\
    owner (mutex_at m s') = owner (mutex_at m s) /\ mlocked (mutex_at m s') = mlocked (mutex_at m s) /\
    intr s' = intr s /\ current_thread s' = c /\ lock (schedule_lock s') = false.
Proof.
  intros Hl Hz Hm Hid Hw Hlen Hc Hcn Et Htid Htab Elk Hq Hsl Hf Hcw Hcq Hd.
  unfold acquire_mutex. cbn [acquire_mutex_fuel].
  rewrite (kbind_ret _ _ _ _ _ (mutex_lock_run m s Hl)).
  set (s1 := set_intr false _). set (mu := mutex_at m s) in *.
  assert (E1 : mutex_at m s1 = m_set_mlock (Spinlock true (intr s)) mu) by apply mutex_at_put.
  rewrite (kbind_ret _ _ s1 (mlocked mu) s1) by (unfold kasks; by rewrite E1).
  rewrite (kbind_ret _ _ s1 c s1) by (unfold kasks; cbn; by rewrite Hc).
  destruct (Z.eqb_spec (mlocked mu) 0); [done|].
  destruct (enqueue_waiter_run m s1 c thc w) as (s2 & E2 & Hw2 & L2 & R2 & M1 & M2 & M3);
    [|exact Et|exact Hcn|exact Hcw|exact Hlen|].
  { destruct Hw as [Hw Hcount]. split; rewrite E1; mutex_cbn; done. }
  rewrite (kbind_ret _ _ _ _ _ E2).
  rewrite E1 in M1, M2, M3.
  assert (Ei2 : intr s2 = false) by (by rewrite R2).
  rewrite (kbind_ret _ _ _ _ _ (mutex_unlock_run m s2 Ei2)). rewrite M1. mutex_cbn.
  set (s3 := set_intr (intr s) _).
  assert (Em3 : mutex_at m s3 = Mutex (Spinlock false (intr s)) (mlocked (mutex_at m s2))
      (owner (mutex_at m s2)) (waiter_head (mutex_at m s2)) (waiter_tail (mutex_at m s2))
      (waiter_count (mutex_at m s2))) by exact (mutex_at_put m _ s2).
  assert (Eth : threads s3 = threads s2) by reflexivity.
  destruct (linked_lookup _ _ _ c (t_set_state THREAD_BLOCKED thc) L2 (lookup_insert_eq _ _ _))
    as (th3 & Et3 & Es3).
  assert (Hst3 : state th3 = THREAD_BLOCKED) by exact (f_equal state Es3).
  assert (Hti3 : tid th3 = tid thc) by exact (f_equal tid Es3).
  rewrite (kbind_ret _ _ s3 th3 s3) by exact (get_thread_run s3 c th3 Et3).
  assert (Htids : forall t, tid <$> threads s3 !! t = tid <$> threads s !! t).
  { intros t. rewrite Eth, (strip_tid _ _ (lk_strip _ _ _ L2)). by apply (insert_tid _ _ thc). }
  assert (Etab : thread_table s3 = thread_table s) by (unfold s3; by rewrite R2).
  assert (Hq3 : queue s3 q).
  { unfold queue. replace (ready_head s3) with (ready_head s) by (unfold s3; by rewrite R2).
    replace (ready_tail s3) with (ready_tail s) by (unfold s3; by rewrite R2).
    apply (list_at_linked _ _ _ _ _ _ L2).
    - intros x Hx [->|Hxw]%elem_of_cons; [done|]. by apply (Hd x).
    - eapply list_at_ext; [|exact Hq]. intros x Hx. rewrite lookup_insert_ne; [done|by intros <-]. }
  destruct (@thread_block_run Z (Datatypes.S fuel) fuel s3 q c th3)
    as (s4 & E4 & Hq4 & L4 & O4 & _ & I4 & C4 & K4); try done.
  { destruct Hid as [J1 J2 J3].
    assert (Et0 : mutex_at ThreadMutex s3 = mutex_at ThreadMutex s).
    { transitivity (mutex_at ThreadMutex s2); [exact (mutex_at_put_ne m ThreadMutex _ s2 Hm)|].
      rewrite R2, (mutex_at_put_ne m ThreadMutex) by exact Hm.
      exact (mutex_at_put_ne m ThreadMutex _ s Hm). }
    by split; rewrite Et0. }
  { lia. }
  { rewrite Etab. by eapply table_live_ext. }
  { rewrite Etab, Hti3, <- Elk. by apply tid_lookup_ext. }
  { by rewrite Hti3. }
  { unfold s3. by rewrite R2. }
  { lia. }
  exists s4. rewrite filter_keep in Hq4 by (intros z Hzq ->; done).
  rewrite (O4 m Hm), Em3. mutex_cbn.
  refine (conj E4 (conj _ (conj Hq4 (conj _ (conj M3 (conj M2 (conj I4 (conj _ K4)))))))).
  - destruct Hw2 as [Hw2 Hc2]. split; rewrite (O4 m Hm), Em3; mutex_cbn; [|exact Hc2].
    apply (list_at_linked _ _ _ _ _ _ L4).
    + intros x [Hx| ->%list_elem_of_singleton]%elem_of_app; [by apply Hd|done].
    + eapply list_at_ext; [|exact Hw2]. intros x _. rewrite lookup_insert.
      case_decide; [subst; by rewrite Et3|by rewrite Eth].
  - destruct (linked_lookup _ _ _ c (t_set_state THREAD_BLOCKED th3) L4 (lookup_insert_eq _ _ _))
      as (th4 & Et4 & Es4). rewrite Et4. cbn. f_equal. exact (f_equal state Es4).
  - rewrite C4. unfold s3. by rewrite R2.
Qed.

(** The call of [thread_block] in which a contended mutex ends: the caller is
    the last waiter, the other mutexes are as before. *)
Lemma contended_run fuel depth m s :
  lock (mlock (mutex_at m s)) = false -> mlocked (mutex_at m s) <> 0 ->
  is_Some (threads s !! current_thread s) ->
  (waiter_tail (mutex_at m s) = NULL \/ is_Some (threads s !! waiter_tail (mutex_at m s))) ->
  exists i s3, acquire_mutex_fuel fuel (Datatypes.S depth) m s
      = thread_block_with fuel (acquire_mutex_fuel fuel depth) i s3 /\
    lock (mlock (mutex_at m s3)) = false /\ mlocked (mutex_at m s3) = mlocked (mutex_at m s) /\
    waiter_tail (mutex_at m s3) = current_thread s /\ current_thread s3 = current_thread s /\
    (forall x, is_Some (threads s !! x) -> is_Some (threads s3 !! x)) /\
    forall m', m' <> m -> mutex_at m' s3 = mutex_at m' s.
Proof.
  intros Hl Hz [thc Ec] Ht. cbn [acquire_mutex_fuel].
  rewrite (kbind_ret _ _ _ _ _ (mutex_lock_run m s Hl)).
  set (s1 := set_intr false _). set (mu := mutex_at m s) in *. set (c := current_thread s) in *.
  assert (E1 : mutex_at m s1 = m_set_mlock (Spinlock true (intr s)) mu) by apply mutex_at_put.
  rewrite (kbind_ret _ _ s1 (mlocked mu) s1) by (unfold kasks; by rewrite E1).
  rewrite (kbind_ret _ _ s1 c s1) by reflexivity.
  destruct (Z.eqb_spec (mlocked mu) 0); [done|].
  assert (exists m2 mu2, enqueue_waiter m c s1 = Ret tt (put_mutex m mu2 (set_threads m2 s1)) /\
    mlock mu2 = Spinlock true (intr s) /\ mlocked mu2 = mlocked mu /\ waiter_tail mu2 = c /\
    forall x, is_Some (threads s !! x) -> is_Some (m2 !! x)) as (m2 & mu2 & E2 & M1 & M2 & M3 & Hlive).
  { unfold enqueue_waiter. rewrite (kbind_ret _ _ _ _ _ (upd_thread_run s1 c _ thc Ec)).
    set (th1 := t_set_state _ thc). set (s2 := set_threads _ s1).
    rewrite (kbind_ret _ _ _ _ _ (upd_thread_run s2 c _ th1 (lookup_insert_eq _ _ _))).
    set (s3 := set_threads _ s2).
    assert (Hs3 : forall x, is_Some (threads s !! x) -> is_Some (threads s3 !! x)).
    { intros x Hx. cbn. rewrite !lookup_insert. repeat case_decide; eauto. }
    rewrite (kbind_ret _ _ s3 (waiter_tail mu) s3)
      by (unfold kasks; change (mutex_at m s3) with (mutex_at m s1); by rewrite E1).
    unfold upd_mutex. destruct (Z.eqb_spec (waiter_tail mu) NULL) as [En|Hne]; cbn [negb].
    - eexists (threads s3), _. split; [unfold kmod, mbind, K_bind, kasks;
        rewrite !put_mutex_put; reflexivity|].
      change (mutex_at m s3) with (mutex_at m s1). rewrite !mutex_at_put, E1. mutex_cbn.
      split_and!; done.
    - destruct Ht as [|Ht]; [done|]. destruct (Hs3 _ Ht) as [tht' Et'].
      rewrite (kbind_ret _ _ _ tt (put_mutex m (m_set_waiter_tail c (mutex_at m s1))
                (set_threads (<[waiter_tail mu := t_set_next c tht']> (threads s3)) s3))).
      2:{ rewrite (kbind_ret _ _ _ _ _ (upd_thread_run s3 _ _ _ Et')). reflexivity. }
      eexists _, _. split; [unfold kmod, mbind, K_bind, kasks; rewrite !put_mutex_put; reflexivity|].
      rewrite !mutex_at_put, E1. mutex_cbn. split_and!; [done..|].
      intros x Hx. rewrite lookup_insert. case_decide; [eauto|by apply Hs3]. }
  rewrite (kbind_ret _ _ _ _ _ E2). set (s2 := put_mutex m mu2 _).
  assert (Em2 : mutex_at m s2 = mu2) by apply mutex_at_put.
  rewrite (kbind_ret _ _ _ _ _ (mutex_unlock_run m s2 eq_refl)). rewrite Em2, M1. mutex_cbn.
  set (s3 := set_intr (intr s) _).
  assert (Em3 : mutex_at m s3 = Mutex (Spinlock false (intr s)) (mlocked mu2) (owner mu2)
    (waiter_head mu2) (waiter_tail mu2) (waiter_count mu2)) by exact (mutex_at_put m _ s2).
  destruct (Hlive c ltac:(by eexists)) as [th2 Et2].
  rewrite (kbind_ret _ _ s3 th2 s3) by exact (get_thread_run s3 c th2 Et2).
  exists (tid th2), s3. split; [reflexivity|]. rewrite Em3. split_and!; [done|by rewrite M2|by rewrite M3|done|done|].
  intros m' Hm. transitivity (mutex_at m' s2); [exact (mutex_at_put_ne m m' _ s2 (not_eq_sym Hm))|].
  transitivity (mutex_at m' s1); [exact (mutex_at_put_ne m m' _ (set_threads m2 s1) (not_eq_sym Hm))|].
  exact (mutex_at_put_ne m m' _ s (not_eq_sym Hm)).
Qed.

(** A contended thread-table mutex: every nested call of [thread_block] asks
    for it again. *)
Lemma thread_mutex_recursion depth : forall s,
  lock (mlock (mutex_at ThreadMutex s)) = false -> mlocked (mutex_at ThreadMutex s) <> 0 ->
  is_Some (threads s !! current_thread s) ->
  (waiter_tail (mutex_at ThreadMutex s) = NULL \/
   is_Some (threads s !! waiter_tail (mutex_at ThreadMutex s))) ->
  forall fuel, exists s', acquire_mutex_fuel fuel depth ThreadMutex s = Stop OutOfFuel s'.
Proof.
  induction depth as [|depth IH]; intros s Hl Hz Hc Ht fuel; [by eexists|].
  destruct (contended_run fuel depth ThreadMutex s Hl Hz Hc Ht) as (i & s3 & E & L3 & Z3 & T3 & C3 & H3 & _).
  destruct (IH s3) with (fuel := fuel) as (s' & E'); [done|by rewrite Z3|rewrite C3; by apply H3| |].
  - right. rewrite T3. by apply H3.
  - exists s'. rewrite E. unfold thread_block_with. by rewrite (kbind_stop _ _ _ _ _ E').
Qed.

(** ** Properties *)

(** Acquiring an idle mutex makes the current thread its owner and gives
    the interrupt flag back; a release by any other thread changes nothing but
    the saved flag; the owner's release makes the mutex idle again and leaves
    the rest of the kernel's state as it was before the acquire. *)
Theorem mutex_ownership fuel m s (Hidle : idle m s) (Hfuel : (1 <= fuel)%nat) :
  exists s1 s2, acquire_mutex fuel m s = Ret 0 s1 /\
    owner (mutex_at m s1) = current_thread s /\ mlocked (mutex_at m s1) = 1 /\ intr s1 = intr s /\
    (forall c, c <> current_thread s ->
       exists s3, release_mutex fuel m (set_current_thread c s1) = Ret tt s3 /\
         mutex_at m s3 = mutex_at m s1 /\ intr s3 = intr s) /\
    release_mutex fuel m s1 = Ret tt s2 /\ idle m s2 /\
    s2 = put_mutex m (rested m s) s.
Proof.
  destruct Hidle as [Hl Hz Hw]. exists (put_mutex m (taken m s) s), (put_mutex m (rested m s) s).
  rewrite mutex_at_put.
  refine (conj (acquire_free_run fuel m s Hl Hz Hfuel)
            (conj eq_refl (conj eq_refl (conj eq_refl (conj _ (conj _ (conj _ eq_refl))))))).
  - intros c Hc. eexists. split; [apply release_not_owner_run|split].
    + exact (f_equal (fun x => lock (mlock x)) (mutex_at_put m (taken m s) s)).
    + intros E. apply Hc. transitivity (owner (mutex_at m (put_mutex m (taken m s) s)));
        [symmetry; exact E|by rewrite mutex_at_put].
    + rewrite mutex_at_put. exact (f_equal (m_set_mlock _) (mutex_at_put m (taken m s) s)).
    + done.
  - rewrite release_idle_run; rewrite ?mutex_at_put; [by rewrite put_mutex_put|done|done|done].
  - by split; rewrite mutex_at_put.
Qed.

(** C35: a release by the owner with waiters frees the mutex and moves exactly
    the waiter that came first to the end of the ready queue, READY; the other
    waiters keep their order, no thread is lost or duplicated, and nothing but
    links and that one state changes in the threads. *)
Theorem release_mutex_wakes_first fuel m s w ws q th
    (Hlock : lock (mlock (mutex_at m s)) = false) (Howner : owner (mutex_at m s) = current_thread s)
    (Hwaiters : waiters m s (w :: ws)) (Hcount : Z.of_nat (length (w :: ws)) < 2 ^ 64)
    (Hqueue : queue s q) (Hspin : lock (schedule_lock s) = false) (Hfuel : (length q < fuel)%nat)
    (Hth : threads s !! w = Some th) (Hdisj : forall x, x ∈ w :: ws -> x ∉ q) :
  exists s', release_mutex fuel m s = Ret tt s' /\ waiters m s' ws /\ queue s' (q ++ [w]) /\
    mlocked (mutex_at m s') = 0 /\ owner (mutex_at m s') = NULL /\
    lock (mlock (mutex_at m s')) = false /\ intr s' = intr s /\
    current_thread s' = current_thread s /\ lock (schedule_lock s') = false /\
    linked (w :: q) (<[w := t_set_state THREAD_READY th]> (threads s)) (threads s').
Proof. by apply release_hand_run. Qed.

(** A thread that asks for a mutex another one holds goes to the end of
    the mutex's waiters, BLOCKED and in no ready queue, traps to the scheduler
    with its interrupt flag restored, and leaves the owner alone. *)
Theorem acquire_mutex_blocks fuel m s w q c thc
    (Hlock : lock (mlock (mutex_at m s)) = false) (Htaken : mlocked (mutex_at m s) <> 0)
    (Hm : m <> ThreadMutex) (Hidle : idle ThreadMutex s)
    (Hwaiters : waiters m s w) (Hcount : Z.of_nat (length w) + 1 < 2 ^ 64)
    (Hcur : current_thread s = c) (Hc : c <> NULL) (Hthc : threads s !! c = Some thc)
    (Htid : tid thc <> 0) (Htable : table_live (threads s) (thread_table s))
    (Hlook : tid_lookup (threads s) (thread_table s) (tid thc) = c)
    (Hqueue : queue s q) (Hspin : lock (schedule_lock s) = false) (Hfuel : (length q < fuel)%nat)
    (Hcw : c ∉ w) (Hcq : c ∉ q) (Hdisj : forall x, x ∈ w -> x ∉ q) :
  exists s', acquire_mutex (Datatypes.S fuel) m s = Stop Trapped s' /\
    waiters m s' (w ++ [c]) /\ queue s' q /\
    state <$> threads s' !! c = Some THREAD_BLOCKED /\
    owner (mutex_at m s') = owner (mutex_at m s) /\ mlocked (mutex_at m s') = mlocked (mutex_at m s) /\
    intr s' = intr s /\ current_thread s' = c /\ lock (schedule_lock s') = false.
Proof. by apply acquire_taken_run with thc. Qed.

(** When the mutex of the thread table itself is held, acquiring it calls
    [thread_block], which acquires it again, and so on: whatever the depth
    allowed, the call runs out of it.  In the kernel it overflows the stack. *)
Theorem contended_thread_mutex_recurses fuel s
    (Hlock : lock (mlock (mutex_at ThreadMutex s)) = false)
    (Htaken : mlocked (mutex_at ThreadMutex s) <> 0)
    (Hcur : is_Some (threads s !! current_thread s))
    (Htail : waiter_tail (mutex_at ThreadMutex s) = NULL \/
             is_Some (threads s !! waiter_tail (mutex_at ThreadMutex s))) :
  exists s', acquire_mutex fuel ThreadMutex s = Stop OutOfFuel s'.
Proof. by apply thread_mutex_recursion. Qed.
End mutex.

(** ** Witnesses: three threads, the second one running *)

Definition demo_thread (i : Z) (st : thread_state_t) (nxt : Z) : thread :=
  Thread i 0 NULL st THREAD_RING_0 THREAD_PRIO_NORMAL
    (Context_t 0 0 0 0 0 0 0 0 0 0 0 0 0 0 0 0 0 0 0 0 0 0) 0 TSTACK_SIZE 0 0 0 0 NULL nxt.

(** The kernel thread 100 and the running thread 101; thread 102 is ready and
    103 waits for the mutex of process 200, which [own] holds. *)
Definition demo_with {A} (k : A) (own : Z) : sched A :=
  SchedState
    (<[100 := demo_thread 0 THREAD_READY NULL]> (<[101 := demo_thread 1 THREAD_RUNNING NULL]>
      (<[102 := demo_thread 2 THREAD_READY NULL]> {[103 := demo_thread 3 THREAD_BLOCKED NULL]})))
    ∅ {[ProcLock 200 := Mutex (Spinlock false false) 1 own 103 103 1]}
    (Spinlock false false) 102 102 0 101 [100; 101; 102; 103] 4 4 [] 0 0
    (Context_t 0 0 0 0 0 0 0 0 0 0 0 0 0 0 0 0 0 0 0 0 0 0) true k.
Abbreviation demo_sched := (demo_with tt).

Lemma demo_queue {A} (k : A) own : queue (demo_with k own) [102].
Proof.
  split_and!; [|done|apply NoDup_singleton]. split_and!; [done..|].
  eexists. split; [reflexivity|done].
Qed.

Lemma demo_waiters {A} (k : A) own : waiters (ProcLock 200) (demo_with k own) [103].
Proof.
  split; [|done]. split_and!; [|done|apply NoDup_singleton]. split_and!; [done..|].
  eexists. split; [reflexivity|done].
Qed.

Lemma mutex_ownership_witness :
  exists s1 s2, acquire_mutex 1 ThreadMutex (demo_sched 101) = Ret 0 s1 /\
    owner (mutex_at ThreadMutex s1) = 101 /\ mlocked (mutex_at ThreadMutex s1) = 1 /\ intr s1 = true /\
    (forall c, c <> 101 ->
       exists s3, release_mutex 1 ThreadMutex (set_current_thread c s1) = Ret tt s3 /\
         mutex_at ThreadMutex s3 = mutex_at ThreadMutex s1 /\ intr s3 = true) /\
    release_mutex 1 ThreadMutex s1 = Ret tt s2 /\ idle ThreadMutex s2 /\
    s2 = put_mutex ThreadMutex (rested ThreadMutex (demo_sched 101)) (demo_sched 101).
Proof. apply (mutex_ownership 1 ThreadMutex (demo_sched 101)); [by split|lia]. Defined.

Lemma release_mutex_wakes_first_witness :
  exists s', release_mutex 2 (ProcLock 200) (demo_sched 101) = Ret tt s' /\
    waiters (ProcLock 200) s' [] /\ queue s' ([102] ++ [103]) /\
    mlocked (mutex_at (ProcLock 200) s') = 0 /\ owner (mutex_at (ProcLock 200) s') = NULL /\
    lock (mlock (mutex_at (ProcLock 200) s')) = false /\ intr s' = true /\
    current_thread s' = 101 /\ lock (schedule_lock s') = false /\
    linked [103; 102] (<[103 := t_set_state THREAD_READY (demo_thread 3 THREAD_BLOCKED NULL)]>
      (threads (demo_sched 101))) (threads s').
Proof.
  apply (release_mutex_wakes_first 2 (ProcLock 200) (demo_sched 101) 103 [] [102]);
    [done|done|apply demo_waiters|done|apply demo_queue|done|cbn; lia|done|].
  intros x ->%list_elem_of_singleton Hx%list_elem_of_singleton. discriminate Hx.
Defined.

Lemma acquire_mutex_blocks_witness :
  exists s', acquire_mutex 3 (ProcLock 200) (demo_sched 102) = Stop Trapped s' /\
    waiters (ProcLock 200) s' [103; 101] /\ queue s' [102] /\
    state <$> threads s' !! 101 = Some THREAD_BLOCKED /\
    owner (mutex_at (ProcLock 200) s') = 102 /\ mlocked (mutex_at (ProcLock 200) s') = 1 /\
    intr s' = true /\ current_thread s' = 101 /\ lock (schedule_lock s') = false.
Proof.
  apply (acquire_mutex_blocks 2 (ProcLock 200) (demo_sched 102) [103] [102] 101
           (demo_thread 1 THREAD_RUNNING NULL));
    [done|done|done|by split|apply demo_waiters|done|done|done|done|done| |reflexivity
    |apply demo_queue|done|cbn; lia| | |].
  - intros t Ht. right. repeat (apply elem_of_cons in Ht as [->|Ht]; [by eexists|]).
    by apply elem_of_nil in Ht.
  - intros Hx%list_elem_of_singleton. discriminate Hx.
  - intros Hx%list_elem_of_singleton. discriminate Hx.
  - intros x ->%list_elem_of_singleton Hx%list_elem_of_singleton. discriminate Hx.
Defined.

Lemma contended_thread_mutex_recurses_witness :
  exists s', acquire_mutex 50 ThreadMutex
    (put_mutex ThreadMutex (Mutex (Spinlock false true) 1 102 NULL NULL 0) (demo_sched 102))
    = Stop OutOfFuel s'.
Proof.
  apply contended_thread_mutex_recurses; [done|done|by eexists|by left].
Defined.
