(* ===== verification/Threads.v ===== *)
(** * Threads and the scheduler (thread.c, scheduler.c, part of process.c)

    Creation and end of threads, the links between threads and processes, the
    collection of terminated threads, and [scheduler_tick], the timer's handler
    that picks the next thread and swaps the interrupt frame. *)

From S2P Require Import Prelude Errno Console Spinlock Kmem SchedState Sched.
Local Open Scope Z_scope.

(** What [sizeof] answers for the objects allocated here. *)
Definition SIZEOF_THREAD : Z := 264.
Definition SIZEOF_PROCESS : Z := 1440.

Definition context_zero : context_t :=
  Context_t 0 0 0 0 0 0 0 0 0 0 0 0 0 0 0 0 0 0 0 0 0 0.
(** An object of zero bytes. *)
Definition thread_zero : thread :=
  Thread 0 0 NULL THREAD_READY THREAD_RING_0 THREAD_PRIO_LOW context_zero 0 0 0 0 0 0 NULL NULL.
Definition process_zero : process :=
  Process 0 0 PROC_READY 0 NULL NULL NULL NULL NULL (replicate 256 0) 0
    (replicate MAX_FD (Fd NULL 0 0 0)) 0.

Section threads.
Context {A : Type} `{!Kmem A} `{!Console A} (fuel : nat).

(** ** Processes as the threads see them *)

(** src/scheduling/process.c:11-19 [lock_proc_table] *)
Definition lock_proc_table : K (sched A) Z := acquire_mutex fuel ProcTableLock.
Definition unlock_proc_table : K (sched A) unit := release_mutex fuel ProcTableLock.

(** src/scheduling/process.c:86-93 [process_from_pid] *)
Fixpoint find_pid (table : list Z) (i : Z) : K (sched A) Z :=
  match table with
  | [] => mret NULL
  | p :: rest =>
      if p =? NULL then find_pid rest i else
      pr ← get_process p;
      if pid pr =? i then mret p else find_pid rest i
  end.

(** src/scheduling/process.c:78-97 [process_from_pid] *)
Definition process_from_pid (i : Z) : K (sched A) Z :=
  if i <? 0 then mret NULL else
  lock_proc_table;;
  table ← kasks process_table;
  res ← find_pid table i;
  unlock_proc_table;;
  mret res.

(** src/scheduling/process.c:100-114 [process_add_thread] *)
Definition process_add_thread (p t : Z) : K (sched A) Z :=
  if (p =? NULL) || (t =? NULL) then mret (- EINVAL) else
  acquire_mutex fuel (ProcLock p);;
  pr ← get_process p;
  upd_thread t (t_set_o_pid (u32 (pid pr)));;
  upd_thread t (t_set_proc p);;
  kwhen (main_thread pr =? NULL) (upd_process p (p_set_main_thread t));;
  release_mutex fuel (ProcLock p);;
  mret 0.

(** src/scheduling/process.c:117-130 [process_remove_thread] *)
Definition process_remove_thread (p t : Z) : K (sched A) Z :=
  if (p =? NULL) || (t =? NULL) then mret (- EINVAL) else
  acquire_mutex fuel (ProcLock p);;
  pr ← get_process p;
  kwhen (main_thread pr =? t) (upd_process p (p_set_main_thread NULL));;
  release_mutex fuel (ProcLock p);;
  mret 0.

(** The loop that wakes the threads of a wait queue.
    src/scheduling/process.c:66-70 [wake_waiters] *)
Definition wake_loop (cur : Z) : K (sched A) unit :=
  kloop fuel (fun cur =>
    if cur =? NULL then mret (inr tt) else
    th ← get_thread cur;
    thread_unblock fuel (tid th);;
    th ← get_thread cur;
    mret (inl (next th))) cur.

(** src/scheduling/process.c:57-75 [wake_waiters] *)
Definition wake_waiters (p : Z) : K (sched A) unit :=
  if p =? NULL then mret tt else
  acquire_mutex fuel (ProcLock p);;
  pr ← get_process p;
  wake_loop (wait_head pr);;
  upd_process p (p_set_wait_tail NULL);;
  upd_process p (p_set_wait_head NULL);;
  release_mutex fuel (ProcLock p).

(** ** Creation *)

(** The context a new thread starts with.
    src/scheduling/thread.c:127-143 [thread_create] *)
Definition new_context (function argc argv stack_base : Z) (privilege : thread_privilege_t) : context_t :=
  let user := bool_decide (privilege = THREAD_RING_3) in
  {| r15 := 0; r14 := 0; r13 := 0; r12 := 0; r11 := 0; r10 := 0; r9 := 0; r8 := 0;
     rbp := 0; rdi := u64 argc; rsi := argv; rdx := 0; rcx := 0; rbx := 0; rax := 0;
     int_no := 0; err_code := 0; rip := function;
     cs := if user then USER_CODE64 else KERNEL_CODE64;
     rflags := 0x202;
     rsp := u64 (stack_base + TSTACK_SIZE - 8);
     ss := if user then USER_DATA64 else KERNEL_DATA64 |}.

(** Free a stack if there is one. *)
Definition free_stack (p : Z) : K (sched A) unit := kwhen (negb (p =? 0)) (on_kmem (km_free p)).

(** [kfree] of a thread object. *)
Definition free_thread (t : Z) : K (sched A) unit :=
  on_kmem (km_free t);; kmod (fun s => set_threads (delete t (threads s)) s).

(** The stacks of a new thread: their addresses, or [None] after giving back
    what was allocated.
    src/scheduling/thread.c:96-125 [thread_create] *)
Definition new_stacks (t : Z) (privilege : thread_privilege_t) : K (sched A) (option (Z * Z)) :=
  match privilege with
  | THREAD_RING_3 =>
      stack ← on_kmem (km_malloc TSTACK_SIZE);
      kstack ← on_kmem (km_malloc KSTACK_SIZE);
      if (stack =? 0) || (kstack =? 0) then
        free_stack stack;; free_stack kstack;;
        free_thread t;;
        mret None
      else mret (Some (stack, kstack))
  | THREAD_RING_0 =>
      stack ← on_kmem (km_malloc TSTACK_SIZE);
      if stack =? 0 then free_thread t;; mret None
      else mret (Some (stack, 0))
  end.

(** The first free slot from slot 1 on.
    src/scheduling/thread.c:166-175 [thread_create] *)
Definition free_slot (table : list Z) : option nat :=
  option_map (fun x => Datatypes.S (fst x)) (list_find (fun p => p = NULL) (tail table)).

(** src/scheduling/thread.c:64-210 [thread_create] *)
Definition thread_create (function argc argv : Z) (privilege : thread_privilege_t)
    (priority : thread_priority_t) (owner_pid : Z) : K (sched A) Z :=
  if function =? NULL then mret NULL else
  lock_thread_mutex fuel;;
  count ← kasks thread_count;
  if Z.of_nat MAX_THREADS <=? count then unlock_thread_mutex fuel;; mret NULL else
  t ← on_kmem (km_malloc SIZEOF_THREAD);
  if t =? NULL then unlock_thread_mutex fuel;; mret NULL else
  id ← kasks next_tid;
  kmod (set_next_tid (u32 (id + 1)));;
  kmod (fun s => set_threads (<[t := Thread id owner_pid NULL THREAD_READY privilege priority
                                  context_zero 0 TSTACK_SIZE 0 0 0 0 NULL NULL]> (threads s)) s);;
  stacks ← new_stacks t privilege;
  match stacks with
  | None => unlock_thread_mutex fuel;; mret NULL
  | Some (stack, kstack) =>
      upd_thread t (t_set_stack_base stack);;
      upd_thread t (t_set_kernel_stack kstack);;
      upd_thread t (t_set_context (new_context function argc argv stack privilege));;
      upd_thread t (t_set_proc NULL);;
      (* owner_pid is 0 in the other branch of the source *)
      owner ← process_from_pid owner_pid;
      kwhen (negb (owner =? NULL))
        (process_add_thread owner t;; upd_thread t (t_set_proc owner));;
      table ← kasks thread_table;
      match free_slot table with
      | None =>
          on_kmem (km_free stack);;
          kwhen (bool_decide (privilege = THREAD_RING_3)) (on_kmem (km_free kstack));;
          free_thread t;;
          unlock_thread_mutex fuel;;
          mret NULL
      | Some slot =>
          kmod (set_thread_table (<[slot := t]> table));;
          kmod (fun s => set_thread_count (u32 (thread_count s + 1)) s);;
          unlock_thread_mutex fuel;;
          lock_schedule_spin;;
          link_ready_tail t;;
          unlock_schedule_spin;;
          mret t
      end
  end.

(** ** End of a thread *)

(** src/scheduling/thread.c:261-289 [thread_exit] *)
Definition thread_exit {B} : K (sched A) B :=
  current ← kasks current_thread;
  if current =? NULL then hcf else
  th ← get_thread current;
  if tid th =? 0 then hcf else
  kwhen (negb (proc th =? NULL))
    (acquire_mutex fuel (ProcLock (proc th));;
     pr ← get_process (proc th);
     if main_thread pr =? current then
       upd_process (proc th) (p_set_exit_code 0);;
       upd_process (proc th) (p_set_p_state PROC_ZOMBIE);;
       release_mutex fuel (ProcLock (proc th));;
       wake_waiters (proc th)
     else release_mutex fuel (ProcLock (proc th)));;
  lock_thread_mutex fuel;;
  upd_thread current (t_set_state THREAD_TERMED);;
  unlock_thread_mutex fuel;;
  kmod (set_current_thread NULL);;
  kstop Trapped.

(** src/scheduling/thread.c:291-322 [thread_terminate] *)
Definition thread_terminate (i : Z) : K (sched A) Z :=
  if i =? 0 then mret (- EPERM) else
  lock_thread_mutex fuel;;
  t ← thread_from_tid i;
  if t =? NULL then unlock_thread_mutex fuel;; mret (- ESRCH) else
  current ← kasks current_thread;
  if t =? current then unlock_thread_mutex fuel;; thread_exit else
  upd_thread t (t_set_state THREAD_TERMED);;
  th ← get_thread t;
  kwhen (negb (proc th =? NULL)) (process_remove_thread (proc th) t;; mret tt);;
  upd_thread t (t_set_next NULL);;
  unlock_thread_mutex fuel;;
  remove_from_ready_queue fuel t;;
  mret 0.

(** One slot of the collector's loop.
    src/scheduling/thread.c:330-359 [clean_up] *)
Definition clean_slot (i : nat) : K (sched A) unit :=
  t ← kasks (fun s => nth i (thread_table s) NULL);
  if t =? NULL then mret tt else
  th ← get_thread t;
  if decide (state th <> THREAD_TERMED) then mret tt else
  remove_from_ready_queue fuel t;;
  free_stack (stack_base th);;
  kwhen (bool_decide (privilege th = THREAD_RING_3)) (free_stack (kernel_stack th));;
  kwhen (negb (proc th =? NULL)) (process_remove_thread (proc th) t;; mret tt);;
  free_thread t;;
  kmod (fun s => set_thread_table (<[i := NULL]> (thread_table s)) s);;
  kmod (fun s => set_thread_count (u32 (thread_count s - 1)) s).

(** src/scheduling/thread.c:324-363 [clean_up] *)
Definition clean_up : K (sched A) unit :=
  lock_thread_mutex fuel;;
  kfor MAX_THREADS 0 (fun i => clean_slot (Z.to_nat i));;
  unlock_thread_mutex fuel.

(** [idle_task] is the address of the idle function.
    src/scheduling/thread.c:365-411 [init_threading] *)
Definition init_threading (idle_task : Z) : K (sched A) unit :=
  kprintf "Threading...";;
  kmod (set_thread_table (replicate MAX_THREADS NULL));;
  init_mutex ThreadMutex;;
  spinlock_init schedule_spin;;
  kernel_thread ← on_kmem (km_malloc SIZEOF_THREAD);
  if kernel_thread =? NULL then kstop Faulted else
  kmod (fun s => set_threads (<[kernel_thread := Thread 0 0 NULL THREAD_RUNNING THREAD_RING_0
          THREAD_PRIO_IMMEDIATE context_zero 0 0 0 0 0 0 NULL NULL]> (threads s)) s);;
  kp ← process_from_pid 0;
  kwhen (negb (kp =? NULL))
    (upd_thread kernel_thread (t_set_proc kp);; process_add_thread kp kernel_thread;; mret tt);;
  kmod (set_current_thread kernel_thread);;
  kmod (fun s => set_thread_table (<[O := kernel_thread]> (thread_table s)) s);;
  kmod (set_thread_count 1);;
  kmod (set_next_tid 1);;
  idle ← thread_create idle_task 0 NULL THREAD_RING_0 THREAD_PRIO_LOW 0;
  if idle =? NULL then kerror "Failed to create idle thread";; hcf
  else kok.

(** ** The scheduler *)

(** The interrupt frame becomes the context of the chosen thread; a ring-3
    thread does not get the vector and error code, has interrupts on and the
    user selectors.
    src/scheduling/context_switch.asm:6-80 [context_switch] *)
Definition context_switch (new : context_t) (is_ring_3 : bool) : K (sched A) unit :=
  kmod (fun s =>
    let old := frame s in
    set_frame
      (if is_ring_3 then
         Context_t (r15 new) (r14 new) (r13 new) (r12 new) (r11 new) (r10 new) (r9 new) (r8 new)
           (rbp new) (rdi new) (rsi new) (rdx new) (rcx new) (rbx new) (rax new)
           (int_no old) (err_code old) (rip new) USER_CODE64
           (Z.lor (rflags new) 0x200) (rsp new) USER_DATA64
       else new) s).

(** The interrupted thread.
    src/scheduling/scheduler.c:167-193 [scheduler_tick] *)
Definition retire_old (old : Z) : K (sched A) unit :=
  th ← get_thread old;
  match state th with
  | THREAD_BLOCKED | THREAD_TERMED =>
      lock_schedule_spin;;
      remove_from_ready_queue fuel old;;
      unlock_schedule_spin;;
      kmod (set_current_thread NULL)
  | THREAD_RUNNING | THREAD_READY =>
      upd_thread old (t_set_state THREAD_READY);;
      lock_schedule_spin;;
      enqueue_ready_tail old;;
      unlock_schedule_spin
  end.

(** Threads of zombie processes are dropped on the way.
    src/scheduling/scheduler.c:201-205 [scheduler_tick] *)
Definition dequeue_live : K (sched A) Z :=
  kloop fuel (fun _ =>
    nxt ← dequeue_ready_head;
    if nxt =? NULL then mret (inr NULL) else
    th ← get_thread nxt;
    if proc th =? NULL then mret (inr nxt) else
    pr ← get_process (proc th);
    if decide (p_state pr <> PROC_ZOMBIE) then mret (inr nxt) else mret (inl tt)) tt.

(** src/scheduling/scheduler.c:211-219 [scheduler_tick] *)
Fixpoint find_ready (table : list Z) : K (sched A) Z :=
  match table with
  | [] => mret NULL
  | t :: rest =>
      if t =? NULL then find_ready rest else
      th ← get_thread t;
      if decide (state th = THREAD_READY) then mret t else find_ready rest
  end.

(** The candidate of one round: the ready queue, then the thread table, then
    the kernel thread.
    src/scheduling/scheduler.c:198-229 [scheduler_tick] *)
Definition candidate : K (sched A) Z :=
  lock_schedule_spin;;
  nxt ← dequeue_live;
  unlock_schedule_spin;;
  nxt ← (if nxt =? NULL then
           acquire_mutex fuel ThreadMutex;;
           table ← kasks thread_table;
           t ← find_ready (tail table);
           release_mutex fuel ThreadMutex;;
           mret t
         else mret nxt);
  if nxt =? NULL then
    t ← kasks (fun s => nth 0 (thread_table s) NULL);
    if t =? NULL then mret NULL else
    th ← get_thread t;
    mret (if decide (state th <> THREAD_TERMED) then t else NULL)
  else mret nxt.

(** Commit to a thread.
    src/scheduling/scheduler.c:265-277 [scheduler_tick] *)
Definition commit (nxt : Z) : K (sched A) unit :=
  kmod (set_current_thread nxt);;
  upd_thread nxt (t_set_state THREAD_RUNNING);;
  th ← get_thread nxt;
  let user := bool_decide (privilege th = THREAD_RING_3) in
  kwhen user (kmod (set_rsp0 (u64 (kernel_stack th + KSTACK_SIZE - 8))));;
  unlock_schedule_spin;;
  context_switch (context th) user;;
  clean_up.

(** One round of [for (;;)]: [inl] is [continue], [inr] is [return].
    src/scheduling/scheduler.c:196-278 [scheduler_tick] *)
Definition tick_round : K (sched A) (unit + unit) :=
  nxt ← candidate;
  if nxt =? NULL then mret (inr tt) else
  th ← get_thread nxt;
  if decide (state th = THREAD_BLOCKED \/ state th = THREAD_TERMED) then
    lock_schedule_spin;;
    remove_from_ready_queue fuel nxt;;
    unlock_schedule_spin;;
    mret (inl tt)
  else if 0 <? cooldown th then
    upd_thread nxt (t_set_cooldown (cooldown th - 1));;
    lock_schedule_spin;;
    enqueue_ready_tail nxt;;
    unlock_schedule_spin;;
    mret (inl tt)
  else
    upd_thread nxt (t_set_cooldown (priority_to_stride (priority th) - 1));;
    if bool_decide (privilege th = THREAD_RING_3) && (kernel_stack th =? 0) then
      upd_thread nxt (t_set_state THREAD_TERMED);;
      mret (inl tt)
    else
      commit nxt;;
      mret (inr tt).

(** [rounds] bounds the rounds of [for (;;)]; the frame the timer passed is the
    state's [frame].
    src/scheduling/scheduler.c:153-279 [scheduler_tick] *)
Definition scheduler_tick (rounds : nat) : K (sched A) unit :=
  kmod (fun s => set_priority_counter (s32 (priority_counter s + 1)) s);;
  old ← kasks current_thread;
  kwhen (negb (old =? NULL))
    (f ← kasks frame;
     upd_thread old (t_set_context f);;
     retire_old old);;
  kloop rounds (fun _ => tick_round) tt.
End threads.
