(* ===== verification/ThreadSpec.v ===== *)
(** * Creating and waking threads (thread.c, process.c)

    [thread_create] on a system whose mutexes are idle, with any answers of the
    allocator: the new thread is queued, in the table and attached to its
    process, or everything that was allocated is given back.  [thread_unblock]
    makes a blocked thread ready. *)

From S2P Require Import Prelude Errno Console Machine Kheap Spinlock Kmem SchedState Sched Queue Mutex Threads.
Local Open Scope Z_scope.

(** The process with id [i] in a table. *)
Fixpoint pid_lookup (m : gmap Z process) (table : list Z) (i : Z) : Z :=
  match table with
  | [] => NULL
  | p :: rest =>
      if p =? NULL then pid_lookup m rest i else
      match m !! p with
      | Some pr => if pid pr =? i then p else pid_lookup m rest i
      | None => NULL
      end
  end.

Lemma pid_lookup_some m table i p : pid_lookup m table i = p -> p <> NULL ->
  p ∈ table /\ exists pr, m !! p = Some pr /\ pid pr = i.
Proof.
  induction table as [|x table IH]; cbn [pid_lookup]; [by intros <-|]. intros E Hp.
  destruct (Z.eqb_spec x NULL).
  { destruct (IH E Hp) as [? ?]. split; [by right|done]. }
  destruct (m !! x) as [pr|] eqn:Ex; [|by subst].
  destruct (Z.eqb_spec (pid pr) i); [subst; split; [by left|by exists pr]|].
  destruct (IH E Hp) as [? ?]. split; [by right|done].
Qed.

Section spec.
Context {A : Type} `{!Kmem A} `{!Console A} (fuel : nat).
Implicit Types s : sched A.

Lemma get_process_run s p pr : procs s !! p = Some pr -> get_process p s = Ret pr s.
Proof. intros E. unfold get_process. krun. by rewrite E. Qed.

Lemma upd_process_run s p f pr : procs s !! p = Some pr ->
  upd_process p f s = Ret tt (set_procs (<[p := f pr]> (procs s)) s).
Proof. intros E. unfold upd_process. by rewrite (kbind_ret _ _ _ _ _ (get_process_run _ _ _ E)). Qed.

(** ** States up to the mutexes *)

(** Only mutexes differ, and those that were idle still are. *)
Record calm s s' : Prop := {
  cm_rest : s' = set_mutexes (mutexes s') s;
  cm_idle : forall m, idle m s -> idle m s';
}.

Lemma calm_refl s : calm s s.
Proof. split; [by destruct s|done]. Qed.

Lemma calm_trans s1 s2 s3 : calm s1 s2 -> calm s2 s3 -> calm s1 s3.
Proof. intros [R1 I1] [R2 I2]. split; [rewrite R2, R1; by destruct s1, s2, s3|auto]. Qed.

Lemma calm_rested m s : calm s (put_mutex m (rested m s) s).
Proof.
  split; [by destruct s|]. intros m' [H1 H2 H3]. destruct (decide (m = m')) as [->|Hm].
  - split; by rewrite mutex_at_put.
  - split; by rewrite mutex_at_put_ne.
Qed.

Lemma release_taken_run m s s' :
  idle m s -> mutex_at m s' = taken m s -> current_thread s' = current_thread s -> intr s' = intr s ->
  release_mutex fuel m s' = Ret tt (put_mutex m (rested m s) s').
Proof. intros [Hl Hz Hw] Em Ec Ei. rewrite release_idle_run; rewrite ?Em; cbn; [by rewrite Ei|done..]. Qed.

(** ** Looking processes up *)

Lemma find_pid_run s table i : table_live (procs s) table ->
  find_pid table i s = Ret (pid_lookup (procs s) table i) s.
Proof.
  induction table as [|p r IH]; intros Hl; [done|]. cbn [find_pid pid_lookup].
  assert (Hr : table_live (procs s) r) by (intros x Hx; apply Hl; set_solver).
  destruct (Z.eqb_spec p NULL); [by apply IH|].
  destruct (Hl p) as [|[pr E]]; [set_solver|done|]. rewrite E.
  rewrite (kbind_ret _ _ _ _ _ (get_process_run _ _ _ E)).
  destruct (pid pr =? i); [done|by apply IH].
Qed.

Lemma process_from_pid_run s i :
  idle ProcTableLock s -> (1 <= fuel)%nat -> table_live (procs s) (process_table s) -> 0 <= i ->
  process_from_pid fuel i s
  = Ret (pid_lookup (procs s) (process_table s) i) (put_mutex ProcTableLock (rested ProcTableLock s) s).
Proof.
  intros Hi Hf Hl Hp. unfold process_from_pid, lock_proc_table, unlock_proc_table.
  destruct (Z.ltb_spec i 0); [lia|]. pose proof Hi as [H1 H2 _].
  rewrite (kbind_ret _ _ _ _ _ (acquire_free_run fuel ProcTableLock s H1 H2 Hf)).
  set (s1 := put_mutex _ _ s).
  rewrite (kbind_ret _ _ s1 (process_table s) s1) by reflexivity.
  rewrite (kbind_ret _ _ s1 _ s1 (find_pid_run s1 (process_table s) i Hl)).
  rewrite (kbind_ret _ _ s1 tt (put_mutex ProcTableLock (rested ProcTableLock s) s1)).
  - unfold s1. by rewrite put_mutex_put.
  - by rewrite (release_taken_run ProcTableLock s) by (done || apply mutex_at_put).
Qed.

(** The process with a new thread. *)
Definition adopt (t : Z) (pr : process) : process :=
  if main_thread pr =? NULL then p_set_main_thread t pr else pr.

Lemma process_add_thread_run s p t pr th :
  idle (ProcLock p) s -> (1 <= fuel)%nat -> p <> NULL -> t <> NULL ->
  procs s !! p = Some pr -> threads s !! t = Some th ->
  process_add_thread fuel p t s
  = Ret 0 (put_mutex (ProcLock p) (rested (ProcLock p) s)
      (set_procs (<[p := adopt t pr]> (procs s))
        (set_threads (<[t := t_set_proc p (t_set_o_pid (u32 (pid pr)) th)]> (threads s)) s))).
Proof.
  intros Hi Hf Hp Ht Ep Et. unfold process_add_thread.
  destruct (Z.eqb_spec p NULL); [done|]. destruct (Z.eqb_spec t NULL); [done|]. cbn [orb].
  pose proof Hi as [H1 H2 _].
  rewrite (kbind_ret _ _ _ _ _ (acquire_free_run fuel (ProcLock p) s H1 H2 Hf)).
  set (s1 := put_mutex _ _ s).
  rewrite (kbind_ret _ _ _ _ _ (get_process_run s1 p pr Ep)).
  rewrite (kbind_ret _ _ _ _ _ (upd_thread_run s1 t _ th Et)). set (s2 := set_threads _ s1).
  erewrite kbind_ret by (apply upd_thread_run; apply lookup_insert_eq). set (s3 := set_threads _ s2).
  rewrite (kbind_ret _ _ s3 tt (set_procs (<[p := adopt t pr]> (procs s)) s3)).
  2:{ unfold adopt. destruct (main_thread pr =? NULL); cbn [kwhen].
      - by rewrite (upd_process_run s3 p _ pr Ep).
      - rewrite insert_id by done. by destruct s. }
  rewrite (kbind_ret _ _ _ _ _ (release_taken_run (ProcLock p) s (set_procs _ s3) Hi
             (mutex_at_put _ _ s) eq_refl eq_refl)).
  unfold mret, K_ret. f_equal. unfold s3, s2, s1. destruct s. cbn. rewrite insert_insert_eq.
  unfold put_mutex. cbn. by rewrite insert_insert_eq.
Qed.

(** ** The end of the ready queue *)

Lemma link_section_run s q t th :
  queue s q -> lock (schedule_lock s) = false -> threads s !! t = Some th -> next th = NULL ->
  t <> NULL -> t ∉ q ->
  exists s', (forall B (k : K (sched A) B),
      (lock_schedule_spin;; link_ready_tail t;; unlock_schedule_spin;; k) s = k s') /\
    queue s' (q ++ [t]) /\ sframe q s s'.
Proof.
  intros Hq Hl Et En Ht Hin.
  assert (Hq0 : queue (locked schedule_spin s) q) by exact Hq.
  destruct (link_run (locked schedule_spin s) q t th Hq0 Et En Ht Hin) as (s1 & E1 & Hq1 & F1).
  destruct (unlock_run q s s1 _ F1 Hq1) as (s2 & E2 & Hq2 & F2).
  exists s2. split; [|done]. intros B k.
  by rewrite (kbind_ret _ _ _ _ _ (lock_run s Hl)), (kbind_ret _ _ _ _ _ E1), (kbind_ret _ _ _ _ _ E2).
Qed.

(** A blocked thread of the table becomes ready; only mutexes, links and the
    queue's pointers change besides. *)
Lemma thread_unblock_run s q t th :
  idle ThreadMutex s -> (1 <= fuel)%nat -> table_live (threads s) (thread_table s) ->
  tid_lookup (threads s) (thread_table s) (tid th) = t -> threads s !! t = Some th ->
  t <> NULL -> state th = THREAD_BLOCKED -> queue s q -> t ∉ q -> lock (schedule_lock s) = false ->
  exists s', thread_unblock fuel (tid th) s = Ret 0 s' /\ queue s' (q ++ [t]) /\
    linked (t :: q) (<[t := t_set_state THREAD_READY th]> (threads s)) (threads s') /\
    (next <$> threads s' !! t = Some NULL) /\
    s' = set_threads (threads s') (set_ready_head (ready_head s') (set_ready_tail (ready_tail s')
           (set_schedule_lock (Spinlock false (intr s)) (put_mutex ThreadMutex (rested ThreadMutex s) s)))).
Proof.
  intros Hi Hf Htab Elk Et Ht Hst Hq Hin Hl. unfold thread_unblock, lock_thread_mutex, unlock_thread_mutex.
  pose proof Hi as [H1 H2 _].
  rewrite (kbind_ret _ _ _ _ _ (acquire_free_run fuel ThreadMutex s H1 H2 Hf)).
  set (s1 := put_mutex _ _ s).
  rewrite (kbind_ret _ _ s1 t s1) by (rewrite <- Elk; exact (thread_from_tid_run s1 (tid th) Htab)).
  rewrite (kbind_ret _ _ _ _ _ (release_taken_run ThreadMutex s s1 Hi (mutex_at_put _ _ s) eq_refl eq_refl)).
  unfold s1. rewrite put_mutex_put. set (s2 := put_mutex _ _ s).
  destruct (Z.eqb_spec t NULL); [done|].
  rewrite (kbind_ret _ _ _ _ _ (get_thread_run s2 t th Et)).
  rewrite decide_False by (rewrite Hst; by intros []).
  rewrite (kbind_ret _ _ _ _ _ (upd_thread_run s2 t _ th Et)). set (s3 := set_threads _ s2).
  erewrite kbind_ret by (apply upd_thread_run; apply lookup_insert_eq). set (s4 := set_threads _ s3).
  set (th' := t_set_next NULL (t_set_state THREAD_READY th)).
  assert (E4 : threads s4 = <[t := th']> (threads s)) by (unfold s4, s3; cbn; by rewrite insert_insert_eq).
  destruct (link_section_run s4 q t th') as (s5 & E & Hq5 & [L5 K5 R5]);
    [|exact Hl|by rewrite E4, lookup_insert_eq|done|done|done|].
  { unfold queue. rewrite E4. eapply list_at_ext; [|exact Hq]. intros x Hx.
    by rewrite lookup_insert_ne by (intros <-; done). }
  exists s5. split; [apply E|]. split; [exact Hq5|]. split; [|split].
  - change (t :: q) with ([t] ++ q). eapply linked_trans; [|exact L5]. rewrite E4.
    replace (<[t := th']> (threads s)) with (<[t := th']> (<[t := t_set_state THREAD_READY th]> (threads s)))
      by apply insert_insert_eq.
    apply linked_link, lookup_insert_eq.
  - destruct Hq5 as (Hs & _). apply segto_app in Hs as (x & _ & -> & _ & thx & Ex & Hn).
    rewrite Ex. cbn in Hn |- *. by rewrite Hn.
  - rewrite R5, K5. by destruct s.
Qed.

(** ** The allocator's answers *)

(** The stacks of a new thread. *)
Definition stacks_answered (prv : thread_privilege_t) (h : A) (st ks : Z) (h' : A) : Prop :=
  match prv with
  | THREAD_RING_0 => km_malloc TSTACK_SIZE h = Ret st h' /\ ks = 0
  | THREAD_RING_3 => exists h1, km_malloc TSTACK_SIZE h = Ret st h1 /\ km_malloc KSTACK_SIZE h1 = Ret ks h'
  end.

Definition stacks_ok (prv : thread_privilege_t) (st ks : Z) : Prop :=
  st <> 0 /\ (prv = THREAD_RING_3 -> ks <> 0).

(** [kfree] of each address in turn. *)
Fixpoint frees (l : list Z) (h h' : A) : Prop :=
  match l with
  | [] => h' = h
  | p :: l => exists h1, km_free p h = Ret tt h1 /\ frees l h1 h'
  end.

(** What a failed creation gives back. *)
Definition given_back (t st ks : Z) : list Z := filter (fun p => p <> 0) [st; ks] ++ [t].

Lemma on_kmem_run {B} (f : K A B) s b h : f (kmem s) = Ret b h -> on_kmem f s = Ret b (set_kmem h s).
Proof. apply (klift_ret kmem set_kmem). Qed.

Lemma new_stacks_ok s t prv st ks h :
  stacks_answered prv (kmem s) st ks h -> stacks_ok prv st ks ->
  new_stacks t prv s = Ret (Some (st, ks)) (set_kmem h s).
Proof.
  intros Ha [Hst Hks]. unfold new_stacks. destruct prv.
  - destruct Ha as [E ->]. rewrite (kbind_ret _ _ _ _ _ (on_kmem_run _ _ _ _ E)).
    by destruct (Z.eqb_spec st 0).
  - destruct Ha as (h1 & E1 & E2). rewrite (kbind_ret _ _ _ _ _ (on_kmem_run _ _ _ _ E1)).
    erewrite kbind_ret by (apply on_kmem_run; exact E2).
    destruct (Z.eqb_spec st 0); [done|]. destruct (Z.eqb_spec ks 0); [by destruct Hks|].
    by destruct s.
Qed.

Lemma free_stack_run s p h h' : frees (filter (fun p => p <> 0) [p]) h h' -> kmem s = h ->
  free_stack p s = Ret tt (set_kmem h' s).
Proof.
  unfold free_stack. intros Hf <-. destruct (Z.eqb_spec p 0) as [->|Hp]; cbn [negb kwhen].
  - rewrite filter_cons_False in Hf by (by intros []). cbn in Hf. subst. by destruct s.
  - rewrite filter_cons_True in Hf by done. destruct Hf as (h1 & E & ->). by apply on_kmem_run.
Qed.

Lemma frees_app l1 l2 h h' : frees (l1 ++ l2) h h' <-> exists h1, frees l1 h h1 /\ frees l2 h1 h'.
Proof.
  revert h. induction l1 as [|p l1 IH]; intros h; cbn [app frees].
  - split; [by exists h|by intros (? & -> & ?)].
  - split.
    + intros (h1 & E & (h2 & ? & ?)%IH). exists h2. split; [by exists h1|done].
    + intros (h1 & (h2 & E & ?) & ?). exists h2. split; [done|]. apply IH. by exists h1.
Qed.

Lemma new_stacks_fail s t prv st ks h h' :
  stacks_answered prv (kmem s) st ks h -> ~ stacks_ok prv st ks -> frees (given_back t st ks) h h' ->
  new_stacks t prv s = Ret None (set_kmem h' (set_threads (delete t (threads s)) s)).
Proof.
  intros Ha Hbad Hf. unfold given_back in Hf. apply frees_app in Hf as (h3 & Hf & (h4 & Et & ->)).
  unfold new_stacks. destruct prv.
  - destruct Ha as [E ->]. rewrite (kbind_ret _ _ _ _ _ (on_kmem_run _ _ _ _ E)).
    destruct (Z.eqb_spec st 0) as [->|]; [|by destruct Hbad].
    rewrite !filter_cons_False in Hf by (by intros []). cbn in Hf. subst h3.
    rewrite (kbind_ret _ _ (set_kmem h s) tt (set_kmem h4 (set_threads (delete t (threads s)) s))); [done|].
    unfold free_thread. erewrite kbind_ret by (apply on_kmem_run; exact Et). by destruct s.
  - destruct Ha as (h1 & E1 & E2). rewrite (kbind_ret _ _ _ _ _ (on_kmem_run _ _ _ _ E1)).
    erewrite kbind_ret by (apply on_kmem_run; exact E2).
    assert (Hz : ((st =? 0) || (ks =? 0)) = true).
    { apply orb_true_iff. destruct (Z.eqb_spec st 0); [by left|right].
      apply Z.eqb_eq. destruct (decide (ks = 0)); [done|]. by destruct Hbad. }
    rewrite Hz. change [st; ks] with ([st] ++ [ks]) in Hf. rewrite filter_app in Hf.
    apply frees_app in Hf as (h5 & Hf1 & Hf2).
    erewrite kbind_ret by (eapply free_stack_run; [exact Hf1|reflexivity]).
    erewrite kbind_ret by (eapply free_stack_run; [exact Hf2|reflexivity]).
    erewrite kbind_ret.
    2:{ unfold free_thread. erewrite kbind_ret by (apply on_kmem_run; exact Et). reflexivity. }
    by destruct s.
Qed.

(** ** Creation *)

(** The process that gets the new thread. *)
Definition owner_of s (i : Z) : Z := pid_lookup (procs s) (process_table s) i.

Definition made (id i own : Z) (prv : thread_privilege_t) (prio : thread_priority_t) (c : context_t)
    (st ks : Z) : thread :=
  Thread id i own THREAD_READY prv prio c st TSTACK_SIZE ks 0 0 0 NULL NULL.

(** Attaching a thread to the process with id [i]: the two tables and mutexes
    other than the process's are as before. *)
Lemma attach_run s t th i own :
  idle ProcTableLock s -> (1 <= fuel)%nat -> table_live (procs s) (process_table s) -> 0 <= i ->
  own = owner_of s i -> (own <> NULL -> idle (ProcLock own) s) -> t <> NULL -> threads s !! t = Some th ->
  proc th = NULL -> o_pid th = u32 i ->
  exists ms, (owner ← process_from_pid fuel i;
     kwhen (negb (owner =? NULL)) (process_add_thread fuel owner t;; upd_thread t (t_set_proc owner))) s
   = Ret tt (set_mutexes ms (set_procs (if decide (own = NULL) then procs s else alter (adopt t) own (procs s))
       (set_threads (<[t := t_set_proc own th]> (threads s)) s))) /\
   (forall m s', idle m s -> mutexes s' = ms -> idle m s') /\
   (forall m s', m <> ProcTableLock -> m <> ProcLock own -> mutexes s' = ms -> mutex_at m s' = mutex_at m s).
Proof.
  intros Hi Hf Hl Hp Hown Hio Ht Et Hproc Ho.
  rewrite (kbind_ret _ _ _ _ _ (process_from_pid_run s i Hi Hf Hl Hp)).
  fold (owner_of s i). rewrite <- Hown. set (s1 := put_mutex _ _ s).
  pose proof (calm_rested ProcTableLock s) as C1. fold s1 in C1.
  destruct (Z.eqb_spec own NULL) as [->|Hne]; cbn [negb kwhen].
  - exists (mutexes s1). rewrite decide_True by done. split; [|split].
    + unfold mret, K_ret. f_equal. rewrite <- Hproc.
      replace (t_set_proc (proc th) th) with th by (by destruct th).
      rewrite insert_id by done. by destruct s.
    + intros m s' Hm E. destruct (cm_idle _ _ C1 m Hm) as [J1 J2 J3]. by split; unfold mutex_at; rewrite E.
    + intros m s' H1 _ E. unfold mutex_at. rewrite E. exact (mutex_at_put_ne ProcTableLock m _ s (not_eq_sym H1)).
  - rewrite decide_False by done.
    destruct (pid_lookup_some _ _ _ _ (eq_sym Hown) Hne) as (_ & pr & Epr & Epid).
    assert (Ht1 : threads s1 !! t = Some th) by exact Et. assert (Epr1 : procs s1 !! own = Some pr) by exact Epr.
    rewrite (kbind_ret _ _ _ _ _ (process_add_thread_run s1 own t pr th
               (cm_idle _ _ C1 _ (Hio Hne)) Hf Hne Ht Epr1 Ht1)).
    set (s2 := put_mutex _ _ _).
    assert (Es2 : threads s2 !! t = Some (t_set_proc own (t_set_o_pid (u32 (pid pr)) th)))
      by (unfold s2; cbn; apply lookup_insert_eq).
    rewrite (upd_thread_run s2 t _ _ Es2). exists (mutexes s2).
    split; [|split].
    + assert (Eth : t_set_proc own (t_set_proc own (t_set_o_pid (u32 (pid pr)) th)) = t_set_proc own th)
        by (rewrite Epid, <- Ho; by destruct th).
      assert (Ea : alter (adopt t) own (procs s) = <[own := adopt t pr]> (procs s)).
      { apply map_eq. intros x. rewrite lookup_insert, lookup_alter. case_decide; [subst; by rewrite Epr|done]. }
      assert (Em : <[t := t_set_proc own th]> (threads s2) = <[t := t_set_proc own th]> (threads s))
        by exact (insert_insert_eq _ _ _ _).
      by rewrite Eth, Ea, Em.
    + intros m s' Hm E. apply (cm_idle _ _ C1) in Hm. apply (cm_idle _ _ (calm_rested (ProcLock own) s1)) in Hm.
      destruct Hm as [J1 J2 J3]. by split; unfold mutex_at; rewrite E.
    + intros m s' H1 H2 E. transitivity (mutex_at m s1); [|exact (mutex_at_put_ne ProcTableLock m _ s (not_eq_sym H1))].
      rewrite <- (mutex_at_put_ne (ProcLock own) m (rested (ProcLock own) s1) s1 (not_eq_sym H2)).
      unfold mutex_at. by rewrite E.
Qed.

(** A system in which a thread of process [i] can be created: its mutexes
    idle, the ready queue [q]. *)
Record creatable s (q : list Z) (i : Z) : Prop := {
  cr_thread : idle ThreadMutex s;
  cr_table : idle ProcTableLock s;
  cr_owner : owner_of s i <> NULL -> idle (ProcLock (owner_of s i)) s;
  cr_live : table_live (procs s) (process_table s);
  cr_queue : queue s q;
  cr_spin : lock (schedule_lock s) = false;
  cr_pid : 0 <= i < 2 ^ 32;
}.

(** The state after a creation, before the new thread is queued. *)
Definition enrolled s (t : Z) (th : thread) (slot : nat) (own : Z) (h : A) (ms : gmap mutex_ref mutex) : sched A :=
  SchedState (<[t := th]> (threads s)) (if decide (own = NULL) then procs s else alter (adopt t) own (procs s))
    ms (schedule_lock s) (ready_head s) (ready_tail s) (priority_counter s) (current_thread s)
    (<[slot := t]> (thread_table s)) (u32 (thread_count s + 1)) (u32 (next_tid s + 1)) (process_table s)
    (next_pid s) (rsp0 s) (frame s) (intr s) h.

Definition new_thread s (f argc argv : Z) (prv : thread_privilege_t) (prio : thread_priority_t) (i st ks : Z) : thread :=
  made (next_tid s) i (owner_of s i) prv prio (new_context f argc argv st prv) st ks.

Lemma idle_mutexes m s s' : mutexes s' = mutexes s -> idle m s -> idle m s'.
Proof. intros E [J1 J2 J3]. by split; unfold mutex_at; rewrite E. Qed.

Lemma idle_taken_ne m m' s s' : m <> m' -> mutexes s' = mutexes (put_mutex m (taken m s) s) ->
  idle m' s -> idle m' s'.
Proof.
  intros Hne E [J1 J2 J3].
  assert (Em : mutex_at m' s' = mutex_at m' s)
    by (rewrite <- (mutex_at_put_ne m m' (taken m s) s Hne); unfold mutex_at; by rewrite E).
  by split; rewrite Em.
Qed.

Lemma thread_create_run s q f argc argv prv prio i t st ks h1 h2 slot :
  creatable s q i -> (1 <= fuel)%nat -> f <> NULL -> thread_count s < Z.of_nat MAX_THREADS ->
  km_malloc SIZEOF_THREAD (kmem s) = Ret t h1 -> t <> NULL -> threads s !! t = None ->
  stacks_answered prv h1 st ks h2 -> stacks_ok prv st ks -> free_slot (thread_table s) = Some slot ->
  exists ms s', thread_create fuel f argc argv prv prio i s = Ret t s' /\
    queue s' (q ++ [t]) /\
    sframe q (enrolled s t (new_thread s f argc argv prv prio i st ks) slot (owner_of s i) h2 ms) s' /\
    forall m, idle m s -> idle m s'.
Proof.
  intros [C1 C2 C3 C4 C5 C6 C7] Hf Hfn Hcnt E1 Ht Hfresh Hst Hok Hslot. unfold thread_create.
  destruct (Z.eqb_spec f NULL); [done|]. unfold lock_thread_mutex, unlock_thread_mutex.
  pose proof C1 as [J1 J2 _].
  rewrite (kbind_ret _ _ _ _ _ (acquire_free_run fuel ThreadMutex s J1 J2 Hf)).
  set (s1 := put_mutex _ _ s).
  rewrite (kbind_ret _ _ s1 (thread_count s) s1) by reflexivity.
  destruct (Z.leb_spec (Z.of_nat MAX_THREADS) (thread_count s)); [lia|].
  rewrite (kbind_ret _ _ _ _ _ (on_kmem_run _ s1 t h1 E1)).
  destruct (Z.eqb_spec t NULL); [done|]. set (s2 := set_kmem h1 s1).
  rewrite (kbind_ret _ _ s2 (next_tid s) s2) by reflexivity.
  rewrite (kbind_ret _ _ s2 tt (set_next_tid (u32 (next_tid s + 1)) s2)) by reflexivity.
  set (s3 := set_next_tid _ s2).
  set (th0 := Thread (next_tid s) i NULL THREAD_READY prv prio context_zero 0 TSTACK_SIZE 0 0 0 0 NULL NULL).
  rewrite (kbind_ret _ _ s3 tt (set_threads (<[t := th0]> (threads s)) s3)) by reflexivity.
  set (s4 := set_threads _ s3).
  rewrite (kbind_ret _ _ _ _ _ (new_stacks_ok s4 t prv st ks h2 Hst Hok)). cbv iota beta.
  set (s5 := set_kmem h2 s4).
  assert (L5 : threads s5 !! t = Some th0) by apply lookup_insert_eq.
  rewrite (kbind_ret _ _ _ _ _ (upd_thread_run s5 t _ th0 L5)).
  do 3 (erewrite kbind_ret by (apply upd_thread_run; apply lookup_insert_eq)).
  set (th1 := t_set_proc NULL _).
  match goal with |- context [set_threads (<[t := th1]> ?m) ?s] => set (s6 := set_threads (<[t := th1]> m) s) end.
  assert (Em6 : mutexes s6 = mutexes s1) by reflexivity.
  destruct (attach_run s6 t th1 i (owner_of s i)) as (ms & Ea & Hidle & Hother);
    [by apply (idle_taken_ne ThreadMutex _ s)|exact Hf|exact C4|lia|reflexivity| |exact Ht|apply lookup_insert_eq|
     reflexivity|symmetry; by apply wrap_small|].
  { intros Ho. apply (idle_taken_ne ThreadMutex _ s); [done|done|by apply C3]. }
  rewrite (kbind_ret2 _ _ _ _ _ _ Ea).
  match type of Ea with _ = Ret _ ?x => set (s7 := x) in * end. clear Ea.
  rewrite (kbind_ret _ _ s7 (thread_table s) s7) by reflexivity. rewrite Hslot.
  rewrite (kbind_ret _ _ s7 tt (set_thread_table (<[slot := t]> (thread_table s)) s7)) by reflexivity.
  set (s8 := set_thread_table _ s7).
  rewrite (kbind_ret _ _ s8 tt (set_thread_count (u32 (thread_count s8 + 1)) s8)) by reflexivity.
  set (s9 := set_thread_count _ s8).
  assert (Em9 : mutex_at ThreadMutex s9 = taken ThreadMutex s).
  { rewrite (Hother ThreadMutex s9) by done. exact (mutex_at_put ThreadMutex _ s). }
  rewrite (kbind_ret _ _ _ _ _ (release_taken_run ThreadMutex s s9 C1 Em9 eq_refl eq_refl)).
  set (s10 := put_mutex _ _ s9).
  set (th := new_thread s f argc argv prv prio i st ks).
  assert (Et10 : threads s10 = <[t := th]> (threads s)).
  { change (threads s10) with (<[t := th]> (threads s6)). unfold s6. cbn [threads set_threads].
    rewrite !insert_insert_eq. change (threads s5) with (<[t := th0]> (threads s)). by rewrite insert_insert_eq. }
  assert (E10 : s10 = enrolled s t th slot (owner_of s i) h2 (mutexes s10))
    by (unfold enrolled; rewrite <- Et10; reflexivity).
  assert (Hi10 : forall m, idle m s -> idle m s10).
  { intros m Hm. destruct (decide (m = ThreadMutex)) as [->|Hne].
    - by split; unfold s10; rewrite mutex_at_put.
    - assert (Hm9 : idle m s9).
      { apply (Hidle m s9); [|reflexivity]. by apply (idle_taken_ne ThreadMutex _ s). }
      destruct Hm9. split; unfold s10; by rewrite mutex_at_put_ne by congruence. }
  assert (Htq : t ∉ q) by (intros Hin; destruct (queue_some _ _ _ C5 Hin) as [_ [? E]]; by rewrite Hfresh in E).
  destruct (link_section_run s10 q t th) as (s' & E & Hq & F);
    [|exact C6|by rewrite Et10, lookup_insert_eq|reflexivity|exact Ht|exact Htq|].
  { unfold queue. rewrite Et10. eapply list_at_ext; [|exact C5]. intros x Hx.
    by rewrite lookup_insert_ne by (intros <-; done). }
  exists (mutexes s10), s'. split; [exact (E _ (mret t))|]. split; [exact Hq|]. rewrite <- E10.
  split; [exact F|]. intros m Hm. apply (idle_mutexes m s10); [|by apply Hi10].
  by rewrite (sf_rest _ _ _ F).
Qed.

(** Only mutexes and the heap differ, and the idle mutexes still are. *)
Definition undone s (h : A) s' : Prop := calm (set_kmem h s) s'.

Lemma undone_intro s h s' : s' = set_mutexes (mutexes s') (set_kmem h s) ->
  (forall m, idle m s -> idle m s') -> undone s h s'.
Proof.
  intros R H. split; [done|]. intros m Hm. apply H. by apply (idle_mutexes m (set_kmem h s)).
Qed.

Lemma creation_end s s1 : idle ThreadMutex s -> mutexes s1 = mutexes (put_mutex ThreadMutex (taken ThreadMutex s) s) ->
  current_thread s1 = current_thread s -> intr s1 = intr s ->
  exists s', (forall B (k : K (sched A) B), (release_mutex fuel ThreadMutex;; k) s1 = k s') /\
    s' = set_mutexes (mutexes s') s1 /\ forall m, idle m s -> idle m s'.
Proof.
  intros Hi Em Ec Ei. exists (put_mutex ThreadMutex (rested ThreadMutex s) s1).
  assert (E1 : mutex_at ThreadMutex s1 = taken ThreadMutex s)
    by (unfold mutex_at; rewrite Em; exact (mutex_at_put ThreadMutex _ s)).
  split; [|split; [by destruct s1|]].
  - intros B k. by rewrite (kbind_ret _ _ _ _ _ (release_taken_run ThreadMutex s s1 Hi E1 Ec Ei)).
  - intros m Hm. destruct (decide (m = ThreadMutex)) as [->|Hne]; [by split; rewrite mutex_at_put|].
    destruct (idle_taken_ne ThreadMutex m s s1) as [J1 J2 J3]; [congruence|done|done|].
    by split; rewrite mutex_at_put_ne by congruence.
Qed.

Lemma thread_create_fail_run s f argc argv prv prio i :
  idle ThreadMutex s -> (1 <= fuel)%nat ->
  (f = NULL -> thread_create fuel f argc argv prv prio i s = Ret NULL s) /\
  (f <> NULL -> Z.of_nat MAX_THREADS <= thread_count s ->
     exists s', thread_create fuel f argc argv prv prio i s = Ret NULL s' /\ undone s (kmem s) s') /\
  (f <> NULL -> thread_count s < Z.of_nat MAX_THREADS ->
     forall t h1, km_malloc SIZEOF_THREAD (kmem s) = Ret t h1 ->
     (t = NULL -> exists s', thread_create fuel f argc argv prv prio i s = Ret NULL s' /\ undone s h1 s') /\
     (t <> NULL -> threads s !! t = None -> forall st ks h2 h3, stacks_answered prv h1 st ks h2 ->
        ~ stacks_ok prv st ks -> frees (given_back t st ks) h2 h3 ->
        exists s', thread_create fuel f argc argv prv prio i s = Ret NULL s' /\
          undone (set_next_tid (u32 (next_tid s + 1)) s) h3 s')).
Proof.
  intros Hi Hf. unfold thread_create, lock_thread_mutex, unlock_thread_mutex.
  destruct (Z.eqb_spec f NULL) as [|Hfn]; [by split_and!|]. pose proof Hi as [J1 J2 _].
  rewrite (kbind_ret _ _ _ _ _ (acquire_free_run fuel ThreadMutex s J1 J2 Hf)).
  set (s1 := put_mutex _ _ s).
  rewrite (kbind_ret _ _ s1 (thread_count s) s1) by reflexivity.
  split; [done|]. split.
  - intros _ Hc. destruct (Z.leb_spec (Z.of_nat MAX_THREADS) (thread_count s)); [|lia].
    destruct (creation_end s s1 Hi eq_refl eq_refl eq_refl) as (s' & E & R & Hm).
    exists s'. split; [apply E|]. apply undone_intro; [rewrite R; by destruct s|exact Hm].
  - intros _ Hc t h1 E1. destruct (Z.leb_spec (Z.of_nat MAX_THREADS) (thread_count s)); [lia|].
    rewrite (kbind_ret _ _ _ _ _ (on_kmem_run _ s1 t h1 E1)). set (s2 := set_kmem h1 s1).
    split.
    + intros ->. cbn [Z.eqb NULL].
      destruct (creation_end s s2 Hi eq_refl eq_refl eq_refl) as (s' & E & R & Hm).
      exists s'. split; [apply E|]. apply undone_intro; [rewrite R; by destruct s|exact Hm].
    + intros Ht Hfresh st ks h2 h3 Ha Hbad Hfr. destruct (Z.eqb_spec t NULL); [done|].
      rewrite (kbind_ret _ _ s2 (next_tid s) s2) by reflexivity.
      rewrite (kbind_ret _ _ s2 tt (set_next_tid (u32 (next_tid s + 1)) s2)) by reflexivity.
      set (s3 := set_next_tid _ s2). set (th0 := Thread _ _ _ _ _ _ _ _ _ _ _ _ _ _ _).
      rewrite (kbind_ret _ _ s3 tt (set_threads (<[t := th0]> (threads s)) s3)) by reflexivity.
      set (s4 := set_threads _ s3).
      rewrite (kbind_ret _ _ _ _ _ (new_stacks_fail s4 t prv st ks h2 h3 Ha Hbad Hfr)). cbv iota beta.
      set (s5 := set_kmem h3 _).
      assert (E5 : threads s5 = threads s).
      { change (threads s5) with (delete t (<[t := th0]> (threads s))). by rewrite delete_insert_eq, delete_id. }
      destruct (creation_end s s5 Hi eq_refl eq_refl eq_refl) as (s' & E & R & Hm).
      exists s'. split; [apply E|]. apply undone_intro.
      * rewrite R. transitivity (set_threads (threads s5) (set_mutexes (mutexes s') (set_kmem h3
          (set_next_tid (u32 (next_tid s + 1)) s)))); [reflexivity|]. rewrite E5. by destruct s.
      * intros m Hk. apply Hm. by apply (idle_mutexes m (set_next_tid (u32 (next_tid s + 1)) s)).
Qed.

(** ** Properties *)

(** C15: with a function, a free slot and the allocations granted,
    [thread_create] answers the new thread: READY, with the next id, the
    context that enters the function on its stack, the selectors of its ring,
    owned by the process with the given id; it is in the first free slot, at
    the end of the ready queue and, when the process had none, its main
    thread.  Nothing else has changed, and the locks are free again. *)
Theorem thread_create_correct s q f argc argv prv prio i t st ks h1 h2 slot
    (Hs : creatable s q i) (Hfuel : (1 <= fuel)%nat) (Hf : f <> NULL)
    (Hcount : thread_count s < Z.of_nat MAX_THREADS)
    (Hmalloc : km_malloc SIZEOF_THREAD (kmem s) = Ret t h1) (Ht : t <> NULL) (Hfresh : threads s !! t = None)
    (Hstacks : stacks_answered prv h1 st ks h2) (Hok : stacks_ok prv st ks)
    (Hslot : free_slot (thread_table s) = Some slot) :
  exists s', thread_create fuel f argc argv prv prio i s = Ret t s' /\
    threads s' !! t = Some (new_thread s f argc argv prv prio i st ks) /\
    (forall x, x <> t -> strip <$> threads s' !! x = strip <$> threads s !! x) /\
    queue s' (q ++ [t]) /\ thread_table s' = <[slot := t]> (thread_table s) /\
    thread_count s' = u32 (thread_count s + 1) /\ next_tid s' = u32 (next_tid s + 1) /\
    procs s' = (if decide (owner_of s i = NULL) then procs s else alter (adopt t) (owner_of s i) (procs s)) /\
    kmem s' = h2 /\ current_thread s' = current_thread s /\ intr s' = intr s /\
    lock (schedule_lock s') = false /\ forall m, idle m s -> idle m s'.
Proof.
  destruct (thread_create_run s q f argc argv prv prio i t st ks h1 h2 slot) as (ms & s' & E & Hq & [L K R] & Hi);
    [done..|].
  assert (Htq : t ∉ q).
  { intros Hin. destruct (queue_some _ _ _ (cr_queue _ _ _ Hs) Hin) as [_ [? Ex]]. by rewrite Hfresh in Ex. }
  exists s'. split; [exact E|]. split; [|split; [|split; [exact Hq|]]].
  - rewrite (lk_out _ _ _ L t Htq). apply lookup_insert_eq.
  - intros x Hx. pose proof (f_equal (fun z => z !! x) (lk_strip _ _ _ L)) as Ex. cbn beta in Ex.
    rewrite !lookup_fmap in Ex. etransitivity; [exact Ex|]. cbn. by rewrite lookup_insert_ne by congruence.
  - split_and!; [by rewrite R..| |exact Hi]. by rewrite K.
Qed.

End spec.

(** ** Witnesses: a heap that hands out addresses until it ends *)

#[local] Instance bump_Kmem : Kmem Z := {
  km_malloc size h := if h + size <=? 0x20000 then Ret h (h + size) else Ret NULL h;
  km_free _ h := Ret tt h;
  km_new_space h := Ret NULL h;
  km_cache_create _ _ h := Ret NULL h;
  km_cache_alloc _ h := Ret NULL h;
  km_cache_free _ _ h := Ret tt h;
}.
#[local] Instance bump_Console : Console Z := { put_event _ h := h }.

(** The kernel's process 200 with its thread 101 running and 102 ready; the
    heap begins at [h]. *)
Definition demo_create (h : Z) : sched Z :=
  SchedState {[101 := demo_thread 1 THREAD_RUNNING NULL; 102 := demo_thread 2 THREAD_READY NULL]}
    {[200 := process_zero]} ∅ (Spinlock false false) 102 102 0 101 [NULL; 101; 102; NULL; NULL] 2 3 [200] 0 0
    (Context_t 0 0 0 0 0 0 0 0 0 0 0 0 0 0 0 0 0 0 0 0 0 0) true h.

Lemma demo_creatable h : creatable (demo_create h) [102] 0.
Proof.
  split; try done.
  - intros p ->%list_elem_of_singleton. right. by eexists.
  - split_and!; [|done|apply NoDup_singleton]. split_and!; [done..|]. eexists. by split.
Qed.

Lemma thread_create_correct_witness :
  exists s', thread_create 1 0x9000 3 0x8000 THREAD_RING_3 THREAD_PRIO_NORMAL 0 (demo_create 0x10000) = Ret 0x10000 s' /\
    queue s' [102; 0x10000] /\ thread_table s' = [NULL; 101; 102; 0x10000; NULL] /\ thread_count s' = 3.
Proof.
  destruct (thread_create_correct 1 (demo_create 0x10000) [102] 0x9000 3 0x8000 THREAD_RING_3 THREAD_PRIO_NORMAL 0
              0x10000 0x10108 0x14108 0x10108 0x1C108 3 (demo_creatable _)) as (s' & E & _ & _ & Hq & Htab & Hc & _);
    [lia|done|done|reflexivity|done|reflexivity|by eexists|done|reflexivity|].
  exists s'. exact (conj E (conj Hq (conj Htab Hc))).
Defined.

