(* ===== verification/Scheduler.v ===== *)
(** * The scheduler's choice (scheduler.c, scheduler_tick)

    [tick_round] on a system in which every thread of the ready queue can run:
    the head of the queue is chosen when its cooldown is over and goes to the
    end with one less otherwise.  So a tick is a rotation of the queue, it ends
    after at most as many rounds as there is cooldown left, and no thread is
    lost. *)

From S2P Require Import Prelude Console Machine Kheap Spinlock Kmem SchedState Sched Queue Mutex Threads.
Local Open Scope Z_scope.

Section scheduler.
Context {A : Type} `{!Kmem A} (fuel : nat).
Implicit Types s : sched A.

(** A thread the scheduler may choose. *)
Definition can_run s (th : thread) : Prop :=
  state th = THREAD_READY /\
  (proc th = NULL \/ exists pr, procs s !! proc th = Some pr /\ p_state pr <> PROC_ZOMBIE) /\
  (privilege th = THREAD_RING_3 -> kernel_stack th <> 0) /\ 0 <= cooldown th.

(** What rounds of the tick work on: the ready queue [q], all of it able to
    run, interrupts off, the locks free and nothing to collect. *)
Record ready_sys s (q : list Z) : Prop := {
  rs_queue : queue s q;
  rs_run : forall t, t ∈ q -> exists th, threads s !! t = Some th /\ can_run s th;
  rs_spin : schedule_lock s = Spinlock false false;
  rs_intr : intr s = false;
  rs_mutex : idle ThreadMutex s;
  rs_table : forall t, t ∈ thread_table s ->
    t = NULL \/ exists th, threads s !! t = Some th /\ state th <> THREAD_TERMED;
}.

(** The cooldown of a thread, and of a list of threads. *)
Definition cd (m : gmap Z thread) (t : Z) : nat := Z.to_nat (default 0 (cooldown <$> m !! t)).
Definition total_cd (m : gmap Z thread) (q : list Z) : nat := sum_list (cd m <$> q).
(** The threads of a queue with their cooldowns. *)
Definition timed (m : gmap Z thread) (q : list Z) : list (Z * nat) := (fun x => (x, cd m x)) <$> q.

Lemma timed_fst m q : (timed m q).*1 = q.
Proof. unfold timed. rewrite <- list_fmap_compose. apply list_fmap_id. Qed.

Lemma timed_snd m q : (timed m q).*2 = cd m <$> q.
Proof. unfold timed. by rewrite <- list_fmap_compose. Qed.

(** Threads that differ in their link and cooldown only. *)
Definition core (th : thread) : thread := t_set_cooldown 0 (strip th).
Definition same_core (m m' : gmap Z thread) : Prop := core <$> m' = core <$> m.

Lemma same_core_lookup m m' t th : same_core m m' -> m !! t = Some th ->
  exists th', m' !! t = Some th' /\ core th' = core th.
Proof.
  intros E Et. pose proof (f_equal (fun x => x !! t) E) as H. cbn beta in H.
  rewrite !lookup_fmap, Et in H. destruct (m' !! t) as [th'|]; [|done].
  exists th'. split; [done|]. cbn in H. by apply (inj Some) in H.
Qed.

Lemma same_core_sym m m' : same_core m m' -> same_core m' m.
Proof. by unfold same_core. Qed.

Lemma linked_core X m m' : linked X m m' -> same_core m m'.
Proof.
  intros L. unfold same_core. apply map_eq. intros t. rewrite !lookup_fmap.
  pose proof (f_equal (fun x => t_set_cooldown 0 <$> x !! t) (lk_strip _ _ _ L)) as H.
  cbn beta in H. rewrite !lookup_fmap in H. by destruct (m !! t), (m' !! t).
Qed.

Lemma core_cooldown m t th v : m !! t = Some th -> same_core m (<[t := t_set_cooldown v th]> m).
Proof.
  intros E. unfold same_core. apply map_eq. intros x.
  rewrite fmap_insert, lookup_insert, lookup_fmap. case_decide; [subst; by rewrite E|done].
Qed.

(** Only the queue's pointers and the threads change. *)
Definition qrest s s' : Prop :=
  s' = set_threads (threads s') (set_ready_head (ready_head s') (set_ready_tail (ready_tail s') s)).

Lemma qrest_trans s1 s2 s3 : qrest s1 s2 -> qrest s2 s3 -> qrest s1 s3.
Proof. unfold qrest. intros R1 R2. rewrite R2, R1. by destruct s1, s2, s3. Qed.

Lemma sframe_qrest X s s' : schedule_lock s = Spinlock false false -> intr s = false ->
  sframe X s s' -> qrest s s' /\ same_core (threads s) (threads s').
Proof.
  intros El Ei [L K R]. split; [|by eapply linked_core]. unfold qrest.
  rewrite R, K, Ei. destruct s; cbn in *. by subst.
Qed.

Lemma core_state th th' : core th' = core th -> state th' = state th.
Proof. intros E. exact (f_equal state E). Qed.

Lemma can_run_core s s' th th' : procs s' = procs s -> core th' = core th -> 0 <= cooldown th' ->
  can_run s th -> can_run s' th'.
Proof.
  intros Ep E Hcd (H1 & H2 & H3 & _). unfold can_run. rewrite Ep.
  rewrite (core_state th th' E), (f_equal proc E : proc th' = proc th),
    (f_equal privilege E : privilege th' = privilege th),
    (f_equal kernel_stack E : kernel_stack th' = kernel_stack th). done.
Qed.

(** A state with the same threads up to links and cooldowns is as ready. *)
Lemma ready_sys_step s s' q q' :
  ready_sys s q -> queue s' q' -> qrest s s' -> same_core (threads s) (threads s') ->
  (forall t, t ∈ q' -> t ∈ q) ->
  (forall t th, t ∈ q' -> threads s' !! t = Some th -> 0 <= cooldown th) ->
  ready_sys s' q'.
Proof.
  intros [H1 H2 H3 H4 H5 H6] Hq R C Hsub Hcd.
  split; [done| | | | |]; try (by rewrite R).
  - intros t Ht. destruct (H2 t (Hsub t Ht)) as (th & E & Hr).
    destruct (same_core_lookup _ _ _ _ C E) as (th' & E' & Ec).
    exists th'. split; [done|]. apply (can_run_core s s' th); [by rewrite R|done|by eapply Hcd|done].
  - destruct H5 as [J1 J2 J3].
    assert (Em : mutex_at ThreadMutex s' = mutex_at ThreadMutex s) by (by rewrite R).
    by split; rewrite Em.
  - replace (thread_table s') with (thread_table s) by (by rewrite R).
    intros t Ht. destruct (H6 t Ht) as [|(th & E & Hs)]; [by left|right].
    destruct (same_core_lookup _ _ _ _ C E) as (th' & E' & Ec).
    exists th'. by rewrite (core_state th th' Ec).
Qed.

(** ** One round *)

Lemma candidate_run s t q :
  ready_sys s (t :: q) -> (1 <= fuel)%nat ->
  exists s', candidate fuel s = Ret t s' /\ queue s' q /\ sframe [t] s s'.
Proof.
  intros [H1 H2 H3 H4 H5 H6] Hf. unfold candidate.
  assert (Hl : lock (schedule_lock s) = false) by (by rewrite H3).
  rewrite (kbind_ret _ _ _ _ _ (lock_run s Hl)).
  assert (H1' : queue (locked schedule_spin s) (t :: q)) by exact H1.
  destruct (dequeue_run (locked schedule_spin s) t q H1') as (s1 & th1 & E1 & Hq1 & F1 & Et1 & _).
  destruct (H2 t (list_elem_of_here _ _)) as (th & Et & Hr).
  destruct (linked_lookup _ _ _ _ _ (qf_linked _ _ _ F1) Et) as (th1' & Et1' & Es).
  rewrite Et1 in Et1'. injection Et1' as <-.
  destruct (queue_some _ _ t H1) as [Ht _]; [set_solver|].
  assert (Ep : procs s1 = procs s) by (by rewrite (qf_rest _ _ _ F1)).
  rewrite (kbind_ret _ _ _ t s1).
  2:{ unfold dequeue_live. destruct fuel as [|f]; [lia|]. apply kloop_exit.
      rewrite (kbind_ret _ _ _ _ _ E1). destruct (Z.eqb_spec t NULL); [done|].
      rewrite (kbind_ret _ _ _ _ _ (get_thread_run _ _ _ Et1)).
      rewrite (f_equal proc Es : proc th1 = proc th). destruct Hr as (_ & Hp & _).
      destruct (Z.eqb_spec (proc th) NULL) as [|Hpn]; [done|].
      destruct Hp as [|(pr & Epr & Hz)]; [done|].
      rewrite (kbind_ret _ _ s1 pr s1)
        by (unfold get_process, kasks, mbind, K_bind; rewrite Ep, Epr; done).
      by rewrite decide_True. }
  destruct (unlock_run [t] s s1 q F1 Hq1) as (s2 & E2 & Hq2 & F2).
  rewrite (kbind_ret _ _ _ _ _ E2).
  exists s2. destruct (Z.eqb_spec t NULL); [done|].
  rewrite (kbind_ret _ _ s2 t s2) by reflexivity. destruct (Z.eqb_spec t NULL); [done|].
  done.
Qed.

Lemma round_rotate s t q th :
  ready_sys s (t :: q) -> (1 <= fuel)%nat -> threads s !! t = Some th -> 0 < cooldown th ->
  exists s', tick_round fuel s = Ret (inl tt) s' /\ ready_sys s' (q ++ [t]) /\
    same_core (threads s) (threads s') /\ qrest s s' /\
    forall x, cd (threads s') x = if decide (x = t) then (cd (threads s) t - 1)%nat else cd (threads s) x.
Proof.
  intros Hs Hf Et Hc. destruct (candidate_run s t q Hs Hf) as (s1 & E1 & Hq1 & F1).
  pose proof Hs as [H1 H2 H3 H4 H5 H6].
  destruct (sframe_qrest _ _ _ H3 H4 F1) as [R1 C1].
  destruct (linked_lookup _ _ _ _ _ (sf_linked _ _ _ F1) Et) as (th1 & Et1 & Es).
  assert (Ec1 : cooldown th1 = cooldown th) by exact (f_equal cooldown Es).
  destruct (H2 t (list_elem_of_here _ _)) as (th0 & Et0 & Hr). rewrite Et in Et0. injection Et0 as <-.
  destruct (queue_some _ _ t H1) as [Ht _]; [set_solver|].
  assert (Hnd : t ∉ q) by (destruct H1 as (_ & _ & [? ?]%NoDup_cons); done).
  unfold tick_round. rewrite (kbind_ret _ _ _ _ _ E1). destruct (Z.eqb_spec t NULL); [done|].
  rewrite (kbind_ret _ _ _ _ _ (get_thread_run _ _ _ Et1)).
  rewrite decide_False
    by (rewrite (f_equal state Es : state th1 = state th); destruct Hr as (-> & _); by intros []).
  rewrite Ec1. destruct (Z.ltb_spec 0 (cooldown th)); [|lia].
  rewrite (kbind_ret _ _ _ _ _ (upd_thread_run s1 t _ th1 Et1)).
  set (s2 := set_threads _ s1).
  assert (Hl2 : lock (schedule_lock s2) = false) by (cbn; by rewrite (sf_lock _ _ _ F1)).
  rewrite (kbind_ret _ _ _ _ _ (lock_run s2 Hl2)).
  destruct (enqueue_run (locked schedule_spin s2) q t (t_set_cooldown (cooldown th - 1) th1))
    as (s3 & E3 & Hq3 & F3); [|apply lookup_insert_eq|done|done|].
  { eapply list_at_ext; [|exact Hq1]. intros x Hx. cbn.
    by rewrite lookup_insert_ne by (intros <-; done). }
  rewrite (kbind_ret _ _ _ _ _ E3).
  destruct (unlock_run _ s2 s3 _ F3 Hq3) as (s4 & E4 & Hq4 & F4).
  rewrite (kbind_ret _ _ _ _ _ E4).
  assert (Hs2 : schedule_lock s2 = Spinlock false false /\ intr s2 = false).
  { cbn. by rewrite (sf_lock _ _ _ F1), H4, R1. }
  destruct (sframe_qrest _ _ _ (proj1 Hs2) (proj2 Hs2) F4) as [R4 C4].
  assert (C : same_core (threads s) (threads s4)).
  { unfold same_core in *. rewrite C4. cbn [s2 threads set_threads].
    rewrite (core_cooldown _ _ _ _ Et1). exact C1. }
  assert (R : qrest s s4).
  { apply (qrest_trans s s1); [done|]. apply (qrest_trans s1 s2); [by destruct s1|done]. }
  assert (Hcd : forall x, cooldown <$> threads s4 !! x
            = if decide (x = t) then Some (cooldown th - 1) else cooldown <$> threads s !! x).
  { assert (Hstrip : forall X m m' x, linked X m m' -> cooldown <$> m' !! x = cooldown <$> m !! x).
    { intros X m m' x L. pose proof (f_equal (fun z => cooldown <$> z !! x) (lk_strip _ _ _ L)) as E.
      cbn beta in E. rewrite !lookup_fmap in E. by destruct (m !! x), (m' !! x). }
    intros x. rewrite (Hstrip _ _ _ x (sf_linked _ _ _ F4)). cbn [s2 threads set_threads].
    destruct (decide (x = t)) as [->|Hx]; [by rewrite lookup_insert_eq|].
    rewrite lookup_insert_ne by done. apply (Hstrip _ _ _ x (sf_linked _ _ _ F1)). }
  exists s4. split; [reflexivity|].
  split; [|split; [exact C|split; [exact R|]]].
  - apply (ready_sys_step s s4 (t :: q)); [done..|set_solver|].
    intros x thx Hx Ex. pose proof (Hcd x) as Hcdx. rewrite Ex in Hcdx. cbn in Hcdx.
    destruct (decide (x = t)) as [->|Hxt].
    + injection Hcdx as ->. lia.
    + destruct (H2 x) as (th0 & E0 & _ & _ & _ & H0); [set_solver|].
      rewrite E0 in Hcdx. injection Hcdx as ->. done.
  - intros x. unfold cd. rewrite Hcd. destruct (decide (x = t)) as [->|]; [|done].
    rewrite Et. cbn. lia.
Qed.

(** ** Committing to a thread *)

Definition nothing_termed s : Prop := forall t, t ∈ thread_table s ->
  t = NULL \/ exists th, threads s !! t = Some th /\ state th <> THREAD_TERMED.

Lemma clean_up_run s : idle ThreadMutex s -> (1 <= fuel)%nat -> nothing_termed s ->
  clean_up fuel s = Ret tt (put_mutex ThreadMutex (rested ThreadMutex s) s).
Proof.
  intros [J1 J2 J3] Hf Hn. unfold clean_up, lock_thread_mutex, unlock_thread_mutex.
  rewrite (kbind_ret _ _ _ _ _ (acquire_free_run fuel ThreadMutex s J1 J2 Hf)).
  set (s1 := put_mutex _ _ s).
  destruct (kfor_ind (fun _ u => u = s1) MAX_THREADS 0 (fun i => clean_slot fuel (Z.to_nat i)) s1 eq_refl)
    as (s2 & E & ->).
  { intros i u _ ->. exists s1. split; [|done]. unfold clean_slot.
    rewrite (kbind_ret _ _ s1 (nth (Z.to_nat i) (thread_table s) NULL) s1) by reflexivity.
    destruct (Z.eqb_spec (nth (Z.to_nat i) (thread_table s) NULL) NULL) as [|Hne]; [done|].
    destruct (nth_in_or_default (Z.to_nat i) (thread_table s) NULL) as [Hin|]; [|done].
    destruct (Hn _ (proj2 (list_elem_of_In _ _) Hin)) as [|(th & Et & Hst)]; [done|].
    rewrite (kbind_ret _ _ s1 th s1) by exact (get_thread_run s1 _ th Et).
    by rewrite decide_True. }
  rewrite (kbind_ret _ _ _ _ _ E).
  rewrite (release_idle_run fuel ThreadMutex s1); unfold s1; rewrite ?mutex_at_put; try done.
  by rewrite put_mutex_put.
Qed.

(** The interrupt frame a thread resumes with. *)
Definition resume_frame (old new : context_t) (user : bool) : context_t :=
  if user then
    Context_t (r15 new) (r14 new) (r13 new) (r12 new) (r11 new) (r10 new) (r9 new) (r8 new)
      (rbp new) (rdi new) (rsi new) (rdx new) (rcx new) (rbx new) (rax new)
      (int_no old) (err_code old) (rip new) USER_CODE64 (Z.lor (rflags new) 0x200) (rsp new) USER_DATA64
  else new.

(** The system after a thread was chosen: [t] runs with its context in the
    frame and the others are queued with the cooldowns [q]. *)
Record dispatched s t (q : list (Z * nat)) s' : Prop := {
  ds_current : current_thread s' = t;
  ds_queue : queue s' q.*1;
  ds_waits : forall x n, (x, n) ∈ q -> cooldown <$> threads s' !! x = Some (Z.of_nat n);
  ds_thread : forall th, threads s !! t = Some th -> exists th', threads s' !! t = Some th' /\
    core th' = t_set_state THREAD_RUNNING (core th);
  ds_frame : forall th, threads s !! t = Some th ->
    frame s' = resume_frame (frame s) (context th) (bool_decide (privilege th = THREAD_RING_3));
  ds_cooldown : forall th, threads s !! t = Some th ->
    cooldown <$> threads s' !! t = Some (priority_to_stride (priority th) - 1);
  ds_rsp0 : forall th, threads s !! t = Some th -> privilege th = THREAD_RING_3 ->
    rsp0 s' = u64 (kernel_stack th + KSTACK_SIZE - 8);
  ds_others : forall x, x <> t -> core <$> threads s' !! x = core <$> threads s !! x;
  ds_intr : intr s' = intr s;
  ds_spin : schedule_lock s' = schedule_lock s;
  ds_mutex : idle ThreadMutex s';
  ds_procs : procs s' = procs s;
  ds_table : thread_table s' = thread_table s;
}.

Lemma round_commit s t q th :
  ready_sys s (t :: q) -> (1 <= fuel)%nat -> threads s !! t = Some th -> cooldown th = 0 ->
  exists s', tick_round fuel s = Ret (inr tt) s' /\ dispatched s t (timed (threads s) q) s'.
Proof.
  intros Hs Hf Et Hc. destruct (candidate_run s t q Hs Hf) as (s1 & E1 & Hq1 & F1).
  pose proof Hs as [H1 H2 H3 H4 H5 H6].
  destruct (sframe_qrest _ _ _ H3 H4 F1) as [R1 C1].
  destruct (linked_lookup _ _ _ _ _ (sf_linked _ _ _ F1) Et) as (th1 & Et1 & Es).
  destruct (H2 t (list_elem_of_here _ _)) as (th0 & Et0 & Hst & Hp & Hk & _).
  rewrite Et in Et0. injection Et0 as <-.
  destruct (queue_some _ _ t H1) as [Ht _]; [set_solver|].
  assert (Hnd : t ∉ q) by (destruct H1 as (_ & _ & [? ?]%NoDup_cons); done).
  assert (Epv : privilege th1 = privilege th) by exact (f_equal privilege Es).
  assert (Eks : kernel_stack th1 = kernel_stack th) by exact (f_equal kernel_stack Es).
  assert (Ect : context th1 = context th) by exact (f_equal context Es).
  assert (Epr : priority th1 = priority th) by exact (f_equal priority Es).
  unfold tick_round. rewrite (kbind_ret _ _ _ _ _ E1). destruct (Z.eqb_spec t NULL); [done|].
  rewrite (kbind_ret _ _ _ _ _ (get_thread_run _ _ _ Et1)).
  rewrite decide_False by (rewrite (f_equal state Es : state th1 = state th), Hst; by intros []).
  rewrite (f_equal cooldown Es : cooldown th1 = cooldown th), Hc. cbn [Z.ltb Z.compare].
  rewrite Epr. set (th2 := t_set_cooldown (priority_to_stride (priority th) - 1) th1).
  rewrite (kbind_ret _ _ _ _ _ (upd_thread_run s1 t _ th1 Et1)). fold th2.
  set (s2 := set_threads (<[t := th2]> (threads s1)) s1).
  rewrite Epv, Eks. replace (bool_decide (privilege th = THREAD_RING_3) && (kernel_stack th =? 0)) with false.
  2:{ destruct (decide (privilege th = THREAD_RING_3)) as [E|E];
        [rewrite bool_decide_true by done|by rewrite bool_decide_false by done].
      by destruct (Z.eqb_spec (kernel_stack th) 0); [destruct (Hk E)|]. }
  set (user := bool_decide (privilege th = THREAD_RING_3)).
  set (th3 := t_set_state THREAD_RUNNING th2).
  set (s3 := set_threads (<[t := th3]> (threads s1)) (set_current_thread t s1)).
  set (s4 := if user then set_rsp0 (u64 (kernel_stack th + KSTACK_SIZE - 8)) s3 else s3).
  set (s5 := set_frame (resume_frame (frame s) (context th) user) s4).
  assert (Hn5 : nothing_termed s5).
  { assert (Etab : thread_table s5 = thread_table s)
      by (unfold s5, s4; destruct user; cbn; by rewrite R1).
    assert (Eth : threads s5 = <[t := th3]> (threads s1)) by (unfold s5, s4; by destruct user).
    intros x Hx. rewrite Etab in Hx. destruct (H6 x Hx) as [|(thx & Ex & Hx')]; [by left|right].
    rewrite Eth. destruct (decide (x = t)) as [->|Hne].
    - exists th3. by rewrite lookup_insert_eq.
    - rewrite lookup_insert_ne by done.
      destruct (same_core_lookup _ _ _ _ C1 Ex) as (thx' & Ex' & Ec). exists thx'.
      by rewrite (core_state thx thx' Ec). }
  assert (Em5 : forall m, mutex_at m s5 = mutex_at m s).
  { intros m. transitivity (mutex_at m s1); [|by rewrite R1]. unfold s5, s4. by destruct user. }
  assert (Hid5 : idle ThreadMutex s5) by (destruct H5; split; by rewrite Em5).
  exists (put_mutex ThreadMutex (rested ThreadMutex s5) s5). split.
  - rewrite (kbind_ret _ _ s2 tt (put_mutex ThreadMutex (rested ThreadMutex s5) s5)); [reflexivity|].
    unfold commit.
    rewrite (kbind_ret _ _ s2 tt (set_current_thread t s2)) by reflexivity.
    assert (Et2 : threads (set_current_thread t s2) !! t = Some th2) by apply lookup_insert_eq.
    rewrite (kbind_ret _ _ _ _ _ (upd_thread_run (set_current_thread t s2) t _ th2 Et2)). fold th3.
    replace (set_threads _ (set_current_thread t s2)) with s3
      by (unfold s3, s2; destruct s1; cbn; by rewrite insert_insert_eq).
    rewrite (kbind_ret _ _ s3 th3 s3) by exact (get_thread_run s3 t th3 (lookup_insert_eq _ _ _)).
    cbn [privilege th3 th2 t_set_state t_set_cooldown kernel_stack context]. rewrite Epv, Eks, Ect.
    fold user. rewrite (kbind_ret _ _ s3 tt s4) by (unfold s4, kwhen; by destruct user).
    assert (Hs4 : schedule_lock s4 = Spinlock false false /\ intr s4 = false).
    { unfold s4. destruct user; cbn; by rewrite (sf_lock _ _ _ F1), R1, H4. }
    rewrite (kbind_ret _ _ s4 tt s4).
    2:{ unfold unlock_schedule_spin. rewrite (spinlock_release_run schedule_spin) by apply Hs4.
        cbn [sl_get sl_set schedule_spin]. destruct Hs4 as [-> Hi]. cbn [had_interrupt]. f_equal.
        assert (E : schedule_lock s4 = Spinlock false false) by
          (unfold s4; destruct user; cbn; by rewrite (sf_lock _ _ _ F1), H4).
        destruct s4; cbn in *. by subst. }
    assert (Ef : frame s4 = frame s) by (unfold s4; destruct user; cbn; by rewrite R1).
    rewrite (kbind_ret _ _ s4 tt s5) by (unfold context_switch, kmod, s5; by rewrite Ef).
    by apply clean_up_run.
  - assert (Eth : threads s5 = <[t := th3]> (threads s1)) by (unfold s5, s4; by destruct user).
    split; cbn [current_thread threads procs thread_table frame rsp0 intr schedule_lock put_mutex set_mutexes].
    + unfold s5, s4. by destruct user.
    + rewrite timed_fst. assert (Hq5 : queue s5 q).
      { unfold queue. rewrite Eth. replace (ready_head s5) with (ready_head s1) by (unfold s5, s4; by destruct user).
        replace (ready_tail s5) with (ready_tail s1) by (unfold s5, s4; by destruct user).
        eapply list_at_ext; [|exact Hq1]. intros x Hx. by rewrite lookup_insert_ne by (intros <-; done). }
      exact Hq5.
    + intros x k (y & [= -> ->] & Hx)%list_elem_of_fmap. rename y into x.
      rewrite Eth, lookup_insert_ne by (intros <-; done).
      destruct (H2 x) as (thx & Ex & _ & _ & _ & Hx0); [set_solver|].
      destruct (linked_lookup _ _ _ _ _ (sf_linked _ _ _ F1) Ex) as (thx1 & Ex1 & Esx).
      rewrite Ex1. unfold cd. rewrite Ex. cbn. rewrite (f_equal cooldown Esx : cooldown thx1 = cooldown thx).
      f_equal. lia.
    + intros th' E. rewrite Et in E. injection E as <-. exists th3. split; [by rewrite Eth, lookup_insert_eq|].
      exact (f_equal (fun z => t_set_state THREAD_RUNNING (t_set_cooldown 0 z)) Es).
    + intros th' E. rewrite Et in E. by injection E as <-.
    + intros th' E. rewrite Et in E. injection E as <-. by rewrite Eth, lookup_insert_eq.
    + intros th' E Hpv. rewrite Et in E. injection E as <-. unfold s5, s4, user.
      by rewrite bool_decide_true.
    + intros x Hx. rewrite Eth, lookup_insert_ne by done.
      pose proof (f_equal (fun z => z !! x) C1) as E. cbn beta in E. by rewrite !lookup_fmap in E.
    + unfold s5, s4. destruct user; cbn; by rewrite R1.
    + unfold s5, s4. destruct user; cbn; by rewrite (sf_lock _ _ _ F1), H4, H3.
    + by split; rewrite mutex_at_put.
    + unfold s5, s4. destruct user; cbn; by rewrite R1.
    + unfold s5, s4. destruct user; cbn; by rewrite R1.
Qed.

(** ** The rounds of a tick *)

(** The choice as a rotation of the queue: the first thread whose cooldown
    is over, every thread passed over going to the end with one less. *)
Fixpoint pick (rounds : nat) (q : list (Z * nat)) : option (Z * list (Z * nat)) :=
  match rounds, q with
  | Datatypes.S r, (t, O) :: q' => Some (t, q')
  | Datatypes.S r, (t, Datatypes.S n) :: q' => pick r (q' ++ [(t, n)])
  | _, _ => None
  end.

Lemma sum_list_snoc (l : list nat) x : sum_list (l ++ [x]) = (sum_list l + x)%nat.
Proof. induction l as [|y l IH]; cbn in *; lia. Qed.

Lemma pick_total rounds : forall q, q <> [] -> (sum_list q.*2 < rounds)%nat ->
  exists t q', pick rounds q = Some (t, q') /\ t :: q'.*1 ≡ₚ q.*1.
Proof.
  induction rounds as [|r IH]; intros q Hq Hs; [lia|].
  destruct q as [|[t [|n]] q]; [done|by exists t, q|]. cbn [pick].
  change (sum_list ((t, Datatypes.S n) :: q).*2) with (Datatypes.S n + sum_list q.*2)%nat in Hs.
  destruct (IH (q ++ [(t, n)])) as (t' & q' & Ep & Hp); [by destruct q| |].
  - rewrite fmap_app. cbn [fmap list_fmap snd]. rewrite sum_list_snoc. lia.
  - exists t', q'. split; [done|]. rewrite Hp, fmap_app. symmetry. apply Permutation_cons_append.
Qed.

Lemma pick_timed m q rounds : q <> [] -> (total_cd m q < rounds)%nat ->
  exists t q', pick rounds (timed m q) = Some (t, q') /\ t :: q'.*1 ≡ₚ q.
Proof.
  intros Hq Hr. destruct (pick_total rounds (timed m q)) as (t & q' & Ep & Hp);
    [by destruct q|by rewrite timed_snd|].
  exists t, q'. split; [exact Ep|]. by rewrite timed_fst in Hp.
Qed.

(** What was chosen in a state with the same threads but other links and
    cooldowns was chosen in the first one. *)
Lemma dispatched_core s s1 t q s' :
  same_core (threads s) (threads s1) -> qrest s s1 ->
  dispatched s1 t q s' -> dispatched s t q s'.
Proof.
  intros C R [D1 D2 D3 Dt D4 D5 D6 D7 D8 D9 D10 Dp Dtab].
  assert (Hl : forall th, threads s !! t = Some th ->
            exists th1, threads s1 !! t = Some th1 /\ core th1 = core th)
    by (intros th; by apply same_core_lookup).
  split; [done..| | | | | | | |done| |].
  - intros th E. destruct (Hl th E) as (th1 & E1 & Ec). rewrite <- Ec. by apply Dt.
  - intros th E. destruct (Hl th E) as (th1 & E1 & Ec). rewrite (D4 th1 E1), R.
    by rewrite (f_equal context Ec : context th1 = context th),
      (f_equal privilege Ec : privilege th1 = privilege th).
  - intros th E. destruct (Hl th E) as (th1 & E1 & Ec). rewrite (D5 th1 E1).
    by rewrite (f_equal priority Ec : priority th1 = priority th).
  - intros th E Hp. destruct (Hl th E) as (th1 & E1 & Ec). rewrite (D6 th1 E1).
    + by rewrite (f_equal kernel_stack Ec : kernel_stack th1 = kernel_stack th).
    + by rewrite (f_equal privilege Ec : privilege th1 = privilege th).
  - intros x Hx. rewrite (D7 x Hx). pose proof (f_equal (fun z => z !! x) C) as E. cbn beta in E.
    by rewrite !lookup_fmap in E.
  - by rewrite D8, R.
  - by rewrite D9, R.
  - by rewrite Dp, R.
  - by rewrite Dtab, R.
Qed.

Lemma rounds_run rounds : forall s q t q',
  ready_sys s q -> (1 <= fuel)%nat -> pick rounds (timed (threads s) q) = Some (t, q') ->
  exists s', kloop rounds (fun _ => tick_round fuel) tt s = Ret tt s' /\ dispatched s t q' s'.
Proof.
  induction rounds as [|r IH]; intros s q t q' Hs Hf Hp; [done|].
  destruct q as [|h q]; [done|]. unfold timed in Hp. cbn [fmap list_fmap pick] in Hp.
  fold (timed (threads s) q) in Hp.
  destruct (rs_run _ _ Hs h) as (th & Et & Hr); [set_solver|].
  destruct (queue_some _ _ h (rs_queue _ _ Hs)) as [Hh _]; [set_solver|].
  pose proof Hr as (_ & _ & _ & Hc0).
  destruct (cd (threads s) h) as [|n] eqn:Ecd.
  - injection Hp as <- <-.
    assert (Hc : cooldown th = 0) by (unfold cd in Ecd; rewrite Et in Ecd; cbn in Ecd; lia).
    destruct (round_commit s h q th Hs Hf Et Hc) as (s' & E & D).
    exists s'. split; [by apply kloop_exit|done].
  - assert (Hc : 0 < cooldown th) by (unfold cd in Ecd; rewrite Et in Ecd; cbn in Ecd; lia).
    destruct (round_rotate s h q th Hs Hf Et Hc) as (s1 & E & Hs1 & C1 & R1 & Hcd).
    destruct (IH s1 (q ++ [h]) t q' Hs1 Hf) as (s' & E' & D).
    { rewrite <- Hp. f_equal. unfold timed. rewrite fmap_app. f_equal.
      - apply list_fmap_ext. intros i x Hx. rewrite Hcd, decide_False; [done|]. intros ->.
        destruct (rs_queue _ _ Hs) as (_ & _ & [Hn _]%NoDup_cons). by apply Hn, list_elem_of_lookup_2 with i.
      - cbn. rewrite Hcd, decide_True, Ecd by done. do 3 f_equal. lia. }
    exists s'. split; [by rewrite (kloop_next _ _ _ tt _ s1)|].
    by apply (dispatched_core s s1).
Qed.

(** ** A tick *)

(** A system with [c] running and [q] ready, in the timer's interrupt. *)
Record running_sys s (c : Z) (thc : thread) (q : list Z) : Prop := {
  rn_ready : ready_sys s q;
  rn_current : current_thread s = c;
  rn_null : c <> NULL;
  rn_thread : threads s !! c = Some thc;
  rn_state : state thc = THREAD_RUNNING;
  rn_run : can_run s (t_set_state THREAD_READY thc);
  rn_queue : c ∉ q;
}.

(** The state with the interrupted thread's registers saved, READY again. *)
Definition saved s (c : Z) (thc : thread) : sched A :=
  set_threads (<[c := t_set_state THREAD_READY (t_set_context (frame s) thc)]> (threads s))
    (set_priority_counter (s32 (priority_counter s + 1)) s).

Lemma scheduler_tick_run s c thc q rounds :
  running_sys s c thc q -> (1 <= fuel)%nat -> (total_cd (threads s) (q ++ [c]) < rounds)%nat ->
  exists t q' s', pick rounds (timed (threads s) (q ++ [c])) = Some (t, q') /\ t :: q'.*1 ≡ₚ q ++ [c] /\
    scheduler_tick fuel rounds s = Ret tt s' /\ dispatched (saved s c thc) t q' s'.
Proof.
  intros [Hs Hcur Hcn Et Hst Hrun Hcq] Hf Hr. pose proof Hs as [H1 H2 H3 H4 H5 H6].
  destruct (pick_timed (threads s) (q ++ [c]) rounds) as (t & q' & Ep & Hp); [by destruct q|done|].
  set (thr := t_set_state THREAD_READY (t_set_context (frame s) thc)).
  set (s0 := saved s c thc).
  destruct (enqueue_run (locked schedule_spin s0) q c thr) as (s1 & E1 & Hq1 & F1);
    [|apply lookup_insert_eq|done|done|].
  { eapply list_at_ext; [|exact H1]. intros x Hx. cbn. by rewrite lookup_insert_ne by (intros <-; done). }
  destruct (unlock_run _ s0 s1 _ F1 Hq1) as (s2 & E2 & Hq2 & F2).
  destruct (sframe_qrest _ _ _ (H3 : schedule_lock s0 = _) (H4 : intr s0 = _) F2) as [R2 C2].
  assert (Hcd : forall x, cooldown <$> threads s2 !! x = cooldown <$> threads s !! x).
  { intros x. pose proof (f_equal (fun z => cooldown <$> z !! x) (lk_strip _ _ _ (sf_linked _ _ _ F2))) as E.
    cbn beta in E. rewrite !lookup_fmap in E.
    transitivity (cooldown <$> threads s0 !! x); [by destruct (threads s2 !! x), (threads s0 !! x)|].
    cbn. rewrite lookup_insert. case_decide; [subst; by rewrite Et|done]. }
  assert (Hcan : forall x th, x ∈ q ++ [c] -> threads s0 !! x = Some th -> can_run s th ->
            exists th', threads s2 !! x = Some th' /\ can_run s2 th').
  { intros x th Hx Ex Hr0. destruct (same_core_lookup _ _ _ _ C2 Ex) as (th' & E' & Ec).
    exists th'. split; [done|]. apply (can_run_core s s2 th); [by rewrite R2|done| |done].
    pose proof (Hcd x) as Hx'. rewrite E' in Hx'.
    assert (cooldown <$> threads s !! x = cooldown <$> threads s0 !! x) as E0.
    { cbn. rewrite lookup_insert. case_decide; [subst; by rewrite Et|done]. }
    rewrite E0, Ex in Hx'. injection Hx' as ->. apply Hr0. }
  assert (Hs2 : ready_sys s2 (q ++ [c])).
  { split; [done| | | | |].
    - intros x [Hx|Hx%list_elem_of_singleton]%elem_of_app.
      + destruct (H2 x Hx) as (th & Ex & Hr0). apply (Hcan x th); [set_solver| |done].
        cbn. by rewrite lookup_insert_ne by (intros <-; done).
      + subst x. apply (Hcan c thr); [set_solver|apply lookup_insert_eq|exact Hrun].
    - rewrite (sf_lock _ _ _ F2). cbn. by rewrite H4.
    - by rewrite R2.
    - destruct H5 as [J1 J2 J3].
      assert (Em : mutex_at ThreadMutex s2 = mutex_at ThreadMutex s) by (by rewrite R2).
      by split; rewrite Em.
    - replace (thread_table s2) with (thread_table s) by (by rewrite R2).
      intros x Hx. destruct (H6 x Hx) as [|(th & Ex & Hx')]; [by left|right].
      assert (exists th0, threads s0 !! x = Some th0 /\ state th0 <> THREAD_TERMED) as (th0 & E0 & Hx0).
      { cbn. rewrite lookup_insert. case_decide; [by eexists|by exists th]. }
      destruct (same_core_lookup _ _ _ _ C2 E0) as (th' & E' & Ec).
      exists th'. by rewrite (core_state th0 th' Ec). }
  assert (Ep2 : pick rounds (timed (threads s2) (q ++ [c])) = Some (t, q')).
  { rewrite <- Ep. f_equal. apply list_fmap_ext. intros i x _. unfold cd. by rewrite Hcd. }
  destruct (rounds_run rounds s2 (q ++ [c]) t q' Hs2 Hf Ep2) as (s' & E' & D).
  exists t, q', s'. split; [exact Ep|]. split; [exact Hp|].
  split; [|by apply (dispatched_core s0 s2)].
  unfold scheduler_tick.
  rewrite (kbind_ret _ _ s tt (set_priority_counter (s32 (priority_counter s + 1)) s)) by reflexivity.
  set (sp := set_priority_counter _ s).
  rewrite (kbind_ret _ _ sp c sp) by (unfold kasks; cbn; by rewrite Hcur).
  destruct (Z.eqb_spec c NULL); [done|]. cbn [negb kwhen].
  rewrite (kbind_ret _ _ sp tt s2); [exact E'|].
  rewrite (kbind_ret _ _ sp (frame s) sp) by reflexivity.
  rewrite (kbind_ret _ _ _ _ _ (upd_thread_run sp c _ thc Et)).
  set (s3 := set_threads _ sp). set (th1 := t_set_context (frame s) thc).
  assert (E3 : threads s3 !! c = Some th1) by apply lookup_insert_eq.
  unfold retire_old. rewrite (kbind_ret _ _ _ _ _ (get_thread_run _ _ _ E3)).
  change (state th1) with (state thc). rewrite Hst.
  rewrite (kbind_ret _ _ _ _ _ (upd_thread_run s3 c _ th1 E3)).
  replace (set_threads _ s3) with s0
    by (unfold s3, s0, saved; destruct s; cbn; by rewrite insert_insert_eq).
  assert (Hl0 : lock (schedule_lock s0) = false) by (cbn; by rewrite H3).
  rewrite (kbind_ret _ _ _ _ _ (lock_run s0 Hl0)), (kbind_ret _ _ _ _ _ E1). exact E2.
Qed.

(** The other end of an old thread: a blocked one.  [scheduler_tick] takes the
    scheduler's spinlock and then calls a function that takes it again. *)
Lemma tick_blocked_run s c thc rounds :
  current_thread s = c -> c <> NULL -> threads s !! c = Some thc ->
  state thc = THREAD_BLOCKED \/ state thc = THREAD_TERMED ->
  exists s', scheduler_tick fuel rounds s = Stop Spinning s'.
Proof.
  intros Hcur Hcn Et Hst. unfold scheduler_tick.
  rewrite (kbind_ret _ _ s tt (set_priority_counter (s32 (priority_counter s + 1)) s)) by reflexivity.
  set (sp := set_priority_counter _ s).
  rewrite (kbind_ret _ _ sp c sp) by (unfold kasks; cbn; by rewrite Hcur).
  destruct (Z.eqb_spec c NULL); [done|]. cbn [negb kwhen].
  assert (exists s', (f ← kasks frame; upd_thread c (t_set_context f);; retire_old fuel c) sp
            = Stop Spinning s') as [s' E].
  2:{ exists s'. by rewrite (kbind_stop _ _ _ _ _ E). }
  rewrite (kbind_ret _ _ sp (frame s) sp) by reflexivity.
  rewrite (kbind_ret _ _ _ _ _ (upd_thread_run sp c _ thc Et)).
  set (s3 := set_threads _ sp). set (th1 := t_set_context (frame s) thc).
  assert (E3 : threads s3 !! c = Some th1) by apply lookup_insert_eq.
  unfold retire_old. rewrite (kbind_ret _ _ _ _ _ (get_thread_run _ _ _ E3)).
  change (state th1) with (state thc).
  assert (exists s', (lock_schedule_spin;; remove_from_ready_queue fuel c;; unlock_schedule_spin;;
            kmod (set_current_thread NULL)) s3 = Stop Spinning s') as [s' E].
  2:{ exists s'. destruct Hst as [-> | ->]; exact E. }
  destruct (lock (schedule_lock s3)) eqn:El.
  - destruct (spin_held schedule_spin s3 El) as [s' E]. exists s'. by apply kbind_stop.
  - rewrite (kbind_ret _ _ _ _ _ (lock_run s3 El)). set (s4 := locked schedule_spin s3).
    destruct (spin_held schedule_spin s4 eq_refl) as [s' E]. exists s'. apply kbind_stop.
    unfold remove_from_ready_queue. destruct (Z.eqb_spec c NULL); [done|]. by apply kbind_stop.
Qed.

(** ** Properties *)

(** C12: a tick that interrupts a running thread puts it at the end of the
    ready queue with its registers saved, and returns after at most one round
    more than the cooldown left in the queue.  The thread it chooses is the
    first whose cooldown is over when the queue is rotated; it becomes the
    current one, RUNNING, with its cooldown set by its priority and its saved
    registers in the interrupt frame (the user selectors and the kernel stack
    for a ring-3 thread).  All others stay queued, none lost or duplicated,
    unchanged up to link and cooldown, and the locks are free. *)
Theorem scheduler_tick_schedules s c thc q rounds
    (Hsys : running_sys s c thc q) (Hfuel : (1 <= fuel)%nat)
    (Hrounds : (total_cd (threads s) (q ++ [c]) < rounds)%nat) :
  exists t q' s', pick rounds (timed (threads s) (q ++ [c])) = Some (t, q') /\ t :: q'.*1 ≡ₚ q ++ [c] /\
    scheduler_tick fuel rounds s = Ret tt s' /\ dispatched (saved s c thc) t q' s'.
Proof. by apply scheduler_tick_run. Qed.

(** C32: when the interrupted thread is BLOCKED (it called [thread_block], or
    waits for a mutex) or TERMED, the tick takes the scheduler's spinlock twice
    and spins for ever with interrupts off: blocking a thread hangs the
    kernel at the next tick. *)
Theorem tick_of_blocked_thread_hangs s c thc rounds
    (Hcur : current_thread s = c) (Hc : c <> NULL) (Hthc : threads s !! c = Some thc)
    (Hstate : state thc = THREAD_BLOCKED \/ state thc = THREAD_TERMED) :
  exists s', scheduler_tick fuel rounds s = Stop Spinning s'.
Proof. by apply (tick_blocked_run s c thc). Qed.
End scheduler.

(** ** Witnesses: the demonstration threads in the timer's interrupt *)

Definition demo_tick : sched (heap machine) := set_intr false (demo_with demo_heap 101).

Lemma demo_running : running_sys demo_tick 101 (demo_thread 1 THREAD_RUNNING NULL) [102].
Proof.
  split; [split|..]; try done.
  - apply demo_queue.
  - intros t ->%list_elem_of_singleton. eexists. split; [reflexivity|].
    split_and!; [done|by left|done|done].
  - intros t Ht. right. repeat (apply elem_of_cons in Ht as [->|Ht]; [by eexists|]).
    by apply elem_of_nil in Ht.
  - split_and!; [done|by left|done|done].
  - intros Hx%list_elem_of_singleton. discriminate Hx.
Qed.

Lemma scheduler_tick_schedules_witness :
  exists t q' s', pick 1 (timed (threads demo_tick) [102; 101]) = Some (t, q') /\ t :: q'.*1 ≡ₚ [102; 101] /\
    @scheduler_tick _ (heap_Kmem 1) 1 1 demo_tick = Ret tt s' /\
    dispatched (saved demo_tick 101 (demo_thread 1 THREAD_RUNNING NULL)) t q' s'.
Proof.
  apply (@scheduler_tick_schedules _ (heap_Kmem 1) 1 demo_tick 101
           (demo_thread 1 THREAD_RUNNING NULL) [102] 1 demo_running); [lia|].
  change (total_cd (threads demo_tick) ([102] ++ [101])) with 0%nat. lia.
Defined.

Lemma tick_of_blocked_thread_hangs_witness :
  exists s', @scheduler_tick _ (heap_Kmem 1) 1 1 (set_current_thread 103 demo_tick) = Stop Spinning s'.
Proof.
  apply (@tick_of_blocked_thread_hangs _ (heap_Kmem 1) 1 (set_current_thread 103 demo_tick) 103
           (demo_thread 3 THREAD_BLOCKED NULL)); [done|done|reflexivity|by left].
Defined.
