(* ===== verification/Fairness.v ===== *)
(** * Runs of the scheduler (scheduler.c, over many timer interrupts)

    Between two ticks a running thread only changes the registers, which the
    next interrupt finds in its frame.  Over any number of ticks the system
    stays one of a running thread and queued ready ones, no thread is lost, and
    every thread gets the processor within a bound that its cooldown and its
    place in the queue give. *)

From S2P Require Import Prelude Console Machine Kheap Spinlock Kmem SchedState Sched Queue Mutex Threads Scheduler.
Local Open Scope Z_scope.

(** ** The rotation *)

(** The rounds before the thread at [p] with cooldown [n] is chosen from a
    queue of [len] threads. *)
Definition turns (len p n : nat) : nat := n * len + p.

(** A choice takes the thread at [p], or brings it nearer by a round at least
    once the chosen one is queued again. *)
Lemma pick_nearer rounds : forall l t q' p x n k,
  pick rounds l = Some (t, q') -> l !! p = Some (x, n) ->
  t = x \/ exists p' n', (q' ++ [(t, k)]) !! p' = Some (x, n') /\
    (turns (length l) p' n' < turns (length l) p n)%nat.
Proof.
  unfold turns. induction rounds as [|r IH]; intros l t q' p x n k Hp Hx; [done|].
  destruct l as [|[h [|m]] l]; [done| |]; cbn [pick] in Hp.
  - injection Hp as -> ->. destruct p as [|p]; cbn in Hx; [by injection Hx as -> ->; left|right].
    exists p, n. rewrite lookup_app_l by (by eapply lookup_lt_Some). split; [done|lia].
  - assert (exists p1 n1, (l ++ [(h, m)]) !! p1 = Some (x, n1) /\
              (n1 * length ((h, Datatypes.S m) :: l) + p1 < n * length ((h, Datatypes.S m) :: l) + p)%nat)
      as (p1 & n1 & H1 & Hlt).
    { destruct p as [|p]; cbn [lookup list_lookup] in Hx.
      - injection Hx as -> <-. exists (length l), m.
        split; [by rewrite lookup_app_r, Nat.sub_diag by lia|cbn [length]; nia].
      - exists p, n. split; [|lia]. change (l !! p = Some (x, n)) in Hx.
        rewrite lookup_app_l by (by eapply lookup_lt_Some). done. }
    assert (El : length (l ++ [(h, m)]) = length ((h, Datatypes.S m) :: l))
      by (rewrite length_app; cbn; lia).
    destruct (IH _ _ _ p1 x n1 k Hp H1) as [|(p' & n' & H' & Hlt')]; [by left|right].
    exists p', n'. split; [done|]. rewrite El in Hlt'. lia.
Qed.

Section fairness.
Context {A : Type} `{!Kmem A} (fuel rounds : nat).
Implicit Types s : sched A.

(** ** Runs *)

(** A tick for each interrupt frame. *)
Fixpoint ticks (frames : list context_t) : K (sched A) unit :=
  match frames with
  | [] => mret tt
  | f :: frames => kmod (set_frame f);; scheduler_tick fuel rounds;; ticks frames
  end.

(** The queue as the next tick finds it, the running thread at its end. *)
Definition line s (q : list Z) (c : Z) : list (Z * nat) := timed (threads s) (q ++ [c]).

(** A running system whose cooldowns are below the largest stride. *)
Record sys_inv s (c : Z) (thc : thread) (q : list Z) : Prop := {
  si_run : running_sys s c thc q;
  si_cd : forall x n, (x, n) ∈ line s q c -> (n <= 31)%nat;
}.

Lemma running_frame s c thc q f : running_sys s c thc q -> running_sys (set_frame f s) c thc q.
Proof. intros [[? ? ? ? [] ?] ? ? ? ? ? ?]. split; [split; [| | | |split|]|..]; assumption. Qed.

Lemma sys_frame s c thc q f : sys_inv s c thc q -> sys_inv (set_frame f s) c thc q.
Proof. intros [H ?]. split; [by apply running_frame|done]. Qed.

(** The queue behind the chosen thread. *)
Lemma line_dispatched s t q' s' th :
  dispatched s t q' s' -> threads s !! t = Some th ->
  line s' q'.*1 t = q' ++ [(t, Z.to_nat (priority_to_stride (priority th) - 1))].
Proof.
  intros D Et. unfold line, timed. rewrite fmap_app, <- list_fmap_compose. f_equal.
  - rewrite <- (list_fmap_id q') at 2. apply list_fmap_ext. intros i [x n] Hx. cbn.
    unfold cd. by rewrite (ds_waits _ _ _ _ D x n) by (by eapply list_elem_of_lookup_2); cbn; rewrite Nat2Z.id.
  - cbn. unfold cd. by rewrite (ds_cooldown _ _ _ _ D th Et).
Qed.

Lemma total_cd_le s q c : (forall x n, (x, n) ∈ line s q c -> (n <= 31)%nat) ->
  (total_cd (threads s) (q ++ [c]) <= 31 * length (q ++ [c]))%nat.
Proof.
  unfold line, total_cd. induction (q ++ [c]) as [|x l IH]; intros H; [done|].
  pose proof (H x _ (list_elem_of_here _ _)).
  assert (sum_list (cd (threads s) <$> l) <= 31 * length l)%nat.
  { apply IH. intros y n Hy. apply (H y n). by right. }
  cbn in *. lia.
Qed.

(** ** One tick *)

(** A thread but its state, link and cooldown. *)
Definition still (th th' : thread) : Prop :=
  core (t_set_state THREAD_READY th') = core (t_set_state THREAD_READY th).

Lemma still_core th th' : core th' = core th -> still th th'.
Proof. intros E. exact (f_equal (t_set_state THREAD_READY) E). Qed.

Lemma core_ready th : state th = THREAD_READY -> t_set_state THREAD_READY (core th) = core th.
Proof. destruct th. cbn. by intros ->. Qed.

Lemma still_trans th1 th2 th3 : still th1 th2 -> still th2 th3 -> still th1 th3.
Proof. unfold still. congruence. Qed.

(** The threads that did not run are unchanged. *)
Lemma dispatched_still s c thc t q' s' x th :
  dispatched (saved s c thc) t q' s' -> x <> c -> threads s !! x = Some th ->
  exists th', threads s' !! x = Some th' /\ still th th'.
Proof.
  intros D Hx Ex. assert (E0 : threads (saved s c thc) !! x = Some th)
    by (cbn; by rewrite lookup_insert_ne by (intros <-; done)).
  destruct (decide (x = t)) as [->|Ht].
  - destruct (ds_thread _ _ _ _ D th E0) as (th' & E' & Ec). exists th'. split; [done|].
    exact (f_equal (t_set_state THREAD_READY) Ec).
  - pose proof (ds_others _ _ _ _ D x Ht) as E. rewrite E0 in E.
    destruct (threads s' !! x) as [th'|]; [|done]. apply (inj Some) in E. exists th'.
    split; [done|]. by apply still_core.
Qed.

(** A thread of the line, with the interrupted one READY again. *)
Lemma saved_thread s c thc q x :
  running_sys s c thc q -> x ∈ q ++ [c] ->
  exists th, threads (saved s c thc) !! x = Some th /\ can_run (saved s c thc) th /\ x <> NULL.
Proof.
  intros R [Hx|Hx%list_elem_of_singleton]%elem_of_app.
  - destruct (rs_run _ _ (rn_ready _ _ _ _ R) x Hx) as (th & E & Hr).
    exists th. cbn. rewrite lookup_insert_ne by (intros <-; exact (rn_queue _ _ _ _ R Hx)).
    split_and!; [done|exact Hr|]. by apply (queue_some _ _ _ (rs_queue _ _ (rn_ready _ _ _ _ R))).
  - subst x. eexists. split; [apply lookup_insert_eq|]. split; [|exact (rn_null _ _ _ _ R)].
    exact (rn_run _ _ _ _ R).
Qed.

Lemma dispatched_can_run s t q' s' th0 th n :
  dispatched s t q' s' -> can_run s th0 -> core th = core th0 -> cooldown th = Z.of_nat n ->
  can_run s' th.
Proof. intros D Hr Ec Hn. apply (can_run_core s s' th0); [by apply (ds_procs _ _ _ _ D)|done|lia|done]. Qed.

(** Every thread of the line keeps its core, but for the one that runs now. *)
Lemma dispatched_running s c thc q t q' s' :
  running_sys s c thc q -> dispatched (saved s c thc) t q' s' -> t :: q'.*1 ≡ₚ q ++ [c] ->
  exists tht, running_sys s' t tht q'.*1.
Proof.
  intros R D Hp. pose proof (rn_ready _ _ _ _ R) as H.
  assert (Hnd : NoDup (t :: q'.*1)).
  { rewrite Hp. apply NoDup_app. split_and!; [apply (rs_queue _ _ H)| |apply NoDup_singleton].
    intros x Hx ->%list_elem_of_singleton. exact (rn_queue _ _ _ _ R Hx). }
  apply NoDup_cons in Hnd as [Ht Hnd].
  destruct (saved_thread s c thc q t R) as (th0 & E0 & Hr0 & Ht0); [rewrite <- Hp; by left|].
  destruct (ds_thread _ _ _ _ D th0 E0) as (tht & Et & Ec).
  exists tht. split; [split|..].
  - apply (ds_queue _ _ _ _ D).
  - intros x Hx. destruct (saved_thread s c thc q x R) as (thx & Ex & Hrx & _); [rewrite <- Hp; by right|].
    assert (Hxt : x <> t) by (intros ->; done).
    pose proof (ds_others _ _ _ _ D x Hxt) as E. rewrite Ex in E.
    apply list_elem_of_fmap in Hx as ([y n] & -> & Hin). cbn [fst] in *.
    pose proof (ds_waits _ _ _ _ D _ _ Hin) as Hw.
    destruct (threads s' !! y) as [th'|]; [|done]. apply (inj Some) in E. injection Hw as Hw.
    exists th'. split; [done|]. by apply (dispatched_can_run _ _ _ _ thx th' n D).
  - rewrite (ds_spin _ _ _ _ D). apply (rs_spin _ _ H).
  - rewrite (ds_intr _ _ _ _ D). apply (rs_intr _ _ H).
  - apply (ds_mutex _ _ _ _ D).
  - rewrite (ds_table _ _ _ _ D). intros x Hx. destruct (rs_table _ _ H x Hx) as [|(th & Ex & Hs)]; [by left|right].
    destruct (decide (x = t)) as [->|Hxt].
    { exists tht. split; [done|]. by rewrite (f_equal state Ec : state tht = THREAD_RUNNING). }
    pose proof (ds_others _ _ _ _ D x Hxt) as E.
    assert (exists th1, threads (saved s c thc) !! x = Some th1 /\ state th1 <> THREAD_TERMED) as (th1 & E1 & Hs1).
    { cbn. rewrite lookup_insert. case_decide; [by eexists|by exists th]. }
    rewrite E1 in E. destruct (threads s' !! x) as [th'|]; [|done]. apply (inj Some) in E.
    exists th'. split; [done|]. by rewrite (core_state th1 th' E).
  - apply (ds_current _ _ _ _ D).
  - done.
  - done.
  - exact (f_equal state Ec).
  - apply (can_run_core (saved s c thc) s' th0); [apply (ds_procs _ _ _ _ D)| | |done].
    + pose proof (f_equal (t_set_state THREAD_READY) Ec) as Ec'.
      destruct Hr0 as (Hst & _). rewrite <- (core_ready th0 Hst). exact Ec'.
    + pose proof (ds_cooldown _ _ _ _ D th0 E0) as Ew. rewrite Et in Ew. injection Ew as Ew.
      cbn. rewrite Ew. by destruct (priority th0).
  - done.
Qed.

(** What a tick does to the abstract system: the choice of [pick], queued
    behind the others with its stride once it is interrupted. *)
Record ticked s c thc t (q' : list (Z * nat)) s' : Prop := {
  tk_run : scheduler_tick fuel rounds s = Ret tt s';
  tk_dispatched : dispatched (saved s c thc) t q' s';
  tk_thread : is_Some (threads s !! t);
  tk_line : exists k, (k <= 31)%nat /\ line s' q'.*1 t = q' ++ [(t, k)];
}.

Lemma pick_values r : forall l t q' x n, pick r l = Some (t, q') -> (x, n) ∈ q' ->
  exists n', (x, n') ∈ l /\ (n <= n')%nat.
Proof.
  induction r as [|r IH]; intros l t q' x n Hp Hx; [done|].
  destruct l as [|[h [|m]] l]; [done| |]; cbn [pick] in Hp.
  - injection Hp as -> ->. exists n. split; [by right|done].
  - destruct (IH _ _ _ x n Hp Hx) as (n' & [Hl|Hl]%elem_of_app & Hn).
    + exists n'. split; [by right|done].
    + apply list_elem_of_singleton in Hl as [= -> ->]. exists (Datatypes.S m). split; [by left|lia].
Qed.

Lemma tick_step s c thc q :
  sys_inv s c thc q -> (1 <= fuel)%nat -> (31 * length (q ++ [c]) < rounds)%nat ->
  exists t tht q' s', pick rounds (line s q c) = Some (t, q') /\ ticked s c thc t q' s' /\
    sys_inv s' t tht q'.*1 /\ t :: q'.*1 ≡ₚ q ++ [c].
Proof.
  intros [R Hcd] Hf Hr.
  destruct (scheduler_tick_run fuel s c thc q rounds R Hf) as (t & q' & s' & Ep & Hp & E & D).
  { pose proof (total_cd_le s q c Hcd). lia. }
  destruct (dispatched_running s c thc q t q' s' R D Hp) as (tht & R').
  destruct (saved_thread s c thc q t R) as (th0 & E0 & _); [rewrite <- Hp; by left|].
  pose proof (line_dispatched _ _ _ _ _ D E0) as El.
  assert (Hk : (Z.to_nat (priority_to_stride (priority th0) - 1) <= 31)%nat) by (destruct (priority th0); cbn; lia).
  exists t, tht, q', s'. split; [exact Ep|]. split; [split; [exact E|exact D| |by eexists]|].
  - cbn in E0. rewrite lookup_insert in E0. case_decide as Hc; [subst; by rewrite (rn_thread _ _ _ _ R)|by eexists].
  - split; [|exact Hp]. split; [exact R'|]. intros x n. rewrite El.
    intros [Hx|Hx]%elem_of_app.
    + destruct (pick_values _ _ _ _ _ _ Ep Hx) as (n' & Hn & Hle). apply Hcd in Hn. lia.
    + apply list_elem_of_singleton in Hx as [= -> ->]. exact Hk.
Qed.

(** ** Many ticks *)

Section runs.
Context (Hfuel : (1 <= fuel)%nat).

Lemma tick_list_run frames : forall s c thc q,
  sys_inv s c thc q -> (31 * length (q ++ [c]) < rounds)%nat ->
  exists s' c' thc' q', ticks frames s = Ret tt s' /\ sys_inv s' c' thc' q' /\ c' :: q' ≡ₚ c :: q.
Proof.
  induction frames as [|f frames IH]; intros s c thc q I Hr; [by exists s, c, thc, q|].
  destruct (tick_step (set_frame f s) c thc q (sys_frame _ _ _ _ f I) Hfuel Hr)
    as (t & tht & q' & s1 & _ & K & I1 & Hp).
  rewrite <- Permutation_cons_append in Hp.
  assert (El : length (q'.*1 ++ [t]) = length (q ++ [c])).
  { rewrite !length_app. pose proof (Permutation_length Hp) as El. cbn in El |- *. lia. }
  destruct (IH s1 t tht q'.*1 I1) as (s' & c' & thc' & q2 & E & I' & Hp'); [by rewrite El|].
  exists s', c', thc', q2. split; [|split; [exact I'|by rewrite Hp', Hp]].
  cbn [ticks]. rewrite (kbind_ret _ _ s tt (set_frame f s)) by reflexivity.
  by rewrite (kbind_ret _ _ _ _ _ (tk_run _ _ _ _ _ _ K)).
Qed.

(** What a thread finds when it gets the processor: its own registers. *)
Definition resumed s x th0 : Prop :=
  exists th f, threads s !! x = Some th /\ still th0 th /\
    frame s = resume_frame f (context th0) (bool_decide (privilege th0 = THREAD_RING_3)).

Lemma turn_run m : forall frames s c thc q p x n th0,
  sys_inv s c thc q -> (31 * length (q ++ [c]) < rounds)%nat -> x <> c ->
  threads s !! x = Some th0 -> line s q c !! p = Some (x, n) ->
  (turns (length (q ++ [c])) p n <= m)%nat -> (m < length frames)%nat ->
  exists k s' thx q', (k <= Datatypes.S m)%nat /\ ticks (take k frames) s = Ret tt s' /\
    sys_inv s' x thx q' /\ x :: q' ≡ₚ c :: q /\ resumed s' x th0.
Proof.
  induction m as [m IH] using lt_wf_ind. intros frames s c thc q p x n th0 I Hr Hxc Ex Hx Hm Hl.
  destruct frames as [|f frames]; [cbn in Hl; lia|].
  destruct (tick_step (set_frame f s) c thc q (sys_frame _ _ _ _ f I) Hfuel Hr)
    as (t & tht & q' & s1 & Ep & K & I1 & Hp).
  change (line (set_frame f s) q c) with (line s q c) in Ep.
  destruct (dispatched_still _ _ _ _ _ _ x th0 (tk_dispatched _ _ _ _ _ _ K) Hxc Ex) as (th1 & E1 & S1).
  rewrite <- Permutation_cons_append in Hp.
  assert (El : length (q'.*1 ++ [t]) = length (q ++ [c])).
  { rewrite !length_app. pose proof (Permutation_length Hp) as El. cbn in El |- *. lia. }
  assert (Estep : forall k, ticks (take (Datatypes.S k) (f :: frames)) s = ticks (take k frames) s1).
  { intros k. cbn [take ticks]. rewrite (kbind_ret _ _ s tt (set_frame f s)) by reflexivity.
    by rewrite (kbind_ret _ _ _ _ _ (tk_run _ _ _ _ _ _ K)). }
  destruct (decide (x = t)) as [->|Hxt].
  - exists 1%nat, s1, tht, q'.*1. rewrite Estep. split_and!; [lia|by destruct frames|done|done|].
    exists th1, f. split_and!; [done|done|].
    rewrite (ds_frame _ _ _ _ (tk_dispatched _ _ _ _ _ _ K) th0); [done|].
    cbn. by rewrite lookup_insert_ne by (intros <-; done).
  - destruct (tk_line _ _ _ _ _ _ K) as (k & _ & Ek).
    destruct (pick_nearer _ _ _ _ p x n k Ep Hx) as [|(p' & n' & H' & Hlt)]; [done|].
    rewrite <- Ek in H'. unfold line, timed in Hlt. rewrite length_fmap in Hlt.
    destruct (IH (turns (length (q ++ [c])) p' n') ltac:(lia) frames s1 t tht q'.*1 p' x n' th1)
      as (j & s' & thx & q2 & Hj & E & I' & Hp' & th & fr & Et & St & Efr);
      [done|by rewrite El|done|done|done|by rewrite El|cbn in Hl; lia|].
    exists (Datatypes.S j), s', thx, q2. rewrite Estep. split_and!; [lia|done|done|by rewrite Hp', Hp|].
    exists th, fr. split_and!; [done|by eapply still_trans|].
    rewrite Efr, (f_equal context S1 : context th1 = context th0).
    by rewrite (f_equal privilege S1 : privilege th1 = privilege th0).
Qed.
End runs.

(** ** Properties *)

(** C14: over any number of timer interrupts, whatever the threads leave in
    the registers between them, every tick returns and the system stays one of
    a running thread and queued ready ones, with the same threads in all: none
    is lost, queued twice or left in another state. *)
Theorem ticks_keep_threads frames s c thc q (I : sys_inv s c thc q) (Hfuel : (1 <= fuel)%nat)
    (Hrounds : (31 * length (q ++ [c]) < rounds)%nat) :
  exists s' c' thc' q', ticks frames s = Ret tt s' /\ running_sys s' c' thc' q' /\ c' :: q' ≡ₚ c :: q.
Proof.
  destruct (tick_list_run Hfuel frames s c thc q I Hrounds) as (s' & c' & thc' & q' & E & [I' _] & Hp).
  by exists s', c', thc', q'.
Qed.

(** C13: no thread starves.  The thread in place [p] of the ready queue gets
    the processor after at most cooldown times the number of threads plus [p]
    plus one ticks, with the registers it was interrupted with, whatever the
    priorities and cooldowns of the others are. *)
Theorem no_thread_starves frames s c thc q p x th0 (I : sys_inv s c thc q) (Hfuel : (1 <= fuel)%nat)
    (Hrounds : (31 * length (q ++ [c]) < rounds)%nat) (Hx : q !! p = Some x)
    (Hth0 : threads s !! x = Some th0)
    (Hframes : (turns (Datatypes.S (length q)) p (cd (threads s) x) < length frames)%nat) :
  exists k s' thx q', (k <= Datatypes.S (turns (Datatypes.S (length q)) p (cd (threads s) x)))%nat /\
    ticks (take k frames) s = Ret tt s' /\ running_sys s' x thx q' /\ x :: q' ≡ₚ c :: q /\
    resumed s' x th0.
Proof.
  assert (El : length (q ++ [c]) = Datatypes.S (length q)) by (rewrite length_app; cbn; lia).
  destruct (turn_run Hfuel (turns (Datatypes.S (length q)) p (cd (threads s) x)) frames s c thc q p x
              (cd (threads s) x) th0) as (k & s' & thx & q' & Hk & E & [I' _] & Hp & Hr); try done.
  - intros ->. apply (rn_queue _ _ _ _ (si_run _ _ _ _ I)). by eapply list_elem_of_lookup_2.
  - unfold line, timed. rewrite list_lookup_fmap, lookup_app_l by (by eapply lookup_lt_Some). by rewrite Hx.
  - by rewrite El.
  - by exists k, s', thx, q'.
Qed.
End fairness.

(** ** Witnesses: the demonstration threads *)

Lemma demo_sys : sys_inv demo_tick 101 (demo_thread 1 THREAD_RUNNING NULL) [102].
Proof.
  split; [apply demo_running|]. intros x n H.
  repeat (apply elem_of_cons in H as [[= -> ->]|H]; [vm_compute; lia|]). by apply elem_of_nil in H.
Qed.

Lemma ticks_keep_threads_witness :
  exists s' c' thc' q', @ticks _ (heap_Kmem 1) 1 63 [context_zero; context_zero] demo_tick = Ret tt s' /\
    running_sys s' c' thc' q' /\ c' :: q' ≡ₚ [101; 102].
Proof.
  apply (@ticks_keep_threads _ (heap_Kmem 1) 1 63 [context_zero; context_zero] demo_tick 101
           (demo_thread 1 THREAD_RUNNING NULL) [102] demo_sys); [lia|cbn; lia].
Defined.

Lemma no_thread_starves_witness :
  exists k s' thx q', (k <= 1)%nat /\
    @ticks _ (heap_Kmem 1) 1 63 (take k [context_zero]) demo_tick = Ret tt s' /\
    running_sys s' 102 thx q' /\ 102 :: q' ≡ₚ [101; 102] /\
    resumed s' 102 (demo_thread 2 THREAD_READY NULL).
Proof.
  apply (@no_thread_starves _ (heap_Kmem 1) 1 63 [context_zero] demo_tick 101
           (demo_thread 1 THREAD_RUNNING NULL) [102] 0 102 _ demo_sys); [lia|cbn; lia|done|reflexivity|].
  vm_compute. lia.
Defined.
