(* ===== verification/Stubs.v ===== *)
(** * The assembly around the interrupt handlers (isr.asm)

    The instructions of the stubs as operations on a processor's registers and
    the 64-bit words of its memory, for this file, SwitchAsm.v and SyscallAsm.v.
    The theorems say that a C handler sees the interrupted registers as its
    [context_t] and that the processor resumes with whatever context the handler
    leaves. *)

From S2P Require Import Prelude SchedState.
Local Open Scope Z_scope.

Inductive reg :=
  | RAX | RBX | RCX | RDX | RSI | RDI | RBP | RSP | R8 | R9 | R10 | R11 | R12 | R13 | R14 | R15.

#[export] Instance reg_eq_dec : EqDecision reg.
Proof. solve_decision. Defined.

(** Memory is accessed in 64-bit words; [words] holds the one at each byte
    address, so two of them overlap when their addresses are less than 8
    apart. *)
Record cpu := Cpu {
  regs : reg -> Z;
  cpu_rip : Z;
  cpu_cs : Z;
  cpu_rflags : Z;
  cpu_ss : Z;
  words : Z -> Z;
}.

Definition put_reg (r : reg) (v : Z) (f : reg -> Z) : reg -> Z := fun x => if decide (x = r) then v else f x.

(** A word stored at [a], and what it makes of the words that overlap it: those
    above begin with its high bytes, those below end with its low bytes. *)
Definition put_word (a v : Z) (m : Z -> Z) : Z -> Z := fun x =>
  let d := 8 * (x - a) in
  if d =? 0 then v
  else if (0 <? d) && (d <? 64) then Z.lor (Z.shiftr v d) (Z.ldiff (m x) (Z.ones (64 - d)))
  else if (0 <? 0 - d) && (0 - d <? 64) then Z.lor (Z.land (m x) (Z.ones (0 - d))) (u64 (Z.shiftl v (0 - d)))
  else m x.

(** ** Instructions *)

Definition get (r : reg) : K cpu Z := kasks (fun s => regs s r).
Definition put (r : reg) (v : Z) : K cpu unit :=
  kmod (fun s => Cpu (put_reg r v (regs s)) (cpu_rip s) (cpu_cs s) (cpu_rflags s) (cpu_ss s) (words s)).
Definition load (a : Z) : K cpu Z := kasks (fun s => words s a).
Definition store (a v : Z) : K cpu unit :=
  kmod (fun s => Cpu (regs s) (cpu_rip s) (cpu_cs s) (cpu_rflags s) (cpu_ss s) (put_word a v (words s))).

Definition mov (d r : reg) : K cpu unit := v ← get r; put d v.
Definition push_value (v : Z) : K cpu unit :=
  sp ← get RSP; store (u64 (sp - 8)) v;; put RSP (u64 (sp - 8)).
Definition push (r : reg) : K cpu unit := v ← get r; push_value v.
Definition pop (r : reg) : K cpu unit :=
  sp ← get RSP; v ← load sp; put RSP (u64 (sp + 8));; put r v.
Definition add_rsp (n : Z) : K cpu unit := sp ← get RSP; put RSP (u64 (sp + n)).

(** A sequence of [push], [pop] or [mov] instructions. *)
Fixpoint each {X} (op : X -> K cpu unit) (xs : list X) : K cpu unit :=
  match xs with
  | [] => mret tt
  | x :: xs => op x;; each op xs
  end.

(** [call]: [ra] is the return address; the callee's [ret] must come back to
    it. *)
Definition call (ra : Z) (f : K cpu unit) : K cpu unit :=
  push_value ra;;
  f;;
  sp ← get RSP;
  a ← load sp;
  put RSP (u64 (sp + 8));;
  if a =? ra then mret tt else kstop Faulted.

Definition iretq : K cpu unit :=
  sp ← get RSP;
  i ← load sp; c ← load (u64 (sp + 8)); f ← load (u64 (sp + 16)); p ← load (u64 (sp + 24)); q ← load (u64 (sp + 32));
  kmod (fun s => Cpu (put_reg RSP p (regs s)) i c f q (words s)).

(** What the processor does to enter a gate: it changes to the stack [rsp0]
    when it comes from ring 3, aligns the stack, pushes what was interrupted
    and, for some exceptions, an error code, and turns interrupts off. *)
Definition deliver (rsp0 err : option Z) : K cpu unit :=
  old ← get RSP;
  s ← kget;
  let sp := default old rsp0 in
  put RSP (sp - sp mod 16);;
  each push_value ([cpu_ss s; old; cpu_rflags s; cpu_cs s; cpu_rip s] ++ option_list err);;
  kmod (fun s => Cpu (regs s) (cpu_rip s) KERNEL_CODE64 (Z.land (cpu_rflags s) (Z.lnot 0x200)) (cpu_ss s) (words s)).

(** ** The stubs *)

(** src/arch/x86_64/cpu/idt/isr.asm:74-88 [isr_common_stub] *)
Definition saved_regs : list reg :=
  [RAX; RBX; RCX; RDX; RSI; RDI; RBP; R8; R9; R10; R11; R12; R13; R14; R15].

(** The stub up to the call: the vector, and a zero where the processor is
    taken to push no error code.
    src/arch/x86_64/cpu/idt/isr.asm:9-89 [isr_common_stub] *)
Definition stub_entry (has_err : bool) (vector : Z) : K cpu unit :=
  kwhen (negb has_err) (push_value 0);;
  push_value vector;;
  each push saved_regs;;
  mov RDI RSP.

(** src/arch/x86_64/cpu/idt/isr.asm:91-107 [isr_common_stub] *)
Definition stub_exit : K cpu unit :=
  each pop (rev saved_regs);;
  add_rsp 16;;
  iretq.

(** The exceptions with [ISR_ERR].
    src/arch/x86_64/cpu/idt/isr.asm:30-49 [ISR_NOERR] *)
Definition isr_has_err (vector : Z) : bool := bool_decide (vector ∈ [8; 10; 11; 12; 13; 14]).

(** src/arch/x86_64/cpu/idt/isr.asm:73-107 [isr_common_stub] *)
Definition isr_stub (vector ra : Z) (isr_handler : K cpu unit) : K cpu unit :=
  stub_entry (isr_has_err vector) vector;; call ra isr_handler;; stub_exit.

(** src/arch/x86_64/cpu/idt/isr.asm:109-143 [irq_common_stub] *)
Definition irq_stub (vector ra : Z) (irq_handler : K cpu unit) : K cpu unit :=
  stub_entry false vector;; call ra irq_handler;; stub_exit.

(** ** Registers and memory words *)

Lemma put_reg_eq r v f : put_reg r v f r = v.
Proof. unfold put_reg. by rewrite decide_True. Qed.

Lemma put_reg_ne r v f x : x <> r -> put_reg r v f x = f x.
Proof. intros H. unfold put_reg. by rewrite decide_False. Qed.

Lemma put_word_eq a v m : put_word a v m a = v.
Proof. unfold put_word. by rewrite Z.sub_diag. Qed.

Lemma put_word_ne a v m x : x + 8 <= a \/ a + 8 <= x -> put_word a v m x = m x.
Proof.
  intros H. unfold put_word. cbv zeta.
  rewrite (proj2 (Z.eqb_neq _ _)), (proj2 (andb_false_iff (0 <? _) _)), (proj2 (andb_false_iff (0 <? 0 - _) _)) by lia.
  done.
Qed.

(** The word of [n] bytes. *)
Fixpoint le_word (n : nat) (byte : Z -> Z) : Z :=
  match n with
  | O => 0
  | Datatypes.S n => byte 0 + 256 * le_word n (fun k => byte (k + 1))
  end.

(** Each bit of the memory is in one place: the bit [i] of the word at [x] is
    the bit [8 * x + i], whichever word it is read from. *)
Definition coherent (m : Z -> Z) : Prop :=
  (forall x, 0 <= m x < 2 ^ 64) /\
  forall x y i j, 0 <= i < 64 -> 0 <= j < 64 -> 8 * x + i = 8 * y + j -> Z.testbit (m x) i = Z.testbit (m y) j.

Lemma bits64_high v i : 0 <= v < 2 ^ 64 -> 64 <= i -> Z.testbit v i = false.
Proof. intros Hv Hi. by rewrite <- (Z.mod_small v (2 ^ 64) Hv), Z.mod_pow2_bits_high by lia. Qed.

Lemma bits64 v : (forall i, 64 <= i -> Z.testbit v i = false) -> 0 <= v < 2 ^ 64.
Proof.
  intros H. replace v with (v mod 2 ^ 64); [apply Z.mod_pos_bound; lia|].
  apply Z.bits_inj'. intros i Hi. destruct (Z.lt_ge_cases i 64).
  - by rewrite Z.mod_pow2_bits_low by lia.
  - by rewrite Z.mod_pow2_bits_high, H by lia.
Qed.

Lemma put_word_bit a v m x i : 0 <= v < 2 ^ 64 -> 0 <= i < 64 ->
  Z.testbit (put_word a v m x) i
  = if decide (0 <= 8 * (x - a) + i < 64) then Z.testbit v (8 * (x - a) + i) else Z.testbit (m x) i.
Proof.
  intros Hv Hi. unfold put_word. cbv zeta. set (d := 8 * (x - a)).
  destruct (Z.eqb_spec d 0) as [->|H0]; [by rewrite decide_True|].
  destruct ((0 <? d) && (d <? 64)) eqn:H1; [|destruct ((0 <? 0 - d) && (0 - d <? 64)) eqn:H2].
  - rewrite Z.lor_spec, Z.shiftr_spec, Z.ldiff_spec, Z.testbit_ones_nonneg by lia.
    replace (i + d) with (d + i) by lia. destruct (decide (0 <= d + i < 64)).
    + rewrite (proj2 (Z.ltb_lt i (64 - d))) by lia. by rewrite andb_false_r, orb_false_r.
    + rewrite (proj2 (Z.ltb_ge i (64 - d))) by lia. rewrite andb_true_r.
      by rewrite bits64_high by (done || lia).
  - change (u64 (Z.shiftl v (0 - d))) with (Z.shiftl v (0 - d) mod 2 ^ 64).
    rewrite Z.lor_spec, Z.land_spec, Z.testbit_ones_nonneg, Z.mod_pow2_bits_low, Z.shiftl_spec by lia.
    replace (i - (0 - d)) with (d + i) by lia. destruct (decide (0 <= d + i < 64)).
    + rewrite (proj2 (Z.ltb_ge i (0 - d))) by lia. by rewrite andb_false_r.
    + rewrite (proj2 (Z.ltb_lt i (0 - d))) by lia. rewrite andb_true_r, (Z.testbit_neg_r v) by lia. apply orb_false_r.
  - by rewrite decide_False by lia.
Qed.

(** Stores keep it so. *)
Lemma put_word_coherent a v m : 0 <= v < 2 ^ 64 -> coherent m -> coherent (put_word a v m).
Proof.
  intros Hv [Hr Hm]. split.
  - intros x. unfold put_word. cbv zeta.
    destruct (_ =? _); [done|]. destruct ((0 <? 8 * (x - a)) && _) eqn:H1; [|destruct ((0 <? 0 - 8 * (x - a)) && _) eqn:H2; [|apply Hr]];
      apply bits64; intros i Hi; rewrite Z.lor_spec.
    + rewrite Z.shiftr_spec, Z.ldiff_spec by lia. rewrite !bits64_high by (apply Hr || lia). done.
    + rewrite Z.land_spec, bits64_high by (apply Hr || lia). change (u64 ?z) with (z mod 2 ^ 64).
      by rewrite Z.mod_pow2_bits_high by lia.
  - intros x y i j Hi Hj E. rewrite !put_word_bit by done. replace (8 * (y - a) + j) with (8 * (x - a) + i) by lia.
    destruct (decide _); [done|]. by apply Hm.
Qed.

(** The lemmas above are all that is used of it. *)
#[global] Opaque put_word.

(** The words after [vs] were pushed, one after the other, on the stack at
    [sp]. *)
Fixpoint stacked (m : Z -> Z) (sp : Z) (vs : list Z) : Z -> Z :=
  match vs with
  | [] => m
  | v :: vs => stacked (put_word (sp - 8) v m) (sp - 8) vs
  end.

Lemma stacked_out vs : forall m sp a, sp <= a \/ a + 8 <= sp - 8 * Z.of_nat (length vs) -> stacked m sp vs a = m a.
Proof.
  induction vs as [|v vs IH]; intros m sp a Ha; [done|]. cbn [stacked length] in *.
  rewrite IH by lia. apply put_word_ne. lia.
Qed.

Lemma stacked_in vs : forall m sp i v, vs !! i = Some v -> stacked m sp vs (sp - 8 * Z.of_nat i - 8) = v.
Proof.
  induction vs as [|w vs IH]; intros m sp i v Hi; [done|]. cbn [stacked].
  destruct i as [|i]; cbn in Hi.
  - injection Hi as ->. rewrite stacked_out by lia. replace (sp - 8 * Z.of_nat 0 - 8) with (sp - 8) by lia.
    apply put_word_eq.
  - replace (sp - 8 * Z.of_nat (Datatypes.S i) - 8) with (sp - 8 - 8 * Z.of_nat i - 8) by lia. by apply IH.
Qed.

(** The words are popped in the opposite order. *)
Lemma stacked_rev {X} (f : X -> Z) xs m sp i x : rev xs !! i = Some x ->
  stacked m sp (map f xs) (sp - 8 * Z.of_nat (length xs) + 8 * Z.of_nat i) = f x.
Proof.
  rewrite rev_alt. intros [Hx Hi]%reverse_lookup_Some.
  replace (sp - 8 * Z.of_nat (length xs) + 8 * Z.of_nat i)
    with (sp - 8 * Z.of_nat (length xs - Datatypes.S i) - 8) by lia.
  apply stacked_in. change (map f xs) with (f <$> xs). by rewrite list_lookup_fmap, Hx.
Qed.

Lemma stacked_app m sp vs ws :
  stacked m sp (vs ++ ws) = stacked (stacked m sp vs) (sp - 8 * Z.of_nat (length vs)) ws.
Proof.
  revert m sp. induction vs as [|v vs IH]; intros m sp; cbn [app stacked length].
  - by rewrite Z.sub_0_r.
  - rewrite IH. f_equal. lia.
Qed.

(** ** Runs of the stack instructions *)

(** Membership in lists of registers, without the hypotheses on runs. *)
Ltac reg_set :=
  solve [ clear; set_solver
        | repeat match goal with H : _ = Ret _ _ |- _ => clear H | H : words _ = _ |- _ => clear H end; set_solver ].

(** [s'] is [s] but for the stack pointer, the memory and what [r] admits. *)
Record stepped (touched : list reg) (s s' : cpu) : Prop := {
  st_regs r : r ∉ touched -> regs s' r = regs s r;
  st_rip : cpu_rip s' = cpu_rip s;
  st_cs : cpu_cs s' = cpu_cs s;
  st_rflags : cpu_rflags s' = cpu_rflags s;
  st_ss : cpu_ss s' = cpu_ss s;
}.

Lemma stepped_refl l s : stepped l s s.
Proof. by split. Qed.

Lemma stepped_trans l s s1 s2 : stepped l s s1 -> stepped l s1 s2 -> stepped l s s2.
Proof. intros [R1 ? ? ? ?] [R2 ? ? ? ?]. split; [|congruence..]. intros r Hr. by rewrite R2, R1. Qed.

Lemma stepped_weaken l l' s s' : l ⊆ l' -> stepped l s s' -> stepped l' s s'.
Proof. intros Hl [R ? ? ? ?]. split; [|done..]. intros r Hr. apply R. reg_set. Qed.

Lemma store_run a v s :
  store a v s = Ret tt (Cpu (regs s) (cpu_rip s) (cpu_cs s) (cpu_rflags s) (cpu_ss s) (put_word a v (words s))).
Proof. reflexivity. Qed.

Lemma load_run a s : load a s = Ret (words s a) s.
Proof. reflexivity. Qed.

Lemma push_value_run v s sp : regs s RSP = sp -> 8 <= sp <= 2 ^ 64 ->
  exists s', push_value v s = Ret tt s' /\ stepped [RSP] s s' /\ regs s' RSP = sp - 8 /\
    words s' = put_word (sp - 8) v (words s).
Proof.
  intros Hsp Hr. unfold push_value. rewrite (kbind_ret _ _ s sp s) by (unfold get, kasks; by rewrite Hsp).
  rewrite wrap_small by lia.
  rewrite (kbind_ret _ _ _ _ _ (store_run _ _ _)).
  eexists. split; [reflexivity|]. split; [|split; [|done]].
  - split; [|done..]. intros r Hr'. cbn. apply put_reg_ne. reg_set.
  - cbn. apply put_reg_eq.
Qed.

Lemma each_push_value_run vs : forall s sp, regs s RSP = sp -> 8 * Z.of_nat (length vs) <= sp <= 2 ^ 64 ->
  exists s', each push_value vs s = Ret tt s' /\ stepped [RSP] s s' /\
    regs s' RSP = sp - 8 * Z.of_nat (length vs) /\ words s' = stacked (words s) sp vs.
Proof.
  induction vs as [|v vs IH]; intros s sp Hsp Hr.
  - exists s. split; [done|]. split; [apply stepped_refl|]. cbn. split; [lia|done].
  - cbn [length] in Hr. destruct (push_value_run v s sp Hsp) as (s1 & R1 & S1 & H1 & W1); [lia|].
    destruct (IH s1 (sp - 8)) as (s2 & R2 & S2 & H2 & W2); [done|lia|].
    exists s2. split; [|split; [by eapply stepped_trans|]].
    + cbn [each]. by rewrite (kbind_ret _ _ s tt s1 R1).
    + split; [cbn [length]; lia|]. by rewrite W2, W1.
Qed.

(** Pushing registers is pushing what they hold. *)
Lemma each_push_run rs : forall s sp, RSP ∉ rs -> regs s RSP = sp ->
  8 * Z.of_nat (length rs) <= sp <= 2 ^ 64 ->
  exists s', each push rs s = Ret tt s' /\ stepped [RSP] s s' /\
    regs s' RSP = sp - 8 * Z.of_nat (length rs) /\ words s' = stacked (words s) sp (map (regs s) rs).
Proof.
  intros s sp Hn Hsp Hr. revert s sp Hsp Hr. induction rs as [|r rs IH]; intros s sp Hsp Hr.
  - exists s. split; [done|]. split; [apply stepped_refl|]. cbn. split; [lia|done].
  - cbn [length] in Hr. destruct (push_value_run (regs s r) s sp Hsp) as (s1 & R1 & S1 & H1 & W1); [lia|].
    destruct (IH ltac:(reg_set) s1 (sp - 8)) as (s2 & R2 & S2 & H2 & W2); [done|lia|].
    exists s2. split; [|split; [by eapply stepped_trans|]].
    + cbn [each]. by rewrite (kbind_ret (push r) _ s tt s1 R1).
    + split; [cbn [length]; lia|]. rewrite W2, W1. cbn [map stacked]. f_equal.
      apply map_ext_in. intros x Hx. apply (st_regs _ _ _ S1). intros ->%list_elem_of_singleton.
      apply Hn. right. by apply list_elem_of_In.
Qed.

Lemma pop_reg_run r s sp : r <> RSP -> regs s RSP = sp -> 0 <= sp < 2 ^ 64 - 8 ->
  exists s', pop r s = Ret tt s' /\ stepped [RSP; r] s s' /\ regs s' RSP = sp + 8 /\
    regs s' r = words s sp /\ words s' = words s.
Proof.
  intros Hn Hsp Hr. unfold pop. rewrite (kbind_ret _ _ s sp s) by (unfold get, kasks; by rewrite Hsp).
  rewrite (kbind_ret _ _ _ _ _ (load_run _ _)).
  eexists. split; [reflexivity|]. cbn. rewrite wrap_small by lia.
  split; [|split; [|split; [apply put_reg_eq|done]]].
  - split; [|done..]. intros x Hx. cbn. rewrite !put_reg_ne by reg_set. done.
  - rewrite put_reg_ne by done. apply put_reg_eq.
Qed.

Lemma each_pop_run rs : forall s sp, NoDup rs -> RSP ∉ rs -> regs s RSP = sp ->
  0 <= sp -> sp + 8 * Z.of_nat (length rs) < 2 ^ 64 ->
  exists s', each pop rs s = Ret tt s' /\ stepped (RSP :: rs) s s' /\
    regs s' RSP = sp + 8 * Z.of_nat (length rs) /\
    (forall i r, rs !! i = Some r -> regs s' r = words s (sp + 8 * Z.of_nat i)) /\ words s' = words s.
Proof.
  induction rs as [|r rs IH]; intros s sp Hd Hn Hsp H0 Hr.
  - exists s. split; [done|]. split; [apply stepped_refl|]. cbn. split; [lia|]. split; [|done].
    intros i r. done.
  - apply NoDup_cons in Hd as [Hrn Hd]. cbn [length] in Hr.
    destruct (pop_reg_run r s sp) as (s1 & R1 & S1 & H1 & V1 & W1); [reg_set|done|lia|].
    destruct (IH s1 (sp + 8)) as (s2 & R2 & S2 & H2 & V2 & W2); [done|reg_set|done|lia|lia|].
    exists s2. split; [|split; [|split; [|split]]].
    + cbn [each]. rewrite (kbind_ret _ _ s tt s1 R1). exact R2.
    + eapply stepped_trans; (eapply stepped_weaken; [|eassumption]); reg_set.
    + cbn [length]. lia.
    + intros [|i] x Hx; cbn in Hx.
      * injection Hx as <-. rewrite (st_regs _ _ _ S2) by reg_set. rewrite V1. f_equal. lia.
      * rewrite (V2 i x Hx), W1. f_equal. lia.
    + by rewrite W2, W1.
Qed.

(** ** The frame on the stack *)

(** The [context_t] at an address. *)
Definition read_context (m : Z -> Z) (a : Z) : context_t :=
  Context_t (m a) (m (a + 8)) (m (a + 16)) (m (a + 24)) (m (a + 32)) (m (a + 40)) (m (a + 48)) (m (a + 56))
    (m (a + 64)) (m (a + 72)) (m (a + 80)) (m (a + 88)) (m (a + 96)) (m (a + 104)) (m (a + 112)) (m (a + 120))
    (m (a + 128)) (m (a + 136)) (m (a + 144)) (m (a + 152)) (m (a + 160)) (m (a + 168)).

(** The processor's registers as a [context_t]. *)
Definition cpu_context (vector err : Z) (s : cpu) : context_t :=
  Context_t (regs s R15) (regs s R14) (regs s R13) (regs s R12) (regs s R11) (regs s R10) (regs s R9) (regs s R8)
    (regs s RBP) (regs s RDI) (regs s RSI) (regs s RDX) (regs s RCX) (regs s RBX) (regs s RAX) vector err
    (cpu_rip s) (cpu_cs s) (cpu_rflags s) (regs s RSP) (cpu_ss s).

Lemma iretq_run s sp : regs s RSP = sp -> 0 <= sp < 2 ^ 64 - 40 ->
  iretq s = Ret tt (Cpu (put_reg RSP (words s (sp + 24)) (regs s)) (words s sp) (words s (sp + 8))
                      (words s (sp + 16)) (words s (sp + 32)) (words s)).
Proof.
  intros Hsp Hr. unfold iretq. rewrite (kbind_ret _ _ s sp s) by (unfold get, kasks; by rewrite Hsp).
  rewrite !wrap_small by lia.
  rewrite !(kbind_ret _ _ _ _ _ (load_run _ _)). reflexivity.
Qed.

Lemma add_rsp_run n s sp : regs s RSP = sp -> 0 <= sp + n < 2 ^ 64 ->
  exists s', add_rsp n s = Ret tt s' /\ stepped [RSP] s s' /\ regs s' RSP = sp + n /\ words s' = words s.
Proof.
  intros Hsp Hr. unfold add_rsp. rewrite (kbind_ret _ _ s sp s) by (unfold get, kasks; by rewrite Hsp).
  rewrite wrap_small by lia. eexists. split; [reflexivity|]. split; [|split; [apply put_reg_eq|done]].
  split; [|done..]. intros r Hr'. cbn. apply put_reg_ne. reg_set.
Qed.

Lemma saved_regs_rev_nodup : NoDup (rev saved_regs).
Proof. apply (bool_decide_unpack _). reflexivity. Qed.

(** The way out loads the frame at the stack pointer. *)
Lemma stub_exit_run s sp : regs s RSP = sp -> 0 <= sp < 2 ^ 64 - 176 ->
  exists s', stub_exit s = Ret tt s' /\ words s' = words s /\
    cpu_context (words s (sp + 120)) (words s (sp + 128)) s' = read_context (words s) sp.
Proof.
  intros Hsp Hr. unfold stub_exit.
  destruct (each_pop_run (rev saved_regs) s sp saved_regs_rev_nodup) as (s1 & R1 & S1 & H1 & V1 & W1);
    [reg_set|done|lia|change (length (rev saved_regs)) with 15%nat; lia|].
  change (length (rev saved_regs)) with 15%nat in H1. rewrite (kbind_ret _ _ s tt s1 R1).
  destruct (add_rsp_run 16 s1 _ H1) as (s2 & R2 & S2 & H2 & W2); [lia|]. rewrite (kbind_ret _ _ s1 tt s2 R2).
  rewrite (iretq_run s2 _ H2) by lia. eexists. split; [reflexivity|]. cbn [words]. rewrite W2, W1.
  split; [done|]. unfold cpu_context, read_context. cbn [regs cpu_rip cpu_cs cpu_rflags cpu_ss].
  rewrite put_reg_eq, !put_reg_ne by done. rewrite !(st_regs _ _ _ S2) by reg_set.
  pose proof (fun i r => V1 i r) as V. unfold saved_regs in V. cbn [rev app] in V.
  rewrite (V 0%nat R15 eq_refl), (V 1%nat R14 eq_refl), (V 2%nat R13 eq_refl), (V 3%nat R12 eq_refl),
    (V 4%nat R11 eq_refl), (V 5%nat R10 eq_refl), (V 6%nat R9 eq_refl), (V 7%nat R8 eq_refl),
    (V 8%nat RBP eq_refl), (V 9%nat RDI eq_refl), (V 10%nat RSI eq_refl), (V 11%nat RDX eq_refl),
    (V 12%nat RCX eq_refl), (V 13%nat RBX eq_refl), (V 14%nat RAX eq_refl).
  f_equal; f_equal; lia.
Qed.

(** ** Interrupts *)

(** The stack a gate is entered on. *)
Definition gate_top (rsp0 : option Z) (s : cpu) : Z :=
  let sp := default (regs s RSP) rsp0 in sp - sp mod 16.

(** What the processor pushes. *)
Definition gate_words (err : option Z) (s : cpu) : list Z :=
  [cpu_ss s; regs s RSP; cpu_rflags s; cpu_cs s; cpu_rip s] ++ option_list err.

(** What a stub pushes on top. *)
Definition stub_words (has_err : bool) (vector : Z) (s : cpu) : list Z :=
  (if has_err then [] else [0]) ++ vector :: map (regs s) saved_regs.

Lemma deliver_run rsp0 err s top : gate_top rsp0 s = top -> 512 <= top <= 2 ^ 64 ->
  exists s', deliver rsp0 err s = Ret tt s' /\
    (forall r, r <> RSP -> regs s' r = regs s r) /\
    regs s' RSP = top - 8 * Z.of_nat (length (gate_words err s)) /\
    words s' = stacked (words s) top (gate_words err s) /\ cpu_cs s' = KERNEL_CODE64 /\
    cpu_rflags s' = Z.land (cpu_rflags s) (Z.lnot 0x200).
Proof.
  intros Ht Hr. unfold deliver. rewrite (kbind_ret (get RSP) _ s (regs s RSP) s) by reflexivity.
  rewrite (kbind_ret kget _ s s s) by reflexivity. cbv zeta. fold (gate_words err s).
  change (default (regs s RSP) rsp0 - default (regs s RSP) rsp0 mod 16) with (gate_top rsp0 s). rewrite Ht.
  set (s1 := Cpu (put_reg RSP top (regs s)) (cpu_rip s) (cpu_cs s) (cpu_rflags s) (cpu_ss s) (words s)).
  rewrite (kbind_ret _ _ s tt s1) by reflexivity.
  destruct (each_push_value_run (gate_words err s) s1 top) as (s2 & R2 & S2 & H2 & W2).
  { apply put_reg_eq. }
  { destruct err; cbn; lia. }
  rewrite (kbind_ret _ _ s1 tt s2 R2). eexists. split; [reflexivity|]. cbn.
  split; [|split; [done|split; [done|split; [done|by rewrite (st_rflags _ _ _ S2)]]]].
  intros r Hr'. rewrite (st_regs _ _ _ S2) by reg_set. by apply put_reg_ne.
Qed.

Lemma stub_entry_run he n s sp : regs s RSP = sp -> 256 <= sp <= 2 ^ 64 ->
  exists s', stub_entry he n s = Ret tt s' /\ stepped [RSP; RDI] s s' /\
    regs s' RSP = sp - 8 * Z.of_nat (length (stub_words he n s)) /\ regs s' RDI = regs s' RSP /\
    words s' = stacked (words s) sp (stub_words he n s).
Proof.
  intros Hsp Hr. unfold stub_entry, stub_words.
  assert (exists s1, kwhen (negb he) (push_value 0) s = Ret tt s1 /\ stepped [RSP] s s1 /\
    regs s1 RSP = sp - 8 * Z.of_nat (length (if he then [] else [0])) /\
    words s1 = stacked (words s) sp (if he then [] else [0])) as (s1 & R1 & S1 & H1 & W1).
  { destruct he; cbn; [exists s; split; [done|]; split; [apply stepped_refl|]; split; [lia|done]|].
    apply push_value_run; [done|lia]. }
  rewrite (kbind_ret _ _ s tt s1 R1).
  set (sp1 := sp - 8 * Z.of_nat (length (if he then [] else [0]))) in *.
  assert (Hb : sp - 8 <= sp1 <= sp) by (destruct he; cbn in sp1; lia).
  destruct (push_value_run n s1 sp1 H1) as (s2 & R2 & S2 & H2 & W2); [lia|].
  rewrite (kbind_ret _ _ s1 tt s2 R2).
  destruct (each_push_run saved_regs s2 (sp1 - 8)) as (s3 & R3 & S3 & H3 & W3);
    [reg_set|done|change (length saved_regs) with 15%nat; lia|].
  rewrite (kbind_ret _ _ s2 tt s3 R3). eexists. split; [reflexivity|]. cbn.
  assert (S : stepped [RSP] s s3) by (eapply stepped_trans; [|exact S3]; eapply stepped_trans; eassumption).
  split; [|split; [|split]].
  - destruct S as [R ? ? ? ?]. split; [|done..]. intros r Hr'. cbn. rewrite put_reg_ne by reg_set.
    apply R. reg_set.
  - rewrite put_reg_ne by done. rewrite H3. change (length saved_regs) with 15%nat.
    unfold sp1. destruct he; cbn; lia.
  - by rewrite put_reg_eq, put_reg_ne by done.
  - assert (Em : map (regs s2) saved_regs = map (regs s) saved_regs).
    { apply map_ext_in. intros r Hin.
      assert (r <> RSP) by (intros ->; apply list_elem_of_In in Hin; reg_set).
      rewrite (st_regs _ _ _ S2), (st_regs _ _ _ S1) by reg_set. done. }
    rewrite W3, W2, W1, Em, stacked_app. reflexivity.
Qed.

Lemma stacked_at i m sp vs a v : vs !! i = Some v -> a = sp - 8 * Z.of_nat i - 8 -> stacked m sp vs a = v.
Proof. intros Hi ->. by apply stacked_in. Qed.

Ltac stacked_word i := first [apply (stacked_at i); [reflexivity|lia] | stacked_word (Datatypes.S i)].

(** The last 22 words pushed are a [context_t]. *)
Lemma read_context_stacked m sp v0 v1 v2 v3 v4 v5 v6 v7 v8 v9 v10 v11 v12 v13 v14 v15 v16 v17 v18 v19 v20 v21 :
  read_context (stacked m sp
    [v0; v1; v2; v3; v4; v5; v6; v7; v8; v9; v10; v11; v12; v13; v14; v15; v16; v17; v18; v19; v20; v21]) (sp - 176)
  = Context_t v21 v20 v19 v18 v17 v16 v15 v14 v13 v12 v11 v10 v9 v8 v7 v6 v5 v4 v3 v2 v1 v0.
Proof. unfold read_context. f_equal; stacked_word 0%nat. Qed.

(** The frame's words: what the processor and the stub push. *)
Definition frame_words (err : option Z) (has_err : bool) (vector : Z) (s : cpu) : list Z :=
  gate_words err s ++ stub_words has_err vector s.

Lemma enter_run rsp0 err he n s top : gate_top rsp0 s = top -> 512 <= top <= 2 ^ 64 ->
  exists s', (deliver rsp0 err;; stub_entry he n) s = Ret tt s' /\ regs s' RDI = regs s' RSP /\
    regs s' RSP = top - 8 * Z.of_nat (length (frame_words err he n s)) /\
    words s' = stacked (words s) top (frame_words err he n s).
Proof.
  intros Ht Hr. destruct (deliver_run rsp0 err s top Ht Hr) as (s1 & R1 & G1 & H1 & W1 & _).
  assert (Hl : (length (gate_words err s) <= 6)%nat) by (destruct err; cbn; lia).
  destruct (stub_entry_run he n s1 _ H1) as (s2 & R2 & S2 & H2 & D2 & W2); [lia|].
  assert (Es : stub_words he n s1 = stub_words he n s).
  { unfold stub_words. do 2 f_equal. apply map_ext_in. intros r Hin. apply G1.
    intros ->. apply list_elem_of_In in Hin. reg_set. }
  exists s2. rewrite (kbind_ret _ _ s tt s1 R1). split; [done|]. split; [done|]. unfold frame_words.
  rewrite length_app, stacked_app, <- Es, <- W1. split; [lia|done].
Qed.

(** The frame when the stub agrees with the processor on the error code. *)
Lemma frame_context m top err he n s : he = bool_decide (err <> None) ->
  read_context (stacked m top (frame_words err he n s)) (top - 8 * Z.of_nat (length (frame_words err he n s)))
  = cpu_context n (default 0 err) s.
Proof. intros ->. destruct err as [e|]; exact (read_context_stacked _ _ _ _ _ _ _ _ _ _ _ _ _ _ _ _ _ _ _ _ _ _ _ _). Qed.

Definition context_bounds (f : Z) : Prop := f mod 16 = 0 /\ 256 <= f < 2 ^ 64 - 256.

(** What a stub relies on in the C function it calls: it returns with the stack
    as it found it and turns the frame [c] at [f] into [c'], where [m] is the
    memory outside of the frame. *)
Definition c_handles (ra : Z) (m : Z -> Z) (f : Z) (c : context_t) (h : K cpu unit) (c' : context_t) : Prop :=
  forall s, context_bounds f -> regs s RDI = f -> regs s RSP = f - 8 -> words s (f - 8) = ra ->
  (forall x, x + 8 <= f - 8 \/ f + 176 <= x -> words s x = m x) -> read_context (words s) f = c ->
  exists s', h s = Ret tt s' /\ regs s' RSP = f - 8 /\ words s' (f - 8) = ra /\ read_context (words s') f = c'.

(** ... and does [g] to any frame. *)
Definition c_handler (ra : Z) (m : Z -> Z) (f : Z) (h : K cpu unit) (g : context_t -> context_t) : Prop :=
  forall c, c_handles ra m f c h (g c).

Lemma call_run ra m h c' s f : c_handles ra m f (read_context (words s) f) h c' -> context_bounds f ->
  regs s RDI = f -> regs s RSP = f -> (forall x, x + 8 <= f \/ f + 176 <= x -> words s x = m x) ->
  exists s', call ra h s = Ret tt s' /\ regs s' RSP = f /\ read_context (words s') f = c'.
Proof.
  intros Hh Hb Hd Hs Hm. pose proof Hb as [Ha Hr]. unfold call.
  destruct (push_value_run ra s f Hs) as (s1 & R1 & S1 & H1 & W1); [lia|].
  rewrite (kbind_ret _ _ s tt s1 R1).
  destruct (Hh s1 Hb) as (s2 & R2 & H2 & W2 & C2); [|done| | | |].
  { by rewrite (st_regs _ _ _ S1) by reg_set. }
  { by rewrite W1, put_word_eq. }
  { intros x Hx. rewrite W1, put_word_ne by lia. apply Hm. lia. }
  { rewrite W1. unfold read_context. rewrite !put_word_ne by lia. done. }
  rewrite (kbind_ret _ _ s1 tt s2 R2).
  rewrite (kbind_ret (get RSP) _ s2 (f - 8) s2) by (unfold get, kasks; by rewrite H2).
  rewrite (kbind_ret (load (f - 8)) _ s2 ra s2) by (rewrite load_run; by rewrite W2).
  rewrite Z.eqb_refl, Z.sub_add, wrap_small by lia.
  eexists. split; [reflexivity|]. split; [apply put_reg_eq|]. exact C2.
Qed.

(** Around an interrupt. *)
Lemma irq_stub_run rsp0 vector ra h c' s :
  512 <= gate_top rsp0 s < 2 ^ 64 - 256 ->
  c_handles ra (words s) (gate_top rsp0 s - 176) (cpu_context vector 0 s) h c' ->
  exists s', (deliver rsp0 None;; irq_stub vector ra h) s = Ret tt s' /\
    cpu_context (int_no c') (err_code c') s' = c'.
Proof.
  intros Htop Hh. set (top := gate_top rsp0 s) in *.
  destruct (enter_run rsp0 None false vector s top eq_refl) as (s1 & R1 & D1 & H1 & W1); [lia|].
  set (f := top - 8 * Z.of_nat (length (frame_words None false vector s))) in *.
  assert (Ef : f = top - 176) by (unfold f; cbn; lia).
  assert (Hb : context_bounds f).
  { split; [|lia]. rewrite Ef. unfold top, gate_top. zdiv. }
  assert (Ec : read_context (words s1) f = cpu_context vector 0 s) by (rewrite W1; unfold f; by rewrite frame_context).
  destruct (call_run ra (words s) h c' s1 f) as (s2 & R2 & H2 & C2); [by rewrite Ec, Ef|done|congruence|done| |].
  { intros x Hx. rewrite W1. apply stacked_out. cbn. lia. }
  destruct (stub_exit_run s2 f H2) as (s3 & R3 & W3 & C3); [destruct Hb; lia|].
  exists s3. split.
  - unfold irq_stub. rewrite (kbind_ret2 _ _ _ _ _ _ R1). rewrite (kbind_ret _ _ s1 tt s2 R2). exact R3.
  - rewrite <- C2. exact C3.
Qed.

(** Around an interrupt, the handler's [context_t] holds the interrupted
    registers, the vector and a zero error code, on a stack aligned as C calls
    require, and the processor goes on with exactly the context the handler
    leaves in the frame. *)
Theorem irq_stub_resumes_frame rsp0 vector ra h g s
    (Htop : 512 <= gate_top rsp0 s < 2 ^ 64 - 256)
    (Hh : c_handler ra (words s) (gate_top rsp0 s - 176) h g) :
  exists s', (deliver rsp0 None;; irq_stub vector ra h) s = Ret tt s' /\
    let c := g (cpu_context vector 0 s) in cpu_context (int_no c) (err_code c) s' = c.
Proof. exact (irq_stub_run rsp0 vector ra h _ s Htop (Hh _)). Qed.

(** A memory whose byte at each address is the low byte of the address. *)
Example ramp : Z -> Z := fun a => le_word 8 (fun k => (a + k) mod 256).

(** A handler that sends the interrupted program to another address. *)
Example skip_handler : K cpu unit := a ← get RDI; store (a + 136) 0x2000.
Example idle_cpu : cpu := Cpu (fun r => if decide (r = RSP) then 0x8FF8 else 7) 0x1000 KERNEL_CODE64 0x202 KERNEL_DATA64 (fun _ => 0).

Lemma skip_handler_ok ra m f :
  c_handler ra m f skip_handler (fun c => Context_t (r15 c) (r14 c) (r13 c) (r12 c) (r11 c) (r10 c) (r9 c) (r8 c) (rbp c)
    (rdi c) (rsi c) (rdx c) (rcx c) (rbx c) (rax c) (int_no c) (err_code c) 0x2000 (cs c) (rflags c) (rsp c) (ss c)).
Proof.
  intros c s [Ha Hr] Hd Hs Hra _ <-. unfold skip_handler.
  rewrite (kbind_ret (get RDI) _ s f s) by (unfold get, kasks; by rewrite Hd).
  eexists. split; [apply store_run|]. cbn [regs words]. split; [done|]. split; [by rewrite put_word_ne by lia|].
  unfold read_context. rewrite put_word_eq, !put_word_ne by lia. done.
Qed.

Lemma irq_stub_resumes_frame_witness :
  exists s', (deliver None None;; irq_stub 32 0x4000 skip_handler) idle_cpu = Ret tt s' /\
    cpu_rip s' = 0x2000 /\ regs s' RSP = 0x8FF8 /\ regs s' RAX = 7.
Proof.
  destruct (irq_stub_resumes_frame None 32 0x4000 skip_handler _ idle_cpu ltac:(split; vm_compute; congruence) (skip_handler_ok _ _ _))
    as (s' & R & C).
  exists s'. split; [exact R|]. unfold cpu_context in C. cbn in C. injection C as ? ? ? ? ? ? ? ? ? ? ? ? ? ? Hax Hip ? ? Hsp ?.
  exact (conj Hip (conj Hsp Hax)).
Defined.

(** ** Exceptions *)

(** The exceptions for which the processor pushes an error code. *)
Definition cpu_err (vector e : Z) : option Z :=
  if bool_decide (vector ∈ [8; 10; 11; 12; 13; 14; 17; 21; 29; 30]) then Some e else None.

(** The stub agrees with the processor on every gate but one. *)
Lemma isr_has_err_agrees vector e : 0 <= vector < 20 -> vector <> 17 ->
  isr_has_err vector = bool_decide (cpu_err vector e <> None).
Proof. intros Hv H. destruct vector as [|p|p]; [done| |lia]. do 5 (destruct p as [p|p|]; [try lia..|]; try done; try lia). Qed.

Lemma frame_length err he n s :
  length (frame_words err he n s) = (21 + length (option_list err) + (if he then 0 else 1))%nat.
Proof. destruct err, he; reflexivity. Qed.

(** C39: the handler of an exception sees the interrupted registers, the vector
    and the error code the processor pushed, for every gate [init_idt] sets up
    but that of the alignment check: there the processor's error code makes
    the frame lie one word off, so that the report shows the error code as
    RIP, RIP as CS, and 0 as the error code, and the call is not aligned. *)
Theorem isr_stub_frames rsp0 vector e s
    (Hv : 0 <= vector < 20) (Htop : 512 <= gate_top rsp0 s < 2 ^ 64 - 256) :
  exists s', (deliver rsp0 (cpu_err vector e);; stub_entry (isr_has_err vector) vector) s = Ret tt s' /\
    regs s' RDI = regs s' RSP /\
    let c := cpu_context vector (default 0 (cpu_err vector e)) s in
    let f := read_context (words s') (regs s' RDI) in
    if vector =? 17 then
      err_code f = 0 /\ rip f = e /\ cs f = cpu_rip s /\ rflags f = cpu_cs s /\ regs s' RSP mod 16 = 8
    else f = c /\ regs s' RSP mod 16 = 0.
Proof.
  set (top := gate_top rsp0 s) in *.
  destruct (enter_run rsp0 (cpu_err vector e) (isr_has_err vector) vector s top eq_refl) as (s1 & R1 & D1 & H1 & W1); [lia|].
  exists s1. split; [exact R1|]. split; [exact D1|]. cbv zeta. rewrite D1, W1, H1.
  assert (Hm : top mod 16 = 0) by (unfold top, gate_top; zdiv).
  destruct (Z.eqb_spec vector 17) as [->|Hne].
  - change (cpu_err 17 e) with (Some e). change (isr_has_err 17) with false.
    pose proof (read_context_stacked (put_word (top - 8) (cpu_ss s) (words s)) (top - 8)
      (regs s RSP) (cpu_rflags s) (cpu_cs s) (cpu_rip s) e 0 17 (regs s RAX) (regs s RBX) (regs s RCX) (regs s RDX)
      (regs s RSI) (regs s RDI) (regs s RBP) (regs s R8) (regs s R9) (regs s R10) (regs s R11) (regs s R12)
      (regs s R13) (regs s R14) (regs s R15)) as C.
    replace (top - 8 - 176) with (top - 184) in C by lia.
    change (length (frame_words (Some e) false 17 s)) with 23%nat. change (8 * Z.of_nat 23) with 184.
    change (stacked (words s) top (frame_words (Some e) false 17 s)) with
      (stacked (put_word (top - 8) (cpu_ss s) (words s)) (top - 8) [regs s RSP; cpu_rflags s; cpu_cs s; cpu_rip s; e; 0; 17;
         regs s RAX; regs s RBX; regs s RCX; regs s RDX; regs s RSI; regs s RDI; regs s RBP; regs s R8; regs s R9;
         regs s R10; regs s R11; regs s R12; regs s R13; regs s R14; regs s R15]).
    rewrite C. cbn [err_code rip cs rflags]. split; [done|]. split; [done|]. split; [done|]. split; [done|]. zdiv.
  - pose proof (isr_has_err_agrees vector e Hv Hne) as Hhe.
    rewrite frame_context by exact Hhe. split; [done|].
    rewrite frame_length, Hhe. destruct (cpu_err vector e); cbn; zdiv.
Qed.

Lemma isr_stub_frames_witness :
  exists s', (deliver None (cpu_err 17 3);; stub_entry (isr_has_err 17) 17) idle_cpu = Ret tt s' /\
    rip (read_context (words s') (regs s' RDI)) = 3.
Proof.
  destruct (isr_stub_frames None 17 3 idle_cpu ltac:(lia) ltac:(split; vm_compute; congruence))
    as (s' & R & _ & _ & Hip & _).
  exists s'. exact (conj R Hip).
Defined.
