(* ===== verification/SwitchAsm.v ===== *)
(** * The context switch in assembly (context_switch.asm)

    The routine as it runs on the processor, and that it does to the interrupt
    frame what [context_switch] of Threads.v says. *)

From S2P Require Import Prelude Spinlock Kmem Console SchedState Queue Threads Stubs.
Local Open Scope Z_scope.

(** The registers the C calling convention makes a function keep.
    src/scheduling/context_switch.asm:7-12 [context_switch] *)
Definition callee_saved : list reg := [RBP; RBX; R12; R13; R14; R15].

(** [movsq] with the direction flag clear. *)
Definition movsq : K cpu unit :=
  a ← get RSI; d ← get RDI; v ← load a; store d v;; put RSI (u64 (a + 8));; put RDI (u64 (d + 8)).

(** RCX is the count.
    src/scheduling/context_switch.asm:18-19 [context_switch] *)
Definition rep_movsq : K cpu unit :=
  n ← get RCX;
  kfor (Z.to_nat n) 0 (fun _ => movsq);;
  put RCX 0.

(** [mov rax, [rsi + o]; mov [rdi + o], rax]
    src/scheduling/context_switch.asm:23-24 [context_switch] *)
Definition copy_field (o : Z) : K cpu unit :=
  a ← get RSI; v ← load (u64 (a + o)); put RAX v;;
  d ← get RDI; v ← get RAX; store (u64 (d + o)) v.
(** src/scheduling/context_switch.asm:57-58 [context_switch] *)
Definition put_field (o v : Z) : K cpu unit :=
  put RAX v;; d ← get RDI; v ← get RAX; store (u64 (d + o)) v.

(** src/scheduling/context_switch.asm:22-71 [context_switch] *)
Definition switch_ring_3 : K cpu unit :=
  each copy_field [0; 8; 16; 24; 32; 40; 48; 56; 64; 72; 80; 88; 96; 104; 112; 136];;
  put_field 144 USER_CODE64;;
  (a ← get RSI; v ← load (u64 (a + 152)); put RAX (Z.lor v 0x200);;
   d ← get RDI; v ← get RAX; store (u64 (d + 152)) v);;
  copy_field 160;;
  put_field 168 USER_DATA64.

(** Up to [ret].
    src/scheduling/context_switch.asm:6-79 [context_switch] *)
Definition context_switch_asm : K cpu unit :=
  each push callee_saved;;
  flag ← get RDX;
  (if flag =? 1 then switch_ring_3 else put RCX 22;; rep_movsq);;
  each pop (rev callee_saved).

(** What an instruction on the fields leaves alone, for [a] in RSI and [d] in
    RDI. *)
Record copying (a d : Z) (s s' : cpu) : Prop := {
  cp_step : stepped [RAX; RCX; RSI; RDI] s s';
  cp_words x : x + 8 <= d \/ d + 176 <= x -> words s' x = words s x;
}.

Lemma copying_refl a d s : copying a d s s.
Proof. split; [apply stepped_refl|done]. Qed.

Lemma copying_trans a d s s1 s2 : copying a d s s1 -> copying a d s1 s2 -> copying a d s s2.
Proof. intros [A1 B1] [A2 B2]. split; [by eapply stepped_trans|]. intros x Hx. by rewrite B2, B1. Qed.

(** Two frames that do not overlap. *)
Definition apart (a d : Z) : Prop :=
  0 <= a < 2 ^ 64 - 176 /\ 0 <= d < 2 ^ 64 - 176 /\ (a + 176 <= d \/ d + 176 <= a).

Lemma frame_field_store a d s k v : apart a d -> regs s RDI = d -> 0 <= k < 22 ->
  exists s', (d ← get RDI; v ← get RAX; store (u64 (d + 8 * k)) v) (Cpu (put_reg RAX v (regs s)) (cpu_rip s) (cpu_cs s)
                 (cpu_rflags s) (cpu_ss s) (words s)) = Ret tt s' /\
    copying a d s s' /\ regs s' RSI = regs s RSI /\ regs s' RDI = d /\ words s' = put_word (d + 8 * k) v (words s).
Proof.
  intros (Ba & Bd & _) Hrd Hk. set (s0 := Cpu (put_reg RAX v (regs s)) _ _ _ _ _).
  rewrite (kbind_ret (get RDI) _ s0 d s0) by (unfold get, kasks; cbn; rewrite put_reg_ne by done; by rewrite Hrd).
  rewrite (kbind_ret (get RAX) _ s0 v s0) by (unfold get, kasks; cbn; by rewrite put_reg_eq).
  rewrite wrap_small by lia. eexists. split; [apply store_run|]. subst s0. cbn [regs words].
  split; [|split; [by rewrite put_reg_ne by done|split; [by rewrite put_reg_ne by done|done]]].
  split; [split; [|done..]|].
  - intros r Hr. cbn. apply put_reg_ne. reg_set.
  - intros x Hx. cbn. apply put_word_ne. lia.
Qed.

Lemma copy_field_run a d s k : apart a d -> regs s RSI = a -> regs s RDI = d -> 0 <= k < 22 ->
  exists s', copy_field (8 * k) s = Ret tt s' /\ copying a d s s' /\ regs s' RSI = a /\ regs s' RDI = d /\
    words s' = put_word (d + 8 * k) (words s (a + 8 * k)) (words s).
Proof.
  intros Hap Hrs Hrd Hk. pose proof Hap as (Ba & Bd & _). unfold copy_field.
  rewrite (kbind_ret (get RSI) _ s a s) by (unfold get, kasks; by rewrite Hrs).
  rewrite wrap_small by lia. rewrite (kbind_ret _ _ _ _ _ (load_run _ _)).
  destruct (frame_field_store a d s k (words s (a + 8 * k)) Hap Hrd Hk) as (s1 & R1 & C1 & I1 & D1 & W1).
  exists s1. split; [exact R1|]. rewrite I1. done.
Qed.

Lemma put_field_run a d s k v : apart a d -> regs s RDI = d -> 0 <= k < 22 ->
  exists s', put_field (8 * k) v s = Ret tt s' /\ copying a d s s' /\ regs s' RSI = regs s RSI /\ regs s' RDI = d /\
    words s' = put_word (d + 8 * k) v (words s).
Proof. intros Hap Hrd Hk. exact (frame_field_store a d s k v Hap Hrd Hk). Qed.

(** A field of a frame after another was stored. *)
Lemma put_frame_word d j k v m : put_word (d + 8 * j) v m (d + 8 * k) = if k =? j then v else m (d + 8 * k).
Proof. destruct (Z.eqb_spec k j) as [->|]; [apply put_word_eq|apply put_word_ne; lia]. Qed.

(** A list of fields copied. *)
Lemma copy_fields_run a d ks : forall s, apart a d -> regs s RSI = a -> regs s RDI = d ->
  (forall k, k ∈ ks -> 0 <= k < 22) ->
  exists s', each copy_field (map (Z.mul 8) ks) s = Ret tt s' /\ copying a d s s' /\ regs s' RSI = a /\ regs s' RDI = d /\
    (forall k, k ∈ ks -> words s' (d + 8 * k) = words s (a + 8 * k)) /\
    (forall k, k ∉ ks -> words s' (d + 8 * k) = words s (d + 8 * k)).
Proof.
  induction ks as [|k ks IH]; intros s Hap Hrs Hrd Hks.
  - exists s. split; [done|]. split; [apply copying_refl|]. do 2 (split; [done|]). split; [reg_set|done].
  - destruct (copy_field_run a d s k Hap Hrs Hrd) as (s1 & R1 & C1 & I1 & D1 & W1); [reg_set|].
    destruct (IH s1 Hap I1 D1) as (s2 & R2 & C2 & I2 & D2 & V2 & N2); [reg_set|].
    pose proof (Hks k ltac:(reg_set)) as Hk.
    exists s2. split; [cbn [map each]; rewrite (kbind_ret _ _ s tt s1 R1); exact R2|].
    split; [by eapply copying_trans|]. do 2 (split; [done|]). split.
    + intros j Hj. destruct (decide (j ∈ ks)) as [Hin|Hni].
      * pose proof (Hks j Hj). rewrite V2, W1 by done. apply put_word_ne. destruct Hap as (? & ? & ?). lia.
      * rewrite N2, W1 by done. assert (j = k) as -> by reg_set. apply put_word_eq.
    + intros j Hj. rewrite N2, W1 by reg_set. apply put_word_ne. set_solver by lia.
Qed.

(** A frame of 22 words is a [context_t]. *)
Lemma read_context_words m a : read_context m a =
  Context_t (m (a + 8 * 0)) (m (a + 8 * 1)) (m (a + 8 * 2)) (m (a + 8 * 3)) (m (a + 8 * 4)) (m (a + 8 * 5)) (m (a + 8 * 6))
    (m (a + 8 * 7)) (m (a + 8 * 8)) (m (a + 8 * 9)) (m (a + 8 * 10)) (m (a + 8 * 11)) (m (a + 8 * 12)) (m (a + 8 * 13))
    (m (a + 8 * 14)) (m (a + 8 * 15)) (m (a + 8 * 16)) (m (a + 8 * 17)) (m (a + 8 * 18)) (m (a + 8 * 19))
    (m (a + 8 * 20)) (m (a + 8 * 21)).
Proof. unfold read_context. f_equal. f_equal. lia. Qed.

Lemma read_context_ext m m' a : (forall k, 0 <= k < 22 -> m' (a + 8 * k) = m (a + 8 * k)) ->
  read_context m' a = read_context m a.
Proof. intros H. rewrite !read_context_words. by rewrite !H by lia. Qed.

(** What the switch makes of the old frame and the new context. *)
Definition switched (old new : context_t) (ring_3 : bool) : context_t :=
  if ring_3 then
    Context_t (r15 new) (r14 new) (r13 new) (r12 new) (r11 new) (r10 new) (r9 new) (r8 new)
      (rbp new) (rdi new) (rsi new) (rdx new) (rcx new) (rbx new) (rax new)
      (int_no old) (err_code old) (rip new) USER_CODE64 (Z.lor (rflags new) 0x200) (rsp new) USER_DATA64
  else new.

Lemma movsq_run a d k s : apart a d -> 0 <= k < 22 -> regs s RSI = a + 8 * k -> regs s RDI = d + 8 * k ->
  exists s', movsq s = Ret tt s' /\ copying a d s s' /\ regs s' RSI = a + 8 * (k + 1) /\
    regs s' RDI = d + 8 * (k + 1) /\ words s' = put_word (d + 8 * k) (words s (a + 8 * k)) (words s).
Proof.
  intros (Ba & Bd & _) Hk Hrs Hrd. unfold movsq.
  rewrite (kbind_ret (get RSI) _ s (a + 8 * k) s) by (unfold get, kasks; by rewrite Hrs).
  rewrite (kbind_ret (get RDI) _ s (d + 8 * k) s) by (unfold get, kasks; by rewrite Hrd).
  rewrite (kbind_ret _ _ _ _ _ (load_run _ _)), (kbind_ret _ _ _ _ _ (store_run _ _ _)).
  rewrite !wrap_small by lia. eexists. split; [reflexivity|]. cbn [regs words].
  split; [|split; [rewrite put_reg_ne, put_reg_eq by done; lia|split; [rewrite put_reg_eq; lia|done]]].
  split; [split; [|done..]|].
  - intros r Hr. cbn. by rewrite !put_reg_ne by reg_set.
  - intros x Hx. cbn. apply put_word_ne. lia.
Qed.

Lemma rep_movsq_run a d s : apart a d -> regs s RSI = a -> regs s RDI = d ->
  exists s', (put RCX 22;; rep_movsq) s = Ret tt s' /\ copying a d s s' /\
    read_context (words s') d = read_context (words s) a.
Proof.
  intros Hap Hrs Hrd.
  set (s0 := Cpu (put_reg RCX 22 (regs s)) (cpu_rip s) (cpu_cs s) (cpu_rflags s) (cpu_ss s) (words s)).
  assert (C0 : copying a d s s0).
  { split; [split; [|done..]|done]. intros r Hr. apply put_reg_ne. reg_set. }
  rewrite (kbind_ret (put RCX 22) _ s tt s0) by reflexivity. unfold rep_movsq.
  rewrite (kbind_ret (get RCX) _ s0 22 s0) by reflexivity. change (Z.to_nat 22) with 22%nat.
  destruct (kfor_ind (fun i t => copying a d s0 t /\ regs t RSI = a + 8 * i /\ regs t RDI = d + 8 * i /\
      (forall k, 0 <= k < i -> words t (d + 8 * k) = words s (a + 8 * k)))
    22 0 (fun _ => movsq) s0) as (s1 & R1 & C1 & _ & _ & W1).
  - split; [apply copying_refl|]. cbn. rewrite !put_reg_ne by done. split; [lia|]. split; [lia|]. intros; lia.
  - intros i t Hi (Ct & It & Dt & Wt).
    destruct (movsq_run a d i t Hap Hi It Dt) as (t' & R & Ct' & It' & Dt' & Wt').
    exists t'. split; [done|]. split; [by eapply copying_trans|]. split; [done|]. split; [done|]. rewrite Wt'.
    destruct Hap as (_ & _ & Hdis). intros k Hk. destruct (decide (k = i)) as [->|Hne].
    + rewrite put_word_eq. rewrite (cp_words _ _ _ _ Ct); [done|lia].
    + rewrite put_word_ne by lia. apply Wt. lia.
  - rewrite (kbind_ret _ _ s0 tt s1 R1). eexists. split; [reflexivity|]. split.
    + eapply copying_trans; [exact C0|]. eapply copying_trans; [exact C1|].
      split; [split; [|done..]|done]. intros r Hr. apply put_reg_ne. reg_set.
    + cbn [words]. rewrite !read_context_words, !W1 by lia. done.
Qed.

Lemma switch_ring_3_run a d s : apart a d -> regs s RSI = a -> regs s RDI = d ->
  exists s', switch_ring_3 s = Ret tt s' /\ copying a d s s' /\
    read_context (words s') d = switched (read_context (words s) d) (read_context (words s) a) true.
Proof.
  intros Hap Hrs Hrd. pose proof Hap as (Ba & Bd & Hdis). unfold switch_ring_3.
  destruct (copy_fields_run a d [0; 1; 2; 3; 4; 5; 6; 7; 8; 9; 10; 11; 12; 13; 14; 17] s Hap Hrs Hrd)
    as (s1 & R1 & C1 & I1 & D1 & V1 & N1); [intros k; rewrite !elem_of_cons, elem_of_nil; lia|].
  cbn [map Z.mul Pos.mul] in R1. rewrite (kbind_ret _ _ s tt s1 R1).
  destruct (put_field_run a d s1 18 USER_CODE64 Hap D1) as (s2 & R2 & C2 & I2 & D2 & W2); [lia|].
  change (8 * 18) with 144 in R2. rewrite (kbind_ret _ _ s1 tt s2 R2).
  assert (Src : forall t, copying a d s t -> forall k, 0 <= k < 22 -> words t (a + 8 * k) = words s (a + 8 * k)).
  { intros t Ct k Hk. rewrite (cp_words _ _ _ _ Ct); [done|lia]. }
  assert (C12 : copying a d s s2) by (by eapply copying_trans).
  destruct (frame_field_store a d s2 19 (Z.lor (words s2 (a + 8 * 19)) 0x200) Hap D2) as (s3 & R3 & C3 & I3 & D3 & W3); [lia|].
  assert (R3' : (a ← get RSI; v ← load (u64 (a + 152)); put RAX (Z.lor v 0x200);;
     d ← get RDI; v ← get RAX; store (u64 (d + 152)) v) s2 = Ret tt s3).
  { rewrite (kbind_ret (get RSI) _ s2 a s2) by (unfold get, kasks; by rewrite I2, I1).
    rewrite wrap_small by lia. rewrite (kbind_ret _ _ _ _ _ (load_run _ _)). exact R3. }
  rewrite (kbind_ret _ _ s2 tt s3 R3').
  assert (C13 : copying a d s s3) by (by eapply copying_trans).
  destruct (copy_field_run a d s3 20 Hap) as (s4 & R4 & C4 & I4 & D4 & W4); [by rewrite I3, I2|done|lia|].
  change (8 * 20) with 160 in R4. rewrite (kbind_ret _ _ s3 tt s4 R4).
  destruct (put_field_run a d s4 21 USER_DATA64 Hap D4) as (s5 & R5 & C5 & I5 & D5 & W5); [lia|].
  exists s5. split; [exact R5|].
  split; [eapply copying_trans; [exact C13|]; by eapply copying_trans|].
  assert (V : forall k, 0 <= k < 22 -> words s5 (d + 8 * k) =
    if k =? 18 then USER_CODE64 else if k =? 19 then Z.lor (words s (a + 8 * 19)) 0x200 else
    if k =? 20 then words s (a + 8 * 20) else if k =? 21 then USER_DATA64 else words s1 (d + 8 * k)).
  { intros k Hk. rewrite W5, W4, (Src s3 C13), W3, (Src s2 C12), W2, !put_frame_word by lia.
    repeat match goal with |- context [?x =? ?y] => destruct (Z.eqb_spec x y); try lia end; done. }
  unfold switched. rewrite !read_context_words, !V by lia. cbn [Z.eqb Pos.eqb].
  rewrite (N1 15), (N1 16) by (apply (bool_decide_unpack _); reflexivity).
  rewrite !V1 by (apply (bool_decide_unpack _); reflexivity). reflexivity.
Qed.

(** ** The routine *)

(** The frames and the words the routine pushes do not overlap. *)
Definition off_stack (sp f : Z) : Prop := f + 176 <= sp - 48 \/ sp <= f.

Lemma context_switch_asm_run s a d sp :
  regs s RSI = a -> regs s RDI = d -> regs s RSP = sp -> apart a d -> 48 <= sp < 2 ^ 64 ->
  off_stack sp a -> off_stack sp d ->
  exists s', context_switch_asm s = Ret tt s' /\
    read_context (words s') d = switched (read_context (words s) d) (read_context (words s) a) (regs s RDX =? 1) /\
    read_context (words s') a = read_context (words s) a /\
    (forall r, r ∈ RSP :: callee_saved -> regs s' r = regs s r) /\
    (forall x, x + 8 <= sp - 48 \/ sp <= x -> x + 8 <= d \/ d + 176 <= x -> words s' x = words s x).
Proof.
  intros Hrs Hrd Hsp Hap Hb Ha Hd.
  destruct (each_push_run callee_saved s sp ltac:(reg_set) Hsp) as (s1 & R1 & S1 & H1 & W1); [cbn; lia|].
  change (8 * Z.of_nat (length callee_saved)) with 48 in H1.
  assert (Out : forall x, x + 8 <= sp - 48 \/ sp <= x -> words s1 x = words s x).
  { intros x Hx. rewrite W1. apply stacked_out. cbn. lia. }
  assert (Fr : forall f, off_stack sp f -> read_context (words s1) f = read_context (words s) f).
  { intros f Hf. apply read_context_ext. intros k Hk. apply Out. unfold off_stack in Hf. lia. }
  assert (exists s2, (flag ← get RDX; if flag =? 1 then switch_ring_3 else put RCX 22;; rep_movsq) s1 = Ret tt s2 /\
    copying a d s1 s2 /\ read_context (words s2) d =
      switched (read_context (words s) d) (read_context (words s) a) (regs s RDX =? 1)) as (s2 & R2 & C2 & F2).
  { rewrite (kbind_ret (get RDX) _ s1 (regs s RDX) s1)
      by (unfold get, kasks; by rewrite (st_regs _ _ _ S1) by reg_set).
    rewrite <- (Fr a Ha), <- (Fr d Hd).
    assert (regs s1 RSI = a) by (by rewrite (st_regs _ _ _ S1) by reg_set).
    assert (regs s1 RDI = d) by (by rewrite (st_regs _ _ _ S1) by reg_set).
    destruct (regs s RDX =? 1); [by apply switch_ring_3_run|by apply rep_movsq_run]. }
  destruct (each_pop_run (rev callee_saved) s2 (sp - 48)) as (s3 & R3 & S3 & H3 & V3 & W3).
  { apply (bool_decide_unpack _). reflexivity. }
  { reg_set. }
  { by rewrite (st_regs _ _ _ (cp_step _ _ _ _ C2)) by reg_set. }
  { lia. }
  { cbn. lia. }
  exists s3. split; [|split; [by rewrite W3|split; [|split]]].
  - unfold context_switch_asm. rewrite (kbind_ret _ _ s tt s1 R1). rewrite (kbind_ret2 _ _ _ _ _ _ R2). exact R3.
  - rewrite W3, <- (Fr a Ha). apply read_context_ext. intros k Hk. apply (cp_words _ _ _ _ C2).
    destruct Hap as (? & ? & ?). lia.
  - intros r [->|Hr]%elem_of_cons; [rewrite H3, Hsp; cbn; lia|].
    assert (r ∈ rev callee_saved) as [i Hi]%list_elem_of_lookup by reg_set.
    assert (Hi6 : (i < 6)%nat) by exact (lookup_lt_Some _ _ _ Hi).
    rewrite (V3 i r Hi), (cp_words _ _ _ _ C2) by (unfold off_stack in Hd; lia).
    rewrite W1. exact (stacked_rev (regs s) callee_saved (words s) sp i r Hi).
  - intros x Hx Hn. rewrite W3, (cp_words _ _ _ _ C2) by done. by apply Out.
Qed.

(** C37: the assembly of [context_switch] does to the interrupt frame what the
    model of the scheduler takes it to do, for both privileges, keeps the new
    thread's saved context, the stack pointer and every register its caller
    expects back, and touches no other memory but the stack below. *)
Theorem context_switch_asm_refines {A} (s : cpu) a d sp (st st' : sched A)
    (Hrs : regs s RSI = a) (Hrd : regs s RDI = d) (Hsp : regs s RSP = sp)
    (Hap : apart a d) (Hb : 48 <= sp < 2 ^ 64)
    (Ha : off_stack sp a) (Hd : off_stack sp d)
    (Hfr : frame st = read_context (words s) d)
    (Hrun : context_switch (read_context (words s) a) (regs s RDX =? 1) st = Ret tt st') :
  exists s', context_switch_asm s = Ret tt s' /\ read_context (words s') d = frame st' /\
    read_context (words s') a = read_context (words s) a /\
    (forall r, r ∈ RSP :: callee_saved -> regs s' r = regs s r) /\
    (forall x, x + 8 <= sp - 48 \/ sp <= x -> x + 8 <= d \/ d + 176 <= x -> words s' x = words s x).
Proof.
  replace (frame st') with (switched (read_context (words s) d) (read_context (words s) a) (regs s RDX =? 1)).
  - by apply (context_switch_asm_run s a d sp).
  - unfold context_switch, kmod in Hrun. injection Hrun as <-. rewrite Hfr. reflexivity.
Qed.

(** A switch from one kernel thread to a user thread; its context is not
    aligned, as [context] of a [thread_t] at a multiple of 8. *)
Example switch_cpu : cpu :=
  Cpu (fun r => match r with RSI => 0x1004 | RDI => 0x2000 | RSP => 0x9000 | RDX => 1 | RBX => 5 | _ => 0 end)
    0 KERNEL_CODE64 0x2 KERNEL_DATA64 ramp.
Example switch_sched : sched unit := set_frame (read_context ramp 0x2000) two_threads.

Lemma context_switch_asm_refines_witness :
  exists s', context_switch_asm switch_cpu = Ret tt s' /\ regs s' RBX = 5 /\ regs s' RSP = 0x9000 /\
    read_context (words s') 0x2000 = switched (read_context ramp 0x2000) (read_context ramp 0x1004) true.
Proof.
  destruct (context_switch_asm_refines switch_cpu 0x1004 0x2000 0x9000 switch_sched
    (set_frame (switched (read_context ramp 0x2000) (read_context ramp 0x1004) true) switch_sched))
    as (s' & R & F & _ & Hk & _); try reflexivity.
  - unfold apart. lia.
  - lia.
  - unfold off_stack. lia.
  - unfold off_stack. lia.
  - exists s'. split; [exact R|]. split; [|split; [|exact F]]; apply Hk; reg_set.
Defined.

(** ** From the interrupt to the new thread *)

(** The call [scheduler_tick] makes on the interrupt frame, for the context at
    [a].
    src/scheduling/scheduler.c:272-273 [scheduler_tick] *)
Definition switch_to (ra a flag : Z) : K cpu unit := put RSI a;; put RDX flag;; call ra context_switch_asm.

(** The saved context lies off the frame and the stack below. *)
Definition saved_off (f a : Z) : Prop :=
  0 <= a < 2 ^ 64 - 176 /\ (a + 176 <= f - 64 \/ f + 176 <= a).

Lemma switch_to_handler ra ra' m f a flag : saved_off f a ->
  c_handler ra m f (switch_to ra' a flag) (fun c => switched c (read_context m a) (flag =? 1)).
Proof.
  intros (Ba & Hoff) c s [Hf Bf] Hd Hs Hra Hm <-. unfold switch_to.
  set (s1 := Cpu (put_reg RSI a (regs s)) (cpu_rip s) (cpu_cs s) (cpu_rflags s) (cpu_ss s) (words s)).
  rewrite (kbind_ret (put RSI a) _ s tt s1) by reflexivity.
  set (s2 := Cpu (put_reg RDX flag (regs s1)) (cpu_rip s) (cpu_cs s) (cpu_rflags s) (cpu_ss s) (words s)).
  rewrite (kbind_ret (put RDX flag) _ s1 tt s2) by reflexivity. unfold call.
  destruct (push_value_run ra' s2 (f - 8) Hs) as (s3 & R3 & S3 & H3 & W3); [lia|].
  rewrite (kbind_ret _ _ s2 tt s3 R3).
  assert (Hsi : regs s3 RSI = a) by (by rewrite (st_regs _ _ _ S3) by reg_set).
  assert (Hdi : regs s3 RDI = f) by (by rewrite (st_regs _ _ _ S3) by reg_set).
  assert (Hdx : regs s3 RDX = flag) by (by rewrite (st_regs _ _ _ S3) by reg_set).
  destruct (context_switch_asm_run s3 a f (f - 16) Hsi Hdi) as (s4 & R4 & F4 & _ & K4 & W4);
    [lia|unfold apart; lia|lia|unfold off_stack; lia..|].
  assert (H4 : regs s4 RSP = f - 16) by (rewrite K4 by reg_set; lia).
  rewrite (kbind_ret _ _ s3 tt s4 R4).
  rewrite (kbind_ret (get RSP) _ s4 (f - 16) s4) by (unfold get, kasks; by rewrite H4).
  rewrite (kbind_ret (load (f - 16)) _ s4 ra' s4).
  2:{ rewrite load_run. rewrite W4 by lia. rewrite W3. replace (f - 16) with (f - 8 - 8) by lia.
      by rewrite put_word_eq. }
  rewrite Z.eqb_refl, wrap_small by lia. eexists. split; [reflexivity|]. cbn [regs words].
  split; [rewrite put_reg_eq; lia|]. split; [rewrite W4 by lia; rewrite W3, put_word_ne by lia; done|].
  rewrite F4, Hdx, W3. f_equal; apply read_context_ext; intros k Hk; rewrite put_word_ne by lia; [done|].
  apply Hm. lia.
Qed.

(** A timer interrupt whose handler switches to a saved context makes the
    processor continue with it, through the stub, the assembly of
    [context_switch] and [iretq]: every register, the instruction and the stack
    pointer are the saved ones, and a user thread runs with the user selectors
    and interrupts on. *)
Theorem interrupt_switches_context rsp0 ra ra' a flag s
    (Htop : 512 <= gate_top rsp0 s < 2 ^ 64 - 256) (Ha : saved_off (gate_top rsp0 s - 176) a) :
  exists s', (deliver rsp0 None;; irq_stub 32 ra (switch_to ra' a flag)) s = Ret tt s' /\
    let new := read_context (words s) a in
    let c := if flag =? 1 then
               Context_t (r15 new) (r14 new) (r13 new) (r12 new) (r11 new) (r10 new) (r9 new) (r8 new)
                 (rbp new) (rdi new) (rsi new) (rdx new) (rcx new) (rbx new) (rax new)
                 32 0 (rip new) USER_CODE64 (Z.lor (rflags new) 0x200) (rsp new) USER_DATA64
             else new in
    cpu_context (int_no c) (err_code c) s' = c.
Proof.
  destruct (irq_stub_run rsp0 32 ra _ _ s Htop (switch_to_handler ra ra' (words s) _ a flag Ha _)) as (s' & R & C).
  exists s'. split; [exact R|]. exact C.
Qed.

(** A user thread's context at 0x1004. *)
Lemma interrupt_switches_context_witness :
  exists s', (deliver None None;; irq_stub 32 0x4000 (switch_to 0x5000 0x1004 1)) switch_cpu = Ret tt s' /\
    cpu_cs s' = USER_CODE64 /\ cpu_rip s' = ramp (0x1004 + 136) /\ regs s' RBX = ramp (0x1004 + 104) /\ regs s' RSP = ramp (0x1004 + 160).
Proof.
  destruct (interrupt_switches_context None 0x4000 0x5000 0x1004 1 switch_cpu) as (s' & R & C).
  - vm_compute. split; congruence.
  - change (gate_top None switch_cpu) with 0x9000. unfold saved_off. lia.
  - exists s'. split; [exact R|]. unfold cpu_context in C. cbn in C.
    injection C as ? ? ? ? ? ? ? ? ? ? ? ? ? Hbx ? Hip Hcs ? Hsp ?.
    exact (conj Hcs (conj Hip (conj Hbx Hsp))).
Defined.
