(* ===== verification/SyscallAsm.v ===== *)
(** * System calls in assembly (syscall.asm, the installed syscall.h)

    The entry stub of the system-call gate, the wrapper [syscall] and the inline
    calls of the header programs are built with: which value arrives as which
    argument of the C handler, and what the caller gets back. *)

From S2P Require Import Prelude SchedState Stubs.
Local Open Scope Z_scope.

(** src/scheduling/syscall.asm:26-39 [syscall_entry] *)
Definition syscall_saved : list reg := [RBX; RCX; RDX; RSI; RDI; RBP; R8; R9; R10; R11; R12; R13; R14; R15].

(** The first six arguments of the handler, the seventh left in R15.
    src/scheduling/syscall.asm:41-53 [syscall_entry] *)
Definition set_arguments : K cpu unit :=
  mov RBX RDI;; mov R11 RSI;; mov R12 RDX;; mov R13 R10;; mov R14 R8;; mov R15 R9;;
  mov RDI RAX;; mov RSI RBX;; mov RDX R11;; mov RCX R12;; mov R8 R13;; mov R9 R14.

(** src/scheduling/syscall.asm:25-74 [syscall_entry] *)
Definition syscall_entry (ra : Z) (syscall_handler : K cpu unit) : K cpu unit :=
  each push syscall_saved;;
  set_arguments;;
  push R15;;
  call ra syscall_handler;;
  add_rsp 8;;
  each pop (rev syscall_saved);;
  iretq.

(** The wrapper a C caller uses, up to its [ret]; [gate] is what [int 0x80]
    enters.
    src/scheduling/syscall.asm:13-23 [syscall] *)
Definition syscall (rsp0 : option Z) (gate : K cpu unit) : K cpu unit :=
  mov RAX RDI;; mov RDI RSI;; mov RSI RDX;; mov RDX RCX;; mov R10 R8;; mov R8 R9;;
  (sp ← get RSP; v ← load (u64 (sp + 8)); put R9 v);;
  deliver rsp0 None;; gate.

(** The calls of the installed header: the operands are in their registers when
    [int] runs. *)

(** sysroot/usr/include/syscall.h:12-17 [__syscall0] *)
Definition __syscall0 (rsp0 : option Z) (gate : K cpu unit) (n : Z) : K cpu Z :=
  put RAX n;;
  deliver rsp0 None;; gate;;
  get RAX.

(** sysroot/usr/include/syscall.h:19-24 [__syscall1] *)
Definition __syscall1 (rsp0 : option Z) (gate : K cpu unit) (n a1 : Z) : K cpu Z :=
  put RAX n;; put RDI a1;;
  deliver rsp0 None;; gate;;
  get RAX.

(** sysroot/usr/include/syscall.h:26-31 [__syscall2] *)
Definition __syscall2 (rsp0 : option Z) (gate : K cpu unit) (n a1 a2 : Z) : K cpu Z :=
  put RAX n;; put RDI a1;; put RSI a2;;
  deliver rsp0 None;; gate;;
  get RAX.

(** sysroot/usr/include/syscall.h:33-41 [__syscall3] *)
Definition __syscall3 (rsp0 : option Z) (gate : K cpu unit) (n a1 a2 a3 : Z) : K cpu Z :=
  put RAX n;; put RDI a1;; put RSI a2;; put RDX a3;;
  deliver rsp0 None;; gate;;
  get RAX.

(** sysroot/usr/include/syscall.h:43-51 [__syscall4] *)
Definition __syscall4 (rsp0 : option Z) (gate : K cpu unit) (n a1 a2 a3 a4 : Z) : K cpu Z :=
  put RAX n;; put RDI a1;; put RSI a2;; put RDX a3;; put RCX a4;;
  deliver rsp0 None;; gate;;
  get RAX.

(** sysroot/usr/include/syscall.h:53-63 [__syscall5] *)
Definition __syscall5 (rsp0 : option Z) (gate : K cpu unit) (n a1 a2 a3 a4 a5 : Z) : K cpu Z :=
  put R8 a5;; put RAX n;; put RDI a1;; put RSI a2;; put RDX a3;; put RCX a4;;
  deliver rsp0 None;; gate;;
  get RAX.

(** sysroot/usr/include/syscall.h:65-76 [__syscall6] *)
Definition __syscall6 (rsp0 : option Z) (gate : K cpu unit) (n a1 a2 a3 a4 a5 a6 : Z) : K cpu Z :=
  put R8 a5;; put R9 a6;; put RAX n;; put RDI a1;; put RSI a2;; put RDX a3;; put RCX a4;;
  deliver rsp0 None;; gate;;
  get RAX.

(** ** The gate *)

(** What the entry stub relies on in [syscall_handler]: it returns [f] of its
    seven arguments in RAX and leaves its caller's part of the stack alone. *)
Definition c_syscall (ra : Z) (h : K cpu unit) (f : Z -> Z -> Z -> Z -> Z -> Z -> Z -> Z) : Prop :=
  forall s sp, regs s RSP = sp -> (sp + 8) mod 16 = 0 -> 256 <= sp < 2 ^ 64 - 256 -> words s sp = ra ->
  exists s', h s = Ret tt s' /\
    regs s' RAX = f (regs s RDI) (regs s RSI) (regs s RDX) (regs s RCX) (regs s R8) (regs s R9) (words s (sp + 8)) /\
    regs s' RSP = sp /\ (forall a, sp <= a <= sp + 160 -> words s' a = words s a).

Definition set_reg (d : reg) (v : Z) (s : cpu) : cpu :=
  Cpu (put_reg d v (regs s)) (cpu_rip s) (cpu_cs s) (cpu_rflags s) (cpu_ss s) (words s).

Lemma put_run d v s : put d v s = Ret tt (set_reg d v s).
Proof. reflexivity. Qed.

Lemma mov_run d r s : mov d r s = Ret tt (set_reg d (regs s r) s).
Proof. reflexivity. Qed.

Lemma set_reg_eq d v s : regs (set_reg d v s) d = v.
Proof. apply put_reg_eq. Qed.

Lemma set_reg_ne d v s x : x <> d -> regs (set_reg d v s) x = regs s x.
Proof. apply put_reg_ne. Qed.

Lemma set_reg_stepped l d v s0 s : bool_decide (d ∈ l) = true -> stepped l s0 s -> stepped l s0 (set_reg d v s).
Proof.
  intros Hd%bool_decide_eq_true [R ? ? ? ?]. split; [|done..]. intros r Hr. rewrite set_reg_ne; [by apply R|].
  intros ->. done.
Qed.

Ltac moves := repeat first [rewrite set_reg_eq | rewrite set_reg_ne by discriminate].

Lemma set_arguments_run s : exists s', set_arguments s = Ret tt s' /\ words s' = words s /\
  regs s' RSP = regs s RSP /\ regs s' RDI = regs s RAX /\ regs s' RSI = regs s RDI /\ regs s' RDX = regs s RSI /\
  regs s' RCX = regs s RDX /\ regs s' R8 = regs s R10 /\ regs s' R9 = regs s R8 /\ regs s' R15 = regs s R9.
Proof.
  unfold set_arguments. rewrite !(kbind_ret _ _ _ _ _ (mov_run _ _ _)), mov_run. eexists. split; [reflexivity|].
  split; [reflexivity|]. vm_compute. repeat split.
Qed.

(** The call with its seventh argument on the stack. *)
Lemma call_syscall_run ra h f s sp : c_syscall ra h f -> regs s RSP = sp -> sp mod 16 = 8 -> 512 <= sp < 2 ^ 64 - 256 ->
  exists s', (forall k : K cpu unit, (push R15;; call ra h;; add_rsp 8;; k) s = k s') /\
    regs s' RAX = f (regs s RDI) (regs s RSI) (regs s RDX) (regs s RCX) (regs s R8) (regs s R9) (regs s R15) /\
    regs s' RSP = sp /\ (forall a, sp <= a <= sp + 144 -> words s' a = words s a).
Proof.
  intros Hh Hsp Hm Hr.
  destruct (push_value_run (regs s R15) s sp Hsp) as (s1 & R1 & S1 & H1 & W1); [lia|].
  destruct (push_value_run ra s1 (sp - 8) H1) as (s2 & R2 & S2 & H2 & W2); [lia|].
  destruct (Hh s2 (sp - 16)) as (s3 & R3 & A3 & H3 & W3); [lia|zdiv|lia| |].
  { rewrite W2. replace (sp - 16) with (sp - 8 - 8) by lia. apply put_word_eq. }
  assert (W3' : forall a, sp <= a <= sp + 144 -> words s3 a = words s a).
  { intros a Ha. rewrite W3, W2, W1, !put_word_ne by lia. done. }
  assert (Rc : (push_value ra;; h;; sp ← get RSP; a ← load sp; put RSP (u64 (sp + 8));; if a =? ra then mret tt else kstop Faulted) s1
    = Ret tt (Cpu (put_reg RSP (sp - 8) (regs s3)) (cpu_rip s3) (cpu_cs s3) (cpu_rflags s3) (cpu_ss s3) (words s3))).
  { rewrite (kbind_ret _ _ s1 tt s2 R2), (kbind_ret _ _ s2 tt s3 R3).
    rewrite (kbind_ret (get RSP) _ s3 (sp - 16) s3) by (unfold get, kasks; by rewrite H3).
    rewrite (kbind_ret (load (sp - 16)) _ s3 ra s3).
    2:{ rewrite load_run. rewrite W3 by lia. rewrite W2.
        replace (sp - 16) with (sp - 8 - 8) by lia. by rewrite put_word_eq. }
    rewrite Z.eqb_refl, wrap_small by lia. replace (sp - 16 + 8) with (sp - 8) by lia. reflexivity. }
  set (s4 := Cpu _ _ _ _ _ _) in Rc.
  destruct (add_rsp_run 8 s4 (sp - 8)) as (s5 & R5 & S5 & H5 & W5); [apply put_reg_eq|lia|].
  exists s5. split.
  { intros k. rewrite (kbind_ret (push R15) _ s tt s1 R1), (kbind_ret (call ra h) _ s1 tt s4 Rc). exact (kbind_ret _ _ s4 tt s5 R5). }
  split; [|split; [lia|intros a Ha; rewrite W5; by apply W3']].
  rewrite (st_regs _ _ _ S5) by reg_set. unfold s4. cbn [regs]. rewrite put_reg_ne by done. rewrite A3.
  rewrite !(st_regs _ _ _ S2), !(st_regs _ _ _ S1) by reg_set. f_equal.
  rewrite W2. replace (sp - 16 + 8) with (sp - 8) by lia. rewrite put_word_ne by lia. by rewrite W1, put_word_eq.
Qed.

(** Every register is saved but the result and the stack pointer. *)
Lemma syscall_saved_all r : r <> RAX -> r <> RSP -> r ∈ rev syscall_saved.
Proof. intros H1 H2. destruct r; try done; apply (bool_decide_unpack _); reflexivity. Qed.

(** The gate from the [int] instruction to its return. *)
Lemma gate_run rsp0 ra h f s : c_syscall ra h f -> 1024 <= gate_top rsp0 s < 2 ^ 64 - 256 ->
  exists s', (deliver rsp0 None;; syscall_entry ra h) s = Ret tt s' /\
    regs s' RAX = f (regs s RAX) (regs s RDI) (regs s RSI) (regs s RDX) (regs s R10) (regs s R8) (regs s R9) /\
    stepped [RAX] s s'.
Proof.
  intros Hh Hr. set (top := gate_top rsp0 s) in *. assert (Hm : top mod 16 = 0) by (unfold top, gate_top; zdiv).
  destruct (deliver_run rsp0 None s top eq_refl) as (s0 & R0 & G0 & H0 & W0 & _); [lia|].
  change (8 * Z.of_nat (length (gate_words None s))) with 40 in H0.
  rewrite (kbind_ret _ _ s tt s0 R0). unfold syscall_entry.
  destruct (each_push_run syscall_saved s0 (top - 40)) as (s1 & R1 & S1 & H1 & W1); [reg_set|done|cbn; lia|].
  change (8 * Z.of_nat (length syscall_saved)) with 112 in H1. rewrite (kbind_ret _ _ s0 tt s1 R1).
  destruct (set_arguments_run s1) as (s2 & R2 & W2 & H2 & A0 & A1 & A2 & A3 & A4 & A5 & A6).
  rewrite (kbind_ret _ _ s1 tt s2 R2).
  destruct (call_syscall_run ra h f s2 (top - 152) Hh) as (s3 & R3 & A & H3 & W3); [lia|zdiv|lia|].
  assert (Wt : forall a, top - 152 <= a <= top - 8 -> words s3 a = words s1 a) by (intros a Ha; rewrite W3 by lia; by rewrite W2).
  destruct (each_pop_run (rev syscall_saved) s3 (top - 152)) as (s4 & R4 & S4 & H4 & V4 & W4);
    [by apply (bool_decide_unpack _)|reg_set|done|lia|cbn; lia|].
  change (8 * Z.of_nat (length (rev syscall_saved))) with 112 in H4.
  assert (Fr : forall i v, gate_words None s !! i = Some v -> words s4 (top - 8 * Z.of_nat i - 8) = v).
  { intros i v Hi. assert (i < 5)%nat by exact (lookup_lt_Some _ _ _ Hi).
    rewrite W4, Wt, W1, stacked_out, W0 by lia. by apply stacked_in. }
  eexists. split; [|split].
  - rewrite R3, (kbind_ret _ _ s3 tt s4 R4). exact (iretq_run s4 (top - 40) ltac:(lia) ltac:(lia)).
  - cbn [regs]. rewrite put_reg_ne by done. rewrite (st_regs _ _ _ S4) by (apply (bool_decide_unpack _); reflexivity).
    rewrite A, A0, A1, A2, A3, A4, A5, A6. rewrite !(st_regs _ _ _ S1) by reg_set. by rewrite !G0 by done.
  - split; cbn [regs cpu_rip cpu_cs cpu_rflags cpu_ss].
    + intros r Hr'. assert (r <> RAX) by reg_set. destruct (decide (r = RSP)) as [->|Hn].
      * rewrite put_reg_eq. replace (top - 40 + 24) with (top - 8 * Z.of_nat 1 - 8) by lia. by apply Fr.
      * rewrite put_reg_ne by done.
        assert (r ∈ rev syscall_saved) as [i Hi]%list_elem_of_lookup by (by apply syscall_saved_all).
        assert (i < 14)%nat by exact (lookup_lt_Some _ _ _ Hi).
        rewrite (V4 i r Hi), Wt, W1 by lia. rewrite <- (G0 r Hn).
        replace (top - 152) with (top - 40 - 8 * Z.of_nat (length syscall_saved)) by (cbn; lia).
        exact (stacked_rev (regs s0) syscall_saved (words s0) (top - 40) i r Hi).
    + replace (top - 40) with (top - 8 * Z.of_nat 4 - 8) by lia. by apply Fr.
    + replace (top - 40 + 8) with (top - 8 * Z.of_nat 3 - 8) by lia. by apply Fr.
    + replace (top - 40 + 16) with (top - 8 * Z.of_nat 2 - 8) by lia. by apply Fr.
    + replace (top - 40 + 32) with (top - 8 * Z.of_nat 0 - 8) by lia. by apply Fr.
Qed.

(** ** The calls *)

Lemma gate_top_stepped rsp0 l s s' : stepped l s s' -> RSP ∉ l -> gate_top rsp0 s' = gate_top rsp0 s.
Proof. intros S H. unfold gate_top. by rewrite (st_regs _ _ _ S). Qed.

(** What a caller of the gate may lose. *)
Definition inline_touched : list reg := [RAX; RDI; RSI; RDX; RCX; R8; R9; R10].

(** The gate once the registers are loaded. *)
Lemma inline_run rsp0 ra h f s s1 : c_syscall ra h f -> 1024 <= gate_top rsp0 s < 2 ^ 64 - 256 ->
  stepped inline_touched s s1 ->
  exists s', (deliver rsp0 None;; syscall_entry ra h;; get RAX) s1
    = Ret (f (regs s1 RAX) (regs s1 RDI) (regs s1 RSI) (regs s1 RDX) (regs s1 R10) (regs s1 R8) (regs s1 R9)) s' /\
    stepped inline_touched s s'.
Proof.
  intros Hh Htop S1. destruct (gate_run rsp0 ra h f s1 Hh) as (s2 & R2 & A2 & S2).
  { rewrite (gate_top_stepped _ _ _ _ S1); [done|reg_set]. }
  exists s2. split.
  - rewrite (kbind_ret2 _ _ _ _ _ _ R2). rewrite <- A2. reflexivity.
  - eapply stepped_trans; [exact S1|]. eapply stepped_weaken; [|exact S2]. reg_set.
Qed.

(** The wrapper from its call to its return. *)
Lemma syscall_run rsp0 ra h f s :
  c_syscall ra h f -> 0 <= regs s RSP < 2 ^ 64 - 16 -> 1024 <= gate_top rsp0 s < 2 ^ 64 - 256 ->
  exists s', syscall rsp0 (syscall_entry ra h) s = Ret tt s' /\
    regs s' RAX = f (regs s RDI) (regs s RSI) (regs s RDX) (regs s RCX) (regs s R8) (regs s R9)
                    (words s (regs s RSP + 8)) /\
    stepped inline_touched s s'.
Proof.
  intros Hh Hsp Htop. unfold syscall. rewrite !(kbind_ret _ _ _ _ _ (mov_run _ _ _)).
  set (s1 := set_reg R8 _ _).
  assert (S1 : stepped inline_touched s s1) by (repeat (apply set_reg_stepped; [reflexivity|]); apply stepped_refl).
  assert (W1 : words s1 = words s) by reflexivity.
  assert (V1 : regs s1 RAX = regs s RDI /\ regs s1 RDI = regs s RSI /\ regs s1 RSI = regs s RDX /\
    regs s1 RDX = regs s RCX /\ regs s1 R10 = regs s R8 /\ regs s1 R8 = regs s R9).
  { unfold s1. moves. done. }
  clearbody s1. destruct V1 as (V0 & V1 & V2 & V3 & V4 & V5).
  set (s2 := set_reg R9 (words s (regs s RSP + 8)) s1).
  assert (S2 : stepped inline_touched s s2) by (by apply set_reg_stepped).
  assert (R2 : (sp ← get RSP; v ← load (u64 (sp + 8)); put R9 v) s1 = Ret tt s2).
  { rewrite (kbind_ret (get RSP) _ s1 (regs s RSP) s1)
      by (unfold get, kasks; by rewrite (st_regs _ _ _ S1) by reg_set).
    rewrite wrap_small by lia. rewrite (kbind_ret _ _ s1 (words s (regs s RSP + 8)) s1)
      by (rewrite load_run; by rewrite W1).
    reflexivity. }
  rewrite (kbind_ret _ _ s1 tt s2 R2).
  destruct (gate_run rsp0 ra h f s2 Hh) as (s3 & R3 & A3 & S3).
  { rewrite (gate_top_stepped _ _ _ _ S2); [done|reg_set]. }
  exists s3. split; [exact R3|]. split.
  - rewrite A3. unfold s2. moves. by rewrite V0, V1, V2, V3, V4, V5.
  - eapply stepped_trans; [exact S2|]. eapply stepped_weaken; [|exact S3]. reg_set.
Qed.

(** C38: [syscall] hands its seven arguments to the handler in order, the number
    first and the sixth argument from the caller's stack, and returns the
    handler's result with the registers a C caller expects back, the stack
    pointer, the flags and the segments as they were. *)
Theorem syscall_passes_arguments rsp0 ra h f s
    (Hh : c_syscall ra h f) (Hsp : 0 <= regs s RSP < 2 ^ 64 - 16)
    (Htop : 1024 <= gate_top rsp0 s < 2 ^ 64 - 256) :
  exists s', syscall rsp0 (syscall_entry ra h) s = Ret tt s' /\
    regs s' RAX = f (regs s RDI) (regs s RSI) (regs s RDX) (regs s RCX) (regs s R8) (regs s R9)
                    (words s (regs s RSP + 8)) /\
    stepped inline_touched s s'.
Proof. exact (syscall_run rsp0 ra h f s Hh Hsp Htop). Qed.

(** A handler that adds its last two arguments. *)
Example sum_handler : K cpu unit :=
  a ← get R9; sp ← get RSP; v ← load (u64 (sp + 8)); put RAX (a + v).

Lemma sum_handler_ok ra : c_syscall ra sum_handler (fun n a b c d e g => e + g).
Proof.
  intros s sp Hsp Hm Hr _. unfold sum_handler.
  rewrite (kbind_ret (get R9) _ s (regs s R9) s) by reflexivity.
  rewrite (kbind_ret (get RSP) _ s sp s) by (unfold get, kasks; by rewrite Hsp).
  rewrite wrap_small by lia. rewrite (kbind_ret _ _ s (words s (sp + 8)) s) by apply load_run.
  eexists. split; [apply put_run|]. rewrite set_reg_eq, set_reg_ne by done. done.
Qed.

Example caller : cpu :=
  Cpu (fun r => match r with RSP => 0x8FF8 | R9 => 30 | _ => 1 end) 0x1000 USER_CODE64 0x202 USER_DATA64 ramp.

Lemma syscall_passes_arguments_witness :
  exists s', syscall (Some 0x20000) (syscall_entry 0x4000 sum_handler) caller = Ret tt s' /\
    regs s' RAX = 30 + ramp 0x9000 /\ regs s' RBX = 1.
Proof.
  destruct (syscall_passes_arguments (Some 0x20000) 0x4000 sum_handler _ caller (sum_handler_ok _))
    as (s' & R & A & S); [vm_compute; split; congruence..|].
  exists s'. split; [exact R|]. split; [exact A|]. apply (st_regs _ _ _ S). reg_set.
Defined.

(** [m] returns [v] and keeps what a caller of the gate may rely on. *)
Definition returns (m : K cpu Z) (s : cpu) (v : Z) : Prop := exists s', m s = Ret v s' /\ stepped inline_touched s s'.

Ltac inline :=
  unfold returns;
  rewrite !(kbind_ret _ _ _ _ _ (put_run _ _ _));
  match goal with Hh : c_syscall ?ra ?h ?f, Ht : _ <= gate_top ?r ?s < _ |- exists _, (_ ≫= _) ?t = _ /\ _ =>
    let s1 := fresh in set (s1 := t);
    assert (stepped inline_touched s s1) as S1
      by (repeat (apply set_reg_stepped; [reflexivity|]); apply stepped_refl);
    destruct (inline_run r ra h f s s1 Hh Ht S1) as (s' & R & S');
    exists s'; split; [|exact S']; rewrite R; subst s1; clear
  end.

(** The inline calls of the installed header agree with the gate on the
    number, the first three and the last two arguments; the fourth they put in
    RCX, and the handler is given what happens to be in R10. *)
Theorem inline_syscalls_lose_fourth rsp0 ra h f s n a1 a2 a3 a4 a5 a6
    (Hh : c_syscall ra h f) (Htop : 1024 <= gate_top rsp0 s < 2 ^ 64 - 256) :
  returns (__syscall0 rsp0 (syscall_entry ra h) n) s (f n (regs s RDI) (regs s RSI) (regs s RDX) (regs s R10) (regs s R8) (regs s R9)) /\
  returns (__syscall1 rsp0 (syscall_entry ra h) n a1) s (f n a1 (regs s RSI) (regs s RDX) (regs s R10) (regs s R8) (regs s R9)) /\
  returns (__syscall2 rsp0 (syscall_entry ra h) n a1 a2) s (f n a1 a2 (regs s RDX) (regs s R10) (regs s R8) (regs s R9)) /\
  returns (__syscall3 rsp0 (syscall_entry ra h) n a1 a2 a3) s (f n a1 a2 a3 (regs s R10) (regs s R8) (regs s R9)) /\
  returns (__syscall4 rsp0 (syscall_entry ra h) n a1 a2 a3 a4) s (f n a1 a2 a3 (regs s R10) (regs s R8) (regs s R9)) /\
  returns (__syscall5 rsp0 (syscall_entry ra h) n a1 a2 a3 a4 a5) s (f n a1 a2 a3 (regs s R10) a5 (regs s R9)) /\
  returns (__syscall6 rsp0 (syscall_entry ra h) n a1 a2 a3 a4 a5 a6) s (f n a1 a2 a3 (regs s R10) a5 a6).
Proof.
  split; [unfold __syscall0; inline; moves; done|].
  split; [unfold __syscall1; inline; moves; done|].
  split; [unfold __syscall2; inline; moves; done|].
  split; [unfold __syscall3; inline; moves; done|].
  split; [unfold __syscall4; inline; moves; done|].
  split; [unfold __syscall5; inline; moves; done|].
  unfold __syscall6; inline; moves; done.
Qed.

Lemma inline_syscalls_lose_fourth_witness :
  exists s', __syscall6 (Some 0x20000) (syscall_entry 0x4000 sum_handler) 3 10 20 30 40 50 60 caller = Ret (50 + 60) s' /\
    regs s' RBX = 1.
Proof.
  destruct (inline_syscalls_lose_fourth (Some 0x20000) 0x4000 sum_handler _ caller 3 10 20 30 40 50 60 (sum_handler_ok _))
    as (_ & _ & _ & _ & _ & _ & s' & R & S); [vm_compute; split; congruence|].
  exists s'. split; [exact R|]. apply (st_regs _ _ _ S). reg_set.
Defined.
