(* ===== verification/Process.v ===== *)
(** * Processes (process.c)

    Creation, exit, termination and reaping of processes over the process table,
    on top of the threads. *)

From S2P Require Import Prelude Errno Console Spinlock Kmem SchedState Sched Threads.
Local Open Scope Z_scope.

Section process.
Context {A : Type} `{!Kmem A} `{!Console A} (fuel : nat).

(** src/scheduling/process.c:22-28 [find_free_slot] *)
Definition find_free_slot (table : list Z) : option nat :=
  option_map fst (list_find (fun p => p = NULL) table).

(** [kfree] of a process object. *)
Definition free_process (p : Z) : K (sched A) unit :=
  on_kmem (km_free p);; kmod (fun s => set_procs (delete p (procs s)) s).

(** [exit_code] is the pointer's target, [None] for a NULL pointer; the answer
    is the target's new value.
    src/scheduling/process.c:30-54 [process_cleanup] *)
Definition process_cleanup (child : Z) (index : nat) (i : Z) (exit_code : option Z) (code : Z)
    : K (sched A) (option Z) :=
  (if negb (i =? -1) then
     lock_proc_table fuel;;
     kmod (fun s => set_process_table (<[index := NULL]> (process_table s)) s);;
     unlock_proc_table fuel
   else
     lock_proc_table fuel;;
     kmod (fun s => set_process_table
             (map (fun p => if p =? child then NULL else p) (process_table s)) s);;
     unlock_proc_table fuel);;
  c ← get_process child;
  kwhen (negb (address_space c =? 0)) (on_kmem (km_free (address_space c)));;
  free_process child;;
  mret (option_map (fun _ => code) exit_code).

(** src/scheduling/process.c:133-187 [process_create] *)
Definition process_create (entry argc argv parent : Z) (is_userspace : bool) : K (sched A) Z :=
  lock_proc_table fuel;;
  table ← kasks process_table;
  match find_free_slot table with
  | None => unlock_proc_table fuel;; mret NULL
  | Some slot =>
      p ← on_kmem (km_malloc SIZEOF_PROCESS);
      if p =? NULL then unlock_proc_table fuel;; mret NULL else
      kmod (fun s => set_procs (<[p := process_zero]> (procs s)) s);;
      kmod (put_mutex (ProcLock p) mutex_zero);;
      upd_process p (fun pr => Process (pid pr) parent PROC_READY 18 (next_sibling pr)
        (main_thread pr) (wait_head pr) (wait_tail pr) (cwd pr) (cwd_path pr) (address_space pr)
        (fds pr) (exit_code pr));;
      init_mutex (ProcLock p);;
      space ← (if is_userspace then on_kmem km_new_space else mret 0);
      upd_process p (p_set_address_space space);;
      upd_process p (p_set_exit_code 0);;
      id ← kasks next_pid;
      kmod (set_next_pid (s64 (id + 1)));;
      upd_process p (p_set_pid id);;
      unlock_proc_table fuel;;
      (* the descriptors are NULL already *)
      if entry =? NULL then mret p else
      t ← thread_create fuel entry argc argv (if is_userspace then THREAD_RING_3 else THREAD_RING_0)
            THREAD_PRIO_NORMAL (u32 id);
      if t =? NULL then
        lock_proc_table fuel;;
        kmod (fun s => set_process_table (<[slot := NULL]> (process_table s)) s);;
        unlock_proc_table fuel;;
        kwhen (negb (space =? 0)) (on_kmem (km_free space));;
        free_process p;;
        mret NULL
      else
        upd_process p (p_set_main_thread t);;
        mret p
  end.

(** src/scheduling/process.c:189-209 [process_exit] *)
Definition process_exit {B} (code : Z) : K (sched A) B :=
  self ← kasks current_thread;
  if self =? NULL then hcf else
  th ← get_thread self;
  p ← process_from_pid fuel (o_pid th);
  if p =? NULL then hcf else
  acquire_mutex fuel (ProcLock p);;
  upd_process p (p_set_exit_code code);;
  upd_process p (p_set_p_state PROC_ZOMBIE);;
  release_mutex fuel (ProcLock p);;
  wake_waiters fuel p;;
  thread_exit fuel.

(** src/scheduling/process.c:211-228 [process_terminate] *)
Definition process_terminate (i : Z) : K (sched A) Z :=
  if i =? 0 then mret (- EPERM) else
  p ← process_from_pid fuel i;
  if p =? NULL then mret (- ESRCH) else
  acquire_mutex fuel (ProcLock p);;
  upd_process p (p_set_p_state PROC_ZOMBIE);;
  pr ← get_process p;
  kwhen (negb (main_thread pr =? NULL))
    (th ← get_thread (main_thread pr); thread_terminate fuel (tid th);; mret tt);;
  release_mutex fuel (ProcLock p);;
  mret 0.

(** The child [pid] (any child for -1) of [parent] and its slot.
    src/scheduling/process.c:243-258 [process_wait] *)
Fixpoint find_child (table : list Z) (index : nat) (parent i : Z) : K (sched A) (option (nat * Z)) :=
  match table with
  | [] => mret None
  | p :: rest =>
      if p =? NULL then find_child rest (S index) parent i else
      pr ← get_process p;
      if negb (ppid pr =? parent) then find_child rest (S index) parent i
      else if negb (i =? -1) && negb (pid pr =? i) then find_child rest (S index) parent i
      else mret (Some (index, p))
  end.

(** Put the current thread at the end of the child's wait queue.
    src/scheduling/process.c:276-283 [process_wait] *)
Definition enqueue_wait (child cur : Z) : K (sched A) unit :=
  upd_thread cur (t_set_next NULL);;
  c ← get_process child;
  if wait_head c =? NULL then
    upd_process child (p_set_wait_tail cur);; upd_process child (p_set_wait_head cur)
  else
    upd_thread (wait_tail c) (t_set_next cur);; upd_process child (p_set_wait_tail cur).

(** [thread_block] does not return, so the lines after it are dead.
    src/scheduling/process.c:230-295 [process_wait] *)
Definition process_wait (i : Z) (exit_code : option Z) : K (sched A) (Z * option Z) :=
  cur ← kasks current_thread;
  if cur =? NULL then mret (- EINVAL, exit_code) else
  th ← get_thread cur;
  lock_proc_table fuel;;
  table ← kasks process_table;
  found ← find_child table O (o_pid th) i;
  unlock_proc_table fuel;;
  match found with
  | None => mret (- ECHILD, exit_code)
  | Some (index, child) =>
      acquire_mutex fuel (ProcLock child);;
      c ← get_process child;
      if decide (p_state c = PROC_ZOMBIE \/ p_state c = PROC_EXITED) then
        upd_process child (p_set_p_state PROC_EXITED);;
        release_mutex fuel (ProcLock child);;
        e ← process_cleanup child index i exit_code (SchedState.exit_code c);
        mret (0, e)
      else
        enqueue_wait child cur;;
        th ← get_thread cur;
        thread_block fuel (tid th)
  end.

(** src/scheduling/process.c:297-319 [init_processes] *)
Definition init_processes : K (sched A) unit :=
  kprintf "Processes...";;
  init_mutex ProcTableLock;;
  kmod (set_process_table (replicate MAX_PROCS NULL));;
  kernel_process ← on_kmem (km_malloc SIZEOF_PROCESS);
  if kernel_process =? NULL then kstop Faulted else
  kmod (fun s => set_procs (<[kernel_process := process_zero]> (procs s)) s);;
  kmod (put_mutex (ProcLock kernel_process) mutex_zero);;
  upd_process kernel_process (p_set_pid 0);;
  upd_process kernel_process (p_set_p_state PROC_RUNNING);;
  upd_process kernel_process (p_set_address_space 0);;
  init_mutex (ProcLock kernel_process);;
  lock_proc_table fuel;;
  kmod (fun s => set_process_table (<[O := kernel_process]> (process_table s)) s);;
  unlock_proc_table fuel;;
  kok.
End process.
