(* ===== verification/ProcessSpec.v ===== *)
(** * The life of a process (process.c, the end of threads in thread.c)

    What exit, termination and waiting do on a system whose mutexes are idle:
    the waiters that wake up, the code a parent gets, the reaping of a zombie,
    and the calls that can not work. *)

From S2P Require Import Prelude Errno Console Machine Kheap Spinlock Kmem SchedState Sched Queue Mutex Threads.
From S2P Require Import ThreadSpec Process.
Local Open Scope Z_scope.

Section spec.
Context {A : Type} `{!Kmem A} `{!Console A} (fuel : nat).
Implicit Types s : sched A.

(** What the operations here leave alone. *)
Record quiet s s' : Prop := {
  qt_current : current_thread s' = current_thread s;
  qt_processes : process_table s' = process_table s;
  qt_threads : thread_table s' = thread_table s;
  qt_intr : intr s' = intr s;
  qt_kmem : kmem s' = kmem s;
  qt_spin : lock (schedule_lock s) = false -> lock (schedule_lock s') = false;
  qt_idle : forall m, idle m s -> idle m s';
}.

Lemma quiet_refl s : quiet s s.
Proof. by split. Qed.

Lemma quiet_trans s1 s2 s3 : quiet s1 s2 -> quiet s2 s3 -> quiet s1 s3.
Proof. intros [] []. split; (congruence || auto). Qed.

Lemma quiet_calm s s' : calm s s' -> quiet s s'.
Proof. intros [R I]. by split; try exact I; rewrite R. Qed.

(** Updates of processes and threads. *)
Lemma quiet_set_procs s x : quiet s (set_procs x s).
Proof. split; try done. intros m Hm. by apply (idle_mutexes m s). Qed.

Lemma quiet_set_threads s x : quiet s (set_threads x s).
Proof. split; try done. intros m Hm. by apply (idle_mutexes m s). Qed.

(** ** Critical sections *)

Lemma idle_taken m m' s : m' <> m -> idle m' s -> idle m' (put_mutex m (taken m s) s).
Proof. intros Hne [J1 J2 J3]. by split; rewrite mutex_at_put_ne by congruence. Qed.

(** The end of a section that leaves its own mutex alone. *)
Lemma mutex_part_run m s s2 :
  idle m s -> quiet (put_mutex m (taken m s) s) s2 -> mutex_at m s2 = taken m s ->
  exists s3, release_mutex fuel m s2 = Ret tt s3 /\ s3 = set_mutexes (mutexes s3) s2 /\ quiet s s3.
Proof.
  intros Hi Q Em. exists (put_mutex m (rested m s) s2).
  split; [apply release_taken_run; (done || apply Q)|]. split; [by destruct s2|].
  destruct Q as [Q1 Q2 Q3 Q4 Q5 Q6 Q7]. split; try done.
  intros m' Hm'. destruct (decide (m' = m)) as [->|Hne]; [by split; rewrite mutex_at_put|].
  destruct (Q7 m' (idle_taken _ _ _ Hne Hm')). by split; rewrite mutex_at_put_ne by congruence.
Qed.

(** ** Waking the waiters *)

Definition cleared (pr : process) : process := p_set_wait_head NULL (p_set_wait_tail NULL pr).

(** The first waiter [w], if there is one, is blocked. *)
Definition first_waiter s (q : list Z) (w : Z) : Prop :=
  w = NULL \/ exists th, threads s !! w = Some th /\ state th = THREAD_BLOCKED /\ w ∉ q /\
    table_live (threads s) (thread_table s) /\ tid_lookup (threads s) (thread_table s) (tid th) = w.

Definition woken (w : Z) : list Z := if w =? NULL then [] else [w].
Definition wake (w : Z) (m : gmap Z thread) : gmap Z thread :=
  if w =? NULL then m else alter (t_set_state THREAD_READY) w m.

Lemma wake_loop_run s q w :
  idle ThreadMutex s -> (2 <= fuel)%nat -> queue s q -> lock (schedule_lock s) = false -> first_waiter s q w ->
  exists s', wake_loop fuel w s = Ret tt s' /\ queue s' (q ++ woken w) /\
    linked (woken w ++ q) (wake w (threads s)) (threads s') /\ quiet s s' /\ procs s' = procs s /\
    (forall m, m <> ThreadMutex -> mutex_at m s' = mutex_at m s).
Proof.
  intros Hi Hf Hq Hl Hw. unfold wake_loop, woken, wake.
  destruct fuel as [|[|f]] eqn:Ef; [lia..|]. rewrite <- Ef in *.
  destruct Hw as [->|(th & Et & Hst & Hin & Htab & Elk)].
  - exists s. split; [rewrite Ef; by apply kloop_exit|]. cbn [Z.eqb NULL app]. rewrite app_nil_r.
    split_and!; [done|apply linked_refl|apply quiet_refl|done..].
  - destruct (Z.eqb_spec w NULL) as [->|Hwn].
    { exists s. split; [rewrite Ef; by apply kloop_exit|]. rewrite app_nil_r.
      split_and!; [done|apply linked_refl|apply quiet_refl|done..]. }
    destruct (thread_unblock_run fuel s q w th Hi ltac:(lia) Htab Elk Et Hwn Hst Hq Hin Hl)
      as (s1 & E1 & Hq1 & L1 & En & R1).
    destruct (threads s1 !! w) as [th1|] eqn:Et1; [|done]. injection En as En.
    exists s1. split; [|split; [exact Hq1|]].
    + rewrite Ef. erewrite kloop_next; [apply kloop_exit|]; [|rewrite <- Ef].
      2:{ destruct (Z.eqb_spec w NULL); [done|]. rewrite (kbind_ret _ _ _ _ _ (get_thread_run s w th Et)).
          rewrite (kbind_ret _ _ _ _ _ E1), (kbind_ret _ _ _ _ _ (get_thread_run s1 w th1 Et1)), En. reflexivity. }
      reflexivity.
    + assert (Ea : alter (t_set_state THREAD_READY) w (threads s) = <[w := t_set_state THREAD_READY th]> (threads s)).
      { apply map_eq. intros x. rewrite lookup_insert, lookup_alter. case_decide; [subst; by rewrite Et|done]. }
      rewrite Ea. split; [exact L1|].
      assert (Em : forall m, mutex_at m s1 = mutex_at m (put_mutex ThreadMutex (rested ThreadMutex s) s))
        by (intros m; by rewrite R1).
      split; [|split; [by rewrite R1|]].
      * split; try (by rewrite R1). intros m Hm. pose proof (cm_idle _ _ (calm_rested ThreadMutex s) m Hm) as [].
        by split; rewrite Em.
      * intros m Hm. rewrite Em. by rewrite mutex_at_put_ne by congruence.
Qed.

Lemma wake_waiters_run s q p pr :
  idle (ProcLock p) s -> idle ThreadMutex s -> (2 <= fuel)%nat -> p <> NULL -> procs s !! p = Some pr ->
  queue s q -> lock (schedule_lock s) = false -> first_waiter s q (wait_head pr) ->
  exists s', wake_waiters fuel p s = Ret tt s' /\ queue s' (q ++ woken (wait_head pr)) /\
    linked (woken (wait_head pr) ++ q) (wake (wait_head pr) (threads s)) (threads s') /\ quiet s s' /\
    procs s' = <[p := cleared pr]> (procs s).
Proof.
  intros Hi Hit Hf Hp Ep Hq Hl Hw. unfold wake_waiters. destruct (Z.eqb_spec p NULL); [done|].
  pose proof Hi as [J1 J2 _].
  rewrite (kbind_ret _ _ _ _ _ (acquire_free_run fuel (ProcLock p) s J1 J2 ltac:(lia))).
  set (s1 := put_mutex _ _ s). assert (Ep1 : procs s1 !! p = Some pr) by exact Ep.
  rewrite (kbind_ret _ _ _ _ _ (get_process_run s1 p pr Ep1)).
  destruct (wake_loop_run s1 q (wait_head pr)) as (s2 & E2 & Hq2 & L2 & Q2 & Epr & Em);
    [by apply idle_taken|done|exact Hq|exact Hl|exact Hw|].
  rewrite (kbind_ret _ _ _ _ _ E2).
  assert (Ep2 : procs s2 !! p = Some pr) by (by rewrite Epr).
  rewrite (kbind_ret _ _ _ _ _ (upd_process_run s2 p _ pr Ep2)).
  erewrite kbind_ret by (apply upd_process_run; apply lookup_insert_eq).
  match goal with |- context [release_mutex fuel (ProcLock p) ?x] => set (s3 := x) end.
  destruct (mutex_part_run (ProcLock p) s s3 Hi) as (s4 & E4 & R4 & Q4).
  - apply (quiet_trans s1 s2); [exact Q2|]. exact (quiet_trans _ _ _ (quiet_set_procs _ _) (quiet_set_procs _ _)).
  - change (mutex_at (ProcLock p) s3) with (mutex_at (ProcLock p) s2). rewrite Em by done. apply mutex_at_put.
  - exists s4. split; [exact E4|]. split; [by rewrite R4|]. split; [by rewrite R4|]. split; [exact Q4|].
    transitivity (procs s3); [by rewrite R4|]. change (procs s3) with (<[p := cleared pr]> (<[p := p_set_wait_tail NULL pr]> (procs s2))).
    by rewrite insert_insert_eq, Epr.
Qed.

(** ** The end of a process *)

(** A live thread [c] that exits: not the kernel's, in the process [p], whose
    mutexes and wait queue are in order. *)
Record exiting s (q : list Z) (c : Z) (thc : thread) (p : Z) (pr : process) : Prop := {
  ex_current : current_thread s = c;
  ex_null : c <> NULL;
  ex_thread : threads s !! c = Some thc;
  ex_tid : tid thc <> 0;
  ex_proc : proc thc = p;
  ex_process : procs s !! p = Some pr;
  ex_pnull : p <> NULL;
  ex_lock : idle (ProcLock p) s;
  ex_mutex : idle ThreadMutex s;
  ex_queue : queue s q;
  ex_out : c ∉ q;
  ex_spin : lock (schedule_lock s) = false;
  ex_waiter : first_waiter s q (wait_head pr);
  ex_other : wait_head pr <> c;
}.

(** The last part of [thread_exit]: the thread is marked and the processor
    given up. *)
Lemma thread_exit_end s q c th :
  current_thread s = c -> threads s !! c = Some th -> idle ThreadMutex s -> (1 <= fuel)%nat ->
  queue s q -> lock (schedule_lock s) = false ->
  exists s', forall B, (acquire_mutex fuel ThreadMutex;; upd_thread c (t_set_state THREAD_TERMED);;
      release_mutex fuel ThreadMutex;; kmod (set_current_thread NULL);; kstop Trapped) s
    = @Stop (sched A) B Trapped s' /\
    queue s' q /\ threads s' = <[c := t_set_state THREAD_TERMED th]> (threads s) /\ procs s' = procs s /\
    current_thread s' = NULL /\ lock (schedule_lock s') = false /\ forall m, idle m s -> idle m s'.
Proof.
  intros Hc Et Hi Hf Hq Hl. pose proof Hi as [J1 J2 _].
  set (s1 := put_mutex ThreadMutex (taken ThreadMutex s) s).
  set (s2 := set_threads (<[c := t_set_state THREAD_TERMED th]> (threads s)) s1).
  destruct (mutex_part_run ThreadMutex s s2 Hi) as (s3 & E3 & R3 & Q3);
    [exact (quiet_set_threads _ _)|exact (mutex_at_put ThreadMutex _ s)|].
  exists (set_current_thread NULL s3). intros B.
  rewrite (kbind_ret _ _ _ _ _ (acquire_free_run fuel ThreadMutex s J1 J2 Hf)). fold s1.
  assert (Et1 : threads s1 !! c = Some th) by exact Et.
  rewrite (kbind_ret _ _ _ _ _ (upd_thread_run s1 c _ th Et1)). fold s2.
  rewrite (kbind_ret _ _ _ _ _ E3).
  assert (Eth : threads s3 = threads s2) by (by rewrite R3).
  split; [reflexivity|]. split; [|split; [exact Eth|split; [|split; [done|split]]]].
  - unfold queue. cbn. rewrite Eth, R3. eapply list_at_ext; [|exact Hq]. intros x _. cbn.
    rewrite lookup_insert. case_decide; [subst; by rewrite Et|done].
  - cbn. by rewrite R3.
  - exact (qt_spin _ _ Q3 Hl).
  - intros m Hm. apply (idle_mutexes m s3); [done|]. exact (qt_idle _ _ Q3 m Hm).
Qed.

(** A process that has ended with code [v]. *)
Definition ended (v : Z) (pr : process) : process := p_set_p_state PROC_ZOMBIE (p_set_exit_code v pr).

(** Marking the process, inside a section on its lock. *)
Lemma mark_ended_run s p pr v :
  idle (ProcLock p) s -> (1 <= fuel)%nat -> procs s !! p = Some pr ->
  exists s', (forall B (k : K (sched A) B), (acquire_mutex fuel (ProcLock p);;
      upd_process p (p_set_exit_code v);; upd_process p (p_set_p_state PROC_ZOMBIE);;
      release_mutex fuel (ProcLock p);; k) s = k s') /\
    quiet s s' /\ procs s' = <[p := ended v pr]> (procs s) /\ threads s' = threads s /\
    ready_head s' = ready_head s /\ ready_tail s' = ready_tail s.
Proof.
  intros Hi Hf Ep. pose proof Hi as [J1 J2 _].
  set (s1 := put_mutex (ProcLock p) (taken (ProcLock p) s) s). assert (Ep1 : procs s1 !! p = Some pr) by exact Ep.
  set (s2 := set_procs (<[p := p_set_exit_code v pr]> (procs s)) s1).
  set (s3 := set_procs (<[p := ended v pr]> (procs s2)) s2).
  destruct (mutex_part_run (ProcLock p) s s3 Hi) as (s4 & E4 & R4 & Q4).
  - exact (quiet_trans _ _ _ (quiet_set_procs _ _) (quiet_set_procs _ _)).
  - exact (mutex_at_put (ProcLock p) _ s).
  - exists s4. split; [|split; [exact Q4|split; [|by rewrite R4]]].
    + intros B k. rewrite (kbind_ret _ _ _ _ _ (acquire_free_run fuel (ProcLock p) s J1 J2 Hf)). fold s1.
      rewrite (kbind_ret _ _ _ _ _ (upd_process_run s1 p _ pr Ep1)).
      erewrite kbind_ret by (apply upd_process_run; apply lookup_insert_eq).
      by rewrite (kbind_ret _ _ _ _ _ E4).
    + transitivity (procs s3); [by rewrite R4|]. apply insert_insert_eq.
Qed.

(** How the system is left: [th] has ended, the first waiter is ready. *)
Record exited s (q : list Z) (c : Z) (p w : Z) (pr : process) s' : Prop := {
  xd_queue : queue s' (q ++ woken w);
  xd_thread : state <$> threads s' !! c = Some THREAD_TERMED;
  xd_others : forall x, x <> c -> strip <$> threads s' !! x = strip <$> wake w (threads s) !! x;
  xd_procs : procs s' = <[p := pr]> (procs s);
  xd_current : current_thread s' = NULL;
  xd_spin : lock (schedule_lock s') = false;
  xd_idle : forall m, idle m s -> idle m s';
}.

Lemma linked_others X m m' x : linked X m m' -> strip <$> m' !! x = strip <$> m !! x.
Proof.
  intros L. pose proof (f_equal (fun z => z !! x) (lk_strip _ _ _ L)) as E. cbn beta in E.
  by rewrite !lookup_fmap in E.
Qed.

Lemma linked_state X m m' x : linked X m m' -> state <$> m' !! x = state <$> m !! x.
Proof.
  intros L. pose proof (linked_others _ _ _ x L) as E. destruct (m !! x), (m' !! x); try done.
  apply (inj Some) in E. cbn. f_equal. exact (f_equal state E).
Qed.

Lemma wake_other w m x : x <> w -> wake w m !! x = m !! x.
Proof. intros Hx. unfold wake. destruct (w =? NULL); [done|]. by apply lookup_alter_ne. Qed.

Lemma thread_exit_main s q c thc p pr :
  exiting s q c thc p pr -> (2 <= fuel)%nat -> main_thread pr = c ->
  exists s', (forall B, @thread_exit A fuel B s = Stop Trapped s') /\
    exited s q c p (wait_head pr) (cleared (ended 0 pr)) s'.
Proof.
  intros [X1 X2 X3 X4 X5 X6 X7 X8 X9 X10 X11 X12 X13 X14] Hf Hm.
  destruct (mark_ended_run s p pr 0 X8 ltac:(lia) X6) as (s1 & E1 & Q1 & Ep1 & Et1 & Eh1 & El1).
  assert (Hq1 : queue s1 q) by (unfold queue; by rewrite Et1, Eh1, El1).
  destruct (wake_waiters_run s1 q p (ended 0 pr)) as (s2 & E2 & Hq2 & L2 & Q2 & Ep2);
    [by apply (qt_idle _ _ Q1)|by apply (qt_idle _ _ Q1)|done|done|by rewrite Ep1, lookup_insert_eq|done|
     by apply (qt_spin _ _ Q1)| |].
  { unfold first_waiter. by rewrite Et1, (qt_threads _ _ Q1). }
  change (wait_head (ended 0 pr)) with (wait_head pr) in *.
  assert (Et2 : threads s2 !! c = Some thc).
  { rewrite (lk_out _ _ _ L2).
    - by rewrite wake_other, Et1 by congruence.
    - unfold woken. case (wait_head pr =? NULL); set_solver. }
  destruct (thread_exit_end s2 (q ++ woken (wait_head pr)) c thc) as (s3 & E3);
    [by rewrite (qt_current _ _ Q2), (qt_current _ _ Q1)|exact Et2|by apply (qt_idle _ _ Q2), (qt_idle _ _ Q1)|
     lia|exact Hq2|by apply (qt_spin _ _ Q2), (qt_spin _ _ Q1)|].
  exists s3. split.
  - intros B. unfold thread_exit. rewrite (kbind_ret _ _ s c s) by (unfold kasks; by rewrite X1).
    destruct (Z.eqb_spec c NULL); [done|]. rewrite (kbind_ret _ _ _ _ _ (get_thread_run s c thc X3)).
    destruct (Z.eqb_spec (tid thc) 0); [done|]. rewrite X5. destruct (Z.eqb_spec p NULL); [done|].
    cbn [negb kwhen]. rewrite <- (proj1 (E3 B)). unfold lock_thread_mutex, unlock_thread_mutex.
    rewrite (kbind_ret _ _ s tt s2); [reflexivity|]. pose proof X8 as [J1 J2 _].
    rewrite <- E2, <- E1.
    rewrite !(kbind_ret _ _ _ _ _ (acquire_free_run fuel (ProcLock p) s J1 J2 ltac:(lia))).
    rewrite (kbind_ret _ _ _ pr _ (get_process_run (put_mutex (ProcLock p) (taken (ProcLock p) s) s) p pr X6)).
    by rewrite Hm, Z.eqb_refl.
  - destruct (E3 unit) as (_ & Hq3 & Eth & Epr & Ec & El & Hid). split; [exact Hq3| | | |exact Ec|exact El|].
    + by rewrite Eth, lookup_insert_eq.
    + intros x Hx. rewrite Eth, lookup_insert_ne by congruence. rewrite (linked_others _ _ _ x L2). by rewrite Et1.
    + by rewrite Epr, Ep2, Ep1, insert_insert_eq.
    + intros m Hk. by apply Hid, (qt_idle _ _ Q2), (qt_idle _ _ Q1).
Qed.

(** [exiting] looks at nothing else. *)
Lemma exiting_quiet s s' q c thc p pr pr' :
  exiting s q c thc p pr -> quiet s s' -> queue s' q -> threads s' !! c = Some thc ->
  procs s' !! p = Some pr' -> first_waiter s' q (wait_head pr') -> wait_head pr' <> c ->
  exiting s' q c thc p pr'.
Proof.
  intros [X1 X2 X3 X4 X5 X6 X7 X8 X9 X10 X11 X12 X13 X14] Q Hq Et Ep Hw Hc. split; try done.
  - by rewrite (qt_current _ _ Q).
  - by apply (qt_idle _ _ Q).
  - by apply (qt_idle _ _ Q).
  - by apply (qt_spin _ _ Q).
Qed.

Lemma process_exit_run s q c thc p pr code :
  exiting s q c thc p pr -> (2 <= fuel)%nat -> main_thread pr = c ->
  idle ProcTableLock s -> table_live (procs s) (process_table s) -> 0 <= o_pid thc ->
  pid_lookup (procs s) (process_table s) (o_pid thc) = p ->
  exists s' pr', (forall B, @process_exit A fuel B code s = Stop Trapped s') /\
    procs s' = <[p := pr']> (procs s) /\ p_state pr' = PROC_ZOMBIE /\ SchedState.exit_code pr' = 0 /\
    wait_head pr' = NULL /\
    queue s' (q ++ woken (wait_head pr)) /\ state <$> threads s' !! c = Some THREAD_TERMED /\
    (forall x, x <> c -> strip <$> threads s' !! x = strip <$> wake (wait_head pr) (threads s) !! x) /\
    current_thread s' = NULL /\ lock (schedule_lock s') = false /\ forall m, idle m s -> idle m s'.
Proof.
  intros X Hf Hm Hi Hlive Hop Hlk. pose proof X as [X1 X2 X3 X4 X5 X6 X7 X8 X9 X10 X11 X12 X13 X14].
  set (s1 := put_mutex ProcTableLock (rested ProcTableLock s) s).
  pose proof (calm_rested ProcTableLock s) as C1. fold s1 in C1. pose proof (quiet_calm _ _ C1) as Q1.
  destruct (mark_ended_run s1 p pr code) as (s2 & E2 & Q2 & Ep2 & Et2 & Eh2 & El2);
    [by apply (qt_idle _ _ Q1)|lia|exact X6|].
  assert (Hq2 : queue s2 q) by (unfold queue; by rewrite Et2, Eh2, El2).
  assert (Hid2 : forall m, idle m s -> idle m s2) by (intros m Hk; by apply (qt_idle _ _ Q2), (qt_idle _ _ Q1)).
  assert (Et2' : threads s2 = threads s) by exact Et2.
  assert (Ett2 : thread_table s2 = thread_table s) by exact (qt_threads _ _ Q2).
  destruct (wake_waiters_run s2 q p (ended code pr)) as (s3 & E3 & Hq3 & L3 & Q3 & Ep3);
    [by apply Hid2|by apply Hid2|done|done|by rewrite Ep2, lookup_insert_eq|done|
     by apply (qt_spin _ _ Q2)| |].
  { unfold first_waiter. by rewrite Et2', Ett2. }
  change (wait_head (ended code pr)) with (wait_head pr) in *. rewrite Et2' in L3.
  assert (Hout : c ∉ q ++ woken (wait_head pr)).
  { unfold woken. destruct (wait_head pr =? NULL); set_solver. }
  assert (Et3 : threads s3 !! c = Some thc).
  { rewrite (lk_out _ _ _ L3) by set_solver. by rewrite wake_other by congruence. }
  destruct (thread_exit_main s3 (q ++ woken (wait_head pr)) c thc p (cleared (ended code pr))) as (s4 & E4 & D);
    [|done|exact Hm|].
  { split; try done.
    - by rewrite (qt_current _ _ Q3), (qt_current _ _ Q2), (qt_current _ _ Q1).
    - by rewrite Ep3, lookup_insert_eq.
    - by apply (qt_idle _ _ Q3), Hid2.
    - by apply (qt_idle _ _ Q3), Hid2.
    - by apply (qt_spin _ _ Q3), (qt_spin _ _ Q2).
    - by left. }
  destruct D as [D1 D2 D3 D4 D5 D6 D7]. change (wait_head (cleared (ended code pr))) with NULL in *.
  rewrite app_nil_r in D1.
  exists s4. eexists. split.
  - intros B. unfold process_exit. rewrite (kbind_ret _ _ s c s) by (unfold kasks; by rewrite X1).
    destruct (Z.eqb_spec c NULL); [done|]. rewrite (kbind_ret _ _ _ _ _ (get_thread_run s c thc X3)).
    rewrite (kbind_ret _ _ _ _ _ (process_from_pid_run fuel s (o_pid thc) Hi ltac:(lia) Hlive Hop)).
    rewrite Hlk. fold s1. destruct (Z.eqb_spec p NULL); [done|]. rewrite E2.
    rewrite (kbind_ret _ _ _ _ _ E3). apply E4.
  - split; [by rewrite D4, Ep3, Ep2, !insert_insert_eq|]. split_and!; try done.
    + intros x Hx. rewrite (D3 x Hx). exact (linked_others _ _ _ x L3).
    + intros m Hk. by apply D7, (qt_idle _ _ Q3), Hid2.
Qed.

(** ** Termination *)

(** The process [p] with id [i] whose main thread is [mt], another one than
    the current thread, all tables and locks in order. *)
Record killable s (i p mt : Z) (pr : process) (th : thread) : Prop := {
  kl_pid : 0 < i;
  kl_found : pid_lookup (procs s) (process_table s) i = p;
  kl_null : p <> NULL;
  kl_process : procs s !! p = Some pr;
  kl_main : main_thread pr = mt;
  kl_mnull : mt <> NULL;
  kl_thread : threads s !! mt = Some th;
  kl_proc : proc th = p;
  kl_tid : tid th <> 0;
  kl_lookup : tid_lookup (threads s) (thread_table s) (tid th) = mt;
  kl_other : mt <> current_thread s;
  kl_current : is_Some (threads s !! current_thread s);
  kl_live : table_live (threads s) (thread_table s);
  kl_plive : table_live (procs s) (process_table s);
  kl_table : idle ProcTableLock s;
  kl_lock : idle (ProcLock p) s;
  kl_ltail : waiter_tail (mutex_at (ProcLock p) s) = NULL;
  kl_mutex : idle ThreadMutex s;
  kl_mtail : waiter_tail (mutex_at ThreadMutex s) = NULL;
}.

(** Asking for a process's lock while that lock and the thread table's mutex
    are held. *)
Lemma nested_stuck p s :
  mutex_at (ProcLock p) s = taken (ProcLock p) s -> mutex_at ThreadMutex s = taken ThreadMutex s ->
  is_Some (threads s !! current_thread s) -> waiter_tail (mutex_at (ProcLock p) s) = NULL ->
  waiter_tail (mutex_at ThreadMutex s) = NULL ->
  exists s', acquire_mutex fuel (ProcLock p) s = Stop OutOfFuel s'.
Proof.
  intros Ep Et Hc H1 H2. unfold acquire_mutex. destruct fuel as [|f] eqn:Ef; [by eexists|].
  destruct (contended_run (Datatypes.S f) f (ProcLock p) s) as (i & s3 & E & _ & _ & _ & C3 & H3 & O3);
    [by rewrite Ep|by rewrite Ep|done|by left|].
  destruct (thread_mutex_recursion f s3) with (fuel := Datatypes.S f) as (s' & E');
    [by rewrite O3, Et|by rewrite O3, Et|rewrite C3; by apply H3|left; by rewrite O3|].
  exists s'. rewrite E. unfold thread_block_with. by rewrite (kbind_stop _ _ _ _ _ E').
Qed.

(** Ending a thread of a process whose lock the caller holds. *)
Lemma thread_terminate_stuck s p mt th :
  mutex_at (ProcLock p) s = taken (ProcLock p) s -> waiter_tail (mutex_at (ProcLock p) s) = NULL ->
  idle ThreadMutex s -> waiter_tail (mutex_at ThreadMutex s) = NULL -> (1 <= fuel)%nat ->
  p <> NULL -> threads s !! mt = Some th -> mt <> NULL -> proc th = p -> tid th <> 0 ->
  table_live (threads s) (thread_table s) -> tid_lookup (threads s) (thread_table s) (tid th) = mt ->
  mt <> current_thread s -> is_Some (threads s !! current_thread s) ->
  exists s', thread_terminate fuel (tid th) s = Stop OutOfFuel s'.
Proof.
  intros Mp Tp [I1 I2 I3] Tt Hf Hp Et Hmt Hproc Htid Htab Elk Hcur Hlive.
  set (s4 := put_mutex ThreadMutex (taken ThreadMutex s) s).
  set (s5 := set_threads (<[mt := t_set_state THREAD_TERMED th]> (threads s)) s4).
  assert (M5 : mutex_at (ProcLock p) s5 = mutex_at (ProcLock p) s)
    by exact (mutex_at_put_ne ThreadMutex (ProcLock p) _ s ltac:(discriminate)).
  assert (M5t : mutex_at ThreadMutex s5 = taken ThreadMutex s) by exact (mutex_at_put ThreadMutex _ s).
  assert (exists s', process_remove_thread fuel p mt s5 = Stop OutOfFuel s') as (s' & E').
  { unfold process_remove_thread. destruct (Z.eqb_spec p NULL); [done|]. destruct (Z.eqb_spec mt NULL); [done|].
    cbn [orb]. destruct (nested_stuck p s5) as (s' & E').
    - unfold taken. by rewrite M5, Mp.
    - unfold taken. by rewrite M5t.
    - cbn. rewrite lookup_insert. case_decide; [by eexists|done].
    - by rewrite M5.
    - by rewrite M5t.
    - exists s'. by rewrite (kbind_stop _ _ _ _ _ E'). }
  exists s'. unfold thread_terminate, lock_thread_mutex. destruct (Z.eqb_spec (tid th) 0); [done|].
  rewrite (kbind_ret _ _ _ _ _ (acquire_free_run fuel ThreadMutex s I1 I2 Hf)). fold s4.
  rewrite (kbind_ret _ _ s4 mt s4) by (rewrite <- Elk; exact (thread_from_tid_run s4 (tid th) Htab)).
  destruct (Z.eqb_spec mt NULL); [done|].
  rewrite (kbind_ret _ _ s4 (current_thread s) s4) by reflexivity.
  destruct (Z.eqb_spec mt (current_thread s)); [done|].
  rewrite (kbind_ret _ _ s4 tt s5) by exact (upd_thread_run s4 mt _ th Et).
  rewrite (kbind_ret _ _ s5 (t_set_state THREAD_TERMED th) s5)
    by exact (get_thread_run s5 mt _ (lookup_insert_eq _ _ _)).
  change (proc (t_set_state THREAD_TERMED th)) with (proc th). rewrite Hproc.
  destruct (Z.eqb_spec p NULL); [done|]. cbn [negb kwhen]. apply kbind_stop. by apply kbind_stop.
Qed.

Lemma process_terminate_stuck s i p mt pr th :
  killable s i p mt pr th -> (1 <= fuel)%nat -> exists s', process_terminate fuel i s = Stop OutOfFuel s'.
Proof.
  intros [K1 K2 K3 K4 K5 K6 K7 K8 K9 K10 K11 K12 K13 K14 K15 K16 K17 K18 K19] Hf. unfold process_terminate.
  destruct (Z.eqb_spec i 0); [lia|].
  rewrite (kbind_ret _ _ _ _ _ (process_from_pid_run fuel s i K15 Hf K14 ltac:(lia))). rewrite K2.
  destruct (Z.eqb_spec p NULL); [done|]. set (s1 := put_mutex _ _ s).
  assert (M1 : forall m, m <> ProcTableLock -> mutex_at m s1 = mutex_at m s)
    by (intros m Hm; exact (mutex_at_put_ne ProcTableLock m _ s (not_eq_sym Hm))).
  destruct K16 as [J1 J2 _].
  rewrite (kbind_ret _ _ _ _ _ (acquire_free_run fuel (ProcLock p) s1
    ltac:(by rewrite M1) ltac:(by rewrite M1) Hf)). set (s2 := put_mutex _ _ s1).
  rewrite (kbind_ret _ _ _ _ _ (upd_process_run s2 p _ pr K4)). set (s3 := set_procs _ s2).
  rewrite (kbind_ret _ _ s3 _ s3 (get_process_run s3 p _ (lookup_insert_eq _ _ _))).
  cbn [main_thread p_set_p_state]. rewrite K5. destruct (Z.eqb_spec mt NULL); [done|]. cbn [negb kwhen].
  assert (M3 : mutex_at ThreadMutex s3 = mutex_at ThreadMutex s).
  { transitivity (mutex_at ThreadMutex s1); [|by apply M1].
    exact (mutex_at_put_ne (ProcLock p) ThreadMutex _ s1 ltac:(discriminate)). }
  assert (M3p : mutex_at (ProcLock p) s3 = taken (ProcLock p) s1) by exact (mutex_at_put (ProcLock p) _ s1).
  destruct (thread_terminate_stuck s3 p mt th) as (s' & E'); try done.
  - rewrite M3p. unfold taken. by rewrite M3p.
  - rewrite M3p. cbn. by rewrite M1.
  - destruct K18. by split; rewrite M3.
  - by rewrite M3.
  - exists s'. apply kbind_stop. rewrite (kbind_ret _ _ s3 th s3) by exact (get_thread_run s3 mt th K7).
    by apply kbind_stop.
Qed.

(** ** A ready thread that is terminated *)

(** The walk for a thread that is the end of the path but not the tail. *)
Lemma remove_cut_loop t q : forall s pre f,
  segto (threads s) (ready_head s) (pre ++ q ++ [t]) NULL -> NoDup (pre ++ q ++ [t]) ->
  ready_tail s <> t -> (length q < f)%nat ->
  exists s', kloop f (remove_step t) (default NULL (last pre), hd NULL (q ++ [t])) s = Ret tt s' /\
    segto (threads s') (ready_head s') (pre ++ q) NULL /\ ready_tail s' = ready_tail s /\
    qframe (pre ++ q ++ [t]) s s'.
Proof.
  induction q as [|x q IH]; intros s pre f H Hnd Htl Hf; (destruct f as [|f]; [cbn in Hf; lia|]).
  - cbn [app] in *. destruct (segto_some _ _ _ _ t H) as [Ht [th Et]]; [set_solver|].
    pose proof H as (y & H1 & (-> & _ & th0 & E0 & Hn))%segto_app. rewrite Et in E0. injection E0 as <-.
    cbn in Hn. apply NoDup_app in Hnd as (Hnd & Hdis & _).
    assert (Htp : t ∉ pre) by (intros Hx; apply (Hdis t Hx); set_solver).
    assert (exists s1, (if negb (default NULL (last pre) =? NULL)
          then upd_thread (default NULL (last pre)) (t_set_next (next th))
          else kmod (set_ready_head (next th))) s = Ret tt s1 /\
        segto (threads s1) (ready_head s1) pre NULL /\ ready_tail s1 = ready_tail s /\
        threads s1 !! t = Some th /\ qframe pre s s1) as (s1 & E1 & S1 & T1 & Et1 & F1).
    { rewrite Hn. destruct pre as [|l pre _] using rev_ind.
      - exists (set_ready_head NULL s). by split_and!; try (split; [|destruct s]).
      - rewrite last_snoc. cbn [from_option id].
        destruct (segto_some _ _ _ _ l H1) as [Hl [thl El]]; [set_solver|].
        destruct (Z.eqb_spec l NULL); [done|]. cbn [negb]. rewrite (upd_thread_run _ _ _ _ El).
        eexists. split; [reflexivity|]. cbn. split_and!; [by eapply segto_relink|done| |].
        + rewrite lookup_insert_ne by set_solver. done.
        + split; [|by destruct s]. eapply linked_weaken; [|by apply linked_link]. set_solver. }
    exists (set_threads (<[t := t_set_next NULL th]> (threads s1)) s1).
    rewrite app_nil_r. split; [|split; [|split; [exact T1|]]].
    + apply kloop_exit. unfold remove_step. cbn [hd]. destruct (Z.eqb_spec t NULL); [done|]. rewrite Z.eqb_refl.
      rewrite (kbind_ret _ _ _ _ _ (get_thread_run _ _ _ Et)), (kbind_ret _ _ _ _ _ E1).
      rewrite (kbind_ret _ _ s1 (ready_tail s) s1) by (unfold kasks; by rewrite T1).
      destruct (Z.eqb_spec t (ready_tail s)); [congruence|]. cbn [kwhen].
      rewrite (kbind_ret _ _ s1 tt s1) by reflexivity. by rewrite (kbind_ret _ _ _ _ _ (upd_thread_run _ _ _ _ Et1)).
    + cbn. eapply segto_ext; [|exact S1]. intros z Hz. by rewrite lookup_insert_ne by (intros ->; done).
    + apply (qframe_trans _ _ s s1); [exact F1|]. split; [by apply linked_link|by destruct s1].
  - pose proof H as (y & _ & (-> & Hx & th & E & H2))%segto_app. cbn [hd app].
    assert (Hne : x <> t).
    { apply NoDup_app in Hnd as (_ & _ & [Hn _]%NoDup_cons). intros ->. set_solver. }
    destruct (IH s (pre ++ [x]) f) as (s' & E' & S' & T' & F');
      [by rewrite <- app_assoc|by rewrite <- app_assoc|done|cbn in Hf; lia|].
    rewrite <- app_assoc in S', F'. exists s'. split_and!; [|done..].
    rewrite (kloop_next _ _ _ (x, next th) _ s).
    + rewrite last_snoc in E'. cbn [from_option id] in E'. rewrite <- E'. f_equal. f_equal.
      destruct q as [|z q]; by destruct H2 as (-> & _).
    + unfold remove_step. destruct (Z.eqb_spec x NULL); [done|]. destruct (Z.eqb_spec x t); [done|].
      by rewrite (kbind_ret _ _ _ _ _ (get_thread_run _ _ _ E)).
Qed.

(** The process without the thread. *)
Definition without_main (t : Z) (pr : process) : process :=
  if main_thread pr =? t then p_set_main_thread NULL pr else pr.

Lemma process_remove_thread_exact s p t pr :
  idle (ProcLock p) s -> (1 <= fuel)%nat -> p <> NULL -> t <> NULL -> procs s !! p = Some pr ->
  process_remove_thread fuel p t s
  = Ret 0 (put_mutex (ProcLock p) (rested (ProcLock p) s) (set_procs (<[p := without_main t pr]> (procs s)) s)).
Proof.
  intros Hi Hf Hp Ht Ep. unfold process_remove_thread.
  destruct (Z.eqb_spec p NULL); [done|]. destruct (Z.eqb_spec t NULL); [done|]. cbn [orb].
  pose proof Hi as [J1 J2 _]. set (s1 := put_mutex (ProcLock p) (taken (ProcLock p) s) s).
  assert (Ep1 : procs s1 !! p = Some pr) by exact Ep.
  set (s2 := set_procs (<[p := without_main t pr]> (procs s)) s1).
  rewrite (kbind_ret _ _ _ _ _ (acquire_free_run fuel (ProcLock p) s J1 J2 Hf)). fold s1.
  rewrite (kbind_ret _ _ _ _ _ (get_process_run s1 p pr Ep1)).
  rewrite (kbind_ret _ _ s1 tt s2).
  2:{ unfold s2, without_main. destruct (main_thread pr =? t); cbn [kwhen].
      - by rewrite (upd_process_run s1 p _ pr Ep1).
      - rewrite insert_id by done. by destruct s. }
  rewrite (kbind_ret _ _ _ _ _ (release_taken_run fuel (ProcLock p) s s2 Hi (mutex_at_put _ _ s) eq_refl eq_refl)).
  unfold mret, K_ret. f_equal. unfold s2, s1, put_mutex. cbn. by rewrite insert_insert_eq.
Qed.

Lemma process_remove_thread_run s p t pr :
  idle (ProcLock p) s -> (1 <= fuel)%nat -> p <> NULL -> t <> NULL -> procs s !! p = Some pr ->
  exists s', process_remove_thread fuel p t s = Ret 0 s' /\ quiet s s' /\ threads s' = threads s /\
    ready_head s' = ready_head s /\ ready_tail s' = ready_tail s /\
    forall m, m <> ProcLock p -> mutex_at m s' = mutex_at m s.
Proof.
  intros Hi Hf Hp Ht Ep. eexists. split; [by apply process_remove_thread_exact|].
  split; [|split_and!; [done..|]].
  - eapply quiet_trans; [apply quiet_set_procs|]. apply quiet_calm.
    apply (calm_rested (ProcLock p) (set_procs _ s)).
  - intros m Hm. exact (mutex_at_put_ne (ProcLock p) m _ _ (not_eq_sym Hm)).
Qed.

(** The removal, with the thread's link cut before. *)
Lemma remove_cut_run s q t :
  segto (threads s) (ready_head s) (q ++ [t]) NULL -> NoDup (q ++ [t]) -> ready_tail s <> t ->
  lock (schedule_lock s) = false -> t <> NULL -> (length q < fuel)%nat ->
  exists s', remove_from_ready_queue fuel t s = Ret tt s' /\ segto (threads s') (ready_head s') q NULL /\
    ready_tail s' = ready_tail s /\ linked (q ++ [t]) (threads s) (threads s').
Proof.
  intros H Hnd Htl Hl Ht Hf. unfold remove_from_ready_queue. destruct (Z.eqb_spec t NULL); [done|].
  rewrite (kbind_ret _ _ _ _ _ (lock_run s Hl)). set (s1 := locked schedule_spin s).
  rewrite (kbind_ret _ _ s1 (ready_head s) s1) by reflexivity.
  destruct (remove_cut_loop t q s1 [] fuel) as (s2 & E2 & S2 & T2 & [L2 R2]); [exact H|exact Hnd|exact Htl|exact Hf|].
  replace (hd NULL (q ++ [t])) with (ready_head s) in E2 by (destruct q; by destruct H as (-> & _)).
  cbn [last from_option id] in E2. rewrite (kbind_ret _ _ _ _ _ E2). unfold unlock_schedule_spin.
  rewrite (spinlock_release_run schedule_spin) by (rewrite R2; by destruct s).
  eexists. split; [reflexivity|]. exact (conj S2 (conj T2 L2)).
Qed.

Lemma segto_det m q : forall p q', segto m p q NULL -> segto m p q' NULL -> q = q'.
Proof.
  induction q as [|x q IH]; intros p [|y q']; cbn [segto]; [done| | |].
  - by intros -> (<- & ? & _).
  - by intros (-> & ? & _) ->.
  - intros (-> & _ & th & E & H) (<- & _ & th' & E' & H'). rewrite E in E'. injection E' as <-.
    f_equal. by eapply IH.
Qed.

Lemma thread_terminate_cuts s q1 t q2 th p pr :
  queue s (q1 ++ t :: q2) -> q2 <> [] -> lock (schedule_lock s) = false -> idle ThreadMutex s ->
  threads s !! t = Some th -> tid th <> 0 -> table_live (threads s) (thread_table s) ->
  tid_lookup (threads s) (thread_table s) (tid th) = t -> t <> current_thread s ->
  proc th = p -> p <> NULL -> procs s !! p = Some pr -> idle (ProcLock p) s -> (length q1 < fuel)%nat ->
  exists s', thread_terminate fuel (tid th) s = Ret 0 s' /\
    segto (threads s') (ready_head s') q1 NULL /\ ready_tail s' = ready_tail s /\
    (forall x, x <> t -> strip <$> threads s' !! x = strip <$> threads s !! x).
Proof.
  intros Hq Hq2 Hl Hi Et Htid Htab Elk Hcur Hproc Hp Ep Hip Hf. pose proof Hq as (H & Htl & Hnd).
  destruct (queue_some _ _ t Hq) as [Ht _]; [set_solver|].
  pose proof Hi as [I1 I2 _]. set (s1 := put_mutex ThreadMutex (taken ThreadMutex s) s).
  set (th1 := t_set_state THREAD_TERMED th).
  set (s2 := set_threads (<[t := th1]> (threads s)) s1).
  destruct (process_remove_thread_run s2 p t pr) as (s3 & E3 & Q3 & Et3 & Eh3 & El3 & M3);
    [by apply (idle_mutexes _ s1), idle_taken|lia|done|done|done|].
  assert (Et3t : threads s3 !! t = Some th1) by (rewrite Et3; apply lookup_insert_eq).
  set (s4 := set_threads (<[t := t_set_next NULL th1]> (threads s3)) s3).
  destruct (mutex_part_run ThreadMutex s s4 Hi) as (s5 & E5 & R5 & Q5).
  { apply (quiet_trans s1 s2); [apply quiet_set_threads|]. apply (quiet_trans s2 s3); [done|apply quiet_set_threads]. }
  { transitivity (mutex_at ThreadMutex s2); [by apply M3|exact (mutex_at_put ThreadMutex _ s)]. }
  assert (Eth5 : threads s5 = <[t := t_set_next NULL th1]> (threads s)).
  { rewrite R5. cbn. rewrite Et3. cbn. by rewrite insert_insert_eq. }
  assert (Hh5 : ready_head s5 = ready_head s) by (rewrite R5; exact Eh3).
  assert (Hl5 : ready_tail s5 = ready_tail s) by (rewrite R5; exact El3).
  pose proof Hnd as (Hnd1 & Hdis & [Htq2 _]%NoDup_cons)%NoDup_app.
  assert (Htq1 : t ∉ q1) by (intros Hx; apply (Hdis t Hx); set_solver).
  destruct (remove_cut_run s5 q1 t) as (s6 & E6 & S6 & T6 & L6); [| | |by apply (qt_spin _ _ Q5)|done|lia|].
  - apply segto_app in H as (y & H1 & (-> & _)). rewrite Eth5, Hh5. apply segto_app. exists t. split.
    + eapply segto_ext; [|exact H1]. intros x Hx. by rewrite lookup_insert_ne by (intros <-; done).
    + split_and!; [done..|]. eexists. rewrite lookup_insert_eq. by split.
  - apply NoDup_app. split_and!; [done|set_solver|apply NoDup_singleton].
  - rewrite Hl5, Htl, last_app, last_cons. destruct (last q2) as [z|] eqn:Ez.
    + apply last_Some in Ez as [? ->]. cbn. set_solver.
    + by apply last_None in Ez.
  - exists s6. split; [|split; [exact S6|split; [by rewrite T6|]]].
    + unfold thread_terminate, lock_thread_mutex, unlock_thread_mutex. destruct (Z.eqb_spec (tid th) 0); [done|].
      rewrite (kbind_ret _ _ _ _ _ (acquire_free_run fuel ThreadMutex s I1 I2 ltac:(lia))). fold s1.
      rewrite (kbind_ret _ _ s1 t s1) by (rewrite <- Elk; exact (thread_from_tid_run s1 (tid th) Htab)).
      destruct (Z.eqb_spec t NULL); [done|].
      rewrite (kbind_ret _ _ s1 (current_thread s) s1) by reflexivity.
      destruct (Z.eqb_spec t (current_thread s)); [done|].
      rewrite (kbind_ret _ _ s1 tt s2) by exact (upd_thread_run s1 t _ th Et).
      rewrite (kbind_ret _ _ s2 th1 s2) by exact (get_thread_run s2 t _ (lookup_insert_eq _ _ _)).
      change (proc th1) with (proc th). rewrite Hproc. destruct (Z.eqb_spec p NULL); [done|]. cbn [negb kwhen].
      rewrite (kbind_ret _ _ s2 tt s3) by (by rewrite (kbind_ret _ _ _ _ _ E3)).
      rewrite (kbind_ret _ _ s3 tt s4) by exact (upd_thread_run s3 t _ th1 Et3t).
      by rewrite (kbind_ret _ _ _ _ _ E5), (kbind_ret _ _ _ _ _ E6).
    + intros x Hx. rewrite (linked_others _ _ _ x L6), Eth5. by rewrite lookup_insert_ne by congruence.
Qed.

(** ** Waiting *)

(** The first child with id [i] (any id for -1) of [parent] and its slot. *)
Fixpoint child_lookup (m : gmap Z process) (table : list Z) (index : nat) (parent i : Z) : option (nat * Z) :=
  match table with
  | [] => None
  | p :: rest =>
      match m !! p with
      | Some pr =>
          if negb (p =? NULL) && (ppid pr =? parent) && ((i =? -1) || (pid pr =? i)) then Some (index, p)
          else child_lookup m rest (Datatypes.S index) parent i
      | None => child_lookup m rest (Datatypes.S index) parent i
      end
  end.

Lemma find_child_run s table parent i : forall index, table_live (procs s) table ->
  find_child table index parent i s = Ret (child_lookup (procs s) table index parent i) s.
Proof.
  induction table as [|p r IH]; intros index Hl; [done|]. cbn [find_child child_lookup].
  assert (Hr : table_live (procs s) r) by (intros x Hx; apply Hl; set_solver).
  destruct (Z.eqb_spec p NULL) as [->|Hp]; cbn [negb andb].
  { destruct (procs s !! NULL); by apply IH. }
  destruct (Hl p) as [|[pr E]]; [set_solver|done|]. rewrite E.
  rewrite (kbind_ret _ _ _ _ _ (get_process_run _ _ _ E)).
  destruct (ppid pr =? parent); cbn [negb andb]; [|by apply IH].
  destruct (i =? -1), (pid pr =? i); cbn [negb andb orb]; (done || by apply IH).
Qed.

(** The table without the reaped child. *)
Definition reaped (i : Z) (index : nat) (child : Z) (table : list Z) : list Z :=
  if i =? -1 then map (fun p => if p =? child then NULL else p) table else <[index := NULL]> table.

Definition cleaned s (i : Z) (index : nat) (child : Z) (h : A) : sched A :=
  set_kmem h (set_procs (delete child (procs s)) (set_process_table (reaped i index child (process_table s))
    (put_mutex ProcTableLock (rested ProcTableLock s) s))).

Lemma process_cleanup_run s child index i ec code pr h :
  idle ProcTableLock s -> (1 <= fuel)%nat -> procs s !! child = Some pr ->
  frees (filter (fun p => p <> 0) [address_space pr] ++ [child]) (kmem s) h ->
  process_cleanup fuel child index i ec code s
  = Ret (option_map (fun _ => code) ec) (cleaned s i index child h).
Proof.
  intros Hi Hf Ep Hfr. unfold process_cleanup, lock_proc_table, unlock_proc_table. pose proof Hi as [J1 J2 _].
  set (s1 := put_mutex ProcTableLock (taken ProcTableLock s) s).
  set (s2 := set_process_table (reaped i index child (process_table s)) s1).
  set (s3 := put_mutex ProcTableLock (rested ProcTableLock s) s2).
  rewrite (kbind_ret _ _ s tt s3).
  2:{ destruct (i =? -1) eqn:Ei; cbn [negb];
        rewrite (kbind_ret _ _ _ _ _ (acquire_free_run fuel ProcTableLock s J1 J2 Hf)); fold s1;
        rewrite (kbind_ret _ _ s1 tt s2) by (unfold s2, reaped; by rewrite Ei);
        exact (release_taken_run fuel ProcTableLock s s2 Hi (mutex_at_put _ _ s) eq_refl eq_refl). }
  rewrite (kbind_ret _ _ s3 pr s3) by exact (get_process_run s3 child pr Ep).
  apply frees_app in Hfr as (h1 & H1 & (h2 & E2 & ->)).
  rewrite (kbind_ret _ _ s3 tt (set_kmem h1 s3)) by exact (free_stack_run s3 _ _ h1 H1 eq_refl).
  unfold free_process. erewrite kbind_ret.
  2:{ erewrite kbind_ret by (apply on_kmem_run; exact E2). reflexivity. }
  unfold mret, K_ret. f_equal. unfold cleaned, s3, s2, s1. destruct s. unfold put_mutex. cbn.
  by rewrite insert_insert_eq.
Qed.

Lemma child_lookup_some m table parent i k p : forall index,
  child_lookup m table index parent i = Some (k, p) ->
  p <> NULL /\ exists pr, m !! p = Some pr /\ ppid pr = parent /\ (i = -1 \/ pid pr = i).
Proof.
  induction table as [|x table IH]; intros index; cbn [child_lookup]; [done|].
  destruct (m !! x) as [pr|] eqn:Ex; [|by apply IH].
  destruct (Z.eqb_spec x NULL); cbn [negb andb]; [by apply IH|].
  destruct (Z.eqb_spec (ppid pr) parent); cbn [andb]; [|by apply IH].
  destruct (Z.eqb_spec i (-1)), (Z.eqb_spec (pid pr) i); cbn [orb]; try (by apply IH);
    intros [= -> ->]; (split; [done|]); exists pr; auto.
Qed.

(** The first part of [process_wait]. *)
Lemma wait_lookup_run s c thc i ec :
  current_thread s = c -> c <> NULL -> threads s !! c = Some thc ->
  idle ProcTableLock s -> (1 <= fuel)%nat -> table_live (procs s) (process_table s) ->
  let s1 := put_mutex ProcTableLock (rested ProcTableLock s) s in
  process_wait fuel i ec s =
    match child_lookup (procs s) (process_table s) 0 (o_pid thc) i with
    | None => Ret (- ECHILD, ec) s1
    | Some (index, child) =>
        (acquire_mutex fuel (ProcLock child);;
         c' ← get_process child;
         if decide (p_state c' = PROC_ZOMBIE \/ p_state c' = PROC_EXITED) then
           upd_process child (p_set_p_state PROC_EXITED);;
           release_mutex fuel (ProcLock child);;
           e ← process_cleanup fuel child index i ec (SchedState.exit_code c');
           mret (0, e)
         else
           enqueue_wait child c;;
           th ← get_thread c;
           thread_block fuel (tid th)) s1
    end.
Proof.
  intros Hc Hcn Et Hi Hf Hl s1. unfold process_wait, lock_proc_table, unlock_proc_table. pose proof Hi as [J1 J2 _].
  rewrite (kbind_ret _ _ s c s) by (unfold kasks; by rewrite Hc).
  destruct (Z.eqb_spec c NULL); [done|]. rewrite (kbind_ret _ _ _ _ _ (get_thread_run s c thc Et)).
  rewrite (kbind_ret _ _ _ _ _ (acquire_free_run fuel ProcTableLock s J1 J2 Hf)). set (s0 := put_mutex _ _ s).
  rewrite (kbind_ret _ _ s0 (process_table s) s0) by reflexivity.
  rewrite (kbind_ret _ _ s0 (child_lookup (procs s) (process_table s) 0 (o_pid thc) i) s0)
    by exact (find_child_run s0 (process_table s) _ i 0 Hl).
  rewrite (kbind_ret _ _ _ _ _ (release_taken_run fuel ProcTableLock s s0 Hi (mutex_at_put _ _ s) eq_refl eq_refl)).
  unfold s0. rewrite put_mutex_put. fold s1.
  destruct (child_lookup (procs s) (process_table s) 0 (o_pid thc) i) as [[index child]|]; [reflexivity|reflexivity].
Qed.

(** Waiting: the current thread [c], with its locks and tables in order. *)
Record waiting s (c : Z) (thc : thread) : Prop := {
  wt_current : current_thread s = c;
  wt_null : c <> NULL;
  wt_thread : threads s !! c = Some thc;
  wt_table : idle ProcTableLock s;
  wt_live : table_live (procs s) (process_table s);
}.

Lemma wait_zombie_run s c thc i ec index child pr h :
  waiting s c thc -> (1 <= fuel)%nat ->
  child_lookup (procs s) (process_table s) 0 (o_pid thc) i = Some (index, child) ->
  procs s !! child = Some pr -> p_state pr = PROC_ZOMBIE \/ p_state pr = PROC_EXITED ->
  idle (ProcLock child) s ->
  frees (filter (fun p => p <> 0) [address_space pr] ++ [child]) (kmem s) h ->
  exists s', process_wait fuel i ec s = Ret (0, option_map (fun _ => SchedState.exit_code pr) ec) s' /\
    process_table s' = reaped i index child (process_table s) /\ procs s' = delete child (procs s) /\
    threads s' = threads s /\ kmem s' = h /\ ready_head s' = ready_head s /\ ready_tail s' = ready_tail s /\
    current_thread s' = c /\ intr s' = intr s /\ forall m, idle m s -> idle m s'.
Proof.
  intros [W1 W2 W3 W4 W5] Hf Elk Ep Hst Hi Hfr.
  pose proof (wait_lookup_run s c thc i ec W1 W2 W3 W4 Hf W5) as E. cbv zeta in E. rewrite Elk in E.
  set (s1 := put_mutex ProcTableLock (rested ProcTableLock s) s) in *.
  pose proof (quiet_calm _ _ (calm_rested ProcTableLock s)) as Q1. fold s1 in Q1.
  pose proof (qt_idle _ _ Q1 _ Hi) as Hi1. pose proof Hi1 as [J1 J2 _].
  set (s2 := put_mutex (ProcLock child) (taken (ProcLock child) s1) s1).
  set (s3 := set_procs (<[child := p_set_p_state PROC_EXITED pr]> (procs s)) s2).
  destruct (mutex_part_run (ProcLock child) s1 s3 Hi1) as (s4 & E4 & R4 & Q4);
    [exact (quiet_set_procs _ _)|exact (mutex_at_put (ProcLock child) _ s1)|].
  assert (Ep4 : procs s4 = <[child := p_set_p_state PROC_EXITED pr]> (procs s)) by (by rewrite R4).
  assert (Hid4 : forall m, idle m s -> idle m s4) by (intros m Hm; by apply (qt_idle _ _ Q4), (qt_idle _ _ Q1)).
  exists (cleaned s4 i index child h). split.
  - rewrite E, (kbind_ret _ _ _ _ _ (acquire_free_run fuel (ProcLock child) s1 J1 J2 Hf)). fold s2.
    rewrite (kbind_ret _ _ s2 pr s2) by exact (get_process_run s2 child pr Ep). rewrite decide_True by done.
    rewrite (kbind_ret _ _ s2 tt s3) by exact (upd_process_run s2 child _ pr Ep).
    rewrite (kbind_ret _ _ _ _ _ E4). erewrite kbind_ret; [reflexivity|].
    apply (process_cleanup_run s4 child index i ec _ (p_set_p_state PROC_EXITED pr) h);
      [by apply Hid4|done|by rewrite Ep4, lookup_insert_eq|].
    by rewrite (qt_kmem _ _ Q4), (qt_kmem _ _ Q1).
  - change (procs (cleaned s4 i index child h)) with (delete child (procs s4)).
    change (process_table (cleaned s4 i index child h)) with (reaped i index child (process_table s4)).
    change (threads (cleaned s4 i index child h)) with (threads s4).
    change (ready_head (cleaned s4 i index child h)) with (ready_head s4).
    change (ready_tail (cleaned s4 i index child h)) with (ready_tail s4).
    change (current_thread (cleaned s4 i index child h)) with (current_thread s4).
    change (intr (cleaned s4 i index child h)) with (intr s4).
    split_and!; [|by rewrite Ep4, delete_insert_eq|by rewrite R4|done|by rewrite R4|by rewrite R4| | |].
    + by rewrite (qt_processes _ _ Q4), (qt_processes _ _ Q1).
    + by rewrite (qt_current _ _ Q4), (qt_current _ _ Q1).
    + by rewrite (qt_intr _ _ Q4), (qt_intr _ _ Q1).
    + intros m Hm. apply (idle_mutexes m (put_mutex ProcTableLock (rested ProcTableLock s4) s4)); [done|].
      by apply (cm_idle _ _ (calm_rested ProcTableLock s4)), Hid4.
Qed.

(** The wait queue of the child gets the current thread. *)
Lemma enqueue_wait_run s child c pr thc :
  procs s !! child = Some pr -> threads s !! c = Some thc ->
  wait_head pr = NULL \/ is_Some (threads s !! wait_tail pr) ->
  exists ts ps, enqueue_wait child c s = Ret tt (set_procs ps (set_threads ts s)) /\
    linked [wait_tail pr; c] (threads s) ts.
Proof.
  intros Ep Et Hw. unfold enqueue_wait. rewrite (kbind_ret _ _ _ _ _ (upd_thread_run s c _ thc Et)).
  set (s1 := set_threads _ s). assert (Ep1 : procs s1 !! child = Some pr) by exact Ep.
  assert (L1 : linked [c] (threads s) (threads s1)) by by apply linked_link.
  rewrite (kbind_ret _ _ _ _ _ (get_process_run s1 child pr Ep1)).
  destruct (Z.eqb_spec (wait_head pr) NULL) as [Hn|Hn].
  - rewrite (kbind_ret _ _ _ _ _ (upd_process_run s1 child _ pr Ep1)).
    eexists (threads s1), _. split; [erewrite upd_process_run by apply lookup_insert_eq; reflexivity|].
    eapply linked_weaken; [|exact L1]. set_solver.
  - destruct Hw as [|[tht Ett]]; [done|].
    destruct (linked_lookup _ _ _ _ _ L1 Ett) as (tht' & Ett' & _).
    rewrite (kbind_ret _ _ _ _ _ (upd_thread_run s1 _ _ _ Ett')).
    eexists _, _. split; [rewrite (upd_process_run _ child _ pr) by exact Ep; reflexivity|].
    eapply linked_weaken; [|exact (linked_trans _ _ _ _ _ L1 (linked_link _ _ c _ Ett'))]. set_solver.
Qed.

Lemma wait_running_run s c thc i ec index child pr q :
  waiting s c thc -> child_lookup (procs s) (process_table s) 0 (o_pid thc) i = Some (index, child) ->
  procs s !! child = Some pr -> p_state pr = PROC_READY \/ p_state pr = PROC_RUNNING ->
  idle (ProcLock child) s -> idle ThreadMutex s ->
  wait_head pr = NULL \/ is_Some (threads s !! wait_tail pr) ->
  table_live (threads s) (thread_table s) -> tid_lookup (threads s) (thread_table s) (tid thc) = c ->
  tid thc <> 0 -> queue s q -> c ∉ q -> wait_tail pr ∉ q -> lock (schedule_lock s) = false ->
  (length q < fuel)%nat ->
  exists s', process_wait fuel i ec s = Stop Trapped s' /\ state <$> threads s' !! c = Some THREAD_BLOCKED /\
    owner (mutex_at (ProcLock child) s') = c /\ mlocked (mutex_at (ProcLock child) s') = 1 /\
    queue s' q /\ current_thread s' = c.
Proof.
  intros [W1 W2 W3 W4 W5] Elk Ep Hst Hi Hit Hw Htab Etl Htid Hq Hcq Hwq Hl Hf.
  pose proof (wait_lookup_run s c thc i ec W1 W2 W3 W4 ltac:(lia) W5) as E. cbv zeta in E. rewrite Elk in E.
  set (s1 := put_mutex ProcTableLock (rested ProcTableLock s) s) in *.
  pose proof (quiet_calm _ _ (calm_rested ProcTableLock s)) as Q1. fold s1 in Q1.
  pose proof (qt_idle _ _ Q1 _ Hi) as Hi1. pose proof Hi1 as [J1 J2 _].
  set (s2 := put_mutex (ProcLock child) (taken (ProcLock child) s1) s1).
  destruct (enqueue_wait_run s2 child c pr thc Ep W3 Hw) as (ts & ps & E3 & L3).
  set (s3 := set_procs ps (set_threads ts s2)) in *.
  destruct (linked_lookup _ _ _ _ _ L3 W3) as (th3 & Et3 & Es3).
  assert (Htids : forall t, tid <$> ts !! t = tid <$> threads s !! t) by exact (strip_tid _ _ (lk_strip _ _ _ L3)).
  assert (Eti : tid th3 = tid thc) by exact (f_equal tid Es3).
  destruct (@thread_block_run A (Z * option Z) fuel fuel s3 q c th3)
    as (s4 & E4 & Hq4 & L4 & M4 & _ & _ & C4 & _); [|lia| | |exact Et3|done|by rewrite Eti| |exact Hl|done|].
  - apply (idle_mutexes _ s2); [done|]. apply idle_taken; [done|]. by apply (qt_idle _ _ Q1).
  - exact (table_live_ext _ _ _ Htids Htab).
  - rewrite Eti. etransitivity; [exact (tid_lookup_ext _ _ _ _ Htids)|exact Etl].
  - apply (list_at_linked _ _ _ _ _ _ L3); [|exact Hq]. intros x Hx. set_solver.
  - rewrite filter_keep in Hq4 by (intros z Hz ->; done). exists s4. split; [|split; [|split; [|split]]].
    + rewrite E, (kbind_ret _ _ _ _ _ (acquire_free_run fuel (ProcLock child) s1 J1 J2 ltac:(lia))). fold s2.
      rewrite (kbind_ret _ _ s2 pr s2) by exact (get_process_run s2 child pr Ep).
      rewrite decide_False by (destruct Hst as [-> | ->]; intros [|]; done).
      rewrite (kbind_ret _ _ _ _ _ E3), (kbind_ret _ _ _ _ _ (get_thread_run s3 c th3 Et3)). exact E4.
    + rewrite (linked_state _ _ _ c L4). by rewrite lookup_insert_eq.
    + rewrite M4 by done. change (mutex_at (ProcLock child) s3) with (mutex_at (ProcLock child) s2).
      unfold s2. rewrite mutex_at_put. exact W1.
    + rewrite M4 by done. change (mutex_at (ProcLock child) s3) with (mutex_at (ProcLock child) s2).
      unfold s2. by rewrite mutex_at_put.
    + split; [exact Hq4|]. by rewrite C4.
Qed.

(** ** Properties *)

(** [wake_waiters] wakes only the first thread of the wait queue: that
    one is READY and in the ready queue, the queue of the process is emptied,
    and every other waiter is left as it was, BLOCKED and in no queue, so that
    nothing will ever wake it. *)
Theorem wake_waiters_wakes_first s q p pr w ws
    (Hp : p <> NULL) (Hpr : procs s !! p = Some pr) (Hlock : idle (ProcLock p) s)
    (Hmutex : idle ThreadMutex s) (Hfuel : (2 <= fuel)%nat)
    (Hqueue : queue s q) (Hspin : lock (schedule_lock s) = false)
    (Hpath : segto (threads s) (wait_head pr) (w :: ws) NULL) (Hnd : NoDup (w :: ws))
    (Hblocked : forall x, x ∈ w :: ws -> state <$> threads s !! x = Some THREAD_BLOCKED /\ x ∉ q)
    (Hfirst : first_waiter s q w) :
  exists s', wake_waiters fuel p s = Ret tt s' /\ queue s' (q ++ [w]) /\
    wait_head <$> procs s' !! p = Some NULL /\ state <$> threads s' !! w = Some THREAD_READY /\
    forall x, x ∈ ws -> state <$> threads s' !! x = Some THREAD_BLOCKED /\ x ∉ q ++ [w].
Proof.
  destruct Hpath as (Hw & Hwn & _).
  destruct (wake_waiters_run s q p pr) as (s' & E & Hq & L & Q & Ep); [by rewrite ?Hw..|].
  unfold woken, wake in *. rewrite Hw in *. destruct (Z.eqb_spec w NULL); [done|].
  apply NoDup_cons in Hnd as [Hn _]. exists s'. split; [exact E|]. split; [exact Hq|].
  split; [by rewrite Ep, lookup_insert_eq|]. split.
  - rewrite (linked_state _ _ _ w L), lookup_alter_eq. destruct (Hblocked w (list_elem_of_here _ _)) as [Hb _].
    by destruct (threads s !! w).
  - intros x Hx. destruct (Hblocked x) as [Hb Hxq]; [by right|].
    assert (x <> w) by (intros ->; done). split; [|set_solver].
    by rewrite (linked_state _ _ _ x L), lookup_alter_ne by done.
Qed.


(** [process_terminate] of a process whose main thread is another live
    thread never returns: it holds the process's lock, and ending the thread
    asks for that lock again with the thread table's mutex held, where waiting
    recurses without end. *)
Theorem process_terminate_never_returns s i p mt pr th (Hkill : killable s i p mt pr th)
    (Hfuel : (1 <= fuel)%nat) :
  exists s', process_terminate fuel i s = Stop OutOfFuel s'.
Proof. by apply (process_terminate_stuck s i p mt pr th). Qed.

(** [thread_terminate] of a ready thread that is not the last of the
    ready queue [q1 ++ t :: q2] cuts the queue: the list that remains ends
    before [t], its tail pointer still names the last thread of [q2], which is
    not in it; the threads of [q2] are still READY and the queue is no
    well-formed list any more. *)
Theorem thread_terminate_loses_queue s q1 t q2 th p pr
    (Hqueue : queue s (q1 ++ t :: q2)) (Hq2 : q2 <> []) (Hspin : lock (schedule_lock s) = false)
    (Hmutex : idle ThreadMutex s) (Hth : threads s !! t = Some th) (Htid : tid th <> 0)
    (Hlive : table_live (threads s) (thread_table s))
    (Hlookup : tid_lookup (threads s) (thread_table s) (tid th) = t) (Hother : t <> current_thread s)
    (Hproc : proc th = p) (Hp : p <> NULL) (Hpr : procs s !! p = Some pr) (Hlock : idle (ProcLock p) s)
    (Hfuel : (length q1 < fuel)%nat) :
  exists s', thread_terminate fuel (tid th) s = Ret 0 s' /\
    segto (threads s') (ready_head s') q1 NULL /\ Some (ready_tail s') = last q2 /\
    (forall x, x ∈ q2 -> state <$> threads s' !! x = state <$> threads s !! x /\ x ∉ q1) /\
    forall q, ~ queue s' q.
Proof.
  destruct (thread_terminate_cuts s q1 t q2 th p pr) as (s' & E & S & T & O); try done.
  pose proof Hqueue as (_ & Htl & Hnd). pose proof Hnd as (_ & Hdis & [Ht _]%NoDup_cons)%NoDup_app.
  destruct (last q2) as [z|] eqn:Ez; [|by apply last_None in Ez].
  assert (Hz : z ∈ q2) by (apply last_Some in Ez as [? ->]; set_solver).
  rewrite last_app, last_cons, Ez in Htl. cbn in Htl.
  exists s'. split; [exact E|]. split; [exact S|]. split; [by rewrite T, Htl|]. split.
  - intros x Hx. assert (x <> t) by (intros ->; done). split; [|intros Hx1; apply (Hdis x Hx1); set_solver].
    pose proof (O x H) as Eo. destruct (threads s' !! x), (threads s !! x); try done.
    apply (inj Some) in Eo. cbn. f_equal. exact (f_equal state Eo).
  - intros q (S' & T' & _). rewrite <- (segto_det _ _ _ _ S S') in T'. rewrite T, Htl in T'.
    destruct (last q1) as [y|] eqn:Ey; cbn in T'.
    + subst y. apply last_Some in Ey as [? ->]. apply (Hdis z); set_solver.
    + destruct (queue_some _ _ z Hqueue) as [Hzn _]; [set_solver|done].
Qed.

(** C18: [process_wait] answers -ECHILD when the caller has no such child; a
    child that has ended is reaped: 0 and its exit code are answered, its slot
    is empty, its object (and address space) is freed and nothing else has
    changed. *)
Theorem process_wait_reaps s c thc i ec (Hwait : waiting s c thc) (Hfuel : (1 <= fuel)%nat) :
  match child_lookup (procs s) (process_table s) 0 (o_pid thc) i with
  | None => exists s', process_wait fuel i ec s = Ret (- ECHILD, ec) s' /\ calm s s'
  | Some (index, child) => exists pr, procs s !! child = Some pr /\ ppid pr = o_pid thc /\
      (i = -1 \/ pid pr = i) /\ forall h,
      p_state pr = PROC_ZOMBIE \/ p_state pr = PROC_EXITED -> idle (ProcLock child) s ->
      frees (filter (fun p => p <> 0) [address_space pr] ++ [child]) (kmem s) h ->
      exists s', process_wait fuel i ec s = Ret (0, option_map (fun _ => SchedState.exit_code pr) ec) s' /\
        process_table s' = reaped i index child (process_table s) /\ procs s' = delete child (procs s) /\
        threads s' = threads s /\ kmem s' = h /\ ready_head s' = ready_head s /\ ready_tail s' = ready_tail s /\
        current_thread s' = c /\ intr s' = intr s /\ forall m, idle m s -> idle m s'
  end.
Proof.
  destruct (child_lookup _ _ _ _ _) as [[index child]|] eqn:E.
  - destruct (child_lookup_some _ _ _ _ _ _ _ E) as (_ & pr & Ep & Hpp & Hi). exists pr. split_and!; [done..|].
    intros h Hst Hl Hfr. by apply (wait_zombie_run s c thc i ec index child pr h).
  - destruct Hwait as [W1 W2 W3 W4 W5]. pose proof (wait_lookup_run s c thc i ec W1 W2 W3 W4 Hfuel W5) as R.
    cbv zeta in R. rewrite E in R. eexists. split; [exact R|]. apply calm_rested.
Qed.

(** Waiting for a child that still runs blocks the caller while it owns
    the child's lock, which the child needs to exit: neither can go on. *)
Theorem process_wait_holds_child_lock s c thc i ec index child pr q
    (Hwait : waiting s c thc) (Hchild : child_lookup (procs s) (process_table s) 0 (o_pid thc) i = Some (index, child))
    (Hpr : procs s !! child = Some pr) (Hstate : p_state pr = PROC_READY \/ p_state pr = PROC_RUNNING)
    (Hlock : idle (ProcLock child) s) (Hmutex : idle ThreadMutex s)
    (Htail : wait_head pr = NULL \/ is_Some (threads s !! wait_tail pr))
    (Hlive : table_live (threads s) (thread_table s))
    (Hlookup : tid_lookup (threads s) (thread_table s) (tid thc) = c) (Htid : tid thc <> 0)
    (Hqueue : queue s q) (Hcq : c ∉ q) (Hwq : wait_tail pr ∉ q) (Hspin : lock (schedule_lock s) = false)
    (Hfuel : (length q < fuel)%nat) :
  exists s', process_wait fuel i ec s = Stop Trapped s' /\ state <$> threads s' !! c = Some THREAD_BLOCKED /\
    owner (mutex_at (ProcLock child) s') = c /\ mlocked (mutex_at (ProcLock child) s') = 1 /\
    queue s' q /\ current_thread s' = c.
Proof. by apply (wait_running_run s c thc i ec index child pr q). Qed.
End spec.

(** ** Witnesses *)

#[local] Existing Instance bump_Kmem.
#[local] Existing Instance bump_Console.

Definition member (i p : Z) (st : thread_state_t) (nxt : Z) : thread :=
  t_set_proc p (t_set_o_pid 1 (demo_thread i st nxt)).
Definition demo_proc (i parent : Z) (st : process_state_t) (main head tail code : Z) : process :=
  Process i parent st 18 0 main head tail NULL (replicate 256 0) 0 (replicate MAX_FD (Fd NULL 0 0 0)) code.

(** Process 200 with its thread 101 running and 105 ready; 103 and 104 wait
    for its end; its child 201 has the thread 102
    and its child 202 is a zombie that left 7. *)
Definition demo_family (current : Z) : sched Z :=
  SchedState
    {[ 101 := member 1 200 THREAD_RUNNING NULL; 102 := member 2 201 THREAD_READY 105;
       103 := member 3 200 THREAD_BLOCKED 104; 104 := member 4 200 THREAD_BLOCKED NULL;
       105 := member 5 200 THREAD_READY NULL ]}
    {[ 200 := demo_proc 1 0 PROC_RUNNING 101 103 104 0; 201 := demo_proc 2 1 PROC_READY 102 NULL NULL 0;
       202 := demo_proc 3 1 PROC_ZOMBIE NULL NULL NULL 7 ]}
    ∅ (Spinlock false false) 102 105 0 current [NULL; 101; 102; 103; 104; 105] 5 6 [NULL; 200; 201; 202] 4 0
    (Context_t 0 0 0 0 0 0 0 0 0 0 0 0 0 0 0 0 0 0 0 0 0 0) true 0x10000.

Lemma family_queue c : queue (demo_family c) [102; 105].
Proof.
  split_and!; [|done|].
  - split_and!; [done..|]. eexists. split; [reflexivity|]. split_and!; [done..|]. by eexists.
  - apply NoDup_cons. split; [|apply NoDup_singleton]. by intros ?%list_elem_of_singleton.
Qed.

(** Membership in a literal list. *)
Ltac each H :=
  repeat (apply elem_of_cons in H as [H|H]; [first [discriminate H | revert H; intros ->]|]);
  [..|by apply elem_of_nil in H].

Lemma family_live c : table_live (threads (demo_family c)) (thread_table (demo_family c)).
Proof. intros t H. each H; first [by left|right; by eexists]. Qed.

Lemma family_plive c : table_live (procs (demo_family c)) (process_table (demo_family c)).
Proof. intros t H. each H; first [by left|right; by eexists]. Qed.

Lemma family_idle c m : idle m (demo_family c).
Proof. by split. Qed.

Lemma family_waiter c : first_waiter (demo_family c) [102; 105] 103.
Proof.
  right. eexists. split; [reflexivity|]. split; [done|]. split; [|split; [apply family_live|done]].
  intros H. each H.
Qed.

Lemma wake_waiters_wakes_first_witness :
  exists s', wake_waiters 2 200 (demo_family 101) = Ret tt s' /\ queue s' [102; 105; 103] /\
    state <$> threads s' !! 104 = Some THREAD_BLOCKED.
Proof.
  destruct (wake_waiters_wakes_first 2 (demo_family 101) [102; 105] 200 (demo_proc 1 0 PROC_RUNNING 101 103 104 0)
              103 [104]) as (s' & E & Hq & _ & _ & H);
    [done|reflexivity|apply family_idle|apply family_idle|lia|apply family_queue|done| | | |apply family_waiter|].
  - split_and!; [done..|]. eexists. split; [reflexivity|]. split_and!; [done..|]. by eexists.
  - apply NoDup_cons. split; [|apply NoDup_singleton]. by intros ?%list_elem_of_singleton.
  - intros x H. each H; (split; [reflexivity|intros H2; each H2]).
  - exists s'. split; [exact E|]. split; [exact Hq|]. apply (H 104). by left.
Defined.


Lemma family_killable : killable (demo_family 101) 2 201 102 (demo_proc 2 1 PROC_READY 102 NULL NULL 0)
  (member 2 201 THREAD_READY 105).
Proof. split; first [done|apply family_idle|apply family_live|apply family_plive|by eexists]. Qed.

Lemma process_terminate_never_returns_witness :
  exists s', process_terminate 50 2 (demo_family 101) = Stop OutOfFuel s'.
Proof. apply (process_terminate_never_returns 50 _ _ _ _ _ _ family_killable). lia. Defined.

Lemma thread_terminate_loses_queue_witness :
  exists s', thread_terminate 2 2 (demo_family 101) = Ret 0 s' /\ ready_head s' = NULL /\
    Some (ready_tail s') = last [105] /\ forall q, ~ queue s' q.
Proof.
  destruct (thread_terminate_loses_queue 2 (demo_family 101) [] 102 [105] (member 2 201 THREAD_READY 105) 201
              (demo_proc 2 1 PROC_READY 102 NULL NULL 0)) as (s' & E & H & T & _ & N);
    [apply family_queue|done|done|apply family_idle|reflexivity|done|apply family_live|reflexivity|done|done|done|
     reflexivity|apply family_idle|cbn; lia|].
  exists s'. exact (conj E (conj H (conj T N))).
Defined.

Lemma family_waiting : waiting (demo_family 101) 101 (member 1 200 THREAD_RUNNING NULL).
Proof. split; first [done|apply family_idle|apply family_plive]. Qed.

Lemma process_wait_reaps_witness :
  exists s', process_wait 1 3 (Some 0) (demo_family 101) = Ret (0, Some 7) s' /\
    process_table s' = [NULL; 200; 201; NULL] /\ procs s' !! 202 = None.
Proof.
  destruct (process_wait_reaps 1 (demo_family 101) 101 (member 1 200 THREAD_RUNNING NULL) 3 (Some 0) family_waiting
              ltac:(lia)) as (pr & Ep & _ & _ & H).
  injection Ep as <-.
  destruct (H 0x10000 (or_introl eq_refl) (family_idle _ _)) as (s' & E & T & P & _).
  { vm_compute. eexists. split; reflexivity. }
  exists s'. split; [exact E|]. split; [exact T|]. rewrite P. reflexivity.
Defined.

Lemma process_wait_holds_child_lock_witness :
  exists s', process_wait 3 2 None (demo_family 101) = Stop Trapped s' /\
    state <$> threads s' !! 101 = Some THREAD_BLOCKED /\ owner (mutex_at (ProcLock 201) s') = 101.
Proof.
  destruct (process_wait_holds_child_lock 3 (demo_family 101) 101 (member 1 200 THREAD_RUNNING NULL) 2 None 2 201
              (demo_proc 2 1 PROC_READY 102 NULL NULL 0) [102; 105] family_waiting) as (s' & E & H1 & H2 & _);
    [reflexivity|reflexivity|by left|apply family_idle|apply family_idle|by left|apply family_live|reflexivity|done|
     apply family_queue|intros H; each H|intros H; each H|done|cbn; lia|].
  exists s'. exact (conj E (conj H1 H2)).
Defined.
