(* ===== verification/Collector.v ===== *)
(** * The collector of terminated threads (clean_up in thread.c)

    [clean_up] runs at the end of every timer tick.  On a system whose mutexes
    are idle it takes exactly the terminated threads out of the ready queue, the
    thread table and their processes, and gives back their memory. *)

From S2P Require Import Prelude Console Machine Kheap Spinlock Kmem SchedState Sched Queue Mutex Threads ThreadSpec Process ProcessSpec.
Local Open Scope Z_scope.

Section collector.
Context {A : Type} `{!Kmem A} `{!Console A} (fuel : nat).
Implicit Types s : sched A.

Definition termed s (t : Z) : bool :=
  negb (t =? NULL) && match threads s !! t with Some th => bool_decide (state th = THREAD_TERMED) | None => false end.

(** The terminated threads of a part of the table. *)
Definition dead s (table : list Z) : list Z := filter (fun t => termed s t = true) table.

(** What a terminated thread holds. *)
Definition held s (t : Z) : list Z :=
  match threads s !! t with
  | Some th => filter (fun p => p <> 0)
      (stack_base th :: (if bool_decide (privilege th = THREAD_RING_3) then [kernel_stack th] else [])) ++ [t]
  | None => []
  end.

(** A process without its collected main thread. *)
Definition unown (d : list Z) (pr : process) : process :=
  if bool_decide (main_thread pr ∈ d) then p_set_main_thread NULL pr else pr.

(** The owner of a terminated thread is known and not busy, and no other
    process has the thread as its main thread. *)
Record owned s (t : Z) (th : thread) : Prop := {
  ow_proc : proc th <> NULL -> is_Some (procs s !! proc th) /\ idle (ProcLock (proc th)) s;
  ow_main p pr : procs s !! p = Some pr -> main_thread pr = t -> p = proc th /\ p <> NULL;
}.

(** What the collection of the threads [d] did. *)
Record swept s (d : list Z) (table q : list Z) (h : A) s' : Prop := {
  sw_queue : queue s' (filter (fun t => t ∉ d) q);
  sw_table : thread_table s' = table;
  sw_gone t : t ∈ d -> threads s' !! t = None;
  sw_kept t : t ∉ d -> strip <$> threads s' !! t = strip <$> threads s !! t;
  sw_procs : procs s' = unown d <$> procs s;
  sw_kmem : kmem s' = h;
  sw_count : thread_count s' = u32 (thread_count s - Z.of_nat (length d));
  sw_lock : lock (schedule_lock s') = false;
  sw_idle m : idle m s -> idle m s';
  sw_mutex : mutex_at ThreadMutex s' = mutex_at ThreadMutex s;
  sw_current : current_thread s' = current_thread s;
  sw_frame : frame s' = frame s;
  sw_intr : intr s' = intr s;
}.

Lemma free_stacks_run s st ks h1 h2 (user : bool) :
  frees (filter (fun p => p <> 0) (st :: (if user then [ks] else [])) ++ h1) (kmem s) h2 ->
  exists h3, frees h1 h3 h2 /\
    (forall B (k : K (sched A) B), (free_stack st;; kwhen user (free_stack ks);; k) s = k (set_kmem h3 s)).
Proof.
  change (st :: (if user then [ks] else [])) with ([st] ++ (if user then [ks] else [])).
  rewrite filter_app. intros (h4 & Hf & H2)%frees_app. apply frees_app in Hf as (h5 & Hf1 & Hf2).
  exists h4. split; [done|]. intros B k.
  rewrite (kbind_ret _ _ _ _ _ (free_stack_run s st (kmem s) h5 Hf1 eq_refl)). destruct user; cbn [kwhen].
  - rewrite (kbind_ret _ _ _ _ _ (free_stack_run (set_kmem h5 s) ks h5 h4 Hf2 eq_refl)). by destruct s.
  - cbn in Hf2. subst h4. reflexivity.
Qed.

Lemma without_main_unown t pr : without_main t pr = unown [t] pr.
Proof.
  unfold without_main, unown. destruct (Z.eqb_spec (main_thread pr) t) as [E|E].
  - by rewrite bool_decide_true by (rewrite E; set_solver).
  - by rewrite bool_decide_false by set_solver.
Qed.

(** Only the owner has the thread as its main thread. *)
Lemma unown_owner s t th : owned s t th -> t <> NULL ->
  (forall pr, procs s !! proc th = Some pr -> proc th <> NULL ->
     <[proc th := without_main t pr]> (procs s) = unown [t] <$> procs s) /\
  (proc th = NULL -> unown [t] <$> procs s = procs s).
Proof.
  intros [_ Hm] Ht.
  assert (Hid : forall p pr, procs s !! p = Some pr -> p <> proc th \/ p = NULL -> unown [t] pr = pr).
  { intros p pr Ep Hp. unfold unown. rewrite bool_decide_false; [done|].
    intros Hin%list_elem_of_singleton. destruct (Hm p pr Ep Hin). by destruct Hp. }
  split.
  - intros pr Ep Hn. apply map_eq. intros p. rewrite lookup_fmap.
    destruct (decide (p = proc th)) as [->|Hne].
    + by rewrite lookup_insert_eq, Ep, without_main_unown.
    + rewrite lookup_insert_ne by done. destruct (procs s !! p) as [pr'|] eqn:Ep'; [|done].
      cbn. by rewrite (Hid p pr' Ep') by (by left).
  - intros En. apply map_eq. intros p. rewrite lookup_fmap.
    destruct (procs s !! p) as [pr'|] eqn:Ep'; [|done]. cbn. rewrite (Hid p pr' Ep'); [done|].
    rewrite En. destruct (decide (p = NULL)); [by right|by left].
Qed.

(** The part of the collection that leaves the process. *)
Lemma leave_process_run s t th : owned s t th -> (1 <= fuel)%nat -> t <> NULL ->
  exists ms, (forall B (k : K (sched A) B),
      (kwhen (negb (proc th =? NULL)) (process_remove_thread fuel (proc th) t;; mret tt);; k) s
      = k (set_mutexes ms (set_procs (unown [t] <$> procs s) s))) /\
    (forall m, idle m s -> idle m (set_mutexes ms s)) /\ mutex_at ThreadMutex (set_mutexes ms s) = mutex_at ThreadMutex s.
Proof.
  intros Ho Hf Ht. destruct (unown_owner s t th Ho Ht) as [H1 H2].
  destruct (Z.eqb_spec (proc th) NULL) as [E|E]; cbn [negb kwhen].
  - exists (mutexes s). split; [|split; [intros m Hm; by apply (idle_mutexes m s)|done]].
    intros B k. rewrite (H2 E). by destruct s.
  - destruct (ow_proc _ _ _ Ho E) as [[pr Ep] Hi].
    set (s1 := put_mutex (ProcLock (proc th)) (rested (ProcLock (proc th)) s) s).
    exists (mutexes s1). split; [|split].
    + intros B k. rewrite (kbind_ret _ _ s tt (set_mutexes (mutexes s1) (set_procs (unown [t] <$> procs s) s))); [done|].
      rewrite (kbind_ret _ _ _ _ _ (process_remove_thread_exact fuel s (proc th) t pr Hi Hf E Ht Ep)).
      by rewrite (H1 pr Ep E).
    + intros m Hm. apply (idle_mutexes m s1); [done|]. by apply (cm_idle _ _ (calm_rested (ProcLock (proc th)) s)).
    + exact (mutex_at_put_ne (ProcLock (proc th)) ThreadMutex _ s ltac:(done)).
Qed.

(** One slot with a terminated thread. *)
Lemma clean_slot_run s i t th q h :
  thread_table s !! i = Some t -> t <> NULL -> threads s !! t = Some th -> state th = THREAD_TERMED ->
  queue s q -> lock (schedule_lock s) = false -> (length q < fuel)%nat -> owned s t th ->
  frees (held s t) (kmem s) h ->
  exists s', clean_slot fuel i s = Ret tt s' /\ swept s [t] (<[i := NULL]> (thread_table s)) q h s'.
Proof.
  intros Hi Ht Et Hst Hq Hl Hf Ho Hfr. unfold held in Hfr. rewrite Et in Hfr. unfold clean_slot.
  rewrite (kbind_ret _ _ s t s) by (unfold kasks; f_equal; by apply nth_lookup_Some).
  destruct (Z.eqb_spec t NULL); [done|]. rewrite (kbind_ret _ _ _ _ _ (get_thread_run s t th Et)).
  rewrite decide_False by (rewrite Hst; intros H; by apply H).
  destruct (remove_from_ready_queue_run fuel s q t Hq Hl Hf Ht) as (s1 & E1 & Hq1 & [L1 K1 R1]).
  rewrite (kbind_ret _ _ _ _ _ E1).
  assert (Ek : kmem s1 = kmem s) by (by rewrite R1). rewrite <- Ek in Hfr.
  destruct (free_stacks_run s1 _ (kernel_stack th) _ _ _ Hfr) as (h3 & (h4 & Ef & ->) & E2). rewrite E2.
  assert (Ho1 : owned (set_kmem h3 s1) t th).
  { destruct Ho as [O1 O2]. split; [|intros p pr; cbn; rewrite R1; apply O2].
    intros Hn. destruct (O1 Hn) as [? ?]. cbn. rewrite R1. split; [done|]. by apply (idle_mutexes _ s). }
  destruct (leave_process_run (set_kmem h3 s1) t th Ho1) as (ms & E3 & I3 & M3); [lia|done|]. rewrite E3.
  unfold free_thread. set (s3 := set_mutexes ms _).
  rewrite (kbind_ret _ _ s3 tt (set_threads (delete t (threads s1)) (set_kmem h4 s3))).
  2:{ by rewrite (kbind_ret _ _ s3 tt (set_kmem h4 s3)) by (by apply on_kmem_run). }
  eexists. split; [reflexivity|].
  assert (Emt : mutexes s1 = mutexes s) by (by rewrite R1).
  split; cbn.
  - replace (filter (fun x => x ∉ [t]) q) with (filter (fun x => x <> t) q) by (apply list_filter_iff; set_solver).
    eapply list_at_ext; [|exact Hq1]. intros x [Hx _]%list_elem_of_filter. cbn. by rewrite lookup_delete_ne.
  - by rewrite R1.
  - intros x ->%list_elem_of_singleton. apply lookup_delete_eq.
  - intros x Hx. rewrite lookup_delete_ne by set_solver.
    pose proof (f_equal (fun m => m !! x) (lk_strip _ _ _ L1)) as H. cbn beta in H. by rewrite !lookup_fmap in H.
  - by rewrite R1.
  - done.
  - by rewrite R1.
  - by rewrite K1.
  - intros m Hm. apply (idle_mutexes m (set_mutexes ms (set_kmem h3 s1))); [done|]. apply I3. by apply (idle_mutexes m s).
  - etransitivity; [exact M3|]. unfold mutex_at. cbn. by rewrite Emt.
  - by rewrite R1.
  - by rewrite R1.
  - by rewrite R1.
Qed.

(** ** The whole table *)

Lemma swept_refl s q : queue s q -> lock (schedule_lock s) = false -> 0 <= thread_count s < 2 ^ 32 ->
  swept s [] (thread_table s) q (kmem s) s.
Proof.
  intros Hq Hl Hc. split; try done.
  - assert (E : filter (fun t => t ∉ ([] : list Z)) q = q).
    { clear. induction q as [|x q IH]; [done|]. rewrite filter_cons_True by set_solver. by rewrite IH. }
    by rewrite E.
  - intros t. set_solver.
  - rewrite <- (map_fmap_id (procs s)) at 1. apply map_fmap_ext. intros p pr _. unfold unown.
    by rewrite bool_decide_false by set_solver.
  - cbn. by rewrite Z.sub_0_r, wrap_small.
Qed.

Lemma unown_app d t pr : t <> NULL -> unown [t] (unown d pr) = unown (d ++ [t]) pr.
Proof.
  intros Ht. unfold unown. destruct (bool_decide_reflect (main_thread pr ∈ d)) as [Hin|Hin].
  - rewrite (bool_decide_true (_ ∈ d ++ [t])) by set_solver.
    rewrite bool_decide_false; [done|]. cbn. intros E%list_elem_of_singleton. by apply Ht.
  - rewrite (bool_decide_ext (main_thread pr ∈ d ++ [t]) (main_thread pr ∈ [t])) by set_solver. done.
Qed.

Lemma swept_trans s d u t table q h u' : t <> NULL ->
  swept s d (thread_table u) q (kmem u) u -> swept u [t] table (filter (fun x => x ∉ d) q) h u' ->
  swept s (d ++ [t]) table q h u'.
Proof.
  intros Ht [Q1 T1 G1 K1 P1 M1 C1 L1 I1 X1 U1 F1 N1] [Q2 T2 G2 K2 P2 M2 C2 L2 I2 X2 U2 F2 N2].
  split; try congruence; try auto.
  - rewrite list_filter_filter in Q2.
    replace (filter (fun x => x ∉ d ++ [t]) q) with (filter (fun x => x ∉ [t] /\ x ∉ d) q); [done|].
    apply list_filter_iff. set_solver.
  - intros x Hx. destruct (decide (x = t)) as [->|Hne]; [apply G2; set_solver|].
    assert (x ∈ d) as Hd by set_solver. pose proof (K2 x ltac:(set_solver)) as H. rewrite (G1 x Hd) in H.
    by destruct (threads u' !! x).
  - intros x Hx. rewrite K2, K1 by set_solver. done.
  - rewrite P2, P1, <- map_fmap_compose. apply map_fmap_ext. intros p pr _. by apply unown_app.
  - rewrite C2, C1, length_app. cbn [length]. unfold wrap. rewrite Zminus_mod_idemp_l. f_equal. lia.
Qed.

(** The slots after the collector went through them. *)
Definition cleared s (table : list Z) : list Z := map (fun t => if termed s t then NULL else t) table.

(** Any table of live threads, terminated ones among them, each in one slot. *)
Record collectable s (q : list Z) : Prop := {
  cl_fuel : (length q < fuel)%nat;
  cl_size : length (thread_table s) = MAX_THREADS;
  cl_live : table_live (threads s) (thread_table s);
  cl_once i j t : thread_table s !! i = Some t -> thread_table s !! j = Some t -> t <> NULL -> i = j;
  cl_queue : queue s q;
  cl_lock : lock (schedule_lock s) = false;
  cl_count : 0 <= thread_count s < 2 ^ 32;
  cl_owned t th : t ∈ dead s (thread_table s) -> threads s !! t = Some th -> owned s t th;
}.

Lemma termed_spec s t : termed s t = true <->
  t <> NULL /\ exists th, threads s !! t = Some th /\ state th = THREAD_TERMED.
Proof.
  unfold termed. rewrite andb_true_iff, negb_true_iff, Z.eqb_neq. split.
  - intros [Ht H]. split; [done|]. destruct (threads s !! t) as [th|]; [|done]. exists th.
    by apply bool_decide_eq_true in H.
  - intros [Ht (th & -> & Hst)]. split; [done|]. by apply bool_decide_eq_true.
Qed.

Lemma dead_snoc s l t : dead s (l ++ [t]) = dead s l ++ (if termed s t then [t] else []).
Proof. unfold dead. rewrite filter_app. f_equal. by destruct (termed s t) eqn:E; rewrite filter_singleton, E. Qed.

Lemma cleared_snoc s l t : cleared s (l ++ [t]) = cleared s l ++ [if termed s t then NULL else t].
Proof. apply map_app. Qed.

(** A thread of the table that the collector has not come to. *)
Lemma swept_later s q i u t d table h : collectable s q -> thread_table s !! i = Some t -> t <> NULL ->
  d = dead s (take i (thread_table s)) -> swept s d table q h u ->
  exists th thu, threads s !! t = Some th /\ threads u !! t = Some thu /\ strip thu = strip th /\ t ∉ d.
Proof.
  intros C Hi Ht -> W.
  assert (Hd : t ∉ dead s (take i (thread_table s))).
  { intros [_ [j Hj]%list_elem_of_lookup]%list_elem_of_filter. apply lookup_take_Some in Hj as [Hj Hlt].
    pose proof (cl_once _ _ C i j t Hi Hj Ht). lia. }
  destruct (cl_live _ _ C t) as [|[th Et]]; [by apply list_elem_of_lookup; exists i|done|].
  pose proof (sw_kept _ _ _ _ _ _ W t Hd) as H. rewrite Et in H.
  destruct (threads u !! t) as [thu|] eqn:Eu; [|done]. exists th, thu. split; [done|]. split; [done|].
  split; [by apply (inj Some) in H|done].
Qed.

Lemma strip_fields th thu : strip thu = strip th ->
  state thu = state th /\ proc thu = proc th /\ privilege thu = privilege th /\
  stack_base thu = stack_base th /\ kernel_stack thu = kernel_stack th.
Proof. destruct th, thu. cbn. intros E. by injection E as -> -> -> -> -> -> -> -> -> -> -> -> ->. Qed.

Lemma owned_later s d table q h u t th thu : swept s d table q h u -> owned s t th -> t <> NULL ->
  proc thu = proc th -> owned u t thu.
Proof.
  intros W [O1 O2] Ht Ep. split; rewrite Ep.
  - intros Hn. destruct (O1 Hn) as [[pr E] Hi]. split; [|by apply (sw_idle _ _ _ _ _ _ W)].
    rewrite (sw_procs _ _ _ _ _ _ W), lookup_fmap, E. by eexists.
  - intros p pr. rewrite (sw_procs _ _ _ _ _ _ W), lookup_fmap.
    destruct (procs s !! p) as [pr0|] eqn:E; [|done]. intros [= <-] Hm. apply (O2 p pr0 E).
    unfold unown in Hm. destruct (bool_decide (main_thread pr0 ∈ d)); [|done]. cbn in Hm. by destruct Ht.
Qed.

(** A slot, after the earlier ones. *)
Lemma clean_slot_step s q i u h h' : collectable s q -> (i < MAX_THREADS)%nat ->
  let tab := thread_table s in
  swept s (dead s (take i tab)) (cleared s (take i tab) ++ drop i tab) q h u ->
  frees (flat_map (held s) (dead s (drop i tab))) h h' ->
  exists u' h1, clean_slot fuel i u = Ret tt u' /\
    swept s (dead s (take (Datatypes.S i) tab)) (cleared s (take (Datatypes.S i) tab) ++ drop (Datatypes.S i) tab) q h1 u' /\
    frees (flat_map (held s) (dead s (drop (Datatypes.S i) tab))) h1 h'.
Proof.
  intros C Hi tab W Hfr. destruct (lookup_lt_is_Some_2 tab i) as [t Ht]; [unfold tab; by rewrite (cl_size _ _ C)|].
  assert (Hlen : length (cleared s (take i tab)) = i).
  { unfold cleared. rewrite length_map, length_take. pose proof (lookup_lt_Some _ _ _ Ht). lia. }
  assert (Hu : thread_table u !! i = Some t).
  { by rewrite (sw_table _ _ _ _ _ _ W), lookup_app_r, Hlen, Nat.sub_diag, lookup_drop, Nat.add_0_r by lia. }
  rewrite (drop_S tab t i Ht) in W, Hfr. rewrite (take_S_r tab i t Ht), dead_snoc, cleared_snoc, <- app_assoc.
  destruct (termed s t) eqn:Est.
  - pose proof Est as (Hn & _)%termed_spec.
    destruct (swept_later s q i u t _ _ h C Ht Hn eq_refl W) as (th & thu & Eth & Ethu & Hs & Hd).
    destruct (strip_fields _ _ Hs) as (S1 & S2 & S3 & S4 & S5).
    assert (Hst : state th = THREAD_TERMED).
    { apply termed_spec in Est as (_ & th' & E' & Hst). by rewrite Eth in E'; injection E' as ->. }
    unfold dead in Hfr. rewrite filter_cons_True in Hfr by done. cbn [flat_map] in Hfr.
    apply frees_app in Hfr as (h1 & Hf1 & Hf2).
    assert (Eh : held u t = held s t) by (unfold held; by rewrite Eth, Ethu, S3, S4, S5).
    rewrite <- Eh, <- (sw_kmem _ _ _ _ _ _ W) in Hf1.
    assert (Hlq : (length (filter (fun x => x ∉ dead s (take i tab)) q) < fuel)%nat).
    { pose proof (length_filter (fun x => x ∉ dead s (take i tab)) q). pose proof (cl_fuel _ _ C). lia. }
    destruct (clean_slot_run u i t thu _ h1 Hu Hn Ethu ltac:(by rewrite S1) (sw_queue _ _ _ _ _ _ W)
      (sw_lock _ _ _ _ _ _ W) Hlq) as (u' & E & W'); [|done|].
    { eapply owned_later; [exact W| |exact Hn|exact S2]. apply (cl_owned _ _ C); [|done].
      apply list_elem_of_filter. split; [done|]. apply list_elem_of_lookup. by exists i. }
    exists u', h1. split; [done|]. split; [|done].
    rewrite (sw_table _ _ _ _ _ _ W) in W'.
    rewrite insert_app_r_alt, Hlen, Nat.sub_diag in W' by lia. cbn [insert list_insert] in W'. cbn [app].
    eapply swept_trans; [done| |exact W']. rewrite (sw_table _ _ _ _ _ _ W), (sw_kmem _ _ _ _ _ _ W). exact W.
  - assert (Hskip : clean_slot fuel i u = Ret tt u).
    { unfold clean_slot. rewrite (kbind_ret _ _ u t u) by (unfold kasks; f_equal; by apply nth_lookup_Some).
      destruct (Z.eqb_spec t NULL); [done|].
      destruct (swept_later s q i u t _ _ h C Ht ltac:(done) eq_refl W) as (th & thu & Eth & Ethu & Hs & _).
      rewrite (kbind_ret _ _ _ _ _ (get_thread_run u t thu Ethu)). rewrite decide_True; [done|].
      destruct (strip_fields _ _ Hs) as (-> & _). intros Hst.
      assert (termed s t = true) by (apply termed_spec; split; [done|by exists th]). congruence. }
    exists u, h. split; [done|]. split; [|].
    + rewrite app_nil_r. exact W.
    + unfold dead in Hfr. rewrite filter_cons_False in Hfr by (by rewrite Est). exact Hfr.
Qed.

(** The collection under the mutex. *)
Lemma clean_slots_run s q h' : collectable s q ->
  frees (flat_map (held s) (dead s (thread_table s))) (kmem s) h' ->
  exists u, kfor MAX_THREADS 0 (fun i => clean_slot fuel (Z.to_nat i)) s = Ret tt u /\
    swept s (dead s (thread_table s)) (cleared s (thread_table s)) q h' u.
Proof.
  intros C Hfr. set (tab := thread_table s) in *.
  destruct (kfor_ind (fun i u => exists h,
      swept s (dead s (take (Z.to_nat i) tab)) (cleared s (take (Z.to_nat i) tab) ++ drop (Z.to_nat i) tab) q h u /\
      frees (flat_map (held s) (dead s (drop (Z.to_nat i) tab))) h h') MAX_THREADS 0
    (fun i => clean_slot fuel (Z.to_nat i)) s) as (u & E & h & W & Hf).
  - exists (kmem s). split; [|exact Hfr]. apply swept_refl; apply C.
  - intros i u Hi (h & W & Hf). destruct (clean_slot_step s q (Z.to_nat i) u h h' C) as (u' & h1 & E & W' & Hf');
      [lia|exact W|exact Hf|].
    exists u'. split; [exact E|]. exists h1. replace (Z.to_nat (i + 1)) with (Datatypes.S (Z.to_nat i)) by lia.
    exact (conj W' Hf').
  - exists u. split; [exact E|]. pose proof (cl_size _ _ C) as Hs. fold tab in Hs.
    replace (Z.to_nat (0 + Z.of_nat MAX_THREADS)) with (length tab) in W, Hf by (rewrite Hs; lia).
    rewrite take_ge, drop_ge, app_nil_r in W by lia. rewrite drop_ge in Hf by lia. cbn in Hf. by subst h.
Qed.

(** C17: [clean_up] takes exactly the terminated threads out of the ready queue
    and the table, counts them off, gives back their stacks and thread objects
    in the order of the table, and clears them as main threads of their
    processes; every other thread keeps everything but its queue link, the
    current thread and the interrupt frame stay, and idle mutexes stay idle. *)
Theorem clean_up_collects s q h'
    (Hidle : idle ThreadMutex s) (C : collectable s q)
    (Hfree : frees (flat_map (held s) (dead s (thread_table s))) (kmem s) h') :
  let d := dead s (thread_table s) in
  exists s', clean_up fuel s = Ret tt s' /\
    queue s' (filter (fun t => t ∉ d) q) /\
    thread_table s' = map (fun t => if termed s t then NULL else t) (thread_table s) /\
    (forall t, t ∈ d -> threads s' !! t = None) /\
    (forall t, t ∉ d -> strip <$> threads s' !! t = strip <$> threads s !! t) /\
    procs s' = unown d <$> procs s /\ kmem s' = h' /\
    thread_count s' = u32 (thread_count s - Z.of_nat (length d)) /\
    current_thread s' = current_thread s /\ frame s' = frame s /\
    (forall m, idle m s -> idle m s').
Proof.
  intros d. pose proof Hidle as [J1 J2 _]. unfold clean_up, lock_thread_mutex, unlock_thread_mutex.
  rewrite (kbind_ret _ _ _ _ _ (acquire_free_run fuel ThreadMutex s J1 J2 ltac:(destruct C; lia))).
  set (s1 := put_mutex _ _ s).
  assert (C1 : collectable s1 q).
  { destruct C as [F1 F2 F3 F4 F5 F6 F7 F8]. split; [done..|]. intros t th Ht Et. destruct (F8 t th Ht Et) as [O1 O2].
    split; [|done]. intros Hn. destruct (O1 Hn) as [? ?]. split; [done|]. by apply idle_taken. }
  destruct (clean_slots_run s1 q h' C1 Hfree) as (u & E & [Q T G K P M N L I X U F R]).
  rewrite (kbind_ret _ _ _ _ _ E).
  rewrite (release_taken_run fuel ThreadMutex s u Hidle) by (rewrite ?X, ?U, ?R; (done || apply mutex_at_put)).
  eexists. split; [reflexivity|].
  refine (conj Q (conj T (conj G (conj K (conj P (conj M (conj N (conj U (conj F _))))))))).
  intros m Hm. destruct (decide (m = ThreadMutex)) as [->|Hne].
  - by split; rewrite mutex_at_put.
  - destruct (I m (idle_taken _ _ _ Hne Hm)). by split; rewrite mutex_at_put_ne by congruence.
Qed.

End collector.

(** ** Witness: a terminated main thread ahead of a ready one in the queue *)

#[local] Existing Instance bump_Kmem.
#[local] Existing Instance bump_Console.

Definition demo_dead : thread :=
  Thread 1 1 200 THREAD_TERMED THREAD_RING_3 THREAD_PRIO_LOW context_zero 0x3000 TSTACK_SIZE 0x4000 0 0 0 NULL 102.
Definition demo_sweep : sched Z :=
  SchedState {[101 := demo_dead; 102 := demo_thread 2 THREAD_READY NULL]}
    {[200 := p_set_main_thread 101 process_zero]} ∅ (Spinlock false false) 101 102 0 102
    ([NULL; 101; 102] ++ replicate (MAX_THREADS - 3) NULL) 2 3 [200] 0 0 context_zero true 0x10000.

Lemma demo_slots i t : thread_table demo_sweep !! i = Some t -> t <> NULL ->
  (i = 1%nat /\ t = 101) \/ (i = 2%nat /\ t = 102).
Proof.
  intros H Ht. destruct i as [|[|[|i]]]; cbn in H.
  - by injection H as <-.
  - injection H as <-. by left.
  - injection H as <-. by right.
  - change (replicate (MAX_THREADS - 3) NULL !! i = Some t) in H. apply lookup_replicate in H as [-> _]. done.
Qed.

Lemma demo_dead_list : dead demo_sweep (thread_table demo_sweep) = [101].
Proof. vm_compute. reflexivity. Qed.

Lemma demo_collectable : collectable 3 demo_sweep [101; 102].
Proof.
  split.
  - cbn. lia.
  - reflexivity.
  - intros t [i Hi]%list_elem_of_lookup. destruct (decide (t = NULL)) as [|Hn]; [by left|right].
    destruct (demo_slots i t Hi Hn) as [[_ ->]|[_ ->]]; by eexists.
  - intros i j t Hi Hj Hn. destruct (demo_slots i t Hi Hn) as [[-> E]|[-> E]];
      destruct (demo_slots j t Hj Hn) as [[-> E']|[-> E']]; congruence.
  - split_and!; [|done|].
    + split; [done|]. split; [done|]. exists demo_dead. split; [reflexivity|]. split; [done|]. split; [done|]. by eexists.
    + apply NoDup_cons. split; [by intros ?%list_elem_of_singleton|apply NoDup_singleton].
  - reflexivity.
  - cbn. lia.
  - intros t th. rewrite demo_dead_list. intros ->%list_elem_of_singleton Et. injection Et as <-. split.
    + intros _. split; [by eexists|by split].
    + intros p pr Hp _. destruct (decide (p = 200)) as [->|Hne]; [done|].
      change (({[200 := p_set_main_thread 101 process_zero]} : gmap Z process) !! p = Some pr) in Hp.
      by rewrite lookup_singleton_ne in Hp by congruence.
Qed.

Lemma clean_up_collects_witness :
  exists s', clean_up 3 demo_sweep = Ret tt s' /\ queue s' [102] /\ threads s' !! 101 = None /\ thread_count s' = 1.
Proof.
  destruct (clean_up_collects 3 demo_sweep [101; 102] 0x10000) as (s' & E & Q & _ & G & _ & _ & _ & N & _).
  - by split.
  - exact demo_collectable.
  - rewrite demo_dead_list. vm_compute. do 3 (eexists; split; [reflexivity|]). reflexivity.
  - rewrite demo_dead_list in Q, G, N. exists s'. split; [exact E|]. split; [exact Q|].
    split; [apply G; by left|exact N].
Defined.
