(* ===== verification/ProcTable.v ===== *)
(** * The process table is never filled (process.c)

    A predicate on programs, [keeps T], for those that leave the process table
    [T] as it is however their locks, lists and allocations turn out, with a
    rule for each construct.  [process_create] satisfies it: a process that is
    created is never entered, so it cannot be found by its id. *)

From S2P Require Import Prelude Errno Console Machine Kheap Spinlock Kmem SchedState Sched Queue Mutex Threads.
From S2P Require Import ThreadSpec Process.
Local Open Scope Z_scope.

Section keeps.
Context {A : Type} `{!Kmem A} `{!Console A} (T : list Z).

Definition keeps {B} (m : K (sched A) B) : Prop :=
  forall s b s', process_table s = T -> m s = Ret b s' -> process_table s' = T.

(** ** The rules *)

Lemma keeps_ret {B} (b : B) : keeps (mret b).
Proof. by intros s b' s' E [= _ <-]. Qed.

Lemma keeps_bind {B C} (m : K (sched A) B) (k : B -> K (sched A) C) :
  keeps m -> (forall b, keeps (k b)) -> keeps (m ≫= k).
Proof. intros Hm Hk s c s' E (b & s1 & E1 & E2)%kbind_inv. exact (Hk b s1 c s' (Hm s b s1 E E1) E2). Qed.

Lemma keeps_stop {B} (w : stop) : keeps (kstop w : K (sched A) B).
Proof. by intros s b s' E. Qed.

Lemma keeps_kmod (f : sched A -> sched A) :
  (forall s, process_table s = T -> process_table (f s) = T) -> keeps (kmod f).
Proof. intros Hf s b s' E [= _ <-]. by apply Hf. Qed.

Lemma keeps_kasks {B} (f : sched A -> B) : keeps (kasks f).
Proof. by intros s b s' E [= _ <-]. Qed.

Lemma keeps_kderef {B} (o : option B) : keeps (kderef o).
Proof. destruct o; [apply keeps_ret|apply keeps_stop]. Qed.

Lemma keeps_kwhen (c : bool) (m : K (sched A) unit) : keeps m -> keeps (kwhen c m).
Proof. destruct c; [done|]. intros _. apply keeps_ret. Qed.

Lemma keeps_kloop {L R} (body : L -> K (sched A) (L + R)) f : (forall l, keeps (body l)) ->
  forall l, keeps (kloop f body l).
Proof.
  intros Hb. induction f as [|f IH]; intros l; [apply keeps_stop|]. cbn [kloop].
  apply keeps_bind; [apply Hb|]. intros [l'|r]; [apply IH|apply keeps_ret].
Qed.

Lemma keeps_on_kmem {B} (m : K A B) : keeps (on_kmem m).
Proof. intros s b s' E. unfold on_kmem, klift. destruct (m (kmem s)); [|done]. by intros [= _ <-]. Qed.

(** What was read from the table is the table. *)
Lemma keeps_table {B} (k : list Z -> K (sched A) B) : keeps (k T) -> keeps (kasks process_table ≫= k).
Proof.
  intros Hk s b s' E (t & s1 & [= <- <-] & E2)%kbind_inv. rewrite E in E2. exact (Hk s b s' E E2).
Qed.
End keeps.

Create HintDb keeps discriminated.
#[export] Hint Resolve keeps_ret keeps_stop keeps_kasks keeps_kderef keeps_on_kmem : keeps.

(** Apply the rules; what is left are the calls without a rule. *)
Ltac keeps :=
  repeat first
    [ solve [auto with keeps nocore]
    | apply keeps_bind; [|intros ?]
    | apply keeps_kwhen
    | apply keeps_kloop; intros ?
    | apply keeps_kmod; by intros ? ->
    | apply keeps_kmod; by intros
    | match goal with
      | |- keeps _ (if ?x then _ else _) => destruct x
      | |- keeps _ (match ?x with _ => _ end) => destruct x
      end ].

Section functions.
Context {A : Type} `{!Kmem A} `{!Console A} (T : list Z) (fuel : nat).
Abbreviation keeps := (@keeps A T).

Lemma keeps_get_thread t : keeps (get_thread t). Proof. unfold get_thread. keeps. Qed.
Lemma keeps_get_process t : keeps (get_process t). Proof. unfold get_process. keeps. Qed.
#[local] Hint Resolve keeps_get_thread keeps_get_process : keeps.
Lemma keeps_upd_thread t f : keeps (upd_thread t f). Proof. unfold upd_thread. keeps. Qed.
Lemma keeps_upd_process t f : keeps (upd_process t f). Proof. unfold upd_process. keeps. Qed.
Lemma keeps_upd_mutex m f : keeps (upd_mutex m f). Proof. unfold upd_mutex. keeps. Qed.
#[local] Hint Resolve keeps_upd_thread keeps_upd_process keeps_upd_mutex : keeps.

Lemma keeps_lock_spin m : keeps (spinlock_acquire (mutex_spin m)).
Proof. unfold spinlock_acquire, have_interrupt, disable_interrupt. keeps. Qed.
Lemma keeps_unlock_spin m : keeps (spinlock_release (mutex_spin m)).
Proof. unfold spinlock_release, enable_interrupt. keeps. Qed.
Lemma keeps_init_spin m : keeps (spinlock_init (mutex_spin m)).
Proof. unfold spinlock_init. keeps. Qed.
Lemma keeps_lock_schedule : keeps lock_schedule_spin.
Proof. unfold lock_schedule_spin, spinlock_acquire, have_interrupt, disable_interrupt. keeps. Qed.
Lemma keeps_unlock_schedule : keeps unlock_schedule_spin.
Proof. unfold unlock_schedule_spin, spinlock_release, enable_interrupt. keeps. Qed.
#[local] Hint Resolve keeps_lock_spin keeps_unlock_spin keeps_init_spin keeps_lock_schedule
  keeps_unlock_schedule : keeps.

Lemma keeps_link t : keeps (link_ready_tail t). Proof. unfold link_ready_tail. keeps. Qed.
#[local] Hint Resolve keeps_link : keeps.
Lemma keeps_enqueue t : keeps (enqueue_ready_tail t). Proof. unfold enqueue_ready_tail. keeps. Qed.
Lemma keeps_in_ready t c : keeps (in_ready_queue fuel t c). Proof. unfold in_ready_queue. keeps. Qed.
#[local] Hint Resolve keeps_enqueue keeps_in_ready : keeps.
Lemma keeps_add t : keeps (add_to_ready_queue fuel t). Proof. unfold add_to_ready_queue. keeps. Qed.
Lemma keeps_remove t : keeps (remove_from_ready_queue fuel t).
Proof. unfold remove_from_ready_queue, remove_step. keeps. Qed.
#[local] Hint Resolve keeps_add keeps_remove : keeps.
Lemma keeps_release m : keeps (release_mutex fuel m). Proof. unfold release_mutex. keeps. Qed.
Lemma keeps_init_mutex m : keeps (init_mutex m). Proof. unfold init_mutex. keeps. Qed.
Lemma keeps_find_tid table : forall i, keeps (find_tid table i).
Proof. induction table as [|t r IH]; intros i; cbn [find_tid]; keeps; apply IH. Qed.
#[local] Hint Resolve keeps_release keeps_init_mutex keeps_find_tid : keeps.
Lemma keeps_thread_from_tid i : keeps (thread_from_tid i). Proof. unfold thread_from_tid. keeps. Qed.
Lemma keeps_enqueue_waiter m c : keeps (enqueue_waiter m c). Proof. unfold enqueue_waiter. keeps. Qed.
#[local] Hint Resolve keeps_thread_from_tid keeps_enqueue_waiter : keeps.

Lemma keeps_acquire_depth depth : forall m, keeps (acquire_mutex_fuel fuel depth m).
Proof.
  induction depth as [|depth IH]; intros m; cbn [acquire_mutex_fuel]; [keeps|].
  unfold thread_block_with, hcf. keeps; apply IH.
Qed.
Lemma keeps_acquire m : keeps (acquire_mutex fuel m). Proof. apply keeps_acquire_depth. Qed.
#[local] Hint Resolve keeps_acquire : keeps.

Lemma keeps_find_pid table : forall i, keeps (find_pid table i).
Proof. induction table as [|t r IH]; intros i; cbn [find_pid]; keeps; apply IH. Qed.
#[local] Hint Resolve keeps_find_pid : keeps.
Lemma keeps_process_from_pid i : keeps (process_from_pid fuel i).
Proof. unfold process_from_pid, lock_proc_table, unlock_proc_table. keeps. Qed.
Lemma keeps_process_add_thread p t : keeps (process_add_thread fuel p t).
Proof. unfold process_add_thread. keeps. Qed.
#[local] Hint Resolve keeps_process_from_pid keeps_process_add_thread : keeps.
Lemma keeps_new_stacks t prv : keeps (new_stacks t prv).
Proof. unfold new_stacks, free_stack, free_thread. keeps. Qed.
#[local] Hint Resolve keeps_new_stacks : keeps.

Lemma keeps_thread_create f argc argv prv prio i : keeps (thread_create fuel f argc argv prv prio i).
Proof. unfold thread_create, lock_thread_mutex, unlock_thread_mutex, free_thread. keeps. Qed.
#[local] Hint Resolve keeps_thread_create : keeps.

(** The slot that a failed creation clears was free. *)
Lemma keeps_clear slot : find_free_slot T = Some slot ->
  keeps (kmod (fun s => set_process_table (<[slot := NULL]> (process_table s)) s)).
Proof.
  intros E. apply keeps_kmod. intros s ->. apply list_insert_id.
  unfold find_free_slot in E. destruct (list_find _ T) as [[k x]|] eqn:Ef; [|done].
  injection E as <-. apply list_find_Some in Ef as (Ek & -> & _). exact Ek.
Qed.

Lemma keeps_process_create entry argc argv parent user :
  keeps (process_create fuel entry argc argv parent user).
Proof.
  unfold process_create, lock_proc_table, unlock_proc_table, free_process.
  apply keeps_bind; [keeps|]. intros _. apply keeps_table.
  destruct (find_free_slot T) as [slot|] eqn:E; [|keeps].
  keeps; by apply keeps_clear.
Qed.

(** ** The table is never filled *)

Lemma find_pid_in table i : forall (s : sched A) r s', find_pid table i s = Ret r s' -> r = NULL \/ r ∈ table.
Proof.
  induction table as [|p rest IH]; intros s r s'; cbn [find_pid]; [by intros [= <- _]; left|].
  destruct (p =? NULL).
  - intros E. destruct (IH s r s' E); [by left|right; by right].
  - intros (pr & s1 & _ & E)%kbind_inv. destruct (pid pr =? i).
    + injection E as <- _. right. by left.
    + destruct (IH s1 r s' E); [by left|right; by right].
Qed.

Lemma process_from_pid_in i (s : sched A) r s' : process_table s = T -> process_from_pid fuel i s = Ret r s' ->
  r = NULL \/ r ∈ T.
Proof.
  unfold process_from_pid, lock_proc_table. intros E H. destruct (i <? 0); [by injection H as <- _; left|].
  apply kbind_inv in H as (b & s1 & E1 & H). pose proof (keeps_acquire _ _ _ _ E E1) as Et.
  apply kbind_inv in H as (t & s2 & E2 & H). injection E2 as <- <-.
  apply kbind_inv in H as (r' & s3 & E3 & H). apply kbind_inv in H as (u & s4 & _ & H).
  injection H as <- _. rewrite Et in E3. by eapply find_pid_in.
Qed.
End functions.

Section theorems.
Context {A : Type} `{!Kmem A} `{!Console A} (fuel : nat).
Implicit Types s : sched A.

(** C34: a process that [process_create] answers, in whatever state, whatever
    happens to its locks, lists and allocations, is not entered in the process
    table: as long as the table stays as it is, no search for any process id
    finds it. *)
Theorem created_process_unreachable s entry argc argv parent user p s'
    (Hrun : process_create fuel entry argc argv parent user s = Ret p s')
    (Hnew : p ∉ process_table s) (Hp : p <> NULL) :
  process_table s' = process_table s /\
  forall s1 f i r s2, process_table s1 = process_table s' -> process_from_pid f i s1 = Ret r s2 -> r <> p.
Proof.
  pose proof (keeps_process_create (process_table s) fuel entry argc argv parent user s p s' eq_refl Hrun) as E.
  split; [exact E|].
  intros s1 f i r s2 E1 Hr ->. destruct (process_from_pid_in (process_table s) f i s1 p s2); [congruence|done..].
Qed.
End theorems.

(** ** Witness: a process for the task at 0x9000, on the demonstration heap *)

#[local] Existing Instance bump_Kmem.
#[local] Existing Instance bump_Console.

Definition demo_process : sched Z := set_process_table [200; NULL] (demo_create 0x10000).

Lemma created_process_unreachable_witness :
  exists s', process_create 2 0x9000 0 NULL 0 false demo_process = Ret 0x10000 s' /\
    process_table s' = [200; NULL].
Proof.
  destruct (process_create 2 0x9000 0 NULL 0 false demo_process) as [p s'|c s'] eqn:E;
    [|vm_compute in E; discriminate E].
  assert (Hp : p = 0x10000) by (vm_compute in E; injection E; intros _ <-; reflexivity). subst p. exists s'. split; [reflexivity|].
  apply (created_process_unreachable 2 demo_process 0x9000 0 NULL 0 false 0x10000 s' E); [|discriminate].
  intros [H|[H|H%elem_of_nil]%elem_of_cons]%elem_of_cons; [discriminate H|discriminate H|exact H].
Defined.
