(* ===== verification/HashTable.v ===== *)
(** * Hash tables (klibc/kmem/hashtable.c)

    Chained hash tables over FNV-1a.  An entry is a slab object, a key a heap
    buffer with a copy of the caller's bytes; both are named by their address
    and held in the maps of [hstate], which also has the tables themselves, by
    their own address, and the static [hash_entry_cache].  A key argument is
    the list of its bytes, so [key_size] is its length. *)

From S2P Require Import Prelude Kmem.
Local Open Scope Z_scope.

(** src/include/klibc/kmem/hashtable.h:14-15 [FNV1PRIME] *)
Definition FNV1PRIME : Z := 0x100000001b3.
Definition FNV1OFFSET : Z := 0xcbf29ce484222325.

(** src/include/klibc/kmem/hashtable.h:17-25 [hash_entry_t] *)
Record hash_entry_t := HashEntry {
  he_next : Z;
  he_prev : Z;
  he_hash : Z;
  he_key_size : Z;
  he_key : Z;
  he_value : Z;
}.
Definition set_he_next v e :=
  HashEntry v (he_prev e) (he_hash e) (he_key_size e) (he_key e) (he_value e).
Definition set_he_prev v e :=
  HashEntry (he_next e) v (he_hash e) (he_key_size e) (he_key e) (he_value e).
Definition set_he_value v e :=
  HashEntry (he_next e) (he_prev e) (he_hash e) (he_key_size e) (he_key e) v.

(** [entries] is the array's address, [slots] what it holds.
    src/include/klibc/kmem/hashtable.h:27-32 [hashtable_t] *)
Record hashtable_t := HashTable {
  entry_count : Z;
  capacity : Z;
  entries : Z;
  slots : list Z;
}.

Definition SIZEOF_HASH_ENTRY : Z := 48.

(** src/klibc/kmem/hashtable.c:18-18 [hash_entry_cache] *)
Record hstate (A : Type) := HState {
  tables : gmap Z hashtable_t;
  hentries : gmap Z hash_entry_t;
  hkeys : gmap Z (list Z);
  hash_entry_cache : Z;
  hmem : A;
}.
Arguments HState {A}.
Arguments tables {A}.
Arguments hentries {A}.
Arguments hkeys {A}.
Arguments hash_entry_cache {A}.
Arguments hmem {A}.

(** src/klibc/kmem/hashtable.c:3-16 [fnv1ahash] *)
Definition fnv1ahash (buffer : list Z) : Z :=
  fold_left (fun h b => u64 (Z.lxor h b * FNV1PRIME)) buffer FNV1OFFSET.

Section hashtable.
Context {A : Type} `{!Kmem A} (fuel : nat).

Definition set_tables v (s : hstate A) := HState v (hentries s) (hkeys s) (hash_entry_cache s) (hmem s).
Definition set_hentries v (s : hstate A) := HState (tables s) v (hkeys s) (hash_entry_cache s) (hmem s).
Definition set_hkeys v (s : hstate A) := HState (tables s) (hentries s) v (hash_entry_cache s) (hmem s).
Definition set_entry_cache v (s : hstate A) := HState (tables s) (hentries s) (hkeys s) v (hmem s).
Definition set_hmem v (s : hstate A) : hstate A := HState (tables s) (hentries s) (hkeys s) (hash_entry_cache s) v.

Definition on_hmem {B} (m : K A B) : K (hstate A) B := klift hmem set_hmem m.

Definition get_table (t : Z) : K (hstate A) hashtable_t :=
  x ← kasks (fun s => tables s !! t); kderef x.
Definition put_table (t : Z) (v : hashtable_t) : K (hstate A) unit :=
  kmod (fun s => set_tables (<[t := v]> (tables s)) s).
Definition get_he (e : Z) : K (hstate A) hash_entry_t :=
  x ← kasks (fun s => hentries s !! e); kderef x.
Definition upd_he (e : Z) (f : hash_entry_t -> hash_entry_t) : K (hstate A) unit :=
  x ← get_he e; kmod (fun s => set_hentries (<[e := f x]> (hentries s)) s).
Definition get_key (k : Z) : K (hstate A) (list Z) :=
  x ← kasks (fun s => hkeys s !! k); kderef x.

(** An access of [table->entries[i]]: a fault through NULL. *)
Definition get_slot (t i : Z) : K (hstate A) Z :=
  table ← get_table t;
  if entries table =? NULL then kstop Faulted else kderef (slots table !! Z.to_nat i).
Definition put_slot (t i v : Z) : K (hstate A) unit :=
  table ← get_table t;
  if entries table =? NULL then kstop Faulted else
  put_table t (HashTable (entry_count table) (capacity table) (entries table)
                 (<[Z.to_nat i := v]> (slots table))).
Definition put_count (t : Z) (f : Z -> Z) : K (hstate A) unit :=
  table ← get_table t;
  put_table t (HashTable (u64 (f (entry_count table))) (capacity table) (entries table) (slots table)).

(** [hash % table->capacity]: a division fault on a table of capacity 0. *)
Definition table_offset (t hash : Z) : K (hstate A) Z :=
  table ← get_table t;
  if capacity table =? 0 then kstop Faulted else mret (hash mod capacity table).

(** The walk over a bucket.
    src/klibc/kmem/hashtable.c:27-33 [get_entry] *)
Definition find_entry (key : list Z) (hash : Z) (entry : Z) : K (hstate A) Z :=
  kloop fuel (fun entry =>
    if entry =? NULL then mret (inr entry) else
    e ← get_he entry;
    if (he_key_size e =? Z.of_nat (length key)) && (he_hash e =? hash) then
      k ← get_key (he_key e);
      if bool_decide (take (length key) k = key) then mret (inr entry)
      else mret (inl (he_next e))
    else mret (inl (he_next e))) entry.

(** src/klibc/kmem/hashtable.c:20-36 [get_entry] *)
Definition get_entry (t : Z) (key : list Z) (hash : Z) : K (hstate A) Z :=
  i ← table_offset t hash;
  entry ← get_slot t i;
  find_entry key hash entry.

(** The part of [hashtable_set] that makes a new entry.
    src/klibc/kmem/hashtable.c:50-71 [hashtable_set] *)
Definition new_entry (t value : Z) (key : list Z) (hash : Z) : K (hstate A) Z :=
  i ← table_offset t hash;
  cache ← kasks hash_entry_cache;
  entry ← on_hmem (km_cache_alloc cache);
  if entry =? NULL then mret (-1) else
  k ← on_hmem (km_malloc (Z.of_nat (length key)));
  if k =? NULL then on_hmem (km_cache_free cache entry);; mret (-1) else
  kmod (fun s => set_hkeys (<[k := key]> (hkeys s)) s);;
  head ← get_slot t i;
  kmod (fun s => set_hentries (<[entry := HashEntry head NULL hash (Z.of_nat (length key)) k value]>
                                (hentries s)) s);;
  kwhen (negb (head =? NULL)) (upd_he head (set_he_prev entry));;
  put_slot t i entry;;
  put_count t (fun n => n + 1);;
  mret 0.

(** src/klibc/kmem/hashtable.c:38-75 [hashtable_set] *)
Definition hashtable_set (t value : Z) (key : list Z) : K (hstate A) Z :=
  let hash := fnv1ahash key in
  entry ← get_entry t key hash;
  if negb (entry =? NULL) then upd_he entry (set_he_value value);; mret 0
  else new_entry t value key hash.

(** The value behind [value] when the answer is 0, [None] for -1.
    src/klibc/kmem/hashtable.c:77-88 [hashtable_get] *)
Definition hashtable_get (t : Z) (key : list Z) : K (hstate A) (option Z) :=
  let hash := fnv1ahash key in
  entry ← get_entry t key hash;
  if entry =? NULL then mret None else
  e ← get_he entry;
  mret (Some (he_value e)).

(** Give back an entry and its key. *)
Definition free_entry (entry : Z) : K (hstate A) unit :=
  e ← get_he entry;
  on_hmem (km_free (he_key e));;
  kmod (fun s => set_hkeys (delete (he_key e) (hkeys s)) s);;
  cache ← kasks hash_entry_cache;
  on_hmem (km_cache_free cache entry);;
  kmod (fun s => set_hentries (delete entry (hentries s)) s).

(** Take an entry out of its bucket.
    src/klibc/kmem/hashtable.c:100-110 [hashtable_remove] *)
Definition unlink_entry (t i entry : Z) : K (hstate A) unit :=
  e ← get_he entry;
  (if negb (he_prev e =? NULL) then upd_he (he_prev e) (set_he_next (he_next e))
   else put_slot t i (he_next e));;
  kwhen (negb (he_next e =? NULL)) (upd_he (he_next e) (set_he_prev (he_prev e))).

(** src/klibc/kmem/hashtable.c:90-117 [hashtable_remove] *)
Definition hashtable_remove (t : Z) (key : list Z) : K (hstate A) Z :=
  let hash := fnv1ahash key in
  i ← table_offset t hash;
  entry ← get_entry t key hash;
  if entry =? NULL then mret (-1) else
  unlink_entry t i entry;;
  free_entry entry;;
  put_count t (fun n => n - 1);;
  mret 0.

(** One bucket of [hashtable_destroy].
    src/klibc/kmem/hashtable.c:123-130 [hashtable_destroy] *)
Definition destroy_bucket (entry : Z) : K (hstate A) unit :=
  kloop fuel (fun entry =>
    if entry =? NULL then mret (inr tt) else
    e ← get_he entry;
    free_entry entry;;
    mret (inl (he_next e))) entry.

(** src/klibc/kmem/hashtable.c:119-137 [hashtable_destroy] *)
Definition hashtable_destroy (t : Z) : K (hstate A) Z :=
  table ← get_table t;
  kfor (Z.to_nat (capacity table)) 0 (fun i => entry ← get_slot t i; destroy_bucket entry);;
  on_hmem (km_free (entries table));;
  put_table t (HashTable 0 (capacity table) NULL []);;
  mret 0.

(** src/klibc/kmem/hashtable.c:139-158 [hashtable_init] *)
Definition hashtable_init (t size : Z) : K (hstate A) Z :=
  cache ← kasks hash_entry_cache;
  ok ← (if cache =? NULL then
          c ← on_hmem (km_cache_create SIZEOF_HASH_ENTRY 0);
          kmod (set_entry_cache c);;
          mret (negb (c =? NULL))
        else mret true);
  if negb (ok : bool) then mret (-1) else
  array ← on_hmem (km_malloc (u64 (size * 8)));
  old ← kasks (fun s => tables s !! t);
  if array =? NULL then
    put_table t (HashTable (default 0 (entry_count <$> old)) size NULL []);; mret (-1)
  else
    put_table t (HashTable 0 size array (replicate (Z.to_nat (u64 (size * 8) / 8)) NULL));;
    mret 0.
End hashtable.

(** ** The abstract map of a table *)

(** An entry of a bucket. *)
Record item := Item { i_addr : Z; i_kaddr : Z; i_key : list Z; i_val : Z }.

(** The value of a key in a bucket. *)
Fixpoint assoc (key : list Z) (b : list item) : option Z :=
  match b with
  | [] => None
  | it :: r => if decide (i_key it = key) then Some (i_val it) else assoc key r
  end.

(** The address of a key's entry in a bucket. *)
Fixpoint entry_of (key : list Z) (b : list item) : Z :=
  match b with
  | [] => NULL
  | it :: r => if decide (i_key it = key) then i_addr it else entry_of key r
  end.

Lemma assoc_none key b : assoc key b = None <-> key ∉ i_key <$> b.
Proof.
  induction b as [|it b IH]; cbn [assoc fmap list_fmap].
  - split; [intros _; apply not_elem_of_nil|done].
  - rewrite not_elem_of_cons. destruct (decide (i_key it = key)) as [->|Hne].
    + split; [done|by intros []].
    + rewrite IH. split; [intros H; split; [by intros ->|done]|by intros []].
Qed.

Section proofs.
Context {A : Type} `{!Kmem A}.
Implicit Types s : hstate A.

(** The doubly linked list of a bucket, from [p] on, behind [prev]. *)
Fixpoint dll s (prev p : Z) (b : list item) : Prop :=
  match b with
  | [] => p = NULL
  | it :: r => p = i_addr it /\ p <> NULL /\ exists nx,
      hentries s !! p = Some (HashEntry nx prev (fnv1ahash (i_key it)) (Z.of_nat (length (i_key it)))
                                (i_kaddr it) (i_val it)) /\
      hkeys s !! i_kaddr it = Some (i_key it) /\ dll s p nx r
  end.

Lemma dll_ext s s' prev p b :
  (forall it, it ∈ b -> hentries s' !! i_addr it = hentries s !! i_addr it /\
                hkeys s' !! i_kaddr it = hkeys s !! i_kaddr it) ->
  dll s prev p b -> dll s' prev p b.
Proof.
  revert prev p. induction b as [|it b IH]; intros prev p Hx; [done|].
  intros (-> & Hp & nx & E & Ek & H). destruct (Hx it (list_elem_of_here _ _)) as [E1 E2].
  split_and!; [done..|]. exists nx. rewrite E1, E2. split_and!; [done..|].
  apply IH; [|done]. intros y Hy. apply Hx. by apply list_elem_of_further.
Qed.

Lemma dll_entry s prev p b it : dll s prev p b -> it ∈ b ->
  i_addr it <> NULL /\ hkeys s !! i_kaddr it = Some (i_key it) /\ exists nx pv,
    hentries s !! i_addr it = Some (HashEntry nx pv (fnv1ahash (i_key it))
      (Z.of_nat (length (i_key it))) (i_kaddr it) (i_val it)).
Proof.
  revert prev p. induction b as [|x b IH]; intros prev p H Hin; [by apply elem_of_nil in Hin|].
  destruct H as (-> & Hp & nx & E & Ek & H). apply elem_of_cons in Hin as [->|Hin]; [|by eapply IH].
  split_and!; [done..|]. by exists nx, prev.
Qed.

Lemma find_entry_run fuel s key prev p b :
  dll s prev p b -> (length b < fuel)%nat ->
  find_entry fuel key (fnv1ahash key) p s = Ret (entry_of key b) s.
Proof.
  revert prev p fuel. induction b as [|it b IH]; intros prev p fuel H Hf;
    (destruct fuel as [|f]; [cbn in Hf; lia|]); unfold find_entry.
  - cbn in H. subst p. by apply kloop_exit.
  - destruct H as (-> & Hp & nx & E & Ek & H). cbn [entry_of].
    assert (Eg : get_he (i_addr it) s = Ret (HashEntry nx prev (fnv1ahash (i_key it))
              (Z.of_nat (length (i_key it))) (i_kaddr it) (i_val it)) s)
      by (unfold get_he; krun; by rewrite E).
    assert (Egk : get_key (i_kaddr it) s = Ret (i_key it) s)
      by (unfold get_key; krun; by rewrite Ek).
    destruct (decide (i_key it = key)) as [Heq|Hne].
    + apply kloop_exit. destruct (Z.eqb_spec (i_addr it) NULL); [done|].
      rewrite (kbind_ret _ _ _ _ _ Eg). cbn [he_key_size he_hash he_key].
      rewrite Heq, !Z.eqb_refl. cbn [andb]. rewrite <- Heq, (kbind_ret _ _ _ _ _ Egk).
      by rewrite bool_decide_true by apply firstn_all.
    + rewrite (kloop_next _ _ _ nx _ s).
      * apply (IH (i_addr it) nx f H). cbn in Hf. lia.
      * destruct (Z.eqb_spec (i_addr it) NULL); [done|].
        rewrite (kbind_ret _ _ _ _ _ Eg). cbn [he_key_size he_hash he_key he_next].
        destruct (Z.eqb_spec (Z.of_nat (length (i_key it))) (Z.of_nat (length key))) as [El|];
          [|done].
        destruct (fnv1ahash (i_key it) =? fnv1ahash key); [|done]. cbn [andb].
        rewrite (kbind_ret _ _ _ _ _ Egk).
        rewrite bool_decide_false; [done|]. apply Nat2Z.inj in El. by rewrite <- El, firstn_all.
Qed.

(** ** The invariant of a table

    Bucket [i] holds entries whose hash is [i] modulo the capacity, with
    distinct keys and addresses; [M] is the map they represent. *)
Record bucket_ok s (cap : Z) (i : nat) (p : Z) (b : list item) : Prop := {
  bk_dll : dll s NULL p b;
  bk_addr : NoDup (i_addr <$> b);
  bk_key : NoDup (i_key <$> b);
  bk_hash : forall it, it ∈ b -> fnv1ahash (i_key it) mod cap = Z.of_nat i;
}.

Record table_repr s (t : Z) (B : list (list item)) (M : gmap (list Z) Z) : Prop := {
  tr_cap : (0 < length B)%nat;
  tr_table : exists n arr sl, tables s !! t = Some (HashTable n (Z.of_nat (length B)) arr sl) /\
    arr <> NULL /\ length sl = length B /\ n = u64 (Z.of_nat (size M)) /\
    forall i p b, sl !! i = Some p -> B !! i = Some b -> bucket_ok s (Z.of_nat (length B)) i p b;
  tr_map : forall key b, B !! Z.to_nat (fnv1ahash key mod Z.of_nat (length B)) = Some b ->
    M !! key = assoc key b;
}.

(** The bucket of a key. *)
Lemma bucket_of s t B M key : table_repr s t B M ->
  exists n arr sl p b, tables s !! t = Some (HashTable n (Z.of_nat (length B)) arr sl) /\
    arr <> NULL /\ length sl = length B /\ n = u64 (Z.of_nat (size M)) /\
    let i := Z.to_nat (fnv1ahash key mod Z.of_nat (length B)) in
    Z.of_nat i = fnv1ahash key mod Z.of_nat (length B) /\
    sl !! i = Some p /\ B !! i = Some b /\ bucket_ok s (Z.of_nat (length B)) i p b /\
    M !! key = assoc key b.
Proof.
  intros [Hc (n & arr & sl & Et & Ha & Hl & Hn & Hb) HM].
  set (i := Z.to_nat (fnv1ahash key mod Z.of_nat (length B))).
  assert (Hi : 0 <= fnv1ahash key mod Z.of_nat (length B) < Z.of_nat (length B))
    by (apply Z.mod_pos_bound; lia).
  assert (Hib : (i < length B)%nat /\ Z.of_nat i = fnv1ahash key mod Z.of_nat (length B))
    by (unfold i; lia).
  destruct (lookup_lt_is_Some_2 B i) as [b Eb]; [apply Hib|].
  destruct (lookup_lt_is_Some_2 sl i) as [p Ep]; [rewrite Hl; apply Hib|].
  exists n, arr, sl, p, b. refine (conj Et (conj Ha (conj Hl (conj Hn _)))). cbv zeta.
  exact (conj (proj2 Hib) (conj Ep (conj Eb (conj (Hb i p b Ep Eb) (HM key b Eb))))).
Qed.

Lemma get_entry_run fuel s t B M key :
  table_repr s t B M -> (forall b, b ∈ B -> (length b < fuel)%nat) ->
  exists b, B !! Z.to_nat (fnv1ahash key mod Z.of_nat (length B)) = Some b /\
    get_entry fuel t key (fnv1ahash key) s = Ret (entry_of key b) s.
Proof.
  intros H Hf. destruct (bucket_of s t B M key H)
    as (n & arr & sl & p & b & Et & Ha & Hl & Hn & Hi & Ep & Eb & Hb & HM).
  exists b. split; [done|]. pose proof (tr_cap _ _ _ _ H).
  assert (Eg : get_table t s = Ret (HashTable n (Z.of_nat (length B)) arr sl) s)
    by (unfold get_table; krun; by rewrite Et).
  unfold get_entry. rewrite (kbind_ret _ _ s (fnv1ahash key mod Z.of_nat (length B)) s).
  2:{ unfold table_offset. rewrite (kbind_ret _ _ _ _ _ Eg). cbn [capacity].
      destruct (Z.eqb_spec (Z.of_nat (length B)) 0); [lia|done]. }
  rewrite (kbind_ret _ _ s p s).
  2:{ unfold get_slot. rewrite (kbind_ret _ _ _ _ _ Eg). cbn [entries slots].
      destruct (Z.eqb_spec arr NULL); [done|]. unfold kderef. by rewrite Ep. }
  apply (find_entry_run fuel s key NULL p b); [apply Hb|].
  apply Hf. by eapply list_elem_of_lookup_2.
Qed.

Lemma entry_of_assoc s prev p b key : dll s prev p b ->
  match assoc key b with
  | None => entry_of key b = NULL
  | Some v => exists b1 it b2, b = b1 ++ it :: b2 /\ i_key it = key /\ i_val it = v /\
      entry_of key b = i_addr it /\ i_addr it <> NULL /\ key ∉ i_key <$> b1
  end.
Proof.
  revert prev p. induction b as [|it b IH]; intros prev p H; [done|].
  destruct H as (-> & Hp & nx & E & Ek & H). cbn [assoc entry_of].
  destruct (decide (i_key it = key)) as [Heq|Hne].
  - exists [], it, b. split_and!; [done..|]. apply not_elem_of_nil.
  - specialize (IH _ _ H). destruct (assoc key b); [|done].
    destruct IH as (b1 & it' & b2 & -> & H1 & H2 & H3 & H4 & H5).
    exists (it :: b1), it', b2. split_and!; [done..|]. cbn. apply not_elem_of_cons. split; [by intros Eq; apply Hne|done].
Qed.

Lemma hashtable_get_run fuel s t B M key :
  table_repr s t B M -> (forall b, b ∈ B -> (length b < fuel)%nat) ->
  hashtable_get fuel t key s = Ret (M !! key) s.
Proof.
  intros H Hf. destruct (get_entry_run fuel s t B M key H Hf) as (b & Eb & E).
  destruct (bucket_of s t B M key H)
    as (n & arr & sl & p & b' & Et & Ha & Hl & Hn & Hi & Ep & Eb' & Hb & HM).
  rewrite Eb in Eb'. injection Eb' as <-. unfold hashtable_get.
  rewrite (kbind_ret _ _ _ _ _ E), HM.
  pose proof (entry_of_assoc s NULL p b key (bk_dll _ _ _ _ _ Hb)) as Ha'.
  destruct (assoc key b) as [v|].
  - destruct Ha' as (b1 & it & b2 & Hb12 & Hk & Hv & -> & Hnn & _).
    destruct (Z.eqb_spec (i_addr it) NULL); [done|].
    destruct (dll_entry _ _ _ _ it (bk_dll _ _ _ _ _ Hb)) as (_ & _ & nx & pv & Ee).
    { rewrite Hb12. set_solver. }
    rewrite (kbind_ret _ _ s _ s (ltac:(unfold get_he; krun; by rewrite Ee) : get_he (i_addr it) s = Ret _ s)).
    cbn [he_value]. by rewrite Hv.
  - by rewrite Ha'.
Qed.

(** ** Changes of one bucket *)

(** Entries and keys of the buckets other than [i] are untouched. *)
Record local s s' (cap : Z) (i : nat) : Prop := {
  lo_entries : forall a e, hentries s !! a = Some e -> he_hash e mod cap <> Z.of_nat i ->
    hentries s' !! a = Some e;
  lo_keys : forall k kb, hkeys s !! k = Some kb -> fnv1ahash kb mod cap <> Z.of_nat i ->
    hkeys s' !! k = Some kb;
}.

Lemma local_refl s cap i : local s s cap i.
Proof. by split. Qed.

Lemma local_trans s1 s2 s3 cap i : local s1 s2 cap i -> local s2 s3 cap i -> local s1 s3 cap i.
Proof. intros [E1 K1] [E2 K2]. split; eauto. Qed.

Lemma local_insert s cap i a e : 
  (hentries s !! a = None \/ exists e0, hentries s !! a = Some e0 /\ he_hash e0 mod cap = Z.of_nat i) ->
  local s (set_hentries (<[a := e]> (hentries s)) s) cap i.
Proof.
  intros H. split; cbn; [|done]. intros x ex Ex Hx. rewrite lookup_insert_ne; [done|].
  intros <-. destruct H as [H|(e0 & H & Hh)]; congruence.
Qed.

Lemma other_bucket s s' cap i j q b :
  local s s' cap i -> i <> j -> bucket_ok s cap j q b -> bucket_ok s' cap j q b.
Proof.
  intros [L1 L2] Hij [H1 H2 H3 H4]. split; [|done..]. eapply dll_ext; [|exact H1].
  intros it Hit. destruct (dll_entry _ _ _ _ it H1 Hit) as (_ & Ek & nx & pv & E).
  specialize (H4 it Hit). rewrite E, Ek. split.
  - apply L1; [done|]. cbn. lia.
  - apply L2; [done|]. lia.
Qed.

(** A change of bucket [i] makes a change of the map at the keys of [i]. *)
Lemma table_repr_change s s' t B M i b b' M' n' p' :
  table_repr s t B M -> B !! i = Some b -> local s s' (Z.of_nat (length B)) i ->
  (forall n arr sl, tables s !! t = Some (HashTable n (Z.of_nat (length B)) arr sl) ->
     tables s' !! t = Some (HashTable n' (Z.of_nat (length B)) arr (<[i := p']> sl))) ->
  bucket_ok s' (Z.of_nat (length B)) i p' b' -> n' = u64 (Z.of_nat (size M')) ->
  (forall key, fnv1ahash key mod Z.of_nat (length B) = Z.of_nat i -> M' !! key = assoc key b') ->
  (forall key, fnv1ahash key mod Z.of_nat (length B) <> Z.of_nat i -> M' !! key = M !! key) ->
  table_repr s' t (<[i := b']> B) M'.
Proof.
  intros [Hc (n & arr & sl & Et & Ha & Hl & Hn & Hb) HM] Eb Hloc Ht' Hb' Hn' Hin Hout.
  split; rewrite ?length_insert; [done| |].
  - exists n', arr, (<[i := p']> sl). split_and!; [by eapply Ht'|done|by rewrite length_insert|done|].
    intros j q c Hq Hcc. destruct (decide (i = j)) as [<-|Hij].
    + rewrite list_lookup_insert_eq in Hcc by (by eapply lookup_lt_Some).
      rewrite list_lookup_insert_eq in Hq by (rewrite Hl; by eapply lookup_lt_Some).
      by injection Hcc as <-; injection Hq as <-.
    + rewrite list_lookup_insert_ne in Hcc by done. rewrite list_lookup_insert_ne in Hq by done.
      eapply other_bucket; [exact Hloc|done|by apply Hb].
  - intros key c Hcc.
    assert (Hi : 0 <= fnv1ahash key mod Z.of_nat (length B) < Z.of_nat (length B))
      by (apply Z.mod_pos_bound; lia).
    destruct (decide (i = Z.to_nat (fnv1ahash key mod Z.of_nat (length B)))) as [Hij|Hij].
    + rewrite <- Hij, list_lookup_insert_eq in Hcc by (by eapply lookup_lt_Some).
      injection Hcc as <-. apply Hin. lia.
    + rewrite list_lookup_insert_ne in Hcc by done. rewrite Hout by lia. by apply HM.
Qed.

(** *** Overwriting a value *)
Lemma dll_set_value s prev p b1 it b2 v : NoDup (i_addr <$> b1 ++ it :: b2) ->
  dll s prev p (b1 ++ it :: b2) -> forall e, hentries s !! i_addr it = Some e ->
  dll (set_hentries (<[i_addr it := set_he_value v e]> (hentries s)) s) prev p
    (b1 ++ Item (i_addr it) (i_kaddr it) (i_key it) v :: b2).
Proof.
  revert prev p. induction b1 as [|x b1 IH]; intros prev p Hnd H e Ee.
  - destruct H as (-> & Hp & nx & E & Ek & H). rewrite Ee in E. injection E as ->.
    cbn. split_and!; [done..|]. exists nx. rewrite lookup_insert_eq. split_and!; [done..|].
    eapply dll_ext; [|exact H]. intros y Hy. cbn. rewrite lookup_insert_ne; [done|].
    intros Ea. apply NoDup_cons in Hnd as [Hnin _]. apply Hnin. rewrite Ea.
    by apply list_elem_of_fmap_2.
  - destruct H as (-> & Hp & nx & E & Ek & H). cbn in Hnd. apply NoDup_cons in Hnd as [Hnin Hnd].
    cbn. split_and!; [done..|]. exists nx. rewrite lookup_insert_ne.
    + split_and!; [done..|]. by apply IH.
    + intros Ea. apply Hnin. rewrite <- Ea. apply list_elem_of_fmap_2. set_solver.
Qed.

Lemma assoc_set_value key b1 it b2 v : i_key it ∉ i_key <$> b1 ->
  assoc key (b1 ++ Item (i_addr it) (i_kaddr it) (i_key it) v :: b2)
  = if decide (i_key it = key) then Some v else assoc key (b1 ++ it :: b2).
Proof.
  intros Hn. induction b1 as [|x b1 IH]; cbn.
  - by destruct (decide (i_key it = key)).
  - cbn in Hn. apply not_elem_of_cons in Hn as [Hx Hn]. rewrite IH by done.
    destruct (decide (i_key x = key)) as [<-|]; [|done]. by rewrite decide_False.
Qed.

(** *** Taking an entry out *)
Lemma dll_remove s s' it b2 : forall b1 prev p,
  let pv := default prev (last (i_addr <$> b1)) in
  let nx := default NULL (head (i_addr <$> b2)) in
  NoDup (i_addr <$> b1 ++ it :: b2) -> (forall x, x ∈ b1 ++ b2 -> i_addr x <> prev) ->
  dll s prev p (b1 ++ it :: b2) ->
  (forall x, x ∈ b1 ++ b2 -> i_addr x <> pv -> i_addr x <> nx ->
     hentries s' !! i_addr x = hentries s !! i_addr x) ->
  (forall x, x ∈ b1 -> i_addr x = pv ->
     hentries s' !! i_addr x = set_he_next nx <$> hentries s !! i_addr x) ->
  (forall x, x ∈ b2 -> i_addr x = nx ->
     hentries s' !! i_addr x = set_he_prev pv <$> hentries s !! i_addr x) ->
  (forall x, x ∈ b1 ++ b2 -> hkeys s' !! i_kaddr x = hkeys s !! i_kaddr x) ->
  dll s' prev (match b1 with [] => nx | _ => p end) (b1 ++ b2).
Proof.
  induction b1 as [|x b1 IH]; intros prev p pv nx Hnd Hprev H He Hpv Hnx Hk.
  - destruct H as (-> & Hp & n1 & E & Ek & H). cbn in pv. subst pv. cbn [app] in *.
    destruct b2 as [|y b2]; [done|]. destruct H as (-> & Hy & n2 & E2 & Ek2 & H).
    cbn in nx. subst nx. cbn. split_and!; [done..|]. exists n2.
    rewrite (Hnx y (list_elem_of_here _ _) eq_refl), E2, (Hk y (list_elem_of_here _ _)).
    split_and!; [done..|]. cbn in Hnd. apply NoDup_cons in Hnd as [_ [Hny _]%NoDup_cons].
    eapply dll_ext; [|exact H]. intros z Hz.
    split; [|apply Hk; set_solver]. apply He; [set_solver| |].
    + apply Hprev. set_solver.
    + intros Ez. apply Hny. cbn in Ez. rewrite <- Ez. by apply list_elem_of_fmap_2.
  - destruct H as (-> & Hp & n1 & E & Ek & H). cbn [app fmap list_fmap] in Hnd.
    apply NoDup_cons in Hnd as [Hnx' Hnd]. cbn [app dll]. split_and!; [done..|].
    assert (Hxnx : i_addr x <> nx).
    { unfold nx. destruct b2 as [|y b2]; cbn; [done|]. intros Ey. apply Hnx'. rewrite Ey.
      apply (list_elem_of_fmap_2 i_addr). set_solver. }
    destruct b1 as [|y b1].
    + cbn in pv. subst pv. exists nx. rewrite (Hpv x), E, (Hk x) by (done || set_solver).
      split_and!; [done..|]. cbn [app] in *.
      apply (IH (i_addr x) n1); [done| |done| | | |].
      * intros z Hz Ez. apply Hnx'. rewrite <- Ez. apply list_elem_of_fmap_2. set_solver.
      * intros z Hz H1 H2. apply He; [set_solver|done|done].
      * intros z []%elem_of_nil.
      * intros z Hz Ez. by apply Hnx.
      * intros z Hz. apply Hk. set_solver.
    + destruct (proj2 (last_is_Some (i_addr <$> y :: b1))) as [l El]; [discriminate|].
      assert (Epv : pv = l).
      { unfold pv. change (i_addr <$> x :: y :: b1) with (i_addr x :: (i_addr <$> y :: b1)).
        by rewrite last_cons, El. }
      assert (Hxpv : i_addr x <> pv).
      { rewrite Epv. intros Ex. apply Hnx'. rewrite Ex. apply last_Some in El as [l' El].
        rewrite fmap_app, El. set_solver. }
      exists n1. rewrite (He x), E, (Hk x) by (done || set_solver). split_and!; [done..|].
      apply (IH (i_addr x) n1); rewrite ?El; cbn [from_option id]; rewrite <- ?Epv; try done.
      * intros z Hz Ez. apply Hnx'. rewrite <- Ez. apply (list_elem_of_fmap_2 i_addr). set_solver.
      * intros z Hz H1 H2. apply He; [set_solver|done|done].
      * intros z Hz Ez. apply Hpv; [set_solver|done].
      * intros z Hz. apply Hk. set_solver.
Qed.

Lemma get_he_run s a e : hentries s !! a = Some e -> get_he a s = Ret e s.
Proof. intros E. unfold get_he. krun. by rewrite E. Qed.

Lemma upd_he_run s a e f : hentries s !! a = Some e ->
  upd_he a f s = Ret tt (set_hentries (<[a := f e]> (hentries s)) s).
Proof. intros E. unfold upd_he. by rewrite (kbind_ret _ _ _ _ _ (get_he_run _ _ _ E)). Qed.

Lemma get_table_run s t x : tables s !! t = Some x -> get_table t s = Ret x s.
Proof. intros E. unfold get_table. krun. by rewrite E. Qed.

Lemma put_slot_run s t i v n cap arr sl : tables s !! t = Some (HashTable n cap arr sl) ->
  arr <> NULL ->
  put_slot t i v s = Ret tt (set_tables (<[t := HashTable n cap arr (<[Z.to_nat i := v]> sl)]> (tables s)) s).
Proof.
  intros E Ha. unfold put_slot. rewrite (kbind_ret _ _ _ _ _ (get_table_run _ _ _ E)).
  cbn [entries]. by destruct (Z.eqb_spec arr NULL).
Qed.

Lemma put_count_run s t f n cap arr sl : tables s !! t = Some (HashTable n cap arr sl) ->
  put_count t f s = Ret tt (set_tables (<[t := HashTable (u64 (f n)) cap arr sl]> (tables s)) s).
Proof.
  intros E. unfold put_count. by rewrite (kbind_ret _ _ _ _ _ (get_table_run _ _ _ E)).
Qed.

Lemma table_offset_run s t hash n cap arr sl : tables s !! t = Some (HashTable n cap arr sl) ->
  cap <> 0 -> table_offset t hash s = Ret (hash mod cap) s.
Proof.
  intros E Hc. unfold table_offset. rewrite (kbind_ret _ _ _ _ _ (get_table_run _ _ _ E)).
  cbn [capacity]. by destruct (Z.eqb_spec cap 0).
Qed.

(** [hashtable_set] on a key that is in the table. *)
Lemma hashtable_set_update fuel s t B M key v v0 :
  table_repr s t B M -> (forall b, b ∈ B -> (length b < fuel)%nat) -> M !! key = Some v0 ->
  exists s' B', hashtable_set fuel t v key s = Ret 0 s' /\ table_repr s' t B' (<[key := v]> M) /\
    (forall b', b' ∈ B' -> exists b, b ∈ B /\ length b' = length b).
Proof.
  intros H Hf HM0. destruct (get_entry_run fuel s t B M key H Hf) as (b & Eb & E).
  destruct (bucket_of s t B M key H)
    as (n & arr & sl & p & b' & Et & Ha & Hl & Hn & Hi & Ep & Eb' & Hb & HM). cbv zeta in *.
  rewrite Eb in Eb'. injection Eb' as <-. set (i := Z.to_nat _) in *.
  pose proof (entry_of_assoc s NULL p b key (bk_dll _ _ _ _ _ Hb)) as Ha'.
  rewrite <- HM, HM0 in Ha'. destruct Ha' as (b1 & it & b2 & Hb12 & Hk & Hv & Ea & Hnn & Hb1).
  destruct (dll_entry _ _ _ _ it (bk_dll _ _ _ _ _ Hb)) as (_ & _ & nx & pv & Ee).
  { rewrite Hb12. set_solver. }
  set (e := HashEntry _ _ _ _ _ _) in Ee. set (a := i_addr it) in *.
  set (s' := set_hentries (<[a := set_he_value v e]> (hentries s)) s).
  set (b' := b1 ++ Item a (i_kaddr it) (i_key it) v :: b2).
  exists s', (<[i := b']> B). split; [|split].
  - unfold hashtable_set. rewrite (kbind_ret _ _ _ _ _ E), Ea.
    destruct (Z.eqb_spec a NULL); [done|]. cbn [negb].
    by rewrite (kbind_ret _ _ _ _ _ (upd_he_run s a e _ Ee)).
  - assert (Hih : he_hash e mod Z.of_nat (length B) = Z.of_nat i)
      by (cbn; by rewrite Hk).
    assert (Hfa : forall (f : item -> Z), f (Item a (i_kaddr it) (i_key it) v) = f it ->
              f <$> b' = f <$> b).
    { intros f Ef. unfold b'. rewrite Hb12, !fmap_app. cbn. by rewrite Ef. }
    assert (Hfk : i_key <$> b' = i_key <$> b) by (unfold b'; rewrite Hb12, !fmap_app; done).
    apply (table_repr_change s s' t B M i b b' _ n p); [done|done| | | | | |].
    + apply local_insert. right. by exists e.
    + intros n1 arr1 sl1 E1. rewrite Et in E1. injection E1 as <- <- <-.
      cbn. by rewrite (list_insert_id sl i p Ep).
    + destruct Hb as [D1 D2 D3 D4]. split.
      * unfold b'. rewrite Hb12 in D1, D2. by apply dll_set_value.
      * by rewrite (Hfa i_addr).
      * by rewrite Hfk.
      * intros x Hx.
        assert (i_key x ∈ i_key <$> b) as Hx' by (rewrite <- Hfk; by apply list_elem_of_fmap_2).
        apply list_elem_of_fmap in Hx' as (y & -> & Hy). by apply D4.
    + rewrite map_size_insert_Some by (by exists v0). done.
    + intros key' Hk'. destruct (decide (key = key')) as [->|Hne].
      * rewrite lookup_insert_eq. unfold b'. subst a. rewrite assoc_set_value by (by rewrite Hk).
        by rewrite decide_True.
      * rewrite lookup_insert_ne by done. unfold b'. subst a. rewrite assoc_set_value by (by rewrite Hk).
        rewrite decide_False by congruence. rewrite <- Hb12.
        apply (tr_map _ _ _ _ H). rewrite Hk', Nat2Z.id. exact Eb.
    + intros key' Hk'. rewrite lookup_insert_ne; [done|]. intros <-. lia.
  - intros c Hc. apply list_elem_of_lookup in Hc as [j Hc].
    destruct (decide (i = j)) as [<-|Hij].
    + rewrite list_lookup_insert_eq in Hc by (by eapply lookup_lt_Some). injection Hc as <-.
      exists b. split; [by eapply list_elem_of_lookup_2|].
      unfold b'. rewrite Hb12, !length_app. done.
    + rewrite list_lookup_insert_ne in Hc by done. exists c. split; [by eapply list_elem_of_lookup_2|done].
Qed.

(** *** A new entry *)
Lemma dll_push s p b a k key v i cap : bucket_ok s cap i p b ->
  hentries s !! a = None -> hkeys s !! k = None -> a <> NULL ->
  let s0 := set_hentries (<[a := HashEntry p NULL (fnv1ahash key) (Z.of_nat (length key)) k v]>
              (hentries s)) (set_hkeys (<[k := key]> (hkeys s)) s) in
  exists s1, kwhen (negb (p =? NULL)) (upd_he p (set_he_prev a)) s0 = Ret tt s1 /\
    dll s1 NULL a (Item a k key v :: b) /\ hkeys s1 = hkeys s0 /\ tables s1 = tables s /\
    hmem s1 = hmem s /\ hash_entry_cache s1 = hash_entry_cache s /\ local s s1 cap i.
Proof.
  intros [D1 D2 D3 D4] Ea Ek Hn s0.
  assert (Hne : forall it, it ∈ b -> i_addr it <> a /\ i_kaddr it <> k).
  { intros it Hit. destruct (dll_entry _ _ _ _ it D1 Hit) as (_ & E1 & nx & pv & E2).
    split; intros E; subst; congruence. }
  assert (L0 : local s s0 cap i).
  { split; cbn.
    - intros x ex Ex _. rewrite lookup_insert_ne; [done|]. intros <-. congruence.
    - intros x kx Ex _. rewrite lookup_insert_ne; [done|]. intros <-. congruence. }
  assert (D0 : dll s0 NULL p b).
  { eapply dll_ext; [|exact D1]. intros it Hit. destruct (Hne it Hit). cbn.
    by rewrite !lookup_insert_ne by done. }
  destruct b as [|h b].
  - cbn in D1. subst p. exists s0. cbn. split_and!; [done..| |done|done|done|done|done].
    eexists. rewrite !lookup_insert_eq. done.
  - destruct D0 as (-> & Hh & nx & E & Ekh & D0).
    destruct (Z.eqb_spec (i_addr h) NULL); [done|]. cbn [negb kwhen].
    rewrite (upd_he_run s0 _ _ _ E). eexists. split; [reflexivity|].
    split; [|split_and!; try done].
    + cbn. destruct (Hne h (list_elem_of_here _ _)) as [Hha Hhk].
      split_and!; [done..|]. exists (i_addr h). rewrite lookup_insert_ne by done.
      rewrite !lookup_insert_eq. split_and!; [done..|]. exists nx.
      split_and!; [done| |].
      * exact Ekh.
      * eapply dll_ext; [|exact D0]. intros it Hit. cbn. rewrite lookup_insert_ne; [done|].
        cbn in D2. apply NoDup_cons in D2 as [Hnin _]. intros Eh. apply Hnin. rewrite Eh.
        by apply list_elem_of_fmap_2.
    + split; cbn.
      * intros x ex Ex Hx. rewrite lookup_insert_ne.
        -- by apply (lo_entries _ _ _ _ L0).
        -- intros <-. cbn in E. rewrite lookup_insert_ne in E by (by intros Eh; apply (proj1 (Hne h (list_elem_of_here _ _)))).
           rewrite Ex in E. injection E as ->. apply Hx. cbn. apply D4. set_solver.
      * apply (lo_keys _ _ _ _ L0).
Qed.

Lemma wrap_add_1 w x : 0 <= w -> wrap w (wrap w x + 1) = wrap w (x + 1).
Proof. intros. unfold wrap. by rewrite Zplus_mod_idemp_l. Qed.

Lemma hashtable_set_insert fuel s t B M key v a k m1 m2 :
  table_repr s t B M -> (forall b, b ∈ B -> (length b < fuel)%nat) -> M !! key = None ->
  km_cache_alloc (hash_entry_cache s) (hmem s) = Ret a m1 ->
  km_malloc (Z.of_nat (length key)) m1 = Ret k m2 ->
  a <> NULL -> k <> NULL -> hentries s !! a = None -> hkeys s !! k = None ->
  exists s' B', hashtable_set fuel t v key s = Ret 0 s' /\ table_repr s' t B' (<[key := v]> M) /\
    hmem s' = m2 /\ (forall b', b' ∈ B' -> exists b, b ∈ B /\ (length b' <= length b + 1)%nat).
Proof.
  intros H Hf HM0 Ea Ek Ha0 Hk0 Hae Hkk. destruct (get_entry_run fuel s t B M key H Hf) as (b & Eb & E).
  destruct (bucket_of s t B M key H)
    as (n & arr & sl & p & b' & Et & Harr & Hl & Hn & Hi & Ep & Eb' & Hb & HM). cbv zeta in *.
  rewrite Eb in Eb'. injection Eb' as <-. set (i := Z.to_nat _) in *.
  pose proof (entry_of_assoc s NULL p b key (bk_dll _ _ _ _ _ Hb)) as Ha'.
  rewrite <- HM, HM0 in Ha'. pose proof (tr_cap _ _ _ _ H) as Hcap.
  set (s0 := set_hmem m2 s).
  assert (Hb0 : bucket_ok s0 (Z.of_nat (length B)) i p b).
  { destruct Hb as [D1 D2 D3 D4]. split; [|done..]. by eapply dll_ext; [|exact D1]. }
  destruct (dll_push s0 p b a k key v i (Z.of_nat (length B)) Hb0 Hae Hkk Ha0)
    as (s1 & E1 & D1 & K1 & T1 & Mm1 & C1 & L1). cbv zeta in E1.
  set (s2 := set_tables (<[t := HashTable n (Z.of_nat (length B)) arr (<[i := a]> sl)]> (tables s1)) s1).
  set (s3 := set_tables (<[t := HashTable (u64 (n + 1)) (Z.of_nat (length B)) arr (<[i := a]> sl)]> (tables s2)) s2).
  set (b' := Item a k key v :: b).
  exists s3, (<[i := b']> B). split; [|split; [|split]].
  - unfold hashtable_set. rewrite (kbind_ret _ _ _ _ _ E), Ha'. change (negb (NULL =? NULL)) with false.
    cbv iota. unfold new_entry.
    rewrite (kbind_ret _ _ _ _ _ (table_offset_run s t _ _ _ _ _ Et ltac:(lia))).
    rewrite (kbind_ret _ _ s (hash_entry_cache s) s) by reflexivity.
    rewrite (kbind_ret _ _ _ _ _ (klift_ret hmem set_hmem _ s _ _ Ea)).
    destruct (Z.eqb_spec a NULL); [done|].
    rewrite (kbind_ret _ _ _ _ _ (klift_ret hmem set_hmem _ (set_hmem m1 s) _ _ Ek)).
    change (set_hmem m2 (set_hmem m1 s)) with s0.
    destruct (Z.eqb_spec k NULL); [done|].
    rewrite (kbind_ret _ _ s0 tt (set_hkeys (<[k := key]> (hkeys s0)) s0)) by reflexivity.
    set (s0k := set_hkeys _ s0). rewrite <- Hi.
    rewrite (kbind_ret _ _ s0k p s0k).
    2:{ unfold get_slot. rewrite (kbind_ret _ _ _ _ _ (get_table_run s0k t _ Et)). cbn [entries slots].
        destruct (Z.eqb_spec arr NULL); [done|]. unfold kderef. by rewrite Nat2Z.id, Ep. }
    rewrite (kbind_ret _ _ s0k tt (set_hentries (<[a := HashEntry p NULL (fnv1ahash key)
              (Z.of_nat (length key)) k v]> (hentries s0k)) s0k)) by reflexivity.
    rewrite (kbind_ret _ _ _ _ _ E1).
    assert (Et1 : tables s1 !! t = Some (HashTable n (Z.of_nat (length B)) arr sl)) by (rewrite T1; exact Et).
    rewrite (kbind_ret _ _ _ _ _ (put_slot_run s1 t _ a _ _ _ _ Et1 Harr)). rewrite Nat2Z.id. fold s2.
    assert (Et2 : tables s2 !! t = Some (HashTable n (Z.of_nat (length B)) arr (<[i := a]> sl)))
      by apply lookup_insert_eq.
    by rewrite (kbind_ret _ _ _ _ _ (put_count_run s2 t _ _ _ _ _ Et2)).
  - apply (table_repr_change s s3 t B M i b b' _ (u64 (n + 1)) a); [done|done| | | | | |].
    + destruct L1 as [L1 L2]. by split.
    + intros n1 arr1 sl1 E'. rewrite Et in E'. injection E' as <- <- <-. apply lookup_insert_eq.
    + destruct Hb as [_ D2 D3 D4]. split.
      * eapply dll_ext; [|exact D1]. done.
      * cbn. apply NoDup_cons. split; [|done]. intros (x & Ex & Hx)%list_elem_of_fmap.
        destruct (dll_entry _ _ _ _ x (bk_dll _ _ _ _ _ Hb0) Hx) as (_ & _ & nx & pv & E2).
        rewrite <- Ex in E2. cbn in E2. congruence.
      * cbn. apply NoDup_cons. split; [|done]. by apply assoc_none; rewrite <- HM.
      * intros x [->|Hx]%elem_of_cons; [exact (eq_sym Hi)|by apply D4].
    + rewrite Hn, (wrap_add_1 64) by lia. rewrite map_size_insert_None by done. f_equal. lia.
    + intros key' Hk'. cbn. destruct (decide (key = key')) as [->|Hne]; [by rewrite lookup_insert_eq|].
      rewrite lookup_insert_ne by done. apply (tr_map _ _ _ _ H). rewrite Hk', Nat2Z.id. exact Eb.
    + intros key' Hk'. rewrite lookup_insert_ne; [done|]. intros <-. lia.
  - cbn. by rewrite Mm1.
  - intros c Hc. apply list_elem_of_lookup in Hc as [j Hc].
    destruct (decide (i = j)) as [<-|Hij].
    + rewrite list_lookup_insert_eq in Hc by (by eapply lookup_lt_Some). injection Hc as <-.
      exists b. split; [by eapply list_elem_of_lookup_2|]. cbn. lia.
    + rewrite list_lookup_insert_ne in Hc by done. exists c.
      split; [by eapply list_elem_of_lookup_2|lia].
Qed.

(** *** Removal *)
Lemma dll_mid s it b2 : forall b1 prev p, dll s prev p (b1 ++ it :: b2) ->
  hentries s !! i_addr it = Some (HashEntry (default NULL (head (i_addr <$> b2)))
    (default prev (last (i_addr <$> b1))) (fnv1ahash (i_key it)) (Z.of_nat (length (i_key it)))
    (i_kaddr it) (i_val it)).
Proof.
  induction b1 as [|x b1 IH]; intros prev p H.
  - destruct H as (-> & Hp & nx & E & Ek & H). rewrite E. f_equal. cbn. f_equal.
    destruct b2 as [|y b2]; [exact H|]. by destruct H as (-> & _).
  - destruct H as (-> & Hp & nx & E & Ek & H). rewrite (IH _ _ H). f_equal. f_equal.
    change (i_addr <$> x :: b1) with (i_addr x :: (i_addr <$> b1)). rewrite last_cons.
    by destruct (last (i_addr <$> b1)).
Qed.

(** The effect of [unlink_entry], pointwise. *)
Lemma unlink_entry_run s t i n cap arr sl b1 it b2 :
  tables s !! t = Some (HashTable n cap arr sl) -> arr <> NULL ->
  dll s NULL (match b1 with [] => i_addr it | x :: _ => i_addr x end) (b1 ++ it :: b2) ->
  NoDup (i_addr <$> b1 ++ it :: b2) ->
  let pv := default NULL (last (i_addr <$> b1)) in
  let nx := default NULL (head (i_addr <$> b2)) in
  exists s1, unlink_entry t i (i_addr it) s = Ret tt s1 /\
    hkeys s1 = hkeys s /\ hmem s1 = hmem s /\ hash_entry_cache s1 = hash_entry_cache s /\
    tables s1 = (match b1 with
                 | [] => <[t := HashTable n cap arr (<[Z.to_nat i := nx]> sl)]> (tables s)
                 | _ => tables s end) /\
    (forall a, (pv <> NULL -> a <> pv) -> (nx <> NULL -> a <> nx) -> hentries s1 !! a = hentries s !! a) /\
    (pv <> NULL -> hentries s1 !! pv = set_he_next nx <$> hentries s !! pv) /\
    (nx <> NULL -> hentries s1 !! nx = set_he_prev pv <$> hentries s !! nx).
Proof.
  intros Et Ha H Hnd pv nx. pose proof (dll_mid s it b2 b1 NULL _ H) as E. fold pv nx in E.
  set (e := HashEntry _ _ _ _ _ _) in E.
  assert (Hp : pv <> NULL -> exists x, x ∈ b1 /\ i_addr x = pv).
  { unfold pv. destruct (last (i_addr <$> b1)) as [l|] eqn:El; [|done]. intros _. cbn.
    apply last_Some in El as [l' El]. assert (l ∈ i_addr <$> b1) as Hl by (rewrite El; set_solver).
    apply list_elem_of_fmap in Hl as (x & -> & Hx). by exists x. }
  assert (Hn : nx <> NULL -> exists x, x ∈ b2 /\ i_addr x = nx).
  { unfold nx. destruct b2 as [|y b2]; cbn; [done|]. intros _. exists y. split; [set_solver|done]. }
  assert (Hpn : pv <> NULL -> nx <> pv).
  { intros H1 En. destruct (Hp H1) as (x & Hx & Ex).
    destruct Hn as (y & Hy & Ey); [congruence|].
    rewrite fmap_app in Hnd. apply NoDup_app in Hnd as (_ & Hd & _).
    apply (Hd (i_addr x)); [by apply list_elem_of_fmap_2|]. cbn. apply list_elem_of_further.
    rewrite Ex, <- En, <- Ey. by apply list_elem_of_fmap_2. }
  assert (Hsome : forall x, x ∈ b1 ++ it :: b2 -> is_Some (hentries s !! i_addr x)).
  { intros x Hx. destruct (dll_entry _ _ _ _ x H Hx) as (_ & _ & ? & ? & ->). by eexists. }
  assert (Hb1 : pv = NULL <-> b1 = []).
  { split; [|by intros ->]. intros Epv. unfold pv in Epv.
    destruct (last (i_addr <$> b1)) as [l|] eqn:El.
    - cbn in Epv. subst l. apply last_Some in El as [l' El].
      assert (NULL ∈ i_addr <$> b1) as Hl by (rewrite El; set_solver).
      apply list_elem_of_fmap in Hl as (y & Ey & Hy).
      destruct (dll_entry _ _ _ _ y H) as [Hy0 _]; [set_solver|]. by destruct Hy0.
    - apply last_None in El. by destruct b1. }
  unfold unlink_entry. rewrite (kbind_ret _ _ _ _ _ (get_he_run _ _ _ E)). cbn [he_prev he_next e].
  assert (exists sa, (if negb (pv =? NULL) then upd_he pv (set_he_next nx) else put_slot t i nx) s = Ret tt sa /\
    hkeys sa = hkeys s /\ hmem sa = hmem s /\ hash_entry_cache sa = hash_entry_cache s /\
    tables sa = (match b1 with
                 | [] => <[t := HashTable n cap arr (<[Z.to_nat i := nx]> sl)]> (tables s)
                 | _ => tables s end) /\
    (forall a, (pv <> NULL -> a <> pv) -> hentries sa !! a = hentries s !! a) /\
    (pv <> NULL -> hentries sa !! pv = set_he_next nx <$> hentries s !! pv))
    as (sa & Ea & K1 & M1 & C1 & T1 & O1 & P1).
  { destruct (Z.eqb_spec pv NULL) as [Epv|Hne]; cbn [negb].
    - rewrite (put_slot_run s t i nx _ _ _ _ Et Ha). eexists. split; [reflexivity|].
      cbn. rewrite (proj1 Hb1 Epv). by split_and!.
    - destruct (Hp Hne) as (x & Hx & Ex). destruct (Hsome x) as [ex Eex]; [set_solver|].
      rewrite Ex in Eex. rewrite (upd_he_run s pv ex _ Eex). eexists. split; [reflexivity|]. cbn.
      destruct b1 as [|z b1]; [by apply elem_of_nil in Hx|]. split_and!; [done..| |].
      + intros a Hapv. apply lookup_insert_ne. intros E0. by apply (Hapv Hne).
      + intros _. by rewrite lookup_insert_eq, Eex. }
  rewrite (kbind_ret _ _ _ _ _ Ea).
  destruct (Z.eqb_spec nx NULL) as [Enx|Hne]; cbn [negb kwhen].
  - exists sa. split_and!; [done..| | |done].
    + intros a H1 H2. by apply O1.
    + exact P1.
  - destruct (Hn Hne) as (x & Hx & Ex). destruct (Hsome x) as [ex Eex]; [set_solver|].
    rewrite Ex in Eex.
    assert (Eexa : hentries sa !! nx = Some ex).
    { rewrite O1; [done|]. intros Hpv. by apply Hpn. }
    rewrite (upd_he_run sa nx ex _ Eexa). eexists. split; [reflexivity|]. cbn.
    split_and!; [done..| | |].
    + intros a H1 H2. rewrite lookup_insert_ne by (intros E0; by apply (H2 Hne)). by apply O1.
    + intros Hpv. rewrite lookup_insert_ne by (by apply Hpn). by apply P1.
    + intros _. by rewrite lookup_insert_eq, Eex.
Qed.

Lemma assoc_remove key b1 it b2 : NoDup (i_key <$> b1 ++ it :: b2) ->
  assoc key (b1 ++ b2) = if decide (i_key it = key) then None else assoc key (b1 ++ it :: b2).
Proof.
  induction b1 as [|x b1 IH]; cbn; intros Hnd; apply NoDup_cons in Hnd as [Hn Hnd].
  - destruct (decide (i_key it = key)) as [<-|]; [|done]. by apply assoc_none.
  - rewrite IH by done. destruct (decide (i_key x = key)) as [<-|]; [|done].
    rewrite decide_False; [done|]. intros Ek. apply Hn. rewrite <- Ek, fmap_app. cbn. set_solver.
Qed.

(** Entries of a bucket have different key buffers. *)
Lemma dll_kaddr s p b1 it b2 x : dll s NULL p (b1 ++ it :: b2) ->
  NoDup (i_key <$> b1 ++ it :: b2) -> x ∈ b1 ++ b2 -> i_kaddr x <> i_kaddr it.
Proof.
  intros H Hnd Hx Ek.
  destruct (dll_entry _ _ _ _ x H) as (_ & E1 & _); [set_solver|].
  destruct (dll_entry _ _ _ _ it H) as (_ & E2 & _); [set_solver|].
  rewrite Ek, E2 in E1. injection E1 as E1.
  rewrite fmap_app in Hnd. apply NoDup_app in Hnd as (_ & Hd & [Hn _]%NoDup_cons).
  apply elem_of_app in Hx as [Hx|Hx]; apply (list_elem_of_fmap_2 i_key) in Hx; rewrite <- E1 in Hx.
  - apply (Hd _ Hx). cbn. set_solver.
  - by apply Hn.
Qed.

Lemma in_bucket_ne b1 it b2 x : NoDup (i_addr <$> b1 ++ it :: b2) -> x ∈ b1 ++ b2 -> i_addr x <> i_addr it.
Proof.
  rewrite fmap_app. intros (_ & Hd & [Hn _]%NoDup_cons)%NoDup_app Hx Ea.
  apply elem_of_app in Hx as [Hx|Hx]; apply (list_elem_of_fmap_2 i_addr) in Hx; rewrite Ea in Hx.
  - apply (Hd _ Hx). cbn. set_solver.
  - by apply Hn.
Qed.

Lemma free_entry_run s a e m1 m2 : hentries s !! a = Some e ->
  km_free (he_key e) (hmem s) = Ret tt m1 -> km_cache_free (hash_entry_cache s) a m1 = Ret tt m2 ->
  free_entry a s = Ret tt (HState (tables s) (delete a (hentries s)) (delete (he_key e) (hkeys s))
                             (hash_entry_cache s) m2).
Proof.
  intros E E1 E2. unfold free_entry. rewrite (kbind_ret _ _ _ _ _ (get_he_run _ _ _ E)).
  rewrite (kbind_ret _ _ _ _ _ (klift_ret hmem set_hmem _ s _ _ E1)).
  set (s1 := set_hmem m1 s).
  rewrite (kbind_ret _ _ s1 tt (set_hkeys (delete (he_key e) (hkeys s1)) s1)) by reflexivity.
  set (s2 := set_hkeys _ s1).
  rewrite (kbind_ret _ _ s2 (hash_entry_cache s2) s2) by reflexivity.
  by rewrite (kbind_ret _ _ _ _ _ (klift_ret hmem set_hmem _ s2 _ _ E2)).
Qed.

(** A bucket's entries live at their addresses, with hashes of the bucket. *)
Lemma bucket_entry s cap i p b x e : bucket_ok s cap i p b -> x ∈ b ->
  hentries s !! i_addr x = Some e -> he_hash e mod cap = Z.of_nat i.
Proof.
  intros [D1 _ _ D4] Hx E. destruct (dll_entry _ _ _ _ x D1 Hx) as (_ & _ & nx & pv & E').
  rewrite E in E'. injection E' as ->. by apply D4.
Qed.

Lemma default_in {X} (f : item -> X) (d : X) (o : option item) : default d (f <$> o) <> d ->
  exists x, o = Some x /\ f x = default d (f <$> o).
Proof. destruct o as [x|]; cbn; [by exists x|done]. Qed.

(** Taking an entry out of its bucket and giving it back leaves the bucket
    of the others. *)
Lemma unlink_free_bucket s t i n cap arr sl p b1 it b2 m1 m2 :
  tables s !! t = Some (HashTable n cap arr sl) -> arr <> NULL ->
  bucket_ok s cap i p (b1 ++ it :: b2) -> sl !! i = Some p ->
  km_free (i_kaddr it) (hmem s) = Ret tt m1 ->
  km_cache_free (hash_entry_cache s) (i_addr it) m1 = Ret tt m2 ->
  exists s2 p', (unlink_entry t (Z.of_nat i) (i_addr it);; free_entry (i_addr it)) s = Ret tt s2 /\
    local s s2 cap i /\ tables s2 !! t = Some (HashTable n cap arr (<[i := p']> sl)) /\
    bucket_ok s2 cap i p' (b1 ++ b2) /\ hmem s2 = m2.
Proof.
  intros Et Ha Hb Ep E1 E2. pose proof Hb as [D1 D2 D3 D4].
  set (pv := default NULL (last (i_addr <$> b1))). set (nx := default NULL (head (i_addr <$> b2))).
  assert (Hh : p = match b1 with [] => i_addr it | x :: _ => i_addr x end)
    by (destruct b1; by destruct D1 as (-> & _)).
  destruct (unlink_entry_run s t (Z.of_nat i) n cap arr sl b1 it b2 Et Ha ltac:(rewrite <- Hh; exact D1) D2)
    as (s1 & R1 & K1 & Mm1 & C1 & T1 & O1 & P1 & N1). fold pv nx in T1, O1, P1, N1.
  assert (Hpv : pv <> NULL -> exists x, x ∈ b1 /\ i_addr x = pv).
  { unfold pv. rewrite fmap_last. intros (x & Ex & <-)%default_in. exists x. split; [|done].
    apply last_Some in Ex as [l ->]. set_solver. }
  assert (Hnx : nx <> NULL -> exists x, x ∈ b2 /\ i_addr x = nx).
  { unfold nx. destruct b2 as [|y b2]; cbn; [done|]. intros _. exists y. split; [set_solver|done]. }
  assert (Hane : forall x, x ∈ b1 ++ b2 -> i_addr x <> i_addr it) by (intros x; by apply in_bucket_ne).
  assert (Hnull : forall x, x ∈ b1 ++ it :: b2 -> i_addr x <> NULL)
    by (intros x Hx; by destruct (dll_entry _ _ _ _ x D1 Hx)).
  assert (Apv : i_addr it <> pv).
  { intros Ea. destruct Hpv as (x & Hx & Ex); [rewrite <- Ea; apply Hnull; set_solver|].
    apply (Hane x); [set_solver|congruence]. }
  assert (Anx : i_addr it <> nx).
  { intros Ea. destruct Hnx as (x & Hx & Ex); [rewrite <- Ea; apply Hnull; set_solver|].
    apply (Hane x); [set_solver|congruence]. }
  pose proof (dll_mid s it b2 b1 NULL _ D1) as Eit.
  assert (Eit1 : hentries s1 !! i_addr it = hentries s !! i_addr it) by (by apply O1).
  rewrite <- Eit1 in Eit.
  pose proof (free_entry_run s1 _ _ m1 m2 Eit ltac:(rewrite Mm1; exact E1) ltac:(rewrite C1; exact E2)) as R2.
  cbn [he_key] in R2. set (s2 := HState _ _ _ _ _) in R2.
  exists s2, (match b1 with [] => nx | _ => p end).
  split; [by rewrite (kbind_ret _ _ _ _ _ R1)|].
  assert (O2 : forall a, a <> i_addr it -> hentries s2 !! a = hentries s1 !! a)
    by (intros a Hai; cbn; by rewrite lookup_delete_ne by done).
  split; [split|split; [|split; [split|done]]].
  - intros a e Ee Hne.
    assert (Hout : forall x, x ∈ b1 ++ it :: b2 -> a <> i_addr x)
      by (intros x Hx ->; apply Hne; by eapply bucket_entry).
    rewrite O2 by (apply Hout; set_solver). rewrite O1; [done| |].
    + intros Hp0 Eap. destruct (Hpv Hp0) as (x & Hx & Ex). apply (Hout x); [set_solver|congruence].
    + intros Hn0 Ean. destruct (Hnx Hn0) as (x & Hx & Ex). apply (Hout x); [set_solver|congruence].
  - intros k kb Ekb Hne. cbn. rewrite K1, lookup_delete_ne; [done|]. intros <-.
    destruct (dll_entry _ _ _ _ it D1) as (_ & Ek & _); [set_solver|].
    rewrite Ekb in Ek. injection Ek as ->. apply Hne, D4. set_solver.
  - cbn. rewrite T1. destruct b1 as [|x b1].
    + by rewrite lookup_insert_eq, Nat2Z.id.
    + by rewrite Et, (list_insert_id sl i p Ep).
  - apply (dll_remove s s2 it b2 b1 NULL p); fold pv nx; [done| |done| | | |].
    + intros x Hx. apply Hnull. set_solver.
    + intros x Hx H1 H2. rewrite O2 by (by apply Hane). by apply O1.
    + intros x Hx Ex. rewrite O2 by (apply Hane; set_solver). rewrite Ex. apply P1.
      rewrite <- Ex. apply Hnull. set_solver.
    + intros x Hx Ex. rewrite O2 by (apply Hane; set_solver). rewrite Ex. apply N1.
      rewrite <- Ex. apply Hnull. set_solver.
    + intros x Hx. cbn. rewrite K1. apply lookup_delete_ne. intros Ek.
      by apply (dll_kaddr s _ b1 it b2 x D1).
  - rewrite fmap_app in *. cbn in D2. by apply NoDup_app in D2 as (N & Hd & [_ N2]%NoDup_cons);
      apply NoDup_app; split_and!; [done| |done]; intros y Hy Hy2; apply (Hd y Hy); set_solver.
  - rewrite fmap_app in *. cbn in D3. by apply NoDup_app in D3 as (N & Hd & [_ N2]%NoDup_cons);
      apply NoDup_app; split_and!; [done| |done]; intros y Hy Hy2; apply (Hd y Hy); set_solver.
  - intros x Hx. apply D4. set_solver.
Qed.

Lemma wrap_sub_1 w x : 0 <= w -> wrap w (wrap w x - 1) = wrap w (x - 1).
Proof. intros. unfold wrap. by rewrite Zminus_mod_idemp_l. Qed.

(** [hashtable_remove] on a key that is in the table. *)
Lemma hashtable_remove_present fuel s t B M key v a e m1 m2 :
  table_repr s t B M -> (forall b, b ∈ B -> (length b < fuel)%nat) -> M !! key = Some v ->
  get_entry fuel t key (fnv1ahash key) s = Ret a s -> hentries s !! a = Some e ->
  km_free (he_key e) (hmem s) = Ret tt m1 -> km_cache_free (hash_entry_cache s) a m1 = Ret tt m2 ->
  exists s' B', hashtable_remove fuel t key s = Ret 0 s' /\ table_repr s' t B' (delete key M) /\
    hmem s' = m2 /\ (forall b', b' ∈ B' -> exists b, b ∈ B /\ (length b' <= length b)%nat).
Proof.
  intros H Hf HM0 E Ee E1 E2. destruct (get_entry_run fuel s t B M key H Hf) as (b & Eb & E').
  rewrite E in E'. injection E' as Ha'.
  destruct (bucket_of s t B M key H)
    as (n & arr & sl & p & b' & Et & Harr & Hl & Hn & Hi & Ep & Eb' & Hb & HM). cbv zeta in *.
  rewrite Eb in Eb'. injection Eb' as <-. set (i := Z.to_nat _) in *.
  pose proof (entry_of_assoc s NULL p b key (bk_dll _ _ _ _ _ Hb)) as Hit.
  rewrite <- HM, HM0 in Hit. destruct Hit as (b1 & it & b2 & -> & Hk & Hv & Ea & Hnn & _).
  rewrite Ea in Ha'. rewrite Ha' in *. clear Ha' Ea.
  destruct (dll_entry _ _ _ _ it (bk_dll _ _ _ _ _ Hb)) as (_ & _ & nx & pv & Eit); [set_solver|].
  rewrite Ee in Eit. injection Eit as ->. cbn [he_key] in E1.
  destruct (unlink_free_bucket s t i n _ arr sl p b1 it b2 m1 m2 Et Harr Hb Ep E1 E2)
    as (s2 & p' & R & L & Et2 & Hb2 & Em).
  set (s3 := set_tables (<[t := HashTable (u64 (n - 1)) (Z.of_nat (length B)) arr (<[i := p']> sl)]>
               (tables s2)) s2).
  exists s3, (<[i := b1 ++ b2]> B). split; [|split; [|split]].
  - unfold hashtable_remove.
    pose proof (tr_cap _ _ _ _ H) as Hcap.
    rewrite (kbind_ret _ _ _ _ _ (table_offset_run s t _ _ _ _ _ Et ltac:(lia))).
    rewrite (kbind_ret _ _ _ _ _ E). destruct (Z.eqb_spec (i_addr it) NULL); [done|].
    rewrite <- Hi. destruct (kbind_inv _ _ _ _ _ R) as ([] & s1 & R1 & R2).
    rewrite (kbind_ret _ _ _ _ _ R1), (kbind_ret _ _ _ _ _ R2).
    by rewrite (kbind_ret _ _ _ _ _ (put_count_run s2 t _ _ _ _ _ Et2)).
  - apply (table_repr_change s s3 t B M i (b1 ++ it :: b2) _ _ (u64 (n - 1)) p'); [done|done| | | | | |].
    + destruct L as [L1 L2]. by split.
    + intros n1 arr1 sl1 Et'. rewrite Et in Et'. injection Et' as <- <- <-. apply lookup_insert_eq.
    + destruct Hb2 as [D1 D2 D3 D4]. split; [|done..]. eapply dll_ext; [|exact D1]. done.
    + rewrite Hn, (wrap_sub_1 64) by lia. rewrite map_size_delete_Some by (by exists v).
      assert (size M <> 0%nat).
      { intros E0. apply map_size_empty_inv in E0. subst M. by rewrite lookup_empty in HM0. }
      f_equal. lia.
    + intros key' Hk'. rewrite (assoc_remove _ _ it) by apply Hb. rewrite Hk.
      destruct (decide (key = key')) as [<-|Hne]; [by rewrite lookup_delete_eq|].
      rewrite lookup_delete_ne by done. apply (tr_map _ _ _ _ H). rewrite Hk', Nat2Z.id. exact Eb.
    + intros key' Hk'. apply lookup_delete_ne. intros <-. lia.
  - cbn. done.
  - intros c Hc. apply list_elem_of_lookup in Hc as [j Hc].
    destruct (decide (i = j)) as [<-|Hij].
    + rewrite list_lookup_insert_eq in Hc by (by eapply lookup_lt_Some). injection Hc as <-.
      exists (b1 ++ it :: b2). split; [by eapply list_elem_of_lookup_2|].
      rewrite !length_app. cbn. lia.
    + rewrite list_lookup_insert_ne in Hc by done. exists c.
      split; [by eapply list_elem_of_lookup_2|lia].
Qed.

(** A key that is not in the table is not removed. *)
Lemma hashtable_remove_absent fuel s t B M key :
  table_repr s t B M -> (forall b, b ∈ B -> (length b < fuel)%nat) -> M !! key = None ->
  hashtable_remove fuel t key s = Ret (-1) s.
Proof.
  intros H Hf HM0. destruct (get_entry_run fuel s t B M key H Hf) as (b & Eb & E).
  destruct (bucket_of s t B M key H)
    as (n & arr & sl & p & b' & Et & Harr & Hl & Hn & Hi & Ep & Eb' & Hb & HM). cbv zeta in *.
  rewrite Eb in Eb'. injection Eb' as <-. pose proof (tr_cap _ _ _ _ H) as Hcap.
  pose proof (entry_of_assoc s NULL p b key (bk_dll _ _ _ _ _ Hb)) as Hit.
  rewrite <- HM, HM0 in Hit. unfold hashtable_remove.
  rewrite (kbind_ret _ _ _ _ _ (table_offset_run s t _ _ _ _ _ Et ltac:(lia))).
  by rewrite (kbind_ret _ _ _ _ _ E), Hit.
Qed.

(** A new entry that cannot be allocated: -1, and what was allocated is
    given back. *)
Lemma hashtable_set_nomem fuel s t B M key v m' :
  table_repr s t B M -> (forall b, b ∈ B -> (length b < fuel)%nat) -> M !! key = None ->
  (km_cache_alloc (hash_entry_cache s) (hmem s) = Ret NULL m' \/
   exists a m1 m2, km_cache_alloc (hash_entry_cache s) (hmem s) = Ret a m1 /\ a <> NULL /\
     km_malloc (Z.of_nat (length key)) m1 = Ret NULL m2 /\
     km_cache_free (hash_entry_cache s) a m2 = Ret tt m') ->
  hashtable_set fuel t v key s = Ret (-1) (set_hmem m' s).
Proof.
  intros H Hf HM0 Hno. destruct (get_entry_run fuel s t B M key H Hf) as (b & Eb & E).
  destruct (bucket_of s t B M key H)
    as (n & arr & sl & p & b' & Et & Harr & Hl & Hn & Hi & Ep & Eb' & Hb & HM). cbv zeta in *.
  rewrite Eb in Eb'. injection Eb' as <-. pose proof (tr_cap _ _ _ _ H) as Hcap.
  pose proof (entry_of_assoc s NULL p b key (bk_dll _ _ _ _ _ Hb)) as Hit.
  rewrite <- HM, HM0 in Hit. unfold hashtable_set. rewrite (kbind_ret _ _ _ _ _ E), Hit.
  change (negb (NULL =? NULL)) with false. cbv iota. unfold new_entry.
  rewrite (kbind_ret _ _ _ _ _ (table_offset_run s t _ _ _ _ _ Et ltac:(lia))).
  rewrite (kbind_ret _ _ s (hash_entry_cache s) s) by reflexivity.
  destruct Hno as [Ea|(a & m1 & m2 & Ea & Hne & Ek & Ef)];
    rewrite (kbind_ret _ _ _ _ _ (klift_ret hmem set_hmem _ s _ _ Ea)); [done|].
  destruct (Z.eqb_spec a NULL); [done|].
  rewrite (kbind_ret _ _ _ _ _ (klift_ret hmem set_hmem _ (set_hmem m1 s) _ _ Ek)).
  change (NULL =? NULL) with true. cbv iota.
  by rewrite (kbind_ret _ _ _ _ _ (klift_ret hmem set_hmem _ (set_hmem m2 (set_hmem m1 s)) _ _ Ef)).
Qed.

Lemma table_repr_hmem s t B M m : table_repr s t B M -> table_repr (set_hmem m s) t B M.
Proof.
  intros [Hc (n & arr & sl & Et & Ha & Hl & Hn & Hb) HM]. split; [done| |done].
  exists n, arr, sl. split_and!; [done..|]. intros i p b Ep Eb.
  destruct (Hb i p b Ep Eb) as [D1 D2 D3 D4]. split; [|done..]. by eapply dll_ext; [|exact D1].
Qed.

(** A fresh table is empty. *)
Lemma hashtable_init_run s t size arr m1 :
  hash_entry_cache s <> NULL -> 0 < size < 2 ^ 61 ->
  km_malloc (size * 8) (hmem s) = Ret arr m1 -> arr <> NULL ->
  exists s', hashtable_init t size s = Ret 0 s' /\
    table_repr s' t (replicate (Z.to_nat size) []) ∅ /\ hmem s' = m1 /\
    hash_entry_cache s' = hash_entry_cache s /\ hentries s' = hentries s /\ hkeys s' = hkeys s.
Proof.
  intros Hc Hs E Ha. unfold hashtable_init.
  rewrite (kbind_ret _ _ s (hash_entry_cache s) s) by reflexivity.
  destruct (Z.eqb_spec (hash_entry_cache s) NULL); [done|].
  rewrite (kbind_ret _ _ s true s) by reflexivity. cbn [negb].
  assert (Hw : u64 (size * 8) = size * 8) by (apply wrap_small; lia).
  rewrite Hw, (kbind_ret _ _ _ _ _ (klift_ret hmem set_hmem _ s _ _ E)).
  set (s1 := set_hmem m1 s).
  rewrite (kbind_ret _ _ s1 (tables s1 !! t) s1) by reflexivity.
  destruct (Z.eqb_spec arr NULL); [done|].
  eexists. split; [reflexivity|]. split; [|by split_and!].
  rewrite Z.div_mul by lia. split; rewrite ?length_replicate; [lia| |].
  - exists 0, arr, (replicate (Z.to_nat size) NULL). cbn. rewrite lookup_insert_eq.
    rewrite length_replicate, Z2Nat.id by lia. split_and!; [done..|].
    intros i p b [-> _]%lookup_replicate [-> _]%lookup_replicate.
    split; [done|apply NoDup_nil_2|apply NoDup_nil_2|by intros it []%elem_of_nil].
  - intros key b [-> _]%lookup_replicate. done.
Qed.
End proofs.

(** C21: A hash table implements a finite map from byte strings to values:
    [hashtable_init] makes the empty map, [hashtable_get] is its lookup, and
    [hashtable_set] its insertion, in place when the key is there and with a
    new entry otherwise; when an allocation fails it answers -1 and the map
    is unchanged, with the half made entry given back. *)
Theorem hashtable_refines_map {A} `{!Kmem A} (fuel : nat) (s : hstate A) (t : Z) :
  (forall size arr m1, hash_entry_cache s <> NULL -> 0 < size < 2 ^ 61 ->
     km_malloc (size * 8) (hmem s) = Ret arr m1 -> arr <> NULL ->
     exists s', hashtable_init t size s = Ret 0 s' /\
       table_repr s' t (replicate (Z.to_nat size) []) ∅) /\
  (forall B M, table_repr s t B M -> (forall b, b ∈ B -> (length b < fuel)%nat) ->
     forall key v,
     hashtable_get fuel t key s = Ret (M !! key) s /\
     match M !! key with
     | Some _ => exists s' B', hashtable_set fuel t v key s = Ret 0 s' /\
         table_repr s' t B' (<[key := v]> M)
     | None => forall a m1, km_cache_alloc (hash_entry_cache s) (hmem s) = Ret a m1 ->
         if decide (a = NULL)
         then exists s', hashtable_set fuel t v key s = Ret (-1) s' /\ table_repr s' t B M
         else forall k m2, km_malloc (Z.of_nat (length key)) m1 = Ret k m2 ->
           if decide (k = NULL)
           then forall m3, km_cache_free (hash_entry_cache s) a m2 = Ret tt m3 ->
                exists s', hashtable_set fuel t v key s = Ret (-1) s' /\ table_repr s' t B M /\ hmem s' = m3
           else hentries s !! a = None -> hkeys s !! k = None ->
                exists s' B', hashtable_set fuel t v key s = Ret 0 s' /\
                  table_repr s' t B' (<[key := v]> M)
     end).
Proof.
  split.
  - intros size arr m1 H1 H2 H3 H4. destruct (hashtable_init_run s t size arr m1 H1 H2 H3 H4) as (s' & E & H & _).
    by exists s'.
  - intros B M H Hf key v. split; [by eapply hashtable_get_run|].
    destruct (M !! key) as [v0|] eqn:Em.
    + destruct (hashtable_set_update fuel s t B M key v v0 H Hf Em) as (s' & B' & E & H' & _).
      by exists s', B'.
    + intros a m1 Ea. destruct (decide (a = NULL)) as [->|Ha].
      * exists (set_hmem m1 s). split; [|by apply table_repr_hmem].
        apply (hashtable_set_nomem fuel s t B M); auto.
      * intros k m2 Ek. destruct (decide (k = NULL)) as [->|Hk].
        -- intros m3 E3. exists (set_hmem m3 s). split; [|split; [by apply table_repr_hmem|done]].
           apply (hashtable_set_nomem fuel s t B M); [done..|]. right. by exists a, m1, m2.
        -- intros Hae Hke. destruct (hashtable_set_insert fuel s t B M key v a k m1 m2 H Hf Em Ea Ek Ha Hk Hae Hke)
             as (s' & B' & E & H' & _). by exists s', B'.
Qed.

(** [hashtable_remove] deletes its key from the map, gives the key's
    buffer and the entry back in this order, and returns 0; on a key that is
    not in the table it returns -1 and changes nothing. *)
Theorem hashtable_remove_deletes {A} `{!Kmem A} (fuel : nat) (s : hstate A) (t : Z) B M key :
  table_repr s t B M -> (forall b, b ∈ B -> (length b < fuel)%nat) ->
  match M !! key with
  | None => hashtable_remove fuel t key s = Ret (-1) s
  | Some v => exists a e, get_entry fuel t key (fnv1ahash key) s = Ret a s /\
      hentries s !! a = Some e /\ he_value e = v /\
      forall m1 m2, km_free (he_key e) (hmem s) = Ret tt m1 ->
        km_cache_free (hash_entry_cache s) a m1 = Ret tt m2 ->
        exists s' B', hashtable_remove fuel t key s = Ret 0 s' /\
          table_repr s' t B' (delete key M) /\ hmem s' = m2 /\
          hashtable_get fuel t key s' = Ret None s'
  end.
Proof.
  intros H Hf. destruct (M !! key) as [v|] eqn:Em; [|by eapply hashtable_remove_absent].
  destruct (get_entry_run fuel s t B M key H Hf) as (b & Eb & E).
  destruct (bucket_of s t B M key H) as (n & arr & sl & p & b' & _ & _ & _ & _ & _ & _ & Eb' & Hb & HM).
  rewrite Eb in Eb'. injection Eb' as <-.
  pose proof (entry_of_assoc s NULL p b key (bk_dll _ _ _ _ _ Hb)) as Hit.
  rewrite <- HM, Em in Hit. destruct Hit as (b1 & it & b2 & Hb12 & Hk & Hv & Ea & Hnn & _).
  destruct (dll_entry _ _ _ _ it (bk_dll _ _ _ _ _ Hb)) as (_ & _ & nx & pv & Ee); [rewrite Hb12; set_solver|].
  eexists _, _. rewrite Ea in E. split; [exact E|]. split; [exact Ee|]. split; [done|].
  intros m1 m2 E1 E2.
  destruct (hashtable_remove_present fuel s t B M key v _ _ m1 m2 H Hf Em E Ee E1 E2)
    as (s' & B' & R & H' & Em' & Hl).
  exists s', B'. split; [exact R|]. split; [exact H'|]. split; [exact Em'|].
  rewrite (hashtable_get_run fuel s' t B' (delete key M) key H').
  - by rewrite lookup_delete_eq.
  - intros c Hc. destruct (Hl c Hc) as (c0 & Hc0 & Hle). specialize (Hf c0 Hc0). lia.
Qed.

(** Memory for concrete runs: addresses go up by the size asked for, and
    nothing is reused. *)
Definition bump_Kmem : Kmem Z := {|
  km_malloc size := p ← kget; kput (p + size);; mret p;
  km_free _ := mret tt;
  km_new_space := mret 0;
  km_cache_create size align := p ← kget; kput (p + size);; mret p;
  km_cache_alloc _ := p ← kget; kput (p + 64);; mret p;
  km_cache_free _ _ := mret tt;
|}.

(** A table with one entry in its second bucket. *)
Definition demo_key : list Z := [97; 97].
Definition demo_bucket : Z := fnv1ahash demo_key mod 2.
Definition demo_items : list (list item) := [[]; [Item 512 576 demo_key 7]].
Definition demo_table : hstate Z :=
  HState {[16 := HashTable 1 2 256 [NULL; 512]]}
    {[512 := HashEntry NULL NULL (fnv1ahash demo_key) 2 576 7]} {[576 := demo_key]} 128 1024.

Lemma demo_bucket_1 : fnv1ahash demo_key mod 2 = 1.
Proof. reflexivity. Qed.

Lemma demo_table_repr : @table_repr Z demo_table 16 demo_items {[demo_key := 7]}.
Proof.
  split; [cbn; lia| |].
  - exists 1, 256, [NULL; 512]. split_and!; [reflexivity|done|reflexivity|reflexivity|].
    intros [|[|i]] p b Ep Eb; cbn in Ep, Eb; try discriminate; injection Ep as <-; injection Eb as <-.
    + split; [done|apply NoDup_nil_2|apply NoDup_nil_2|by intros it []%elem_of_nil].
    + split; [|apply NoDup_singleton|apply NoDup_singleton|].
      * cbn. split_and!; [done..|]. exists NULL. by split_and!.
      * intros it ->%list_elem_of_singleton. exact demo_bucket_1.
  - intros key b Eb. change (Z.of_nat (length demo_items)) with 2 in Eb.
    pose proof (Z.mod_pos_bound (fnv1ahash key) 2 ltac:(lia)) as Hm.
    destruct (decide (demo_key = key)) as [<-|Hne].
    + rewrite demo_bucket_1 in Eb. injection Eb as <-. reflexivity.
    + rewrite lookup_singleton_ne by done.
      assert (Ht : Z.to_nat (fnv1ahash key mod 2) = 0%nat \/ Z.to_nat (fnv1ahash key mod 2) = 1%nat) by lia.
      destruct Ht as [Ht|Ht]; rewrite Ht in Eb; injection Eb as <-; cbn; [done|].
      by rewrite decide_False.
Qed.

(** Initialise, insert two colliding keys, overwrite one and read back. *)
Lemma hashtable_refines_map_witness :
  hashtable_get 2 16 demo_key demo_table = Ret (Some 7) demo_table /\
  exists s' B', hashtable_set (Kmem0 := bump_Kmem) 2 16 9 [98] demo_table = Ret 0 s' /\
    @table_repr Z s' 16 B' (<[[98] := 9]> {[demo_key := 7]}).
Proof.
  assert (Hf : forall b, b ∈ demo_items -> (length b < 2)%nat).
  { intros b [->|[->|[]%elem_of_nil]%elem_of_cons]%elem_of_cons; cbn; lia. }
  destruct (hashtable_refines_map (Kmem0 := bump_Kmem) 2 demo_table 16) as [_ H].
  split.
  - apply (proj1 (H demo_items _ demo_table_repr Hf demo_key 0)).
  - pose proof (proj2 (H demo_items _ demo_table_repr Hf [98] 9)) as H'.
    change (({[demo_key := 7]} : gmap (list Z) Z) !! [98]) with (None : option Z) in H'. cbv iota in H'.
    specialize (H' 1024 1088 eq_refl). rewrite decide_False in H' by done.
    specialize (H' 1088 1089 eq_refl). rewrite decide_False in H' by done.
    exact (H' eq_refl eq_refl).
Defined.

Lemma hashtable_remove_deletes_witness :
  exists s' B', hashtable_remove (Kmem0 := bump_Kmem) 2 16 demo_key demo_table = Ret 0 s' /\
    @table_repr Z s' 16 B' (delete demo_key {[demo_key := 7]}).
Proof.
  assert (Hf : forall b, b ∈ demo_items -> (length b < 2)%nat).
  { intros b [->|[->|[]%elem_of_nil]%elem_of_cons]%elem_of_cons; cbn; lia. }
  pose proof (hashtable_remove_deletes (Kmem0 := bump_Kmem) 2 demo_table 16 demo_items _ demo_key
                demo_table_repr Hf) as H.
  change (({[demo_key := 7]} : gmap (list Z) Z) !! demo_key) with (Some 7 : option Z) in H. cbv iota in H.
  destruct H as (a & e & _ & _ & _ & H).
  destruct (H 1024 1024 eq_refl eq_refl) as (s' & B' & R & H' & _). by exists s', B'.
Defined.

(** A table of capacity 0 (which [hashtable_init] makes of size 0) and a
    table without an array (after [hashtable_destroy], or when
    [hashtable_init] found no memory) fault at any lookup, insertion and
    removal: neither is guarded, and [hashtable_destroy] keeps the
    capacity. *)
Theorem hashtable_unusable {A} `{!Kmem A} (fuel : nat) (s : hstate A) (t : Z) :
  (forall n cap arr sl, tables s !! t = Some (HashTable n cap arr sl) -> cap = 0 \/ arr = NULL ->
    forall key v, hashtable_get fuel t key s = Stop Faulted s /\
      hashtable_set fuel t v key s = Stop Faulted s /\ hashtable_remove fuel t key s = Stop Faulted s) /\
  (forall r s', hashtable_destroy fuel t s = Ret r s' ->
    exists cap, tables s' !! t = Some (HashTable 0 cap NULL []) /\
      cap = default 0 (capacity <$> tables s !! t)) /\
  (forall r s', hashtable_init t 0 s = Ret r s' -> hash_entry_cache s <> NULL ->
    exists n arr, tables s' !! t = Some (HashTable n 0 arr [])).
Proof.
  split; [|split].
  - intros n cap arr sl Et H key v.
    assert (Eo : (i ← table_offset t (fnv1ahash key); entry ← get_slot t i; find_entry fuel key (fnv1ahash key) entry) s
                 = Stop Faulted s).
    { destruct (decide (cap = 0)) as [->|Hc].
      - apply kbind_stop. unfold table_offset. by rewrite (kbind_ret _ _ _ _ _ (get_table_run _ _ _ Et)).
      - destruct H as [H| ->]; [done|].
        rewrite (kbind_ret _ _ _ _ _ (table_offset_run s t _ _ _ _ _ Et Hc)). apply kbind_stop.
        unfold get_slot. by rewrite (kbind_ret _ _ _ _ _ (get_table_run _ _ _ Et)). }
    assert (Eg : get_entry fuel t key (fnv1ahash key) s = Stop Faulted s) by exact Eo.
    split_and!.
    + unfold hashtable_get. by rewrite (kbind_stop _ _ _ _ _ Eg).
    + unfold hashtable_set. by rewrite (kbind_stop _ _ _ _ _ Eg).
    + unfold hashtable_remove. destruct (decide (cap = 0)) as [->|Hc].
      * apply kbind_stop. unfold table_offset. by rewrite (kbind_ret _ _ _ _ _ (get_table_run _ _ _ Et)).
      * rewrite (kbind_ret _ _ _ _ _ (table_offset_run s t _ _ _ _ _ Et Hc)).
        by rewrite (kbind_stop _ _ _ _ _ Eg).
  - intros r s' E. unfold hashtable_destroy in E. kinv.
    match goal with H : get_table t s = Ret _ _ |- _ => rename H into Eg end.
    match goal with H : put_table t _ _ = Ret _ _ |- _ => rename H into Ep end.
    injection E as <- <-. unfold get_table in Eg.
    cbv beta iota zeta delta [mbind K_bind mret K_ret kasks kderef] in Eg.
    destruct (tables s !! t) as [tb|]; [|discriminate]. injection Eg as <- <-.
    unfold put_table, kmod in Ep. injection Ep as E3. subst s3. exists (capacity tb). split; [|done].
    apply lookup_insert_eq.
  - intros r s' E Hc. unfold hashtable_init in E.
    rewrite (kbind_ret _ _ s (hash_entry_cache s) s) in E by reflexivity.
    destruct (Z.eqb_spec (hash_entry_cache s) NULL); [done|].
    rewrite (kbind_ret _ _ s true s) in E by reflexivity. cbn [negb] in E.
    apply kbind_inv in E as (arr & s1 & E1 & E).
    rewrite (kbind_ret _ _ s1 (tables s1 !! t) s1) in E by reflexivity.
    destruct (arr =? NULL); cbv beta iota zeta delta [put_table mbind K_bind mret K_ret kmod] in E;
      injection E as <- <-; cbn; eexists _, _; apply lookup_insert_eq.
Qed.

Lemma hashtable_unusable_witness :
  hashtable_get 2 16 [] (HState {[16 := HashTable 0 0 256 []]} ∅ ∅ 128 0)
  = Stop Faulted (HState {[16 := HashTable 0 0 256 []]} ∅ ∅ 128 0).
Proof.
  apply (proj1 (hashtable_unusable (Kmem0 := bump_Kmem) 2
    (HState {[16 := HashTable 0 0 256 []]} ∅ ∅ 128 0) 16) 0 0 256 []); [reflexivity|by left|exact 0].
Defined.
