(* ===== verification/Vnode.v ===== *)
(** * Vnodes (fs/vfs/vnode.c, include/fs/vfs/vnode.h, vfs.h)

    The objects of the file system layer: vnodes and mounted file systems are
    named by their address and held in maps, the hash tables and the dynamic
    memory below them are the state [hstate] of HashTable.v.  No file system
    is implemented in the kernel, so the operation tables behind [v_op] and
    [vfs_op] are a parameter ([fs_ops]).  A pointer to a variable the callee
    may fill is [option Z]: [None] for NULL, else the variable's value, and
    the callee answers the value it leaves there. *)

From S2P Require Import Prelude Errno Bytes StrLib Console Spinlock Assert Kmem SchedState HashTable.
Local Open Scope Z_scope.

(** src/include/fs/vfs/vnode.h:22-25 [VFREEING] *)
Definition VFREEING : Z := 0x08.

(** src/include/fs/vfs/vnode.h:34-44 [vtype_t] *)
Inductive vtype_t := VNON | VREG | VDIR | VBLK | VCHR | VLNK | VSCK | VBAD.

(** [v_un] is the union of two pointers, [v_name] the 256 bytes of the array.
    src/include/fs/vfs/vnode.h:64-83 [vnode_t] *)
Record vnode_t := Vnode {
  v_flag : Z;
  v_count : Z;
  v_shlockc : Z;
  v_exlockc : Z;
  v_op : Z;
  v_un : Z;
  v_parent : Z;
  v_name : list Z;
  v_vfsp : Z;
  v_type : vtype_t;
  v_data : Z;
}.
Definition vn_set_flag v n := Vnode v (v_count n) (v_shlockc n) (v_exlockc n) (v_op n) (v_un n)
  (v_parent n) (v_name n) (v_vfsp n) (v_type n) (v_data n).
Definition vn_set_count v n := Vnode (v_flag n) v (v_shlockc n) (v_exlockc n) (v_op n) (v_un n)
  (v_parent n) (v_name n) (v_vfsp n) (v_type n) (v_data n).
Definition vn_set_parent v n := Vnode (v_flag n) (v_count n) (v_shlockc n) (v_exlockc n) (v_op n)
  (v_un n) v (v_name n) (v_vfsp n) (v_type n) (v_data n).
Definition vn_set_name v n := Vnode (v_flag n) (v_count n) (v_shlockc n) (v_exlockc n) (v_op n)
  (v_un n) (v_parent n) v (v_vfsp n) (v_type n) (v_data n).
Definition vn_set_vfsp v n := Vnode (v_flag n) (v_count n) (v_shlockc n) (v_exlockc n) (v_op n)
  (v_un n) (v_parent n) (v_name n) v (v_type n) (v_data n).
Definition vn_set_data v n := Vnode (v_flag n) (v_count n) (v_shlockc n) (v_exlockc n) (v_op n)
  (v_un n) (v_parent n) (v_name n) (v_vfsp n) (v_type n) v.

(** src/include/fs/vfs/vfs.h:23-24 [NAME_MAX] *)
Definition NAME_MAX : nat := 255.
Definition VFS_MOUNT_PATH_MAX : nat := 256.

(** src/include/fs/vfs/vfs.h:40-49 [vfs_t] *)
Record vfs_t := Vfs {
  vfs_next : Z;
  vfs_op : Z;
  vfs_vnode_covered : Z;
  vfs_flag : Z;
  vfs_bsize : Z;
  vfs_data : Z;
  vfs_mount_path : list Z;
}.

(** The globals of vfs.c and path.c, with the objects, the interrupt flag and
    the memory below.
    src/include/fs/vfs/vfs.h:51-59 [vfs_manager_t] *)
Record vstate (A : Type) := VState {
  vnodes : gmap Z vnode_t;
  filesystems : gmap Z vfs_t;
  vh : hstate A;                  (* the tables and the memory *)
  vnode_table_lock : spinlock;
  mount_table_lock : spinlock;
  namecache_lock : spinlock;
  vfs_cache : Z;
  vnode_cache : Z;
  vintr : bool;
}.
Arguments VState {A}.
Arguments vnodes {A}.
Arguments filesystems {A}.
Arguments vh {A}.
Arguments vnode_table_lock {A}.
Arguments mount_table_lock {A}.
Arguments namecache_lock {A}.
Arguments vfs_cache {A}.
Arguments vnode_cache {A}.
Arguments vintr {A}.

Section setters.
Context {A : Type}.
Implicit Types s : vstate A.
Definition set_vnodes v s : vstate A := VState v (filesystems s) (vh s) (vnode_table_lock s)
  (mount_table_lock s) (namecache_lock s) (vfs_cache s) (vnode_cache s) (vintr s).
Definition set_filesystems v s : vstate A := VState (vnodes s) v (vh s) (vnode_table_lock s)
  (mount_table_lock s) (namecache_lock s) (vfs_cache s) (vnode_cache s) (vintr s).
Definition set_vh v s : vstate A := VState (vnodes s) (filesystems s) v (vnode_table_lock s)
  (mount_table_lock s) (namecache_lock s) (vfs_cache s) (vnode_cache s) (vintr s).
Definition set_vnode_table_lock v s : vstate A := VState (vnodes s) (filesystems s) (vh s) v
  (mount_table_lock s) (namecache_lock s) (vfs_cache s) (vnode_cache s) (vintr s).
Definition set_mount_table_lock v s : vstate A := VState (vnodes s) (filesystems s) (vh s)
  (vnode_table_lock s) v (namecache_lock s) (vfs_cache s) (vnode_cache s) (vintr s).
Definition set_namecache_lock v s : vstate A := VState (vnodes s) (filesystems s) (vh s)
  (vnode_table_lock s) (mount_table_lock s) v (vfs_cache s) (vnode_cache s) (vintr s).
Definition set_caches v w s : vstate A := VState (vnodes s) (filesystems s) (vh s)
  (vnode_table_lock s) (mount_table_lock s) (namecache_lock s) v w (vintr s).
Definition set_vintr v s : vstate A := VState (vnodes s) (filesystems s) (vh s)
  (vnode_table_lock s) (mount_table_lock s) (namecache_lock s) (vfs_cache s) (vnode_cache s) v.

#[export] Instance vstate_Cpu : Cpu (vstate A) := { get_if := vintr; set_if := set_vintr }.
#[export] Instance vstate_CpuOk : CpuOk (vstate A).
Proof. split; by intros; repeat match goal with s : vstate A |- _ => destruct s end. Qed.

Definition vnode_spin : slens (vstate A) := Slens vnode_table_lock set_vnode_table_lock.
Definition mount_spin : slens (vstate A) := Slens mount_table_lock set_mount_table_lock.
Definition namecache_spin : slens (vstate A) := Slens namecache_lock set_namecache_lock.
#[export] Instance vnode_spin_ok : SlensOk vnode_spin.
Proof. split; by intros; destruct s. Qed.
#[export] Instance mount_spin_ok : SlensOk mount_spin.
Proof. split; by intros; destruct s. Qed.
#[export] Instance namecache_spin_ok : SlensOk namecache_spin.
Proof. split; by intros; destruct s. Qed.

#[export] Instance vstate_Console `{!Console A} : Console (vstate A) := {
  put_event e s := set_vh (set_hmem (put_event e (hmem (vh s))) (vh s)) s;
}.
End setters.

(** The operations of file systems that the layer calls: of [vnodeops_t]
    [vn_inactive], of [vfsops_t] [vfs_mount], [vfs_unmount], [vfs_root] and
    [vfs_vget]; [None] is a NULL member. *)
Record vfsops (A : Type) := VfsOps {
  vfs_mount : option (Z -> Z -> list Z -> Z -> K (vstate A) Z);
  vfs_unmount : option (Z -> Z -> K (vstate A) Z);
  vfs_root : option (Z -> Z -> K (vstate A) (Z * Z));
  vfs_vget : option (Z -> Z -> Z -> K (vstate A) (Z * Z));
}.
Arguments VfsOps {A}.
Arguments vfs_mount {A}.
Arguments vfs_unmount {A}.
Arguments vfs_root {A}.
Arguments vfs_vget {A}.

Record fs_ops (A : Type) := FsOps {
  inactive_at : Z -> option (Z -> K (vstate A) Z);  (* v_op->vn_inactive *)
  vfsops_at : Z -> option (vfsops A);               (* *vfs_op *)
}.
Arguments FsOps {A}.
Arguments inactive_at {A}.
Arguments vfsops_at {A}.

(** ** Bytes of keys and names *)

(** The 8 bytes of a 64-bit value in memory, and the value of 8 bytes. *)
Fixpoint le_bytes (n : nat) (v : Z) : list Z :=
  match n with O => [] | Datatypes.S n' => v mod 256 :: le_bytes n' (v / 256) end.
Fixpoint le_value (l : list Z) : Z :=
  match l with [] => 0 | b :: r => b + 256 * le_value r end.

(** A fixed array [old] of [size] bytes after [strlcpy(old, src, size)], with
    [src] the bytes of the string; StrLib.v verifies the loop. *)
Definition strlcpy_array (size : nat) (src old : list Z) : list Z :=
  let c := take (size - 1) src in c ++ [0] ++ drop (length c + 1) old.

(** The bytes of a C string stored in an array. *)
Fixpoint c_string (l : list Z) : list Z :=
  match l with [] => [] | b :: r => if b =? 0 then [] else b :: c_string r end.

(** [name[0] = 0] *)
Definition clear_name (l : list Z) : list Z := <[O := 0]> l.

(** src/fs/vfs/vnode.c:16-21 [create_vnode_key] *)
Definition create_vnode_key (vfsp nodeid : Z) : list Z := le_bytes 8 vfsp ++ le_bytes 8 nodeid.

(** The tables the globals hold, by their name. *)
Definition MOUNT_TABLE : Z := 1.
Definition VNODE_TABLE : Z := 2.
Definition NAMECACHE_TABLE : Z := 3.

Section vnode.
Context {A : Type} `{!Kmem A} `{!Console A} (ops : fs_ops A) (fuel : nat).

Definition on_hash {B} (m : K (hstate A) B) : K (vstate A) B := klift vh set_vh m.
Definition on_vmem {B} (m : K A B) : K (vstate A) B := on_hash (on_hmem m).

Definition get_vnode (p : Z) : K (vstate A) vnode_t :=
  v ← kasks (fun s => vnodes s !! p); kderef v.
Definition put_vnode (p : Z) (v : vnode_t) : K (vstate A) unit :=
  kmod (fun s => set_vnodes (<[p := v]> (vnodes s)) s).
Definition upd_vnode (p : Z) (f : vnode_t -> vnode_t) : K (vstate A) unit :=
  v ← get_vnode p; put_vnode p (f v).
Definition get_vfs (p : Z) : K (vstate A) vfs_t :=
  v ← kasks (fun s => filesystems s !! p); kderef v.
Definition upd_vfs (p : Z) (f : vfs_t -> vfs_t) : K (vstate A) unit :=
  v ← get_vfs p; kmod (fun s => set_filesystems (<[p := f v]> (filesystems s)) s).

(** [assert(expr)] *)
Definition assert (ok : bool) (expr : string) (line : Z) (func : string) : K (vstate A) unit :=
  if ok then mret tt else __assert expr "src/fs/vfs/vnode.c" line (Some func).

(** src/fs/vfs/vnode.c:5-8 [vfs_lock_vnode_table] *)
Definition vfs_lock_vnode_table : K (vstate A) unit := spinlock_acquire vnode_spin.
(** src/fs/vfs/vnode.c:10-13 [vfs_unlock_vnode_table] *)
Definition vfs_unlock_vnode_table : K (vstate A) unit := spinlock_release vnode_spin.

(** src/fs/vfs/vnode.c:23-28 [vnode_cache_insert_locked] *)
Definition vnode_cache_insert_locked (vfsp nodeid vp : Z) : K (vstate A) Z :=
  on_hash (hashtable_set fuel VNODE_TABLE vp (create_vnode_key vfsp nodeid)).

(** The value at [out_vp] is written only when the key is found.
    src/fs/vfs/vnode.c:30-36 [vnode_cache_lookup_locked] *)
Definition vnode_cache_lookup_locked (vfsp nodeid out : Z) : K (vstate A) (Z * Z) :=
  v ← on_hash (hashtable_get fuel VNODE_TABLE (create_vnode_key vfsp nodeid));
  mret (match v with Some vp => (0, vp) | None => (-1, out) end).

(** src/fs/vfs/vnode.c:38-43 [vnode_cache_remove_locked] *)
Definition vnode_cache_remove_locked (vfsp nodeid : Z) : K (vstate A) Z :=
  on_hash (hashtable_remove fuel VNODE_TABLE (create_vnode_key vfsp nodeid)).

(** src/fs/vfs/vnode.c:46-50 [vnode_ref] *)
Definition vnode_ref (vp : Z) : K (vstate A) unit :=
  assert (negb (vp =? NULL)) "vp" 48 "vnode_ref";;
  upd_vnode vp (fun v => vn_set_count (u32 (v_count v + 1)) v).

(** The release of a vnode; [unref] drops the reference to its parent.
    src/fs/vfs/vnode.c:129-147 [vnode_free] *)
Definition vnode_free_with (unref : Z -> K (vstate A) unit) (vp : Z) : K (vstate A) unit :=
  if vp =? NULL then mret tt else
  v ← get_vnode vp;
  kwhen (negb (v_data v =? NULL)) (
    on_vmem (km_free (v_data v));;
    upd_vnode vp (vn_set_data NULL));;
  kwhen (negb (v_parent v =? NULL)) (
    unref (v_parent v);;
    upd_vnode vp (vn_set_parent NULL));;
  cache ← kasks vnode_cache;
  on_vmem (km_cache_free cache vp);;
  kmod (fun s => set_vnodes (delete vp (vnodes s)) s).

(** [vnode_unref] and [vnode_free] call each other up the parents.
    src/fs/vfs/vnode.c:52-76 [vnode_unref] *)
Fixpoint vnode_unref_fuel (depth : nat) (vp : Z) : K (vstate A) unit :=
  match depth with
  | O => kstop OutOfFuel
  | Datatypes.S depth' =>
      assert (negb (vp =? NULL)) "vp" 54 "vnode_unref";;
      v ← get_vnode vp;
      upd_vnode vp (vn_set_count (u32 (v_count v - 1)));;
      if v_count v =? 0 then kerror "Vnode reference count already at 0";; hcf else
      if 1 <? v_count v then mret tt else
      upd_vnode vp (vn_set_flag (Z.lor (v_flag v) VFREEING));;
      if negb (Z.land (v_flag v) VFREEING =? 0) then mret tt else
      match inactive_at ops (v_op v) with
      | Some vn_inactive => kwhen (negb (v_op v =? NULL)) (vn_inactive vp;; mret tt)
      | None => mret tt
      end;;
      vnode_free_with (vnode_unref_fuel depth') vp
  end.
Definition vnode_unref : Z -> K (vstate A) unit := vnode_unref_fuel fuel.
Definition vnode_free : Z -> K (vstate A) unit := vnode_free_with vnode_unref.

(** src/fs/vfs/vnode.c:82-94 [vnode_clear_parent] *)
Definition vnode_clear_parent (child : Z) : K (vstate A) unit :=
  if child =? NULL then mret tt else
  v ← get_vnode child;
  kwhen (negb (v_parent v =? NULL)) (
    vnode_unref (v_parent v);;
    upd_vnode child (vn_set_parent NULL));;
  upd_vnode child (fun v => vn_set_name (clear_name (v_name v)) v).

(** src/fs/vfs/vnode.c:96-112 [vnode_set_parent] *)
Definition vnode_set_parent (child parent : Z) (name : option (list Z)) : K (vstate A) unit :=
  if child =? NULL then mret tt else
  vnode_clear_parent child;;
  kwhen (negb (parent =? NULL)) (vnode_ref parent);;
  upd_vnode child (vn_set_parent parent);;
  upd_vnode child (fun v => vn_set_name
    (match name with
     | Some n => strlcpy_array (NAME_MAX + 1) n (v_name v)
     | None => clear_name (v_name v)
     end) v).

(** src/fs/vfs/vnode.c:114-127 [vnode_alloc] *)
Definition vnode_alloc (vfsp : Z) (type : vtype_t) : K (vstate A) Z :=
  cache ← kasks vnode_cache;
  assert (negb (cache =? NULL)) "vfs_manager.vnode_cache" 116 "vnode_alloc";;
  vp ← on_vmem (km_cache_alloc cache);
  if vp =? NULL then mret NULL else
  put_vnode vp (Vnode 0 1 0 0 NULL NULL NULL (replicate (NAME_MAX + 1) 0) vfsp type NULL);;
  mret vp.

(** src/fs/vfs/vnode.c:149-167 [vnode_cache_insert] *)
Definition vnode_cache_insert (vfsp nodeid vp : Z) : K (vstate A) Z :=
  if (vfsp =? NULL) || (vp =? NULL) then mret (- EINVAL) else
  vfs_lock_vnode_table;;
  '(ret, existing) ← vnode_cache_lookup_locked vfsp nodeid NULL;
  if (ret =? 0) && negb (existing =? NULL) then
    vfs_unlock_vnode_table;; mret (- EEXIST)
  else
    ret ← vnode_cache_insert_locked vfsp nodeid vp;
    vfs_unlock_vnode_table;;
    mret ret.

(** [out_vp] is checked but never written.
    src/fs/vfs/vnode.c:169-186 [vnode_cache_lookup] *)
Definition vnode_cache_lookup (vfsp nodeid : Z) (out_vp : option Z) : K (vstate A) (Z * option Z) :=
  if (vfsp =? NULL) || bool_decide (out_vp = None) then mret (- EINVAL, out_vp) else
  vfs_lock_vnode_table;;
  '(ret, vp) ← vnode_cache_lookup_locked vfsp nodeid NULL;
  if negb (ret =? 0) || (vp =? NULL) then
    vfs_unlock_vnode_table;; mret (- ENOENT, out_vp)
  else
    vnode_ref vp;;
    vfs_unlock_vnode_table;;
    mret (0, out_vp).

(** src/fs/vfs/vnode.c:188-197 [vnode_cache_remove] *)
Definition vnode_cache_remove (vfsp nodeid : Z) : K (vstate A) Z :=
  if vfsp =? NULL then mret (- EINVAL) else
  vfs_lock_vnode_table;;
  ret ← vnode_cache_remove_locked vfsp nodeid;
  vfs_unlock_vnode_table;;
  mret ret.

(** The vnode a file system produced enters the cache, unless another one
    got there first.
    src/fs/vfs/vnode.c:226-243 [vnode_get] *)
Definition vnode_got (vfsp nodeid vp : Z) : K (vstate A) (Z * option Z) :=
  upd_vnode vp (vn_set_vfsp vfsp);;
  vfs_lock_vnode_table;;
  '(ret, existing) ← vnode_cache_lookup_locked vfsp nodeid NULL;
  if (ret =? 0) && negb (existing =? NULL) then
    vnode_ref existing;;
    vfs_unlock_vnode_table;;
    vnode_unref vp;;
    mret (0, Some existing)
  else
    vnode_cache_insert_locked vfsp nodeid vp;;
    vfs_unlock_vnode_table;;
    mret (0, Some vp).

(** src/fs/vfs/vnode.c:199-244 [vnode_get] *)
Definition vnode_get (vfsp : Z) (out : option Z) (nodeid : Z) : K (vstate A) (Z * option Z) :=
  if (vfsp =? NULL) || bool_decide (out = None) then mret (- EINVAL, out) else
  '(ret, vp) ← vnode_cache_lookup vfsp nodeid (Some NULL);
  if ret =? 0 then mret (ret, vp) else
  fs ← get_vfs vfsp;
  if vfs_op fs =? NULL then mret (- ENOSYS, out) else
  o ← kderef (vfsops_at ops (vfs_op fs));
  match vfs_vget o with
  | None => mret (- ENOSYS, out)
  | Some vget =>
      '(ret, vp) ← vget vfsp (default NULL vp) nodeid;
      if negb (ret =? 0) then mret (ret, out) else
      if vp =? NULL then mret (- EIO, out) else
      vnode_got vfsp nodeid vp
  end.

(** src/fs/vfs/vnode.c:246-252 [vnode_put] *)
Definition vnode_put (vp : Z) : K (vstate A) unit :=
  if vp =? NULL then mret tt else vnode_unref vp.

(** ** Walks over a table

    [for (i = 0; i < lim; ++i) for (e = entries[i]; e; e = e->next) body(e)],
    with [lim] evaluated each time and [L] the variables the body changes. *)
Definition walk_bucket {L R} (body : L -> Z -> K (vstate A) (L + R)) (l : L) (entry : Z) :
    K (vstate A) (L + R) :=
  kloop fuel (fun '(entry, l) =>
    if entry =? NULL then mret (inr (inl l)) else
    r ← body l entry;
    match r with
    | inl l' => e ← on_hash (get_he entry); mret (inl (he_next e, l'))
    | inr r => mret (inr (inr r))
    end) (entry, l).

Definition walk_table {L R} (t : Z) (lim : K (vstate A) Z)
    (body : L -> Z -> K (vstate A) (L + R)) (l : L) : K (vstate A) (L + R) :=
  kloop fuel (fun '(i, l) =>
    n ← lim;
    if n <=? i then mret (inr (inl l)) else
    entry ← on_hash (get_slot t i);
    r ← walk_bucket body l entry;
    match r with
    | inl l' => mret (inl (i + 1, l'))
    | inr r => mret (inr (inr r))
    end) (0, l).

(** The result of a walk that never leaves early. *)
Definition walked {L} (r : L + Empty_set) : L :=
  match r with inl l => l | inr x => Empty_set_rect (fun _ => L) x end.

Definition table_capacity (t : Z) : K (vstate A) Z :=
  tb ← on_hash (get_table t); mret (capacity tb).

(** The two 64-bit words of a vnode's key. *)
Definition entry_words (e : Z) : K (vstate A) (Z * Z) :=
  x ← on_hash (get_he e);
  k ← on_hash (get_key (he_key x));
  mret (le_value (take 8 k), le_value (take 8 (drop 8 k))).

(** The node IDs of a file system's vnodes.
    src/fs/vfs/vnode.c:264-272 [vfs_purge_vnodes] *)
Definition collect_nodeids (cap vfsp : Z) : K (vstate A) (list Z + Empty_set) :=
  walk_table VNODE_TABLE (mret cap) (fun ids e =>
    '(k0, k1) ← entry_words e;
    mret (inl (if k0 =? vfsp then ids ++ [k1] else ids))) [].

(** src/fs/vfs/vnode.c:300-322 [vfs_purge_vnodes] *)
Definition purge_vnode (vfsp nodeid : Z) : K (vstate A) unit :=
  vfs_lock_vnode_table;;
  '(get, vp) ← vnode_cache_lookup_locked vfsp nodeid NULL;
  if (get =? 0) && negb (vp =? NULL) then
    rem ← vnode_cache_remove_locked vfsp nodeid;
    vfs_unlock_vnode_table;;
    kwhen (rem =? 0) (vnode_unref vp)
  else
    vnode_cache_remove_locked vfsp nodeid;;
    vfs_unlock_vnode_table.

Fixpoint purge_list (vfsp : Z) (ids : list Z) : K (vstate A) unit :=
  match ids with
  | [] => mret tt
  | i :: r => purge_vnode vfsp i;; purge_list vfsp r
  end.

(** The first walk counts, the second fills an array of that size; nothing
    runs between them, so both see the same list.
    src/fs/vfs/vnode.c:254-325 [vfs_purge_vnodes] *)
Definition vfs_purge_vnodes (vfsp : Z) : K (vstate A) unit :=
  if vfsp =? NULL then mret tt else
  cap ← table_capacity VNODE_TABLE;
  vfs_lock_vnode_table;;
  counted ← collect_nodeids cap vfsp;
  vfs_unlock_vnode_table;;
  let count := Z.of_nat (length (walked counted)) in
  if count =? 0 then mret tt else
  nodeids ← on_vmem (km_malloc (u64 (8 * count)));
  if nodeids =? NULL then mret tt else
  vfs_lock_vnode_table;;
  collected ← collect_nodeids cap vfsp;
  vfs_unlock_vnode_table;;
  purge_list vfsp (walked collected);;
  on_vmem (km_free nodeids).
End vnode.

(** ** Reference counts *)
Section refcounts.
Context {A : Type} `{!Kmem A} `{!Console A} (ops : fs_ops A).
Implicit Types s : vstate A.

Lemma get_vnode_run s p v : vnodes s !! p = Some v -> get_vnode p s = Ret v s.
Proof. intros E. unfold get_vnode. krun. by rewrite E. Qed.

Lemma upd_vnode_run s p f v : vnodes s !! p = Some v ->
  upd_vnode p f s = Ret tt (set_vnodes (<[p := f v]> (vnodes s)) s).
Proof. intros E. unfold upd_vnode. by rewrite (kbind_ret _ _ _ _ _ (get_vnode_run _ _ _ E)). Qed.

Lemma vnode_ref_run s p v : vnodes s !! p = Some v -> p <> NULL ->
  vnode_ref p s = Ret tt (set_vnodes (<[p := vn_set_count (u32 (v_count v + 1)) v]> (vnodes s)) s).
Proof.
  intros E Hp. unfold vnode_ref, assert. destruct (Z.eqb_spec p NULL); [done|]. cbn [negb].
  rewrite (kbind_ret _ _ s tt s) by reflexivity. by rewrite (upd_vnode_run _ _ _ _ E).
Qed.

(** A vnode that its last user gives up: not being freed yet and without a
    file system hook. *)
Definition last_ref (v : vnode_t) : Prop :=
  v_count v = 1 /\ Z.land (v_flag v) VFREEING = 0 /\ inactive_at ops (v_op v) = None.

(** [vs] is a path of parents from [p] to [q], each held by its child only,
    and [m'] is the memory [m] once they are released, children's data first
    and objects last. *)
Fixpoint chain s (p : Z) (vs : list Z) (q : Z) (m m' : A) : Prop :=
  match vs with
  | [] => p = q /\ m' = m
  | v :: r => p = v /\ v <> NULL /\ exists n m1 m2,
      vnodes s !! v = Some n /\ last_ref n /\
      (if decide (v_data n = NULL) then m1 = m else km_free (v_data n) m = Ret tt m1) /\
      chain s (v_parent n) r q m1 m2 /\ km_cache_free (vnode_cache s) v m2 = Ret tt m'
  end.

Lemma parents_ext s s' vs : forall p q m m',
  (forall v, v ∈ vs -> vnodes s' !! v = vnodes s !! v) -> vnode_cache s' = vnode_cache s ->
  chain s p vs q m m' -> chain s' p vs q m m'.
Proof.
  induction vs as [|v vs IH]; intros p q m m' Hx Hc; [done|].
  intros (-> & Hv & n & m1 & m2 & E & Hl & E1 & H & E2). cbn. do 2 (split; [done | ]).
  exists n, m1, m2. rewrite Hc, (Hx v) by apply list_elem_of_here. split_and!; try done; try apply Hl.
  apply IH; [|done|done]. intros x Hx'. apply Hx. by apply list_elem_of_further.
Qed.

(** What is left of the vnodes. *)
Definition released (V : gmap Z vnode_t) (vs : list Z) (q : Z) (a : Z) : option vnode_t :=
  if decide (a ∈ vs) then None
  else if decide (a = q /\ q <> NULL) then (fun n => vn_set_count (v_count n - 1) n) <$> V !! a
  else V !! a.

Lemma set_count_u32 n : 0 < v_count n < 2 ^ 32 -> u32 (v_count n - 1) = v_count n - 1.
Proof. intros. apply wrap_small. lia. Qed.

Lemma unref_kept d s q nq : vnodes s !! q = Some nq -> q <> NULL -> 1 < v_count nq < 2 ^ 32 ->
  vnode_unref_fuel ops (Datatypes.S d) q s
  = Ret tt (set_vnodes (<[q := vn_set_count (v_count nq - 1) nq]> (vnodes s)) s).
Proof.
  intros E Hq Hc. cbn [vnode_unref_fuel]. unfold assert.
  destruct (Z.eqb_spec q NULL); [done|]. cbn [negb].
  rewrite (kbind_ret _ _ s tt s) by reflexivity.
  rewrite (kbind_ret _ _ _ _ _ (get_vnode_run _ _ _ E)).
  rewrite (kbind_ret _ _ _ _ _ (upd_vnode_run _ _ _ _ E)), set_count_u32 by lia.
  destruct (Z.eqb_spec (v_count nq) 0); [lia|]. destruct (Z.ltb_spec 1 (v_count nq)); [done|lia].
Qed.

(** The steps of [vnode_unref] up to the call of [vnode_free]. *)
Lemma unref_last d s v n : vnodes s !! v = Some n -> v <> NULL -> last_ref n ->
  vnode_unref_fuel ops (Datatypes.S d) v s
  = vnode_free_with (vnode_unref_fuel ops d) v
      (set_vnodes (<[v := vn_set_flag (Z.lor (v_flag n) VFREEING) (vn_set_count 0 n)]> (vnodes s)) s).
Proof.
  intros E Hv (Hc & Hf & Hi). cbn [vnode_unref_fuel]. unfold assert.
  destruct (Z.eqb_spec v NULL); [done|]. cbn [negb].
  rewrite (kbind_ret _ _ s tt s) by reflexivity.
  rewrite (kbind_ret _ _ _ _ _ (get_vnode_run _ _ _ E)).
  rewrite (kbind_ret _ _ _ _ _ (upd_vnode_run _ _ _ _ E)), Hc.
  change (1 =? 0) with false. change (1 <? 1) with false. change (u32 (1 - 1)) with 0. cbv iota.
  erewrite kbind_ret by (apply upd_vnode_run; apply lookup_insert_eq).
  rewrite Hf. change (negb (0 =? 0)) with false. cbv iota. rewrite Hi.
  rewrite (kbind_ret (mret tt) _ _ tt _) by reflexivity.
  cbn [vnodes set_vnodes]. by rewrite insert_insert_eq.
Qed.

(** The first half of [vnode_free]: the data goes, the parent stays. *)
Lemma free_data_run s v n m1 : vnodes s !! v = Some n ->
  (if decide (v_data n = NULL) then m1 = hmem (vh s) else km_free (v_data n) (hmem (vh s)) = Ret tt m1) ->
  kwhen (negb (v_data n =? NULL))
    (on_vmem (km_free (v_data n));; upd_vnode v (vn_set_data NULL)) s
  = Ret tt (set_vnodes (<[v := vn_set_data NULL n]> (vnodes s)) (set_vh (set_hmem m1 (vh s)) s)).
Proof.
  intros E Em. destruct (decide (v_data n = NULL)) as [Ed|Hd].
  - rewrite Ed. cbn. subst m1. unfold mret, K_ret. f_equal.
    assert (En : vn_set_data NULL n = n) by (destruct n; cbn in *; by rewrite Ed).
    rewrite En, insert_id by done. by destruct s as [? ? [] ? ? ? ? ? ?].
  - destruct (Z.eqb_spec (v_data n) NULL); [done|]. cbn [negb kwhen].
    rewrite (kbind_ret _ _ s tt (set_vh (set_hmem m1 (vh s)) s)).
    + apply (upd_vnode_run (set_vh (set_hmem m1 (vh s)) s)). exact E.
    + unfold on_vmem, on_hash, on_hmem. apply klift_ret.
      by apply (klift_ret hmem set_hmem _ (vh s)).
Qed.

(** What [vnode_unref] of a chain does to the state. *)
Definition released_state s (W : gmap Z vnode_t) (m : A) : vstate A :=
  set_vnodes W (set_vh (set_hmem m (vh s)) s).

Lemma unref_chain vs : forall d s p q m',
  chain s p vs q (hmem (vh s)) m' -> (length vs < d)%nat -> p <> NULL -> NoDup vs ->
  (q <> NULL -> q ∉ vs /\ exists nq, vnodes s !! q = Some nq /\ 1 < v_count nq < 2 ^ 32) ->
  exists W, vnode_unref_fuel ops d p s = Ret tt (released_state s W m') /\
    forall a, W !! a = released (vnodes s) vs q a.
Proof.
  induction vs as [|v vs IH]; intros d s p q m' H Hd Hp Hnd Hq;
    (destruct d as [|d]; [cbn in Hd; lia|]).
  - destruct H as [-> ->]. destruct (Hq Hp) as (_ & nq & E & Hc).
    eexists. split.
    + rewrite (unref_kept d s q nq E Hp Hc). f_equal. unfold released_state.
      by destruct s as [? ? [] ? ? ? ? ? ?].
    + intros a. unfold released. rewrite decide_False by apply not_elem_of_nil.
      destruct (decide (a = q /\ q <> NULL)) as [[-> _]|Hne].
      * by rewrite lookup_insert_eq, E.
      * apply lookup_insert_ne. intros ->. by apply Hne.
  - destruct H as (-> & Hv & n & m1 & m2 & E & Hl & E1 & Hch & E2).
    apply NoDup_cons in Hnd as [Hvn Hnd]. rewrite (unref_last d s v n E Hv Hl).
    set (n0 := vn_set_flag _ _). set (s0 := set_vnodes _ s).
    assert (E0 : vnodes s0 !! v = Some n0) by apply lookup_insert_eq.
    unfold vnode_free_with. destruct (Z.eqb_spec v NULL); [done|].
    rewrite (kbind_ret _ _ _ _ _ (get_vnode_run _ _ _ E0)).
    rewrite (kbind_ret _ _ _ _ _ (free_data_run s0 v n0 m1 E0 E1)).
    set (nd := vn_set_data NULL n0). set (s1 := set_vnodes _ _).
    change (v_parent n0) with (v_parent n).
    assert (Hs1 : forall a, a <> v -> vnodes s1 !! a = vnodes s !! a)
      by (intros a Ha; cbn; by rewrite !lookup_insert_ne by done).
    assert (Hvq : q <> NULL -> v <> q) by (intros Hq0 ->; destruct (Hq Hq0) as [Hn _]; set_solver).
    (* the parent's turn *)
    assert (exists W, kwhen (negb (v_parent n =? NULL))
        (vnode_unref_fuel ops d (v_parent n);; upd_vnode v (vn_set_parent NULL)) s1
        = Ret tt (released_state s1 W m2) /\ forall a, a <> v -> W !! a = released (vnodes s) vs q a)
      as (W & RW & HW).
    { destruct (Z.eqb_spec (v_parent n) NULL) as [Epn|Hpn]; cbn [negb kwhen].
      - rewrite Epn in Hch. destruct vs as [|x vs]; [|by destruct Hch as (<- & [] & _)].
        destruct Hch as [Hq0 ->]. exists (vnodes s1). split; [done|]. intros a Ha.
        unfold released. rewrite decide_False by apply not_elem_of_nil.
        rewrite decide_False by (by intros []). by apply Hs1.
      - destruct (IH d s1 (v_parent n) q m2) as (W & RW & HW); [|cbn in Hd; lia|done|done| |].
        + apply (parents_ext s); [|done|exact Hch]. intros x Hx. apply Hs1. by intros ->.
        + intros Hq0. destruct (Hq Hq0) as (Hqn & nq & Enq & Hc). split; [set_solver|].
          exists nq. rewrite Hs1 by (by apply not_eq_sym, Hvq). done.
        + assert (EW : W !! v = Some nd).
          { rewrite HW. unfold released. rewrite decide_False by done. rewrite decide_False.
            - by apply lookup_insert_eq.
            - intros [Ev Hq0]. by apply (Hvq Hq0). }
          eexists. split.
          * rewrite (kbind_ret _ _ _ _ _ RW).
            rewrite (upd_vnode_run (released_state s1 W m2) v _ nd EW). reflexivity.
          * intros a Ha. rewrite lookup_insert_ne by done. rewrite HW. unfold released.
            by rewrite Hs1 by done. }
    rewrite (kbind_ret _ _ _ _ _ RW).
    set (s2 := released_state s1 W m2).
    rewrite (kbind_ret _ _ s2 (vnode_cache s2) s2) by reflexivity.
    rewrite (kbind_ret _ _ s2 tt (set_vh (set_hmem m' (vh s2)) s2)).
    2:{ unfold on_vmem, on_hash, on_hmem. apply klift_ret. by apply (klift_ret hmem set_hmem _ (vh s2)). }
    exists (delete v W). split; [reflexivity|]. intros a.
    destruct (decide (a = v)) as [->|Ha].
    + rewrite lookup_delete_eq. unfold released. by rewrite decide_True by apply list_elem_of_here.
    + rewrite lookup_delete_ne by done. rewrite HW by done. unfold released.
      destruct (decide (a ∈ vs)) as [Hin|Hin].
      * by rewrite decide_True by (by apply list_elem_of_further).
      * by rewrite (decide_False (P := a ∈ v :: vs)) by (by intros [->|?]%elem_of_cons).
Qed.

Lemma unref_zero d s v n : vnodes s !! v = Some n -> v <> NULL -> v_count n = 0 ->
  exists s', vnode_unref_fuel ops (Datatypes.S d) v s = Stop Halted s' /\
    vnodes s' !! v = Some (vn_set_count (2 ^ 32 - 1) n).
Proof.
  intros E Hv Hc. cbn [vnode_unref_fuel]. unfold assert. destruct (Z.eqb_spec v NULL); [done|]. cbn [negb].
  rewrite (kbind_ret _ _ s tt s) by reflexivity.
  rewrite (kbind_ret _ _ _ _ _ (get_vnode_run _ _ _ E)).
  rewrite (kbind_ret _ _ _ _ _ (upd_vnode_run _ _ _ _ E)), Hc.
  change (0 =? 0) with true. cbv iota. eexists. split; [reflexivity|]. apply lookup_insert_eq.
Qed.
End refcounts.

(** C22: [vnode_unref] terminates and keeps the reference counts: a vnode with
    more references only loses one; giving up the last one frees the vnode
    and, up the parents, every ancestor that only its child held, children's
    data before the parents and each object after its parents, until the
    first ancestor with another reference (or the root), which loses one;
    every other vnode is untouched.  A count that is already 0 wraps and
    halts. *)
Theorem vnode_unref_frees_chain {A} `{!Kmem A} `{!Console A} (ops : fs_ops A) fuel (s : vstate A) p :
  p <> NULL ->
  (forall vs q m', chain ops s p vs q (hmem (vh s)) m' -> NoDup vs -> (length vs < fuel)%nat ->
     (q <> NULL -> q ∉ vs /\ exists nq, vnodes s !! q = Some nq /\ 1 < v_count nq < 2 ^ 32) ->
     exists W, vnode_unref ops fuel p s = Ret tt (released_state s W m') /\
       forall a, W !! a =
         if decide (a ∈ vs) then None
         else if decide (a = q /\ q <> NULL)
              then (fun n => vn_set_count (v_count n - 1) n) <$> vnodes s !! a
              else vnodes s !! a) /\
  (forall n, vnodes s !! p = Some n -> v_count n = 0 -> (0 < fuel)%nat ->
     exists s', vnode_unref ops fuel p s = Stop Halted s' /\
       v_count <$> vnodes s' !! p = Some (2 ^ 32 - 1)).
Proof.
  intros Hp. split.
  - intros vs q m' H Hnd Hf Hq. by apply unref_chain.
  - intros n E Hc Hf. destruct fuel as [|d]; [lia|].
    destruct (unref_zero ops d s p n E Hp Hc) as (s' & R & E'). exists s'. split; [exact R|]. by rewrite E'.
Qed.
