(* ===== verification/Vfs.v ===== *)
(** * Mounts and the name cache (fs/vfs/vfs.c, fs/vfs/path.c)

    The mount table maps the bytes of a mount path, terminator included, to
    the mounted file system; the name cache maps a directory and a name to a
    vnode, with a reference for each entry.  A path or name argument is the
    list of the string's bytes. *)

From S2P Require Import Prelude Errno Bytes StrLib Console Spinlock Assert Kmem SchedState HashTable Vnode.
Local Open Scope Z_scope.

Definition vf_set_covered v f := Vfs (vfs_next f) (vfs_op f) v (vfs_flag f) (vfs_bsize f)
  (vfs_data f) (vfs_mount_path f).
Definition vf_set_flag v f := Vfs (vfs_next f) (vfs_op f) (vfs_vnode_covered f) v (vfs_bsize f)
  (vfs_data f) (vfs_mount_path f).
Definition vf_set_next v f := Vfs v (vfs_op f) (vfs_vnode_covered f) (vfs_flag f) (vfs_bsize f)
  (vfs_data f) (vfs_mount_path f).
Definition vf_set_path v f := Vfs (vfs_next f) (vfs_op f) (vfs_vnode_covered f) (vfs_flag f)
  (vfs_bsize f) (vfs_data f) v.

(** [sizeof(struct vfs_t)], [sizeof(struct vnode_t)]. *)
Definition SIZEOF_VFS : Z := 304.
Definition SIZEOF_VNODE : Z := 320.

Section vfs.
Context {A : Type} `{!Kmem A} `{!Console A} (ops : fs_ops A) (fuel : nat).
Local Abbreviation vnode_unref := (vnode_unref ops fuel).

(** src/fs/vfs/vfs.c:7-10 [vfs_lock_mount_table] *)
Definition vfs_lock_mount_table : K (vstate A) unit := spinlock_acquire mount_spin.
(** src/fs/vfs/vfs.c:12-15 [vfs_unlock_mount_table] *)
Definition vfs_unlock_mount_table : K (vstate A) unit := spinlock_release mount_spin.

(** A walk over the mount table. *)
Definition walk_mounts {L R} (body : L -> Z -> K (vstate A) (L + R)) (l : L) :
    K (vstate A) (L + R) :=
  walk_table fuel MOUNT_TABLE (table_capacity MOUNT_TABLE) body l.
Definition entry_value (e : Z) : K (vstate A) Z := x ← on_hash (get_he e); mret (he_value x).

(** src/fs/vfs/vfs.c:20-38 [vfs_for_each] *)
Definition vfs_for_each (call_back : option (Z -> K (vstate A) unit)) : K (vstate A) unit :=
  match call_back with
  | None => mret tt
  | Some f =>
      vfs_lock_mount_table;;
      walk_mounts (R := Empty_set) (fun l e => v ← entry_value e; f v;; mret (inl l)) tt;;
      vfs_unlock_mount_table
  end.

(** The operations behind a file system's [vfs_op]; [None] when it is NULL. *)
Definition ops_of (fs : vfs_t) : K (vstate A) (option (vfsops A)) :=
  if vfs_op fs =? NULL then mret None else
  o ← kderef (vfsops_at ops (vfs_op fs)); mret (Some o).

(** src/fs/vfs/vfs.c:40-51 [vfs_root_vnode] *)
Definition vfs_root_vnode (vfsp : Z) (root : option Z) : K (vstate A) (Z * option Z) :=
  if vfsp =? NULL then mret (- EINVAL, root) else
  fs ← get_vfs vfsp;
  o ← ops_of fs;
  match o ≫= vfs_root, root with
  | Some f, Some r0 =>
      '(ret, r) ← f vfsp r0;
      kwhen ((ret =? 0) && negb (r =? NULL)) (vnode_ref r);;
      mret (ret, Some r)
  | _, _ => mret (- EINVAL, root)
  end.

(** src/fs/vfs/vfs.c:53-59 [vfs_from_vnode] *)
Definition vfs_from_vnode (vp : Z) : K (vstate A) Z :=
  if vp =? NULL then mret NULL else
  v ← get_vnode vp; mret (v_vfsp v).

(** src/fs/vfs/vfs.c:61-71 [vfs_from_path] *)
Definition vfs_from_path (path : option (list Z)) : K (vstate A) Z :=
  match path with
  | None => mret NULL
  | Some path =>
      vfs_lock_mount_table;;
      v ← on_hash (hashtable_get fuel MOUNT_TABLE (path ++ [0]));
      vfs_unlock_mount_table;;
      mret (default NULL v)
  end.

(** src/fs/vfs/vfs.c:73-95 [vfs_find_mounted_on_vnode] *)
Definition vfs_find_mounted_on_vnode (vp : Z) : K (vstate A) Z :=
  if vp =? NULL then mret NULL else
  vfs_lock_mount_table;;
  r ← walk_mounts (fun (l : unit) e =>
    vfsp ← entry_value e;
    if vfsp =? NULL then mret (inl l) else
    fs ← get_vfs vfsp;
    mret (if vfs_vnode_covered fs =? vp then inr vfsp else inl l)) tt;
  vfs_unlock_mount_table;;
  mret (match r with inr vfsp => vfsp | inl _ => NULL end).

(** src/fs/vfs/vfs.c:97-123 [vfs_mount_fs] *)
Definition vfs_mount_fs (vfsp covered : Z) (path : option (list Z)) (flags : Z) :
    K (vstate A) Z :=
  if vfsp =? NULL then mret (- EINVAL) else
  fs ← get_vfs vfsp;
  o ← ops_of fs;
  match o ≫= vfs_mount, path with
  | Some mount, Some path =>
      upd_vfs vfsp (vf_set_covered covered);;
      upd_vfs vfsp (vf_set_flag (u32 flags));;
      upd_vfs vfsp (vf_set_next NULL);;
      kwhen (negb (covered =? NULL)) (vnode_ref covered);;
      ret ← mount vfsp covered path flags;
      if negb (ret =? 0) then
        kwhen (negb (covered =? NULL)) (vnode_unref covered);;
        mret ret
      else
        upd_vfs vfsp (fun f => vf_set_path (strlcpy_array VFS_MOUNT_PATH_MAX path (vfs_mount_path f)) f);;
        vfs_lock_mount_table;;
        fs ← get_vfs vfsp;
        on_hash (hashtable_set fuel MOUNT_TABLE vfsp (c_string (vfs_mount_path fs) ++ [0]));;
        vfs_unlock_mount_table;;
        mret 0
  | _, _ => mret (- EINVAL)
  end.

(** src/fs/vfs/vfs.c:125-150 [vfs_unmount_fs] *)
Definition vfs_unmount_fs (vfsp flags : Z) : K (vstate A) Z :=
  if vfsp =? NULL then mret (- EINVAL) else
  fs ← get_vfs vfsp;
  o ← ops_of fs;
  match o ≫= vfs_unmount with
  | None => mret (- EINVAL)
  | Some unmount =>
      vfs_lock_mount_table;;
      ret ← unmount vfsp flags;
      if negb (ret =? 0) then vfs_unlock_mount_table;; mret ret else
      fs ← get_vfs vfsp;
      on_hash (hashtable_remove fuel MOUNT_TABLE (c_string (vfs_mount_path fs) ++ [0]));;
      fs ← get_vfs vfsp;
      kwhen (negb (vfs_vnode_covered fs =? NULL)) (vnode_unref (vfs_vnode_covered fs));;
      vfs_unlock_mount_table;;
      vfs_purge_vnodes ops fuel vfsp;;
      cache ← kasks vfs_cache;
      on_vmem (km_cache_free cache vfsp);;
      kmod (fun s => set_filesystems (delete vfsp (filesystems s)) s);;
      mret 0
  end.

(** src/fs/vfs/vfs.c:152-165 [init_vfs] *)
Definition init_vfs : K (vstate A) unit :=
  kprintf "VFS...";;
  spinlock_init vnode_spin;;
  spinlock_init mount_spin;;
  on_hash (hashtable_init MOUNT_TABLE 128);;
  on_hash (hashtable_init VNODE_TABLE 256);;
  c1 ← on_vmem (km_cache_create SIZEOF_VFS 0);
  kmod (fun s => set_caches c1 (vnode_cache s) s);;
  c2 ← on_vmem (km_cache_create SIZEOF_VNODE 0);
  kmod (fun s => set_caches (vfs_cache s) c2 s);;
  kok.

(** ** The name cache *)

(** The key is a variable of the caller that [strlcpy] fills up to the
    terminator only: [junk] is the 256 bytes its array held before.
    src/fs/vfs/path.c:5-9 [make_namecache_key] *)
Definition make_namecache_key (junk : list Z) (dvp : Z) (name : list Z) : list Z :=
  le_bytes 8 dvp ++ strlcpy_array (NAME_MAX + 1) name junk.

(** With [||] for [&&] the test reads through a NULL [vfsp], and checks
    nothing of another one.
    src/fs/vfs/path.c:12-27 [namei_get_root_vnode] *)
Definition namei_get_root_vnode : K (vstate A) Z :=
  vfsp ← vfs_from_path (Some [47]);
  fs ← get_vfs vfsp;
  o ← kderef (vfsops_at ops (vfs_op fs));
  f ← kderef (vfs_root o);
  '(ret, root) ← f vfsp NULL;
  if (ret =? 0) && negb (root =? NULL) then vnode_ref root;; mret root
  else mret NULL.

(** src/fs/vfs/path.c:30-54 [namecache_lookup] *)
Definition namecache_lookup (junk : list Z) (dvp : Z) (name : option (list Z)) (out_vp : option Z) :
    K (vstate A) (Z * option Z) :=
  match name, out_vp with
  | Some name, Some _ =>
      if dvp =? NULL then mret (- EINVAL, out_vp) else
      spinlock_acquire namecache_spin;;
      v ← on_hash (hashtable_get fuel NAMECACHE_TABLE (make_namecache_key junk dvp name));
      let vp := default NULL v in
      if vp =? NULL then spinlock_release namecache_spin;; mret (- ENOENT, out_vp) else
      vnode_ref vp;;
      spinlock_release namecache_spin;;
      mret (0, Some vp)
  | _, _ => mret (- EINVAL, out_vp)
  end.

(** src/fs/vfs/path.c:57-78 [namecache_enter] *)
Definition namecache_enter (junk : list Z) (dvp : Z) (name : option (list Z)) (vp : Z) :
    K (vstate A) Z :=
  match name with
  | None => mret (- EINVAL)
  | Some name =>
      if (dvp =? NULL) || (vp =? NULL) then mret (- EINVAL) else
      vnode_ref vp;;
      spinlock_acquire namecache_spin;;
      status ← on_hash (hashtable_set fuel NAMECACHE_TABLE vp (make_namecache_key junk dvp name));
      spinlock_release namecache_spin;;
      if negb (status =? 0) then vnode_unref vp;; mret status else mret 0
  end.

(** src/fs/vfs/path.c:101-110 [namecache_remove_locked] *)
Definition namecache_remove_locked (key : list Z) : K (vstate A) unit :=
  v ← on_hash (hashtable_get fuel NAMECACHE_TABLE key);
  let vp := default NULL v in
  kwhen (negb (vp =? NULL)) (vnode_unref vp);;
  on_hash (hashtable_remove fuel NAMECACHE_TABLE key);;
  mret tt.

(** src/fs/vfs/path.c:81-98 [namecache_remove] *)
Definition namecache_remove (junk : list Z) (dvp : Z) (name : option (list Z)) :
    K (vstate A) unit :=
  match name with
  | None => mret tt
  | Some name =>
      if dvp =? NULL then mret tt else
      spinlock_acquire namecache_spin;;
      namecache_remove_locked (make_namecache_key junk dvp name);;
      spinlock_release namecache_spin
  end.

(** One bucket, begun again after each removal.
    src/fs/vfs/path.c:118-134 [namecahe_purge_vnode_locked] *)
Definition purge_name_bucket (vp i : Z) : K (vstate A) unit :=
  entry ← on_hash (get_slot NAMECACHE_TABLE i);
  kloop fuel (fun entry =>
    if entry =? NULL then mret (inr tt) else
    e ← on_hash (get_he entry);
    if he_value e =? vp then
      key ← on_hash (get_key (he_key e));
      namecache_remove_locked (take (Z.to_nat (he_key_size e)) key);;
      entry ← on_hash (get_slot NAMECACHE_TABLE i);
      mret (inl entry)
    else mret (inl (he_next e))) entry.

(** src/fs/vfs/path.c:113-136 [namecahe_purge_vnode_locked] *)
Definition namecahe_purge_vnode_locked (vp : Z) : K (vstate A) unit :=
  if vp =? NULL then mret tt else
  kloop fuel (fun i =>
    n ← table_capacity NAMECACHE_TABLE;
    if n <=? i then mret (inr tt) else
    purge_name_bucket vp i;;
    mret (inl (i + 1))) 0.

(** The function it calls, [namecache_purge_vnode_locked], is not defined
    anywhere (the one above has another name): a parameter.
    src/fs/vfs/path.c:139-147 [namecache_purge_vnode] *)
Definition namecache_purge_vnode (namecache_purge_vnode_locked : Z -> K (vstate A) unit) (vp : Z) :
    K (vstate A) unit :=
  if vp =? NULL then mret tt else
  spinlock_acquire namecache_spin;;
  namecache_purge_vnode_locked vp;;
  spinlock_release namecache_spin.

(** src/fs/vfs/path.c:149-153 [namei_init] *)
Definition namei_init : K (vstate A) unit :=
  spinlock_init namecache_spin;;
  on_hash (hashtable_init NAMECACHE_TABLE 2048);;
  mret tt.
End vfs.
