(* ===== verification/VfsSpec.v ===== *)
(** * What the file system layer promises

    The tables of Vnode.v and Vfs.v read as finite maps ([vtable]), and the
    critical sections as changes of the lock fields ([held], [freed]); the
    theorems say what looking up, mounting and caching do to those maps and to
    the reference counts. *)

From S2P Require Import Prelude Errno Bytes StrLib Console Spinlock Assert Kmem SchedState HashTable Vnode Vfs.
Local Open Scope Z_scope.

Section spec.
Context {A : Type} `{!Kmem A} `{!Console A} (ops : fs_ops A).
Implicit Types s : vstate A.

(** Table [t] holds [M], and [fuel] is enough to walk its buckets. *)
Definition vtable (fuel : nat) s (t : Z) (M : gmap (list Z) Z) : Prop :=
  exists B, table_repr (vh s) t B M /\ forall b, b ∈ B -> (length b < fuel)%nat.

(** The memory has room for an entry with a key of [len] bytes and is [m']
    afterwards. *)
Definition room (h : hstate A) (len : Z) (m' : A) : Prop :=
  exists a k m1, km_cache_alloc (hash_entry_cache h) (hmem h) = Ret a m1 /\
    km_malloc len m1 = Ret k m' /\ a <> NULL /\ k <> NULL /\
    hentries h !! a = None /\ hkeys h !! k = None.

Lemma set_vh_same s : set_vh (vh s) s = s.
Proof. by destruct s. Qed.

Lemma vtable_get fuel s t M key : vtable fuel s t M ->
  on_hash (hashtable_get fuel t key) s = Ret (M !! key) s.
Proof.
  intros (B & H & Hf). unfold on_hash.
  rewrite (klift_ret vh set_vh _ s _ _ (hashtable_get_run fuel (vh s) t B M key H Hf)).
  by rewrite set_vh_same.
Qed.

Lemma vtable_set_new fuel s t M key v m' :
  vtable fuel s t M -> M !! key = None -> room (vh s) (Z.of_nat (length key)) m' ->
  exists h', on_hash (hashtable_set fuel t v key) s = Ret 0 (set_vh h' s) /\
    vtable (Datatypes.S fuel) (set_vh h' s) t (<[key := v]> M).
Proof.
  intros (B & H & Hf) HM (a & k & m1 & Ea & Ek & Ha & Hk & Hae & Hke).
  destruct (hashtable_set_insert fuel (vh s) t B M key v a k m1 m' H Hf HM Ea Ek Ha Hk Hae Hke)
    as (h' & B' & R & H' & _ & Hl).
  exists h'. split; [by apply (klift_ret vh set_vh _ s)|]. exists B'. split; [exact H'|].
  intros b' Hb'. destruct (Hl b' Hb') as (b & Hb & Hle). specialize (Hf b Hb). lia.
Qed.

Lemma vtable_set_old fuel s t M key v v0 :
  vtable fuel s t M -> M !! key = Some v0 ->
  exists h', on_hash (hashtable_set fuel t v key) s = Ret 0 (set_vh h' s) /\
    vtable fuel (set_vh h' s) t (<[key := v]> M).
Proof.
  intros (B & H & Hf) HM.
  destruct (hashtable_set_update fuel (vh s) t B M key v v0 H Hf HM) as (h' & B' & R & H' & Hl).
  exists h'. split; [by apply (klift_ret vh set_vh _ s)|]. exists B'. split; [exact H'|].
  intros b' Hb'. destruct (Hl b' Hb') as (b & Hb & ->). by apply Hf.
Qed.

(** A lock taken and given back leaves the interrupt flag it found. *)
Lemma section_run (l : slens (vstate A)) `{!SlensOk l} s :
  lock (sl_get l s) = false -> spinlock_acquire l s = Ret tt (locked l s).
Proof. intros E. rewrite (spinlock_acquire_run l s). by rewrite E. Qed.

(** The state after a critical section of [l] entered from [s]; the section
    itself changed the rest. *)
Definition freed (l : slens (vstate A)) (i : bool) s : vstate A :=
  set_if i (sl_set l (Spinlock false i) s).

Lemma section_end (l : slens (vstate A)) `{!SlensOk l} s i :
  get_if s = false -> sl_get l s = Spinlock true i -> spinlock_release l s = Ret tt (freed l i s).
Proof. intros Ei El. rewrite (spinlock_release_run l s Ei). by rewrite El. Qed.

(** ** The vnode cache *)

Lemma lookup_locked_run fuel s M vfsp nodeid out : vtable fuel s VNODE_TABLE M ->
  vnode_cache_lookup_locked fuel vfsp nodeid out s
  = Ret (match M !! create_vnode_key vfsp nodeid with Some vp => (0, vp) | None => (-1, out) end) s.
Proof.
  intros H. unfold vnode_cache_lookup_locked.
  by rewrite (kbind_ret _ _ _ _ _ (vtable_get fuel s VNODE_TABLE M _ H)).
Qed.

Definition counted s (vp : Z) (v : vnode_t) : vstate A :=
  set_vnodes (<[vp := vn_set_count (u32 (v_count v + 1)) v]> (vnodes s)) s.

(** A successful lookup takes a reference, and leaves the caller's variable
    as it was. *)
Lemma cache_lookup_hit fuel s M vfsp nodeid o vp v :
  vfsp <> NULL -> vtable fuel s VNODE_TABLE M ->
  M !! create_vnode_key vfsp nodeid = Some vp -> vp <> NULL -> vnodes s !! vp = Some v ->
  lock (vnode_table_lock s) = false ->
  vnode_cache_lookup fuel vfsp nodeid (Some o) s
  = Ret (0, Some o) (freed vnode_spin (vintr s) (counted s vp v)).
Proof.
  intros Hv Ht HM Hvp E Hl. unfold vnode_cache_lookup. destruct (Z.eqb_spec vfsp NULL); [done|].
  rewrite bool_decide_false by done. cbn [orb].
  rewrite (kbind_ret _ _ _ _ _ (section_run vnode_spin s Hl)).
  set (s1 := locked vnode_spin s). assert (Ht1 : vtable fuel s1 VNODE_TABLE M) by exact Ht.
  rewrite (kbind_ret _ _ _ _ _ (lookup_locked_run fuel s1 M vfsp nodeid NULL Ht1)), HM.
  change (negb (0 =? 0)) with false. destruct (Z.eqb_spec vp NULL); [done|]. cbn [orb].
  rewrite (kbind_ret _ _ _ _ _ (vnode_ref_run s1 vp v E Hvp)).
  set (s2 := set_vnodes _ s1).
  by rewrite (kbind_ret _ _ _ _ _ (section_end vnode_spin s2 (vintr s) eq_refl eq_refl)).
Qed.

Lemma cache_lookup_miss fuel s M vfsp nodeid o :
  vfsp <> NULL -> vtable fuel s VNODE_TABLE M -> M !! create_vnode_key vfsp nodeid = None ->
  lock (vnode_table_lock s) = false ->
  vnode_cache_lookup fuel vfsp nodeid (Some o) s = Ret (- ENOENT, Some o) (freed vnode_spin (vintr s) s).
Proof.
  intros Hv Ht HM Hl. unfold vnode_cache_lookup. destruct (Z.eqb_spec vfsp NULL); [done|].
  rewrite bool_decide_false by done. cbn [orb].
  rewrite (kbind_ret _ _ _ _ _ (section_run vnode_spin s Hl)).
  set (s1 := locked vnode_spin s). assert (Ht1 : vtable fuel s1 VNODE_TABLE M) by exact Ht.
  rewrite (kbind_ret _ _ _ _ _ (lookup_locked_run fuel s1 M vfsp nodeid NULL Ht1)), HM.
  change (negb (-1 =? 0) || (NULL =? NULL)) with true. cbv iota.
  by rewrite (kbind_ret _ _ _ _ _ (section_end vnode_spin s1 (vintr s) eq_refl eq_refl)).
Qed.

(** A fresh vnode enters the cache. *)
Lemma vnode_got_new fuel s M vfsp nodeid vp v m' :
  vtable fuel s VNODE_TABLE M -> M !! create_vnode_key vfsp nodeid = None ->
  vnodes s !! vp = Some v -> lock (vnode_table_lock s) = false -> room (vh s) 16 m' ->
  exists s', vnode_got ops fuel vfsp nodeid vp s = Ret (0, Some vp) s' /\
    vtable (Datatypes.S fuel) s' VNODE_TABLE (<[create_vnode_key vfsp nodeid := vp]> M) /\
    vnodes s' = <[vp := vn_set_vfsp vfsp v]> (vnodes s) /\ vintr s' = vintr s /\
    lock (vnode_table_lock s') = false.
Proof.
  intros Ht HM E Hl Hr. unfold vnode_got. rewrite (kbind_ret _ _ _ _ _ (upd_vnode_run s vp _ v E)).
  set (s0 := set_vnodes _ s).
  rewrite (kbind_ret _ _ _ _ _ (section_run vnode_spin s0 Hl)).
  set (s1 := locked vnode_spin s0). assert (Ht1 : vtable fuel s1 VNODE_TABLE M) by exact Ht.
  rewrite (kbind_ret _ _ _ _ _ (lookup_locked_run fuel s1 M vfsp nodeid NULL Ht1)), HM.
  change ((-1 =? 0) && negb (NULL =? NULL)) with false. cbv iota.
  destruct (vtable_set_new fuel s1 VNODE_TABLE M (create_vnode_key vfsp nodeid) vp m' Ht1 HM)
    as (h' & R & Ht2); [exact Hr|].
  unfold vnode_cache_insert_locked. rewrite (kbind_ret _ _ _ _ _ R).
  set (s2 := set_vh h' s1) in *.
  rewrite (kbind_ret _ _ _ _ _ (section_end vnode_spin s2 (vintr s) eq_refl eq_refl)).
  eexists. split; [reflexivity|]. split; [exact Ht2|]. by split_and!.
Qed.

(** Another thread was faster: its vnode is the answer, ours is given up. *)
Lemma vnode_got_race fuel s M vfsp nodeid vp v ex e s' :
  vtable fuel s VNODE_TABLE M -> M !! create_vnode_key vfsp nodeid = Some ex -> ex <> NULL ->
  vnodes s !! vp = Some v -> ex <> vp -> vnodes s !! ex = Some e ->
  lock (vnode_table_lock s) = false ->
  vnode_unref ops fuel vp
    (freed vnode_spin (vintr s) (counted (set_vnodes (<[vp := vn_set_vfsp vfsp v]> (vnodes s)) s) ex e))
  = Ret tt s' ->
  vnode_got ops fuel vfsp nodeid vp s = Ret (0, Some ex) s'.
Proof.
  intros Ht HM Hex E Hne Ee Hl Hu. unfold vnode_got. rewrite (kbind_ret _ _ _ _ _ (upd_vnode_run s vp _ v E)).
  set (s0 := set_vnodes _ s) in *.
  rewrite (kbind_ret _ _ _ _ _ (section_run vnode_spin s0 Hl)).
  set (s1 := locked vnode_spin s0). assert (Ht1 : vtable fuel s1 VNODE_TABLE M) by exact Ht.
  rewrite (kbind_ret _ _ _ _ _ (lookup_locked_run fuel s1 M vfsp nodeid NULL Ht1)), HM.
  destruct (Z.eqb_spec ex NULL); [done|]. change (0 =? 0) with true. cbn [andb negb].
  assert (Ee1 : vnodes s1 !! ex = Some e) by (cbn; by rewrite lookup_insert_ne).
  rewrite (kbind_ret _ _ _ _ _ (vnode_ref_run s1 ex e Ee1 Hex)).
  set (s2 := set_vnodes _ s1).
  rewrite (kbind_ret _ _ _ _ _ (section_end vnode_spin s2 (vintr s) eq_refl eq_refl)).
  by rewrite (kbind_ret _ _ _ _ _ Hu).
Qed.

(** ** Keys *)

Lemma c_string_app l r : Forall (fun b => b <> 0) l -> c_string (l ++ 0 :: r) = l.
Proof.
  induction 1 as [|b l Hb _ IH]; [done|]. cbn. destruct (Z.eqb_spec b 0); [done|]. by rewrite IH.
Qed.

Lemma strlcpy_array_short size l old : (length l < size)%nat ->
  strlcpy_array size l old = l ++ 0 :: drop (length l + 1) old.
Proof. intros H. unfold strlcpy_array. by rewrite take_ge by lia. Qed.

Lemma c_string_strlcpy size l old : (length l < size)%nat -> Forall (fun b => b <> 0) l ->
  c_string (strlcpy_array size l old) = l.
Proof. intros Hs Hl. rewrite strlcpy_array_short by done. by apply c_string_app. Qed.

(** Two keys of the same directory and name are the same when the bytes the
    variables held after the name were. *)
Lemma namecache_key_eq j1 j2 dvp name : (length name < 256)%nat ->
  make_namecache_key j1 dvp name = make_namecache_key j2 dvp name
  <-> drop (length name + 1) j1 = drop (length name + 1) j2.
Proof.
  intros Hn. unfold make_namecache_key. rewrite !strlcpy_array_short by (unfold NAME_MAX; lia).
  split; [|by intros ->]. intros H%(inj _)%(inj _). by injection H.
Qed.

Lemma get_vfs_run s p f : filesystems s !! p = Some f -> get_vfs p s = Ret f s.
Proof. intros E. unfold get_vfs. krun. by rewrite E. Qed.

Lemma upd_vfs_run s p f x : filesystems s !! p = Some x ->
  upd_vfs p f s = Ret tt (set_filesystems (<[p := f x]> (filesystems s)) s).
Proof. intros E. unfold upd_vfs. by rewrite (kbind_ret _ _ _ _ _ (get_vfs_run _ _ _ E)). Qed.

(** ** Mounting *)

(** The file system after [vfs_mount_fs] filled it in, before and after its
    path. *)
Definition mounting (covered flags : Z) (fs : vfs_t) : vfs_t :=
  vf_set_next NULL (vf_set_flag (u32 flags) (vf_set_covered covered fs)).
Definition mounted (covered flags : Z) (path : list Z) (fs : vfs_t) : vfs_t :=
  vf_set_path (strlcpy_array VFS_MOUNT_PATH_MAX path (vfs_mount_path fs)) (mounting covered flags fs).

(** The vnodes with [d] more references to the covered one. *)
Definition covering (covered : Z) (V : gmap Z vnode_t) : gmap Z vnode_t :=
  match V !! covered with
  | Some v => if decide (covered = NULL) then V else <[covered := vn_set_count (u32 (v_count v + 1)) v]> V
  | None => V
  end.

Lemma cover_run s covered : (covered <> NULL -> is_Some (vnodes s !! covered)) ->
  kwhen (negb (covered =? NULL)) (vnode_ref covered) s = Ret tt (set_vnodes (covering covered (vnodes s)) s).
Proof.
  intros H. unfold covering. destruct (Z.eqb_spec covered NULL) as [->|Hne]; cbn [negb kwhen].
  - destruct (vnodes s !! NULL); [rewrite decide_True by done|]; by destruct s.
  - destruct (H Hne) as [v E]. rewrite E, decide_False by done. by apply vnode_ref_run.
Qed.

Lemma mount_prefix s vfsp covered flags fs :
  filesystems s !! vfsp = Some fs -> (covered <> NULL -> is_Some (vnodes s !! covered)) ->
  (upd_vfs vfsp (vf_set_covered covered);;
   upd_vfs vfsp (vf_set_flag (u32 flags));;
   upd_vfs vfsp (vf_set_next NULL);;
   kwhen (negb (covered =? NULL)) (vnode_ref covered)) s
  = Ret tt (set_vnodes (covering covered (vnodes s))
      (set_filesystems (<[vfsp := mounting covered flags fs]> (filesystems s)) s)).
Proof.
  intros E Hc. rewrite (kbind_ret _ _ _ _ _ (upd_vfs_run s vfsp _ fs E)).
  erewrite kbind_ret by (apply upd_vfs_run; apply lookup_insert_eq).
  erewrite kbind_ret by (apply upd_vfs_run; apply lookup_insert_eq).
  rewrite cover_run by done. cbn. by rewrite !insert_insert_eq.
Qed.

Lemma mount_run fuel s M vfsp covered path flags fs o mount m' s2 :
  vfsp <> NULL -> filesystems s !! vfsp = Some fs -> vfs_op fs <> NULL ->
  vfsops_at ops (vfs_op fs) = Some o -> vfs_mount o = Some mount ->
  (covered <> NULL -> is_Some (vnodes s !! covered)) ->
  let s1 := set_vnodes (covering covered (vnodes s))
      (set_filesystems (<[vfsp := mounting covered flags fs]> (filesystems s)) s) in
  mount vfsp covered path flags s1 = Ret 0 s2 ->
  filesystems s2 = filesystems s1 -> lock (mount_table_lock s2) = false ->
  (length path < 256)%nat -> Forall (fun b => b <> 0) path ->
  vtable fuel s2 MOUNT_TABLE M -> M !! (path ++ [0]) = None -> room (vh s2) (Z.of_nat (length path) + 1) m' ->
  exists s', vfs_mount_fs ops fuel vfsp covered (Some path) flags s = Ret 0 s' /\
    vtable (Datatypes.S fuel) s' MOUNT_TABLE (<[path ++ [0] := vfsp]> M) /\
    filesystems s' = <[vfsp := mounted covered flags path fs]> (filesystems s) /\
    vnodes s' = vnodes s2 /\ vintr s' = vintr s2 /\ lock (mount_table_lock s') = false.
Proof.
  intros Hv Efs Hop Eo Em Hc s1 Hm Efs2 Hl Hp Hz Ht HM Hr.
  unfold vfs_mount_fs. destruct (Z.eqb_spec vfsp NULL); [done|].
  rewrite (kbind_ret _ _ _ _ _ (get_vfs_run s vfsp fs Efs)).
  rewrite (kbind_ret _ _ s (Some o) s).
  2:{ unfold ops_of. destruct (Z.eqb_spec (vfs_op fs) NULL); [done|]. by rewrite Eo. }
  cbn [mbind option_bind]. rewrite Em.
  pose proof (mount_prefix s vfsp covered flags fs Efs Hc) as Hpre. fold s1 in Hpre.
  apply kbind_inv in Hpre as ([] & sa & R1 & Hpre). rewrite (kbind_ret _ _ _ _ _ R1).
  apply kbind_inv in Hpre as ([] & sb & R2 & Hpre). rewrite (kbind_ret _ _ _ _ _ R2).
  apply kbind_inv in Hpre as ([] & sc & R3 & Hpre). rewrite (kbind_ret _ _ _ _ _ R3).
  rewrite (kbind_ret _ _ _ _ _ Hpre), (kbind_ret _ _ _ _ _ Hm).
  change (negb (0 =? 0)) with false. cbv iota.
  assert (E2 : filesystems s2 !! vfsp = Some (mounting covered flags fs))
    by (rewrite Efs2; apply lookup_insert_eq).
  rewrite (kbind_ret _ _ _ _ _ (upd_vfs_run s2 vfsp _ _ E2)).
  set (s3 := set_filesystems _ s2). cbv beta in s3.
  rewrite (kbind_ret _ _ _ _ _ (section_run mount_spin s3 Hl)).
  set (s4 := locked mount_spin s3).
  assert (E4 : filesystems s4 !! vfsp = Some (mounted covered flags path fs)) by apply lookup_insert_eq.
  rewrite (kbind_ret _ _ _ _ _ (get_vfs_run s4 vfsp _ E4)).
  cbn [vfs_mount_path mounted vf_set_path]. rewrite c_string_strlcpy by done.
  assert (Ht4 : vtable fuel s4 MOUNT_TABLE M) by exact Ht.
  destruct (vtable_set_new fuel s4 MOUNT_TABLE M (path ++ [0]) vfsp m' Ht4 HM) as (h' & R & Ht5).
  { rewrite length_app. cbn [length]. replace (Z.of_nat (length path + 1)) with (Z.of_nat (length path) + 1) by lia.
    exact Hr. }
  rewrite (kbind_ret _ _ _ _ _ R). set (s5 := set_vh h' s4) in *.
  rewrite (kbind_ret _ _ _ _ _ (section_end mount_spin s5 (vintr s2) eq_refl eq_refl)).
  eexists. split; [reflexivity|]. split; [exact Ht5|]. split_and!; try done.
  cbn. rewrite Efs2. cbn. by rewrite insert_insert_eq.
Qed.

Lemma from_path_run fuel s M path : vtable fuel s MOUNT_TABLE M -> lock (mount_table_lock s) = false ->
  vfs_from_path fuel (Some path) s = Ret (default NULL (M !! (path ++ [0]))) (freed mount_spin (vintr s) s).
Proof.
  intros Ht Hl. unfold vfs_from_path. rewrite (kbind_ret _ _ _ _ _ (section_run mount_spin s Hl)).
  set (s1 := locked mount_spin s). assert (Ht1 : vtable fuel s1 MOUNT_TABLE M) by exact Ht.
  rewrite (kbind_ret _ _ _ _ _ (vtable_get fuel s1 MOUNT_TABLE M _ Ht1)).
  by rewrite (kbind_ret _ _ _ _ _ (section_end mount_spin s1 (vintr s) eq_refl eq_refl)).
Qed.

Lemma mount_fails fuel s vfsp covered path flags fs o mount ret s2 :
  vfsp <> NULL -> filesystems s !! vfsp = Some fs -> vfs_op fs <> NULL ->
  vfsops_at ops (vfs_op fs) = Some o -> vfs_mount o = Some mount ->
  (covered <> NULL -> is_Some (vnodes s !! covered)) ->
  mount vfsp covered path flags (set_vnodes (covering covered (vnodes s))
      (set_filesystems (<[vfsp := mounting covered flags fs]> (filesystems s)) s)) = Ret ret s2 ->
  ret <> 0 -> (0 < fuel)%nat ->
  (covered <> NULL -> exists v, vnodes s2 !! covered = Some v /\ 1 < v_count v < 2 ^ 32) ->
  exists s', vfs_mount_fs ops fuel vfsp covered (Some path) flags s = Ret ret s' /\ vh s' = vh s2 /\
    filesystems s' = filesystems s2 /\
    (covered <> NULL -> v_count <$> vnodes s' !! covered = (fun v => v_count v - 1) <$> vnodes s2 !! covered) /\
    forall a, a <> covered \/ covered = NULL -> vnodes s' !! a = vnodes s2 !! a.
Proof.
  intros Hv Efs Hop Eo Em Hc Hm Hr Hf Hcov.
  unfold vfs_mount_fs. destruct (Z.eqb_spec vfsp NULL); [done|].
  rewrite (kbind_ret _ _ _ _ _ (get_vfs_run s vfsp fs Efs)).
  rewrite (kbind_ret _ _ s (Some o) s).
  2:{ unfold ops_of. destruct (Z.eqb_spec (vfs_op fs) NULL); [done|]. by rewrite Eo. }
  cbn [mbind option_bind]. rewrite Em.
  pose proof (mount_prefix s vfsp covered flags fs Efs Hc) as Hpre.
  apply kbind_inv in Hpre as ([] & sa & R1 & Hpre). rewrite (kbind_ret _ _ _ _ _ R1).
  apply kbind_inv in Hpre as ([] & sb & R2 & Hpre). rewrite (kbind_ret _ _ _ _ _ R2).
  apply kbind_inv in Hpre as ([] & sc & R3 & Hpre). rewrite (kbind_ret _ _ _ _ _ R3).
  rewrite (kbind_ret _ _ _ _ _ Hpre), (kbind_ret _ _ _ _ _ Hm).
  destruct (Z.eqb_spec ret 0); [done|]. cbn [negb].
  destruct (Z.eqb_spec covered NULL) as [->|Hne]; cbn [negb kwhen].
  - exists s2. do 4 (split; [done | ]). done.
  - destruct (Hcov Hne) as (v & Ev & Hcv). destruct fuel as [|d]; [lia|].
    unfold Vnode.vnode_unref. rewrite (kbind_ret _ _ _ _ _ (unref_kept ops d s2 covered v Ev Hne Hcv)).
    eexists. split; [reflexivity|]. do 2 (split; [done | ]). split.
    + intros _. cbn. by rewrite lookup_insert_eq, Ev.
    + intros a [Ha|]; [|done]. cbn. by apply lookup_insert_ne, not_eq_sym.
Qed.

(** ** The name cache *)

Lemma namecache_lookup_run fuel s M junk dvp name o : dvp <> NULL ->
  vtable fuel s NAMECACHE_TABLE M -> lock (namecache_lock s) = false ->
  (forall vp, M !! make_namecache_key junk dvp name = Some vp -> vp <> NULL /\ is_Some (vnodes s !! vp)) ->
  namecache_lookup fuel junk dvp (Some name) (Some o) s
  = match M !! make_namecache_key junk dvp name ≫= fun vp => pair vp <$> vnodes s !! vp with
    | Some (vp, v) => Ret (0, Some vp) (freed namecache_spin (vintr s) (counted s vp v))
    | None => Ret (- ENOENT, Some o) (freed namecache_spin (vintr s) s)
    end.
Proof.
  intros Hd Ht Hl Hk. unfold namecache_lookup. destruct (Z.eqb_spec dvp NULL); [done|].
  rewrite (kbind_ret _ _ _ _ _ (section_run namecache_spin s Hl)).
  set (s1 := locked namecache_spin s). assert (Ht1 : vtable fuel s1 NAMECACHE_TABLE M) by exact Ht.
  rewrite (kbind_ret _ _ _ _ _ (vtable_get fuel s1 NAMECACHE_TABLE M _ Ht1)).
  destruct (M !! _) as [vp|] eqn:HM; cbn [from_option id mbind option_bind].
  - destruct (Hk vp eq_refl) as [Hvp [v E]]. rewrite E. cbn [fmap option_fmap option_map].
    destruct (Z.eqb_spec vp NULL); [done|].
    assert (E1 : vnodes s1 !! vp = Some v) by exact E.
    rewrite (kbind_ret _ _ _ _ _ (vnode_ref_run s1 vp v E1 Hvp)). set (s2 := set_vnodes _ s1).
    by rewrite (kbind_ret _ _ _ _ _ (section_end namecache_spin s2 (vintr s) eq_refl eq_refl)).
  - change (NULL =? NULL) with true. cbv iota.
    by rewrite (kbind_ret _ _ _ _ _ (section_end namecache_spin s1 (vintr s) eq_refl eq_refl)).
Qed.

(** An entry, new or in the place of another one. *)
Lemma namecache_enter_run fuel s M junk dvp name vp v m' : dvp <> NULL -> vp <> NULL ->
  vtable fuel s NAMECACHE_TABLE M -> lock (namecache_lock s) = false ->
  vnodes s !! vp = Some v ->
  (M !! make_namecache_key junk dvp name = None ->
     room (vh s) (Z.of_nat (length (make_namecache_key junk dvp name))) m') ->
  exists h', namecache_enter ops fuel junk dvp (Some name) vp s
    = Ret 0 (freed namecache_spin (vintr s) (set_vh h' (counted s vp v))) /\
    vtable (Datatypes.S fuel) (set_vh h' s) NAMECACHE_TABLE (<[make_namecache_key junk dvp name := vp]> M).
Proof.
  intros Hd Hvp Ht Hl E Hr. unfold namecache_enter.
  destruct (Z.eqb_spec dvp NULL); [done|]. destruct (Z.eqb_spec vp NULL); [done|]. cbn [orb].
  rewrite (kbind_ret _ _ _ _ _ (vnode_ref_run s vp v E Hvp)). set (s0 := set_vnodes _ s).
  rewrite (kbind_ret _ _ _ _ _ (section_run namecache_spin s0 Hl)).
  set (s1 := locked namecache_spin s0). assert (Ht1 : vtable fuel s1 NAMECACHE_TABLE M) by exact Ht.
  assert (exists h', on_hash (hashtable_set fuel NAMECACHE_TABLE vp (make_namecache_key junk dvp name)) s1
            = Ret 0 (set_vh h' s1) /\
            vtable (Datatypes.S fuel) (set_vh h' s1) NAMECACHE_TABLE (<[make_namecache_key junk dvp name := vp]> M))
    as (h' & R & Ht2).
  { destruct (M !! make_namecache_key junk dvp name) as [v0|] eqn:HM.
    - destruct (vtable_set_old fuel s1 NAMECACHE_TABLE M _ vp v0 Ht1 HM) as (h' & R & B & H & Hf).
      exists h'. split; [exact R|]. exists B. split; [exact H|]. intros b Hb. specialize (Hf b Hb). lia.
    - by apply (vtable_set_new fuel s1 NAMECACHE_TABLE M _ vp m' Ht1 HM), Hr. }
  exists h'. split; [|exact Ht2]. rewrite (kbind_ret _ _ _ _ _ R). set (s2 := set_vh h' s1).
  by rewrite (kbind_ret _ _ _ _ _ (section_end namecache_spin s2 (vintr s) eq_refl eq_refl)).
Qed.
End spec.

(** C23: on a vnode that is not cached, [vnode_get] asks the file system for
    it: NULL arguments, a file system without [vfs_vget], its error and its
    NULL answer give -EINVAL, -ENOSYS, the error and -EIO with the caller's
    variable untouched; a new vnode is entered in the cache for its file
    system and answered; one that another thread entered meanwhile is
    answered, with a new reference, and ours is given up. *)
Theorem vnode_get_uncached {A} `{!Kmem A} `{!Console A} (ops : fs_ops A) fuel (s : vstate A) vfsp out nodeid :
  (vfsp = NULL \/ out = None -> vnode_get ops fuel vfsp out nodeid s = Ret (- EINVAL, out) s) /\
  forall M fs, vfsp <> NULL -> out <> None -> vtable fuel s VNODE_TABLE M ->
  M !! create_vnode_key vfsp nodeid = None -> lock (vnode_table_lock s) = false ->
  filesystems s !! vfsp = Some fs ->
  let s1 := freed vnode_spin (vintr s) s in
  (vfs_op fs = NULL -> vnode_get ops fuel vfsp out nodeid s = Ret (- ENOSYS, out) s1) /\
  forall o, vfs_op fs <> NULL -> vfsops_at ops (vfs_op fs) = Some o ->
  match vfs_vget o with
  | None => vnode_get ops fuel vfsp out nodeid s = Ret (- ENOSYS, out) s1
  | Some vget => forall ret vp s2, vget vfsp NULL nodeid s1 = Ret (ret, vp) s2 ->
      (ret <> 0 -> vnode_get ops fuel vfsp out nodeid s = Ret (ret, out) s2) /\
      (ret = 0 -> vp = NULL -> vnode_get ops fuel vfsp out nodeid s = Ret (- EIO, out) s2) /\
      forall M2 v, ret = 0 -> vp <> NULL -> vtable fuel s2 VNODE_TABLE M2 -> vnodes s2 !! vp = Some v ->
        lock (vnode_table_lock s2) = false ->
        match M2 !! create_vnode_key vfsp nodeid with
        | None => forall m', room (vh s2) 16 m' ->
            exists s', vnode_get ops fuel vfsp out nodeid s = Ret (0, Some vp) s' /\
              vtable (Datatypes.S fuel) s' VNODE_TABLE (<[create_vnode_key vfsp nodeid := vp]> M2) /\
              vnodes s' = <[vp := vn_set_vfsp vfsp v]> (vnodes s2) /\ vintr s' = vintr s2 /\
              lock (vnode_table_lock s') = false
        | Some ex => forall e s', ex <> NULL -> ex <> vp -> vnodes s2 !! ex = Some e ->
            vnode_unref ops fuel vp (freed vnode_spin (vintr s2)
              (counted (set_vnodes (<[vp := vn_set_vfsp vfsp v]> (vnodes s2)) s2) ex e)) = Ret tt s' ->
            vnode_get ops fuel vfsp out nodeid s = Ret (0, Some ex) s'
        end
  end.
Proof.
  split.
  - intros H. unfold vnode_get. destruct (Z.eqb_spec vfsp NULL) as [|Hne]; [done|].
    destruct H as [H| ->]; [done|]. by rewrite bool_decide_true.
  - intros M fs Hv Ho Ht HM Hl Hfs. destruct out as [o0|]; [|done]. cbv zeta.
    set (s1 := freed _ _ _).
    assert (Efs : filesystems s1 !! vfsp = Some fs) by exact Hfs.
    unfold vnode_get. destruct (Z.eqb_spec vfsp NULL); [done|]. rewrite bool_decide_false by done.
    cbn [orb]. rewrite !(kbind_ret _ _ _ _ _ (cache_lookup_miss fuel s M vfsp nodeid NULL Hv Ht HM Hl)).
    change (- ENOENT =? 0) with false. cbv iota. fold s1.
    rewrite !(kbind_ret _ _ _ _ _ (get_vfs_run s1 vfsp fs Efs)).
    split; [by intros ->|]. intros o Hop Eo. destruct (Z.eqb_spec (vfs_op fs) NULL); [done|].
    rewrite Eo, !(kbind_ret (kderef (Some o)) _ s1 o s1) by reflexivity.
    destruct (vfs_vget o) as [vget|]; [|done]. intros ret vp s2 Eg. cbn [from_option id].
    change (from_option (fun x => x) NULL (Some NULL)) with NULL.
    rewrite !(kbind_ret _ _ _ _ _ Eg). split; [|split].
    + intros Hr. by destruct (Z.eqb_spec ret 0).
    + intros -> ->. done.
    + intros M2 v -> Hvp Ht2 Ev Hl2. change (negb (0 =? 0)) with false. cbv iota.
      destruct (Z.eqb_spec vp NULL); [done|].
      destruct (M2 !! _) as [ex|] eqn:HM2.
      * intros e s' Hex Hne Ee Hu. by apply (vnode_got_race ops fuel s2 M2 vfsp nodeid vp v ex e s').
      * intros m' Hr. by apply (vnode_got_new ops fuel s2 M2 vfsp nodeid vp v m').
Qed.

(** On a vnode that is in the cache [vnode_get] reports success but
    leaves NULL in the caller's variable, while the vnode's reference count
    has gone up: [vnode_cache_lookup] never stores what it found. *)
Theorem vnode_get_cached_answers_null {A} `{!Kmem A} `{!Console A} (ops : fs_ops A) fuel (s : vstate A)
    vfsp o nodeid M vp v :
  vfsp <> NULL -> vtable fuel s VNODE_TABLE M ->
  M !! create_vnode_key vfsp nodeid = Some vp -> vp <> NULL -> vnodes s !! vp = Some v ->
  lock (vnode_table_lock s) = false ->
  exists s', vnode_get ops fuel vfsp (Some o) nodeid s = Ret (0, Some NULL) s' /\
    vnodes s' = <[vp := vn_set_count (u32 (v_count v + 1)) v]> (vnodes s) /\ vh s' = vh s /\
    vintr s' = vintr s /\ lock (vnode_table_lock s') = false.
Proof.
  intros Hv Ht HM Hvp E Hl. eexists. split.
  - unfold vnode_get. destruct (Z.eqb_spec vfsp NULL); [done|]. rewrite bool_decide_false by done.
    cbn [orb]. rewrite (kbind_ret _ _ _ _ _ (cache_lookup_hit fuel s M vfsp nodeid NULL vp v Hv Ht HM Hvp E Hl)).
    reflexivity.
  - by split_and!.
Qed.


(** A name entered in the cache is found again exactly when the bytes that
    the two key variables held behind the name are the same: they are part of
    the hashed key and nothing initialises them.  The entry and each
    successful lookup take a reference. *)
Theorem namecache_finds_same_junk {A} `{!Kmem A} `{!Console A} (ops : fs_ops A) fuel (s : vstate A)
    M j1 j2 dvp name vp v m' :
  dvp <> NULL -> vp <> NULL -> vtable fuel s NAMECACHE_TABLE M -> lock (namecache_lock s) = false ->
  vnodes s !! vp = Some v -> (length name < 256)%nat -> 0 <= v_count v < 2 ^ 32 - 2 ->
  (forall k, k ∈ [j1; j2] -> M !! make_namecache_key k dvp name = None) ->
  room (vh s) (Z.of_nat (length (make_namecache_key j1 dvp name))) m' ->
  exists s1 s2, namecache_enter ops fuel j1 dvp (Some name) vp s = Ret 0 s1 /\
    vintr s1 = vintr s /\ lock (namecache_lock s1) = false /\
    if decide (drop (length name + 1) j1 = drop (length name + 1) j2)
    then namecache_lookup (Datatypes.S fuel) j2 dvp (Some name) (Some NULL) s1 = Ret (0, Some vp) s2 /\
         vnodes s2 = <[vp := vn_set_count (v_count v + 2) v]> (vnodes s)
    else namecache_lookup (Datatypes.S fuel) j2 dvp (Some name) (Some NULL) s1 = Ret (- ENOENT, Some NULL) s2 /\
         vnodes s2 = <[vp := vn_set_count (v_count v + 1) v]> (vnodes s).
Proof.
  intros Hd Hvp Ht Hl E Hn Hc HM Hr.
  destruct (namecache_enter_run ops fuel s M j1 dvp name vp v m' Hd Hvp Ht Hl E (fun _ => Hr)) as (h' & R & Ht').
  set (s1 := freed _ _ _) in R. exists s1.
  assert (Ht1 : vtable (Datatypes.S fuel) s1 NAMECACHE_TABLE (<[make_namecache_key j1 dvp name := vp]> M))
    by exact Ht'.
  assert (E1 : vnodes s1 !! vp = Some (vn_set_count (v_count v + 1) v)).
  { cbn. rewrite lookup_insert_eq. rewrite wrap_small by lia. done. }
  assert (Hk : make_namecache_key j1 dvp name = make_namecache_key j2 dvp name
               <-> drop (length name + 1) j1 = drop (length name + 1) j2) by by apply namecache_key_eq.
  assert (Hlk : (<[make_namecache_key j1 dvp name := vp]> M) !! make_namecache_key j2 dvp name
                = if decide (drop (length name + 1) j1 = drop (length name + 1) j2) then Some vp else None).
  { destruct (decide _) as [Ej|Ej].
    - apply Hk in Ej. rewrite Ej. apply lookup_insert_eq.
    - rewrite lookup_insert_ne by (by rewrite Hk). apply HM. set_solver. }
  pose proof (namecache_lookup_run (Datatypes.S fuel) s1 _ j2 dvp name NULL Hd Ht1 eq_refl) as RL.
  rewrite Hlk in RL. specialize (RL ltac:(intros vp'; destruct (decide _); [intros [= <-]; by split; [|eexists]|done])).
  destruct (decide _); cbn [mbind option_bind] in RL; [rewrite E1 in RL; cbn [fmap option_fmap option_map] in RL|];
    (eexists; split; [exact R|]; split; [done|]; split; [done|]; split; [exact RL|]).
  - cbn. rewrite !insert_insert_eq. f_equal. destruct v; unfold vn_set_count. cbn in *. f_equal.
    rewrite wrap_small by lia. lia.
  - cbn. f_equal. destruct v; unfold vn_set_count. cbn in *. f_equal. by rewrite wrap_small by lia.
Qed.

(** Entering a name again for another vnode replaces the entry but keeps
    the reference the old entry held: nothing gives it back. *)
Theorem namecache_enter_leaks_replaced {A} `{!Kmem A} `{!Console A} (ops : fs_ops A) fuel (s : vstate A)
    M junk dvp name old vp v :
  dvp <> NULL -> vp <> NULL -> vtable fuel s NAMECACHE_TABLE M -> lock (namecache_lock s) = false ->
  vnodes s !! vp = Some v -> M !! make_namecache_key junk dvp name = Some old -> old <> vp ->
  exists s', namecache_enter ops fuel junk dvp (Some name) vp s = Ret 0 s' /\
    vtable (Datatypes.S fuel) s' NAMECACHE_TABLE (<[make_namecache_key junk dvp name := vp]> M) /\
    vnodes s' !! old = vnodes s !! old /\
    v_count <$> vnodes s' !! vp = Some (u32 (v_count v + 1)).
Proof.
  intros Hd Hvp Ht Hl E HM Hne.
  destruct (namecache_enter_run ops fuel s M junk dvp name vp v (hmem (vh s)) Hd Hvp Ht Hl E) as (h' & R & Ht').
  { by rewrite HM. }
  eexists. split; [exact R|]. split; [exact Ht'|]. cbn. split; [by rewrite lookup_insert_ne|].
  by rewrite lookup_insert_eq.
Qed.

(** ** Witnesses

    Two vnodes, 1000 with parent 1001; 1000 is cached as node 5 of the file
    system 900 and 1001 as the name "a" of the directory 1000. *)

Lemma one_bucket {A} (h : hstate A) t arr p it :
  tables h !! t = Some (HashTable 1 1 arr [p]) -> arr <> NULL -> dll h NULL p [it] ->
  table_repr h t [[it]] {[i_key it := i_val it]}.
Proof.
  intros Et Ha Hd. split; [cbn; lia| |].
  - exists 1, arr, [p]. split_and!; [exact Et|done|done|by rewrite map_size_singleton|].
    intros [|i] q b Ep Eb; [|by destruct i]. injection Ep as <-. injection Eb as <-.
    split; [exact Hd|apply NoDup_singleton|apply NoDup_singleton|].
    intros x _. by rewrite Z.mod_1_r.
  - intros key b. change (Z.of_nat (length [[it]])) with 1. rewrite Z.mod_1_r. intros [= <-]. cbn.
    destruct (decide (i_key it = key)) as [<-|Hne]; [apply lookup_singleton_eq|by apply lookup_singleton_ne].
Qed.

Lemma empty_table {A} (h : hstate A) t arr :
  tables h !! t = Some (HashTable 0 1 arr [NULL]) -> arr <> NULL -> table_repr h t [[]] ∅.
Proof.
  intros Et Ha. split; [cbn; lia| |].
  - exists 0, arr, [NULL]. split_and!; [exact Et|done|done|done|].
    intros [|i] q b Ep Eb; [|by destruct i]. injection Ep as <-. injection Eb as <-.
    split; [done|apply NoDup_nil_2|apply NoDup_nil_2|by intros x []%elem_of_nil].
  - intros key b. change (Z.of_nat (length [[] : list item])) with 1. rewrite Z.mod_1_r. by intros [= <-].
Qed.

Definition bump_Console : Console Z := {| put_event _ m := m |}.
Definition demo_junk : list Z := replicate 256 170.
Definition demo_name : list Z := make_namecache_key demo_junk 1000 [97].
Definition demo_node (count parent : Z) : vnode_t :=
  Vnode 0 count 0 0 NULL NULL parent (replicate 256 0) 900 VREG NULL.
Definition demo_fs : vfs_t := Vfs NULL 800 NULL 0 0 NULL (replicate 256 0).
Definition demo_mount : Z -> Z -> list Z -> Z -> K (vstate Z) Z := fun _ _ _ _ => mret 0.
Definition demo_ops : fs_ops Z :=
  FsOps (fun _ => None)
    (fun p => if p =? 800 then Some (VfsOps (Some demo_mount) None None (Some (fun _ _ _ => mret (0, 1001)))) else None).
Definition demo_hash : hstate Z :=
  HState (<[MOUNT_TABLE := HashTable 0 1 264 [NULL]]> (<[VNODE_TABLE := HashTable 1 1 256 [512]]>
            {[NAMECACHE_TABLE := HashTable 1 1 272 [640]]}))
    (<[512 := HashEntry NULL NULL (fnv1ahash (create_vnode_key 900 5))
                (Z.of_nat (length (create_vnode_key 900 5))) 576 1000]>
       {[640 := HashEntry NULL NULL (fnv1ahash demo_name) (Z.of_nat (length demo_name)) 704 1001]})
    (<[576 := create_vnode_key 900 5]> {[704 := demo_name]}) 128 4096.
Definition demo_vfs : vstate Z :=
  VState (<[1000 := demo_node 1 1001]> {[1001 := demo_node 2 NULL]}) {[900 := demo_fs]} demo_hash
    (Spinlock false false) (Spinlock false false) (Spinlock false false) 140 150 true.

Lemma demo_vnode_table : vtable 2 demo_vfs VNODE_TABLE {[create_vnode_key 900 5 := 1000]}.
Proof.
  exists [[Item 512 576 (create_vnode_key 900 5) 1000]]. split.
  - apply (one_bucket _ _ 256 512 (Item 512 576 (create_vnode_key 900 5) 1000)); [done|done|].
    cbn [dll i_addr i_kaddr i_key i_val]. do 2 (split; [done | ]). exists NULL.
    split; [reflexivity|]. split; [reflexivity|done].
  - intros b ->%list_elem_of_singleton. cbn. lia.
Qed.

Lemma demo_name_table : vtable 2 demo_vfs NAMECACHE_TABLE {[demo_name := 1001]}.
Proof.
  exists [[Item 640 704 demo_name 1001]]. split.
  - apply (one_bucket _ _ 272 640 (Item 640 704 demo_name 1001)); [done|done|].
    cbn [dll i_addr i_kaddr i_key i_val]. do 2 (split; [done | ]). exists NULL.
    split; [reflexivity|]. split; [reflexivity|done].
  - intros b ->%list_elem_of_singleton. cbn. lia.
Qed.

Lemma demo_mount_table : vtable 2 demo_vfs MOUNT_TABLE ∅.
Proof.
  exists [[]]. split; [by apply (empty_table _ _ 264)|].
  intros b ->%list_elem_of_singleton. cbn. lia.
Qed.

(** Giving up vnode 1000 frees it and leaves its parent one reference. *)
Lemma vnode_unref_frees_chain_witness :
  exists W, vnode_unref (Kmem0 := bump_Kmem) (Console0 := bump_Console) demo_ops 2 1000 demo_vfs
    = Ret tt (released_state demo_vfs W 4096) /\ W !! 1000 = None /\
    W !! 1001 = Some (demo_node 1 NULL).
Proof.
  pose proof (proj1 (vnode_unref_frees_chain (Kmem0 := bump_Kmem) (Console0 := bump_Console)
    demo_ops 2 demo_vfs 1000 ltac:(done)) [1000] 1001 4096) as H.
  destruct H as (W & R & HW).
  - cbn [chain]. do 2 (split; [done | ]). exists (demo_node 1 1001), 4096, 4096.
    split; [reflexivity|]. split; [done|]. split; [reflexivity|]. by split.
  - apply NoDup_singleton.
  - cbn. lia.
  - intros _. split; [by intros ?%list_elem_of_singleton|]. exists (demo_node 2 NULL). split; [reflexivity|].
    cbn. lia.
  - exists W. split; [exact R|]. rewrite !HW. by split.
Defined.

Lemma vnode_get_uncached_witness :
  exists s', vnode_get (Kmem0 := bump_Kmem) (Console0 := bump_Console) demo_ops 2 900 (Some NULL) 6 demo_vfs
    = Ret (0, Some 1001) s' /\
    vtable 3 s' VNODE_TABLE (<[create_vnode_key 900 6 := 1001]> {[create_vnode_key 900 5 := 1000]}).
Proof.
  pose proof (proj2 (vnode_get_uncached (Kmem0 := bump_Kmem) (Console0 := bump_Console)
    demo_ops 2 demo_vfs 900 (Some NULL) 6) _ demo_fs ltac:(done) ltac:(done) demo_vnode_table
    ltac:(reflexivity) ltac:(reflexivity) ltac:(reflexivity)) as [_ H].
  specialize (H _ ltac:(done) eq_refl). cbn [vfs_vget] in H.
  specialize (H _ _ _ eq_refl) as (_ & _ & H).
  specialize (H _ (demo_node 2 NULL) eq_refl ltac:(done) demo_vnode_table eq_refl eq_refl).
  change (({[create_vnode_key 900 5 := 1000]} : gmap (list Z) Z) !! create_vnode_key 900 6) with (None : option Z) in H.
  cbv iota in H. destruct (H 4176) as (s' & R & Ht & _).
  - exists 4096, 4160, 4160. by split_and!.
  - exists s'. by split.
Defined.

Lemma vnode_get_cached_answers_null_witness :
  exists s', vnode_get (Kmem0 := bump_Kmem) (Console0 := bump_Console) demo_ops 2 900 (Some 7) 5 demo_vfs
    = Ret (0, Some NULL) s' /\ vnodes s' !! 1000 = Some (demo_node 2 1001).
Proof.
  destruct (vnode_get_cached_answers_null (Kmem0 := bump_Kmem) (Console0 := bump_Console)
    demo_ops 2 demo_vfs 900 7 5 _ 1000 (demo_node 1 1001) ltac:(done) demo_vnode_table
    ltac:(reflexivity) ltac:(done) ltac:(reflexivity) ltac:(reflexivity)) as (s' & R & Ev & _).
  exists s'. split; [exact R|]. rewrite Ev. reflexivity.
Defined.


(** With other bytes behind the name the entry is not found. *)
Lemma namecache_finds_same_junk_witness :
  exists s1 s2, namecache_enter (Kmem0 := bump_Kmem) (Console0 := bump_Console) demo_ops 2 demo_junk 1000
    (Some [98]) 1001 demo_vfs = Ret 0 s1 /\
    namecache_lookup (Console0 := bump_Console) 3 (replicate 256 85) 1000 (Some [98]) (Some NULL) s1
    = Ret (- ENOENT, Some NULL) s2.
Proof.
  destruct (namecache_finds_same_junk (Kmem0 := bump_Kmem) (Console0 := bump_Console) demo_ops 2 demo_vfs
    {[demo_name := 1001]} demo_junk (replicate 256 85) 1000 [98] 1001 (demo_node 2 NULL) 4424)
    as (s1 & s2 & R & _ & _ & H).
  - done.
  - done.
  - exact demo_name_table.
  - reflexivity.
  - reflexivity.
  - cbn. lia.
  - cbn. lia.
  - intros k [->|[->|[]%elem_of_nil]%elem_of_cons]%elem_of_cons; vm_compute; reflexivity.
  - exists 4096, 4160, 4160. by split_and!.
  - rewrite decide_False in H by (vm_compute; discriminate). exists s1, s2. split; [exact R|apply H].
Defined.

Lemma namecache_enter_leaks_replaced_witness :
  exists s', namecache_enter (Kmem0 := bump_Kmem) (Console0 := bump_Console) demo_ops 2 demo_junk 1000
    (Some [97]) 1000 demo_vfs = Ret 0 s' /\ vnodes s' !! 1001 = Some (demo_node 2 NULL).
Proof.
  destruct (namecache_enter_leaks_replaced (Kmem0 := bump_Kmem) (Console0 := bump_Console) demo_ops 2 demo_vfs
    {[demo_name := 1001]} demo_junk 1000 [97] 1001 1000 (demo_node 1 1001) ltac:(done) ltac:(done)
    demo_name_table ltac:(reflexivity) ltac:(reflexivity)) as (s' & R & _ & E & _).
  - vm_compute. reflexivity.
  - done.
  - exists s'. split; [exact R|]. rewrite E. reflexivity.
Defined.
