(* ===== verification/Ports.v ===== *)
(** * Port input and output, and the devices behind it (io.h, pic.c, pit.c,
    ps2.c, kbd.c, serial.c)

    [PortIO] is the interface of a state with devices: what an [in]
    instruction of a width answers and what an [out] does.  The devices
    themselves are not code of the kernel; a theorem about one names the
    registers it relies on as a class of laws ([Pic8259]). *)

From S2P Require Import Prelude Console.
Local Open Scope Z_scope.

Class PortIO (S : Type) := {
  port_in : Z -> Z -> S -> Z * S;        (* width, port *)
  port_out : Z -> Z -> Z -> S -> S;      (* width, port, value *)
}.

Section io.
Context {S : Type} `{!PortIO S}.

(** src/include/arch/x86_64/io/io.h:10-15 [inb] *)
Definition inb (port : Z) : K S Z :=
  fun s => let '(v, s') := port_in 8 (u16 port) s in Ret (u8 v) s'.
(** src/include/arch/x86_64/io/io.h:17-20 [outb] *)
Definition outb (port data : Z) : K S unit := kmod (port_out 8 (u16 port) (u8 data)).
(** src/include/arch/x86_64/io/io.h:22-27 [inw] *)
Definition inw (port : Z) : K S Z :=
  fun s => let '(v, s') := port_in 16 (u16 port) s in Ret (u16 v) s'.
(** src/include/arch/x86_64/io/io.h:29-32 [outw] *)
Definition outw (port data : Z) : K S unit := kmod (port_out 16 (u16 port) (u16 data)).
(** src/include/arch/x86_64/io/io.h:34-39 [inl] *)
Definition inl_port (port : Z) : K S Z :=
  fun s => let '(v, s') := port_in 32 (u16 port) s in Ret (u32 v) s'.
(** src/include/arch/x86_64/io/io.h:41-44 [outl] *)
Definition outl (port data : Z) : K S unit := kmod (port_out 32 (u16 port) (u32 data)).
End io.

(** ** The interrupt controllers *)

(** src/include/arch/x86_64/cpu/pic/pic.h:10-17 [PIC1_COMMAND] *)
Definition PIC1_COMMAND : Z := 0x20.
Definition PIC1_DATA : Z := 0x21.
Definition PIC2_COMMAND : Z := 0xA0.
Definition PIC2_DATA : Z := 0xA1.
Definition ICW1_INIT : Z := 0x10.
Definition ICW1_ICW4 : Z := 0x01.
Definition ICW4_8086 : Z := 0x01.

Section pic.
Context {S : Type} `{!PortIO S}.

(** src/arch/x86_64/cpu/pic/pic.c:3-15 [pic_remap] *)
Definition pic_remap (offset1 offset2 : Z) : K S unit :=
  outb PIC1_COMMAND (Z.lor ICW1_INIT ICW1_ICW4);;
  outb PIC2_COMMAND (Z.lor ICW1_INIT ICW1_ICW4);;
  outb PIC1_DATA offset1;;
  outb PIC2_DATA offset2;;
  outb PIC1_DATA 0x04;;
  outb PIC2_DATA 0x02;;
  outb PIC1_DATA ICW4_8086;;
  outb PIC2_DATA ICW4_8086;;
  outb PIC1_DATA 0xFE;;
  outb PIC2_DATA 0xFF.

(** src/arch/x86_64/cpu/pic/pic.c:17-21 [pic_mask_all] *)
Definition pic_mask_all : K S unit := outb PIC1_DATA 0xFF;; outb PIC2_DATA 0xFF.

(** The controller of an interrupt line and the line's number there. *)
Definition pic_line (irq : Z) : Z * Z :=
  if irq <? 8 then (PIC1_DATA, irq) else (PIC2_DATA, irq - 8).

(** src/arch/x86_64/cpu/pic/pic.c:23-41 [pic_mask_irq] *)
Definition pic_mask_irq (irq : Z) : K S unit :=
  let '(port, irq) := pic_line irq in
  masks ← inb port;
  outb port (Z.lor masks (Z.shiftl 1 irq)).

(** src/arch/x86_64/cpu/pic/pic.c:43-61 [pic_unmask_irq] *)
Definition pic_unmask_irq (irq : Z) : K S unit :=
  let '(port, irq) := pic_line irq in
  masks ← inb port;
  outb port (Z.land masks (Z.lnot (Z.shiftl 1 irq))).

(** src/arch/x86_64/cpu/pic/pic.c:63-71 [pic_send_eoi] *)
Definition pic_send_eoi (irq : Z) : K S unit :=
  kwhen (8 <=? irq) (outb PIC2_COMMAND 0x20);;
  outb PIC1_COMMAND 0x20.
End pic.

(** ** The interval timer *)

(** src/include/arch/x86_64/cpu/pit/pit.h:8-13 [PIT_DIVISOR] *)
Definition PIT_DIVISOR : Z := 1193182.
Definition PIT_COMMAND : Z := 0x43.
Definition PIT_DATA : Z := 0x40.
Definition TIMER_FREQUENCY : Z := 1000.

Section pit.
Context {S : Type} `{!PortIO S} `{!Console S}.

(** src/arch/x86_64/cpu/pit/pit.c:3-8 [pit_set_reload] *)
Definition pit_set_reload (count : Z) : K S unit :=
  outb PIT_COMMAND 0x34;;
  outb PIT_DATA (u8 count);;
  outb PIT_DATA (u8 (Z.shiftr (u16 count) 8)).

(** The value the counter is loaded with for a frequency. *)
Definition pit_divisor (frequency : Z) : Z :=
  let divisor := PIT_DIVISOR / frequency in
  if frequency / 2 <? PIT_DIVISOR mod frequency then divisor + 1 else divisor.

(** src/arch/x86_64/cpu/pit/pit.c:10-19 [pit_set_frequency] *)
Definition pit_set_frequency (frequency : Z) : K S unit :=
  if frequency =? 0 then kstop Faulted else pit_set_reload (u16 (pit_divisor frequency)).

(** src/arch/x86_64/cpu/pit/pit.c:21-27 [init_pit] *)
Definition init_pit : K S unit :=
  kprintf "PIT...";;
  pit_set_reload 0xffff;;
  pit_set_frequency TIMER_FREQUENCY;;
  kok.
End pit.

(** ** The PS/2 controller and the keyboard *)

(** src/include/arch/x86_64/ps2/ps2.h:13-19 [PS2_DATA] *)
Definition PS2_DATA : Z := 0x60.
Definition PS2_COMMAND : Z := 0x64.
Definition PS2_ENABLE_P1 : Z := 0xAE.
Definition PS2_ENABLE_P2 : Z := 0xA8.
Definition PS2_DISABLE_P1 : Z := 0xAD.
Definition PS2_DISABLE_P2 : Z := 0xA7.

Section ps2.
Context {S : Type} `{!PortIO S} `{!Console S} (fuel : nat).

(** src/arch/x86_64/ps2/ps2.c:3-10 [ps2_read] *)
Definition ps2_read : K S Z :=
  kloop fuel (fun _ : unit =>
    v ← inb PS2_COMMAND;
    mret (if Z.land v 1 =? 0 then inl tt else inr tt)) tt;;
  inb PS2_DATA.

(** src/arch/x86_64/ps2/ps2.c:12-19 [ps2_write] *)
Definition ps2_write (port value : Z) : K S unit :=
  kloop fuel (fun _ : unit =>
    v ← inb PS2_COMMAND;
    mret (if negb (Z.land v 2 =? 0) then inl tt else inr tt)) tt;;
  outb port value.

(** src/arch/x86_64/ps2/ps2.c:21-25 [get_ps2_config] *)
Definition get_ps2_config : K S Z := ps2_write PS2_COMMAND 0x20;; ps2_read.

(** src/arch/x86_64/ps2/ps2.c:27-31 [write_ps2_config] *)
Definition write_ps2_config (value : Z) : K S unit :=
  ps2_write PS2_COMMAND 0x60;; ps2_write PS2_DATA value.

(** src/arch/x86_64/ps2/ps2.c:33-55 [init_ps2] *)
Definition init_ps2 : K S Z :=
  kprintf "PS/2...";;
  ps2_write PS2_COMMAND PS2_DISABLE_P1;;
  ps2_write PS2_COMMAND PS2_DISABLE_P2;;
  ps2_config ← get_ps2_config;
  let ps2_config := Z.lor ps2_config (Z.lor (Z.shiftl 1 0) (Z.shiftl 1 6)) in
  let ps2_config := if negb (Z.land ps2_config (Z.shiftl 1 5) =? 0)
                    then Z.lor ps2_config (Z.shiftl 1 1) else ps2_config in
  write_ps2_config ps2_config;;
  ps2_write PS2_COMMAND PS2_ENABLE_P1;;
  kok;;
  mret 0.

(** The scan code is read, so that the controller can send the next one, and
    dropped.
    src/arch/x86_64/ps2/keyboard/kbd.c:3-10 [keyboard_handler] *)
Definition keyboard_handler : K S unit := ps2_read;; mret tt.
End ps2.

(** ** The serial port *)

(** src/include/arch/x86_64/serial/serial.h:9-9 [SERIAL_PORT] *)
Definition SERIAL_PORT : Z := 0x3F8.

Section serial.
Context {S : Type} `{!PortIO S} `{!Console S} (fuel : nat).

(** src/arch/x86_64/serial/serial.c:3-25 [init_serial] *)
Definition init_serial : K S Z :=
  kprintf "Serial...";;
  outb (SERIAL_PORT + 1) 0x00;;
  outb (SERIAL_PORT + 3) 0x80;;
  outb (SERIAL_PORT + 0) 0x03;;
  outb (SERIAL_PORT + 1) 0x00;;
  outb (SERIAL_PORT + 3) 0x03;;
  outb (SERIAL_PORT + 2) 0xC7;;
  outb (SERIAL_PORT + 4) 0x0B;;
  outb (SERIAL_PORT + 4) 0x1E;;
  outb (SERIAL_PORT + 0) 0xAE;;
  v ← inb (SERIAL_PORT + 0);
  if negb (v =? 0xAE) then kerror "Serial fault";; mret 1 else
  outb (SERIAL_PORT + 4) 0x0F;;
  kok;;
  mret 0.

(** src/arch/x86_64/serial/serial.c:27-32 [write_serial_char] *)
Definition write_serial_char (data : Z) : K S unit :=
  kloop fuel (fun _ : unit =>
    v ← inb (SERIAL_PORT + 5);
    mret (if Z.land v 0x20 =? 0 then inl tt else inr tt)) tt;;
  outb SERIAL_PORT data.

(** The string is the list of its bytes.
    src/arch/x86_64/serial/serial.c:34-42 [write_serial] *)
Fixpoint write_serial (string : list Z) : K S unit :=
  match string with
  | [] => mret tt
  | c :: r => write_serial_char c;; write_serial r
  end.
End serial.

(** ** Interrupt masks

    The two controllers as their data sheet describes them: each data port
    reads and writes the mask register of its eight lines, and [imr] is the
    sixteen mask bits. *)
Class Pic8259 (S : Type) `{!PortIO S} := {
  imr : S -> Z;
  imr_range : forall s, 0 <= imr s < 2 ^ 16;
  imr_in1 : forall s, port_in 8 PIC1_DATA s = (imr s mod 2 ^ 8, s);
  imr_in2 : forall s, port_in 8 PIC2_DATA s = (imr s / 2 ^ 8, s);
  imr_out1 : forall v s, 0 <= v < 2 ^ 8 ->
    imr (port_out 8 PIC1_DATA v s) = imr s / 2 ^ 8 * 2 ^ 8 + v;
  imr_out2 : forall v s, 0 <= v < 2 ^ 8 ->
    imr (port_out 8 PIC2_DATA v s) = v * 2 ^ 8 + imr s mod 2 ^ 8;
}.

Section masks.
Context {S : Type} `{!PortIO S} `{!Pic8259 S}.

Lemma testbit_join hi lo i : 0 <= lo < 2 ^ 8 -> 0 <= i ->
  Z.testbit (hi * 2 ^ 8 + lo) i = if i <? 8 then Z.testbit lo i else Z.testbit hi (i - 8).
Proof.
  intros Hlo Hi. replace (hi * 2 ^ 8 + lo) with (Z.lor (Z.shiftl hi 8) lo).
  - rewrite Z.lor_spec, Z.shiftl_spec by lia. destruct (Z.ltb_spec i 8).
    + by rewrite Z.testbit_neg_r by lia.
    + rewrite (Z.bits_above_log2 lo i), orb_false_r; [done|lia|].
      destruct (decide (lo = 0)) as [->|]; [cbn; lia|].
      enough (Z.log2 lo < 8) by lia. apply Z.log2_lt_pow2; lia.
  - rewrite <- Z.shiftl_mul_pow2 by lia. symmetry. apply Z.add_nocarry_lor.
    apply Z.bits_inj'. intros n Hn. rewrite Z.land_spec, Z.bits_0, Z.shiftl_spec by lia.
    destruct (Z.ltb_spec n 8).
    + by rewrite Z.testbit_neg_r by lia.
    + rewrite (Z.bits_above_log2 lo n), andb_false_r; [done|lia|].
      destruct (decide (lo = 0)) as [->|]; [cbn; lia|].
      enough (Z.log2 lo < 8) by lia. apply Z.log2_lt_pow2; lia.
Qed.

Lemma testbit_u8 v i : 0 <= i -> Z.testbit (u8 v) i = (i <? 8) && Z.testbit v i.
Proof.
  intros Hi. unfold wrap. destruct (Z.ltb_spec i 8).
  - by rewrite Z.mod_pow2_bits_low by lia.
  - by rewrite Z.mod_pow2_bits_high by lia.
Qed.

Lemma imr_bit s i : 0 <= i < 16 ->
  Z.testbit (imr s) i = if i <? 8 then Z.testbit (imr s mod 2 ^ 8) i else Z.testbit (imr s / 2 ^ 8) (i - 8).
Proof.
  intros Hi. rewrite <- testbit_join by (try apply Z.mod_pos_bound; lia). f_equal.
  rewrite Z.mul_comm. by rewrite <- Z.div_mod by lia.
Qed.

(** Reading a controller's mask and writing [f] of it. *)
Lemma line_run (f : Z -> Z -> Z) irq s : 0 <= irq < 16 ->
  exists s1, (let '(port, irq) := pic_line irq in
    masks ← inb port; outb port (f masks irq)) s = Ret tt s1 /\
    forall i, 0 <= i < 16 -> Z.testbit (imr s1) i
      = if Bool.eqb (i <? 8) (irq <? 8)
        then Z.testbit (f (if irq <? 8 then imr s mod 2 ^ 8 else imr s / 2 ^ 8) (irq mod 8)) (i mod 8)
        else Z.testbit (imr s) i.
Proof.
  intros Hirq. pose proof (imr_range s) as Hr. unfold pic_line.
  assert (Hhi : 0 <= imr s / 2 ^ 8 < 2 ^ 8) by (split; [apply Z.div_pos; lia|apply Z.div_lt_upper_bound; lia]).
  assert (Hlo : 0 <= imr s mod 2 ^ 8 < 2 ^ 8) by (apply Z.mod_pos_bound; lia).
  destruct (Z.ltb_spec irq 8) as [Hlt|Hge]; eexists.
  - split.
    + unfold inb, outb, kmod. cbv beta iota zeta delta [mbind K_bind]. change (u16 PIC1_DATA) with PIC1_DATA.
      rewrite imr_in1. rewrite (wrap_small 8 (imr s mod 2 ^ 8)) by lia. reflexivity.
    + intros i Hi. rewrite imr_out1 by apply u8_range. rewrite testbit_join by (try apply u8_range; lia).
      destruct (Z.ltb_spec i 8); cbn [Bool.eqb].
      * rewrite testbit_u8 by lia. rewrite (Z.mod_small i 8), (Z.mod_small irq 8) by lia. by destruct (Z.ltb_spec i 8); [|lia].
      * rewrite (imr_bit s i) by lia. by destruct (Z.ltb_spec i 8); [lia|].
  - split.
    + unfold inb, outb, kmod. cbv beta iota zeta delta [mbind K_bind]. change (u16 PIC2_DATA) with PIC2_DATA.
      rewrite imr_in2. rewrite (wrap_small 8 (imr s / 2 ^ 8)) by lia. reflexivity.
    + intros i Hi. rewrite imr_out2 by apply u8_range. rewrite testbit_join by (done || lia).
      destruct (Z.ltb_spec i 8); cbn [Bool.eqb].
      * rewrite (imr_bit s i) by lia. by destruct (Z.ltb_spec i 8); [|lia].
      * rewrite testbit_u8 by lia.
        replace (irq mod 8) with (irq - 8) by (Z.div_mod_to_equations; lia).
        replace (i mod 8) with (i - 8) by (Z.div_mod_to_equations; lia).
        by destruct (Z.ltb_spec (i - 8) 8); [|lia].
Qed.

Lemma byte_bit s i irq : 0 <= i < 16 -> Bool.eqb (i <? 8) (irq <? 8) = true ->
  Z.testbit (if irq <? 8 then imr s mod 2 ^ 8 else imr s / 2 ^ 8) (i mod 8) = Z.testbit (imr s) i.
Proof.
  intros Hi E. rewrite (imr_bit s i Hi). apply Bool.eqb_prop in E. rewrite <- E.
  destruct (Z.ltb_spec i 8).
  - by rewrite (Z.mod_small i 8) by lia.
  - by replace (i mod 8) with (i - 8) by (Z.div_mod_to_equations; lia).
Qed.

Lemma shift_bit irq i : 0 <= irq < 16 -> 0 <= i < 16 -> Bool.eqb (i <? 8) (irq <? 8) = true ->
  Z.testbit (Z.shiftl 1 (irq mod 8)) (i mod 8) = (i =? irq).
Proof.
  intros H1 H2 E. apply Bool.eqb_prop in E.
  rewrite Z.shiftl_spec by (apply Z.mod_pos_bound; lia).
  destruct (Z.eqb_spec i irq) as [->|Hne].
  - by rewrite Z.sub_diag.
  - destruct (decide (i mod 8 - irq mod 8 = 0)) as [E0|Hn0].
    + exfalso. destruct (Z.ltb_spec i 8), (Z.ltb_spec irq 8); try discriminate; Z.div_mod_to_equations; lia.
    + destruct (decide (0 <= i mod 8 - irq mod 8)).
      * change 1 with (2 ^ 0). by rewrite Z.pow2_bits_false by lia.
      * by rewrite Z.testbit_neg_r by lia.
Qed.
End masks.

(** [pic_mask_irq] sets the mask bit of its line and [pic_unmask_irq]
    clears it, each without touching the mask of the other fifteen lines, on
    whichever controller the line is; so unmasking undoes masking of an
    unmasked line. *)
Theorem pic_mask_bits {S} `{!PortIO S} `{!Pic8259 S} irq (s : S) (Hirq : 0 <= irq < 16) :
  (exists s1, pic_mask_irq irq s = Ret tt s1 /\
     (forall i, 0 <= i < 16 -> Z.testbit (imr s1) i = (i =? irq) || Z.testbit (imr s) i) /\
     exists s2, pic_unmask_irq irq s1 = Ret tt s2 /\
       forall i, 0 <= i < 16 -> Z.testbit (imr s2) i = negb (i =? irq) && Z.testbit (imr s) i).
Proof.
  destruct (line_run (fun masks irq => Z.lor masks (Z.shiftl 1 irq)) irq s Hirq) as (s1 & R1 & H1).
  assert (Hm : forall i, 0 <= i < 16 -> Z.testbit (imr s1) i = (i =? irq) || Z.testbit (imr s) i).
  { intros i Hi. rewrite H1 by done. destruct (Bool.eqb (i <? 8) (irq <? 8)) eqn:E.
    - rewrite Z.lor_spec, byte_bit, shift_bit by done. by rewrite orb_comm.
    - destruct (Z.eqb_spec i irq) as [->|]; [by rewrite Bool.eqb_reflx in E|done]. }
  destruct (line_run (fun masks irq => Z.land masks (Z.lnot (Z.shiftl 1 irq))) irq s1 Hirq) as (s2 & R2 & H2).
  exists s1. split; [exact R1|]. split; [exact Hm|]. exists s2. split; [exact R2|].
  intros i Hi. rewrite H2 by done. destruct (Bool.eqb (i <? 8) (irq <? 8)) eqn:E.
  - rewrite Z.land_spec, Z.lnot_spec, byte_bit, shift_bit, Hm by (done || (apply Z.mod_pos_bound; lia)).
    by destruct (i =? irq), (Z.testbit (imr s) i).
  - rewrite Hm by done. destruct (Z.eqb_spec i irq) as [->|]; [by rewrite Bool.eqb_reflx in E|done].
Qed.

(** The two mask registers as a state. *)
Definition pic_ports : PortIO (Z * Z) := {|
  port_in _ port s :=
    (if port =? PIC1_DATA then fst s mod 2 ^ 8 else if port =? PIC2_DATA then snd s mod 2 ^ 8 else 0, s);
  port_out _ port v s :=
    if port =? PIC1_DATA then (v, snd s) else if port =? PIC2_DATA then (fst s, v) else s;
|}.

#[local, refine] Instance pic_device : @Pic8259 (Z * Z) pic_ports := {
  imr s := snd s mod 2 ^ 8 * 2 ^ 8 + fst s mod 2 ^ 8 }.
Proof.
  - intros [a b]. cbn [fst snd]. pose proof (Z.mod_pos_bound a (2 ^ 8)). pose proof (Z.mod_pos_bound b (2 ^ 8)). lia.
  - intros [a b]. cbn. f_equal. rewrite Z.add_comm, Z.mod_add by lia. by rewrite Z.mod_mod.
  - intros [a b]. cbn. f_equal. rewrite Z.add_comm, Z.div_add by lia.
    rewrite (Z.div_small (a mod _)); [done|]. apply Z.mod_pos_bound. lia.
  - intros v [a b] Hv. cbn [fst snd port_out pic_ports PIC1_DATA]. change (0x21 =? 0x21) with true. cbn [fst snd].
    rewrite (Z.mod_small v) by lia. f_equal.
    rewrite (Z.add_comm (b mod _ * _)), Z.div_add by lia. rewrite (Z.div_small (a mod _)); [done|].
    apply Z.mod_pos_bound. lia.
  - intros v [a b] Hv. cbn [fst snd port_out pic_ports PIC2_DATA]. change (0xA1 =? PIC1_DATA) with false.
    change (0xA1 =? 0xA1) with true. cbn [fst snd].
    rewrite (Z.mod_small v) by lia. f_equal.
    rewrite (Z.add_comm (b mod _ * _)), Z.mod_add by lia. by rewrite Z.mod_mod by lia.
Defined.

Lemma pic_mask_bits_witness :
  exists s1, @pic_mask_irq (Z * Z) pic_ports 9 (0xFE, 0xFD) = Ret tt s1 /\
    Z.testbit (@imr _ pic_ports pic_device s1) 9 = true /\
    exists s2, @pic_unmask_irq (Z * Z) pic_ports 9 s1 = Ret tt s2 /\
      Z.testbit (@imr _ pic_ports pic_device s2) 9 = false.
Proof.
  destruct (@pic_mask_bits (Z * Z) pic_ports pic_device 9 (0xFE, 0xFD) ltac:(lia)) as (s1 & R & H & s2 & R2 & H2).
  exists s1. split; [exact R|]. split; [by rewrite H by lia|]. exists s2. split; [exact R2|]. by rewrite H2 by lia.
Defined.

(** ** The divisor of a frequency *)

(** The counter's divisor is the nearest one: the period differs from the
    wanted one by at most half a tick of the oscillator. *)
Lemma pit_divisor_nearest f : 0 < f ->
  2 * Z.abs (pit_divisor f * f - PIT_DIVISOR) <= f + 1.
Proof.
  intros Hf. unfold pit_divisor. generalize PIT_DIVISOR. intros n.
  destruct (Z.ltb_spec (f / 2) (n mod f)); Z.div_mod_to_equations; nia.
Qed.

Example pit_1000Hz : pit_divisor TIMER_FREQUENCY = 1193.
Proof. reflexivity. Qed.
