(* ===== verification/Timer.v ===== *)
(** * The system clock (cpu/timer/timer.c)

    A count of milliseconds since boot and a broken-down time that
    [timer_handler] advances once a millisecond (the interval timer runs at
    1000 Hz, Ports.v). *)

From S2P Require Import Prelude Console.
Local Open Scope Z_scope.

(** [_pad0] is padding.
    src/include/arch/x86_64/cpu/timer/timer.h:16-24 [system_time] *)
Record system_time := SystemTime {
  milliseconds : Z;  (* uint32_t *)
  seconds : Z;       (* uint8_t *)
  minutes : Z;       (* uint8_t *)
  hours : Z;         (* uint8_t *)
  days : Z;          (* uint32_t *)
}.

(** [kernel->current_time] and [monotonic_ms].
    src/arch/x86_64/cpu/timer/timer.c:4-4 [monotonic_ms] *)
Record clock := Clock {
  current_time : system_time;
  monotonic_ms : Z;  (* uint_fast64_t *)
}.

(** A state with a clock. *)
Class HasClock (S : Type) := {
  get_clock : S -> clock;
  set_clock : clock -> S -> S;
}.

Section timer.
Context {S : Type} `{!HasClock S} `{!Console S}.

(** src/arch/x86_64/cpu/timer/timer.c:7-17 [init_system_clock] *)
Definition init_system_clock : K S unit :=
  kprintf "System Clock...";;
  kmod (fun s => set_clock (Clock (SystemTime 0 0 0 0 0) 0) s);;
  kok.
End timer.

(** Each test is on the incremented field, at its width.
    src/arch/x86_64/cpu/timer/timer.c:25-41 [timer_handler] *)
Definition advance (t : system_time) : system_time :=
  let ms := u32 (milliseconds t + 1) in
  if ms <? 1000 then SystemTime ms (seconds t) (minutes t) (hours t) (days t) else
  let s := u8 (seconds t + 1) in
  if s <? 60 then SystemTime 0 s (minutes t) (hours t) (days t) else
  let m := u8 (minutes t + 1) in
  if m <? 60 then SystemTime 0 0 m (hours t) (days t) else
  let h := u8 (hours t + 1) in
  if h <? 24 then SystemTime 0 0 0 h (days t) else
  SystemTime 0 0 0 0 (u32 (days t + 1)).

(** src/arch/x86_64/cpu/timer/timer.c:19-42 [timer_handler] *)
Definition tick (c : clock) : clock := Clock (advance (current_time c)) (u64 (monotonic_ms c + 1)).
Definition timer_handler {S} `{!HasClock S} : K S unit := kmod (fun s => set_clock (tick (get_clock s)) s).

(** src/arch/x86_64/cpu/timer/timer.c:44-47 [get_system_time] *)
Definition get_system_time (c : clock) : system_time := current_time c.
(** src/arch/x86_64/cpu/timer/timer.c:49-52 [uptime_ms] *)
Definition uptime_ms (c : clock) : Z := monotonic_ms c.
(** src/arch/x86_64/cpu/timer/timer.c:54-57 [uptime_seconds] *)
Definition uptime_seconds (c : clock) : Z := u32 (uptime_ms c / 1000).
(** src/arch/x86_64/cpu/timer/timer.c:59-62 [uptime_minutes] *)
Definition uptime_minutes (c : clock) : Z := u32 (uptime_ms c / 60000).
(** src/arch/x86_64/cpu/timer/timer.c:64-67 [time_after] *)
Definition time_after (a b : Z) : Z := if s64 (u64 (b - a)) <? 0 then 1 else 0.
(** src/arch/x86_64/cpu/timer/timer.c:69-72 [time_before] *)
Definition time_before (a b : Z) : Z := if s64 (u64 (a - b)) <? 0 then 1 else 0.

(** ** The clock's invariant *)

Definition DAY_MS : Z := 24 * 60 * 60 * 1000.

(** The ranges of timer.h's comments. *)
Record time_ok (t : system_time) : Prop := {
  ok_ms : 0 <= milliseconds t < 1000;
  ok_s : 0 <= seconds t < 60;
  ok_m : 0 <= minutes t < 60;
  ok_h : 0 <= hours t < 24;
  ok_d : 0 <= days t < 2 ^ 32;
}.

(** The milliseconds a time stands for. *)
Definition total_ms (t : system_time) : Z :=
  (((days t * 24 + hours t) * 60 + minutes t) * 60 + seconds t) * 1000 + milliseconds t.

Lemma total_range t : time_ok t -> 0 <= total_ms t < 2 ^ 32 * DAY_MS.
Proof. intros [? ? ? ? ?]. unfold total_ms, DAY_MS. nia. Qed.

Lemma advance_ok t : time_ok t -> time_ok (advance t).
Proof.
  intros [Hms Hs Hm Hh Hd]. unfold advance. rewrite !wrap_small by lia.
  repeat match goal with |- context [?a <? ?b] => destruct (Z.ltb_spec a b) end;
    split; cbn; try lia. apply (wrap_range 32). lia.
Qed.

Lemma advance_total t : time_ok t -> total_ms (advance t) = (total_ms t + 1) mod (2 ^ 32 * DAY_MS).
Proof.
  intros Ht. pose proof (total_range t Ht) as Hr. destruct Ht as [Hms Hs Hm Hh Hd].
  destruct (decide (total_ms t + 1 = 2 ^ 32 * DAY_MS)) as [E|Hne].
  - rewrite E, Z.mod_same by (unfold DAY_MS; lia). unfold total_ms, DAY_MS in E.
    assert (days t = 2 ^ 32 - 1 /\ hours t = 23 /\ minutes t = 59 /\ seconds t = 59 /\ milliseconds t = 999)
      as (E1 & E2 & E3 & E4 & E5) by lia.
    unfold advance. rewrite E1, E2, E3, E4, E5. reflexivity.
  - rewrite Z.mod_small by lia. unfold advance.
    rewrite (wrap_small 32 (milliseconds t + 1)), (wrap_small 8 (seconds t + 1)),
      (wrap_small 8 (minutes t + 1)), (wrap_small 8 (hours t + 1)) by lia.
    unfold total_ms, DAY_MS in *.
    repeat match goal with |- context [?a <? ?b] => destruct (Z.ltb_spec a b) end; cbn; try lia.
    rewrite wrap_small by lia. lia.
Qed.

Lemma total_inj t t' : time_ok t -> time_ok t' -> total_ms t = total_ms t' -> t = t'.
Proof.
  intros [] [] E. unfold total_ms in E. destruct t, t'; cbn in *. f_equal; lia.
Qed.

(** The time [n] milliseconds after boot. *)
Definition time_of (n : Z) : system_time :=
  SystemTime (n mod 1000) (n / 1000 mod 60) (n / 60000 mod 60) (n / 3600000 mod 24)
    (n / DAY_MS mod 2 ^ 32).

Lemma time_of_ok n : 0 <= n -> time_ok (time_of n).
Proof. intros. split; cbn; apply Z.mod_pos_bound; lia. Qed.

Lemma time_of_total n : 0 <= n -> total_ms (time_of n) = n mod (2 ^ 32 * DAY_MS).
Proof.
  intros Hn. unfold total_ms, time_of. cbn.
  rewrite (Z.mul_comm (2 ^ 32) DAY_MS), Z.rem_mul_r by (unfold DAY_MS; lia).
  replace (n / 60000) with (n / 1000 / 60) by (rewrite Zdiv_Zdiv by lia; done).
  replace (n / 3600000) with (n / 1000 / 60 / 60) by (rewrite !Zdiv_Zdiv by lia; done).
  replace (n / DAY_MS) with (n / 1000 / 60 / 60 / 24) by (rewrite !Zdiv_Zdiv by lia; done).
  assert (E : n mod DAY_MS = ((n / 1000 / 60 / 60 mod 24 * 60 + n / 1000 / 60 mod 60) * 60 + n / 1000 mod 60) * 1000
                + n mod 1000).
  { change DAY_MS with (1000 * (60 * (60 * 24))). rewrite !Z.rem_mul_r by lia.
    rewrite !Zdiv_Zdiv by lia. lia. }
  rewrite E. generalize (n / 1000 / 60 / 60 / 24 mod 2 ^ 32). unfold DAY_MS. lia.
Qed.

Lemma ticks_run n : Nat.iter n tick (Clock (SystemTime 0 0 0 0 0) 0)
  = Clock (time_of (Z.of_nat n)) (u64 (Z.of_nat n)).
Proof.
  induction n as [|n IH]; [reflexivity|]. change (Nat.iter (Datatypes.S n) tick ?c) with (tick (Nat.iter n tick c)).
  rewrite IH. unfold tick. cbn [current_time monotonic_ms]. f_equal.
  - apply total_inj; [by apply advance_ok, time_of_ok; lia|by apply time_of_ok; lia|].
    rewrite advance_total by (apply time_of_ok; lia). rewrite !time_of_total by lia.
    rewrite Zplus_mod_idemp_l. f_equal. lia.
  - unfold wrap. rewrite Zplus_mod_idemp_l. f_equal. lia.
Qed.

(** C29: after any number of timer interrupts the clock tells the time since
    boot: every field stays in its range, days, hours, minutes, seconds and
    milliseconds are those of the number of interrupts (days modulo 2^32), and
    the uptime counters are its quotients. *)
Theorem timer_keeps_time n :
  let c := Nat.iter n tick (Clock (SystemTime 0 0 0 0 0) 0) in
  let ms := Z.of_nat n in
  time_ok (get_system_time c) /\
  get_system_time c
  = SystemTime (ms mod 1000) (ms / 1000 mod 60) (ms / 60000 mod 60) (ms / 3600000 mod 24)
      (ms / (24 * 60 * 60 * 1000) mod 2 ^ 32) /\
  uptime_ms c = ms mod 2 ^ 64 /\
  (ms < 2 ^ 32 * 1000 -> uptime_seconds c = ms / 1000 /\ uptime_minutes c = ms / 60000).
Proof.
  cbv zeta. rewrite ticks_run. unfold get_system_time, uptime_seconds, uptime_minutes, uptime_ms.
  cbn [current_time monotonic_ms]. split; [apply time_of_ok; lia|]. do 2 (split; [done | ]).
  intros Hn. rewrite (wrap_small 64) by lia.
  split; apply wrap_small; split; try (apply Z.div_pos; lia); apply Z.div_lt_upper_bound; lia.
Qed.

(** C30: comparisons of points in time are right across the wrap of the
    64-bit counter for points less than 2^63 apart: [time_after] tells the
    later one and [time_before] the earlier one. *)
Theorem time_after_wraps b d (Hd : Z.abs d < 2 ^ 63) :
  time_after (u64 (b + d)) (u64 b) = (if 0 <? d then 1 else 0) /\
  time_before (u64 (b + d)) (u64 b) = (if d <? 0 then 1 else 0).
Proof.
  assert (E : forall x, Z.abs x < 2 ^ 63 -> s64 x = x).
  { intros x Hx. unfold swrap. destruct (Z.ltb_spec x 0).
    - replace (x mod 2 ^ 64) with (x + 2 ^ 64).
      + destruct (Z.ltb_spec (x + 2 ^ 64) (2 ^ (64 - 1))); lia.
      + apply (Z.mod_unique_pos _ _ (-1)); lia.
    - rewrite Z.mod_small by lia. destruct (Z.ltb_spec x (2 ^ (64 - 1))); lia. }
  assert (E1 : forall x y, s64 (u64 (u64 x - u64 y)) = s64 (x - y)).
  { intros x y. unfold swrap, wrap. rewrite Zmod_mod. by rewrite <- Zminus_mod. }
  unfold time_after, time_before. rewrite !E1. rewrite (E (b - (b + d))), (E (b + d - b)) by lia.
  split; zcase; lia.
Qed.

Lemma time_after_wraps_witness :
  Z.abs 5 < 2 ^ 63 /\ time_after (u64 (2 ^ 64 - 2 + 5)) (u64 (2 ^ 64 - 2)) = 1.
Proof. split; [lia|]. apply (time_after_wraps (2 ^ 64 - 2) 5). lia. Defined.
