(* ===== verification/Descriptors.v ===== *)
(** * Descriptor tables and system calls (cpu/gdt/gdt.c, gdt.asm, cpu/idt/idt.c,
    scheduling/syscall.c)

    The global and interrupt descriptor tables as the kernel fills them, the
    processor registers that are loaded with them, and the table of system
    calls.  The addresses of the tables, of the task state segment and of the
    assembly entry points are parameters.  The second half decodes the tables
    the way the processor does. *)

From S2P Require Import Prelude Console Spinlock SchedState.
Local Open Scope Z_scope.

(** src/include/arch/x86_64/cpu/gdt/gdt.h:16-26 [tss_desc] *)
Record tss_desc := TssDesc {
  td_length : Z;
  td_base_low : Z;
  td_base_mid : Z;
  td_flags : Z;
  td_flags2 : Z;
  td_base_high : Z;
  td_base_upper32 : Z;
  td_reserved : Z;
}.

(** src/include/arch/x86_64/cpu/gdt/gdt.h:28-45 [tss_t] *)
Record tss_t := Tss_t {
  tss_reserved : Z;
  tss_rsp0 : Z;
  tss_rsp1 : Z;
  tss_rsp2 : Z;
  tss_reserved1 : Z;
  tss_ist1 : Z;
  tss_ist2 : Z;
  tss_ist3 : Z;
  tss_ist4 : Z;
  tss_ist5 : Z;
  tss_ist6 : Z;
  tss_ist7 : Z;
  tss_reserved2 : Z;
  tss_reserved3 : Z;
  tss_base_iomap : Z;
}.
Definition SIZEOF_TSS : Z := 104.

(** src/include/arch/x86_64/cpu/gdt/gdt.h:47-56 [gdt_desc] *)
Record gdt_desc := GdtDesc {
  gd_limit : Z;
  gd_base_low : Z;
  gd_base_mid : Z;
  gd_access : Z;
  gd_granularity : Z;
  gd_base_high : Z;
}.
Definition gdt_desc_zero : gdt_desc := GdtDesc 0 0 0 0 0 0.

(** [gdt_ptr] and [idtr_t]: a limit and a base.
    src/include/arch/x86_64/cpu/gdt/gdt.h:58-62 [gdt_ptr] *)
Record table_ptr := TablePtr { tp_limit : Z; tp_base : Z }.

(** src/include/arch/x86_64/cpu/gdt/gdt.h:64-68 [gdtr] *)
Record gdtr := Gdtr {
  gdt_entries : list gdt_desc;
  gdt_tss : tss_desc;
}.
Definition SIZEOF_GDT : Z := 5 * 8 + 16.

(** src/include/arch/x86_64/cpu/idt/idt.h:20-30 [idt_entry_t] *)
Record idt_entry := IdtEntry {
  offset_low : Z;
  selector : Z;
  ist : Z;
  type_attr : Z;
  offset_mid : Z;
  offset_high : Z;
  idt_reserved : Z;
}.
Definition idt_zero : idt_entry := IdtEntry 0 0 0 0 0 0 0.

(** src/include/arch/x86_64/cpu/idt/idt.h:12-18 [IDT_ENTRIES] *)
Definition IDT_ENTRIES : Z := 256.
Definition IDT_TYPE_INTERRUPT_GATE : Z := 0x8E.
Definition IDT_TYPE_TRAP_GATE : Z := 0x8F.
Definition IDT_TYPE_TASK_GATE : Z := 0x85.
Definition IDT_TYPE_USER_INT_GATE : Z := 0xEE.

(** [handler] is the address of the function, NULL when there is none.
    src/include/scheduling/syscall.h:11-16 [syscall_entry_t] *)
Record syscall_entry_t := SyscallEntry {
  sc_handler : Z;
  sc_name : string;
  sc_arg_num : Z;
}.

(** The globals of gdt.c, idt.c and syscall.c, and the registers loaded from
    them: GDTR, TR, CS with the data segments, IDTR.
    src/arch/x86_64/cpu/gdt/gdt.c:3-10 [gdt] *)
Record descr := Descr {
  gdt : gdtr;
  gdt_pointer : table_ptr;
  gdt_lock : spinlock;
  tss : tss_t;
  idt_entries : list idt_entry;
  idt_ptr : table_ptr;
  syscall_table : list syscall_entry_t;
  r_gdtr : table_ptr;
  r_idtr : table_ptr;
  r_cs : Z;
  r_ds : Z;
  r_tr : Z;
  d_if : bool;
  d_con : list con_event;
}.
Definition set_gdt v s := Descr v (gdt_pointer s) (gdt_lock s) (tss s) (idt_entries s) (idt_ptr s)
  (syscall_table s) (r_gdtr s) (r_idtr s) (r_cs s) (r_ds s) (r_tr s) (d_if s) (d_con s).
Definition set_gdt_pointer v s := Descr (gdt s) v (gdt_lock s) (tss s) (idt_entries s) (idt_ptr s)
  (syscall_table s) (r_gdtr s) (r_idtr s) (r_cs s) (r_ds s) (r_tr s) (d_if s) (d_con s).
Definition set_gdt_lock v s := Descr (gdt s) (gdt_pointer s) v (tss s) (idt_entries s) (idt_ptr s)
  (syscall_table s) (r_gdtr s) (r_idtr s) (r_cs s) (r_ds s) (r_tr s) (d_if s) (d_con s).
Definition set_tss v s := Descr (gdt s) (gdt_pointer s) (gdt_lock s) v (idt_entries s) (idt_ptr s)
  (syscall_table s) (r_gdtr s) (r_idtr s) (r_cs s) (r_ds s) (r_tr s) (d_if s) (d_con s).
Definition set_idt v s := Descr (gdt s) (gdt_pointer s) (gdt_lock s) (tss s) v (idt_ptr s)
  (syscall_table s) (r_gdtr s) (r_idtr s) (r_cs s) (r_ds s) (r_tr s) (d_if s) (d_con s).
Definition set_idt_ptr v s := Descr (gdt s) (gdt_pointer s) (gdt_lock s) (tss s) (idt_entries s) v
  (syscall_table s) (r_gdtr s) (r_idtr s) (r_cs s) (r_ds s) (r_tr s) (d_if s) (d_con s).
Definition set_syscall_table v s := Descr (gdt s) (gdt_pointer s) (gdt_lock s) (tss s) (idt_entries s)
  (idt_ptr s) v (r_gdtr s) (r_idtr s) (r_cs s) (r_ds s) (r_tr s) (d_if s) (d_con s).
Definition set_gdt_regs g cs ds s := Descr (gdt s) (gdt_pointer s) (gdt_lock s) (tss s) (idt_entries s)
  (idt_ptr s) (syscall_table s) g (r_idtr s) cs ds (r_tr s) (d_if s) (d_con s).
Definition set_idtr v s := Descr (gdt s) (gdt_pointer s) (gdt_lock s) (tss s) (idt_entries s)
  (idt_ptr s) (syscall_table s) (r_gdtr s) v (r_cs s) (r_ds s) (r_tr s) (d_if s) (d_con s).
Definition set_tr v s := Descr (gdt s) (gdt_pointer s) (gdt_lock s) (tss s) (idt_entries s)
  (idt_ptr s) (syscall_table s) (r_gdtr s) (r_idtr s) (r_cs s) (r_ds s) v (d_if s) (d_con s).
Definition set_d_if v s := Descr (gdt s) (gdt_pointer s) (gdt_lock s) (tss s) (idt_entries s)
  (idt_ptr s) (syscall_table s) (r_gdtr s) (r_idtr s) (r_cs s) (r_ds s) (r_tr s) v (d_con s).
Definition set_d_con v s := Descr (gdt s) (gdt_pointer s) (gdt_lock s) (tss s) (idt_entries s)
  (idt_ptr s) (syscall_table s) (r_gdtr s) (r_idtr s) (r_cs s) (r_ds s) (r_tr s) (d_if s) v.

#[export] Instance descr_Cpu : Cpu descr := { get_if := d_if; set_if := set_d_if }.
#[export] Instance descr_CpuOk : CpuOk descr.
Proof. split; by intros; repeat match goal with s : descr |- _ => destruct s end. Qed.
#[export] Instance descr_Console : Console descr := { put_event e s := set_d_con (d_con s ++ [e]) s }.
Definition gdt_spin : slens descr := Slens gdt_lock set_gdt_lock.
#[export] Instance gdt_spin_ok : SlensOk gdt_spin.
Proof. split; by intros; destruct s. Qed.

Section descriptors.
(** The addresses of [gdt], [tss], [idt_entries], the stubs of isr.asm and
    [syscall_entry]. *)
Context (gdt_addr tss_addr idt_addr : Z) (isr irq : nat -> Z) (syscall_entry : Z).

(** ** The global descriptor table *)

(** src/arch/x86_64/cpu/gdt/gdt.asm:4-17 [gdt_reload] *)
Definition gdt_reload : K descr unit := kmod (fun s => set_gdt_regs (gdt_pointer s) 8 0x10 s).
(** src/arch/x86_64/cpu/gdt/gdt.asm:20-23 [tss_reload] *)
Definition tss_reload : K descr unit := kmod (set_tr 0x28).

Definition set_access (i : nat) (access granularity : Z) : K descr unit :=
  kmod (fun s =>
    let e := default gdt_desc_zero (gdt_entries (gdt s) !! i) in
    set_gdt (Gdtr (<[i := GdtDesc (gd_limit e) (gd_base_low e) (gd_base_mid e) access granularity
                          (gd_base_high e)]> (gdt_entries (gdt s))) (gdt_tss (gdt s))) s).

(** src/arch/x86_64/cpu/gdt/gdt.c:31-39 [gdt_setup] *)
Definition set_tss_desc : K descr unit :=
  kmod (fun s =>
    let t := gdt_tss (gdt s) in
    set_gdt (Gdtr (gdt_entries (gdt s))
      (TssDesc (SIZEOF_TSS - 1) (Z.land tss_addr 0xFFFF) (Z.land (Z.shiftr tss_addr 16) 0xFF)
         137 (td_flags2 t) (Z.land (Z.shiftr tss_addr 24) 0xFF)
         (Z.land (Z.shiftr tss_addr 32) 0xFFFFFFFF) (td_reserved t))) s).

(** src/arch/x86_64/cpu/gdt/gdt.c:12-48 [gdt_setup] *)
Definition gdt_setup : K descr unit :=
  kprintf "GDT...";;
  spinlock_acquire gdt_spin;;
  set_access 1 154 32;;
  set_access 2 146 0;;
  set_access 3 242 0;;
  set_access 4 250 32;;
  set_tss_desc;;
  kmod (set_gdt_pointer (TablePtr (SIZEOF_GDT - 1) gdt_addr));;
  gdt_reload;;
  tss_reload;;
  spinlock_release gdt_spin;;
  kok.

(** src/arch/x86_64/cpu/gdt/gdt.c:50-54 [init_gdt] *)
Definition init_gdt : K descr unit := spinlock_init gdt_spin;; gdt_setup.

(** src/arch/x86_64/cpu/gdt/gdt.c:56-59 [set_kernel_stack] *)
Definition set_kernel_stack (stack : Z) : K descr unit :=
  kmod (fun s => let t := tss s in
    set_tss (Tss_t (tss_reserved t) stack (tss_rsp1 t) (tss_rsp2 t) (tss_reserved1 t) (tss_ist1 t)
      (tss_ist2 t) (tss_ist3 t) (tss_ist4 t) (tss_ist5 t) (tss_ist6 t) (tss_ist7 t)
      (tss_reserved2 t) (tss_reserved3 t) (tss_base_iomap t)) s).

(** ** The interrupt descriptor table *)

(** src/arch/x86_64/cpu/idt/idt.c:49-58 [idt_set_entry] *)
Definition idt_set_entry (index handler selector flags : Z) : K descr unit :=
  kmod (fun s => set_idt (<[Z.to_nat index :=
    IdtEntry (Z.land handler 0xFFFF) selector 0 flags (Z.land (Z.shiftr handler 16) 0xFFFF)
      (Z.land (Z.shiftr handler 32) 0xFFFFFFFF) 0]> (idt_entries s)) s).

(** [n] entries from [first] on, the handlers given by [f].
    src/arch/x86_64/cpu/idt/idt.c:69-93 [init_idt] *)
Definition set_gates (n : nat) (first : Z) (f : nat -> Z) : K descr unit :=
  kfor n 0 (fun i => idt_set_entry (first + i) (f (Z.to_nat i)) KERNEL_CODE64 IDT_TYPE_INTERRUPT_GATE).

(** src/arch/x86_64/cpu/idt/idt.c:60-97 [init_idt] *)
Definition init_idt : K descr unit :=
  kprintf "IDT...";;
  kmod (set_idt_ptr (TablePtr (256 * 16 - 1) idt_addr));;
  kfor 256 0 (fun i => idt_set_entry i 0 0 0);;
  set_gates 20 0 isr;;
  set_gates 16 32 irq;;
  kmod (fun s => set_idtr (idt_ptr s) s);;
  kok.

(** ** System calls *)

(** src/scheduling/syscall.c:19-31 [init_syscalls] *)
Definition init_syscalls : K descr unit :=
  kprintf "System Calls...";;
  kfor (Z.to_nat MAX_SYS_CALLS) 0 (fun i =>
    kmod (fun s => set_syscall_table (<[Z.to_nat i := SyscallEntry NULL EmptyString 0]> (syscall_table s)) s));;
  idt_set_entry 0x80 syscall_entry KERNEL_CODE64 0xEE;;
  kok.

(** The handlers are a parameter; the answer is what the caller finds in
    RAX.
    src/scheduling/syscall.c:5-17 [syscall_handler] *)
Definition syscall_handler (call : Z -> list Z -> K descr Z) (syscall_num : Z) (args : list Z) : K descr Z :=
  table ← kasks syscall_table;
  if MAX_SYS_CALLS <=? syscall_num then mret (u64 (-1)) else
  e ← kderef (table !! Z.to_nat syscall_num);
  if sc_handler e =? NULL then mret (u64 (-1)) else
  result ← call (sc_handler e) args;
  mret (u64 result).
End descriptors.

(** ** What the processor reads *)

(** The handler address of a gate, and the base of the task state segment. *)
Definition gate_offset (e : idt_entry) : Z :=
  offset_high e * 2 ^ 32 + offset_mid e * 2 ^ 16 + offset_low e.
Definition tss_base (t : tss_desc) : Z :=
  td_base_upper32 t * 2 ^ 32 + td_base_high t * 2 ^ 24 + td_base_mid t * 2 ^ 16 + td_base_low t.

(** Present bit, privilege and type of a gate; a call with [int n] needs a
    privilege number of at least the caller's ring. *)
Definition gate_present (e : idt_entry) : bool := Z.testbit (type_attr e) 7.
Definition gate_dpl (e : idt_entry) : Z := Z.land (Z.shiftr (type_attr e) 5) 3.

(** A code segment descriptor has the executable bit (3) set; DPL in bits
    5-6 of the access byte. *)
Definition seg_present (d : gdt_desc) : bool := Z.testbit (gd_access d) 7.
Definition seg_code (d : gdt_desc) : bool := Z.testbit (gd_access d) 3.
Definition seg_dpl (d : gdt_desc) : Z := Z.land (Z.shiftr (gd_access d) 5) 3.

(** The descriptor a selector names, in the table of five entries. *)
Definition selected (g : gdtr) (sel : Z) : option gdt_desc := gdt_entries g !! Z.to_nat (Z.shiftr sel 3).

Lemma split_64 h : 0 <= h < 2 ^ 64 ->
  Z.land (Z.shiftr h 32) 0xFFFFFFFF * 2 ^ 32 + Z.land (Z.shiftr h 16) 0xFFFF * 2 ^ 16 + Z.land h 0xFFFF = h.
Proof.
  intros H. change 0xFFFFFFFF with (Z.ones 32). change 0xFFFF with (Z.ones 16).
  rewrite !Z.land_ones, !Z.shiftr_div_pow2 by lia.
  rewrite (Z.mod_small (h / 2 ^ 32)) by (split; [apply Z.div_pos; lia|apply Z.div_lt_upper_bound; lia]).
  replace (h / 2 ^ 32) with (h / 2 ^ 16 / 2 ^ 16) by (rewrite Zdiv_Zdiv by lia; done).
  Z.div_mod_to_equations; lia.
Qed.

Definition gate (handler selector flags : Z) : idt_entry :=
  IdtEntry (Z.land handler 0xFFFF) selector 0 flags (Z.land (Z.shiftr handler 16) 0xFFFF)
    (Z.land (Z.shiftr handler 32) 0xFFFFFFFF) 0.

Lemma gate_offset_gate h sel fl : 0 <= h < 2 ^ 64 -> gate_offset (gate h sel fl) = h.
Proof. apply split_64. Qed.

(** A loop that sets consecutive entries. *)
Lemma set_entries_run n first (h : Z -> Z) sel fl s :
  0 <= first -> first + Z.of_nat n <= Z.of_nat (length (idt_entries s)) ->
  exists L, kfor n 0 (fun i => idt_set_entry (first + i) (h i) sel fl) s = Ret tt (set_idt L s) /\
    length L = length (idt_entries s) /\
    forall j, L !! j = if decide (first <= Z.of_nat j < first + Z.of_nat n)
                       then Some (gate (h (Z.of_nat j - first)) sel fl) else idt_entries s !! j.
Proof.
  intros Hf Hn.
  destruct (kfor_ind (fun i t => exists L, t = set_idt L s /\ length L = length (idt_entries s) /\
      forall j, L !! j = if decide (first <= Z.of_nat j < first + i)
                         then Some (gate (h (Z.of_nat j - first)) sel fl) else idt_entries s !! j)
    n 0 (fun i => idt_set_entry (first + i) (h i) sel fl) s) as (t & R & L & -> & Hl & HL).
  - exists (idt_entries s). split; [by destruct s|]. split; [done|]. intros j. rewrite decide_False by lia. done.
  - intros i t Hi (L & -> & Hl & HL). eexists. split; [reflexivity|].
    exists (<[Z.to_nat (first + i) := gate (h i) sel fl]> L). split; [done|].
    split; [by rewrite length_insert|]. intros j. cbn.
    destruct (decide (j = Z.to_nat (first + i))) as [->|Hj].
    + rewrite list_lookup_insert_eq by lia. rewrite decide_True by lia. do 2 f_equal. f_equal. lia.
    + rewrite list_lookup_insert_ne by done. rewrite HL.
      destruct (decide (first <= Z.of_nat j < first + i)); [rewrite decide_True by lia; done|].
      rewrite decide_False by lia. done.
  - exists L. split; [exact R|]. split; [done|]. by rewrite Z.add_0_l in HL.
Qed.

Lemma init_idt_run idt_addr isr irq s : length (idt_entries s) = 256%nat ->
  exists L, init_idt idt_addr isr irq s
    = Ret tt (put_events ok_events (set_idtr (TablePtr 4095 idt_addr)
        (set_idt L (set_idt_ptr (TablePtr 4095 idt_addr) (put_event (Print "IDT...") s))))) /\
    length L = 256%nat /\
    forall j, (j < 256)%nat -> L !! j =
      Some (if decide (j < 20)%nat then gate (isr j) KERNEL_CODE64 IDT_TYPE_INTERRUPT_GATE
            else if decide (32 <= j < 48)%nat then gate (irq (j - 32)%nat) KERNEL_CODE64 IDT_TYPE_INTERRUPT_GATE
            else idt_zero).
Proof.
  intros Hl. unfold init_idt. set (s1 := set_idt_ptr _ (put_event (Print "IDT...") s)).
  rewrite (kbind_ret _ _ s tt (put_event (Print "IDT...") s)) by reflexivity.
  rewrite (kbind_ret _ _ _ tt s1) by reflexivity.
  destruct (set_entries_run 256 0 (fun _ => 0) 0 0 s1) as (L1 & R1 & Hl1 & H1); [lia|cbn; lia|].
  rewrite (kbind_ret (kfor 256 0 (fun i => idt_set_entry i 0 0 0)) _ s1 tt (set_idt L1 s1)) by exact R1.
  destruct (set_entries_run 20 0 (fun i => isr (Z.to_nat i)) KERNEL_CODE64 IDT_TYPE_INTERRUPT_GATE (set_idt L1 s1))
    as (L2 & R2 & Hl2 & H2); [lia|cbn in *; lia|].
  unfold set_gates. rewrite (kbind_ret _ _ _ _ _ R2).
  destruct (set_entries_run 16 32 (fun i => irq (Z.to_nat i)) KERNEL_CODE64 IDT_TYPE_INTERRUPT_GATE (set_idt L2 s1))
    as (L3 & R3 & Hl3 & H3); [lia|cbn in *; lia|].
  change (set_idt L2 (set_idt L1 s1)) with (set_idt L2 s1). rewrite (kbind_ret _ _ _ _ _ R3).
  exists L3. split; [reflexivity|]. split; [cbn in *; lia|].
  intros j Hj. rewrite H3. cbn [idt_entries set_idt]. rewrite H2. cbn [idt_entries set_idt]. rewrite H1.
  destruct (decide (j < 20)%nat).
  - rewrite decide_False by lia. rewrite decide_True by lia. do 2 f_equal. f_equal. lia.
  - destruct (decide (32 <= j < 48)%nat).
    + rewrite decide_True by lia. do 2 f_equal. f_equal. lia.
    + rewrite decide_False by lia. rewrite decide_False by lia. by rewrite decide_True by lia.
Qed.

(** C31: [init_idt] installs exactly the vectors the kernel has stubs for:
    after it the processor finds, for exceptions 0 to 19 and interrupts 32 to
    47, a present ring-0 interrupt gate through the kernel's code selector
    whose offset, put together from its three fields, is the stub's address;
    every other vector is not present, and IDTR covers the 256 entries. *)
Theorem init_idt_gates idt_addr isr irq s
    (Hl : length (idt_entries s) = 256%nat)
    (Hisr : forall i, 0 <= isr i < 2 ^ 64) (Hirq : forall i, 0 <= irq i < 2 ^ 64) :
  exists s', init_idt idt_addr isr irq s = Ret tt s' /\ r_idtr s' = TablePtr (256 * 16 - 1) idt_addr /\
    forall j, (j < 256)%nat -> exists e, idt_entries s' !! j = Some e /\
      if decide (j < 20 \/ 32 <= j < 48)%nat
      then gate_present e = true /\ gate_dpl e = 0 /\ selector e = KERNEL_CODE64 /\
           Z.land (type_attr e) 0xF = 0xE /\
           gate_offset e = (if decide (j < 20)%nat then isr j else irq (j - 32)%nat)
      else gate_present e = false.
Proof.
  destruct (init_idt_run idt_addr isr irq s Hl) as (L & R & HlL & HL).
  eexists. split; [exact R|]. split; [done|]. intros j Hj. eexists. split; [exact (HL j Hj)|].
  destruct (decide (j < 20)%nat).
  - rewrite decide_True by (by left). split_and!; try done. by apply gate_offset_gate.
  - destruct (decide (32 <= j < 48)%nat).
    + rewrite decide_True by (by right). split_and!; try done. by apply gate_offset_gate.
    + rewrite decide_False by lia. done.
Qed.

Definition demo_descr : descr :=
  Descr (Gdtr (replicate 5 gdt_desc_zero) (TssDesc 0 0 0 0 0 0 0 0)) (TablePtr 0 0) (Spinlock false false)
    (Tss_t 0 0 0 0 0 0 0 0 0 0 0 0 0 0 0) (replicate 256 idt_zero) (TablePtr 0 0)
    (replicate 420 (SyscallEntry 7 EmptyString 1)) (TablePtr 0 0) (TablePtr 0 0) 0x28 0x30 0 false [].

Lemma init_idt_gates_witness :
  exists s', init_idt 0x7000 (fun i => (0x1000 + Z.of_nat i) mod 2 ^ 64) (fun i => 0xFFFFFFFF80000000) demo_descr = Ret tt s' /\
    exists e, idt_entries s' !! 32%nat = Some e /\ gate_offset e = 0xFFFFFFFF80000000.
Proof.
  destruct (init_idt_gates 0x7000 (fun i => (0x1000 + Z.of_nat i) mod 2 ^ 64) (fun i => 0xFFFFFFFF80000000) demo_descr)
    as (s' & R & _ & H).
  - apply length_replicate.
  - intros i. apply Z.mod_pos_bound. lia.
  - lia.
  - exists s'. split; [exact R|]. destruct (H 32%nat ltac:(lia)) as (e & E & He). exists e. split; [exact E|].
    rewrite decide_True in He by lia. destruct He as (_ & _ & _ & _ & ->). by rewrite decide_False by lia.
Defined.

(** ** Segments *)

Lemma split_tss b : 0 <= b < 2 ^ 64 ->
  Z.land (Z.shiftr b 32) 0xFFFFFFFF * 2 ^ 32 + Z.land (Z.shiftr b 24) 0xFF * 2 ^ 24 +
  Z.land (Z.shiftr b 16) 0xFF * 2 ^ 16 + Z.land b 0xFFFF = b.
Proof.
  intros H. change 0xFFFFFFFF with (Z.ones 32). change 0xFFFF with (Z.ones 16). change 0xFF with (Z.ones 8).
  rewrite !Z.land_ones, !Z.shiftr_div_pow2 by lia.
  rewrite (Z.mod_small (b / 2 ^ 32)) by (split; [apply Z.div_pos; lia|apply Z.div_lt_upper_bound; lia]).
  replace (b / 2 ^ 32) with (b / 2 ^ 16 / 2 ^ 8 / 2 ^ 8) by (rewrite !Zdiv_Zdiv by lia; done).
  replace (b / 2 ^ 24) with (b / 2 ^ 16 / 2 ^ 8) by (rewrite !Zdiv_Zdiv by lia; done).
  Z.div_mod_to_equations; lia.
Qed.

(** The table [gdt_setup] leaves, from five descriptors [ds]. *)
Definition gdt_done (tss_addr : Z) (g : gdtr) : gdtr :=
  let seg i a gr := let e := default gdt_desc_zero (gdt_entries g !! i) in
    GdtDesc (gd_limit e) (gd_base_low e) (gd_base_mid e) a gr (gd_base_high e) in
  Gdtr [default gdt_desc_zero (gdt_entries g !! 0%nat); seg 1%nat 154 32; seg 2%nat 146 0;
        seg 3%nat 242 0; seg 4%nat 250 32]
    (TssDesc (SIZEOF_TSS - 1) (Z.land tss_addr 0xFFFF) (Z.land (Z.shiftr tss_addr 16) 0xFF) 137
       (td_flags2 (gdt_tss g)) (Z.land (Z.shiftr tss_addr 24) 0xFF)
       (Z.land (Z.shiftr tss_addr 32) 0xFFFFFFFF) (td_reserved (gdt_tss g))).

Lemma init_gdt_run gdt_addr tss_addr s d0 d1 d2 d3 d4 : gdt_entries (gdt s) = [d0; d1; d2; d3; d4] ->
  exists s', init_gdt gdt_addr tss_addr s = Ret tt s' /\ gdt s' = gdt_done tss_addr (gdt s) /\
    r_gdtr s' = TablePtr (SIZEOF_GDT - 1) gdt_addr /\ r_cs s' = KERNEL_CODE64 /\ r_ds s' = KERNEL_DATA64 /\
    r_tr s' = TSS /\ d_if s' = d_if s /\ lock (gdt_lock s') = false.
Proof.
  intros E. destruct s as [[es t] gp l ts ie ip st rg ri rc rd rt i con]. cbn in E. subst es.
  destruct i; (eexists; split; [cbv -[Z.land Z.shiftr]; reflexivity|];
    split_and!; cbv -[Z.land Z.shiftr]; reflexivity).
Qed.

(** [init_gdt] gives the kernel selectors 64-bit code and data segments of
    ring 0 and loads the task register with a descriptor whose base is the
    task state segment; but the user selectors are crossed: [USER_CODE64]
    (0x1B) names the data descriptor of ring 3 and [USER_DATA64] (0x23) its
    code descriptor, so returning to user mode with them is a protection
    fault. *)
Theorem gdt_user_selectors_crossed gdt_addr tss_addr s d0 d1 d2 d3 d4
    (Hs : gdt_entries (gdt s) = [d0; d1; d2; d3; d4]) (Ht : 0 <= tss_addr < 2 ^ 64) :
  exists s' kc kd uc ud, init_gdt gdt_addr tss_addr s = Ret tt s' /\
    r_gdtr s' = TablePtr (5 * 8 + 16 - 1) gdt_addr /\ r_cs s' = KERNEL_CODE64 /\ r_tr s' = TSS /\
    tss_base (gdt_tss (gdt s')) = tss_addr /\ d_if s' = d_if s /\
    selected (gdt s') KERNEL_CODE64 = Some kc /\ seg_present kc = true /\ seg_code kc = true /\ seg_dpl kc = 0 /\
    selected (gdt s') KERNEL_DATA64 = Some kd /\ seg_present kd = true /\ seg_code kd = false /\ seg_dpl kd = 0 /\
    selected (gdt s') USER_CODE64 = Some uc /\ seg_code uc = false /\ seg_dpl uc = 3 /\
    selected (gdt s') USER_DATA64 = Some ud /\ seg_code ud = true /\ seg_dpl ud = 3.
Proof.
  destruct (init_gdt_run gdt_addr tss_addr s d0 d1 d2 d3 d4 Hs) as (s' & R & Eg & Er & Ec & _ & Et & Ei & _).
  eexists s', _, _, _, _. split; [exact R|]. split; [exact Er|]. split; [exact Ec|]. split; [exact Et|].
  rewrite Eg. split; [by apply split_tss|]. split; [exact Ei|].
  by do 3 (split; [reflexivity|]; split; [reflexivity|]; split; [reflexivity|]; try (split; [reflexivity|])).
Qed.

Lemma gdt_user_selectors_crossed_witness :
  exists s' uc, init_gdt 0x5000 0xFFFFFFFF80012340 demo_descr = Ret tt s' /\
    tss_base (gdt_tss (gdt s')) = 0xFFFFFFFF80012340 /\
    selected (gdt s') USER_CODE64 = Some uc /\ seg_code uc = false.
Proof.
  destruct (gdt_user_selectors_crossed 0x5000 0xFFFFFFFF80012340 demo_descr
    gdt_desc_zero gdt_desc_zero gdt_desc_zero gdt_desc_zero gdt_desc_zero eq_refl ltac:(lia))
    as (s' & ? & ? & uc & ? & H). destruct_and! H.
  by exists s', uc.
Defined.

(** ** System calls *)

Lemma init_syscalls_run e s : length (syscall_table s) = Z.to_nat MAX_SYS_CALLS ->
  exists T s', init_syscalls e s = Ret tt s' /\ syscall_table s' = T /\
    (forall j x, T !! j = Some x -> x = SyscallEntry NULL EmptyString 0) /\ length T = Z.to_nat MAX_SYS_CALLS /\
    idt_entries s' = <[128%nat := gate e KERNEL_CODE64 0xEE]> (idt_entries s).
Proof.
  intros Hl. unfold init_syscalls.
  rewrite (kbind_ret _ _ s tt (put_event (Print "System Calls...") s)) by reflexivity.
  set (s0 := put_event _ s).
  destruct (kfor_ind (fun i t => exists T, t = set_syscall_table T s0 /\ length T = Z.to_nat MAX_SYS_CALLS /\
      forall j x, Z.of_nat j < i -> T !! j = Some x -> x = SyscallEntry NULL EmptyString 0)
    (Z.to_nat MAX_SYS_CALLS) 0 (fun i => kmod (fun s => set_syscall_table
       (<[Z.to_nat i := SyscallEntry NULL EmptyString 0]> (syscall_table s)) s)) s0) as (t & R & T & -> & HlT & HT).
  - exists (syscall_table s). split; [by destruct s|]. split; [done|]. lia.
  - intros i t Hi (T & -> & HlT & HT). eexists. split; [reflexivity|]. eexists. split; [reflexivity|].
    cbn. split; [by rewrite length_insert|]. intros j x Hj Hx.
    destruct (decide (j = Z.to_nat i)) as [->|Hne].
    + rewrite list_lookup_insert_eq in Hx by lia. by injection Hx as <-.
    + rewrite list_lookup_insert_ne in Hx by done. apply (HT j x); [lia|done].
  - rewrite (kbind_ret _ _ _ _ _ R). eexists T, _. split; [reflexivity|]. split; [done|].
    split; [|by split]. intros j x Hx. apply (HT j x); [|done].
    apply lookup_lt_Some in Hx. lia.
Qed.

(** After [init_syscalls] no system call has a handler, so
    [syscall_handler] answers -1 to every number, in and out of the table's
    range, without calling anything; the gate 0x80 is open to ring 3. *)
Theorem syscalls_all_refused entry s
    (Ht : length (syscall_table s) = Z.to_nat MAX_SYS_CALLS) (Hi : (128 < length (idt_entries s))%nat)
    (He : 0 <= entry < 2 ^ 64) :
  exists s', init_syscalls entry s = Ret tt s' /\
    (forall call n args, syscall_handler call n args s' = Ret (2 ^ 64 - 1) s') /\
    exists g, idt_entries s' !! 128%nat = Some g /\ gate_present g = true /\ gate_dpl g = 3 /\
      gate_offset g = entry.
Proof.
  destruct (init_syscalls_run entry s Ht) as (T & s' & R & ET & HT & HlT & EI).
  exists s'. split; [exact R|]. split.
  - intros call n args. unfold syscall_handler.
    rewrite (kbind_ret _ _ s' T s') by (unfold kasks; by rewrite ET).
    destruct (Z.leb_spec MAX_SYS_CALLS n); [done|].
    destruct (lookup_lt_is_Some_2 T (Z.to_nat n)) as [x Ex]; [unfold MAX_SYS_CALLS in *; lia|].
    rewrite (kbind_ret _ _ s' x s') by (by rewrite Ex). by rewrite (HT _ _ Ex).
  - eexists. split; [rewrite EI; by apply list_lookup_insert_eq|]. do 2 (split; [done | ]).
    by apply gate_offset_gate.
Qed.

Lemma syscalls_all_refused_witness :
  exists s', init_syscalls 0x9000 demo_descr = Ret tt s' /\
    syscall_handler (fun _ _ => mret 5) 3 [] s' = Ret (2 ^ 64 - 1) s'.
Proof.
  destruct (syscalls_all_refused 0x9000 demo_descr) as (s' & R & H & _).
  - apply length_replicate.
  - cbn. lia.
  - lia.
  - exists s'. split; [exact R|]. apply H.
Defined.
