(* ===== verification/Interrupts.v ===== *)
(** * Interrupt and exception handlers (cpu/irq/irq.c, cpu/isr/isr.c)

    [irq_handler] acknowledges an interrupt and dispatches it to the scheduler,
    the clock or the keyboard; [isr_handler] reports an exception and halts. *)

From S2P Require Import Prelude Bytes Console Spinlock Kmem SchedState Sched Threads Ports Timer.
Local Open Scope Z_scope.

(** The parts of the kernel an interrupt reaches; the interrupt frame is the
    scheduler's [frame]. *)
Record irq_state (A D : Type) := IrqState {
  i_sched : sched A;
  i_clock : clock;
  i_dev : D;
}.
Arguments IrqState {A D}.
Arguments i_sched {A D}.
Arguments i_clock {A D}.
Arguments i_dev {A D}.

Section irq.
Context {A D : Type} `{!Kmem A} `{!Console A} `{!PortIO D}.

Definition set_i_sched v (s : irq_state A D) : irq_state A D := IrqState v (i_clock s) (i_dev s).
Definition set_i_clock v (s : irq_state A D) : irq_state A D := IrqState (i_sched s) v (i_dev s).
Definition set_i_dev v (s : irq_state A D) : irq_state A D := IrqState (i_sched s) (i_clock s) v.

#[export] Instance irq_PortIO : PortIO (irq_state A D) := {
  port_in w p s := let '(v, d) := port_in w p (i_dev s) in (v, set_i_dev d s);
  port_out w p v s := set_i_dev (port_out w p v (i_dev s)) s;
}.
#[export] Instance irq_HasClock : HasClock (irq_state A D) := {
  get_clock := i_clock;
  set_clock := set_i_clock;
}.

Context (fuel rounds : nat).

(** [has_context] tells whether [context] is a frame or NULL.
    src/arch/x86_64/cpu/irq/irq.c:3-26 [irq_handler] *)
Definition irq_handler (has_context : bool) : K (irq_state A D) unit :=
  if negb has_context then mret tt else
  context ← kasks (fun s => frame (i_sched s));
  let irq_num := u32 (int_no context - 32) in
  if 15 <? irq_num then mret tt else
  pic_send_eoi irq_num;;
  if irq_num =? 0 then
    klift i_sched set_i_sched (scheduler_tick fuel rounds);;
    timer_handler
  else if irq_num =? 1 then keyboard_handler fuel
  else mret tt.

(** ** Dispatch *)

(** The devices after an end-of-interrupt. *)
Definition acknowledged (irq : Z) (d : D) : D :=
  port_out 8 PIC1_COMMAND 0x20 (if 8 <=? irq then port_out 8 PIC2_COMMAND 0x20 d else d).

Lemma eoi_run irq (s : irq_state A D) :
  pic_send_eoi irq s = Ret tt (set_i_dev (acknowledged irq (i_dev s)) s).
Proof. unfold pic_send_eoi, acknowledged. destruct (8 <=? irq); reflexivity. Qed.

Lemma irq_handler_run (s : irq_state A D) :
  let irq := u32 (int_no (frame (i_sched s)) - 32) in
  irq_handler true s
  = if 15 <? irq then Ret tt s else
    let s1 := set_i_dev (acknowledged irq (i_dev s)) s in
    if irq =? 0 then
      match scheduler_tick fuel rounds (i_sched s) with
      | Ret _ sc => Ret tt (set_i_clock (tick (i_clock s)) (set_i_sched sc s1))
      | Stop c sc => Stop c (set_i_sched sc s1)
      end
    else if irq =? 1 then keyboard_handler fuel s1
    else Ret tt s1.
Proof.
  cbv zeta. unfold irq_handler. cbn [negb].
  rewrite (kbind_ret _ _ s (frame (i_sched s)) s) by reflexivity. cbv zeta.
  set (irq := u32 _). destruct (15 <? irq); [done|].
  rewrite (kbind_ret _ _ _ _ _ (eoi_run irq s)). set (s1 := set_i_dev _ s).
  destruct (irq =? 0); [|by destruct (irq =? 1)].
  unfold klift, mbind, K_bind. change (i_sched s1) with (i_sched s).
  by destruct (scheduler_tick fuel rounds (i_sched s)) as [[] sc|c sc].
Qed.
End irq.

(** [irq_handler] does exactly one thing per vector: outside 32 to 47 (and
    for a NULL frame) nothing; otherwise it first tells the controllers, the
    second one only for its own lines, and then, for line 0 and if the
    scheduler's tick comes back, advances the clock by one millisecond from
    what it was, leaving scheduling to [scheduler_tick]; a tick that hangs
    hangs after the acknowledgement and before the clock; every other line but
    the keyboard's is only acknowledged. *)
Theorem irq_handler_dispatch {A D} `{!Kmem A} `{!PortIO D} fuel rounds (s : irq_state A D) :
  let n := int_no (frame (i_sched s)) in
  irq_handler fuel rounds false s = Ret tt s /\
  (0 <= n < 2 ^ 32 -> n < 32 \/ 47 < n -> irq_handler fuel rounds true s = Ret tt s) /\
  (n = 32 -> forall sc, scheduler_tick fuel rounds (i_sched s) = Ret tt sc ->
     irq_handler fuel rounds true s
     = Ret tt (IrqState sc (tick (i_clock s)) (port_out 8 PIC1_COMMAND 0x20 (i_dev s)))) /\
  (n = 32 -> forall c sc, scheduler_tick fuel rounds (i_sched s) = Stop c sc ->
     irq_handler fuel rounds true s
     = Stop c (IrqState sc (i_clock s) (port_out 8 PIC1_COMMAND 0x20 (i_dev s)))) /\
  (33 < n < 48 -> irq_handler fuel rounds true s
     = Ret tt (IrqState (i_sched s) (i_clock s) (port_out 8 PIC1_COMMAND 0x20
         (if 40 <=? n then port_out 8 PIC2_COMMAND 0x20 (i_dev s) else i_dev s)))).
Proof.
  cbv zeta. pose proof (irq_handler_run fuel rounds s) as R. cbv zeta in R.
  split; [done|]. split; [|split; [|split]].
  - intros Hn Hout. rewrite R. destruct (Z.ltb_spec 15 (u32 (int_no (frame (i_sched s)) - 32))) as [|Hle]; [done|].
    exfalso. destruct Hout as [Hlt|Hgt].
    + assert (E : u32 (int_no (frame (i_sched s)) - 32) = int_no (frame (i_sched s)) - 32 + 2 ^ 32)
        by (symmetry; apply (Z.mod_unique_pos _ _ (-1)); lia). lia.
    + rewrite wrap_small in Hle by lia. lia.
  - intros En sc E. rewrite R, En, E. reflexivity.
  - intros En c sc E. rewrite R, En, E. reflexivity.
  - intros Hn. rewrite R. rewrite wrap_small by lia.
    destruct (Z.ltb_spec 15 (int_no (frame (i_sched s)) - 32)); [lia|].
    destruct (Z.eqb_spec (int_no (frame (i_sched s)) - 32) 0); [lia|].
    destruct (Z.eqb_spec (int_no (frame (i_sched s)) - 32) 1); [lia|].
    unfold acknowledged, set_i_dev.
    replace (8 <=? int_no (frame (i_sched s)) - 32) with (40 <=? int_no (frame (i_sched s))); [done|].
    destruct (Z.leb_spec 40 (int_no (frame (i_sched s)))), (Z.leb_spec 8 (int_no (frame (i_sched s)) - 32)); lia || done.
Qed.

(** Devices that only record what is written to them. *)
Definition trace_ports : PortIO (list (Z * Z)) := {|
  port_in _ _ s := (1, s);
  port_out _ p v s := s ++ [(p, v)];
|}.
Definition no_Kmem : Kmem unit := {|
  km_malloc _ := mret 0; km_free _ := mret tt; km_new_space := mret 0;
  km_cache_create _ _ := mret 0; km_cache_alloc _ := mret 0; km_cache_free _ _ := mret tt;
|}.
Definition demo_irq (n : Z) : irq_state unit (list (Z * Z)) :=
  IrqState (SchedState ∅ ∅ ∅ (Spinlock false false) NULL NULL 0 NULL [] 0 0 [] 0 0
    (Context_t 0 0 0 0 0 0 0 0 0 0 0 0 0 0 0 n 0 0 0 0 0 0) false tt)
    (Clock (SystemTime 999 59 59 23 0) 86399999) [].

Lemma irq_handler_dispatch_witness :
  @irq_handler unit _ no_Kmem trace_ports 1 1 true (demo_irq 45)
  = Ret tt (IrqState (i_sched (demo_irq 45)) (i_clock (demo_irq 45)) [(PIC2_COMMAND, 0x20); (PIC1_COMMAND, 0x20)]) /\
  exists sc, @irq_handler unit _ no_Kmem trace_ports 1 1 true (demo_irq 32)
  = Ret tt (IrqState sc (Clock (SystemTime 0 0 0 0 1) 86400000) [(PIC1_COMMAND, 0x20)]).
Proof.
  split.
  - apply (@irq_handler_dispatch unit _ no_Kmem trace_ports 1 1 (demo_irq 45)). cbn. lia.
  - eexists. apply (@irq_handler_dispatch unit _ no_Kmem trace_ports 1 1 (demo_irq 32)); [reflexivity|].
    vm_compute. reflexivity.
Defined.

(** ** Exceptions *)

(** An argument of a conversion in a format. *)
Inductive print_arg : Type := Num (v : Z) | Txt (t : string).

(** The control registers, and the reports [kprintf] makes. *)
Class Exc (S : Type) := {
  put_fmt : string -> list print_arg -> S -> S;
  set_cr : Z -> Z -> S -> S;               (* register number, value *)
}.

Definition nl : string := newline.

(** src/arch/x86_64/cpu/isr/isr.c:3-37 [isr_exception_messages] *)
Definition isr_exception_messages : list string := [
  "Divide by zero"; "Debug"; "NMI"; "Breakpoint"; "Overflow"; "Bound Range Exceeded";
  "Invalid Opcode"; "Device Not Available"; "Double fault"; "Co-processor Segment Overrun";
  "Invalid TSS"; "Segment not present"; "Stack-Segment Fault"; "GPF"; "Page Fault"; "Reserved";
  "x87 Floating Point Exception"; "alignment check"; "Machine check";
  "SIMD floating-point exception"; "Virtualization Exception"; "Deadlock"; "Reserved"; "Reserved";
  "Reserved"; "Reserved"; "Reserved"; "Reserved"; "Reserved"; "Reserved"; "Reserved";
  "Security Exception"; "Reserved"; "Triple Fault"; "FPU error"]%string.

(** The message and the cause of each case of the switch but the page
    fault's extra lines; [None] is the default case.
    src/arch/x86_64/cpu/isr/isr.c:57-178 [isr_handler] *)
Definition isr_case (n : Z) : option (nat * string) :=
  (match n with
   | 0 => Some (0%nat, "Division by zero or division overflow")
   | 1 => Some (1%nat, "Debug symbol")
   | 2 => Some (2%nat, "Non-maskable interrupt")
   | 3 => Some (3%nat, "Breakpoint instruction")
   | 4 => Some (4%nat, "Overflow when executing INTO instruction")
   | 5 => Some (5%nat, "Index out of bounds")
   | 6 => Some (6%nat, "Undefined instruction or corrupted code")
   | 7 => Some (7%nat, "FPU instruction attempted, but no FPU")
   | 8 => Some (8%nat, "Exception during exception handling")
   | 9 => Some (9%nat, "Outdated hardware exception")
   | 10 => Some (10%nat, "Invalid segment selector")
   | 11 => Some (11%nat, "References a descriptor which is not present, but is marked as present")
   | 12 => Some (12%nat, "Stack corruption or other stack failure")
   | 13 => Some (13%nat, "Segment or privilege violation")
   | 14 => Some (14%nat, "Invalid memory access")
   | 15 => Some (15%nat, "Reserved")
   | 16 => Some (16%nat, "Waiting floating point instruction executed and failed")
   | 17 => Some (17%nat, "Unaligned memory acessed/referenced")
   | 18 => Some (18%nat, "Processor detected internal errors")
   | 19 => Some (19%nat, "Unmasked 128-bit media floating point exception and OSXMMEXCPT bit is set to 1")
   | 20 => Some (20%nat, "???")
   | 21 => Some (21%nat, "???")
   | 22 | 23 | 24 | 25 | 26 | 27 => Some (27%nat, "Reserved")
   | 28 => Some (28%nat, "???")
   | 29 => Some (29%nat, "???")
   | 30 => Some (30%nat, "???")
   | 31 => Some (31%nat, "Reserved")
   | _ => None
   end)%string.

(** The locals of the handler that its [mov] instructions were meant to
    fill. *)
Record isr_locals := IsrLocals {
  l_cr2 : Z;
  l_rax : Z; l_rbx : Z; l_rcx : Z; l_rdx : Z; l_rsi : Z; l_rdi : Z;
  l_cr0 : Z; l_cr3 : Z; l_cr4 : Z;
}.

Section isr.
Context {S : Type} `{!BMem S} `{!Exc S}.

Definition say (format : string) (args : list print_arg) : K S unit := kmod (put_fmt (format +:+ nl) args).
Definition say_raw (format : string) (args : list print_arg) : K S unit := kmod (put_fmt format args).
Definition yes_no (b : bool) : print_arg := Txt (if b then "Yes" else "No").
Definition on_off (b : bool) : print_arg := Txt (if b then "Enabled" else "Disabled").

(** The build assembles with [-masm=intel], whose first operand is the
    destination: "mov %%cr0, %0" loads the control register from the local's
    register and leaves the local as it was, [l] being what the locals hold.
    src/arch/x86_64/cpu/isr/isr.c:115-125 [isr_handler] *)
Definition page_fault_lines (l : isr_locals) (err : Z) : K S unit :=
  kmod (set_cr 2 (l_cr2 l));;
  say "Fault Address (CR2): 0x%lx" [Num (l_cr2 l)];;
  say "Page Fault Flags:" [];;
  say "Present: %s" [yes_no (negb (Z.land err 1 =? 0))];;
  say "Write: %s" [yes_no (negb (Z.land err 2 =? 0))];;
  say "User: %s" [yes_no (negb (Z.land err 4 =? 0))].

(** src/arch/x86_64/cpu/isr/isr.c:57-183 [isr_handler] *)
Definition report_cause (l : isr_locals) (c : context_t) : K S unit :=
  match isr_case (int_no c) with
  | Some (m, cause) =>
      say "Type: %s" [Txt (isr_exception_messages !!! m)];;
      say ("Cause: " +:+ cause) [];;
      kwhen (int_no c =? 14) (page_fault_lines l (err_code c))
  | None =>
      say "Type: Idek how you got here. You fucked up dude, like, fucked up fucked up" [];;
      say "Cause: Doing something you really shouldn't have been doing" []
  end.

(** src/arch/x86_64/cpu/isr/isr.c:185-214 [isr_handler] *)
Definition report_registers (l : isr_locals) (c : context_t) : K S unit :=
  say "" [];;
  say "---Registers---" [];;
  say "RIP: 0x%016lx (Instruction Pointer)" [Num (rip c)];;
  say "RSP: 0x%016lx (Stack Pointer)" [Num (rsp c)];;
  say "RBP: 0x%016lx (Base Pointer)" [Num (rbp c)];;
  say "RFLAGS: 0x%016lx" [Num (rflags c)];;
  say "CS: 0x%04lx SS: 0x%04lx" [Num (cs c); Num (ss c)];;
  say "RAX: 0x%016lx RBX: 0x%016lx" [Num (l_rax l); Num (l_rbx l)];;
  say "RCX: 0x%016lx RDX: 0x%016lx" [Num (l_rcx l); Num (l_rdx l)];;
  say "RSI: 0x%016lx RDI: 0x%016lx" [Num (l_rsi l); Num (l_rdi l)];;
  kmod (set_cr 0 (l_cr0 l));;
  kmod (set_cr 3 (l_cr3 l));;
  kmod (set_cr 4 (l_cr4 l));;
  say "" [];;
  say "---Control Registers---" [];;
  say "CR0: 0x%016lx (System Control)" [Num (l_cr0 l)];;
  say "CR3: 0x%016lx (Page Directory)" [Num (l_cr3 l)];;
  say "CR4: 0x%016lx (Extended Features)" [Num (l_cr4 l)].

(** src/arch/x86_64/cpu/isr/isr.c:216-230 [isr_handler] *)
Definition dump_code (c : context_t) : K S unit :=
  say "" [];;
  say "Code dump (RIP):" [];;
  say "Address: 0x%lx" [Num (rip c)];;
  say_raw "Bytes: " [];;
  kfor 16 (-8) (fun i =>
    kwhen (i =? 0) (say_raw "[" []);;
    b ← kasks (fun s => rb s (u64 (rip c + i)));
    say_raw "%02x " [Num b];;
    kwhen (i =? 0) (say_raw "]" []));;
  say "" [].

(** src/arch/x86_64/cpu/isr/isr.c:232-243 [isr_handler] *)
Definition dump_stack (c : context_t) : K S unit :=
  say "" [];;
  say "Stack dump (RSP):" [];;
  say "Stack pointer: 0x%lx" [Num (rsp c)];;
  kfor 8 0 (fun i =>
    v ← kasks (fun s => ld64 s (u64 (rsp c + 8 * i)));
    say_raw "RSP+%02d: 0x%016lx" [Num (i * 8); Num v];;
    kwhen (i =? 0) (say_raw " <- RSP" []);;
    say "" []).

(** At most five frames: six turns are enough.
    src/arch/x86_64/cpu/isr/isr.c:245-255 [isr_handler] *)
Definition dump_trace (c : context_t) : K S unit :=
  say "" [];;
  say "---Stack Trace---" [];;
  kloop 6 (fun '(i, rbp_ptr) =>
    if (5 <=? i) || (rbp_ptr =? NULL) then mret (inr tt) else
    ret ← kasks (fun s => ld64 s (u64 (rbp_ptr + 8)));
    say "Context %d: RBP=0x%lx, Return=0x%lx" [Num i; Num rbp_ptr; Num ret];;
    next ← kasks (fun s => ld64 s rbp_ptr);
    if (next <? 0x100000) || (0x1000000 <? next) then mret (inr tt)
    else mret (inl (i + 1, next))) (0, rbp c).

(** src/arch/x86_64/cpu/isr/isr.c:257-266 [isr_handler] *)
Definition report_state (l : isr_locals) (c : context_t) : K S unit :=
  let page a := Z.land a (u64 (Z.lnot 0xFFF)) in
  say "" [];;
  say "---Memory State---" [];;
  say "Kernel stack range: 0x%lx - 0x%lx" [Num (page (rsp c)); Num (u64 (page (rsp c) + 0x1000))];;
  say "Code segment: 0x%lx" [Num (page (rip c))];;
  say "" [];;
  say "---System State---" [];;
  say "Interrupts: %s" [on_off (negb (Z.land (rflags c) 0x200 =? 0))];;
  say "Privilege level: ring %lu" [Num (Z.land (cs c) 3)];;
  say "Paging: %s" [on_off (negb (Z.land (l_cr0 l) 0x80000000 =? 0))].

(** src/arch/x86_64/cpu/isr/isr.c:39-269 [isr_handler] *)
Definition isr_handler `{!Cpu S} (l : isr_locals) (context : option context_t) : K S unit :=
  disable_interrupt;;
  say "" [];;
  say "EXCEPTION" [];;
  say "---------------" [];;
  match context with
  | None => say "Null Fault Context" [];; kstop Halted
  | Some c =>
      say "---Exception Details---" [];;
      say "Exception Number: %u (0x%x)" [Num (int_no c); Num (int_no c)];;
      say "Error Code: 0x%lx" [Num (err_code c)];;
      report_cause l c;;
      report_registers l c;;
      dump_code c;;
      dump_stack c;;
      dump_trace c;;
      report_state l c;;
      kstop Halted
  end.
End isr.

(** ** What an exception report does to the processor *)

(** Reports touch neither the control registers nor the interrupt flag. *)
Class ExcOk (S : Type) `{!Exc S} `{!Cpu S} := {
  cr : Z -> S -> Z;
  cr_put_fmt : forall n f a s, cr n (put_fmt f a s) = cr n s;
  cr_set : forall n k v s, cr n (set_cr k v s) = if n =? k then v else cr n s;
  cr_set_if : forall n b s, cr n (set_if b s) = cr n s;
  if_put_fmt : forall f a s, get_if (put_fmt f a s) = get_if s;
  if_set_cr : forall k v s, get_if (set_cr k v s) = get_if s;
  if_set_if : forall b s, get_if (set_if b s) = b;
}.

Section effects.
Context {S : Type} `{!BMem S} `{!Exc S} `{!Cpu S} `{!ExcOk S}.

(** The register [n] after the loads [U], oldest first. *)
Definition loaded (U : list (Z * Z)) (n v : Z) : Z :=
  fold_left (fun v '(k, x) => if n =? k then x else v) U v.

(** [m] returns, having loaded the control registers [U] and nothing else of
    the processor's state. *)
Definition effect (m : K S unit) (U : list (Z * Z)) : Prop := forall s, exists s',
  m s = Ret tt s' /\ (forall n, cr n s' = loaded U n (cr n s)) /\ get_if s' = get_if s.

Lemma effect_say f a : effect (say f a) [].
Proof. intros s. eexists. split; [reflexivity|]. split; [intros n; apply cr_put_fmt|apply if_put_fmt]. Qed.

Lemma effect_say_raw f a : effect (say_raw f a) [].
Proof. intros s. eexists. split; [reflexivity|]. split; [intros n; apply cr_put_fmt|apply if_put_fmt]. Qed.

Lemma effect_cr k v : effect (kmod (set_cr k v)) [(k, v)].
Proof. intros s. eexists. split; [reflexivity|]. split; [intros n; apply cr_set|apply if_set_cr]. Qed.

Lemma effect_ret : effect (mret tt) [].
Proof. intros s. by exists s. Qed.

Lemma effect_bind m1 m2 U1 U2 : effect m1 U1 -> effect m2 U2 -> effect (m1;; m2) (U1 ++ U2).
Proof.
  intros H1 H2 s. destruct (H1 s) as (s1 & R1 & C1 & I1). destruct (H2 s1) as (s2 & R2 & C2 & I2).
  exists s2. split; [by rewrite (kbind_ret _ _ _ _ _ R1)|]. split; [|congruence].
  intros n. unfold loaded. rewrite fold_left_app. rewrite C2, C1. done.
Qed.

Lemma effect_read {B} (f : S -> B) m U : (forall x, effect (m x) U) -> effect (kasks f ≫= m) U.
Proof. intros H s. apply (H (f s) s). Qed.

Lemma effect_when (b : bool) m : effect m [] -> effect (kwhen b m) [].
Proof. intros H. destruct b; [done|apply effect_ret]. Qed.

Lemma effect_kfor n i body : (forall j, effect (body j) []) -> effect (kfor n i body) [].
Proof.
  intros H. revert i. induction n as [|n IH]; intros i; [apply effect_ret|].
  apply (effect_bind _ _ [] []); [apply H|apply IH].
Qed.

Lemma effect_bind0 m1 m2 U : effect m1 [] -> effect m2 U -> effect (m1;; m2) U.
Proof. apply (effect_bind m1 m2 []). Qed.
End effects.

(** Walk a sequence of reports, by the head of the goal. *)
Ltac quiet :=
  repeat lazymatch goal with
  | |- effect (say _ _) _ => apply effect_say
  | |- effect (say_raw _ _) _ => apply effect_say_raw
  | |- effect (mret tt) _ => apply effect_ret
  | |- effect (kwhen false _) _ => apply effect_ret
  | |- effect (kwhen _ _) _ => apply effect_when
  | |- effect (kasks _ ≫= _) _ => apply effect_read; intros ?
  | |- effect (say _ _ ≫= _) _ => apply effect_bind0; [apply effect_say|]
  | |- effect (say_raw _ _ ≫= _) _ => apply effect_bind0; [apply effect_say_raw|]
  | |- effect (kwhen _ _ ≫= _) _ => apply effect_bind0; [apply effect_when|]
  end.

Section isr_effects.
Context {S : Type} `{!BMem S} `{!Exc S} `{!Cpu S} `{!ExcOk S}.

Lemma page_fault_effect l err : effect (S := S) (page_fault_lines l err) [(2, l_cr2 l)].
Proof. unfold page_fault_lines. apply (effect_bind _ _ [_] []); [apply effect_cr|]. quiet. Qed.

Lemma cause_effect l c : effect (S := S) (report_cause l c) (if int_no c =? 14 then [(2, l_cr2 l)] else []).
Proof.
  unfold report_cause. destruct (Z.eqb_spec (int_no c) 14) as [E|Hne].
  - rewrite E. cbn [isr_case]. do 2 (apply effect_bind0; [apply effect_say|]). apply page_fault_effect.
  - destruct (isr_case (int_no c)) as [[m cause]|]; quiet.
Qed.

Lemma registers_effect l c : effect (S := S) (report_registers l c) [(0, l_cr0 l); (3, l_cr3 l); (4, l_cr4 l)].
Proof.
  unfold report_registers. do 10 (apply effect_bind0; [apply effect_say|]).
  apply (effect_bind _ _ [_] [_; _]); [apply effect_cr|].
  apply (effect_bind _ _ [_] [_]); [apply effect_cr|].
  apply (effect_bind _ _ [_] []); [apply effect_cr|]. quiet.
Qed.

Lemma code_effect c : effect (S := S) (dump_code c) [].
Proof.
  unfold dump_code. quiet. apply effect_bind0; [|quiet]. apply effect_kfor. intros j. quiet.
Qed.

Lemma stack_effect c : effect (S := S) (dump_stack c) [].
Proof. unfold dump_stack. quiet. apply effect_kfor. intros j. quiet. Qed.

(** The walk up the frames ends after five of them. *)
Lemma trace_effect c : effect (S := S) (dump_trace c) [].
Proof.
  unfold dump_trace. quiet.
  assert (H : forall f i p s, 5 - i < Z.of_nat f -> i <= 5 -> exists s', kloop f (fun '(i, rbp_ptr) =>
      if (5 <=? i) || (rbp_ptr =? NULL) then mret (inr tt) else
      ret ← kasks (fun s => ld64 s (u64 (rbp_ptr + 8)));
      say "Context %d: RBP=0x%lx, Return=0x%lx" [Num i; Num rbp_ptr; Num ret];;
      next ← kasks (fun s => ld64 s rbp_ptr);
      if (next <? 0x100000) || (0x1000000 <? next) then mret (inr tt)
      else mret (inl (i + 1, next))) (i, p) s = Ret tt s' /\
      (forall n, cr n s' = cr n s) /\ get_if s' = get_if s).
  { induction f as [|f IH]; intros i p s Hf Hi; [lia|].
    destruct ((5 <=? i) || (p =? NULL)) eqn:E1.
    - exists s. split; [|done]. apply kloop_exit. by rewrite E1.
    - set (s1 := put_fmt ("Context %d: RBP=0x%lx, Return=0x%lx" +:+ nl)
                     [Num i; Num p; Num (ld64 s (u64 (p + 8)))] s).
        destruct ((ld64 s1 p <? 0x100000) || (0x1000000 <? ld64 s1 p)) eqn:E2.
      + exists s1. split; [|split; [intros n; apply cr_put_fmt|apply if_put_fmt]].
          apply kloop_exit. rewrite E1. cbv beta iota zeta delta [mbind K_bind kasks say kmod].
          fold s1. by rewrite E2.
      + destruct (IH (i + 1) (ld64 s1 p) s1) as (s' & R & C & I);
          [apply orb_false_iff in E1 as [E1 _]; apply Z.leb_gt in E1; lia..|].
          exists s'. split; [|split; [intros n; rewrite C; apply cr_put_fmt|rewrite I; apply if_put_fmt]].
          rewrite (kloop_next _ _ _ (i + 1, ld64 s1 p) s s1); [exact R|].
          rewrite E1. cbv beta iota zeta delta [mbind K_bind kasks say kmod]. fold s1. by rewrite E2. }
  intros s. destruct (H 6%nat 0 (rbp c) s ltac:(lia) ltac:(lia)) as (s' & R & C & I). by exists s'.
Qed.

Lemma state_effect l c : effect (S := S) (report_state l c) [].
Proof. unfold report_state. quiet. Qed.
End isr_effects.

(** The exception handler never returns: for every context (a NULL one
    too) it turns interrupts off, reports, and halts, also when the stack it
    walks is cyclic; but on its way it loads CR0, CR3 and CR4 (and CR2 for a
    page fault) with what its uninitialised locals held, since the operands of
    its register reads are the wrong way round for the assembler's syntax. *)
Theorem isr_handler_halts {S} `{!BMem S} `{!Exc S} `{!Cpu S} `{!ExcOk S} (l : isr_locals) (s : S) :
  (exists s', isr_handler l None s = Stop Halted s' /\ get_if s' = false /\ forall n, cr n s' = cr n s) /\
  forall c, exists s', isr_handler l (Some c) s = Stop Halted s' /\ get_if s' = false /\
    cr 0 s' = l_cr0 l /\ cr 3 s' = l_cr3 l /\ cr 4 s' = l_cr4 l /\
    cr 2 s' = (if int_no c =? 14 then l_cr2 l else cr 2 s).
Proof.
  unfold isr_handler, disable_interrupt. split.
  - eexists. split; [reflexivity|]. rewrite !if_put_fmt, if_set_if. split; [done|].
    intros n. by rewrite !cr_put_fmt, cr_set_if.
  - intros c. rewrite (kbind_ret _ _ s tt (set_if false s)) by reflexivity.
    assert (H : effect (S := S) (say "" [];; say "EXCEPTION" [];; say "---------------" [];;
        say "---Exception Details---" [];;
        say "Exception Number: %u (0x%x)" [Num (int_no c); Num (int_no c)];;
        say "Error Code: 0x%lx" [Num (err_code c)];;
        report_cause l c;; report_registers l c;; dump_code c;; dump_stack c;; dump_trace c;; report_state l c)
      ((if int_no c =? 14 then [(2, l_cr2 l)] else []) ++ [(0, l_cr0 l); (3, l_cr3 l); (4, l_cr4 l)])).
    { do 6 (apply effect_bind0; [apply effect_say|]). apply effect_bind; [apply cause_effect|].
      rewrite <- (app_nil_r [_; _; _]). apply effect_bind; [apply registers_effect|].
      apply effect_bind0; [apply code_effect|]. apply effect_bind0; [apply stack_effect|].
      apply effect_bind0; [apply trace_effect|]. apply state_effect. }
    destruct (H (set_if false s)) as (s' & R & C & I). exists s'. split.
    + repeat match goal with R : (_ ≫= _) _ = Ret _ _ |- _ =>
        let s1 := fresh "s" in let E := fresh "E" in
        apply kbind_inv in R as ([] & s1 & E & R);
        rewrite (kbind_ret _ _ _ _ _ E); clear E end.
      by rewrite (kbind_ret _ _ _ _ _ R).
    + rewrite I, if_set_if. split; [done|]. rewrite !C, !cr_set_if. unfold loaded.
      destruct (int_no c =? 14); by split_and!.
Qed.

(** Control registers and an interrupt flag over a memory of zeros. *)
Definition exc_state : Type := (Z -> Z) * bool.
#[local] Instance exc_BMem : BMem exc_state := { rb _ _ := 0; wb _ _ s := s }.
#[local] Instance exc_Cpu : Cpu exc_state := { get_if := snd; set_if b s := (fst s, b) }.
#[local] Instance exc_Exc : Exc exc_state := {
  put_fmt _ _ s := s;
  set_cr k v s := (fun n => if n =? k then v else fst s n, snd s);
}.
#[local, refine] Instance exc_ExcOk : ExcOk exc_state := { cr n s := fst s n }.
Proof. all: done. Defined.

Lemma isr_handler_halts_witness :
  exists s', isr_handler (IsrLocals 2 0 0 0 0 0 0 10 13 14)
    (Some (Context_t 0 0 0 0 0 0 0 0 0x200000 0 0 0 0 0 0 14 7 0x1000 8 0x202 0x2000 16)) ((fun _ => 1), true)
    = Stop Halted s' /\ snd s' = false /\ fst s' 3 = 13.
Proof.
  destruct (proj2 (isr_handler_halts (IsrLocals 2 0 0 0 0 0 0 10 13 14) ((fun _ => 1), true))
    (Context_t 0 0 0 0 0 0 0 0 0x200000 0 0 0 0 0 0 14 7 0x1000 8 0x202 0x2000 16)) as (s' & R & I & _ & C & _).
  exists s'. exact (conj R (conj I C)).
Defined.
