(* ===== verification/Preempt.v ===== *)
(** * A timer interrupt from end to end

    The stub of isr.asm, [irq_handler], [scheduler_tick] and [iretq] together:
    the registers of the interrupted thread end up in its [thread_t], and the
    processor goes on with those of the thread the scheduler chose. *)

From S2P Require Import Prelude Console Machine Kheap Spinlock Kmem SchedState Sched Queue Mutex Threads Scheduler Fairness Stubs SwitchAsm Ports Timer Interrupts.
Local Open Scope Z_scope.

Section preempt.
Context {A D : Type} `{!Kmem A} `{!Console A} `{!PortIO D} (fuel rounds : nat).
Implicit Types k : irq_state A D.

(** The kernel with a frame on the interrupt's stack. *)
Definition with_frame (c : context_t) (k : irq_state A D) : irq_state A D := set_i_sched (set_frame c (i_sched k)) k.

(** What [irq_handler] makes of a frame. *)
Definition irq_frame (k : irq_state A D) (c : context_t) : context_t :=
  match irq_handler fuel rounds true (with_frame c k) with
  | Ret _ k' | Stop _ k' => frame (i_sched k')
  end.

(** The handler on the timer's frame. *)
Lemma timer_irq_run k c thc q s :
  running_sys (i_sched k) c thc q -> (1 <= fuel)%nat -> (total_cd (threads (i_sched k)) (q ++ [c]) < rounds)%nat ->
  int_no s = 32 ->
  exists t q' sc, t :: q'.*1 ≡ₚ q ++ [c] /\
    irq_handler fuel rounds true (with_frame s k)
    = Ret tt (set_i_clock (tick (i_clock k)) (set_i_sched sc (set_i_dev (acknowledged 0 (i_dev k)) k))) /\
    dispatched (saved (set_frame s (i_sched k)) c thc) t q' sc.
Proof.
  intros R Hf Hr Hn. pose proof (running_frame _ c thc q s R) as R'.
  destruct (scheduler_tick_run fuel _ c thc q rounds R' Hf Hr) as (t & q' & sc & _ & Hp & E & Hd).
  exists t, q', sc. split; [done|]. split; [|done].
  rewrite irq_handler_run. cbv zeta. change (frame (i_sched (with_frame s k))) with s.
  rewrite Hn. change (u32 (32 - 32)) with 0. cbn [Z.ltb Z.compare Z.eqb].
  change (i_sched (with_frame s k)) with (set_frame s (i_sched k)). rewrite E. reflexivity.
Qed.

(** The interrupted thread keeps its registers. *)
Lemma saved_context k c thc t q' sc s : threads (i_sched k) !! c = Some thc ->
  dispatched (saved (set_frame s (i_sched k)) c thc) t q' sc -> context <$> threads sc !! c = Some s.
Proof.
  intros Ec Hd. set (thr := t_set_state THREAD_READY (t_set_context s thc)).
  assert (E0 : threads (saved (set_frame s (i_sched k)) c thc) !! c = Some thr) by apply lookup_insert_eq.
  destruct (decide (t = c)) as [->|Hne].
  - destruct (ds_thread _ _ _ _ Hd thr E0) as (th' & -> & Ecore). cbn. f_equal.
    transitivity (context (core th')); [by destruct th'|]. by rewrite Ecore; destruct thc.
  - pose proof (ds_others _ _ _ _ Hd c (not_eq_sym Hne)) as E. rewrite E0 in E.
    destruct (threads sc !! c) as [th'|]; [|done]. apply (inj Some) in E. cbn. f_equal.
    transitivity (context (core th')); [by destruct th'|]. by rewrite E; destruct thc.
Qed.

(** C36: a timer interrupt preempts: [h] being machine code that does to the
    frame what [irq_handler] does, the registers of the interrupted thread [c]
    are saved in its [thread_t], the clock advances, some thread [t] of those
    ready or running becomes the current one, and the processor goes on with
    the registers [t] had saved ([c]'s own, when it is chosen again; the user
    selectors and interrupts on for a ring-3 thread). *)
Theorem timer_interrupt_preempts rsp0 ra h k s c thc q
    (Htop : 512 <= gate_top rsp0 s < 2 ^ 64 - 256)
    (Hsys : running_sys (i_sched k) c thc q) (Hfuel : (1 <= fuel)%nat)
    (Hrounds : (total_cd (threads (i_sched k)) (q ++ [c]) < rounds)%nat)
    (Hh : c_handles ra (words s) (gate_top rsp0 s - 176) (cpu_context 32 0 s) h (irq_frame k (cpu_context 32 0 s))) :
  let now := cpu_context 32 0 s in
  exists s' k' t th,
    (deliver rsp0 None;; irq_stub 32 ra h) s = Ret tt s' /\
    irq_handler fuel rounds true (with_frame now k) = Ret tt k' /\
    t ∈ q ++ [c] /\ current_thread (i_sched k') = t /\ threads (i_sched k) !! t = Some th /\
    context <$> threads (i_sched k') !! c = Some now /\ i_clock k' = tick (i_clock k) /\
    let next := resume_frame now (if decide (t = c) then now else context th)
                  (bool_decide (privilege th = THREAD_RING_3)) in
    cpu_context (int_no next) (err_code next) s' = next.
Proof.
  intros now. destruct (timer_irq_run k c thc q now Hsys Hfuel Hrounds eq_refl) as (t & q' & sc & Hp & E & Hd).
  destruct (irq_stub_run rsp0 32 ra h _ s Htop Hh) as (s' & R & C). fold now in C.
  unfold irq_frame in C. rewrite E in C. cbn [i_sched set_i_clock set_i_sched] in C.
  pose proof (rn_thread _ _ _ _ Hsys) as Ec.
  assert (Ht : t ∈ q ++ [c]) by (rewrite <- Hp; by left).
  assert (exists th, threads (i_sched k) !! t = Some th) as [th Eth].
  { apply elem_of_app in Ht as [Hq|Hq]; [|apply list_elem_of_singleton in Hq; subst t; by exists thc].
    by destruct (queue_some _ _ _ (rs_queue _ _ (rn_ready _ _ _ _ Hsys)) Hq) as [_ [th ?]]; exists th. }
  eexists s', _, t, th. split; [exact R|]. split; [exact E|]. split; [exact Ht|].
  split; [exact (ds_current _ _ _ _ Hd)|]. split; [exact Eth|].
  split; [exact (saved_context k c thc t q' sc now Ec Hd)|]. split; [reflexivity|].
  cbv zeta in C |- *.
  assert (Ef : frame sc = resume_frame now (if decide (t = c) then now else context th)
                 (bool_decide (privilege th = THREAD_RING_3))).
  { destruct (decide (t = c)) as [->|Hne].
    - rewrite Ec in Eth. injection Eth as <-.
      rewrite (ds_frame _ _ _ _ Hd (t_set_state THREAD_READY (t_set_context now thc))) by apply lookup_insert_eq.
      by destruct thc.
    - apply (ds_frame _ _ _ _ Hd th). cbn. by rewrite lookup_insert_ne by congruence. }
  by rewrite <- Ef.
Qed.
End preempt.

(** ** Witness: the demonstration threads

    Thread 102 is chosen; its saved context, all zero, lies at 0x1000. *)

#[local] Existing Instance no_Kmem.
#[local] Existing Instance trace_ports.

Definition demo_kernel : irq_state unit (list (Z * Z)) :=
  IrqState (set_intr false (demo_with tt 101)) (Clock (SystemTime 0 0 0 0 0) 0) [].

Lemma demo_kernel_running : running_sys (i_sched demo_kernel) 101 (demo_thread 1 THREAD_RUNNING NULL) [102].
Proof.
  split; [split|..]; try done.
  - split_and!; [|done|apply NoDup_singleton]. split_and!; [done..|]. eexists. by split.
  - intros t ->%list_elem_of_singleton. eexists. split; [reflexivity|]. split_and!; [done|by left|done|done].
  - intros t Ht. right. repeat (apply elem_of_cons in Ht as [->|Ht]; [by eexists|]).
    by apply elem_of_nil in Ht.
  - split_and!; [done|by left|done|done].
  - intros Hx%list_elem_of_singleton. discriminate Hx.
Qed.

Lemma demo_frame : irq_frame 1 1 demo_kernel (cpu_context 32 0 idle_cpu) = context_zero.
Proof. vm_compute. reflexivity. Qed.

Lemma demo_next :
  match irq_handler 1 1 true (with_frame (cpu_context 32 0 idle_cpu) demo_kernel) with
  | Ret _ k' | Stop _ k' => current_thread (i_sched k')
  end = 102.
Proof. vm_compute. reflexivity. Qed.

Lemma demo_handles :
  c_handles 0x4000 (words idle_cpu) (gate_top None idle_cpu - 176) (cpu_context 32 0 idle_cpu)
    (switch_to 0x5000 0x1000 0) (irq_frame 1 1 demo_kernel (cpu_context 32 0 idle_cpu)).
Proof.
  rewrite demo_frame. apply (switch_to_handler 0x4000 0x5000 (words idle_cpu) _ 0x1000 0).
  change (gate_top None idle_cpu - 176) with 0x8F40. unfold saved_off. lia.
Qed.

Lemma timer_interrupt_preempts_witness :
  exists s' (k' : irq_state unit (list (Z * Z))),
    (deliver None None;; irq_stub 32 0x4000 (switch_to 0x5000 0x1000 0)) idle_cpu = Ret tt s' /\
    current_thread (i_sched k') = 102 /\
    context <$> threads (i_sched k') !! 101 = Some (cpu_context 32 0 idle_cpu).
Proof.
  destruct (timer_interrupt_preempts 1 1 None 0x4000 (switch_to 0x5000 0x1000 0)
    demo_kernel idle_cpu 101 (demo_thread 1 THREAD_RUNNING NULL) [102])
    as (s' & k' & t & th & R & E & _ & Ht & _ & Hc & _).
  - vm_compute. split; congruence.
  - exact demo_kernel_running.
  - lia.
  - change (total_cd (threads (i_sched demo_kernel)) ([102] ++ [101])) with 0%nat. lia.
  - exact demo_handles.
  - exists s', k'. split; [exact R|]. split; [|exact Hc].
    pose proof demo_next as En. rewrite E in En. exact En.
Defined.
