(* ===== verification/Font.v ===== *)
(** * The terminal's font (vterm/font/font.c)

    [default_font], sixteen bytes for each character, a byte for each row of
    eight pixels, in three parts, and the other array of the file,
    [fontosaurus_fnt], which the kernel does not use. *)

From S2P Require Import Prelude.
Local Open Scope Z_scope.

(** The bytes are written as in the C initialiser, two hexadecimal digits each;
    what is not a digit separates. *)
Definition hex_digit (c : Ascii.ascii) : option Z :=
  let n := Z.of_nat (Ascii.nat_of_ascii c) in
  if (48 <=? n) && (n <=? 57) then Some (n - 48)
  else if (65 <=? n) && (n <=? 70) then Some (n - 55)
  else if (97 <=? n) && (n <=? 102) then Some (n - 87)
  else None.

Fixpoint hex_bytes (s : String.string) : list Z :=
  match s with
  | String.String c1 ((String.String c2 rest) as tail) =>
      match hex_digit c1, hex_digit c2 with
      | Some h, Some l => (16 * h + l) :: hex_bytes rest
      | _, _ => hex_bytes tail
      end
  | _ => []
  end.

(** src/vterm/font/font.c:4-153 [default_font] *)
Definition default_font_1 : list Z := Eval vm_compute in hex_bytes "
  00 00 00 00 00 00 00 00 00 00 00 00 00 00 00 00
  3c 42 81 81 a5 a5 81 81 a5 99 81 42 3c 00 00 00
  3c 7e ff ff db db ff ff db e7 ff 7e 3c 0A 00 00
  00 00 6c fe fe fe 7c 7c 38 38 10 10 00 00 00 00
  10 10 38 38 7c 7c fe 7c 7c 38 38 10 10 00 00 00
  00 00 18 3c 3c db ff ff db 18 18 3c 00 00 00 00
  00 00 18 3c 7e ff ff ff 66 18 18 3c 00 00 00 00
  00 00 00 00 00 30 78 78 30 00 00 00 00 00 00 ff
  ff ff ff ff ff e7 c3 c3 e7 ff ff ff ff ff ff 00
  00 00 00 00 78 cc 84 84 cc 78 00 00 00 00 00 ff
  ff ff ff ff c3 99 bd bd 99 c3 ff ff ff ff ff 00
  00 00 1e 0e 1e 32 78 cc cc cc 78 00 00 00 00 00
  00 00 78 cc cc cc 78 30 fc 30 30 00 00 00 00 00
  00 10 18 1c 1e 16 12 10 10 70 f0 e0 00 00 00 00
  30 38 2c 26 32 3a 2e 26 22 62 e2 c6 0e 0c 00 00
  00 00 18 18 db 3c e7 3c db 18 18 00 00 00 00 00
  00 00 80 c0 e0 f8 fe f8 e0 c0 80 00 00 00 00 00
  00 00 02 06 0e 3e fe 3e 0e 06 02 00 00 00 00 00
  00 30 78 fc 30 30 30 30 30 fc 78 30 00 00 00 00
  00 cc cc cc cc cc cc cc cc 00 cc cc 00 00 00 00
  00 7f db db db db 7b 1b 1b 1b 1b 1b 00 00 00 00
  00 7c c6 60 38 6c c6 c6 6c 38 0c c6 7c 00 00 00
  00 00 00 00 00 00 00 00 00 fe fe fe 00 00 00 00
  00 30 78 fc 30 30 30 30 30 fc 78 30 fc 00 00 00
  00 30 78 fc 30 30 30 30 30 30 30 30 00 00 00 00
  00 30 30 30 30 30 30 30 30 fc 78 30 00 00 00 00
  00 00 00 00 18 0c fe fe 0c 18 00 00 00 00 00 00
  00 00 00 00 30 60 fe fe 60 30 00 00 00 00 00 00
  00 00 00 00 00 00 c0 c0 c0 fe 00 00 00 00 00 00
  00 00 00 00 24 66 ff ff 66 24 00 00 00 00 00 00
  00 00 00 10 10 38 38 7c 7c fe fe 00 00 00 00 00
  00 00 00 fe fe 7c 7c 38 38 10 10 00 00 00 00 00
  00 00 00 00 00 00 00 00 00 00 00 00 00 00 00 00
  00 30 78 78 78 78 30 30 30 00 30 30 00 00 00 00
  00 cc cc cc cc cc 00 00 00 00 00 00 00 00 00 00
  00 6c 6c 6c fe 6c 6c 6c fe 6c 6c 6c 00 00 00 00
  18 18 7c c6 c0 c0 7c 06 06 c6 7c 18 18 00 00 00
  00 c6 c6 0c 0c 18 38 30 60 60 c6 c6 00 00 00 00
  00 38 6c 6c 38 30 76 de cc cc de 76 00 00 00 00
  00 18 18 18 30 00 00 00 00 00 00 00 00 00 00 00
  00 18 30 60 60 60 60 60 60 60 30 18 00 00 00 00
  00 60 30 18 18 18 18 18 18 18 30 60 00 00 00 00
  00 00 00 00 6c 38 fe 38 6c 00 00 00 00 00 00 00
  00 00 00 00 18 18 7e 18 18 00 00 00 00 00 00 00
  00 00 00 00 00 00 00 00 00 00 18 18 30 00 00 00
  00 00 00 00 00 00 fe 00 00 00 00 00 00 00 00 00
  00 00 00 00 00 00 00 00 00 00 18 18 00 00 00 00
  00 06 06 0c 0c 18 38 30 60 60 c0 c0 00 00 00 00
  00 7c c6 c6 c6 d6 d6 d6 c6 c6 c6 7c 00 00 00 00
  00 18 38 78 18 18 18 18 18 18 18 7e 00 00 00 00
  00 7c c6 06 06 0c 18 30 60 c0 c0 fe 00 00 00 00
  00 7c c6 06 06 3c 06 06 06 06 c6 7c 00 00 00 00
  00 04 0c 1c 3c 6c cc fe 0c 0c 0c 0c 00 00 00 00
  00 fe c0 c0 c0 fc 06 06 06 06 c6 7c 00 00 00 00
  00 3c 60 c0 c0 fc c6 c6 c6 c6 c6 7c 00 00 00 00
  00 fe c6 06 06 0c 18 30 30 30 30 30 00 00 00 00
  00 7c c6 c6 c6 7c c6 c6 c6 c6 c6 7c 00 00 00 00
  00 7c c6 c6 c6 c6 7e 06 06 06 0c 78 00 00 00 00
  00 00 00 00 00 00 18 18 00 00 18 18 00 00 00 00
  00 00 00 00 00 00 18 18 00 00 18 18 30 00 00 00
  00 06 0c 18 30 60 c0 60 30 18 0c 06 00 00 00 00
  00 00 00 00 00 fe 00 fe 00 00 00 00 00 00 00 00
  00 c0 60 30 18 0c 06 0c 18 30 60 c0 00 00 00 00
  00 7c c6 c6 06 0c 18 30 30 00 30 30 00 00 00 00
  00 7c c6 c6 c6 de de de de c0 c0 7e 00 00 00 00
  00 38 6c c6 c6 c6 c6 fe c6 c6 c6 c6 00 00 00 00
  00 fc c6 c6 c6 fc c6 c6 c6 c6 c6 fc 00 00 00 00
  00 7c c6 c0 c0 c0 c0 c0 c0 c0 c6 7c 00 00 00 00
  00 f8 cc c6 c6 c6 c6 c6 c6 c6 cc f8 00 00 00 00
  00 fe c0 c0 c0 fc c0 c0 c0 c0 c0 fe 00 00 00 00
  00 fe c0 c0 c0 fc c0 c0 c0 c0 c0 c0 00 00 00 00
  00 7c c6 c0 c0 c0 de c6 c6 c6 c6 7e 00 00 00 00
  00 c6 c6 c6 c6 c6 fe c6 c6 c6 c6 c6 00 00 00 00
  00 fc 30 30 30 30 30 30 30 30 30 fc 00 00 00 00
  00 1e 0c 0c 0c 0c 0c 0c 0c cc cc 78 00 00 00 00
  00 c6 c6 cc d8 f0 e0 f0 d8 cc c6 c6 00 00 00 00
  00 c0 c0 c0 c0 c0 c0 c0 c0 c0 c0 fe 00 00 00 00
  00 c6 c6 ee fe d6 d6 d6 c6 c6 c6 c6 00 00 00 00
  00 c6 c6 e6 e6 f6 de ce ce c6 c6 c6 00 00 00 00
  00 7c c6 c6 c6 c6 c6 c6 c6 c6 c6 7c 00 00 00 00
  00 fc c6 c6 c6 c6 fc c0 c0 c0 c0 c0 00 00 00 00
  00 7c c6 c6 c6 c6 c6 c6 c6 f6 da 6c 06 00 00 00
  00 fc c6 c6 c6 c6 fc d8 cc cc c6 c6 00 00 00 00
  00 7c c6 c0 60 30 18 0c 06 06 c6 7c 00 00 00 00
  00 ff 18 18 18 18 18 18 18 18 18 18 00 00 00 00
  00 c6 c6 c6 c6 c6 c6 c6 c6 c6 c6 7c 00 00 00 00
  00 c6 c6 c6 c6 c6 c6 c6 c6 6c 38 10 00 00 00 00
  00 c6 c6 c6 c6 d6 d6 d6 d6 fe 6c 6c 00 00 00 00
  00 c6 c6 c6 6c 38 38 38 6c c6 c6 c6 00 00 00 00
  00 cc cc cc cc cc 78 30 30 30 30 30 00 00 00 00
  00 fe 06 06 0c 18 30 60 c0 c0 c0 fe 00 00 00 00
  00 78 60 60 60 60 60 60 60 60 60 78 00 00 00 00
  00 c0 c0 60 60 30 38 18 0c 0c 06 06 00 00 00 00
  00 78 18 18 18 18 18 18 18 18 18 78 00 00 00 00
  00 10 38 6c c6 00 00 00 00 00 00 00 00 00 00 00
  00 00 00 00 00 00 00 00 00 00 00 00 00 ff 00 00
  00 18 18 18 0c 00 00 00 00 00 00 00 00 00 00 00
  00 00 00 00 7c 06 06 7e c6 c6 c6 7e 00 00 00 00
  00 c0 c0 c0 dc e6 c6 c6 c6 c6 e6 dc 00 00 00 00
  00 00 00 00 7c c6 c0 c0 c0 c0 c6 7c 00 00 00 00
  00 06 06 06 76 ce c6 c6 c6 c6 ce 76 00 00 00 00
  00 00 00 00 7c c6 c6 fe c0 c0 c0 7e 00 00 00 00
  00 1c 36 30 30 fc 30 30 30 30 30 30 00 00 00 00
  00 00 00 00 76 ce c6 c6 c6 ce 76 06 c6 7c 00 00
  00 c0 c0 c0 dc e6 c6 c6 c6 c6 c6 c6 00 00 00 00
  00 18 00 00 38 18 18 18 18 18 18 3c 00 00 00 00
  00 06 00 00 1e 06 06 06 06 06 06 c6 c6 7c 00 00
  00 c0 c0 c0 c6 cc d8 f0 f0 d8 cc c6 00 00 00 00
  00 38 18 18 18 18 18 18 18 18 18 3c 00 00 00 00
  00 00 00 00 ec fe d6 d6 d6 d6 c6 c6 00 00 00 00
  00 00 00 00 dc e6 c6 c6 c6 c6 c6 c6 00 00 00 00
  00 00 00 00 7c c6 c6 c6 c6 c6 c6 7c 00 00 00 00
  00 00 00 00 dc e6 c6 c6"%string.

(** src/vterm/font/font.c:154-303 [default_font] *)
Definition default_font_2 : list Z := Eval vm_compute in hex_bytes "
  c6 e6 dc c0 c0 c0 00 00 00 00 00 00 76 ce c6 c6
  c6 ce 76 06 06 06 00 00 00 00 00 00 dc e6 c0 c0
  c0 c0 c0 c0 00 00 00 00 00 00 00 00 7c c6 c0 70
  1c 06 c6 7c 00 00 00 00 00 30 30 30 fe 30 30 30
  30 30 36 1c 00 00 00 00 00 00 00 00 c6 c6 c6 c6
  c6 c6 c6 7c 00 00 00 00 00 00 00 00 c6 c6 c6 c6
  c6 6c 38 10 00 00 00 00 00 00 00 00 c6 c6 d6 d6
  d6 d6 fe 6c 00 00 00 00 00 00 00 00 c6 c6 6c 38
  38 6c c6 c6 00 00 00 00 00 00 00 00 c6 c6 c6 c6
  c6 ce 76 06 c6 7c 00 00 00 00 00 00 fe 06 0c 18
  30 60 c0 fe 00 00 00 00 00 1c 30 30 30 30 e0 30
  30 30 30 1c 00 00 00 00 00 30 30 30 30 30 00 30
  30 30 30 30 00 00 00 00 00 e0 30 30 30 30 1c 30
  30 30 30 e0 00 00 00 00 00 00 76 dc 00 00 00 00
  00 00 00 00 00 00 00 00 00 00 10 10 38 38 6c 6c
  c6 c6 fe 00 00 00 00 00 00 3c 66 c0 c0 c0 c0 c0
  c0 66 3c 18 cc 78 00 00 00 6c 6c 00 c6 c6 c6 c6
  c6 c6 c6 7c 00 00 00 00 0c 18 30 00 7c c6 c6 fe
  c0 c0 c0 7e 00 00 00 00 10 38 6c 00 7c 06 06 7e
  c6 c6 c6 7e 00 00 00 00 00 6c 6c 00 7c 06 06 7e
  c6 c6 c6 7e 00 00 00 00 60 30 18 00 7c 06 06 7e
  c6 c6 c6 7e 00 00 00 00 38 6c 38 00 7c 06 06 7e
  c6 c6 c6 7e 00 00 00 00 00 00 00 00 7c c6 c0 c0
  c0 c0 c6 7c 18 0c 38 00 10 38 6c 00 7c c6 c6 fe
  c0 c0 c0 7e 00 00 00 00 00 6c 6c 00 7c c6 c6 fe
  c0 c0 c0 7e 00 00 00 00 60 30 18 00 7c c6 c6 fe
  c0 c0 c0 7e 00 00 00 00 00 6c 6c 00 38 18 18 18
  18 18 18 3c 00 00 00 00 10 38 6c 00 38 18 18 18
  18 18 18 3c 00 00 00 00 60 30 18 00 38 18 18 18
  18 18 18 3c 00 00 00 c6 c6 10 38 6c c6 c6 c6 fe
  c6 c6 c6 c6 00 00 00 38 6c 38 00 38 6c c6 c6 c6
  fe c6 c6 c6 00 00 00 18 30 60 00 fe c0 c0 fc c0
  c0 c0 c0 fe 00 00 00 00 00 00 00 00 ec 36 36 76
  de d8 d8 6e 00 00 00 00 00 1e 3c 6c cc cc fe cc
  cc cc cc ce 00 00 00 00 10 38 6c 00 7c c6 c6 c6
  c6 c6 c6 7c 00 00 00 00 00 6c 6c 00 7c c6 c6 c6
  c6 c6 c6 7c 00 00 00 00 60 30 18 00 7c c6 c6 c6
  c6 c6 c6 7c 00 00 00 00 10 38 6c 00 c6 c6 c6 c6
  c6 c6 c6 7c 00 00 00 00 60 30 18 00 c6 c6 c6 c6
  c6 c6 c6 7c 00 00 00 00 00 6c 6c 00 c6 c6 c6 c6
  c6 ce 76 06 c6 7c 00 6c 6c 00 7c c6 c6 c6 c6 c6
  c6 c6 c6 7c 00 00 00 6c 6c 00 c6 c6 c6 c6 c6 c6
  c6 c6 c6 7c 00 00 00 00 00 00 30 30 78 cc c0 c0
  cc 78 30 30 00 00 00 00 00 38 6c 60 60 60 f8 60
  60 60 e6 fc 00 00 00 00 00 cc cc cc 78 30 fc 30
  fc 30 30 30 00 00 00 00 00 f8 cc cc f8 c4 cc de
  cc cc cc c6 00 00 00 00 00 0e 1b 18 18 18 7e 18
  18 18 18 18 d8 70 00 00 0c 18 30 00 7c 06 06 7e
  c6 c6 c6 7e 00 00 00 00 0c 18 30 00 38 18 18 18
  18 18 18 3c 00 00 00 00 0c 18 30 00 7c c6 c6 c6
  c6 c6 c6 7c 00 00 00 00 0c 18 30 00 c6 c6 c6 c6
  c6 c6 c6 7c 00 00 00 00 76 dc 00 00 dc e6 c6 c6
  c6 c6 c6 c6 00 00 00 76 dc 00 c6 c6 e6 f6 fe de
  ce c6 c6 c6 00 00 00 00 78 d8 d8 6c 00 fc 00 00
  00 00 00 00 00 00 00 00 38 6c 6c 38 00 7c 00 00
  00 00 00 00 00 00 00 00 00 18 18 00 18 18 30 60
  c0 c6 c6 7c 00 00 00 00 00 00 00 00 00 00 00 fe
  c0 c0 c0 00 00 00 00 00 00 00 00 00 00 00 00 fe
  06 06 06 00 00 00 00 00 00 c0 c2 c6 cc d8 30 60
  dc 86 0c 18 3e 00 00 00 00 c0 c2 c6 cc d8 30 66
  ce 9e 3e 06 06 00 00 00 00 30 30 00 30 30 30 78
  78 78 78 30 00 00 00 00 00 00 00 00 36 6c d8 6c
  36 00 00 00 00 00 00 00 00 00 00 00 d8 6c 36 6c
  d8 00 00 00 00 00 00 22 88 22 88 22 88 22 88 22
  88 22 88 22 88 22 88 55 aa 55 aa 55 aa 55 aa 55
  aa 55 aa 55 aa 55 aa dd 77 dd 77 dd 77 dd 77 dd
  77 dd 77 dd 77 dd 77 18 18 18 18 18 18 18 18 18
  18 18 18 18 18 18 18 18 18 18 18 18 18 18 f8 f8
  18 18 18 18 18 18 18 18 18 18 18 18 f8 f8 18 18
  f8 f8 18 18 18 18 18 36 36 36 36 36 36 36 f6 f6
  36 36 36 36 36 36 36 00 00 00 00 00 00 00 fe fe
  36 36 36 36 36 36 36 00 00 00 00 00 f8 f8 18 18
  f8 f8 18 18 18 18 18 36 36 36 36 36 f6 f6 06 06
  f6 f6 36 36 36 36 36 36 36 36 36 36 36 36 36 36
  36 36 36 36 36 36 36 00 00 00 00 00 fe fe 06 06
  f6 f6 36 36 36 36 36 36 36 36 36 36 f6 f6 06 06
  fe fe 00 00 00 00 00 36 36 36 36 36 36 36 fe fe
  00 00 00 00 00 00 00 18 18 18 18 18 f8 f8 18 18
  f8 f8 00 00 00 00 00 00 00 00 00 00 00 00 f8 f8
  18 18 18 18 18 18 18 18 18 18 18 18 18 18 1f 1f
  00 00 00 00 00 00 00 18 18 18 18 18 18 18 ff ff
  00 00 00 00 00 00 00 00 00 00 00 00 00 00 ff ff
  18 18 18 18 18 18 18 18 18 18 18 18 18 18 1f 1f
  18 18 18 18 18 18 18 00 00 00 00 00 00 00 ff ff
  00 00 00 00 00 00 00 18 18 18 18 18 18 18 ff ff
  18 18 18 18 18 18 18 18 18 18 18 18 1f 1f 18 18
  1f 1f 18 18 18 18 18 36 36 36 36 36 36 36 37 37
  36 36 36 36 36 36 36 36 36 36 36 36 37 37 30 30
  3f 3f 00 00 00 00 00 00 00 00 00 00 3f 3f 30 30
  37 37 36 36 36 36 36 36 36 36 36 36 f7 f7 00 00
  ff ff 00 00 00 00 00 00 00 00 00 00 ff ff 00 00
  f7 f7 36 36 36 36 36 36 36 36 36 36 37 37 30 30
  37 37 36 36 36 36 36 00 00 00 00 00 ff ff 00 00
  ff ff 00 00 00 00 00 36 36 36 36 36 f7 f7 00 00
  f7 f7 36 36 36 36 36 18 18 18 18 18 ff ff 00 00
  ff ff 00 00 00 00 00 36 36 36 36 36 36 36 ff ff
  00 00 00 00 00 00 00 00 00 00 00 00 ff ff 00 00
  ff ff 18 18 18 18 18 00 00 00 00 00 00 00 ff ff
  36 36 36 36 36 36 36 36 36 36 36 36 36 36 3f 3f
  00 00 00 00 00 00 00 18 18 18 18 18 1f 1f 18 18
  1f 1f 00 00 00 00 00 00 00 00 00 00 1f 1f 18 18
  1f 1f 18 18 18 18 18 00 00 00 00 00 00 00 3f 3f
  36 36 36 36 36 36 36 36 36 36 36 36 36 36 ff ff
  36 36 36 36 36 36 36 18 18 18 18 18 ff ff 18 18
  ff ff 18 18 18 18 18 18 18 18 18 18 18 18 f8 f8
  00 00 00 00 00 00 00 00 00 00 00 00 00 00 1f 1f
  18 18 18 18 18 18 18 ff ff ff ff ff ff ff ff ff
  ff ff ff ff ff ff ff 00 00 00 00 00 00 00 00 ff
  ff ff ff ff ff ff ff f0 f0 f0 f0 f0 f0 f0 f0 f0
  f0 f0 f0 f0 f0 f0 f0 0f 0f 0f 0f 0f 0f 0f 0f 0f
  0f 0f 0f 0f 0f 0f 0f ff ff ff ff ff ff ff ff 00
  00 00 00 00 00 00 00 00 00 00 00 00 76 d6 dc c8
  c8 dc d6 76 00 00 00 00"%string.

(** src/vterm/font/font.c:304-345 [default_font] *)
Definition default_font_3 : list Z := Eval vm_compute in hex_bytes "
  00 78 cc cc cc d8 cc cc cc cc cc d8 c0 c0 00 00
  00 fe c6 c6 c0 c0 c0 c0 c0 c0 c0 c0 00 00 00 00
  00 00 00 00 7e fe 24 24 24 24 66 c6 00 00 00 00
  00 fe fe c2 60 30 18 30 60 c2 fe fe 00 00 00 00
  00 00 00 00 7e c8 cc cc cc cc cc 78 00 00 00 00
  00 00 00 00 66 66 66 66 66 66 76 6c 60 c0 00 00
  00 00 00 00 66 fc 98 18 18 18 18 18 00 00 00 00
  00 fc 30 30 78 cc cc cc 78 30 30 fc 00 00 00 00
  00 38 6c c6 c6 c6 fe c6 c6 c6 6c 38 00 00 00 00
  00 38 6c c6 c6 c6 c6 c6 6c 6c 6c ee 00 00 00 00
  00 78 cc 60 30 78 cc cc cc cc cc 78 00 00 00 00
  00 00 00 00 76 bb 99 99 dd 6e 00 00 00 00 00 00
  00 02 06 3c 6c ce d6 d6 e6 6c 78 c0 80 00 00 00
  00 1e 30 60 c0 c0 fe c0 c0 60 30 1e 00 00 00 00
  00 38 6c c6 c6 c6 c6 c6 c6 c6 c6 c6 00 00 00 00
  00 00 00 fe 00 00 fe 00 00 fe 00 00 00 00 00 00
  00 00 00 00 30 30 fc 30 30 00 00 fc 00 00 00 00
  00 00 00 60 30 18 0c 18 30 60 00 fc 00 00 00 00
  00 00 00 18 30 60 c0 60 30 18 00 fc 00 00 00 00
  00 1c 36 36 30 30 30 30 30 30 30 30 30 30 30 18
  18 18 18 18 18 18 18 18 18 d8 d8 70 00 00 00 00
  00 00 00 30 30 00 fc 00 30 30 00 00 00 00 00 00
  00 00 00 00 76 dc 00 76 dc 00 00 00 00 00 00 00
  78 cc cc cc 78 00 00 00 00 00 00 00 00 00 00 00
  00 00 00 00 00 00 30 30 00 00 00 00 00 00 00 00
  00 00 00 00 00 00 30 00 00 00 00 00 00 00 00 00
  0f 0c 0c 0c 0c 0c 0c 0c cc 6c 3c 1c 0c 00 00 00
  d8 ec cc cc cc cc cc 00 00 00 00 00 00 00 00 00
  38 6c 0c 18 30 60 7c 00 00 00 00 00 00 00 00 00
  00 00 00 78 78 78 78 78 78 78 00 00 00 00 00 00
  00 00 00 00 00 00 00 00 00 00 00 00 00 00 00"%string.

(** src/vterm/font/font.c:3-3 [default_font] *)
Definition default_font : list Z := default_font_1 ++ default_font_2 ++ default_font_3.

(** The array is one byte short of 256 characters. *)
Lemma length_default_font : length default_font = 4095%nat.
Proof. reflexivity. Qed.

Lemma default_font_bytes : Forall (fun b => 0 <= b < 256) default_font.
Proof.
  assert (H : forallb (fun b => (0 <=? b) && (b <? 256)) default_font = true) by (vm_compute; reflexivity).
  rewrite forallb_forall in H. apply Forall_forall. intros b Hb.
  specialize (H b (proj1 (list_elem_of_In _ _) Hb)). lia.
Qed.

(** src/vterm/font/font.c:350-499 [fontosaurus_fnt] *)
Definition fontosaurus_fnt_1 : list Z := Eval vm_compute in hex_bytes "
  00 00 00 00 00 00 00 00 00 00 00 00 00 00 00 00
  00 00 00 00 00 00 00 00 00 00 00 00 00 00 00 00
  00 00 00 00 00 00 00 00 00 00 00 00 00 00 00 00
  00 00 00 00 00 00 00 00 00 00 00 00 00 00 00 00
  00 00 00 00 00 00 00 00 00 00 00 00 00 00 00 00
  00 00 00 00 00 00 00 00 00 00 00 00 00 00 00 00
  00 00 00 00 00 00 00 00 00 00 00 00 00 00 00 00
  00 00 00 00 00 00 00 00 00 00 00 00 00 00 00 00
  00 00 00 00 00 00 00 00 00 00 00 00 00 00 00 00
  00 00 00 00 00 00 00 00 00 00 00 00 00 00 00 00
  00 00 00 00 00 00 00 00 00 00 00 00 00 00 00 00
  00 00 00 00 00 00 00 00 00 00 00 00 00 00 00 00
  00 00 00 00 00 00 00 00 00 00 00 00 00 00 00 00
  00 00 00 00 00 00 00 00 00 00 00 00 00 00 00 00
  00 00 00 00 00 00 00 00 00 00 00 00 00 00 00 00
  00 00 00 00 00 00 00 00 00 00 00 00 00 00 00 00
  00 00 00 00 00 00 00 00 00 00 00 00 00 00 00 00
  00 00 00 00 00 00 00 00 00 00 00 00 00 00 00 00
  00 00 00 00 00 00 00 00 00 00 00 00 00 00 00 00
  00 00 00 00 00 00 00 00 00 00 00 00 00 00 00 00
  00 00 00 00 00 00 00 00 00 00 00 00 00 00 00 00
  00 00 00 00 00 00 00 00 00 00 00 00 00 00 00 00
  00 00 00 00 00 00 00 00 00 00 00 00 00 00 00 00
  00 00 00 00 00 00 00 00 00 00 00 00 00 00 00 00
  00 00 00 00 00 00 00 00 00 00 00 00 00 00 00 00
  00 00 00 00 00 00 00 00 00 00 00 00 00 00 00 00
  00 00 00 00 00 00 00 00 00 00 00 00 00 00 00 00
  00 00 00 00 00 00 00 00 00 00 00 00 00 00 00 00
  00 00 00 00 00 00 00 00 00 00 00 00 00 00 00 00
  00 00 00 00 00 00 00 00 00 00 00 00 00 00 00 00
  00 00 00 00 00 00 00 00 00 00 00 00 00 00 00 00
  00 00 00 00 00 00 00 00 00 00 00 00 00 00 00 00
  00 00 00 00 00 00 00 00 00 00 00 00 00 00 00 00
  00 18 3c 3c 3c 3c 3c 3c 3c 18 00 00 18 3c 18 00
  00 66 66 66 00 00 00 00 00 00 00 00 00 00 00 00
  00 00 14 14 14 ff 14 14 14 ff 14 14 14 00 00 00
  00 08 3e 48 48 48 38 0c 0a 0a 4a 3c 08 3e 08 00
  00 60 90 90 60 06 09 09 06 00 00 00 00 00 00 00
  00 1c 22 22 1c 24 4a 46 42 42 24 3a 3c 00 00 00
  00 18 18 18 18 10 20 00 00 00 00 00 00 00 00 00
  00 00 00 00 00 00 00 00 00 00 00 00 00 00 00 00
  00 00 00 00 00 00 00 00 00 00 00 00 00 00 00 00
  00 00 00 00 00 00 00 00 00 00 00 00 00 00 00 00
  00 00 00 00 00 00 00 00 00 00 00 00 00 00 00 00
  00 00 00 00 00 00 00 00 00 00 00 00 18 3c 1c 04
  00 00 00 00 00 00 00 7e 7e 00 00 00 00 00 00 00
  00 00 00 00 00 00 00 00 00 00 00 00 00 18 18 00
  03 03 03 03 0c 0c 0c 0c 30 30 30 30 c0 c0 c0 c0
  00 3c 62 62 62 62 52 52 4a 4a 46 46 46 46 3c 00
  00 18 38 78 18 18 18 18 18 18 18 18 18 18 7e 00
  00 3c 42 42 02 02 04 08 10 20 40 40 40 40 7e 00
  00 3c 42 42 02 02 1c 1c 02 02 42 42 42 42 3c 00
  00 04 0c 14 24 44 84 fe 04 04 04 04 04 04 04 00
  00 7e 40 40 40 40 7c 02 02 02 42 42 42 42 3c 00
  00 1c 20 40 40 40 7c 42 42 42 42 42 42 42 3c 00
  00 7e 02 04 08 10 20 20 40 40 40 40 40 40 40 00
  00 3c 42 42 42 42 3c 42 42 42 42 42 42 42 3c 00
  00 3c 42 42 42 42 42 42 3e 02 02 02 02 04 38 00
  00 18 3c 18 00 00 00 00 00 00 00 00 18 3c 18 00
  00 18 3c 18 00 00 00 00 00 00 00 00 18 3c 1c 04
  00 04 0c 18 30 60 30 18 0c 04 00 00 00 00 00 00
  00 00 00 7e 00 00 00 00 7e 00 00 00 00 00 00 00
  00 40 60 30 18 0c 18 30 60 40 00 00 00 00 00 00
  00 3c 42 02 02 04 08 10 10 00 10 10 00 00 00 00
  00 3c 42 5a 6a 6a 6e 40 40 40 40 40 3c 00 00 00
  00 18 24 24 42 42 42 7e 42 42 42 42 42 42 00 00
  00 7c 42 42 42 42 7c 42 42 42 42 42 42 7c 00 00
  00 3c 42 40 40 40 40 40 40 40 40 40 42 3c 00 00
  00 7c 42 42 42 42 42 42 42 42 42 42 42 7c 00 00
  00 7e 40 40 40 40 7c 40 40 40 40 40 40 7e 00 00
  00 7e 40 40 40 40 7c 40 40 40 40 40 40 40 00 00
  00 3c 42 40 40 40 5e 42 42 42 42 42 42 3c 00 00
  00 42 42 42 42 42 7e 42 42 42 42 42 42 42 00 00
  00 3c 18 18 18 18 18 18 18 18 18 18 18 3c 00 00
  00 1e 04 04 04 04 04 04 04 04 04 44 44 38 00 00
  00 42 44 48 50 60 60 50 48 48 44 44 42 42 00 00
  00 40 40 40 40 40 40 40 40 40 40 40 40 7e 00 00
  00 42 66 66 5a 5a 5a 42 42 42 42 42 42 42 00 00
  00 42 62 62 52 52 52 4a 4a 4a 46 46 46 42 00 00
  00 3c 42 42 42 42 42 42 42 42 42 42 42 3c 00 00
  00 7c 42 42 42 42 7c 40 40 40 40 40 40 40 00 00
  00 3c 42 42 42 42 42 42 42 4a 4a 46 3c 02 02 00
  00 7c 42 42 42 42 7c 48 48 44 44 42 42 42 00 00
  00 3c 42 40 40 40 3c 02 02 02 02 02 42 3c 00 00
  00 7e 18 18 18 18 18 18 18 18 18 18 18 18 00 00
  00 42 42 42 42 42 42 42 42 42 42 42 42 3c 00 00
  00 42 42 42 42 42 42 42 42 24 24 24 18 18 00 00
  00 42 42 42 42 42 42 5a 5a 5a 5a 66 66 42 00 00
  00 42 42 24 24 18 18 18 18 24 24 42 42 42 00 00
  00 42 42 42 24 24 18 18 18 18 18 18 18 18 00 00
  00 7e 02 04 08 10 20 20 40 80 80 40 20 7e 00 00
  1c 18 18 18 18 18 18 18 18 18 18 18 18 1c 00 00
  c0 c0 c0 c0 30 30 30 30 0c 0c 0c 0c 03 03 03 03
  38 18 18 18 18 18 18 18 18 18 18 18 18 38 00 00
  00 18 3c 66 00 00 00 00 00 00 00 00 00 00 00 00
  00 00 00 00 00 00 00 00 00 00 00 00 00 7e 00 00
  18 18 08 04 00 00 00 00 00 00 00 00 00 00 00 00
  00 00 00 00 3c 02 02 3e 42 42 42 42 42 3e 00 00
  40 40 40 40 7c 42 42 42 42 42 42 42 42 7c 00 00
  00 00 00 00 3c 42 40 40 40 40 40 40 42 3c 00 00
  02 02 02 02 3e 42 42 42 42 42 42 42 42 3e 00 00
  00 00 00 00 3c 42 42 7e 40 40 40 40 42 3c 00 00
  1c 22 20 20 7c 20 20 20 20 20 20 20 20 70 00 00
  00 00 00 00 3e 42 42 42 42 42 42 42 3e 02 3c 00
  40 40 40 40 7c 42 42 42 42 42 42 42 42 42 00 00
  00 18 18 00 38 18 18 18 18 18 18 18 18 3c 00 00
  00 06 06 00 0e 06 06 06 06 06 06 06 06 06 46 3c
  40 40 40 40 46 48 50 60 60 50 48 48 44 46 00 00
  38 18 18 18 18 18 18 18 18 18 18 18 18 3c 00 00
  00 00 00 00 6c 52 52 52 52 52 52 52 52 52 00 00
  00 00 00 00 7c 42 42 42 42 42 42 42 42 42 00 00
  00 00 00 00 3c 42 42 42 42 42 42 42 42 3c 00 00
  00 00 00 00 7c 42 42 42"%string.

(** src/vterm/font/font.c:500-649 [fontosaurus_fnt] *)
Definition fontosaurus_fnt_2 : list Z := Eval vm_compute in hex_bytes "
  42 42 42 42 42 7c 40 40 00 00 00 00 3e 42 42 42
  42 42 42 42 42 3e 02 02 00 00 00 00 5c 62 40 40
  40 40 40 40 40 70 00 00 00 00 00 00 3c 42 40 3c
  02 02 02 42 42 3c 00 00 00 10 10 10 7c 10 10 10
  10 10 10 10 12 0c 00 00 00 00 00 00 42 42 42 42
  42 42 42 42 42 3e 00 00 00 00 00 00 42 42 42 42
  24 24 24 18 18 18 00 00 00 00 00 00 42 42 42 42
  5a 5a 5a 66 66 42 00 00 00 00 00 00 42 24 18 18
  18 24 42 42 42 42 00 00 00 00 00 00 42 42 42 42
  42 42 42 3e 02 02 3c 00 00 00 00 00 7e 02 04 08
  10 20 40 40 40 7e 00 00 00 06 0c 18 18 18 30 18
  18 18 0c 06 00 00 00 00 18 18 18 18 18 18 18 18
  18 18 18 18 18 00 18 18 00 60 30 18 18 18 0c 18
  18 18 30 60 00 00 00 00 00 00 00 00 00 00 33 cc
  00 00 00 00 00 00 00 00 00 00 00 00 00 00 00 00
  00 00 00 00 00 00 00 00 00 00 00 00 00 00 00 00
  00 00 00 00 00 00 00 00 00 00 00 00 00 00 00 00
  00 00 00 00 00 00 00 00 00 00 00 00 00 00 00 00
  00 00 00 00 00 00 00 00 00 00 00 00 00 00 00 00
  00 00 00 00 00 00 00 00 00 00 00 00 00 00 00 00
  00 00 00 00 00 00 00 00 00 00 00 00 00 00 00 00
  00 00 00 00 00 00 00 00 00 00 00 00 00 00 00 00
  00 00 00 00 00 00 00 00 00 00 00 00 00 00 00 00
  00 00 00 00 00 00 00 00 00 00 00 00 00 00 00 00
  00 00 00 00 00 00 00 00 00 00 00 00 00 00 00 00
  00 00 00 00 00 00 00 00 00 00 00 00 00 00 00 00
  00 00 00 00 00 00 00 00 00 00 00 00 00 00 00 00
  00 00 00 00 00 00 00 00 00 00 00 00 00 00 00 00
  00 00 00 00 00 00 00 00 00 00 00 00 00 00 00 00
  00 00 00 00 00 00 00 00 00 00 00 00 00 00 00 00
  00 00 00 00 00 00 00 00 00 00 00 00 00 00 00 00
  00 00 00 00 00 00 00 00 00 00 00 00 00 00 00 00
  00 00 00 00 00 00 00 00 00 00 00 00 00 00 00 00
  00 00 00 00 00 00 00 00 00 00 00 00 00 00 00 00
  00 00 00 00 00 00 00 00 00 00 00 00 00 00 00 00
  00 00 00 00 00 00 00 00 00 00 00 00 00 00 00 00
  00 00 00 00 00 00 00 00 00 00 00 00 00 00 00 00
  00 00 00 00 00 00 00 00 00 00 00 00 00 00 00 00
  00 00 00 00 00 00 00 00 00 00 00 00 00 00 00 00
  00 00 00 00 00 00 00 00 00 00 00 00 00 00 00 00
  00 00 00 00 00 00 00 00 00 00 00 00 00 00 00 00
  00 00 00 00 00 00 00 00 00 00 00 00 00 00 00 00
  00 00 00 00 00 00 00 00 00 00 00 00 00 00 00 00
  00 00 00 00 00 00 00 00 00 00 00 00 00 00 00 00
  00 00 00 00 00 00 00 00 00 00 00 00 00 00 00 00
  00 00 00 00 00 00 00 00 00 00 00 00 00 00 00 00
  00 00 00 00 00 00 00 00 00 00 00 00 00 00 00 00
  00 00 00 00 00 00 00 00 00 00 00 00 00 00 00 00
  00 00 00 00 00 00 00 00 00 00 00 00 00 00 00 00
  00 00 00 00 00 00 00 00 00 00 00 00 00 00 00 00
  00 00 00 00 00 00 00 00 00 00 00 00 00 00 00 00
  00 00 00 00 00 00 00 00 00 00 00 00 00 00 00 00
  00 00 00 00 00 00 00 00 00 00 00 00 00 00 00 00
  00 00 00 00 00 00 00 00 00 00 00 00 00 00 00 00
  00 00 00 00 00 00 00 00 00 00 00 00 00 00 00 00
  00 00 00 00 00 00 00 00 00 00 00 00 00 00 00 00
  00 00 00 00 00 00 00 00 00 00 00 00 00 00 00 00
  00 00 00 00 00 00 00 00 00 00 00 00 00 00 00 00
  00 00 00 00 00 00 00 00 00 00 00 00 00 00 00 00
  00 00 00 00 00 00 00 00 00 00 00 00 00 00 00 00
  00 00 00 00 00 00 00 00 00 00 00 00 00 00 00 00
  00 00 00 00 00 00 00 00 00 00 00 00 00 00 00 00
  00 00 00 00 00 00 00 00 00 00 00 00 00 00 00 00
  00 00 00 00 00 00 00 00 00 00 00 00 00 00 00 00
  00 00 00 00 00 00 00 00 00 00 00 00 00 00 00 00
  00 00 00 00 00 00 00 00 00 00 00 00 00 00 00 00
  00 00 00 00 00 00 00 00 00 00 00 00 00 00 00 00
  00 00 00 00 00 00 00 00 00 00 00 00 00 00 00 00
  00 00 00 00 00 00 00 00 00 00 00 00 00 00 00 00
  00 00 00 00 00 00 00 00 00 00 00 00 00 00 00 00
  00 00 00 00 00 00 00 00 00 00 00 00 00 00 00 00
  00 00 00 00 00 00 00 00 00 00 00 00 00 00 00 00
  00 00 00 00 00 00 00 00 00 00 00 00 00 00 00 00
  00 00 00 00 00 00 00 00 00 00 00 00 00 00 00 00
  00 00 00 00 00 00 00 00 00 00 00 00 00 00 00 00
  00 00 00 00 00 00 00 00 00 00 00 00 00 00 00 00
  00 00 00 00 00 00 00 00 00 00 00 00 00 00 00 00
  00 00 00 00 00 00 00 00 00 00 00 00 00 00 00 00
  00 00 00 00 00 00 00 00 00 00 00 00 00 00 00 00
  00 00 00 00 00 00 00 00 00 00 00 00 00 00 00 00
  00 00 00 00 00 00 00 00 00 00 00 00 00 00 00 00
  00 00 00 00 00 00 00 00 00 00 00 00 00 00 00 00
  00 00 00 00 00 00 00 00 00 00 00 00 00 00 00 00
  00 00 00 00 00 00 00 00 00 00 00 00 00 00 00 00
  00 00 00 00 00 00 00 00 00 00 00 00 00 00 00 00
  00 00 00 00 00 00 00 00 00 00 00 00 00 00 00 00
  00 00 00 00 00 00 00 00 00 00 00 00 00 00 00 00
  00 00 00 00 00 00 00 00 00 00 00 00 00 00 00 00
  00 00 00 00 00 00 00 00 00 00 00 00 00 00 00 00
  00 00 00 00 00 00 00 00 00 00 00 00 00 00 00 00
  00 00 00 00 00 00 00 00 00 00 00 00 00 00 00 00
  00 00 00 00 00 00 00 00 00 00 00 00 00 00 00 00
  00 00 00 00 00 00 00 00 00 00 00 00 00 00 00 00
  00 00 00 00 00 00 00 00 00 00 00 00 00 00 00 00
  00 00 00 00 00 00 00 00 00 00 00 00 00 00 00 00
  00 00 00 00 00 00 00 00 00 00 00 00 00 00 00 00
  00 00 00 00 00 00 00 00 00 00 00 00 00 00 00 00
  00 00 00 00 00 00 00 00 00 00 00 00 00 00 00 00
  00 00 00 00 00 00 00 00 00 00 00 00 00 00 00 00
  00 00 00 00 00 00 00 00 00 00 00 00 00 00 00 00
  00 00 00 00 00 00 00 00 00 00 00 00 00 00 00 00
  00 00 00 00 00 00 00 00 00 00 00 00 00 00 00 00
  00 00 00 00 00 00 00 00 00 00 00 00 00 00 00 00
  00 00 00 00 00 00 00 00 00 00 00 00 00 00 00 00
  00 00 00 00 00 00 00 00 00 00 00 00 00 00 00 00
  00 00 00 00 00 00 00 00 00 00 00 00 00 00 00 00
  00 00 00 00 00 00 00 00 00 00 00 00 00 00 00 00
  00 00 00 00 00 00 00 00 00 00 00 00 00 00 00 00
  00 00 00 00 00 00 00 00 00 00 00 00 00 00 00 00
  00 00 00 00 00 00 00 00 00 00 00 00 00 00 00 00
  00 00 00 00 00 00 00 00 00 00 00 00 00 00 00 00
  00 00 00 00 00 00 00 00 00 00 00 00 00 00 00 00
  00 00 00 00 00 00 00 00"%string.

(** src/vterm/font/font.c:650-691 [fontosaurus_fnt] *)
Definition fontosaurus_fnt_3 : list Z := Eval vm_compute in hex_bytes "
  00 00 00 00 00 00 00 00 00 00 00 00 00 00 00 00
  00 00 00 00 00 00 00 00 00 00 00 00 00 00 00 00
  00 00 00 00 00 00 00 00 00 00 00 00 00 00 00 00
  00 00 00 00 00 00 00 00 00 00 00 00 00 00 00 00
  00 00 00 00 00 00 00 00 00 00 00 00 00 00 00 00
  00 00 00 00 00 00 00 00 00 00 00 00 00 00 00 00
  00 00 00 00 00 00 00 00 00 00 00 00 00 00 00 00
  00 00 00 00 00 00 00 00 00 00 00 00 00 00 00 00
  00 00 00 00 00 00 00 00 00 00 00 00 00 00 00 00
  00 00 00 00 00 00 00 00 00 00 00 00 00 00 00 00
  00 00 00 00 00 00 00 00 00 00 00 00 00 00 00 00
  00 00 00 00 00 00 00 00 00 00 00 00 00 00 00 00
  00 00 00 00 00 00 00 00 00 00 00 00 00 00 00 00
  00 00 00 00 00 00 00 00 00 00 00 00 00 00 00 00
  00 00 00 00 00 00 00 00 00 00 00 00 00 00 00 00
  00 00 00 00 00 00 00 00 00 00 00 00 00 00 00 00
  00 00 00 00 00 00 00 00 00 00 00 00 00 00 00 00
  00 00 00 00 00 00 00 00 00 00 00 00 00 00 00 00
  00 00 00 00 00 00 00 00 00 00 00 00 00 00 00 00
  00 00 00 00 00 00 00 00 00 00 00 00 00 00 00 00
  00 00 00 00 00 00 00 00 00 00 00 00 00 00 00 00
  00 00 00 00 00 00 00 00 00 00 00 00 00 00 00 00
  00 00 00 00 00 00 00 00 00 00 00 00 00 00 00 00
  00 00 00 00 00 00 00 00 00 00 00 00 00 00 00 00
  00 00 00 00 00 00 00 00 00 00 00 00 00 00 00 00
  00 00 00 00 00 00 00 00 00 00 00 00 00 00 00 00
  00 00 00 00 00 00 00 00 00 00 00 00 00 00 00 00
  00 00 00 00 00 00 00 00 00 00 00 00 00 00 00 00
  00 00 00 00 00 00 00 00 00 00 00 00 00 00 00 00
  00 00 00 00 00 00 00 00 00 00 00 00 00 00 00 00
  00 00 00 00 00 00 00 00 00 00 00 00 00 00 00 00"%string.

(** src/vterm/font/font.c:349-349 [fontosaurus_fnt] *)
Definition fontosaurus_fnt : list Z := fontosaurus_fnt_1 ++ fontosaurus_fnt_2 ++ fontosaurus_fnt_3.

(** The rows of a character. *)
Definition glyph (font : list Z) (c : nat) : list Z := take 16 (drop (16 * c) font).

(** The second font is complete in length but draws only the printable
    characters, and of these not the parentheses, the star and the plus. *)
Lemma fontosaurus_coverage :
  length fontosaurus_fnt = 4096%nat /\
  forall c, (c < 256)%nat ->
    (glyph fontosaurus_fnt c = replicate 16 0 <-> (c <= 32 \/ 40 <= c <= 43 \/ 127 <= c)%nat).
Proof.
  split; [reflexivity|]. intros c Hc.
  assert (H : forallb (fun c => Bool.eqb (bool_decide (glyph fontosaurus_fnt c = replicate 16 0))
    ((c <=? 32) || ((40 <=? c) && (c <=? 43)) || (127 <=? c))%nat) (seq 0 256) = true) by (vm_compute; reflexivity).
  rewrite forallb_forall in H. specialize (H c ltac:(apply in_seq; lia)). apply Bool.eqb_prop in H.
  rewrite <- (bool_decide_eq_true (glyph fontosaurus_fnt c = replicate 16 0)), H. rewrite !orb_true_iff, andb_true_iff, !Nat.leb_le. lia.
Qed.
