(* ===== verification/Vterm.v ===== *)
(** * The terminal (vterm/vterm.c)

    Characters of 8 by 16 pixels on a framebuffer of 32-bit pixels in memory,
    with a cursor in pixels.  Widths are those of the source: the cursor is a
    [size_t], so [cursor_y -= 16] and [visible_size] wrap on a screen of less
    than 16 rows. *)

From S2P Require Import Prelude Bytes MemLib Font.
Local Open Scope Z_scope.

(** The static variables of vterm.c and the memory.
    src/vterm/vterm.c:5-13 [framebuffer] *)
Record vterm := Vterm {
  framebuffer : Z;
  pitch : Z;
  width : Z;
  height : Z;
  cursor_x : Z;
  cursor_y : Z;
  term_color : Z;
  vt_fg_color : Z;
  vmem : mem;
}.
Definition set_cursor x y v := Vterm (framebuffer v) (pitch v) (width v) (height v) x y (term_color v)
  (vt_fg_color v) (vmem v).
Definition set_vmem m v := Vterm (framebuffer v) (pitch v) (width v) (height v) (cursor_x v)
  (cursor_y v) (term_color v) (vt_fg_color v) m.

(** src/vterm/vterm.c:15-18 [vterm_set_fg_color] *)
Definition vterm_set_fg_color (color : Z) (v : vterm) : vterm :=
  Vterm (framebuffer v) (pitch v) (width v) (height v) (cursor_x v) (cursor_y v) (term_color v)
    (u32 color) (vmem v).
(** src/vterm/vterm.c:20-23 [vterm_set_term_color] *)
Definition vterm_set_term_color (color : Z) (v : vterm) : vterm :=
  Vterm (framebuffer v) (pitch v) (width v) (height v) (cursor_x v) (cursor_y v) (u32 color)
    (vt_fg_color v) (vmem v).

(** [framebuffer[i] = color] on an array of 32-bit words at [base]. *)
Definition put_word (base i color : Z) (v : vterm) : vterm :=
  set_vmem (st32 (u64 (base + 4 * i)) color (vmem v)) v.

(** src/vterm/vterm.c:25-36 [vterm_clear] *)
Definition vterm_clear (color : Z) (v : vterm) : vterm :=
  set_cursor 0 0
    (for_up (Z.to_nat (height v)) 0 (fun y =>
       for_up (Z.to_nat (width v)) 0 (fun x v =>
         put_word (framebuffer v) (u64 (y * (pitch v / 4) + x)) color v)) v).

(** src/vterm/vterm.c:38-49 [vterm_init] *)
Definition vterm_init (address p w h : Z) (v : vterm) : vterm :=
  let v := Vterm address p w h (cursor_x v) (cursor_y v) (term_color v) (vt_fg_color v) (vmem v) in
  let v := vterm_set_fg_color 0xFFFFFF v in
  let v := vterm_set_term_color 0x000000 v in
  vterm_clear (term_color v) v.

(** src/vterm/vterm.c:61-67 [vterm_scroll] *)
Definition clear_last_row (last_row : Z) (v : vterm) : vterm :=
  for_up 16 0 (fun y =>
    for_up (Z.to_nat (width v)) 0 (fun x v =>
      put_word last_row (u64 (u64 (y * (pitch v / 4)) + x)) (term_color v) v)) v.

(** src/vterm/vterm.c:51-70 [vterm_scroll] *)
Definition vterm_scroll : K vterm unit :=
  v ← kget;
  let row_size := u64 (pitch v * 16) in
  let screen_size := u64 (pitch v * height v) in
  let visible_size := u64 (screen_size - row_size) in
  klift vmem set_vmem (memmove (framebuffer v) (u64 (framebuffer v + row_size)) visible_size);;
  kmod (clear_last_row (u64 (framebuffer v + visible_size)));;
  kmod (fun v => set_cursor (cursor_x v) (u64 (cursor_y v - 16)) v).

Section putc.
(** What memory holds behind the font's last byte. *)
Context (past : Z).

(** [default_font[i]] *)
Definition font_byte (i : Z) : Z := default past (default_font !! Z.to_nat i).

(** src/vterm/vterm.c:91-103 [vterm_putc] *)
Definition draw_glyph (c : Z) (v : vterm) : vterm :=
  for_up 16 0 (fun y =>
    for_up 8 0 (fun x v =>
      if Z.testbit (font_byte (u8 c * 16 + y)) (7 - x) then
        let fb_x := u64 (cursor_x v + x) in
        let fb_y := u64 (cursor_y v + y) in
        put_word (framebuffer v) (u64 (fb_y * (pitch v / 4) + fb_x)) (vt_fg_color v) v
      else v)) v.

(** The start of a line, scrolling when it is the last.
    src/vterm/vterm.c:76-79 [vterm_putc] *)
Definition new_line : K vterm unit :=
  kmod (fun v => set_cursor 0 (u64 (cursor_y v + 16)) v);;
  v ← kget;
  kwhen (height v <? u64 (cursor_y v + 16)) vterm_scroll.

(** src/vterm/vterm.c:72-105 [vterm_putc] *)
Definition vterm_putc (c : Z) : K vterm unit :=
  if c =? 10 then new_line else
  v ← kget;
  kwhen (width v <? u64 (cursor_x v + 8)) new_line;;
  kmod (draw_glyph c);;
  kmod (fun v => set_cursor (u64 (cursor_x v + 8)) (cursor_y v) v).

(** The string is the list of its bytes.
    src/vterm/vterm.c:107-111 [vterm_print] *)
Fixpoint vterm_print (str : list Z) : K vterm unit :=
  match str with
  | [] => mret tt
  | c :: r => vterm_putc c;; vterm_print r
  end.
End putc.

(** ** Safety *)

(** A framebuffer as the boot loader gives it: whole words in a line, a line
    at least as long as the width, room for a character, and no wrap. *)
Record screen_ok (v : vterm) : Prop := {
  so_pitch : pitch v mod 4 = 0;
  so_line : 4 * width v <= pitch v;
  so_width : 8 <= width v;
  so_height : 16 <= height v;
  so_base : 0 <= framebuffer v;
  so_end : framebuffer v + pitch v * height v < 2 ^ 64;
}.

(** The invariant: the cursor is at a cell that fits on the screen, or at the
    end of its line. *)
Record vterm_ok (v : vterm) : Prop := {
  vo_screen : screen_ok v;
  vo_x : 0 <= cursor_x v <= width v;
  vo_y : 0 <= cursor_y v /\ cursor_y v + 16 <= height v;
}.

(** Inside the framebuffer. *)
Definition on_screen (v : vterm) (a : Z) : Prop :=
  framebuffer v <= a < framebuffer v + pitch v * height v.

(** [v'] differs from [v] by pixels of the screen and the cursor only. *)
Record drawn (v v' : vterm) : Prop := {
  dr_fb : framebuffer v' = framebuffer v;
  dr_pitch : pitch v' = pitch v;
  dr_width : width v' = width v;
  dr_height : height v' = height v;
  dr_term : term_color v' = term_color v;
  dr_fg : vt_fg_color v' = vt_fg_color v;
  dr_mem : forall a, ~ on_screen v a -> rb (vmem v') a = rb (vmem v) a;
}.

#[export] Instance drawn_preorder : PreOrder drawn.
Proof.
  split; [by split|]. intros v1 v2 v3 [] []. split; try congruence.
  intros a Ha. rewrite <- dr_mem0 by done. apply dr_mem1. unfold on_screen in *. congruence.
Qed.

Lemma drawn_screen v v' : drawn v v' -> screen_ok v -> screen_ok v'.
Proof. intros [] []. split; congruence. Qed.

Lemma drawn_cursor v v' x y : drawn v v' -> drawn v (set_cursor x y v').
Proof. intros []. by split. Qed.

(** The index of a pixel, and its address. *)
Lemma pixel_bounds v x y : screen_ok v -> 0 <= x < width v -> 0 <= y < height v ->
  let i := y * (pitch v / 4) + x in
  u64 i = i /\ u64 (framebuffer v + 4 * i) = framebuffer v + 4 * i /\
  framebuffer v + 4 * i = framebuffer v + y * pitch v + 4 * x /\
  framebuffer v <= framebuffer v + 4 * i /\ framebuffer v + 4 * i + 4 <= framebuffer v + pitch v * height v.
Proof.
  intros [Hp Hl Hw Hh Hb He] Hx Hy i.
  assert (Ep : 4 * (pitch v / 4) = pitch v) by (apply Z.div_exact in Hp; lia).
  assert (Ei : 4 * i = y * pitch v + 4 * x) by (unfold i; nia).
  assert (Hi : 0 <= y * pitch v /\ y * pitch v + pitch v <= pitch v * height v) by nia.
  assert (0 <= i) by lia.
  split; [apply wrap_small; lia|]. split; [apply wrap_small; lia|]. lia.
Qed.

Lemma put_pixel_drawn v x y color : screen_ok v -> 0 <= x < width v -> 0 <= y < height v ->
  drawn v (put_word (framebuffer v) (u64 (y * (pitch v / 4) + x)) color v).
Proof.
  intros Hs Hx Hy. destruct (pixel_bounds v x y Hs Hx Hy) as (E1 & E2 & _ & Hlo & Hhi).
  unfold put_word. rewrite E1, E2. split; try done.
  intros a Ha. cbn [vmem set_vmem]. apply rb_store_ne; [done|done|]. unfold on_screen in Ha. lia.
Qed.

(** A double loop over pixels. *)
Lemma for_up_drawn n (f : Z -> vterm -> vterm) v (I : vterm -> Prop) :
  I v -> (forall i w, 0 <= i < Z.of_nat n -> drawn v w -> I w -> drawn w (f i w) /\ I (f i w)) ->
  drawn v (for_up n 0 f v) /\ I (for_up n 0 f v).
Proof.
  intros HI H.
  apply (for_up_ind (fun _ w => drawn v w /\ I w) n 0 f v); [done|].
  intros i w Hi [Hd Hw]. destruct (H i w ltac:(lia) Hd Hw) as [Hd' Hw']. split; [|done]. by transitivity w.
Qed.

(** The cursor stays. *)
Definition cursor_is (x y : Z) (v : vterm) : Prop := cursor_x v = x /\ cursor_y v = y.

Lemma draw_glyph_drawn past c v : screen_ok v -> 0 <= cursor_x v -> cursor_x v + 8 <= width v ->
  0 <= cursor_y v -> cursor_y v + 16 <= height v ->
  drawn v (draw_glyph past c v) /\ cursor_is (cursor_x v) (cursor_y v) (draw_glyph past c v).
Proof.
  intros Hs Hx Hx8 Hy Hy16. unfold draw_glyph.
  apply (for_up_drawn 16); [done|]. intros y w Hy1 Hd Hc.
  apply (for_up_drawn 8); [done|]. intros x u Hx1 Hd' Hc'.
  destruct (Z.testbit _ _); [|done].
  assert (Hu : drawn v u) by (by transitivity w). pose proof (drawn_screen v u Hu Hs) as Hsu.
  destruct Hc' as [Ex Ey]. pose proof Hs as [_ Hline _ _ Hbase Hend]. pose proof Hu as [Ef Ep Ew Eh _ _ _].
  assert (0 < pitch v) by (pose proof (so_width v Hs); lia).
  assert (width v <= pitch v /\ height v <= pitch v * height v) by nia.
  assert (pitch v <= pitch v * height v) by (pose proof (so_height v Hs); nia).
  rewrite Ex, Ey, (wrap_small 64 (cursor_x v + x)), (wrap_small 64 (cursor_y v + y)) by lia.
  split; [|by split]. apply put_pixel_drawn; [done|lia|lia].
Qed.

(** One row of text up. *)
Lemma clear_last_row_drawn v base : screen_ok v ->
  base = framebuffer v + pitch v * (height v - 16) ->
  drawn v (clear_last_row base v) /\ cursor_is (cursor_x v) (cursor_y v) (clear_last_row base v).
Proof.
  intros Hs Eb. unfold clear_last_row. apply (for_up_drawn 16); [done|]. intros y w Hy Hd Hc.
  apply (for_up_drawn (Z.to_nat (width v))); [done|]. intros x u Hx Hd' [Ex Ey].
  assert (Hu : drawn v u) by (by transitivity w). pose proof (drawn_screen v u Hu Hs) as Hsu.
  pose proof Hu as [Ef Ep Ew Eh _ _ _].
  pose proof (so_height v Hs) as Hh. pose proof (so_width v Hs) as Hw.
  destruct (pixel_bounds v x (height v - 16 + y) Hs) as (E1 & E2 & E3 & Hlo & Hhi); [lia|lia|].
  assert (E4 : 4 * (pitch v / 4) = pitch v) by (pose proof (so_pitch v Hs) as Hp; apply Z.div_exact in Hp; lia).
  assert (E0 : 0 <= y * (pitch v / 4) /\ 0 <= (height v - 16) * (pitch v / 4)) by nia.
  assert (Ei : framebuffer v + 4 * ((height v - 16 + y) * (pitch v / 4) + x) = base + 4 * (y * (pitch v / 4) + x)) by (subst base; nia).
  pose proof (so_base v Hs). pose proof (so_end v Hs).
  assert (Hb0 : 0 <= base) by (subst base; assert (0 <= pitch v * (height v - 16)) by (apply Z.mul_nonneg_nonneg; lia); lia).
  rewrite Ep. set (q := y * (pitch v / 4)) in *.
  rewrite (wrap_small 64 q), (wrap_small 64 (q + x)) by lia.
  split; [|by split]. unfold put_word. rewrite <- Ei, E2. split; try done.
  intros a Ha. cbn [vmem set_vmem]. apply rb_store_ne; [done|done|].
  unfold on_screen in Ha. rewrite Ef, Ep, Eh in Ha. lia.
Qed.

Lemma vterm_scroll_run v : screen_ok v -> 16 <= cursor_y v < 2 ^ 64 ->
  exists v', vterm_scroll v = Ret tt v' /\ drawn v v' /\ cursor_is (cursor_x v) (cursor_y v - 16) v'.
Proof.
  intros Hs Hy. pose proof Hs as [Hp Hl Hw Hh Hb He].
  unfold vterm_scroll. rewrite (kbind_ret _ _ v v v) by reflexivity. cbv zeta.
  assert (E1 : u64 (pitch v * 16) = pitch v * 16) by (apply wrap_small; nia).
  assert (E2 : u64 (pitch v * height v) = pitch v * height v) by (apply wrap_small; nia).
  assert (E3 : u64 (pitch v * height v - pitch v * 16) = pitch v * (height v - 16))
    by (rewrite wrap_small by nia; lia).
  assert (E4 : u64 (framebuffer v + pitch v * 16) = framebuffer v + pitch v * 16) by (apply wrap_small; nia).
  assert (E5 : u64 (framebuffer v + pitch v * (height v - 16)) = framebuffer v + pitch v * (height v - 16))
    by (apply wrap_small; nia).
  rewrite E1, E2, E3, E4, E5.
  destruct (memmove_down (vmem v) (framebuffer v) (framebuffer v + pitch v * 16) (pitch v * (height v - 16)))
    as (m & R & _ & Hm); [nia|done|done|nia|].
  rewrite (kbind_ret _ _ v (framebuffer v) (set_vmem m v)) by (by apply klift_ret).
  set (v1 := set_vmem m v).
  assert (Hd1 : drawn v v1).
  { split; try done. intros a Ha. cbn [vmem v1 set_vmem]. rewrite Hm by done.
    unfold on_screen in Ha. zcase; cbn; try done; nia. }
  destruct (clear_last_row_drawn v1 (framebuffer v + pitch v * (height v - 16)) (drawn_screen v v1 Hd1 Hs) eq_refl)
    as (Hd2 & Ex & Ey).
  rewrite (kbind_ret _ _ v1 tt (clear_last_row (framebuffer v + pitch v * (height v - 16)) v1)) by reflexivity.
  eexists. split; [reflexivity|]. split; [apply drawn_cursor; by transitivity v1|].
  split; cbn [cursor_x cursor_y set_cursor]; [exact Ex|]. rewrite Ey. cbn [cursor_y v1 set_vmem].
  apply wrap_small. lia.
Qed.

Lemma new_line_run v : vterm_ok v -> exists v', new_line v = Ret tt v' /\ drawn v v' /\ vterm_ok v' /\ cursor_x v' = 0.
Proof.
  intros [Hs Hx [Hy Hy16]]. pose proof Hs as [Hp Hl Hw Hh Hb He].
  assert (Hhh : height v <= pitch v * height v) by nia.
  unfold new_line. set (v1 := set_cursor 0 (u64 (cursor_y v + 16)) v).
  rewrite (kbind_ret _ _ v tt v1) by reflexivity. rewrite (kbind_ret _ _ v1 v1 v1) by reflexivity.
  assert (Ey : cursor_y v1 = cursor_y v + 16) by (cbn; apply wrap_small; lia).
  assert (Hd1 : drawn v v1) by (by apply drawn_cursor).
  assert (Hs1 : screen_ok v1) by (by eapply drawn_screen).
  rewrite Ey. change (height v1) with (height v).
  destruct (decide (cursor_y v + 32 < 2 ^ 64)) as [Hlt|Hge].
  - rewrite wrap_small by lia. destruct (Z.ltb_spec (height v) (cursor_y v + 16 + 16)); cbn [kwhen].
    + destruct (vterm_scroll_run v1 Hs1) as (v2 & R & Hd2 & Ex2 & Ey2); [rewrite Ey; lia|].
      exists v2. split; [exact R|]. split; [by transitivity v1|]. split; [|by rewrite Ex2].
      pose proof (drawn_screen v1 v2 Hd2 Hs1) as Hs2. split; [done| |].
      * rewrite Ex2. cbn. pose proof (so_width v2 Hs2). lia.
      * rewrite Ey2, Ey. rewrite (dr_height _ _ Hd2). cbn. lia.
    + exists v1. do 2 (split; [done | ]). split; [|done]. split; [done|cbn; lia|]. rewrite Ey. cbn. lia.
  - exfalso. nia.
Qed.

Lemma draw_run past c v : screen_ok v -> 0 <= cursor_x v -> cursor_x v + 8 <= width v ->
  0 <= cursor_y v -> cursor_y v + 16 <= height v ->
  exists g, kmod (draw_glyph past c) v = Ret tt g /\ drawn v g /\ cursor_is (cursor_x v) (cursor_y v) g.
Proof. intros H1 H2 H3 H4 H5. eexists. split; [reflexivity|]. by apply draw_glyph_drawn. Qed.

Lemma vterm_putc_run past c v : vterm_ok v ->
  exists v', vterm_putc past c v = Ret tt v' /\ drawn v v' /\ vterm_ok v'.
Proof.
  intros Hv. unfold vterm_putc. destruct (c =? 10).
  { destruct (new_line_run v Hv) as (v' & R & Hd & Hv' & _). by exists v'. }
  rewrite (kbind_ret _ _ v v v) by reflexivity.
  assert (Hw8 : u64 (cursor_x v + 8) = cursor_x v + 8).
  { destruct Hv as [[Hp Hl Hw Hh Hb He] Hx Hy]. apply wrap_small. nia. }
  rewrite Hw8.
  assert (exists v1, kwhen (width v <? cursor_x v + 8) new_line v = Ret tt v1 /\ drawn v v1 /\ vterm_ok v1 /\
            cursor_x v1 + 8 <= width v1) as (v1 & R1 & Hd1 & Hv1 & Hx1).
  { destruct (Z.ltb_spec (width v) (cursor_x v + 8)); cbn [kwhen].
    - destruct (new_line_run v Hv) as (v' & R & Hd & Hv' & Ex). exists v'. do 3 (split; [done | ]). rewrite Ex. pose proof (so_width v' (vo_screen v' Hv')). lia.
    - exists v. by split_and!. }
  rewrite (kbind_ret _ _ _ _ _ R1). destruct Hv1 as [Hs1 Hxx [Hy Hy16]].
  destruct (draw_run past c v1 Hs1) as (g & R2 & Hd2 & Ex & Ey); [lia..|].
  rewrite (kbind_ret _ _ _ _ _ R2). eexists. split; [reflexivity|].
  split; [apply drawn_cursor; exact (transitivity Hd1 Hd2)|].
  pose proof (drawn_screen _ _ Hd2 Hs1) as Hs2. split.
  - exact (drawn_screen v1 _ (drawn_cursor v1 _ _ _ Hd2) Hs1).
  - cbn. rewrite Ex, (dr_width _ _ Hd2). pose proof Hs1 as [Hp Hl Hw Hh Hb He]. rewrite wrap_small by nia. lia.
  - cbn. rewrite Ey, (dr_height _ _ Hd2). lia.
Qed.

(** *** Pixels *)
Definition pixel_addr (v : vterm) (x y : Z) : Z := framebuffer v + y * pitch v + 4 * x.
Definition pixel (v : vterm) (x y : Z) : Z := ld32 (vmem v) (pixel_addr v x y).

Lemma put_pixel v x y color x' y' : screen_ok v -> 0 <= x < width v -> 0 <= y < height v ->
  0 <= x' < width v -> 0 <= y' < height v ->
  pixel (put_word (framebuffer v) (u64 (y * (pitch v / 4) + x)) color v) x' y'
  = if (x' =? x) && (y' =? y) then u32 color else pixel v x' y'.
Proof.
  intros Hs Hx Hy Hx' Hy'. destruct (pixel_bounds v x y Hs Hx Hy) as (E1 & E2 & E3 & _ & _).
  unfold put_word. rewrite E1, E2, E3. unfold pixel, pixel_addr. cbn [vmem set_vmem framebuffer pitch].
  destruct (Z.eqb_spec y' y) as [->|Hny].
  - rewrite andb_true_r. destruct (Z.eqb_spec x' x) as [->|Hnx].
    + by rewrite load_store_eq.
    + apply load_store_ne; [done|done|lia].
  - rewrite andb_false_r. apply load_store_ne; [done|done|].
    pose proof (so_line v Hs) as Hl. pose proof (so_width v Hs).
    destruct (Z.lt_ge_cases y' y).
    + left. assert (y' * pitch v + pitch v <= y * pitch v) by nia. lia.
    + right. assert (y * pitch v + pitch v <= y' * pitch v) by nia. lia.
Qed.

(** [w] is [v] with the pixels of [f] in the foreground colour. *)
Record plotted (v w : vterm) (f : Z -> Z -> bool) : Prop := {
  pl_drawn : drawn v w;
  pl_cursor : cursor_is (cursor_x v) (cursor_y v) w;
  pl_pixel : forall x y, 0 <= x < width v -> 0 <= y < height v ->
    pixel w x y = if f x y then u32 (vt_fg_color v) else pixel v x y;
}.

Lemma plotted_ext v w f g : (forall x y, 0 <= x < width v -> 0 <= y < height v -> f x y = g x y) ->
  plotted v w f -> plotted v w g.
Proof. intros E [H1 H2 H3]. split; [done|done|]. intros x y Hx Hy. by rewrite <- E, H3. Qed.

(** One pixel of a glyph. *)
Lemma plot_step v w f x y (b : bool) : screen_ok v -> 0 <= x < width v -> 0 <= y < height v ->
  plotted v w f ->
  plotted v (if b then put_word (framebuffer w) (u64 (y * (pitch w / 4) + x)) (vt_fg_color w) w else w)
    (fun x' y' => (b && (x' =? x) && (y' =? y)) || f x' y').
Proof.
  intros Hs Hx Hy [Hd Hc Hp]. destruct b; [|by split].
  pose proof (drawn_screen v w Hd Hs) as Hsw. pose proof Hd as [Ef Ep Ew Eh Et Eg _].
  split.
  - transitivity w; [done|]. apply put_pixel_drawn; [done|congruence|congruence].
  - done.
  - intros x' y' Hx' Hy'. rewrite put_pixel by (done || congruence). rewrite Hp, Eg by done.
    cbn [andb]. by destruct ((x' =? x) && (y' =? y)).
Qed.

Lemma draw_glyph_plotted past c v : screen_ok v -> 0 <= cursor_x v -> cursor_x v + 8 <= width v ->
  0 <= cursor_y v -> cursor_y v + 16 <= height v ->
  plotted v (draw_glyph past c v) (fun x y =>
    (cursor_x v <=? x) && (x <? cursor_x v + 8) && (cursor_y v <=? y) && (y <? cursor_y v + 16) &&
    Z.testbit (font_byte past (u8 c * 16 + (y - cursor_y v))) (7 - (x - cursor_x v))).
Proof.
  intros Hs Hx Hx8 Hy Hy16. unfold draw_glyph.
  set (bit x y := Z.testbit (font_byte past (u8 c * 16 + y)) (7 - x)).
  set (rows n m := fun x y : Z =>
    (cursor_x v <=? x) && (x <? cursor_x v + 8) && (cursor_y v <=? y) &&
    ((y <? cursor_y v + n) || ((y =? cursor_y v + n) && (x <? cursor_x v + m))) &&
    bit (x - cursor_x v) (y - cursor_y v)).
  eapply plotted_ext; [|apply (for_up_ind (fun n w => plotted v w (rows n 0)) 16 0 _ v)].
  - intros x y _ _. unfold rows. cbn. zcase; cbn; (done || lia).
  - eapply plotted_ext; [|by split; [| |intros x y _ _; instantiate (1 := fun _ _ => false)]].
    intros x y _ _. unfold rows. zcase; cbn; (done || lia).
  - intros n w Hn Hw.
    eapply plotted_ext; [|apply (for_up_ind (fun m u => plotted v u (rows n m)) 8 0 _ w); [exact Hw|]].
    + intros x y _ _. unfold rows. cbn. zcase; cbn; (done || lia).
    + intros m u Hm Hu. pose proof (pl_cursor _ _ _ Hu) as [Ex Ey]. rewrite Ex, Ey.
      pose proof Hs as [_ Hline Hwid _ Hbase Hend].
      assert (Hsm : width v <= pitch v * height v /\ height v <= pitch v * height v) by nia.
      rewrite (wrap_small 64 (cursor_x v + m)), (wrap_small 64 (cursor_y v + n)) by lia.
      eapply plotted_ext; [|apply (plot_step v u (rows n m) (cursor_x v + m) (cursor_y v + n) (bit m n)); [done|lia|lia|exact Hu]].
      intros x y _ _. cbv beta. unfold rows.
      destruct (Z.eqb_spec x (cursor_x v + m)) as [->|Hnx], (Z.eqb_spec y (cursor_y v + n)) as [->|Hny];
        rewrite ?andb_false_r, ?andb_true_r; cbn [orb andb].
      * replace (cursor_x v + m - cursor_x v) with m by lia.
        replace (cursor_y v + n - cursor_y v) with n by lia.
        destruct (bit m n); zcase; cbn; (done || lia).
      * zcase; cbn; (done || lia).
      * zcase; cbn; (done || lia).
      * zcase; cbn; (done || lia).
Qed.

Definition demo_screen : vterm := Vterm 0x1000 40 8 24 8 0 0 0xFFFFFF ∅.

Lemma font_byte_in past i : 0 <= i < 4095 -> font_byte past i = default_font !!! Z.to_nat i.
Proof.
  intros Hi. unfold font_byte.
  destruct (lookup_lt_is_Some_2 default_font (Z.to_nat i)) as [b E]; [rewrite length_default_font; lia|].
  rewrite E. by rewrite (list_lookup_total_correct _ _ _ E).
Qed.

Lemma font_byte_out past : font_byte past 4095 = past.
Proof. unfold font_byte. by rewrite lookup_ge_None_2 by (rewrite length_default_font; lia). Qed.

(** A character that fits on the cursor's line is drawn at the cursor and
    nothing else changes: of the 8 by 16 cell exactly the pixels whose bit is
    set in the font get the foreground colour, and the cursor moves on by 8.
    The rows come from the font for every character but 255: the array is one
    byte short of 256 characters, so the last row of that character is
    whatever lies behind it in memory. *)
Theorem vterm_putc_draws_glyph past c v (Hv : vterm_ok v) (Hc : c <> 10) (Hb : 0 <= c < 256)
    (Hfit : cursor_x v + 8 <= width v) :
  exists v', vterm_putc past c v = Ret tt v' /\
    cursor_x v' = cursor_x v + 8 /\ cursor_y v' = cursor_y v /\
    forall x y, 0 <= x < width v -> 0 <= y < height v ->
      let row := y - cursor_y v in
      let bits := if decide (c = 255 /\ row = 15) then past
                  else default_font !!! Z.to_nat (c * 16 + row) in
      ld32 (vmem v') (framebuffer v + y * pitch v + 4 * x)
      = if bool_decide (cursor_x v <= x < cursor_x v + 8 /\ 0 <= row < 16) && Z.testbit bits (7 - (x - cursor_x v))
        then u32 (vt_fg_color v)
        else ld32 (vmem v) (framebuffer v + y * pitch v + 4 * x).
Proof.
  destruct Hv as [Hs Hx [Hy Hy16]]. unfold vterm_putc. destruct (Z.eqb_spec c 10); [done|].
  pose proof Hs as [_ Hline Hwid _ Hbase Hend].
  assert (Hsm : width v <= pitch v * height v) by (pose proof (so_height v Hs); nia).
  assert (Hw8 : u64 (cursor_x v + 8) = cursor_x v + 8) by (apply wrap_small; lia).
  rewrite (kbind_ret _ _ v v v) by reflexivity. rewrite Hw8.
  destruct (Z.ltb_spec (width v) (cursor_x v + 8)); [lia|].
  rewrite (kbind_ret _ _ v tt v) by reflexivity.
  pose proof (draw_glyph_plotted past c v Hs ltac:(lia) Hfit Hy Hy16) as Hp.
  assert (exists g, kmod (draw_glyph past c) v = Ret tt g /\ g = draw_glyph past c v) as (g & R & Eg)
    by (eexists; split; reflexivity).
  rewrite <- Eg in Hp. clear Eg. rewrite (kbind_ret _ _ _ _ _ R).
  destruct Hp as [Hd [Ex Ey] Hpix]. eexists. split; [reflexivity|]. cbn [cursor_x cursor_y vmem set_cursor].
  rewrite Ex, Ey. split; [exact Hw8|]. split; [done|]. intros x y Hxx Hyy. cbv zeta.
  pose proof (Hpix x y Hxx Hyy) as Hxy. unfold pixel, pixel_addr in Hxy.
  rewrite (dr_fb _ _ Hd), (dr_pitch _ _ Hd) in Hxy. rewrite Hxy. clear Hxy.
  rewrite (wrap_small 8 c) by lia.
  assert (Ec : bool_decide (cursor_x v <= x < cursor_x v + 8 /\ 0 <= y - cursor_y v < 16)
    = (cursor_x v <=? x) && (x <? cursor_x v + 8) && (cursor_y v <=? y) && (y <? cursor_y v + 16)).
  { destruct (bool_decide_reflect (cursor_x v <= x < cursor_x v + 8 /\ 0 <= y - cursor_y v < 16));
      zcase; cbn; (done || lia). }
  rewrite Ec. destruct ((cursor_x v <=? x) && _ && _ && _) eqn:Ein; [|done]. cbn [andb].
  rewrite !andb_true_iff in Ein. destruct Ein as [[[_ _] Hy1%Z.leb_le] Hy2%Z.ltb_lt].
  destruct (decide (c = 255 /\ y - cursor_y v = 15)) as [[-> Er]|Hne].
  - rewrite Er. by rewrite font_byte_out.
  - rewrite font_byte_in by lia. done.
Qed.

Lemma vterm_putc_draws_glyph_witness :
  exists v', vterm_putc 0 65 (set_cursor 0 0 demo_screen) = Ret tt v' /\ cursor_x v' = 8.
Proof.
  assert (H : vterm_ok (set_cursor 0 0 demo_screen)) by
    (split; [split|..]; unfold demo_screen; cbn [framebuffer pitch width height cursor_x cursor_y set_cursor];
     (reflexivity || lia)).
  destruct (vterm_putc_draws_glyph 0 65 (set_cursor 0 0 demo_screen) H) as (v' & R & Ex & _);
    [lia|lia|unfold demo_screen; cbn [width cursor_x set_cursor]; lia|].
  exists v'. exact (conj R Ex).
Defined.

(** C28: printing any text is safe on any framebuffer of at least one
    character whose lines hold its width: it terminates, the cursor stays on
    a whole character cell of the screen (or at the end of a line), also
    after scrolling, and no byte outside the framebuffer changes. *)
Theorem vterm_print_safe past str v (Hv : vterm_ok v) :
  exists v', vterm_print past str v = Ret tt v' /\ vterm_ok v' /\
    (framebuffer v', pitch v', width v', height v') = (framebuffer v, pitch v, width v, height v) /\
    forall a, ~ (framebuffer v <= a < framebuffer v + pitch v * height v) -> rb (vmem v') a = rb (vmem v) a.
Proof.
  assert (H : exists v', vterm_print past str v = Ret tt v' /\ drawn v v' /\ vterm_ok v').
  { revert v Hv. induction str as [|c r IH]; intros v Hv.
    - by exists v.
    - destruct (vterm_putc_run past c v Hv) as (v1 & R1 & Hd1 & Hv1).
      destruct (IH v1 Hv1) as (v2 & R2 & Hd2 & Hv2). exists v2. cbn [vterm_print].
      rewrite (kbind_ret _ _ _ _ _ R1). split; [done|]. split; [by transitivity v1|done]. }
  destruct H as (v' & R & [Ef Ep Ew Eh _ _ Hm] & Hv'). exists v'. do 2 (split; [done | ]).
  split; [congruence|exact Hm].
Qed.


Lemma vterm_print_safe_witness :
  vterm_ok demo_screen /\ exists v', vterm_print 0 [65; 10; 66] demo_screen = Ret tt v' /\ vterm_ok v'.
Proof.
  assert (H : vterm_ok demo_screen) by (split; [split|..]; unfold demo_screen; cbn [framebuffer pitch width height cursor_x cursor_y]; (reflexivity || lia)).
  split; [exact H|].
  destruct (vterm_print_safe 0 [65; 10; 66] demo_screen H) as (v' & R & Hv & _).
  exists v'. exact (conj R Hv).
Defined.
