(* ===== verification/Boot.v ===== *)
(** * Kernel entry (main.c, limine_requests.c)

    [kernel_state] puts the states of the components together: they share the
    heap with the machine below it, the console and the interrupt flag.
    [kmain] is the boot sequence on it.  The theorems say that nothing is
    touched when the loader's answers are unusable, and what the sequence does
    to the heap and the threads: the stack of the idle thread is laid over the
    kernel's process object. *)

From S2P Require Import Prelude Bytes MemLib Console Machine Pmm Vmm Pages Kheap Slab Spinlock Printf.
From S2P Require Import Kmem Errno SchedState Sched Queue Mutex Threads Process HashTable Vnode Vfs.
From S2P Require Import Ports Timer Descriptors Vterm.
Local Open Scope Z_scope.

(** ** The loader's answers *)

(** src/include/limine/limine.h:243-249 [limine_framebuffer] *)
Record limine_framebuffer := Framebuffer {
  fb_address : Z;
  fb_width : Z;
  fb_height : Z;
  fb_pitch : Z;
}.

(** [framebuffers] of the response has [framebuffer_count] entries, [modules]
    [module_count]; [None] is a NULL response.
    src/limine/limine_requests.c:7-25 [limine_base_revision] *)
Record limine := Limine {
  limine_base_revision : list Z;                                (* three words *)
  framebuffer_request : option (list limine_framebuffer);
  hhdm_request : option Z;
  memmap_request : option (list memmap_entry);
  module_request : option Z;
}.

(** src/include/limine/limine.h:69-69 [LIMINE_BASE_REVISION_SUPPORTED] *)
Definition LIMINE_BASE_REVISION_SUPPORTED (l : limine) : bool := limine_base_revision l !!! 2%nat =? 0.

(** src/include/vterm/vterm.h:12-13 [FB_HEIGHT] *)
Definition FB_HEIGHT : Z := 1080.
Definition FB_WIDTH : Z := 1920.

(** The members of the kernel table for the responses; the clock and the
    threads are in the states of those components.
    src/include/kernel.h:31-37 [kernel_table] *)
Record kernel_table := KernelTable {
  kt_framebuffer : option (list limine_framebuffer);
  kt_hhdm : option Z;
  kt_memmap : option (list memmap_entry);
  kt_module : option Z;
}.

(** ** The whole kernel *)

(** [k_kernel] is the pointer [kernel] and what it points to.
    src/main.c:5-6 [master_kernel_table] *)
Record kernel_state (D : Type) := Kernel {
  k_limine : limine;
  k_kernel : option kernel_table;
  k_term : vterm;
  k_print : pstate;
  k_sched : sched (heap machine);
  k_vfs : vstate (heap machine);
  k_descr : descr;
  k_clock : clock;
  k_dev : D;
}.
Arguments Kernel {D}.
Arguments k_limine {D}.
Arguments k_kernel {D}.
Arguments k_term {D}.
Arguments k_print {D}.
Arguments k_sched {D}.
Arguments k_vfs {D}.
Arguments k_descr {D}.
Arguments k_clock {D}.
Arguments k_dev {D}.

Section kernel.
Context {D : Type} `{!PortIO D}.
Implicit Types s : kernel_state D.

Definition set_kernel v s : kernel_state D :=
  Kernel (k_limine s) v (k_term s) (k_print s) (k_sched s) (k_vfs s) (k_descr s) (k_clock s) (k_dev s).
Definition set_term v s : kernel_state D :=
  Kernel (k_limine s) (k_kernel s) v (k_print s) (k_sched s) (k_vfs s) (k_descr s) (k_clock s) (k_dev s).
Definition set_sched v s : kernel_state D :=
  Kernel (k_limine s) (k_kernel s) (k_term s) (k_print s) v (k_vfs s) (k_descr s) (k_clock s) (k_dev s).
Definition set_k_clock v s : kernel_state D :=
  Kernel (k_limine s) (k_kernel s) (k_term s) (k_print s) (k_sched s) (k_vfs s) (k_descr s) v (k_dev s).
Definition set_dev v s : kernel_state D :=
  Kernel (k_limine s) (k_kernel s) (k_term s) (k_print s) (k_sched s) (k_vfs s) (k_descr s) (k_clock s) v.

(** The heap and the machine are those of the scheduler's state. *)
Definition k_heap s : heap machine := kmem (k_sched s).
Definition set_heap v s : kernel_state D := set_sched (set_kmem v (k_sched s)) s.
Definition k_machine s : machine := inner (k_heap s).
Definition set_machine v s : kernel_state D := set_heap (set_inner v (k_heap s)) s.

#[export] Instance kernel_Console : Console (kernel_state D) := {
  put_event e s := set_sched (put_event e (k_sched s)) s;
}.
#[export] Instance kernel_Cpu : Cpu (kernel_state D) := {
  get_if s := intr (k_sched s);
  set_if b s := set_sched (set_intr b (k_sched s)) s;
}.
#[export] Instance kernel_PortIO : PortIO (kernel_state D) := {
  port_in w p s := let '(v, d) := port_in w p (k_dev s) in (v, set_dev d s);
  port_out w p v s := set_dev (port_out w p v (k_dev s)) s;
}.
#[export] Instance kernel_HasClock : HasClock (kernel_state D) := {
  get_clock := k_clock;
  set_clock := set_k_clock;
}.

(** The views of the components with a heap, console or interrupt flag of
    their own: these are the shared ones. *)
Definition print_view s : pstate := set_if (intr (k_sched s)) (k_print s).
Definition set_print_view p s : kernel_state D :=
  set_if (p_if p) (Kernel (k_limine s) (k_kernel s) (k_term s) p (k_sched s) (k_vfs s) (k_descr s)
    (k_clock s) (k_dev s)).
Definition vfs_view s : vstate (heap machine) :=
  set_vintr (intr (k_sched s)) (set_vh (set_hmem (k_heap s) (vh (k_vfs s))) (k_vfs s)).
Definition set_vfs_view v s : kernel_state D :=
  set_if (vintr v) (set_heap (hmem (vh v))
    (Kernel (k_limine s) (k_kernel s) (k_term s) (k_print s) (k_sched s) v (k_descr s)
      (k_clock s) (k_dev s))).
Definition descr_view s : descr := set_d_con [] (set_d_if (intr (k_sched s)) (k_descr s)).
Definition set_descr_view d s : kernel_state D :=
  set_if (d_if d) (put_events (d_con d)
    (Kernel (k_limine s) (k_kernel s) (k_term s) (k_print s) (k_sched s) (k_vfs s) d
      (k_clock s) (k_dev s))).

Definition on_term (f : vterm -> vterm) : K (kernel_state D) unit :=
  kmod (fun s => set_term (f (k_term s)) s).
Definition on_print {B} : K pstate B -> K (kernel_state D) B := klift print_view set_print_view.
Definition on_machine {B} : K machine B -> K (kernel_state D) B := klift k_machine set_machine.
Definition on_heap {B} : K (heap machine) B -> K (kernel_state D) B := klift k_heap set_heap.
Definition on_sched {B} : K (sched (heap machine)) B -> K (kernel_state D) B := klift k_sched set_sched.
Definition on_vfs {B} : K (vstate (heap machine)) B -> K (kernel_state D) B := klift vfs_view set_vfs_view.
Definition on_descr {B} : K descr B -> K (kernel_state D) B := klift descr_view set_descr_view.

(** ** boot_info and kmain *)

(** The last three tests repeat what holds by then, but for the revision and
    the counts.
    src/main.c:8-42 [boot_info] *)
Definition boot_info : K (kernel_state D) unit :=
  kmod (set_kernel (Some (KernelTable None None None None)));;
  l ← kasks k_limine;
  if bool_decide (framebuffer_request l = None) then hcf else
  if bool_decide (hhdm_request l = None) then hcf else
  if bool_decide (memmap_request l = None) then hcf else
  if bool_decide (module_request l = None) then hcf else
  kmod (set_kernel (Some (KernelTable (framebuffer_request l) (hhdm_request l) (memmap_request l)
    (module_request l))));;
  if negb (LIMINE_BASE_REVISION_SUPPORTED l) then hcf else
  match framebuffer_request l with
  | None | Some [] => hcf
  | Some (_ :: _) =>
      match module_request l with
      | None => hcf
      | Some n => if n =? 0 then hcf else mret tt
      end
  end.

(** The bounds of the loops, the uninitialised buffer of [kprintf], the
    addresses of variables, functions and literals that the code takes. *)
Record boot_params := BootParams {
  b_fuel : nat;
  b_junk : list Z;
  a_gdt : Z; a_tss : Z; a_idt : Z;
  a_isr : nat -> Z; a_irq : nat -> Z;
  a_syscall_entry : Z;
  a_spinlock_text : Z;
  a_idle_task : Z; a_task_1 : Z; a_task_2 : Z;
}.

Context (b : boot_params).
Let fuel := b_fuel b.
#[local] Instance kernel_Kmem : Kmem (heap machine) := heap_Kmem fuel.

(** src/main.c:72-87 [test_scheduler] *)
Definition test_scheduler : K (kernel_state D) unit :=
  proc1 ← on_sched (process_create fuel (a_task_1 b) 0 NULL 0 false);
  if proc1 =? NULL then kerror "Failed to create process 1";; hcf else
  proc2 ← on_sched (process_create fuel (a_task_2 b) 0 NULL 0 false);
  if proc2 =? NULL then kerror "Failed to create process 2";; hcf else mret tt.

Definition set_hhdm (v : Z) (m : machine) : machine :=
  Machine (g_memmap m) v (pmm m) (phys m) (current_pml4 m) (cr3 m) (invlpgs m) (con m).

(** src/main.c:101-110 [kmain] *)
Definition banner : K (kernel_state D) unit :=
  Console.kprintf newline;;
  Console.kprintf ("=|||||||||||||||||||=" +:+ newline);;
  Console.kprintf ("|                   |" +:+ newline);;
  Console.kprintf ("| GoshkikOS Started |" +:+ newline);;
  Console.kprintf ("|                   |" +:+ newline);;
  Console.kprintf ("=|||||||||||||||||||=" +:+ newline);;
  Console.kprintf newline.

(** The framebuffer, which must not be larger than the terminal supports.
    src/main.c:95-99 [kmain] *)
Definition init_screen : K (kernel_state D) unit :=
  t ← kasks k_kernel;
  t ← kderef t;
  fbs ← kderef (kt_framebuffer t);
  fb ← kderef (fbs !! O);
  if (FB_WIDTH <? fb_width fb) || (FB_HEIGHT <? fb_height fb) then hcf else
  on_term (vterm_init (fb_address fb) (fb_pitch fb) (fb_width fb) (fb_height fb)).

(** src/main.c:112-117 [kmain] *)
Definition init_memory : K (kernel_state D) unit :=
  l ← kasks k_limine;
  offset ← kderef (hhdm_request l);
  on_machine (kmod (set_hhdm offset));;
  on_machine (init_mmu (memmap_request l));;
  on_machine init_pmm;;
  on_machine init_vmm;;
  on_heap init_kheap;;
  mret tt.

(** src/main.c:119-125 [kmain] *)
Definition init_devices : K (kernel_state D) unit :=
  init_serial;;
  on_descr (init_gdt (a_gdt b) (a_tss b));;
  on_descr (init_idt (a_idt b) (a_isr b) (a_irq b));;
  pic_remap 0x20 0x28;;
  init_pit;;
  init_system_clock;;
  init_ps2 fuel;;
  mret tt.

(** src/main.c:127-128 [kmain] *)
Definition init_tasks : K (sched (heap machine)) unit :=
  init_processes fuel;;
  init_threading fuel (a_idle_task b).

(** [halt] is an endless loop: from here on only interrupts run.
    src/main.c:92-134 [kmain] *)
Definition kmain : K (kernel_state D) unit :=
  boot_info;;
  init_screen;;
  banner;;
  init_memory;;
  init_devices;;
  on_descr (init_syscalls (a_syscall_entry b));;
  on_sched init_tasks;;
  on_print (init_kprintf_spinlock fuel (b_junk b) (a_spinlock_text b));;
  on_vfs init_vfs;;
  enable_interrupt;;
  test_scheduler;;
  halt.
End kernel.

(** ** The loader's answers are checked first *)

(** What the kernel needs from the loader. *)
Definition loader_ok (l : limine) : bool :=
  LIMINE_BASE_REVISION_SUPPORTED l &&
  match framebuffer_request l, hhdm_request l, memmap_request l, module_request l with
  | Some (fb :: _), Some _, Some _, Some n =>
      negb (n =? 0) && (fb_width fb <=? FB_WIDTH) && (fb_height fb <=? FB_HEIGHT)
  | _, _, _, _ => false
  end.

Section checks.
Context {D : Type} `{!PortIO D}.
Implicit Types s : kernel_state D.

Lemma checks_run s :
  let l := k_limine s in
  if loader_ok l then
    exists fb, option_map head (framebuffer_request l) = Some (Some fb) /\
      (boot_info;; init_screen) s
      = Ret tt (set_term (vterm_init (fb_address fb) (fb_pitch fb) (fb_width fb) (fb_height fb) (k_term s))
                 (set_kernel (Some (KernelTable (framebuffer_request l) (hhdm_request l)
                                      (memmap_request l) (module_request l))) s))
  else exists kt, (boot_info;; init_screen) s = Stop Halted (set_kernel (Some kt) s).
Proof.
  destruct s as [l k t p sc vf d c dev]. cbv zeta. cbn [k_limine k_term].
  unfold loader_ok, boot_info, init_screen, hcf, on_term. krun. cbn [k_limine set_kernel].
  destruct (framebuffer_request l) as [fbs|] eqn:Ef; cbn; [|rewrite andb_false_r; by eexists].
  destruct (hhdm_request l) as [o|] eqn:Eh; cbn;
    [|destruct fbs; rewrite andb_false_r; by eexists].
  destruct (memmap_request l) as [es|] eqn:Em; cbn;
    [|destruct fbs; rewrite andb_false_r; by eexists].
  destruct (module_request l) as [n|] eqn:En; cbn;
    [|destruct fbs; rewrite andb_false_r; by eexists].
  destruct (LIMINE_BASE_REVISION_SUPPORTED l); cbn; [|by eexists].
  destruct fbs as [|fb fbs]; cbn; [by eexists|].
  destruct (Z.eqb_spec n 0); cbn; [by eexists|].
  rewrite !Z.ltb_antisym.
  destruct (fb_width fb <=? FB_WIDTH); cbn; [|by eexists].
  destruct (fb_height fb <=? FB_HEIGHT); cbn; [|by eexists].
  by exists fb.
Qed.

(** [kmain] halts, having written nothing but its kernel table, whenever a
    response is missing, the base revision is unsupported, there is no
    framebuffer or module, or the screen is too large; otherwise it goes on
    with the screen cleared and the kernel table filled. *)
Theorem kmain_checks_loader (b : boot_params) s :
  (loader_ok (k_limine s) = false /\ exists kt, kmain b s = Stop Halted (set_kernel (Some kt) s)) \/
  (loader_ok (k_limine s) = true /\ exists fb s',
     option_map head (framebuffer_request (k_limine s)) = Some (Some fb) /\
     fb_width fb <= FB_WIDTH /\ fb_height fb <= FB_HEIGHT /\
     s' = set_term (vterm_init (fb_address fb) (fb_pitch fb) (fb_width fb) (fb_height fb) (k_term s))
            (set_kernel (Some (KernelTable (framebuffer_request (k_limine s)) (hhdm_request (k_limine s))
              (memmap_request (k_limine s)) (module_request (k_limine s)))) s) /\
     (boot_info;; init_screen) s = Ret tt s').
Proof.
  pose proof (checks_run s) as H. cbv zeta in H. destruct (loader_ok (k_limine s)) eqn:E.
  - right. split; [done|]. destruct H as (fb & Hfb & H). exists fb. eexists.
    split_and!; [done| | |done|exact H];
      revert E; unfold loader_ok; destruct (framebuffer_request _) as [[|fb' ?]|] eqn:Ef; try done;
      cbn in Hfb; injection Hfb as ->; destruct (hhdm_request _), (memmap_request _), (module_request _);
      try (rewrite andb_false_r; discriminate);
      intros ((_ & (_ & ?)%andb_prop)%andb_prop & ?)%andb_prop || intros (_ & ((_ & ?)%andb_prop & ?)%andb_prop)%andb_prop;
      by apply Z.leb_le.
  - left. split; [done|]. destruct H as (kt & H). exists kt.
    unfold kmain. revert H. unfold mbind, K_bind. destruct (boot_info s) as [[] s1|c s1]; [|by intros [= -> ->]].
    intros H. by rewrite H.
Qed.
End checks.
