(* ===== verification/BootTasks.v ===== *)
(** * The first processes and threads (main.c, on the real heap)

    What [init_tasks] and the first [process_create] of [test_scheduler] do
    when the heap is fresh from [init_kheap]: the fourth allocation is the idle
    thread's stack, it is the first to grow the heap and is answered the
    address of the kernel's process; and the first process gets the process id
    of the kernel. *)

From S2P Require Import Prelude Bytes Console Machine Pages Kheap Spinlock Kmem SchedState Sched.
From S2P Require Import Threads Process Boot.
Local Open Scope Z_scope.

(** The state in which [kmain] finds the globals: all bytes zero. *)
Definition zero_sched {A} (h : A) : sched A :=
  SchedState ∅ ∅ ∅ (Spinlock false false) NULL NULL 0 NULL (replicate MAX_THREADS NULL) 0 0
    (replicate MAX_PROCS NULL) 0 0 context_zero false h.

(** The addresses of the kernel's process, its thread and the idle thread. *)
Definition KPROC : Z := HEAP_START + HEADER.
Definition KTHREAD : Z := KPROC + 1440 + HEADER.
Definition ITHREAD : Z := KTHREAD + 272 + HEADER.

Definition kernel_process : process :=
  Process 0 0 PROC_RUNNING 0 NULL KTHREAD NULL NULL NULL (replicate 256 0) 0
    (replicate MAX_FD (Fd NULL 0 0 0)) 0.
Definition kernel_thread : thread :=
  Thread 0 0 KPROC THREAD_RUNNING THREAD_RING_0 THREAD_PRIO_IMMEDIATE context_zero 0 0 0 0 0 0 NULL NULL.
(** A ring-0 thread on a stack. *)
Definition fresh_thread (i : Z) (prio : thread_priority_t) (function stack : Z) : thread :=
  Thread i 0 KPROC THREAD_READY THREAD_RING_0 prio (new_context function 0 NULL stack THREAD_RING_0)
    stack TSTACK_SIZE 0 0 0 0 NULL NULL.

(** The state after [init_tasks]; [stack] is the idle thread's. *)
Definition booted {A} (idle stack : Z) (h : A) : sched A :=
  SchedState {[ KTHREAD := kernel_thread; ITHREAD := fresh_thread 1 THREAD_PRIO_LOW idle stack ]}
    {[ KPROC := kernel_process ]}
    {[ ThreadMutex := mutex_zero; ProcTableLock := mutex_zero; ProcLock KPROC := mutex_zero ]}
    (Spinlock false false) ITHREAD ITHREAD 0 KTHREAD
    (KTHREAD :: ITHREAD :: replicate 254 NULL) 2 2
    (KPROC :: replicate 1023 NULL) 0 0 context_zero false h.

(** The objects of the first process, each in a mapping of its own. *)
Definition PROC1 : Z := HEAP_START + 20480 + HEADER.
Definition THREAD1 : Z := PROC1 + 4096.
Definition STACK1 : Z := THREAD1 + 4096.

(** The state after the first [process_create]. *)
Definition with_process {A} (idle task : Z) (h : A) : sched A :=
  SchedState {[ KTHREAD := kernel_thread; ITHREAD := t_set_next THREAD1 (fresh_thread 1 THREAD_PRIO_LOW idle KPROC);
                THREAD1 := fresh_thread 2 THREAD_PRIO_NORMAL task STACK1 ]}
    {[ KPROC := kernel_process;
       PROC1 := Process 0 0 PROC_READY 18 0 THREAD1 NULL NULL NULL (replicate 256 0) 0
                  (replicate MAX_FD (Fd NULL 0 0 0)) 0 ]}
    {[ ThreadMutex := mutex_zero; ProcTableLock := mutex_zero; ProcLock KPROC := mutex_zero;
       ProcLock PROC1 := mutex_zero ]}
    (Spinlock false false) ITHREAD THREAD1 0 KTHREAD
    (KTHREAD :: ITHREAD :: THREAD1 :: replicate 253 NULL) 3 3
    (KPROC :: replicate 1023 NULL) 1 0 context_zero false h.

(** One step of a function whose state is known, and an allocation. *)
Ltac known :=
  erewrite kbind_ret; [|lazymatch goal with |- on_kmem _ _ = _ => fail | _ => vm_compute; reflexivity end].
Ltac alloc H :=
  erewrite kbind_ret; [|unfold on_kmem; apply klift_ret; vm_compute; exact H];
  match type of H with
  | _ = Ret ?p _ => try (change (p =? NULL) with false; cbv iota)
  end.

Section tasks.
Context {A : Type} `{!Kmem A} `{!Console A} (f : nat) (idle : Z) (Hidle : idle <> NULL).
Context (h0 h1 h2 h3 h4 : A).
Context (H1 : km_malloc SIZEOF_PROCESS (put_event (Print "Processes...") h0) = Ret KPROC h1).
Context (H2 : km_malloc SIZEOF_THREAD
                (put_event (Print "Threading...") (put_events ok_events h1)) = Ret KTHREAD h2).
Context (H3 : km_malloc SIZEOF_THREAD h2 = Ret ITHREAD h3).
Context (H4 : km_malloc TSTACK_SIZE h3 = Ret KPROC h4).

Lemma init_processes_run :
  init_processes (Datatypes.S f) (zero_sched h0)
  = Ret tt (SchedState ∅ {[ KPROC := p_set_main_thread NULL kernel_process ]}
      {[ ProcTableLock := mutex_zero; ProcLock KPROC := mutex_zero ]}
      (Spinlock false false) NULL NULL 0 NULL (replicate MAX_THREADS NULL) 0 0
      (KPROC :: replicate 1023 NULL) 0 0 context_zero false (put_events ok_events h1)).
Proof. unfold init_processes. repeat known. alloc H1. repeat known. vm_compute. reflexivity. Qed.

Lemma idle_create_run s :
  s = SchedState {[ KTHREAD := kernel_thread ]} {[ KPROC := kernel_process ]}
        {[ ThreadMutex := mutex_zero; ProcTableLock := mutex_zero; ProcLock KPROC := mutex_zero ]}
        (Spinlock false false) NULL NULL 0 KTHREAD (KTHREAD :: replicate 255 NULL) 1 1
        (KPROC :: replicate 1023 NULL) 0 0 context_zero false h2 ->
  thread_create (Datatypes.S f) idle 0 NULL THREAD_RING_0 THREAD_PRIO_LOW 0 s
  = Ret ITHREAD (booted idle KPROC h4).
Proof.
  intros ->. unfold thread_create. rewrite (proj2 (Z.eqb_neq _ _) Hidle).
  repeat known. change (Z.of_nat MAX_THREADS <=? _) with false. cbv iota.
  alloc H3. repeat known.
  erewrite kbind_ret.
  2:{ unfold new_stacks. alloc H4. vm_compute. reflexivity. }
  cbv iota beta. repeat known. vm_compute. reflexivity.
Qed.

Lemma init_tasks_run :
  (init_processes (Datatypes.S f);; init_threading (Datatypes.S f) idle) (zero_sched h0)
  = Ret tt (booted idle KPROC (put_events ok_events h4)).
Proof.
  rewrite (kbind_ret _ _ _ _ _ init_processes_run).
  unfold init_threading. repeat known. alloc H2. do 7 known.
  erewrite kbind_ret by (apply idle_create_run; vm_compute; reflexivity).
  reflexivity.
Qed.

Context (h5 h6 h7 : A) (task : Z) (Htask : task <> NULL).
Context (H5 : km_malloc SIZEOF_PROCESS (put_events ok_events h4) = Ret PROC1 h5).
Context (H6 : km_malloc SIZEOF_THREAD h5 = Ret THREAD1 h6).
Context (H7 : km_malloc TSTACK_SIZE h6 = Ret STACK1 h7).

Lemma first_process_run :
  process_create (Datatypes.S f) task 0 NULL 0 false (booted idle KPROC (put_events ok_events h4))
  = Ret PROC1 (with_process idle task h7).
Proof.
  unfold process_create. do 2 known. change (find_free_slot _) with (Some 1%nat). cbv iota.
  alloc H5. repeat known. rewrite (proj2 (Z.eqb_neq _ _) Htask).
  erewrite kbind_ret.
  2:{ unfold thread_create. rewrite (proj2 (Z.eqb_neq _ _) Htask).
      repeat known. change (Z.of_nat MAX_THREADS <=? _) with false. cbv iota.
      alloc H6. repeat known.
      erewrite kbind_ret; [|unfold new_stacks; alloc H7; vm_compute; reflexivity].
      cbv iota beta. repeat known. vm_compute. reflexivity. }
  vm_compute. reflexivity.
Qed.
End tasks.

(** ** The heap's answers *)

(** A well-formed heap with its cursor and a bound on the pages to be had. *)
Definition heap_at (h : heap machine) (bs : list (Z * bool)) (e cur : Z) (n : nat) : Prop :=
  heap_wf h bs e /\ heap_current h = cur /\ (n <= pg_budget (inner h))%nat.

(** Messages leave the heap alone. *)
Lemma heap_at_events es h bs e cur n : heap_at h bs e cur n -> heap_at (put_events es h) bs e cur n.
Proof.
  intros ([] & Hc & Hn).
  assert (E : put_events es h = set_inner (put_events es (inner h)) h).
  { rewrite <- heap_put_events. by destruct h. }
  destruct (put_events_mem es (inner h)) as (Hr & Hv & Hi & Hb). rewrite E.
  split; [split|exact (conj Hc (eq_ind_r (fun k => (n <= k)%nat) Hn Hb))]; try done.
  - apply (blocks_at_ext h); [|done]. intros x _. apply Hr.
  - intros i Hin. by apply Hv, hw_valid.
  - by apply Hi.
Qed.

Lemma fit_answer fuel size h bs e cur n p bs' :
  heap_at h bs e cur n -> 0 < size -> size + 15 < 2 ^ 64 -> (length bs <= fuel)%nat ->
  alloc_blocks HEAP_START (round16 size) bs = Some (p, bs') ->
  exists h', kmalloc fuel size h = Ret p h' /\ heap_at h' bs' e cur n.
Proof.
  intros (W & C & B) Hs Hs' Hf Ea.
  destruct (kmalloc_fit_run h bs e fuel size p bs' W Hs Hs' Hf Ea) as (h' & E & W' & C' & _ & B').
  exists h'. split; [exact E|]. split_and!; [done|by rewrite C'|by rewrite B'].
Qed.

Lemma grow_answer fuel size h bs e n k :
  heap_at h bs e e n -> 0 < size -> size + 15 < 2 ^ 64 -> (length bs <= fuel)%nat ->
  alloc_blocks HEAP_START (round16 size) bs = None ->
  grow_size (round16 size) = Z.of_nat k * 4096 -> (k <= n)%nat -> e + Z.of_nat k * 4096 <= HEAP_END ->
  exists h', kmalloc fuel size h = Ret (e + HEADER) h' /\
    heap_at h' (bs ++ [(Z.of_nat k * 4096 - HEADER, false)]) (e + Z.of_nat k * 4096)
      (e + Z.of_nat k * 4096) (n - k).
Proof.
  intros (W & C & B) Hs Hs' Hf Ea Hg Hk He.
  assert (Hk4 : Z.to_nat (grow_size (round16 size) / 4096) = k) by (rewrite Hg, Z.div_mul by lia; lia).
  destruct (kmalloc_grow_run h bs e fuel size W C Hs Hs' Hf Ea) as (h' & E & W' & C' & _ & B');
    [by rewrite Hk4; lia|by rewrite Hg|]. rewrite Hg in W', C'. rewrite Hk4 in B'.
  exists h'. split; [exact E|]. split_and!; [done|done|lia].
Qed.

Lemma regrow_answer fuel size h bs e n k :
  heap_at h bs e HEAP_START n -> 0 < size -> size + 15 < 2 ^ 64 -> (length bs <= fuel)%nat ->
  alloc_blocks HEAP_START (round16 size) bs = None ->
  grow_size (round16 size) = Z.of_nat k * 4096 -> (k <= n)%nat -> Z.of_nat k * 4096 <= 2 ^ 38 ->
  HEAP_START + HEADER <= last_addr HEAP_START bs ->
  last_addr HEAP_START bs + HEADER <= HEAP_START + Z.of_nat k * 4096 ->
  exists h', kmalloc fuel size h = Ret (HEAP_START + HEADER) h' /\
    heap_at h' [(Z.of_nat k * 4096 - HEADER, false)] (HEAP_START + Z.of_nat k * 4096)
      (HEAP_START + Z.of_nat k * 4096) (n - k).
Proof.
  intros (W & C & B) Hs Hs' Hf Ea Hg Hk He Hl Hl'.
  assert (Hk4 : Z.to_nat (grow_size (round16 size) / 4096) = k) by (rewrite Hg, Z.div_mul by lia; lia).
  destruct (kmalloc_regrow_wf h bs e fuel size W C Hs Hs' Hf Ea) as (h' & E & W' & C' & B');
    [by rewrite Hk4; lia|by rewrite Hg; unfold HEAP_END; lia|done|by rewrite Hg|].
  rewrite Hg in W', C'. rewrite Hk4 in B'.
  exists h'. split; [exact E|]. split_and!; [done|done|lia].
Qed.

Section boot_heap.
Context (f : nat) (h0 : heap machine).
Let fuel := (8 + f)%nat.
#[local] Instance boot_Kmem : Kmem (heap machine) := heap_Kmem fuel.
Context (Hfresh : heap_at h0 [(4072, true)] (HEAP_START + 4096) HEAP_START 12).

Lemma boot_answers :
  exists h1 h2 h3 h4,
    km_malloc SIZEOF_PROCESS (put_event (Print "Processes...") h0) = Ret KPROC h1 /\
    km_malloc SIZEOF_THREAD (put_event (Print "Threading...") (put_events ok_events h1)) = Ret KTHREAD h2 /\
    km_malloc SIZEOF_THREAD h2 = Ret ITHREAD h3 /\
    km_malloc TSTACK_SIZE h3 = Ret KPROC h4 /\
    heap_at h4 [(20456, false)] (HEAP_START + 20480) (HEAP_START + 20480) 7.
Proof.
  destruct (fit_answer fuel SIZEOF_PROCESS (put_event (Print "Processes...") h0) _ _ _ _ KPROC
              [(1440, false); (2608, true)] (heap_at_events [_] _ _ _ _ _ Hfresh))
    as (h1 & E1 & W1); [done|done|cbn; lia|done|].
  destruct (fit_answer fuel SIZEOF_THREAD (put_event (Print "Threading...") (put_events ok_events h1))
              _ _ _ _ KTHREAD [(1440, false); (272, false); (2312, true)]
              (heap_at_events [_] _ _ _ _ _ (heap_at_events _ _ _ _ _ _ W1)))
    as (h2 & E2 & W2); [done|done|cbn; lia|done|].
  destruct (fit_answer fuel SIZEOF_THREAD h2 _ _ _ _ ITHREAD
              [(1440, false); (272, false); (272, false); (2016, true)] W2)
    as (h3 & E3 & W3); [done|done|cbn; lia|done|].
  destruct (regrow_answer fuel TSTACK_SIZE h3 _ _ _ 5 W3) as (h4 & E4 & W4);
    [done|done|cbn; lia|done|done|lia|lia|vm_compute; congruence|vm_compute; congruence|].
  by exists h1, h2, h3, h4.
Qed.

Lemma process_answers h :
  heap_at h [(20456, false)] (HEAP_START + 20480) (HEAP_START + 20480) 7 ->
  exists h5 h6 h7,
    km_malloc SIZEOF_PROCESS (put_events ok_events h) = Ret PROC1 h5 /\
    km_malloc SIZEOF_THREAD h5 = Ret THREAD1 h6 /\
    km_malloc TSTACK_SIZE h6 = Ret STACK1 h7.
Proof.
  intros W. destruct (grow_answer fuel SIZEOF_PROCESS _ _ _ _ 1 (heap_at_events ok_events _ _ _ _ _ W))
    as (h5 & E5 & W5); [done|done|cbn; lia|done|done|lia|vm_compute; congruence|].
  destruct (grow_answer fuel SIZEOF_THREAD h5 _ _ _ 1 W5) as (h6 & E6 & W6);
    [done|done|cbn; lia|done|done|lia|vm_compute; congruence|].
  destruct (grow_answer fuel TSTACK_SIZE h6 _ _ _ 5 W6) as (h7 & E7 & W7);
    [done|done|cbn; lia|done|done|lia|vm_compute; congruence|].
  exists h5, h6, h7. split_and!; [exact E5|exact E6|exact E7].
Qed.
End boot_heap.

(** [init_tasks] and [process_create] after [init_kheap] and any messages. *)
Lemma boot_run b f h es :
  b_fuel b = (8 + f)%nat -> a_idle_task b <> NULL ->
  pg_inv (inner h) -> (13 <= pg_budget (inner h))%nat ->
  exists v h0 h4, init_kheap h = Ret v h0 /\
    init_tasks b (zero_sched (put_events es h0)) = Ret tt (booted (a_idle_task b) KPROC (put_events ok_events h4)) /\
    forall task, task <> NULL -> exists h7,
      process_create (Kmem0 := kernel_Kmem b) (b_fuel b) task 0 NULL 0 false
        (booted (a_idle_task b) KPROC (put_events ok_events h4))
      = Ret PROC1 (with_process (a_idle_task b) task h7).
Proof.
  intros Hf Hidle Hinv Hb.
  destruct (init_kheap_run h Hinv ltac:(lia)) as (h0 & E0 & W0 & C0 & B0).
  assert (A0 : heap_at h0 [(4072, true)] (HEAP_START + 4096) HEAP_START 12) by (split_and!; [done|done|lia]).
  destruct (boot_answers f (put_events es h0) (heap_at_events es _ _ _ _ _ A0))
    as (h1 & h2 & h3 & h4 & E1 & E2 & E3 & E4 & W4).
  destruct (process_answers f h4 W4) as (h5 & h6 & h7 & E5 & E6 & E7).
  exists (4096 - HEADER), h0, h4. split; [exact E0|].
  unfold init_tasks, kernel_Kmem. rewrite Hf. split.
  - exact (init_tasks_run (7 + f) _ Hidle _ h1 h2 h3 h4 E1 E2 E3 E4).
  - intros task Htask. exists h7.
    exact (first_process_run (7 + f) _ h4 h5 h6 h7 task Htask E5 E6 E7).
Qed.

(** ** Properties *)

(** On a heap fresh from [init_kheap] the boot creates the kernel's process
    and the idle thread, and the idle thread's stack starts at the address of
    the process: the stack's allocation is the first to grow the heap and is
    answered the page that holds the live process. *)
Theorem idle_stack_overlays_kernel_process b f h es
    (Hf : b_fuel b = (8 + f)%nat) (Hidle : a_idle_task b <> NULL)
    (Hinv : pg_inv (inner h)) (Hb : (13 <= pg_budget (inner h))%nat) :
  exists v h0 s' p pr it, init_kheap h = Ret v h0 /\
    init_tasks b (zero_sched (put_events es h0)) = Ret tt s' /\
    head (process_table s') = Some p /\ procs s' !! p = Some pr /\ pid pr = 0 /\
    threads s' !! ready_head s' = Some it /\ rip (context it) = a_idle_task b /\
    proc it = p /\ stack_base it = p.
Proof.
  destruct (boot_run b f h es Hf Hidle Hinv Hb) as (v & h0 & h4 & E0 & E1 & _).
  exists v, h0, (booted (a_idle_task b) KPROC (put_events ok_events h4)), KPROC, kernel_process,
    (fresh_thread 1 THREAD_PRIO_LOW (a_idle_task b) KPROC).
  split; [exact E0|]. split; [exact E1|]. by vm_compute.
Qed.

(** The first process made after the boot gets the process id of the kernel,
    is in no slot of the process table, and its main thread belongs to the
    kernel's process. *)
Theorem first_process_takes_pid_of_kernel b f h es task
    (Hf : b_fuel b = (8 + f)%nat) (Hidle : a_idle_task b <> NULL)
    (Hinv : pg_inv (inner h)) (Hb : (13 <= pg_budget (inner h))%nat) (Htask : task <> NULL) :
  exists v h0 s1 p s2 pr th kp, init_kheap h = Ret v h0 /\
    init_tasks b (zero_sched (put_events es h0)) = Ret tt s1 /\
    process_create (Kmem0 := kernel_Kmem b) (b_fuel b) task 0 NULL 0 false s1 = Ret p s2 /\
    procs s2 !! p = Some pr /\ pid pr = 0 /\ p ∉ process_table s2 /\
    threads s2 !! main_thread pr = Some th /\ rip (context th) = task /\
    head (process_table s2) = Some (proc th) /\ procs s2 !! proc th = Some kp /\ pid kp = 0.
Proof.
  destruct (boot_run b f h es Hf Hidle Hinv Hb) as (v & h0 & h4 & E0 & E1 & E2).
  destruct (E2 task Htask) as (h7 & E7).
  eexists v, h0, _, PROC1, (with_process (a_idle_task b) task h7), _,
    (fresh_thread 2 THREAD_PRIO_NORMAL task STACK1), kernel_process.
  split; [exact E0|]. split; [exact E1|]. split; [exact E7|]. clear.
  split; [vm_compute; reflexivity|]. split; [reflexivity|]. split; [|by vm_compute].
  cbn [process_table with_process]. intros [H|[H _]%elem_of_replicate]%elem_of_cons; vm_compute in H; discriminate.
Qed.

(** ** Witnesses *)

Definition demo_params : boot_params :=
  BootParams 9 (replicate 32 0) 0x1000 0x2000 0x3000 (fun i => 0x4000 + 16 * Z.of_nat i)
    (fun i => 0x5000 + 16 * Z.of_nat i) 0x6000 0x7000 0x8000 0x9000 0xA000.

Lemma demo_heap0_pages : (13 <= pg_budget (inner demo_heap0))%nat.
Proof. change (pg_budget (inner demo_heap0)) with 15%nat. lia. Qed.

Lemma idle_stack_overlays_kernel_process_witness :
  exists v h0 s' p it, init_kheap demo_heap0 = Ret v h0 /\
    init_tasks demo_params (zero_sched h0) = Ret tt s' /\
    head (process_table s') = Some p /\ threads s' !! ready_head s' = Some it /\ stack_base it = p.
Proof.
  destruct (idle_stack_overlays_kernel_process demo_params 1 demo_heap0 [] eq_refl ltac:(discriminate)
              demo_heap0_inv demo_heap0_pages) as (v & h0 & s' & p & pr & it & E0 & E1 & Hp & _ & _ & Ht & _ & _ & Hs).
  change (put_events [] h0) with h0 in E1.
  exists v, h0, s', p, it. exact (conj E0 (conj E1 (conj Hp (conj Ht Hs)))).
Defined.

Lemma first_process_takes_pid_of_kernel_witness :
  exists v h0 s1 p s2, init_kheap demo_heap0 = Ret v h0 /\
    init_tasks demo_params (zero_sched h0) = Ret tt s1 /\
    process_create (Kmem0 := kernel_Kmem demo_params) 9 0x9000 0 NULL 0 false s1 = Ret p s2 /\
    p ∉ process_table s2.
Proof.
  destruct (first_process_takes_pid_of_kernel demo_params 1 demo_heap0 [] 0x9000 eq_refl
              ltac:(discriminate) demo_heap0_inv demo_heap0_pages ltac:(discriminate))
    as (v & h0 & s1 & p & s2 & pr & th & kp & E0 & E1 & E2 & _ & _ & Hp & _).
  change (put_events [] h0) with h0 in E1.
  exists v, h0, s1, p, s2. exact (conj E0 (conj E1 (conj E2 Hp))).
Defined.
