(* ===== verification/BootMemory.v ===== *)
(** * The memory managers brought up together (main.c, init_memory)

    [init_memory] composes mmu.c, pmm.c, vmm.c and kheap.c the way [kmain] does.
    From what the loader hands over, the invariant holds on which the theorems
    about the heap and the slab allocator rest. *)

From S2P Require Import Prelude Bytes MemLib Console Machine Pmm Vmm Pages VmmInit Kheap Spinlock.
From S2P Require Import Kmem SchedState Timer Ports Vterm Printf HashTable Vnode Descriptors Boot BootTasks.
Local Open Scope Z_scope.

(** What the loader hands over: the direct map at its usual place, the memory
    map with [r] its longest usable region, its page tables [T] outside that
    region and without large pages, nothing in the window of the heap, and
    memory for the tables and [4 * n] frames more. *)
Record handed_over (l : limine) (m : machine) (entries : list memmap_entry) (r : memmap_entry)
    (T : gmap Z (list Z)) (n : nat) : Prop := {
  ho_hhdm : hhdm_request l = Some (2 ^ 64 - 2 ^ 47);
  ho_memmap : memmap_request l = Some entries;
  ho_regions : low_regions entries;
  ho_main : memmap_find_biggest_region entries = Some r;
  ho_base : 0 < me_base r;
  ho_root : T !! Z.land (cr3 m) PAGE_MASK = Some [];
  ho_frames : forall t p, T !! t = Some p -> 0 <= t < 2 ^ 52 /\ t mod 4096 = 0;
  ho_child : forall t p i, T !! t = Some p -> (length p < 3)%nat -> 0 <= i < 512 ->
    Vmm.present (entry (phys m) t i) = true ->
    Z.land (entry (phys m) t i) VMM_HUGE = 0 /\
    T !! Z.land (entry (phys m) t i) PAGE_MASK = Some (p ++ [i]);
  ho_outside : forall t p, T !! t = Some p -> ~ (me_base r <= t < me_base r + me_length r);
  ho_window : forall va, heap_va va ->
    pt_lookup (phys m) (Z.land (cr3 m) PAGE_MASK) (pt_path va) = None;
  ho_bitmap : me_base r + (me_length r / PAGE_SIZE + 7) / 8 <= HEAP_START - (2 ^ 64 - 2 ^ 47);
  ho_enough : (S (size (tables_of (identity_list entries ++ bitmap_list (2 ^ 64 - 2 ^ 47) (region_pmm r))))
                 + 4 * n <= size (free_frames (region_pmm r)))%nat;
}.

(** The machine when [init_vmm] starts. *)
Definition before_vmm (entries : list memmap_entry) (r : memmap_entry) (m : machine) : machine :=
  put_events ok_events (set_pmm (region_pmm r) (put_event (Print "PMM...")
    (put_events ok_events (set_memmap (Some entries) (put_event (Print "MMU...")
      (set_hhdm (2 ^ 64 - 2 ^ 47) m)))))).

Section memory.
Context (l : limine) (m : machine) (entries : list memmap_entry) (r : memmap_entry).
Context (T : gmap Z (list Z)) (n : nat) (H : handed_over l m entries r T n).

Lemma region_usable : r ∈ entries /\ me_type r = LIMINE_MEMMAP_USABLE.
Proof.
  pose proof (biggest_region_spec entries) as Hb. rewrite (ho_main _ _ _ _ _ _ H) in Hb.
  split; apply Hb.
Qed.

Lemma region_bounds : 0 < me_base r /\ me_base r mod 4096 = 0 /\ 0 <= me_length r /\
  me_length r mod 4096 = 0 /\ me_base r + me_length r <= 2 ^ 47.
Proof.
  destruct region_usable as [He Hu]. pose proof (ho_regions _ _ _ _ _ _ H r He Hu).
  pose proof (ho_base _ _ _ _ _ _ H). lia.
Qed.

Lemma region_is_ok : region_ok r.
Proof.
  destruct region_bounds as (? & ? & ? & ? & ?). split; unfold PAGE_SIZE; [lia|lia|].
  change (2 ^ 52) with 4503599627370496. change (2 ^ 47) with 140737488355328 in *. lia.
Qed.

Lemma region_pmm_wf : pmm_wf (region_pmm r).
Proof. apply (region_pmm_spec r region_is_ok). Qed.

Lemma before_vmm_tables : loader_tables (before_vmm entries r m) T.
Proof.
  destruct H. split; [|exact region_pmm_wf|exact ho_base0]. split.
  - exact ho_root0.
  - exact ho_frames0.
  - exact ho_child0.
  - intros t p Ht j Ej Hj. apply (region_pmm_spec r region_is_ok) in Hj. apply (ho_outside0 t p Ht).
    change (managed_base (pmm (set_pml4 _ _))) with (me_base r) in Ej.
    destruct region_bounds as (? & ? & ? & ? & ?). unfold PAGE_SIZE in *. zdiv.
Qed.

Lemma region_total : 0 < total_pages (region_pmm r).
Proof.
  destruct (decide (0 < total_pages (region_pmm r))) as [|Hn]; [done|exfalso].
  assert (E : free_frames (region_pmm r) = ∅).
  { apply set_eq. intros i. rewrite elem_of_free_frames. split; [|set_solver]. intros [? _]. lia. }
  pose proof (ho_enough _ _ _ _ _ _ H) as He. rewrite E, size_empty in He. lia.
Qed.

Lemma before_vmm_hhdm : hhdm_ok (before_vmm entries r m).
Proof.
  destruct region_bounds as (? & ? & ? & ? & Hend). pose proof region_total as Ht.
  split; change (g_hhdm_offset (before_vmm entries r m)) with (2 ^ 64 - 2 ^ 47);
    change (pmm (before_vmm entries r m)) with (region_pmm r); [lia|reflexivity|exact Ht|].
  change (managed_base (region_pmm r)) with (me_base r).
  change (total_pages (region_pmm r)) with (me_length r / PAGE_SIZE). unfold PAGE_SIZE.
  change (2 ^ 64 - 2 ^ 47) with 18446603336221196288. change (2 ^ 64) with 18446744073709551616.
  change (2 ^ 47) with 140737488355328 in Hend. zdiv.
Qed.

Lemma before_vmm_window : window_free (before_vmm entries r m).
Proof.
  destruct region_bounds as (? & ? & ? & ? & Hend). split.
  - reflexivity.
  - change (managed_base (pmm (before_vmm entries r m))) with (me_base r).
    change (total_pages (pmm (before_vmm entries r m))) with (me_length r / PAGE_SIZE). unfold PAGE_SIZE.
    change (2 ^ 47) with 140737488355328 in *. zdiv.
  - exact (ho_window _ _ _ _ _ _ H).
  - exact (ho_bitmap _ _ _ _ _ _ H).
Qed.

(** The three managers of frames and page tables. *)
Lemma managers_run : exists m', 
  (init_mmu (memmap_request l);; init_pmm;; init_vmm) (set_hhdm (2 ^ 64 - 2 ^ 47) m) = Ret tt m' /\
  pg_inv m' /\ (n <= pg_budget m')%nat.
Proof.
  set (m1 := set_hhdm _ m).
  set (m2 := put_events ok_events (set_memmap (Some entries) (put_event (Print "MMU...") m1))).
  destruct (init_vmm_run (before_vmm entries r m) T entries (4 * n) before_vmm_tables eq_refl before_vmm_hhdm
              (ho_enough _ _ _ _ _ _ H)) as (m' & T' & E & K & Hs).
  exists m'. split; [|split].
  - rewrite (kbind_ret _ _ m1 tt m2).
    + rewrite (kbind_ret _ _ m2 tt (before_vmm entries r m)); [exact E|].
      exact (init_pmm_run m2 entries r eq_refl (ho_main _ _ _ _ _ _ H)).
    + by rewrite (ho_memmap _ _ _ _ _ _ H).
  - exact (kernel_space_inv _ T entries m' T' before_vmm_tables before_vmm_hhdm (ho_regions _ _ _ _ _ _ H)
             before_vmm_window K).
  - change (pg_budget m') with (size_free m' / 4)%nat. apply Nat.div_le_lower_bound; lia.
Qed.
End memory.

Section kernel_memory.
Context {D : Type} `{!PortIO D}.
Implicit Types s : kernel_state D.

Lemma set_heap_heap v w s : set_heap v (set_heap w s) = set_heap v s.
Proof. by destruct s as [? ? ? ? [] ? ? ? ?]. Qed.

Lemma set_machine_machine v w s : set_machine v (set_machine w s) = set_machine v s.
Proof. by destruct s as [? ? ? ? [] ? ? ? ?]. Qed.

End kernel_memory.

(** ** Witness *)

(** The kernel at the entry of [init_memory] on the demonstration machine: 256
    KiB of memory at 1 MiB; the loader's root table, which maps nothing, lies in
    memory it keeps for itself. *)
Definition demo_limine : limine :=
  Limine [0; 0; 0] (Some [Framebuffer 0xFD000000 640 480 2560]) (Some (2 ^ 64 - 2 ^ 47))
    (Some demo_memmap) (Some 1).

#[local] Instance no_ports : PortIO unit := { port_in _ _ s := (0, s); port_out _ _ _ s := s }.

Definition demo_machine : machine := Machine None 0 (Pmm [] 0 0 0) ∅ 0 0x8000 [] [].

Lemma demo_handed_over : handed_over demo_limine demo_machine demo_memmap
  {| me_base := 0x100000; me_length := 0x40000; me_type := 0 |} {[ 0x8000 := [] ]} 13.
Proof.
  assert (Hkey : forall t p, ({[ 0x8000 := [] ]} : gmap Z (list Z)) !! t = Some p -> t = 0x8000 /\ p = [])
    by (intros t p Ht; apply lookup_singleton_Some in Ht as [<- <-]; auto).
  assert (Hz : forall t i, entry ∅ t i = 0) by (intros; apply load_zero; intros; reflexivity).
  split; [reflexivity|reflexivity| |reflexivity|reflexivity|reflexivity| | | | | |].
  - exact demo_low_regions.
  - intros t p [-> ->]%Hkey. split; [lia|reflexivity].
  - intros t p i _ _ _ Hp. change (phys demo_machine) with (∅ : mem) in Hp. by rewrite Hz in Hp.
  - intros t p [-> ->]%Hkey. cbn. lia.
  - intros va _. change (pt_path va) with (PML4_INDEX va :: tail (pt_path va)). rewrite pt_lookup_cons.
    change (phys demo_machine) with (∅ : mem). by rewrite Hz.
  - vm_compute. congruence.
  - vm_compute. lia.
Qed.

Definition demo_kernel : kernel_state unit :=
  Kernel demo_limine None (Vterm 0 0 0 0 0 0 0 0 ∅) (PState (Spinlock false false) false ∅ [] [] 0)
    (zero_sched (Heap 0 0 demo_machine))
    (VState ∅ ∅ (HState ∅ ∅ ∅ 0 (Heap 0 0 demo_machine)) (Spinlock false false) (Spinlock false false)
       (Spinlock false false) 0 0 false)
    demo_descr (Clock (SystemTime 0 0 0 0 0) 0) tt.

