(* ===== verification/Syscalls.v ===== *)
(** * A system call from end to end (syscall.c, syscall.asm)

    The wrapper a program calls, the gate [init_syscalls] sets up, the entry
    stub and [syscall_handler] together.  No system call is implemented, so the
    whole path answers -1. *)

From S2P Require Import Prelude Console SchedState Descriptors Stubs SyscallAsm.
Local Open Scope Z_scope.

(** What [syscall_handler] answers in the state [d]. *)
Definition answer (call : Z -> list Z -> K descr Z) (d : descr) (n a1 a2 a3 a4 a5 a6 : Z) : Z :=
  match syscall_handler call n [a1; a2; a3; a4; a5; a6] d with
  | Ret r _ => r
  | Stop _ _ => 0
  end.

(** The seventh argument of [syscall] is the first on its caller's stack; the
    result is what an [int64_t] of -1 is in RAX. *)
Theorem every_syscall_refused entry d call rsp0 ra h s
    (Ht : length (syscall_table d) = Z.to_nat MAX_SYS_CALLS) (Hi : (128 < length (idt_entries d))%nat)
    (He : 0 <= entry < 2 ^ 64)
    (Hsp : 0 <= regs s RSP < 2 ^ 64 - 16) (Htop : 1024 <= gate_top rsp0 s < 2 ^ 64 - 256) :
  exists d', init_syscalls entry d = Ret tt d' /\
    (exists g, idt_entries d' !! 0x80%nat = Some g /\ gate_present g = true /\ gate_dpl g = 3 /\ gate_offset g = entry) /\
    (c_syscall ra h (answer call d') ->
     exists s', syscall rsp0 (syscall_entry ra h) s = Ret tt s' /\ regs s' RAX = 2 ^ 64 - 1 /\
       stepped inline_touched s s').
Proof.
  destruct (syscalls_all_refused entry d Ht Hi He) as (d' & R & Ha & Hg).
  exists d'. split; [exact R|]. split; [exact Hg|]. intros Hh.
  destruct (syscall_run rsp0 ra h _ s Hh Hsp Htop) as (s' & R' & A & S).
  exists s'. split; [exact R'|]. split; [|exact S]. rewrite A. unfold answer. by rewrite Ha.
Qed.

(** A handler in machine code that answers -1 to everything. *)
Lemma refusing_handler ra f : (forall n a b c d e g, f n a b c d e g = 2 ^ 64 - 1) -> c_syscall ra (put RAX (2 ^ 64 - 1)) f.
Proof.
  intros Hf s sp Hsp _ _ _. eexists. split; [apply put_run|]. rewrite set_reg_eq, Hf, set_reg_ne by done. done.
Qed.

Lemma every_syscall_refused_witness :
  exists d' s', init_syscalls 0x9000 demo_descr = Ret tt d' /\
    syscall (Some 0x20000) (syscall_entry 0x4000 (put RAX (2 ^ 64 - 1))) caller = Ret tt s' /\
    regs s' RAX = 2 ^ 64 - 1 /\ regs s' RBX = 1.
Proof.
  destruct (every_syscall_refused 0x9000 demo_descr (fun _ _ => mret 5) (Some 0x20000) 0x4000 (put RAX (2 ^ 64 - 1)) caller)
    as (d' & R & _ & H).
  - apply length_replicate.
  - cbn. lia.
  - lia.
  - cbn. lia.
  - vm_compute. split; congruence.
  - assert (Hd : syscall_table d' = replicate 420 (SyscallEntry NULL EmptyString 0)).
    { vm_compute in R. injection R as <-. reflexivity. }
    destruct H as (s' & R' & A & S).
    { apply refusing_handler. intros n a b c e g i. unfold answer, syscall_handler.
      rewrite (kbind_ret _ _ d' (replicate 420 (SyscallEntry NULL EmptyString 0)) d') by (unfold kasks; by rewrite Hd).
      destruct (Z.leb_spec MAX_SYS_CALLS n); [done|].
      rewrite (kbind_ret _ _ d' (SyscallEntry NULL EmptyString 0) d') by
        (rewrite lookup_replicate_2; [done|unfold MAX_SYS_CALLS in *; lia]).
      done. }
    exists d', s'. split; [exact R|]. split; [exact R'|]. split; [exact A|].
    apply (st_regs _ _ _ S). reg_set.
Defined.
