(* ===== verification/Layout.v ===== *)
(** * How the structures lie in memory (the headers under include/)

    The layout rules of the System V ABI for the structures the headers
    declare: what [sizeof] and [offsetof] answer.  The theorems say that the
    rules give disjoint, aligned fields, and that the numbers the other files
    and the assembly use are the ones of these declarations: the 22 words of
    [context_t], the objects asked of the allocators, the fields of heap blocks
    and slabs, the tables the processor reads. *)

From Stdlib Require Import Sorted.
From S2P Require Import Prelude SchedState Kheap Slab HashTable Vnode Vfs Threads Descriptors Stubs.
Local Open Scope string_scope.
Local Open Scope Z_scope.

(** ** C types

    A scalar of [n] bytes is aligned to [n]; a packed structure has no gaps and
    no alignment. *)
Inductive cty :=
  | Scalar (n : Z)
  | Array (n : Z) (t : cty)
  | Union (fields : list (string * cty))
  | Struct (packed : bool) (fields : list (string * cty)).

Definition round_up (x a : Z) : Z := (x + a - 1) / a * a.

Fixpoint align_of (t : cty) : Z :=
  match t with
  | Scalar n => n
  | Array _ t => align_of t
  | Union fs => foldr Z.max 1 (map (fun f => align_of f.2) fs)
  | Struct packed fs => if packed then 1 else foldr Z.max 1 (map (fun f => align_of f.2) fs)
  end.

(** The end of the fields [(size, alignment)] placed from [off] on. *)
Fixpoint end_of (off : Z) (fs : list (Z * Z)) : Z :=
  match fs with
  | [] => off
  | (s, a) :: fs => end_of (round_up off a + s) fs
  end.

Fixpoint size_of (t : cty) : Z :=
  match t with
  | Scalar n => n
  | Array n t => n * size_of t
  | Union fs =>
      round_up (foldr Z.max 0 (map (fun f => size_of f.2) fs)) (foldr Z.max 1 (map (fun f => align_of f.2) fs))
  | Struct packed fs =>
      if packed then end_of 0 (map (fun f => (size_of f.2, 1)) fs)
      else round_up (end_of 0 (map (fun f => (size_of f.2, align_of f.2)) fs))
             (foldr Z.max 1 (map (fun f => align_of f.2) fs))
  end.

(** The offset and the type of each field. *)
Fixpoint fields_from (packed : bool) (off : Z) (fs : list (string * cty)) : list (string * (Z * cty)) :=
  match fs with
  | [] => []
  | (x, t) :: fs =>
      let o := if packed then off else round_up off (align_of t) in
      (x, (o, t)) :: fields_from packed (o + size_of t) fs
  end.

Definition fields_of (t : cty) : list (string * (Z * cty)) :=
  match t with
  | Struct packed fs => fields_from packed 0 fs
  | Union fs => map (fun f => (f.1, (0, f.2))) fs
  | _ => []
  end.

Fixpoint assoc {B} (x : string) (l : list (string * B)) : option B :=
  match l with
  | [] => None
  | (y, b) :: l => if String.eqb x y then Some b else assoc x l
  end.

Definition offset_of (x : string) (t : cty) : option Z := fst <$> assoc x (fields_of t).

(** Types a compiler knows: the scalars are powers of two. *)
Fixpoint known (t : cty) : bool :=
  match t with
  | Scalar n => existsb (Z.eqb n) [1; 2; 4; 8]
  | Array n t => (0 <=? n) && known t
  | Union fs | Struct _ fs => forallb (fun f => known f.2) fs
  end.

(** ** The rules give good layouts *)

Lemma cty_induction (P : cty -> Prop) :
  (forall n, P (Scalar n)) -> (forall n t, P t -> P (Array n t)) ->
  (forall fs, Forall (fun f => P f.2) fs -> P (Union fs)) ->
  (forall packed fs, Forall (fun f => P f.2) fs -> P (Struct packed fs)) ->
  forall t, P t.
Proof.
  intros HS HA HU HR. fix IH 1. intros [n|n t|fs|packed fs].
  - apply HS.
  - apply HA, IH.
  - apply HU. induction fs as [|[x t] fs IHfs]; constructor; [apply IH|exact IHfs].
  - apply HR. induction fs as [|[x t] fs IHfs]; constructor; [apply IH|exact IHfs].
Qed.

Definition pow8 (a : Z) : Prop := a = 1 \/ a = 2 \/ a = 4 \/ a = 8.

Lemma pow8_divide a b : pow8 a -> pow8 b -> a <= b -> (a | b).
Proof.
  intros Ha Hb H. assert (b = a * (b / a)) as ->; [|apply Z.divide_factor_l].
  destruct Ha as [->|[->|[->| ->]]], Hb as [->|[->|[->| ->]]]; try reflexivity; lia.
Qed.

Lemma pow8_max (l : list Z) : Forall pow8 l -> pow8 (foldr Z.max 1 l) /\ Forall (fun a => a <= foldr Z.max 1 l) l.
Proof.
  induction 1 as [|a l Ha Hl [IH1 IH2]]; [by split; [left|]|]. cbn [foldr]. split.
  - destruct (Z.max_spec a (foldr Z.max 1 l)) as [[_ ->]|[_ ->]]; done.
  - constructor; [lia|]. eapply Forall_impl; [exact IH2|]. cbn. lia.
Qed.

Lemma round_up_spec x a : 0 < a -> x <= round_up x a < x + a /\ (a | round_up x a).
Proof.
  intros Ha. unfold round_up. split; [|apply Z.divide_factor_r].
  pose proof (Z.div_mod (x + a - 1) a). pose proof (Z.mod_pos_bound (x + a - 1) a Ha). nia.
Qed.

Lemma pow8_pos a : pow8 a -> 0 < a.
Proof. unfold pow8. lia. Qed.

(** What holds of the known types holds of the fields of one. *)
Lemma known_fields (P : cty -> Prop) fs : Forall (fun f : string * cty => known f.2 = true -> P f.2) fs ->
  forallb (fun f => known f.2) fs = true -> Forall (fun f => P f.2) fs.
Proof.
  induction 1 as [|f fs Hf Hfs IH]; cbn [forallb]; [by constructor|].
  intros [H1 H2]%andb_true_iff. constructor; [by apply Hf|by apply IH].
Qed.

Lemma align_of_known t : known t = true -> pow8 (align_of t).
Proof.
  induction t as [n|n t IH|fs IH|packed fs IH] using cty_induction; cbn [known align_of]; intros H.
  - apply existsb_exists in H as (a & Ha & ->%Z.eqb_eq). unfold pow8. cbn in Ha. intuition.
  - apply andb_true_iff in H as [_ H]. by apply IH.
  - apply pow8_max, Forall_map. exact (known_fields (fun t => pow8 (align_of t)) _ IH H).
  - destruct packed; [by left|]. apply pow8_max, Forall_map. exact (known_fields (fun t => pow8 (align_of t)) _ IH H).
Qed.

Lemma known_align_fields fs : forallb (fun f : string * cty => known f.2) fs = true ->
  Forall (fun f => pow8 (align_of f.2)) fs.
Proof. apply (known_fields (fun t => pow8 (align_of t))), Forall_forall. intros f _. apply align_of_known. Qed.

Lemma end_of_le fs : forall off, Forall (fun '(s, a) => 0 <= s /\ 0 < a) fs -> off <= end_of off fs.
Proof.
  induction fs as [|[s a] fs IH]; intros off H; cbn [end_of]; [lia|]. apply Forall_cons in H as [[Hs Ha] H].
  pose proof (round_up_spec off a Ha). specialize (IH (round_up off a + s) H). lia.
Qed.

Lemma max_nonneg l : 0 <= foldr Z.max 0 l.
Proof. induction l; cbn; lia. Qed.

Lemma size_of_known t : known t = true -> 0 <= size_of t /\ (align_of t | size_of t).
Proof.
  induction t as [n|n t IH|fs IH|packed fs IH] using cty_induction; cbn [known align_of size_of]; intros H.
  - split; [|apply Z.divide_refl]. apply existsb_exists in H as (a & Ha & ->%Z.eqb_eq). cbn in Ha. lia.
  - apply andb_true_iff in H as [Hn%Z.leb_le H]. destruct (IH H) as [H1 H2]. split; [lia|by apply Z.divide_mul_r].
  - pose proof (max_nonneg (map (fun f => size_of f.2) fs)).
    pose proof (align_of_known (Union fs) H) as Ha%pow8_pos. cbn [align_of] in Ha.
    pose proof (round_up_spec (foldr Z.max 0 (map (fun f => size_of f.2) fs)) _ Ha) as [? ?]. split; [lia|done].
  - pose proof (known_fields (fun t => 0 <= size_of t /\ (align_of t | size_of t)) _ IH H) as Hs. pose proof (known_align_fields fs H) as Hal.
    destruct packed.
    + split; [|apply Z.divide_1_l]. apply end_of_le, Forall_map. eapply Forall_impl; [exact Hs|].
      cbn. intros f [? _]. lia.
    + pose proof (align_of_known (Struct false fs) H) as Ha%pow8_pos. cbn [align_of] in Ha.
      assert (Hin : 0 <= end_of 0 (map (fun f => (size_of f.2, align_of f.2)) fs)).
      { apply end_of_le, Forall_map, Forall_and. split; [|eapply Forall_impl; [exact Hal|intros f; apply pow8_pos]].
        eapply Forall_impl; [exact Hs|]. by intros f [? _]. }
      pose proof (round_up_spec _ _ Ha : _ <= round_up (end_of 0 (map (fun f => (size_of f.2, align_of f.2)) fs)) _ < _ /\ _)
        as [? ?]. split; [lia|done].
Qed.

Definition place (packed : bool) (f : string * cty) : Z * Z := (size_of f.2, if packed then 1 else align_of f.2).

Lemma round_up_1 x : round_up x 1 = x.
Proof. unfold round_up. rewrite Z.div_1_r. lia. Qed.

Lemma fields_from_sound packed fs : forall off, forallb (fun f : string * cty => known f.2) fs = true ->
  Forall (fun f => off <= f.2.1 /\ f.2.1 + size_of f.2.2 <= end_of off (map (place packed) fs) /\
                   (packed = false -> (align_of f.2.2 | f.2.1))) (fields_from packed off fs) /\
  StronglySorted (fun f g => f.2.1 + size_of f.2.2 <= g.2.1) (fields_from packed off fs).
Proof.
  induction fs as [|[x t] fs IH]; intros off H; [by split; constructor|].
  cbn [forallb snd] in H. apply andb_true_iff in H as [Ht H]. cbn [fields_from map place end_of snd].
  set (o := if packed then off else round_up off (align_of t)).
  assert (Eo : round_up off (if packed then 1 else align_of t) = o) by (unfold o; destruct packed; [apply round_up_1|done]).
  rewrite Eo. destruct (IH (o + size_of t) H) as [IH1 IH2].
  pose proof (size_of_known t Ht) as [Hs _]. pose proof (pow8_pos _ (align_of_known t Ht)) as Hp.
  assert (Ho : off <= o /\ (packed = false -> (align_of t | o))).
  { unfold o. destruct packed; [split; [lia|done]|]. pose proof (round_up_spec off _ Hp) as [? ?]. split; [lia|done]. }
  assert (He : o + size_of t <= end_of (o + size_of t) (map (place packed) fs)).
  { apply end_of_le, Forall_map. pose proof (known_align_fields fs H) as Hal.
    assert (Hsz : Forall (fun f : string * cty => 0 <= size_of f.2) fs).
    { refine (known_fields (fun t => 0 <= size_of t) fs _ H). apply Forall_forall. intros f _ Hf. by apply size_of_known. }
    eapply Forall_impl; [apply Forall_and; exact (conj Hsz Hal)|]. cbn. intros f [? Hf%pow8_pos].
    unfold place. destruct packed; lia. }
  split; constructor; cbn [fst snd].
  - split; [lia|]. split; [exact He|]. apply Ho.
  - eapply Forall_impl; [exact IH1|]. intros f (? & ? & ?). split; [lia|]. done.
  - exact IH2.
  - eapply Forall_impl; [exact IH1|]. intros f (? & _). exact H0.
Qed.

(** The fields of a structure lie in it one behind the other, each aligned
    unless it is packed, and an array of it keeps the alignment. *)
Theorem layout_sound packed fs : known (Struct packed fs) = true ->
  Forall (fun f => 0 <= f.2.1 /\ f.2.1 + size_of f.2.2 <= size_of (Struct packed fs) /\
                   (packed = false -> (align_of f.2.2 | f.2.1))) (fields_of (Struct packed fs)) /\
  StronglySorted (fun f g => f.2.1 + size_of f.2.2 <= g.2.1) (fields_of (Struct packed fs)) /\
  (align_of (Struct packed fs) | size_of (Struct packed fs)).
Proof.
  intros H. destruct (fields_from_sound packed fs 0 H) as [H1 H2].
  split; [|split; [exact H2|by apply size_of_known]]. eapply Forall_impl; [exact H1|].
  intros f (? & Hf & ?). split; [done|]. split; [|done]. etrans; [exact Hf|]. cbn [size_of].
  destruct packed; [done|]. pose proof (align_of_known (Struct false fs) H) as Ha%pow8_pos. cbn [align_of] in Ha.
  pose proof (round_up_spec (end_of 0 (map (fun f => (size_of f.2, align_of f.2)) fs)) _ Ha). unfold place. lia.
Qed.

(** ** The declarations *)

Definition u8t : cty := Scalar 1.
Definition u16t : cty := Scalar 2.
Definition u32t : cty := Scalar 4.
Definition u64t : cty := Scalar 8.
(** [int] and enumerations. *)
Definition intt : cty := Scalar 4.
(** Pointers, [size_t], [uintptr_t] and [long]. *)
Definition ptrt : cty := Scalar 8.
Definition chars (n : Z) : cty := Array n u8t.
Definition plain : list (string * cty) -> cty := Struct false.
Definition packed : list (string * cty) -> cty := Struct true.
(** Fields declared together. *)
Definition each_of (t : cty) : list string -> list (string * cty) := map (fun x => (x, t)).

(** src/include/arch/x86_64/arch.h:29-40 [context_t] *)
Definition context_layout : cty := packed (each_of u64t
  ["r15"; "r14"; "r13"; "r12"; "r11"; "r10"; "r9"; "r8"; "rbp"; "rdi"; "rsi"; "rdx"; "rcx"; "rbx"; "rax";
   "int_no"; "err_code"; "rip"; "cs"; "rflags"; "rsp"; "ss"]).

(** src/include/scheduling/thread.h:38-55 [thread_t] *)
Definition thread_layout : cty := plain
  [("tid", u32t); ("o_pid", u32t); ("proc", ptrt); ("state", intt); ("privilege", intt); ("priority", intt);
   ("context", context_layout); ("stack_base", u64t); ("stack_size", u64t); ("kernel_stack", u64t);
   ("time_slice", u32t); ("time_used", u32t); ("cooldown", intt); ("user_data", ptrt); ("next", ptrt)].

(** [atomic_flag] is a byte.
    src/include/scheduling/spinlock.h:7-11 [spinlock_t] *)
Definition spinlock_layout : cty := plain [("lock", u8t); ("had_interrupt", intt)].

(** src/include/scheduling/mutex.h:14-22 [mutex_t] *)
Definition mutex_layout : cty := plain
  [("lock", spinlock_layout); ("locked", intt); ("owner", ptrt); ("waiter_head", ptrt); ("waiter_tail", ptrt);
   ("waiter_count", ptrt)].

(** src/include/klibc/cred/cred.h:4-8 [cred_t] *)
Definition cred_layout : cty := plain (each_of intt ["uid"; "euid"; "suid"; "gid"; "egid"; "sgid"]).

(** src/include/scheduling/process.h:36-42 [file_descriptor_t] *)
Definition fd_layout : cty := plain [("node", ptrt); ("offset", u64t); ("present", u64t); ("flags", u64t)].

(** [PATH_MAX] is 256 (limits.h), [pid_t] and [mode_t] are [long].
    src/include/scheduling/process.h:44-66 [process_t] *)
Definition process_layout : cty := plain
  [("pid", ptrt); ("ppid", ptrt); ("cred", cred_layout); ("state", intt); ("umask", ptrt); ("next_sibling", ptrt);
   ("main_thread", ptrt); ("wait_head", ptrt); ("wait_tail", ptrt); ("cwd", ptrt); ("cwd_path", chars 256);
   ("address_space", ptrt); ("fds", Array 32 fd_layout); ("exit_code", intt); ("lock", mutex_layout)].

(** src/include/klibc/kmem/kheap.h:13-18 [block_header_t] *)
Definition block_header_layout : cty := plain [("size", ptrt); ("free", intt); ("next", ptrt)].

(** src/include/klibc/kmem/slab.h:19-27 [slab_t] *)
Definition slab_layout : cty := plain
  [("next", ptrt); ("cache", ptrt); ("free_count", u32t); ("total_objects", u32t); ("magic", u32t); ("free_list", ptrt)].

(** src/include/klibc/kmem/slab.h:29-40 [slab_cache_t] *)
Definition slab_cache_layout : cty := plain (each_of ptrt
  ["name"; "object_size"; "align"; "objects_per_slab"; "partial"; "full"; "empty"; "ctor"; "dtor"]).

(** src/include/klibc/kmem/hashtable.h:17-25 [hash_entry_t] *)
Definition hash_entry_layout : cty := plain (each_of ptrt ["next"; "prev"; "hash"; "key_size"; "key"; "value"]).

(** src/include/klibc/kmem/hashtable.h:27-32 [hashtable_t] *)
Definition hashtable_layout : cty := plain (each_of ptrt ["entry_count"; "capacity"; "entries"]).

(** [NAME_MAX + 1] bytes of name; [vtype_t] is an enumeration.
    src/include/fs/vfs/vnode.h:64-83 [vnode_t] *)
Definition vnode_layout : cty := plain
  [("v_flag", u32t); ("v_count", u32t); ("v_shlockc", u32t); ("v_exlockc", u32t); ("v_op", ptrt);
   ("v_un", Union [("v_socket", ptrt); ("v_stream", ptrt)]); ("v_parent", ptrt); ("v_name", chars 256);
   ("v_vfsp", ptrt); ("v_type", intt); ("v_data", ptrt)].

(** src/include/fs/vfs/vfs.h:40-49 [vfs_t] *)
Definition vfs_layout : cty := plain
  [("vfs_next", ptrt); ("vfs_op", ptrt); ("vfs_vnode_covered", ptrt); ("vfs_flag", u32t); ("vfs_bsize", u64t);
   ("vfs_data", ptrt); ("vfs_mount_path", chars 256)].

(** src/include/fs/vfs/vfs.h:51-59 [vfs_manager_t] *)
Definition vfs_manager_layout : cty := plain
  [("mount_table", hashtable_layout); ("vnode_table", hashtable_layout); ("vnode_table_lock", spinlock_layout);
   ("mount_table_lock", spinlock_layout); ("vfs_cache", ptrt); ("vnode_cache", ptrt)].

(** src/include/fs/vfs/path.h:22-26 [namecache_key] *)
Definition namecache_key_layout : cty := plain [("dvp_ptr", ptrt); ("name", chars 256)].

(** The operation tables are 24 and 7 pointers.
    src/include/fs/vfs/vnode.h:85-111 [vnodeops_t] *)
Definition vnodeops_layout : cty := plain (each_of ptrt
  ["vn_open"; "vn_close"; "vn_rdwr"; "vn_ioctl"; "vn_select"; "vn_getattr"; "vn_setattr"; "vn_access"; "vn_lookup";
   "vn_create"; "vn_remove"; "vn_link"; "vn_rename"; "vn_mkdir"; "vn_rmdir"; "vn_readdir"; "vn_symlink"; "vn_readlink";
   "vn_fsync"; "vn_inactive"; "vn_bmap"; "vn_strategy"; "vn_bread"; "vn_brelse"]).
(** src/include/fs/vfs/vfs.h:61-70 [vfsops_t] *)
Definition vfsops_layout : cty := plain (each_of ptrt
  ["vfs_mount"; "vfs_unmount"; "vfs_root"; "vfs_statfs"; "vfs_sync"; "vfs_fid"; "vfs_vget"]).

(** sysroot/usr/include/sys/time.h:14-18 [timeval] *)
Definition timeval_layout : cty := plain [("tv_sec", ptrt); ("tv_usec", ptrt)].

(** [umode_t] is [unsigned short], the ids and [dev_t] are [long].
    src/include/fs/vfs/vnode.h:46-62 [v_attr_t] *)
Definition v_attr_layout : cty := plain
  [("va_type", intt); ("va_mode", u16t); ("va_uid", ptrt); ("va_gid", ptrt); ("va_fsid", u64t); ("va_nodeid", u64t);
   ("va_nlink", u32t); ("va_size", u64t); ("va_blocksize", u64t); ("va_atime", timeval_layout);
   ("va_mtime", timeval_layout); ("va_ctime", timeval_layout); ("va_rdev", ptrt); ("va_blocks", u64t)].

(** src/include/arch/x86_64/cpu/idt/idt.h:20-30 [idt_entry_t] *)
Definition idt_entry_layout : cty := packed
  [("offset_low", u16t); ("selector", u16t); ("ist", u8t); ("type_attr", u8t); ("offset_mid", u16t);
   ("offset_high", u32t); ("reserved", u32t)].
(** src/include/arch/x86_64/cpu/idt/idt.h:32-36 [idtr_t] *)
Definition idtr_layout : cty := packed [("limit", u16t); ("base", u64t)].

(** src/include/arch/x86_64/cpu/gdt/gdt.h:16-26 [tss_desc] *)
Definition tss_desc_layout : cty := packed
  [("length", u16t); ("base_low", u16t); ("base_mid", u8t); ("flags", u8t); ("flags2", u8t); ("base_high", u8t);
   ("base_upper32", u32t); ("reserved", u32t)].
(** src/include/arch/x86_64/cpu/gdt/gdt.h:28-45 [tss_t] *)
Definition tss_layout : cty := packed
  (("reserved", u32t) :: each_of u64t ["rsp0"; "rsp1"; "rsp2"; "reserved1"; "ist1"; "ist2"; "ist3"; "ist4"; "ist5"; "ist6";
     "ist7"; "reserved2"] ++ [("reserved3", u16t); ("base_iomap", u16t)]).
(** src/include/arch/x86_64/cpu/gdt/gdt.h:47-56 [gdt_desc] *)
Definition gdt_desc_layout : cty := packed
  [("limit", u16t); ("base_low", u16t); ("base_mid", u8t); ("access", u8t); ("granularity", u8t); ("base_high", u8t)].
(** src/include/arch/x86_64/cpu/gdt/gdt.h:58-62 [gdt_ptr] *)
Definition gdt_ptr_layout : cty := packed [("limit", u16t); ("ptr", u64t)].
(** src/include/arch/x86_64/cpu/gdt/gdt.h:64-68 [gdtr] *)
Definition gdtr_layout : cty := packed [("entries", Array 5 gdt_desc_layout); ("tss", tss_desc_layout)].

(** src/include/scheduling/syscall.h:11-16 [syscall_entry_t] *)
Definition syscall_entry_layout : cty := plain [("handler", ptrt); ("name", ptrt); ("arg_num", intt)].

(** *** The loader's structures *)

(** src/include/limine/limine.h:205-209 [limine_hhdm_response] *)
Definition hhdm_response_layout : cty := plain [("revision", u64t); ("offset", u64t)].
(** The requests for the memory map and the framebuffer have the same fields.
    src/include/limine/limine.h:211-217 [limine_hhdm_request] *)
Definition hhdm_request_layout : cty := plain [("id", Array 4 u64t); ("revision", u64t); ("response", ptrt)].
(** src/include/limine/limine.h:226-239 [limine_video_mode] *)
Definition video_mode_layout : cty := plain
  (each_of u64t ["pitch"; "width"; "height"] ++ ("bpp", u16t) :: each_of u8t ["memory_model"; "red_mask_size";
     "red_mask_shift"; "green_mask_size"; "green_mask_shift"; "blue_mask_size"; "blue_mask_shift"]).
(** src/include/limine/limine.h:241-264 [limine_framebuffer] *)
Definition framebuffer_layout : cty := plain
  (("address", ptrt) :: each_of u64t ["width"; "height"; "pitch"] ++ ("bpp", u16t) :: each_of u8t ["memory_model";
     "red_mask_size"; "red_mask_shift"; "green_mask_size"; "green_mask_shift"; "blue_mask_size"; "blue_mask_shift"]
   ++ [("unused", Array 7 u8t); ("edid_size", u64t); ("edid", ptrt); ("mode_count", u64t); ("modes", ptrt)]).
(** src/include/limine/limine.h:266-272 [limine_framebuffer_response] *)
Definition framebuffer_response_layout : cty := plain
  [("revision", u64t); ("framebuffer_count", u64t); ("framebuffers", ptrt)].
(** src/include/limine/limine.h:274-280 [limine_framebuffer_request] *)
Definition framebuffer_request_layout : cty := plain [("id", Array 4 u64t); ("revision", u64t); ("response", ptrt)].
(** src/include/limine/limine.h:555-560 [limine_memmap_entry] *)
Definition memmap_entry_layout : cty := plain (each_of u64t ["base"; "length"; "type"]).
(** src/include/limine/limine.h:562-568 [limine_memmap_response] *)
Definition memmap_response_layout : cty := plain [("revision", u64t); ("entry_count", u64t); ("entries", ptrt)].
(** src/include/limine/limine.h:570-576 [limine_memmap_request] *)
Definition memmap_request_layout : cty := plain [("id", Array 4 u64t); ("revision", u64t); ("response", ptrt)].
(** src/include/limine/limine.h:77-83 [limine_uuid] *)
Definition uuid_layout : cty := plain [("a", u32t); ("b", u16t); ("c", u16t); ("d", Array 8 u8t)].
(** src/include/limine/limine.h:89-113 [limine_file] *)
Definition file_layout : cty := plain
  ([("revision", u64t); ("address", ptrt); ("size", u64t); ("path", ptrt); ("cmdline", ptrt)]
   ++ each_of u32t ["media_type"; "unused"; "tftp_ip"; "tftp_port"; "partition_index"; "mbr_disk_id"]
   ++ each_of uuid_layout ["gpt_disk_uuid"; "gpt_part_uuid"; "part_uuid"]).
(** src/include/limine/limine.h:653-665 [limine_internal_module] *)
Definition internal_module_layout : cty := plain [("path", ptrt); ("cmdline", ptrt); ("flags", u64t)].
(** src/include/limine/limine.h:667-673 [limine_module_response] *)
Definition module_response_layout : cty := plain [("revision", u64t); ("module_count", u64t); ("modules", ptrt)].
(** src/include/limine/limine.h:675-686 [limine_module_request] *)
Definition module_request_layout : cty := plain
  [("id", Array 4 u64t); ("revision", u64t); ("response", ptrt); ("internal_module_count", u64t);
   ("internal_modules", ptrt)].

Definition declared : list cty :=
  [context_layout; thread_layout; spinlock_layout; mutex_layout; cred_layout; fd_layout; process_layout;
   block_header_layout; slab_layout; slab_cache_layout; hash_entry_layout; hashtable_layout; vnode_layout; vfs_layout;
   vfs_manager_layout; namecache_key_layout; vnodeops_layout; vfsops_layout; timeval_layout; v_attr_layout;
   idt_entry_layout; idtr_layout; tss_desc_layout; tss_layout; gdt_desc_layout; gdt_ptr_layout; gdtr_layout;
   syscall_entry_layout; hhdm_response_layout; hhdm_request_layout; video_mode_layout; framebuffer_layout;
   framebuffer_response_layout; framebuffer_request_layout; memmap_entry_layout; memmap_response_layout;
   memmap_request_layout; uuid_layout; file_layout; internal_module_layout; module_response_layout;
   module_request_layout].

Lemma declared_known : forallb known declared = true.
Proof. reflexivity. Qed.

(** ** Agreement *)

(** The field [x] of the structure at [a], in words. *)
Definition word_at (m : Z -> Z) (a : Z) (t : cty) (x : string) : Z := m (a + default 0 (offset_of x t)).

(** The words a stub, the context switch and [iretq] read are the fields of
    [context_t]. *)
Lemma context_words m a :
  let w := word_at m a context_layout in
  read_context m a =
    Context_t (w "r15") (w "r14") (w "r13") (w "r12") (w "r11") (w "r10") (w "r9") (w "r8") (w "rbp") (w "rdi")
      (w "rsi") (w "rdx") (w "rcx") (w "rbx") (w "rax") (w "int_no") (w "err_code") (w "rip") (w "cs") (w "rflags")
      (w "rsp") (w "ss").
Proof. cbv zeta. unfold read_context, word_at. f_equal. f_equal. symmetry. apply Z.add_0_r. Qed.

(** The copy of 22 words is the whole structure. *)
Lemma context_size : size_of context_layout = 22 * 8.
Proof. reflexivity. Qed.

(** The saved context of a thread at a multiple of 8 is not at one. *)
Lemma thread_context_offset th : th mod 8 = 0 ->
  offset_of "context" thread_layout = Some 28 /\ (th + 28) mod 8 = 4.
Proof. intros H. split; [reflexivity|]. zdiv. Qed.

(** What the allocators are asked for, and the tables' limits. *)
Lemma sizes_agree :
  map size_of [thread_layout; process_layout; block_header_layout; slab_layout; slab_cache_layout; hash_entry_layout;
               vfs_layout; vnode_layout; tss_layout; gdtr_layout; idt_entry_layout]
  = [SIZEOF_THREAD; SIZEOF_PROCESS; HEADER; SIZEOF_SLAB; SIZEOF_CACHE; SIZEOF_HASH_ENTRY;
     SIZEOF_VFS; SIZEOF_VNODE; SIZEOF_TSS; SIZEOF_GDT; 16].
Proof. reflexivity. Qed.

(** The fields the heap and the slab allocator reach by their offset. *)
Lemma offsets_agree :
  map (fun x => offset_of x block_header_layout) ["size"; "free"; "next"]
    = map Some [OFF_SIZE; OFF_FREE; OFF_NEXT] /\
  map (fun x => offset_of x slab_layout) ["next"; "cache"; "free_count"; "total_objects"; "magic"; "free_list"]
    = map Some [SLAB_NEXT; SLAB_CACHE; SLAB_FREE_COUNT; SLAB_TOTAL; SLAB_MAGIC_OFF; SLAB_FREE_LIST] /\
  map (fun x => offset_of x slab_cache_layout)
      ["name"; "object_size"; "align"; "objects_per_slab"; "partial"; "full"; "empty"; "ctor"; "dtor"]
    = map Some [CACHE_NAME; CACHE_OBJECT_SIZE; CACHE_ALIGN; CACHE_PER_SLAB; CACHE_PARTIAL; CACHE_FULL; CACHE_EMPTY;
                CACHE_CTOR; CACHE_DTOR].
Proof. repeat split. Qed.

(** What the processor and the loader expect: [rsp0] at 4 in the task state
    segment, its descriptor behind five others, a base behind a 16-bit limit,
    and the response at 40 in a request. *)
Lemma hardware_offsets :
  offset_of "rsp0" tss_layout = Some 4 /\ offset_of "tss" gdtr_layout = Some 40 /\
  offset_of "base" idtr_layout = Some 2 /\ offset_of "ptr" gdt_ptr_layout = Some 2 /\
  map (offset_of "response") [hhdm_request_layout; framebuffer_request_layout; memmap_request_layout;
                              module_request_layout] = replicate 4 (Some 40).
Proof. repeat split. Qed.
