(* ===== verification/Crt.v ===== *)
(** * The C runtime start files (crt/crt0.S, crti.S, crtn.S)

    The code in front of [main] that the cross compiler links into a program:
    it ends the list of stack frames, runs the constructors, calls [kmain] with
    the arguments it was started with, and [exit] with the low half of the
    result.  The loader of the kernel enters [kmain] directly, so this is for
    programs; [exit] is not in the repository. *)

From S2P Require Import Prelude SchedState Stubs SyscallAsm.
Local Open Scope Z_scope.

(** [inits] is what the compiler puts between the two files.
    src/crt/crti.S:2-8 [_init] *)
Definition init_prologue : K cpu unit := push RBP;; mov RBP RSP.
(** src/crt/crtn.S:2-5 [_init] *)
Definition init_epilogue : K cpu unit := pop RBP.
(** src/crt/crti.S:5-8 [_init] *)
Definition _init (inits : K cpu unit) : K cpu unit := init_prologue;; inits;; init_epilogue.

(** The same for the destructors.
    src/crt/crti.S:10-16 [_fini] *)
Definition fini_prologue : K cpu unit := push RBP;; mov RBP RSP.
(** src/crt/crtn.S:7-10 [_fini] *)
Definition fini_epilogue : K cpu unit := pop RBP.
(** src/crt/crti.S:13-16 [_fini] *)
Definition _fini (finis : K cpu unit) : K cpu unit := fini_prologue;; finis;; fini_epilogue.

(** [movl %eax, %edi] clears the upper half of RDI.
    src/crt/crt0.S:4-28 [_start] *)
Definition _start (r1 r2 r3 : Z) (init kmain exit : K cpu unit) : K cpu unit :=
  put RBP 0;; push RBP;; push RBP;; mov RBP RSP;;
  push RSI;; push RDI;;
  call r1 init;;
  pop RDI;; pop RSI;;
  call r2 kmain;;
  (a ← get RAX; put RDI (u32 a));;
  call r3 exit.

(** A function of the C calling convention that is entered with an aligned
    stack: it may use what lies below its stack pointer and returns with the
    stack, and the registers it must keep, as they were. *)
Record c_return (room : Z) (s s' : cpu) : Prop := {
  cr_regs r : r ∈ [RBX; RBP; RSP; R12; R13; R14; R15] -> regs s' r = regs s r;
  cr_words x : regs s RSP <= x <= regs s RSP + room -> words s' x = words s x;
}.

Definition c_function (ra room : Z) (h : K cpu unit) (post : cpu -> cpu -> Prop) : Prop :=
  forall s, (regs s RSP + 8) mod 16 = 0 -> 512 <= regs s RSP < 2 ^ 64 - 512 -> words s (regs s RSP) = ra ->
  exists s', h s = Ret tt s' /\ c_return room s s' /\ post s s'.

(** A call of one. *)
Lemma call_c_run ra room h post s sp : c_function ra room h post -> 8 <= room -> regs s RSP = sp -> sp mod 16 = 0 ->
  1024 <= sp < 2 ^ 64 - 512 ->
  exists s1 s2 s', stepped [RSP] s s1 /\ post s1 s2 /\ call ra h s = Ret tt s' /\ stepped [RSP] s2 s' /\
    (forall r, r ∈ [RBX; RBP; RSP; R12; R13; R14; R15] -> regs s' r = regs s r) /\
    (forall x, sp <= x <= sp + room - 8 -> words s' x = words s x).
Proof.
  intros Hh Hroom Hsp Hm Hr. destruct (push_value_run ra s sp Hsp) as (s1 & R1 & S1 & H1 & W1); [lia|].
  destruct (Hh s1) as (s2 & R2 & [C2 W2] & P2); [rewrite H1; zdiv|lia|by rewrite H1, W1, put_word_eq|].
  assert (H2 : regs s2 RSP = sp - 8) by (rewrite C2; [done|by apply (bool_decide_unpack _)]).
  assert (A2 : words s2 (sp - 8) = ra) by (rewrite W2, W1 by lia; apply put_word_eq).
  eexists s1, s2, _. split; [exact S1|]. split; [exact P2|]. split.
  { unfold call. rewrite (kbind_ret _ _ s tt s1 R1), (kbind_ret _ _ s1 tt s2 R2).
    rewrite (kbind_ret (get RSP) _ s2 (sp - 8) s2) by (unfold get, kasks; by rewrite H2).
    rewrite (kbind_ret _ _ s2 ra s2) by (rewrite load_run; by rewrite A2).
    rewrite Z.eqb_refl, wrap_small by lia. reflexivity. }
  split; [split; [|done..]|split].
  - intros r Hr'. cbn [regs]. apply put_reg_ne. reg_set.
  - intros r Hr'. cbn [regs]. destruct (decide (r = RSP)) as [->|Hn]; [rewrite put_reg_eq; lia|].
    rewrite put_reg_ne, C2, (st_regs _ _ _ S1) by (done || reg_set). done.
  - intros x Hx. cbn [words]. rewrite W2, W1, put_word_ne by lia. done.
Qed.

(** Code between the two files of crti and crtn keeps the frame it runs in. *)
Definition keeps_frame (room : Z) (inits : K cpu unit) : Prop :=
  forall s, regs s RSP mod 16 = 0 -> 504 <= regs s RSP < 2 ^ 64 - 512 ->
  exists s', inits s = Ret tt s' /\ c_return room s s'.

(** The constructors in their frame are a function. *)
Lemma init_function inits ra room : 8 <= room -> keeps_frame (room + 8) inits ->
  c_function ra room (_init inits) (fun _ _ => True).
Proof.
  intros Hroom Hi s Hm Hr _. set (sp := regs s RSP) in *. unfold _init, init_prologue, init_epilogue.
  destruct (push_value_run (regs s RBP) s sp eq_refl) as (s1 & R1 & S1 & H1 & W1); [lia|].
  set (s2 := set_reg RBP (regs s1 RSP) s1).
  assert (R2 : (push RBP;; mov RBP RSP) s = Ret tt s2) by (rewrite (kbind_ret (push RBP) _ s tt s1 R1); reflexivity).
  rewrite (kbind_ret _ _ s tt s2 R2).
  assert (H2 : regs s2 RSP = sp - 8) by (unfold s2; by rewrite set_reg_ne).
  destruct (Hi s2) as (s3 & R3 & [C3 W3]); [rewrite H2; zdiv|lia|].
  assert (H3 : regs s3 RSP = sp - 8) by (rewrite C3; [done|by apply (bool_decide_unpack _)]).
  destruct (pop_reg_run RBP s3 (sp - 8)) as (s4 & R4 & S4 & H4 & V4 & W4); [done|done|lia|].
  rewrite (kbind_ret _ _ s2 tt s3 R3). exists s4. split; [exact R4|]. split; [|done]. split.
  - intros r Hr'. destruct (decide (r = RSP)) as [->|Hn]; [rewrite H4; fold sp; lia|].
    destruct (decide (r = RBP)) as [->|Hb].
    + rewrite V4, W3 by lia. unfold s2. cbn [words set_reg]. by rewrite W1, put_word_eq.
    + rewrite (st_regs _ _ _ S4), C3 by (done || reg_set). unfold s2. rewrite set_reg_ne by done.
      by rewrite (st_regs _ _ _ S1) by reg_set.
  - intros x Hx. fold sp in Hx. rewrite W4, W3 by lia. unfold s2. cbn [words set_reg]. rewrite W1, put_word_ne by lia. done.
Qed.

(** The state [_start] calls the constructors in. *)
Lemma start_frame s sp : regs s RSP = sp -> 64 <= sp < 2 ^ 64 ->
  exists s', (forall k : K cpu unit, (put RBP 0;; push RBP;; push RBP;; mov RBP RSP;; push RSI;; push RDI;; k) s = k s') /\
    regs s' RSP = sp - 32 /\ regs s' RBP = sp - 16 /\
    words s' (sp - 8) = 0 /\ words s' (sp - 16) = 0 /\ words s' (sp - 24) = regs s RSI /\ words s' (sp - 32) = regs s RDI.
Proof.
  intros Hsp Hr. set (s1 := set_reg RBP 0 s).
  assert (H1 : regs s1 RSP = sp) by (unfold s1; by rewrite set_reg_ne).
  destruct (push_value_run (regs s1 RBP) s1 sp H1) as (s2 & R2 & S2 & H2 & W2); [lia|].
  destruct (push_value_run (regs s2 RBP) s2 (sp - 8) H2) as (s3 & R3 & S3 & H3 & W3); [lia|].
  set (s4 := set_reg RBP (regs s3 RSP) s3).
  assert (H4 : regs s4 RSP = sp - 16) by (unfold s4; rewrite set_reg_ne by done; lia).
  destruct (push_value_run (regs s4 RSI) s4 (sp - 16) H4) as (s5 & R5 & S5 & H5 & W5); [lia|].
  destruct (push_value_run (regs s5 RDI) s5 (sp - 24)) as (s6 & R6 & S6 & H6 & W6); [lia|lia|].
  assert (E2 : regs s2 RBP = 0) by (rewrite (st_regs _ _ _ S2) by reg_set; apply set_reg_eq).
  assert (E5 : forall r, r ∈ [RSI; RDI] -> regs s5 r = regs s r).
  { intros r Hr'. rewrite (st_regs _ _ _ S5) by (destruct r; reg_set). unfold s4. rewrite set_reg_ne by (destruct r; reg_set).
    rewrite (st_regs _ _ _ S3), (st_regs _ _ _ S2) by (destruct r; reg_set). unfold s1. by rewrite set_reg_ne by (destruct r; reg_set). }
  exists s6. split.
  { intros k. rewrite (kbind_ret _ _ _ _ _ (put_run RBP 0 s)). fold s1.
    rewrite (kbind_ret (push RBP) _ s1 tt s2 R2), (kbind_ret (push RBP) _ s2 tt s3 R3).
    rewrite (kbind_ret _ _ _ _ _ (mov_run RBP RSP s3)). fold s4.
    by rewrite (kbind_ret (push RSI) _ s4 tt s5 R5), (kbind_ret (push RDI) _ s5 tt s6 R6). }
  split; [lia|]. split.
  { rewrite (st_regs _ _ _ S6), (st_regs _ _ _ S5) by reg_set. unfold s4. by rewrite set_reg_eq. }
  assert (E4 : regs s4 RSI = regs s RSI).
  { rewrite <- (st_regs _ _ _ S5) by reg_set. apply E5. by left. }
  change (words s4) with (words s3) in W5.
  replace (sp - 8 - 8) with (sp - 16) in W3 by lia. replace (sp - 16 - 8) with (sp - 24) in W5 by lia.
  replace (sp - 24 - 8) with (sp - 32) in W6 by lia.
  split; [by rewrite W6, W5, W3, !put_word_ne, W2, put_word_eq by lia|].
  split; [by rewrite W6, W5, !put_word_ne, W3, put_word_eq by lia|].
  split; [by rewrite W6, put_word_ne, W5, put_word_eq by lia|].
  rewrite W6, put_word_eq. apply E5. by right; left.
Qed.

(** From the entry of a program to its end: [kmain] is called with the
    arguments the program was started with, and [exit] with the low half of its
    result, on aligned stacks; a walk of the stack frames ends in [_start]. *)
Theorem start_runs_main r1 r2 r3 inits kmain exit main s sp
    (Hsp : regs s RSP = sp) (Hm : sp mod 16 = 0) (Hr : 2048 <= sp < 2 ^ 64 - 512)
    (Hinit : keeps_frame 40 inits)
    (Hmain : c_function r2 16 kmain (fun s s' => regs s' RAX = main (regs s RDI) (regs s RSI)))
    (Hexit : forall s, exit s = Stop Halted s) :
  exists s', _start r1 r2 r3 (_init inits) kmain exit s = Stop Halted s' /\
    regs s' RDI = u32 (main (regs s RDI) (regs s RSI)) /\ (regs s' RSP + 8) mod 16 = 0 /\
    words s' (regs s' RBP) = 0 /\ words s' (regs s' RBP + 8) = 0.
Proof.
  destruct (start_frame s sp Hsp) as (s1 & R1 & H1 & B1 & W8 & W16 & W24 & W32); [lia|].
  destruct (call_c_run r1 32 (_init inits) _ s1 (sp - 32) (init_function inits r1 32 ltac:(lia) Hinit))
    as (_ & _ & s2 & _ & _ & R2 & _ & C2 & K2); [lia|done|zdiv|lia|].
  assert (H2 : regs s2 RSP = sp - 32) by (rewrite C2; [done|by apply (bool_decide_unpack _)]).
  destruct (pop_reg_run RDI s2 (sp - 32)) as (s3 & R3 & S3 & H3 & V3 & W3); [done|done|lia|].
  destruct (pop_reg_run RSI s3 (sp - 32 + 8)) as (s4 & R4 & S4 & H4 & V4 & W4); [done|done|lia|].
  destruct (call_c_run r2 16 kmain _ s4 (sp - 16) Hmain) as (t1 & t2 & s5 & T1 & P5 & R5 & T5 & C5 & K5); [lia|lia|zdiv|lia|].
  set (s6 := set_reg RDI (u32 (regs s5 RAX)) s5).
  assert (H6 : regs s6 RSP = sp - 16).
  { unfold s6. rewrite set_reg_ne, C5 by (done || by apply (bool_decide_unpack _)). lia. }
  destruct (push_value_run r3 s6 (sp - 16) H6) as (s7 & R7 & S7 & H7 & W7); [lia|].
  exists s7. split.
  { unfold _start.
    rewrite R1.
    rewrite (kbind_ret _ _ s1 tt s2 R2), (kbind_ret _ _ s2 tt s3 R3), (kbind_ret _ _ s3 tt s4 R4), (kbind_ret _ _ s4 tt s5 R5).
    rewrite (kbind_ret (a ← get RAX; put RDI (u32 a)) _ s5 tt s6) by reflexivity.
    unfold call. rewrite (kbind_ret _ _ s6 tt s7 R7). by rewrite (kbind_stop _ _ _ _ _ (Hexit s7)). }
  assert (B5 : regs s5 RBP = sp - 16).
  { rewrite C5 by (by apply (bool_decide_unpack _)). rewrite (st_regs _ _ _ S4), (st_regs _ _ _ S3) by reg_set.
    by rewrite C2 by (by apply (bool_decide_unpack _)). }
  assert (B7 : regs s7 RBP = sp - 16) by (rewrite (st_regs _ _ _ S7) by reg_set; unfold s6; by rewrite set_reg_ne).
  assert (K7 : forall x, sp - 16 <= x <= sp - 8 -> words s7 x = words s1 x).
  { intros x Hx. rewrite W7, put_word_ne by lia. change (words s6) with (words s5).
    rewrite K5, W4, W3, K2 by lia. done. }
  split; [|split; [rewrite H7; zdiv|]].
  - rewrite (st_regs _ _ _ S7) by reg_set. unfold s6. rewrite set_reg_eq. f_equal.
    assert (A5 : regs s5 RAX = regs t2 RAX) by (apply (st_regs _ _ _ T5); reg_set). rewrite A5, P5. f_equal.
    + rewrite (st_regs _ _ _ T1), (st_regs _ _ _ S4), V3 by reg_set. rewrite K2 by lia. exact W32.
    + rewrite (st_regs _ _ _ T1), V4, W3 by reg_set. rewrite K2 by lia. rewrite <- W24. f_equal. lia.
  - rewrite B7. replace (sp - 16 + 8) with (sp - 8) by lia. rewrite !K7 by lia. done.
Qed.

(** A program without constructors whose [kmain] returns its first argument. *)
Lemma no_inits room : keeps_frame room (mret tt).
Proof. intros s _ _. exists s. split; [done|]. by split. Qed.

Lemma first_argument ra room : c_function ra room (mov RAX RDI) (fun s s' => regs s' RAX = regs s RDI).
Proof.
  intros s _ _ _. exists (set_reg RAX (regs s RDI) s). split; [apply mov_run|]. split; [|apply set_reg_eq].
  split; [|done]. intros r Hr. apply set_reg_ne. intros ->. revert Hr. apply (bool_decide_unpack _). reflexivity.
Qed.

Lemma start_runs_main_witness :
  exists s', _start 1 2 3 (_init (mret tt)) (mov RAX RDI) (kstop Halted)
               (Cpu (fun r => if decide (r = RSP) then 0x8000 else 2 ^ 32 + 7) 0 USER_CODE64 0x202 USER_DATA64 ramp)
             = Stop Halted s' /\ regs s' RDI = 7.
Proof.
  destruct (start_runs_main 1 2 3 (mret tt) (mov RAX RDI) (kstop Halted) (fun a _ => a)
    (Cpu (fun r => if decide (r = RSP) then 0x8000 else 2 ^ 32 + 7) 0 USER_CODE64 0x202 USER_DATA64 ramp) 0x8000)
    as (s' & R & D & _); [reflexivity|reflexivity|lia|apply no_inits|apply first_argument|reflexivity|].
  exists s'. split; [exact R|]. exact D.
Defined.
