(* ===== verification/Headers.v ===== *)
(** * The installed headers (sysroot/usr/include)

    The part of the headers for programs that computes: integer limits, the
    structures and the packed fields of ELF files, exit statuses, file types.
    They come with the cross compiler's tree; the kernel itself uses [errno.h]
    (Errno.v), [sys/time.h] (Layout.v) and, for programs, [syscall.h]
    (SyscallAsm.v). *)

From S2P Require Import Prelude Layout.
Local Open Scope string_scope.
Local Open Scope Z_scope.

(** ** Limits (stdint.h)

    [int] has 32 bits, so the first is computed without wrapping; the other two
    in unsigned arithmetic of their width. *)

(** sysroot/usr/include/stdint.h:85-88 [INT8_MAX] *)
Definition INT8_MAX : Z := 127.
Definition INT16_MAX : Z := 32767.
Definition INT32_MAX : Z := 2147483647.
Definition INT64_MAX : Z := 9223372036854775807.

(** sysroot/usr/include/stdint.h:66-69 [INT8_MIN] *)
Definition INT8_MIN : Z := -128.
Definition INT16_MIN : Z := -32768.
Definition INT32_MIN : Z := -2147483647 - 1.
Definition INT64_MIN : Z := -9223372036854775807 - 1.

(** sysroot/usr/include/stdint.h:103-106 [UINT8_MAX] *)
Definition UINT8_MAX : Z := 255.
Definition UINT16_MAX : Z := INT16_MAX * 2 - 1.
Definition UINT32_MAX : Z := u32 (u32 (INT32_MAX * 2) - 1).
Definition UINT64_MAX : Z := u64 (u64 (INT64_MAX * 2) - 1).

(** The signed limits are those of two's complement; of the unsigned ones three
    are two short of the greatest value of their type. *)
Lemma stdint_limits :
  [INT8_MIN; INT16_MIN; INT32_MIN; INT64_MIN] = map (fun n => - 2 ^ (n - 1)) [8; 16; 32; 64] /\
  [INT8_MAX; INT16_MAX; INT32_MAX; INT64_MAX] = map (fun n => 2 ^ (n - 1) - 1) [8; 16; 32; 64] /\
  UINT8_MAX = 2 ^ 8 - 1 /\
  [UINT16_MAX; UINT32_MAX; UINT64_MAX] = map (fun n => 2 ^ n - 1 - 2) [16; 32; 64].
Proof. repeat split. Qed.

(** ** ELF files (elf.h) *)

(** sysroot/usr/include/elf.h:97-113 [Elf32_Ehdr] *)
Definition Elf32_Ehdr : cty := plain
  ([("e_ident", chars 16); ("e_type", u16t); ("e_machine", u16t)]
   ++ each_of u32t ["e_version"; "e_entry"; "e_phoff"; "e_shoff"; "e_flags"]
   ++ each_of u16t ["e_ehsize"; "e_phentsize"; "e_phnum"; "e_shentsize"; "e_shnum"; "e_shstrndx"]).
(** sysroot/usr/include/elf.h:116-132 [Elf64_Ehdr] *)
Definition Elf64_Ehdr : cty := plain
  ([("e_ident", chars 16); ("e_type", u16t); ("e_machine", u16t); ("e_version", u32t)]
   ++ each_of u64t ["e_entry"; "e_phoff"; "e_shoff"] ++ ("e_flags", u32t)
   :: each_of u16t ["e_ehsize"; "e_phentsize"; "e_phnum"; "e_shentsize"; "e_shnum"; "e_shstrndx"]).
(** sysroot/usr/include/elf.h:137-149 [Elf32_Shdr] *)
Definition Elf32_Shdr : cty := plain (each_of u32t
  ["sh_name"; "sh_type"; "sh_flags"; "sh_addr"; "sh_offset"; "sh_size"; "sh_link"; "sh_info"; "sh_addralign"; "sh_entsize"]).
(** sysroot/usr/include/elf.h:151-163 [Elf64_Shdr] *)
Definition Elf64_Shdr : cty := plain
  (each_of u32t ["sh_name"; "sh_type"] ++ each_of u64t ["sh_flags"; "sh_addr"; "sh_offset"; "sh_size"]
   ++ each_of u32t ["sh_link"; "sh_info"] ++ each_of u64t ["sh_addralign"; "sh_entsize"]).
(** sysroot/usr/include/elf.h:192-200 [Elf32_Sym] *)
Definition Elf32_Sym : cty := plain
  [("st_name", u32t); ("st_value", u32t); ("st_size", u32t); ("st_info", u8t); ("st_other", u8t); ("st_shndx", u16t)].
(** sysroot/usr/include/elf.h:203-211 [Elf64_Sym] *)
Definition Elf64_Sym : cty := plain
  [("st_name", u32t); ("st_info", u8t); ("st_other", u8t); ("st_shndx", u16t); ("st_value", u64t); ("st_size", u64t)].
(** sysroot/usr/include/elf.h:240-244 [Elf32_Rel] *)
Definition Elf32_Rel : cty := plain [("r_offset", u32t); ("r_info", u32t)].
(** sysroot/usr/include/elf.h:247-252 [Elf32_Rela] *)
Definition Elf32_Rela : cty := plain [("r_offset", u32t); ("r_info", u32t); ("r_addend", u32t)].
(** sysroot/usr/include/elf.h:255-259 [Elf64_Rel] *)
Definition Elf64_Rel : cty := plain [("r_offset", u64t); ("r_info", u64t)].
(** sysroot/usr/include/elf.h:262-267 [Elf64_Rela] *)
Definition Elf64_Rela : cty := plain [("r_offset", u64t); ("r_info", u64t); ("r_addend", u64t)].
(** sysroot/usr/include/elf.h:317-327 [Elf32_Phdr] *)
Definition Elf32_Phdr : cty := plain (each_of u32t
  ["p_type"; "p_offset"; "p_vaddr"; "p_paddr"; "p_filesz"; "p_memsz"; "p_flags"; "p_align"]).
(** sysroot/usr/include/elf.h:330-340 [Elf64_Phdr] *)
Definition Elf64_Phdr : cty := plain (each_of u32t ["p_type"; "p_flags"] ++ each_of u64t
  ["p_offset"; "p_vaddr"; "p_paddr"; "p_filesz"; "p_memsz"; "p_align"]).

(** The entry sizes the ELF specification fixes: there are no gaps. *)
Lemma elf_sizes :
  map size_of [Elf32_Ehdr; Elf64_Ehdr; Elf32_Shdr; Elf64_Shdr; Elf32_Sym; Elf64_Sym; Elf32_Rel; Elf32_Rela; Elf64_Rel; Elf64_Rela;
               Elf32_Phdr; Elf64_Phdr]
  = [52; 64; 40; 64; 16; 24; 8; 12; 16; 24; 32; 56].
Proof. reflexivity. Qed.

(** Symbols; the macros for both classes are the same.
    sysroot/usr/include/elf.h:213-219 [ELF32_ST_BIND] *)
Definition ELF64_ST_BIND (i : Z) : Z := Z.shiftr i 4.
Definition ELF64_ST_TYPE (i : Z) : Z := Z.land i 0xf.
Definition ELF64_ST_INFO (b t : Z) : Z := Z.shiftl b 4 + Z.land t 0xf.

(** Relocations.
    sysroot/usr/include/elf.h:269-271 [ELF32_R_SYM] *)
Definition ELF32_R_SYM (i : Z) : Z := Z.shiftr i 8.
Definition ELF32_R_TYPE (i : Z) : Z := u8 i.
Definition ELF32_R_INFO (s t : Z) : Z := u32 (u32 (Z.shiftl s 8) + u8 t).
(** sysroot/usr/include/elf.h:273-275 [ELF64_R_SYM] *)
Definition ELF64_R_SYM (i : Z) : Z := Z.shiftr i 32.
Definition ELF64_R_TYPE (i : Z) : Z := Z.land i 0xffffffff.
Definition ELF64_R_INFO (s t : Z) : Z := u64 (u64 (Z.shiftl s 32) + Z.land t 0xffffffff).

Lemma pack_unpack s t n : 0 <= n -> 0 <= t < 2 ^ n ->
  Z.shiftr (s * 2 ^ n + t) n = s /\ (s * 2 ^ n + t) mod 2 ^ n = t.
Proof.
  intros Hn Ht. assert (0 < 2 ^ n) by lia. rewrite Z.shiftr_div_pow2 by lia.
  split; [rewrite Z.div_add_l, Z.div_small; lia|]. rewrite Z.add_comm, Z.mod_add by lia. by apply Z.mod_small.
Qed.

(** Packing and unpacking are inverse when the parts fit: a type of 4 bits, for
    relocations a symbol index of 24 bits and a type of 8, or 32 and 32. *)
Theorem elf_info_roundtrip b t s8 t8 s32 t32 :
  0 <= b -> 0 <= t < 2 ^ 4 -> 0 <= s8 < 2 ^ 24 -> 0 <= t8 < 2 ^ 8 -> 0 <= s32 < 2 ^ 32 -> 0 <= t32 < 2 ^ 32 ->
  (ELF64_ST_BIND (ELF64_ST_INFO b t), ELF64_ST_TYPE (ELF64_ST_INFO b t)) = (b, t) /\
  (ELF32_R_SYM (ELF32_R_INFO s8 t8), ELF32_R_TYPE (ELF32_R_INFO s8 t8)) = (s8, t8) /\
  (ELF64_R_SYM (ELF64_R_INFO s32 t32), ELF64_R_TYPE (ELF64_R_INFO s32 t32)) = (s32, t32).
Proof.
  intros Hb Ht Hs8 Ht8 Hs32 Ht32.
  unfold ELF64_ST_BIND, ELF64_ST_TYPE, ELF64_ST_INFO, ELF32_R_SYM, ELF32_R_TYPE, ELF32_R_INFO, ELF64_R_SYM, ELF64_R_TYPE,
    ELF64_R_INFO.
  change 0xf with (Z.ones 4). change 0xffffffff with (Z.ones 32).
  rewrite !Z.land_ones, !Z.shiftl_mul_pow2, (Z.mod_small t), (Z.mod_small t32) by lia.
  rewrite (wrap_small 8 t8), (wrap_small 32 (s8 * _)), (wrap_small 64 (s32 * _)), wrap_small, (wrap_small 64) by lia.
  destruct (pack_unpack b t 4) as [-> ->]; [lia..|]. destruct (pack_unpack s8 t8 8) as [-> E]; [lia..|].
  destruct (pack_unpack s32 t32 32) as [-> ->]; [lia..|].
  split; [done|]. split; [|done]. f_equal. exact E.
Qed.

(** ** Exit statuses (sys/wait.h) *)

(** sysroot/usr/include/sys/wait.h:15-20 [WIFEXITED] *)
Definition WIFEXITED (status : Z) : Z := Z.land status (Z.shiftl 1 16).
Definition WIFSIGNALED (status : Z) : Z := Z.land status (Z.shiftl 1 17).
Definition WCOREDUMP (status : Z) : Z := Z.land status (Z.shiftl 1 18).
Definition WIFSTOPPED (status : Z) : Z := Z.land status (Z.shiftl 1 19).
Definition WEXITSTATUS (status : Z) : Z := Z.land status 0xFFFF.

(** ** File types (sys/stat.h) *)

(** sysroot/usr/include/sys/stat.h:51-56 [S_IFBLK] *)
Definition file_types : list Z := [4096; 8192; 16384; 32768; 65536; 131072].
(** sysroot/usr/include/sys/stat.h:58-58 [S_IFMT] *)
Definition S_IFMT : Z := 258048.
(** Permission and set-id bits.
    sysroot/usr/include/sys/stat.h:31-48 [S_IRUSR] *)
Definition mode_bits : list Z := [256; 128; 64; 32; 16; 8; 4; 2; 1; 512; 1024; 2048].
(** [S_ISREG] and the five other tests.
    sysroot/usr/include/sys/stat.h:62-69 [S_ISBLK] *)
Definition S_ISTYPE (type m : Z) : bool := Z.land m S_IFMT =? type.

(** A mode has the type it was made with, whatever its permissions, and no
    other. *)
Theorem file_type_tests ty ty' perm : ty ∈ file_types -> ty' ∈ file_types -> 0 <= perm < 2 ^ 12 ->
  S_ISTYPE ty' (Z.lor ty perm) = bool_decide (ty = ty').
Proof.
  intros Ht Ht' Hp. unfold S_ISTYPE.
  assert (Z.land perm S_IFMT = 0) as E0.
  { change S_IFMT with (Z.shiftl 63 12). rewrite <- (Z.mod_small perm (2 ^ 12)) by done.
    rewrite <- Z.land_ones by lia. rewrite <- Z.land_assoc. change (Z.land (Z.ones 12) (Z.shiftl 63 12)) with 0. apply Z.land_0_r. }
  rewrite Z.land_lor_distr_l, E0, Z.lor_0_r.
  assert (Z.land ty S_IFMT = ty) as ->.
  { unfold file_types in Ht. rewrite !elem_of_cons, elem_of_nil in Ht. by destruct_or! Ht; subst. }
  destruct (bool_decide_reflect (ty = ty')) as [->|Hn]; [apply Z.eqb_refl|by apply Z.eqb_neq].
Qed.
